(* ===== verification/_CoqProject ===== *)
-Q . S2P
Prelude.v
Tables.v
GoStr.v
Sha256.v
JobToken.v
Store.v
JobStore.v
HttpUtil.v
Middleware.v
AuthLimit.v
JobService.v
Callback.v
JobEffects.v
JobSystem.v
JobProps.v
AccountStore.v
ContextStore.v
ApiWf.v
Scope.v
RepoApi.v
OrgApi.v
Services.v
ContextApi.v
KeysApi.v
GithubApi.v
Worker.v
Poller.v
QueueLiveness.v
WorkerSystem.v
GoCodec.v
Config.v
AuthModels.v
AuthStore.v
AuthOrgStore.v
AuthService.v
AuthSession.v
AuthMfa.v
AuthOauth.v
AuthOrgs.v
AuthAdmin.v
Dispatcher.v
Router.v
AuthRoutes.v
AuthFrame.v
AuthWf.v
AuthTokens.v
AuthLogin.v
AuthWebhooks.v
AuthExamples.v
AuthProps.v
AuthFindings.v
AIStream.v
ApiRoutes.v
ApiInvariant.v
Startup.v
