(* ===== verification/Prelude.v ===== *)
(** Zagforge: a verification development.

    Zagforge builds context snapshots of GitHub repositories.  A push webhook
    reaches the API service, which queues a job; a worker claims the job (or is
    handed it by Cloud Tasks), calls the API back to start it, clones the
    repository, runs the [zigzag] binary, stores its report in a bucket and
    calls the API back with the result, which the API records together with a
    snapshot row.  A watchdog fails jobs that run too long.  Around this
    pipeline the API serves reads of repositories, jobs and snapshots,
    organizations and memberships, accounts, keys, context tokens, the context
    documents themselves, uploads by the CLI and a query console.  The auth
    service logs users in through GitHub or Google, with a second factor where
    they enabled one, issues the tokens the API accepts, rotates refresh tokens,
    and keeps its own organizations, teams, invitations, audit log and webhooks.

    This library models the API service, the worker, the auth service and the
    code they share ([services/api], [services/worker], [services/auth],
    [services/shared/go]) as executable definitions and proves what makes them
    correct.

    ** How code becomes definitions

    A handler [func (h *Handler) F(w, r)] is a function [F] of its decoded
    inputs in the state monad [M] below, over the [World] of Store.v: the
    database (a record of finite maps, one per table), the open transaction,
    the clock, the identifiers still to be drawn, the tasks handed to Cloud
    Tasks, the bucket and the cache.  Early returns are the [catch] branches of
    the [try] notation.  Every statement asks a schedule whether it fails, so
    every error path of the source is a run of the model, and a theorem that
    does not assume [w_faults w = []] holds for every pattern of failures.  A
    query of the generated store is a pure function on the database: its WHERE
    clause is a boolean predicate, its SET list a row update, the constraints of
    the migrations are the errors it returns.  Integers are [Z] with the
    wrap-around of their width written out where the code computes with them;
    instants are microseconds in the database and nanoseconds in Go.  The auth
    service has a database of its own: AuthModels.v defines its tables and its
    world (with the random bytes read and the webhook requests sent) in the same
    way, and the two services meet only in the JWTs.

    What is not under [src/] is a parameter: the UUID and time codecs, the
    struct validator's tags, the JWT library, AES-GCM, bcrypt, TOTP, the OAuth2
    client, IP addresses, JSON, URLs, the circuit breaker library, the env and
    godotenv libraries, chi's middlewares, the collation of the database,
    [git], [zigzag] and the network.  Where the code relies on one of them, its documented law is a
    field of the type class that introduces it ([UUIDCodec], [Validator],
    [Encryption.AEAD], [TimeCodec], [ApiJson], [Token.Jwt],
    [MfaSvc.Bcrypt], ...), and a closed instance shows that the laws can hold.
    SHA-256, HMAC, Base64 and the decimal formats are not parameters: they are
    defined and evaluated.

    ** The files

    - Prelude.v: results, the state monad and its notation, HTTP responses,
      finite tables and their orderings, tactics and hint database [zag].
    - Tables.v: the constraints of a migration as predicates on tables, and
      how inserting, updating and deleting rows keeps them.
    - GoStr.v: Go's string and integer functions ([CutPrefix], [SplitN],
      [ParseInt], [FormatInt], [Atoi], widths).
    - Sha256.v: SHA-256, HMAC-SHA256 and hexadecimal text; the constants are
      computed from the primes.
    - JobToken.v: [shared/go/jobtoken], [middleware/jobtoken],
      [middleware/watchdogauth].
    - Store.v: rows of [shared/go/store/models.go], the world, statements and
      transactions, and the tactics [go_run] (symbolic execution of a handler)
      and [go_eval] (evaluation of a run without failures).
    - JobStore.v, AccountStore.v, ContextStore.v: the queries of
      [shared/go/store/*.sql.go].
    - HttpUtil.v: [shared/go/httputil], [internal/validate].
    - Middleware.v: [middleware/bodylimit], [contenttype], [ratelimit] and the
      shared [zaprecoverer].  AuthLimit.v: the rate limiter of the auth service,
      shown to agree with the API's.
    - JobService.v: webhooks and pushes ([handler/webhook], [service/job.go],
      [engine], [provider/github]).
    - Callback.v: [handler/callback] (start, complete) and [handler/watchdog].
    - JobEffects.v: every handler of the pipeline takes one of a few abstract
      transitions of the job tables.
    - JobSystem.v: the interleaving of all of them as a step relation, the
      abstract life of a job, the invariant of the tables.
    - JobProps.v: the theorems on the pipeline.
    - ApiWf.v: the constraints of all tables of the API's migrations, and that
      every statement of the store keeps them.
    - Scope.v: [middleware/auth], [middleware/clitoken], [authclaims],
      [handler/helpers.go].
    - RepoApi.v: [handler/api].  OrgApi.v: [handler/org].
    - Services.v: [service/encryption], [service/assembly],
      [cache/contextcache], [shared/go/storage].
    - ContextApi.v: [handler/contexttokens], [handler/contexturl],
      [handler/upload], [handler/query].
    - KeysApi.v: [handler/aikeys], [handler/clikeys], [handler/account].
    - GithubApi.v: [provider/github/client.go], [shared/go/circuitbreaker].
    - Worker.v: [shared/go/runner], and of [services/worker] the callback
      client, the executor and the Cloud Tasks handler.
    - Poller.v: the poller, alone and as a fleet on one database.
    - QueueLiveness.v: progress of the queue under that fleet.
    - WorkerSystem.v: the worker against the API's internal routes.
    - GoCodec.v: Base64, host and port, case folding.
    - Config.v: [config] of the API, the auth service and the worker.
    - AuthModels.v, AuthStore.v, AuthOrgStore.v: rows, world and every statement
      of [services/auth/internal/store], with the constraints, cascades and
      triggers of its migrations; the frame conditions [keeps R c] of handlers.
    - AuthService.v: [service/token], [middleware/auth], [service/session],
      [service/audit], [service/security], [service/mfa], [service/encryption],
      [role], [validate] and the guards of [handler/helpers.go].
    - AuthSession.v, AuthMfa.v, AuthOauth.v: login, second factor, sessions,
      providers.  AuthOrgs.v: organizations, teams, invitations.  AuthAdmin.v:
      profiles, identities, administration, audit, webhooks.
    - Dispatcher.v: [service/webhook/dispatcher.go].
    - Router.v: [shared/go/router].  AuthRoutes.v: the routing table of the auth
      service, its middlewares, and the service as a transition system.
    - AuthFrame.v: the interfaces [GroupKeeps] and [StoreKeeps], what a relation
      between databases needs of each statement, and that then every request
      and every run respects it.
    - AuthWf.v: the well-formed databases.  AuthTokens.v: how refresh tokens
      end.  AuthLogin.v: which requests create sessions.  AuthWebhooks.v: the
      deliveries over time.  Each instantiates the interface of AuthFrame.v.
    - AuthExamples.v: instances of the libraries and a run from an empty
      database; AuthProps.v: the theorems; AuthFindings.v: where the code does
      not do what it means to.
    - AIStream.v: [service/aiprovider] with its four clients and [sseutil], the
      streaming part of [handler/query], [handler/health],
      [handler/githubauth].
    - ApiRoutes.v: [internal/routes], the routing table of the API with every
      middleware group.  ApiInvariant.v: every request, push, claim and passage
      of time preserves the constraints of ApiWf.v.
    - Startup.v: [cmd] of the three processes with [dbpool], [logger] and the
      clients they open: start-up, wiring, serving and clean-up.

    ** What the theorems show

    - Job tokens (C1 to C3): exactly the signatures of the job under the
      current or previous key are accepted, until they expire; they are bound
      to their job.
    - The query console (C4): it asks a supported provider with the key and the
      context of the caller's organization and relays exactly the texts of the
      provider's stream, then the end mark.
    - The pipeline (C5 to C9, C11 to C15, C17): every interleaving of pushes, claims,
      callbacks, watchdog runs and uploads, with arbitrary failures, preserves
      the invariant of the tables (one queued job per branch, timestamps that
      agree with the status, one snapshot per commit, snapshots only of
      succeeded jobs); every handler refines the life of a job; terminal jobs
      are final; and per operation, what it does on every branch, that failed
      transactions leave nothing behind, that reports are idempotent, that
      callbacks touch only the job of their token.
    - The API as a whole (C16, C18): requests served through the routes and
      claims of the worker keep the constraints of all tables and leave no
      transaction open; a request changes the database only with the credential
      its path asks for.
    - Rate limiting (C19): the sorted-set pipeline never grants more than the
      limit in any window.
    - Reads (C20, C21): they stay inside the caller's organization; following
      the cursors lists every job once.
    - Organizations (C22, C23): they keep an owner, and memberships change only
      by callers whose role allows it.
    - Services (C24, C25): encryption round trip; assembly writes the document
      or names the first missing file.
    - Context URLs, tokens, uploads (C26 to C28): access control by visibility,
      tokens are found by their hash, uploads stay in the organization.
    - Keys (C29): the life of a CLI key.
    - Progress (C30): no queued job starves, whatever else is pushed.
    - GitHub (C31): the pagination loop ends and returns everything.
    - Worker (C32 to C35): pollers never exceed their slots and never dispatch
      a job twice; a poll batch refines the fleet; the executor starts and
      reports at most once and reports success only with the report stored;
      and, end to end, an executed job leaves the running state in the API's
      database.
    - Both services (C10): their JWT middlewares are equivalent, and access
      tokens are accepted by both exactly while they live.
    - The auth service (C36 to C40): reachable databases are well-formed; an
      exchanged or revoked refresh token is never accepted again; every webhook
      delivery is settled within five attempts; accepted invitations respect the
      member limit; a session needs the factors its user has enabled.

    Lemmas named after what they show (for example
    [push_lost_when_claimed_meanwhile], [admin_removes_an_owner],
    [challenge_token_is_an_access_token]) record where the code differs from its
    comments or from what it means to do.

    ** Fuel and bounds

    Three definitions take fuel: [copy_rows] of AuthStore.v, where one unit more
    than there are rows is enough ([copy_rows_all]); [list_pages] of GithubApi.v, where C31
    shows that one unit per hundred repositories (and one for an empty list) is
    enough and [list_repos_can_run_forever] that without a truthful server none
    is; and [walk] of RepoApi.v, the client that follows cursors, where C21
    shows that one page more than there are jobs is enough.  C38 counts delivery
    rounds, one more than five per delivery.  Counters of the
    poller are bounded by its concurrency and do not wrap; C33 states the bound.

    QueueLiveness.v counts answered claims, one per queued job that is not
    younger.

    ** What is not modelled

    The test keys and the struct that bundles a pool with its queries have no
    behaviour.  Of the processes, what the libraries do behind their calls is a
    parameter: sockets and TLS of the HTTP servers, the connections inside the
    pools, log output, the printed route documentation.  Handlers of the model
    do not panic; the recoverer is modelled on an arbitrary handler that may.
    In AuthRoutes.v the verdict of the rate limiter is a parameter; AuthLimit.v
    models how it is reached.  A delivery of the dispatcher whose update fails
    is a fault of the schedule, also when the database refuses a response body
    that is not text. *)

From Stdlib Require Export ZArith Lia Ascii.
From stdpp Require Export sorting base tactics option gmap strings numbers list.

#[global] Open Scope Z_scope.

(** ** Notation scope of the development *)
Declare Scope go_scope.
Delimit Scope go_scope with go.
#[global] Open Scope go_scope.

(** ** Errors as values

    A Go call [v, err := f()] is a [result]: either the value or the error. *)
Inductive result (E A : Type) : Type :=
| Ok (a : A)
| Err (e : E).

Arguments Ok {E A} a.
Arguments Err {E A} e.

(** The errors of the PostgreSQL driver that the code tells apart
    ([pgx.ErrNoRows], the SQLSTATE classes of constraint violations) and
    [ErrConn] for every other failure of a statement. *)
Inductive DBError : Set :=
| ErrNoRows
| ErrUniqueViolation
| ErrCheckViolation
| ErrForeignKeyViolation
| ErrNotNullViolation
| ErrConn.

#[export] Instance DBError_eq_dec : EqDecision DBError.
Proof. solve_decision. Defined.

Definition is_ok {E A} (r : result E A) : bool :=
  match r with Ok _ => true | Err _ => false end.

Definition result_of_option {E A} (e : E) (o : option A) : result E A :=
  match o with Some a => Ok a | None => Err e end.

(** ** State passing

    [M S A] is the type of a handler: it reads and writes the state [S] and
    returns an [A].  [try x <- c catch e => h ;; k] is Go's
    [x, err := c; if err != nil { h; return }; k]. *)
Definition M (S A : Type) : Type := S -> A * S.

Definition ret {S A} (a : A) : M S A := fun s => (a, s).

Definition bind {S A B} (c : M S A) (k : A -> M S B) : M S B :=
  fun s => let '(a, s') := c s in k a s'.

Definition gets {S A} (f : S -> A) : M S A := fun s => (f s, s).

Definition modify {S} (f : S -> S) : M S unit := fun s => (tt, f s).

Notation "x <- c ;; k" := (bind c (fun x => k))
  (at level 100, c at next level, right associativity) : go_scope.
Notation "'do' c ;; k" := (bind c (fun _ => k))
  (at level 100, c at level 99, right associativity) : go_scope.
Notation "'try' x <- c 'catch' e => h ;; k" :=
  (bind c (fun r => match r with Ok x => k | Err e => h end))
  (at level 100, x name, c at level 99, e name, h at level 99, right associativity) : go_scope.

(** [for _, x := range xs { body }] for a body without early exit. *)
Fixpoint for_range {S A} (xs : list A) (body : A -> M S unit) : M S unit :=
  match xs with
  | [] => ret tt
  | x :: xs => do body x ;; for_range xs body
  end.

(** ** HTTP responses

    [Reply status body] is what [httputil.WriteJSON]/[OkResponse]/
    [w.WriteHeader] send, [Fail status msg] is [httputil.ErrResponse] or
    [http.Error]. *)
Inductive Resp (A : Type) : Type :=
| Reply (status : Z) (body : A)
| Fail (status : Z) (msg : string).

Arguments Reply {A} status body.
Arguments Fail {A} status msg.

Definition resp_status {A} (r : Resp A) : Z :=
  match r with Reply s _ => s | Fail s _ => s end.

Definition StatusOK : Z := 200.
Definition StatusCreated : Z := 201.
Definition StatusAccepted : Z := 202.
Definition StatusNoContent : Z := 204.
Definition StatusBadRequest : Z := 400.
Definition StatusUnauthorized : Z := 401.
Definition StatusForbidden : Z := 403.
Definition StatusNotFound : Z := 404.
Definition StatusConflict : Z := 409.
Definition StatusGone : Z := 410.
Definition StatusRequestEntityTooLarge : Z := 413.
Definition StatusUnsupportedMediaType : Z := 415.
Definition StatusUnprocessableEntity : Z := 422.
Definition StatusTooManyRequests : Z := 429.
Definition StatusInternalServerError : Z := 500.

(** ** Identifiers

    A valid [pgtype.UUID] is a 128-bit number; a [pgtype.UUID] that may be
    NULL ([Valid = false]) is an [option uuid], and a nullable text column
    ([pgtype.Text]) an [option string]. *)
Abbreviation uuid := N (only parsing).

(** The text codec of [pgtype.UUID] ([Scan] on a string, [String]) is library
    code: the development is proved for every codec in which scanning the
    text of an identifier gives it back. *)
Class UUIDCodec := {
  uuid_scan : string -> option uuid;
  uuid_text : uuid -> string;
  uuid_scan_text : forall u, uuid_scan (uuid_text u) = Some u
}.

(** [u.String()]: the empty string when the UUID is NULL. *)
Definition uuid_String `{UUIDCodec} (u : option uuid) : string :=
  match u with Some u => uuid_text u | None => "" end.

(** ** Finite tables *)

(** The rows of a table that satisfy [p], as a list. *)
Definition rows {A} (t : gmap N A) : list A := (map_to_list t).*2.

Definition select {A} (p : A -> bool) (t : gmap N A) : list A :=
  filter (fun a => p a = true) (rows t).

(** [SELECT ... WHERE p LIMIT 1] for a query that returns one row. *)
Definition find_row {A} (p : A -> bool) (t : gmap N A) : option A :=
  head (select p t).

Definition any_row {A} (p : A -> bool) (t : gmap N A) : bool :=
  match select p t with [] => false | _ => true end.

(** [ORDER BY key], ascending or descending; ties stay in table order. *)
Definition key_le {A} (key : A -> Z) (a b : A) : Prop := key a <= key b.

#[export] Instance key_le_dec {A} (key : A -> Z) : RelDecision (key_le key).
Proof. unfold key_le. intros a b. apply _. Defined.

#[export] Instance key_le_trans {A} (key : A -> Z) : Transitive (key_le key).
Proof. unfold key_le. intros x y z. lia. Qed.

#[export] Instance key_le_total {A} (key : A -> Z) : Total (key_le key).
Proof. unfold key_le. intros x y. lia. Qed.

Definition order_asc {A} (key : A -> Z) (l : list A) : list A :=
  merge_sort (key_le key) l.

Definition order_desc {A} (key : A -> Z) (l : list A) : list A :=
  merge_sort (key_le (fun a => - key a)) l.

(** [DELETE FROM t WHERE p] *)
Definition delete_where {A} (p : A -> bool) (t : gmap N A) : gmap N A :=
  filter (fun e => p e.2 = false) t.

(** A foreign key that may be NULL. *)
Definition fk_ok {A} (t : gmap N A) (k : option uuid) : bool :=
  match k with None => true | Some k => bool_decide (is_Some (t !! k)) end.

(** The order of [ORDER BY] on a text column is the collation of the database,
    which is not part of the program. *)
Class Collation := {
  text_lt : string -> string -> bool;
  text_lt_irrefl : forall a, text_lt a a = false;
  text_lt_trans : forall a b c, text_lt a b = true -> text_lt b c = true -> text_lt a c = true;
  text_lt_total : forall a b, text_lt a b = true \/ a = b \/ text_lt b a = true
}.

Section TextOrder.
Context `{Collation}.

Definition text_le {A} (key : A -> string) (a b : A) : Prop := text_lt (key b) (key a) = false.

#[export] Instance text_le_dec {A} (key : A -> string) : RelDecision (text_le key).
Proof. unfold text_le. intros a b. apply _. Defined.

Definition order_text {A} (key : A -> string) (l : list A) : list A := merge_sort (text_le key) l.

End TextOrder.

(** * Tactics and hint databases *)

Create HintDb zag discriminated.

(** Case analysis on the scrutinees of a handler, with the equations kept. *)
Ltac go_step :=
  match goal with
  | H : context [match ?x with _ => _ end] |- _ =>
      lazymatch x with context [match _ with _ => _ end] => fail | _ => idtac end;
      destruct x eqn:?; simplify_eq/=
  | |- context [match ?x with _ => _ end] =>
      lazymatch x with context [match _ with _ => _ end] => fail | _ => idtac end;
      destruct x eqn:?; simplify_eq/=
  end.
Ltac go_cases := simplify_eq/=; repeat go_step.

(** * Lemmas on handlers *)

(** One step of a handler, backwards and forwards. *)
Lemma bind_inv {S A B} (c : M S A) (k : A -> M S B) s b s' :
  bind c k s = (b, s') -> exists a s1, c s = (a, s1) /\ k a s1 = (b, s').
Proof. unfold bind. destruct (c s) as [a s1]. eauto. Qed.

Lemma bind_eval {S A B} (c : M S A) (k : A -> M S B) s a s1 :
  c s = (a, s1) -> bind c k s = k a s1.
Proof. unfold bind. by intros ->. Qed.

(** * Lemmas on tables *)

Lemma elem_of_rows {A} (t : gmap N A) a :
  a ∈ rows t <-> exists k, t !! k = Some a.
Proof.
  unfold rows. rewrite list_elem_of_fmap. split.
  - intros [[k b] [-> Hin]]. exists k. by apply elem_of_map_to_list.
  - intros [k Hk]. exists (k, a). split; [done|]. by apply elem_of_map_to_list.
Qed.

Lemma elem_of_select {A} (p : A -> bool) (t : gmap N A) a :
  a ∈ select p t <-> p a = true /\ exists k, t !! k = Some a.
Proof. unfold select. by rewrite list_elem_of_filter, elem_of_rows. Qed.

Lemma find_row_Some {A} (p : A -> bool) (t : gmap N A) a :
  find_row p t = Some a -> p a = true /\ exists k, t !! k = Some a.
Proof.
  unfold find_row. intros H. apply elem_of_select.
  destruct (select p t) as [|b l]; [done|]. simplify_eq/=. by left.
Qed.

Lemma find_row_None {A} (p : A -> bool) (t : gmap N A) :
  find_row p t = None <-> forall k a, t !! k = Some a -> p a = false.
Proof.
  unfold find_row. split.
  - intros H k a Hk. destruct (p a) eqn:Hp; [|done].
    assert (a ∈ select p t) as Hin by (apply elem_of_select; eauto).
    destruct (select p t); [by apply not_elem_of_nil in Hin|done].
  - intros H. destruct (select p t) as [|b l] eqn:Hs; [done|].
    assert (b ∈ select p t) as Hin by (rewrite Hs; left).
    apply elem_of_select in Hin as [Hp [k Hk]]. by rewrite (H k b Hk) in Hp.
Qed.

Lemma any_row_false {A} (p : A -> bool) (t : gmap N A) :
  any_row p t = false <-> forall k a, t !! k = Some a -> p a = false.
Proof.
  rewrite <-find_row_None. unfold any_row, find_row.
  by destruct (select p t).
Qed.

Lemma any_row_true {A} (p : A -> bool) (t : gmap N A) :
  any_row p t = true <-> exists k a, t !! k = Some a /\ p a = true.
Proof.
  split.
  - unfold any_row. destruct (select p t) as [|b l] eqn:Hs; [done|intros _].
    assert (b ∈ select p t) as Hin by (rewrite Hs; left).
    apply elem_of_select in Hin as [Hp [k Hk]]. eauto.
  - intros (k & a & Hk & Hp). destruct (any_row p t) eqn:E; [done|].
    rewrite any_row_false in E. by rewrite (E k a Hk) in Hp.
Qed.

(** A query by a unique key finds exactly the row with that key. *)
Lemma find_row_unique {A} (p : A -> bool) (t : gmap N A) k a :
  t !! k = Some a -> p a = true ->
  (forall k' a', t !! k' = Some a' -> p a' = true -> k' = k) ->
  find_row p t = Some a.
Proof.
  intros Hk Hp Hu. destruct (find_row p t) as [b|] eqn:E.
  - apply find_row_Some in E as [Hb [k' Hk']]. assert (k' = k) by eauto. congruence.
  - rewrite find_row_None in E. by rewrite (E k a Hk) in Hp.
Qed.

(** A row just inserted is the only one that satisfies [p]. *)
Lemma find_row_insert {A} (p : A -> bool) (t : gmap N A) k a :
  p a = true -> (forall k' a', t !! k' = Some a' -> p a' = true -> k' = k) -> find_row p (<[k := a]> t) = Some a.
Proof.
  intros Hp Hu. apply (find_row_unique _ _ k); [by rewrite lookup_insert_eq|done|].
  intros k' a' Hk' Hp'. destruct (decide (k' = k)) as [|Hne]; [done|].
  rewrite lookup_insert_ne in Hk' by done. eauto.
Qed.

Lemma order_asc_perm {A} (key : A -> Z) l : order_asc key l ≡ₚ l.
Proof. apply merge_sort_Permutation. Qed.

Lemma order_desc_perm {A} (key : A -> Z) l : order_desc key l ≡ₚ l.
Proof. apply merge_sort_Permutation. Qed.

Lemma order_asc_sorted {A} (key : A -> Z) l :
  StronglySorted (fun a b => key a <= key b) (order_asc key l).
Proof.
  apply (StronglySorted_merge_sort (key_le key)).
Qed.

Lemma order_desc_sorted {A} (key : A -> Z) l :
  StronglySorted (fun a b => - key a <= - key b) (order_desc key l).
Proof. apply (order_asc_sorted (fun a => - key a)). Qed.

(** The first row of an ascending query has the least key. *)
Lemma order_asc_head {A} (key : A -> Z) l a b :
  head (order_asc key l) = Some a -> b ∈ l -> key a <= key b.
Proof.
  intros Hh Hb. rewrite <-(order_asc_perm key l) in Hb.
  pose proof (order_asc_sorted key l) as Hs.
  destruct (order_asc key l) as [|x xs]; simplify_eq/=.
  apply StronglySorted_inv in Hs as [_ Hs].
  apply elem_of_cons in Hb as [->|Hb]; [reflexivity|].
  rewrite Forall_forall in Hs. by apply Hs.
Qed.

Lemma head_order_asc_elem {A} (key : A -> Z) l a :
  head (order_asc key l) = Some a -> a ∈ l.
Proof.
  intros H. rewrite <-(order_asc_perm key l).
  destruct (order_asc key l); simplify_eq/=. by left.
Qed.

Lemma head_order_desc_elem {A} (key : A -> Z) l a :
  head (order_desc key l) = Some a -> a ∈ l.
Proof.
  intros H. rewrite <-(order_desc_perm key l).
  destruct (order_desc key l); simplify_eq/=. by left.
Qed.

Lemma order_desc_head {A} (key : A -> Z) l a b :
  head (order_desc key l) = Some a -> b ∈ l -> key b <= key a.
Proof.
  intros Hh Hb. pose proof (order_asc_head (fun a => - key a) l a b Hh Hb) as H. simpl in H. lia.
Qed.

Lemma head_order_asc_None {A} (key : A -> Z) l :
  head (order_asc key l) = None -> l = [].
Proof.
  intros H. destruct (order_asc key l) eqn:E; [|done].
  pose proof (order_asc_perm key l) as Hp. rewrite E in Hp.
  by apply Permutation_nil in Hp.
Qed.

#[export] Hint Resolve find_row_Some order_asc_perm order_desc_perm : zag.

Lemma delete_where_Some {A} (p : A -> bool) (t : gmap N A) k a :
  delete_where p t !! k = Some a <-> t !! k = Some a /\ p a = false.
Proof. unfold delete_where. by rewrite map_lookup_filter_Some. Qed.

Lemma elem_of_order_text `{Collation} {A} (key : A -> string) (l : list A) x : x ∈ order_text key l -> x ∈ l.
Proof. unfold order_text. by rewrite merge_sort_Permutation. Qed.
