(* ===== verification/Tables.v ===== *)
(** Tables and their constraints: the vocabulary both databases are specified
    in.  A table is a finite map from identifiers to rows; a constraint of a
    migration (primary key, UNIQUE, foreign key, CHECK) is a predicate on
    tables, with the lemmas that inserting, updating and deleting rows keep it. *)

From S2P Require Import Prelude.

(** * Definitions *)

(** [UPDATE ... SET f WHERE p] *)
Definition update_where {A} (p : A -> bool) (f : A -> A) (t : gmap N A) : gmap N A :=
  (fun a => if p a then f a else a) <$> t.

(** Rows are stored under their identifier. *)
Definition keyed {A} (id : A -> N) (t : gmap N A) : Prop := forall k a, t !! k = Some a -> id a = k.

(** A UNIQUE constraint. *)
Definition uniq {A B} (key : A -> B) (t : gmap N A) : Prop :=
  forall k1 k2 a1 a2, t !! k1 = Some a1 -> t !! k2 = Some a2 -> key a1 = key a2 -> k1 = k2.

(** A foreign key, and one that may be NULL. *)
Definition refs {A B} (f : A -> N) (t : gmap N A) (u : gmap N B) : Prop :=
  forall k a, t !! k = Some a -> is_Some (u !! f a).
Definition orefs {A B} (f : A -> option N) (t : gmap N A) (u : gmap N B) : Prop :=
  forall k a i, t !! k = Some a -> f a = Some i -> is_Some (u !! i).

(** A CHECK constraint. *)
Definition each {A} (P : A -> Prop) (t : gmap N A) : Prop := forall k a, t !! k = Some a -> P a.

(** A UNIQUE index over the rows where the column is not NULL. *)
Definition ouniq {A B} (key : A -> option B) (t : gmap N A) : Prop :=
  forall k1 k2 a1 a2 x, t !! k1 = Some a1 -> t !! k2 = Some a2 -> key a1 = Some x -> key a2 = Some x -> k1 = k2.

(** * Lemmas *)

Lemma update_where_lookup {A} (p : A -> bool) f (t : gmap N A) k :
  update_where p f t !! k = (fun a => if p a then f a else a) <$> t !! k.
Proof. unfold update_where. by rewrite lookup_fmap. Qed.

Lemma update_where_Some {A} (p : A -> bool) f (t : gmap N A) k a :
  update_where p f t !! k = Some a <-> exists b, t !! k = Some b /\ a = if p b then f b else b.
Proof. rewrite update_where_lookup, fmap_Some. naive_solver. Qed.

(** ** The constraints under the store's operations *)
Section Tables.
Context {A : Type}.
Implicit Types (t : gmap N A).

Lemma keyed_insert (id : A -> N) t k a : id a = k -> keyed id t -> keyed id (<[k := a]> t).
Proof. intros Ha Ht k' b. rewrite lookup_insert_Some. intros [[-> ->]|[_ Hb]]; [done|by apply Ht]. Qed.

Lemma keyed_update (id : A -> N) p f t :
  (forall a, id (f a) = id a) -> keyed id t -> keyed id (update_where p f t).
Proof.
  intros Hf Ht k a. rewrite update_where_Some. intros (b & Hb & ->).
  destruct (p b); rewrite ?Hf; by apply Ht.
Qed.

Lemma keyed_delete (id : A -> N) p t : keyed id t -> keyed id (delete_where p t).
Proof. intros Ht k a. rewrite delete_where_Some. intros [Ha _]. by apply Ht. Qed.

Lemma keyed_delete_key (id : A -> N) k t : keyed id t -> keyed id (delete k t).
Proof. intros Ht k' a. rewrite lookup_delete_Some. intros [_ Ha]. by apply Ht. Qed.

Lemma each_insert (P : A -> Prop) t k a : P a -> each P t -> each P (<[k := a]> t).
Proof. intros Ha Ht k' b. rewrite lookup_insert_Some. intros [[_ ->]|[_ Hb]]; [done|by eapply Ht]. Qed.

Lemma each_update (P : A -> Prop) p f t :
  (forall k a, t !! k = Some a -> P a -> p a = true -> P (f a)) -> each P t -> each P (update_where p f t).
Proof.
  intros Hf Ht k a. rewrite update_where_Some. intros (b & Hb & ->).
  destruct (p b) eqn:E; [eapply Hf; [done|by eapply Ht|done]|by eapply Ht].
Qed.

Lemma each_delete (P : A -> Prop) p t : each P t -> each P (delete_where p t).
Proof. intros Ht k a. rewrite delete_where_Some. intros [Ha _]. by eapply Ht. Qed.

Lemma each_delete_key (P : A -> Prop) k t : each P t -> each P (delete k t).
Proof. intros Ht k' a. rewrite lookup_delete_Some. intros [_ Ha]. by eapply Ht. Qed.

Lemma uniq_insert {B} (key : A -> B) t k a :
  (forall k' b, t !! k' = Some b -> key b = key a -> k' = k) -> uniq key t -> uniq key (<[k := a]> t).
Proof.
  intros Ha Ht k1 k2 a1 a2. rewrite !lookup_insert_Some.
  intros [[<- <-]|[N1 H1]] [[<- <-]|[N2 H2]] He; [done|by symmetry; eapply Ha|by eapply Ha|by eapply Ht].
Qed.

(** A new row, with the statement's check that its key is free. *)
Lemma uniq_insert_new {B} (key : A -> B) (p : A -> bool) t k a :
  any_row p t = false -> (forall b, key b = key a -> p b = true) -> uniq key t -> uniq key (<[k := a]> t).
Proof.
  intros Hp Hk Ht. apply uniq_insert; [|done]. intros k' b Hb He. rewrite any_row_false in Hp.
  specialize (Hk b He). by rewrite (Hp _ _ Hb) in Hk.
Qed.

(** A changed row that keeps its key. *)
Lemma uniq_insert_same {B} (key : A -> B) t k r a :
  t !! k = Some r -> key a = key r -> uniq key t -> uniq key (<[k := a]> t).
Proof.
  intros Hr He Ht. apply uniq_insert; [|done]. intros k' b Hb E. eapply Ht; [done..|congruence].
Qed.

Lemma uniq_update {B} (key : A -> B) p f t :
  (forall a, key (f a) = key a) -> uniq key t -> uniq key (update_where p f t).
Proof.
  intros Hf Ht k1 k2 a1 a2. rewrite !update_where_Some. intros (b1 & H1 & ->) (b2 & H2 & ->) He.
  eapply Ht; [done..|]. destruct (p b1), (p b2); rewrite ?Hf in He; done.
Qed.

Lemma uniq_delete {B} (key : A -> B) p t : uniq key t -> uniq key (delete_where p t).
Proof.
  intros Ht k1 k2 a1 a2. rewrite !delete_where_Some. intros [H1 _] [H2 _]. by eapply Ht.
Qed.

Lemma uniq_delete_key {B} (key : A -> B) k t : uniq key t -> uniq key (delete k t).
Proof. intros Ht k1 k2 a1 a2. rewrite !lookup_delete_Some. intros [_ H1] [_ H2]. by eapply Ht. Qed.

Section Refs.
Context {B : Type}.
Implicit Types (u : gmap N B).

Lemma refs_insert (f : A -> N) t u k a : is_Some (u !! f a) -> refs f t u -> refs f (<[k := a]> t) u.
Proof. intros Ha Ht. by apply each_insert. Qed.

Lemma refs_update (f : A -> N) p g t u : (forall a, f (g a) = f a) -> refs f t u -> refs f (update_where p g t) u.
Proof. intros Hf Ht. apply each_update; [|done]. intros k a. by rewrite Hf. Qed.

Lemma refs_delete (f : A -> N) p t u : refs f t u -> refs f (delete_where p t) u.
Proof. apply each_delete. Qed.

Lemma refs_target_insert (f : A -> N) t u k b : refs f t u -> refs f t (<[k := b]> u).
Proof. intros Ht k' a Ha. apply Ht in Ha. by apply lookup_insert_is_Some'; right. Qed.

Lemma refs_target_update (f : A -> N) p g t u : refs f t u -> refs f t (update_where p g u).
Proof. intros Ht k a Ha. rewrite update_where_lookup, fmap_is_Some. by eapply Ht. Qed.

(** ON DELETE CASCADE. *)
Lemma refs_cascade (f : A -> N) (p : A -> bool) (q : B -> bool) t u :
  (forall k a b, t !! k = Some a -> u !! f a = Some b -> q b = true -> p a = true) ->
  refs f t u -> refs f (delete_where p t) (delete_where q u).
Proof.
  intros Hp Ht k a. rewrite delete_where_Some. intros [Ha Hpa]. destruct (Ht _ _ Ha) as [b Hb].
  exists b. apply delete_where_Some. split; [done|]. destruct (q b) eqn:E; [|done].
  by rewrite (Hp _ _ _ Ha Hb E) in Hpa.
Qed.

Lemma orefs_insert (f : A -> option N) t u k a :
  (forall i, f a = Some i -> is_Some (u !! i)) -> orefs f t u -> orefs f (<[k := a]> t) u.
Proof.
  intros Ha Ht k' b i. rewrite lookup_insert_Some. intros [[_ <-]|[_ Hb]]; [apply Ha|by eapply Ht].
Qed.

Lemma orefs_update (f : A -> option N) p g t u :
  (forall a, f (g a) = f a) -> orefs f t u -> orefs f (update_where p g t) u.
Proof.
  intros Hf Ht k a i. rewrite update_where_Some. intros (b & Hb & ->).
  destruct (p b); rewrite ?Hf; by eapply Ht.
Qed.

Lemma orefs_delete (f : A -> option N) p t u : orefs f t u -> orefs f (delete_where p t) u.
Proof. intros Ht k a i. rewrite delete_where_Some. intros [Ha _]. by eapply Ht. Qed.

Lemma orefs_target_insert (f : A -> option N) t u k b : orefs f t u -> orefs f t (<[k := b]> u).
Proof. intros Ht k' a i Ha Hi. apply lookup_insert_is_Some'; right. by eapply Ht. Qed.

Lemma orefs_target_update (f : A -> option N) p g t u : orefs f t u -> orefs f t (update_where p g u).
Proof. intros Ht k a i Ha Hi. rewrite update_where_lookup, fmap_is_Some. by eapply Ht. Qed.

(** ON DELETE SET NULL. *)
Lemma orefs_set_null (f : A -> option N) (p : A -> bool) g (q : B -> bool) t u :
  (forall a, f (g a) = None) ->
  (forall k a i b, t !! k = Some a -> f a = Some i -> u !! i = Some b -> q b = true -> p a = true) ->
  orefs f t u -> orefs f (update_where p g t) (delete_where q u).
Proof.
  intros Hg Hp Ht k a i. rewrite update_where_Some. intros (b & Hb & ->) Hi.
  destruct (p b) eqn:E; [by rewrite Hg in Hi|]. destruct (Ht _ _ _ Hb Hi) as [c Hc].
  exists c. apply delete_where_Some. split; [done|]. destruct (q c) eqn:Eq; [|done].
  by rewrite (Hp _ _ _ _ Hb Hi Hc Eq) in E.
Qed.

(** A row nothing refers to can go. *)
Lemma refs_target_delete_key (f : A -> N) (i : N) t u :
  (forall k a, t !! k = Some a -> f a <> i) -> refs f t u -> refs f t (delete i u).
Proof.
  intros Hn Ht k a Ha. destruct (Ht _ _ Ha) as [b Hb]. exists b.
  apply lookup_delete_Some. split; [|done]. intros ->. by eapply Hn.
Qed.

Lemma orefs_target_delete_key (f : A -> option N) (i : N) t u :
  (forall k a, t !! k = Some a -> f a <> Some i) -> orefs f t u -> orefs f t (delete i u).
Proof.
  intros Hn Ht k a j Ha Hj. destruct (Ht _ _ _ Ha Hj) as [b Hb]. exists b.
  apply lookup_delete_Some. split; [|done]. intros ->. by eapply Hn.
Qed.

(** ON DELETE CASCADE from one row. *)
Lemma refs_cascade_key (f : A -> N) (p : A -> bool) (i : N) t u :
  (forall k a, t !! k = Some a -> f a = i -> p a = true) -> refs f t u -> refs f (delete_where p t) (delete i u).
Proof.
  intros Hp Ht. apply refs_target_delete_key; [|by apply refs_delete].
  intros k a. rewrite delete_where_Some. intros [Ha Hpa] E. by rewrite (Hp _ _ Ha E) in Hpa.
Qed.

Lemma orefs_cascade_key (f : A -> option N) (p : A -> bool) (i : N) t u :
  (forall k a, t !! k = Some a -> f a = Some i -> p a = true) -> orefs f t u -> orefs f (delete_where p t) (delete i u).
Proof.
  intros Hp Ht. apply orefs_target_delete_key; [|by apply orefs_delete].
  intros k a. rewrite delete_where_Some. intros [Ha Hpa] E. by rewrite (Hp _ _ Ha E) in Hpa.
Qed.

(** Rows nothing refers to can go. *)
Lemma refs_target_delete (f : A -> N) (q : B -> bool) t u :
  (forall k a b, t !! k = Some a -> u !! f a = Some b -> q b = false) -> refs f t u -> refs f t (delete_where q u).
Proof.
  intros Hq Ht k a Ha. destruct (Ht _ _ Ha) as [b Hb]. exists b. apply delete_where_Some. eauto.
Qed.

Lemma orefs_update_null (f : A -> option N) p g t u :
  (forall a, f (g a) = None) -> orefs f t u -> orefs f (update_where p g t) u.
Proof.
  intros Hg Ht k a i. rewrite update_where_Some. intros (b & Hb & ->).
  destruct (p b); [by rewrite Hg|by eapply Ht].
Qed.

End Refs.
End Tables.

Lemma fk_ok_spec {A} (t : gmap N A) k i : negb (fk_ok t k) = false -> k = Some i -> is_Some (t !! i).
Proof. unfold fk_ok. intros Hf ->. by rewrite negb_false_iff, bool_decide_eq_true in Hf. Qed.

Lemma fk_ok_true {A} (t : gmap N A) k i : fk_ok t k = true -> k = Some i -> is_Some (t !! i).
Proof. intros Hf. apply fk_ok_spec. by rewrite Hf. Qed.

(** ** Rows found by a condition *)

(** A new row, when the statement found no row to update instead. *)
Lemma uniq_insert_absent {A B} (key : A -> B) (p : A -> bool) (t : gmap N A) k a :
  find_row p t = None -> (forall b, key b = key a -> p b = true) -> uniq key t -> uniq key (<[k := a]> t).
Proof.
  intros Hp Hk. apply uniq_insert_new with (p := p); [|done]. apply any_row_false. by apply find_row_None.
Qed.
Lemma find_row_keyed {A} (id : A -> N) p (t : gmap N A) a :
  keyed id t -> find_row p t = Some a -> p a = true /\ t !! id a = Some a.
Proof. intros Hk Hf. apply find_row_Some in Hf as [Hp [k Hl]]. by rewrite (Hk _ _ Hl). Qed.

(** ** Partial indexes *)
Section Partial.
Context {A B : Type} (key : A -> option B).
Implicit Types (t : gmap N A).

Lemma ouniq_insert t k a :
  (forall k' b x, t !! k' = Some b -> key b = Some x -> key a = Some x -> k' = k) -> ouniq key t -> ouniq key (<[k := a]> t).
Proof.
  intros Ha Ht k1 k2 a1 a2 x. rewrite !lookup_insert_Some.
  intros [[<- <-]|[N1 H1]] [[<- <-]|[N2 H2]] E1 E2; [done|by symmetry; eapply Ha|by eapply Ha|by eapply Ht].
Qed.

Lemma ouniq_insert_new (p : A -> bool) t k a :
  any_row p t = false -> (forall b x, key b = Some x -> key a = Some x -> p b = true) -> ouniq key t ->
  ouniq key (<[k := a]> t).
Proof.
  intros Hp Hk. apply ouniq_insert. intros k' b x Hb E1 E2. rewrite any_row_false in Hp.
  specialize (Hp _ _ Hb). by rewrite (Hk _ _ E1 E2) in Hp.
Qed.

Lemma ouniq_insert_same t k r a : t !! k = Some r -> key a = key r -> ouniq key t -> ouniq key (<[k := a]> t).
Proof. intros Hr He Ht. apply ouniq_insert; [|done]. intros k' b x Hb E1 E2. eapply Ht; [done..|congruence]. Qed.

Lemma ouniq_delete p t : ouniq key t -> ouniq key (delete_where p t).
Proof. intros Ht k1 k2 a1 a2 x. rewrite !delete_where_Some. intros [H1 _] [H2 _]. by eapply Ht. Qed.

Lemma ouniq_delete_key k t : ouniq key t -> ouniq key (delete k t).
Proof. intros Ht k1 k2 a1 a2 x. rewrite !lookup_delete_Some. intros [_ H1] [_ H2]. by eapply Ht. Qed.

End Partial.

(** ** Clauses *)

(** A constraint of the tables before a statement is one of the tables after it:
    [row] proves a fact about the row written, [free] that its key is free. *)
Ltac table_clause row free :=
  first
  [ assumption
  | apply keyed_insert; [row|assumption]
  | apply keyed_update; [done|assumption]
  | apply keyed_delete; assumption
  | apply keyed_delete_key; assumption
  | eapply uniq_insert_same; [eassumption|reflexivity|assumption]
  | eapply uniq_insert_new; [eassumption| |assumption]; [cbn; intros ? ?; by apply bool_decide_eq_true_2]
  | eapply uniq_insert_new; [eassumption| |assumption]; [free]
  | apply uniq_update; [done|assumption]
  | apply uniq_delete; assumption
  | apply uniq_delete_key; assumption
  | eapply ouniq_insert_same; [eassumption|reflexivity|assumption]
  | apply ouniq_delete; assumption
  | apply refs_target_insert; assumption
  | apply refs_target_update; assumption
  | apply refs_insert; [row|assumption]
  | apply refs_update; [done|assumption]
  | apply refs_delete; assumption
  | apply orefs_target_insert; assumption
  | apply orefs_target_update; assumption
  | apply orefs_insert; [row|assumption]
  | apply orefs_update; [done|assumption]
  | apply orefs_update_null; [done|assumption]
  | apply orefs_delete; assumption
  | apply each_insert; [row|assumption]
  | apply each_update; [row|assumption]
  | apply each_delete; assumption
  | apply each_delete_key; assumption ].
