(* ===== verification/GoStr.v ===== *)
(** The parts of Go's standard library on strings and integers that the
    modelled code calls: [strings.CutPrefix], [HasPrefix], [TrimPrefix],
    [SplitN(s, ":", 2)], [strconv.ParseInt(s, 10, 64)], [strconv.Atoi] and the
    decimal formatting of [%d]/[strconv.FormatInt], and machine-width
    integers.  A Go [string] is a byte sequence, here a [string] of 8-bit
    characters. *)

From S2P Require Import Prelude.
From Stdlib Require Import DecimalString DecimalZ DecimalN DecimalFacts.

(** * Definitions *)

(** ** Machine-width integers *)
Definition in_int64 (z : Z) : Prop := - 2 ^ 63 <= z < 2 ^ 63.

Definition in_int64b (z : Z) : bool := (- 2 ^ 63 <=? z) && (z <? 2 ^ 63).

(** Two's complement wrap-around of an [int64] / [int32] computation. *)
Definition wrap64 (z : Z) : Z := (z + 2 ^ 63) mod 2 ^ 64 - 2 ^ 63.

Definition wrap32 (z : Z) : Z := (z + 2 ^ 31) mod 2 ^ 32 - 2 ^ 31.

(** ** Prefixes *)

(** [strings.CutPrefix s p]: the rest of [s] after [p], when [p] is a prefix. *)
Fixpoint CutPrefix (s p : string) : option string :=
  match p, s with
  | EmptyString, _ => Some s
  | String c p, String d s => if decide (c = d) then CutPrefix s p else None
  | String _ _, EmptyString => None
  end.

Definition HasPrefix (s p : string) : bool :=
  match CutPrefix s p with Some _ => true | None => false end.

Definition TrimPrefix (s p : string) : string :=
  match CutPrefix s p with Some r => r | None => s end.

(** ** Splitting at the first separator *)

(** [strings.SplitN s sep 2] for a one-character separator: [None] when the
    separator does not occur (one part). *)
Fixpoint SplitN2 (sep : Ascii.ascii) (s : string) : option (string * string) :=
  match s with
  | EmptyString => None
  | String c s =>
      if decide (c = sep) then Some ("", s)
      else match SplitN2 sep s with
           | Some (a, b) => Some (String c a, b)
           | None => None
           end
  end.

Fixpoint has_char (c : Ascii.ascii) (s : string) : bool :=
  match s with
  | EmptyString => false
  | String d s => if decide (d = c) then true else has_char c s
  end.

(** ** Decimal formatting and parsing *)

(** [strconv.FormatInt z 10], [fmt.Sprintf "%d" z]. *)
Definition FormatInt (z : Z) : string := NilZero.string_of_int (Z.to_int z).

(** The digits of an unsigned decimal: [None] unless it is one or more ASCII
    digits. *)
Definition parse_digits (s : string) : option Z :=
  match s with
  | EmptyString => None
  | _ => match NilEmpty.uint_of_string s with
         | Some d => Some (Z.of_uint d)
         | None => None
         end
  end.

(** [strconv.ParseInt s 10 64]: an optional sign, then digits, with a range
    check. *)
Definition ParseInt (s : string) : option Z :=
  let checked o :=
    match o with
    | Some z => if in_int64b z then Some z else None
    | None => None
    end in
  match s with
  | EmptyString => None
  | String c s' =>
      if decide (c = "-"%char) then checked (Z.opp <$> parse_digits s')
      else if decide (c = "+"%char) then checked (parse_digits s')
      else checked (parse_digits s)
  end.

(** [strconv.Atoi] on a 64-bit platform. *)
Definition Atoi (s : string) : option Z := ParseInt s.

(** [len s] of a Go string is its number of bytes. *)
Definition len (s : string) : Z := Z.of_nat (String.length s).

(** ** White space *)

(** [strings.TrimSpace]: the UTF-8 encodings of the white space code points. *)
Definition byte (n : Z) : string := String (Ascii.ascii_of_N (Z.to_N n)) "".

Definition white_space : list string :=
  (byte <$> [0x09; 0x0a; 0x0b; 0x0c; 0x0d; 0x20]) ++
  ((fun b => byte 0xc2 +:+ byte b) <$> [0x85; 0xa0]) ++
  [byte 0xe1 +:+ byte 0x9a +:+ byte 0x80] ++
  ((fun b => byte 0xe2 +:+ byte 0x80 +:+ byte b) <$>
     [0x80; 0x81; 0x82; 0x83; 0x84; 0x85; 0x86; 0x87; 0x88; 0x89; 0x8a; 0xa8; 0xa9; 0xaf]) ++
  [byte 0xe2 +:+ byte 0x81 +:+ byte 0x9f; byte 0xe3 +:+ byte 0x80 +:+ byte 0x80].

(** Drop a white space prefix, as often as there is one. *)
Fixpoint trim_prefixes (ws : list string) (fuel : nat) (s : string) : string :=
  match fuel with
  | O => s
  | S f =>
      match head (omap (CutPrefix s) ws) with
      | Some s' => trim_prefixes ws f s'
      | None => s
      end
  end.

Definition TrimSpace (s : string) : string :=
  let left := trim_prefixes white_space (String.length s) s in
  String.rev (trim_prefixes (String.rev <$> white_space) (String.length left) (String.rev left)).

(** * Lemmas *)

Lemma in_int64b_spec z : in_int64b z = true <-> in_int64 z.
Proof. unfold in_int64b, in_int64. lia. Qed.

Lemma wrap64_id z : in_int64 z -> wrap64 z = z.
Proof. unfold in_int64, wrap64. intros H. rewrite Z.mod_small; lia. Qed.

Lemma wrap32_id z : - 2 ^ 31 <= z < 2 ^ 31 -> wrap32 z = z.
Proof. unfold wrap32. intros H. rewrite Z.mod_small; lia. Qed.

Lemma wrap64_range z : in_int64 (wrap64 z).
Proof.
  unfold in_int64, wrap64. pose proof (Z.mod_pos_bound (z + 2 ^ 63) (2 ^ 64)). lia.
Qed.

Lemma string_cons_app x (a b : string) : String x a +:+ b = String x (a +:+ b).
Proof. reflexivity. Qed.

Lemma string_nil_app (b : string) : "" +:+ b = b.
Proof. reflexivity. Qed.

Create HintDb gostr.
#[export] Hint Rewrite string_cons_app string_nil_app : gostr.

Lemma string_app_assoc (a b c : string) : a +:+ (b +:+ c) = (a +:+ b) +:+ c.
Proof. induction a as [|x a IH]; autorewrite with gostr; by f_equal. Qed.

Lemma string_app_nil_r (a : string) : a +:+ "" = a.
Proof. induction a as [|x a IH]; autorewrite with gostr; by f_equal. Qed.

Lemma length_string_app (a b : string) :
  String.length (a +:+ b) = (String.length a + String.length b)%nat.
Proof. induction a as [|x a IH]; autorewrite with gostr; cbn; by f_equal. Qed.

Lemma CutPrefix_app p s : CutPrefix (p +:+ s) p = Some s.
Proof.
  induction p as [|c p IH]; autorewrite with gostr; cbn; [by destruct s|].
  by rewrite decide_True.
Qed.

Lemma CutPrefix_Some s p r : CutPrefix s p = Some r <-> s = p +:+ r.
Proof.
  split; [|intros ->; apply CutPrefix_app].
  revert s. induction p as [|c p IH]; intros [|d s] H; autorewrite with gostr; simplify_eq/=; try done.
  case_decide; simplify_eq/=. f_equal. by apply IH.
Qed.

Lemma SplitN2_app sep a b :
  has_char sep a = false -> SplitN2 sep (a +:+ String sep b) = Some (a, b).
Proof.
  induction a as [|c a IH]; autorewrite with gostr; cbn; intros H.
  - by rewrite decide_True.
  - case_decide; [done|]. by rewrite (IH H).
Qed.

Lemma SplitN2_Some sep s a b :
  SplitN2 sep s = Some (a, b) -> s = a +:+ String sep b /\ has_char sep a = false.
Proof.
  revert a b. induction s as [|c s IH]; intros a b H; simplify_eq/=.
  case_decide; simplify_eq/=; [done|].
  destruct (SplitN2 sep s) as [[x y]|]; simplify_eq/=.
  destruct (IH _ _ eq_refl) as [-> Hx]. by rewrite decide_False.
Qed.

Lemma has_char_app c a b : has_char c (a +:+ b) = has_char c a || has_char c b.
Proof.
  induction a as [|x a IH]; autorewrite with gostr; [done|]. cbn. by case_decide.
Qed.

(** Splitting at the last occurrence: a separator-free suffix is determined. *)
Lemma app_sep_inj sep a b a' b' :
  has_char sep b = false -> has_char sep b' = false ->
  a +:+ String sep b = a' +:+ String sep b' -> a = a' /\ b = b'.
Proof.
  intros Hb Hb'.
  assert (forall x y, has_char sep (x +:+ String sep y) = true) as Hc.
  { intros x y. rewrite has_char_app. cbn. rewrite decide_True by done. apply orb_true_r. }
  revert a'. induction a as [|x a IH]; intros [|y a'] H; autorewrite with gostr in H.
  - by simplify_eq.
  - injection H as <- H. by rewrite H, Hc in Hb.
  - injection H as -> H. by rewrite <-H, Hc in Hb'.
  - injection H as -> H. destruct (IH _ H) as [-> ->]. done.
Qed.

(** ** Decimal round trip *)

Lemma NilEmpty_string_nonempty u :
  u <> Decimal.Nil -> NilEmpty.string_of_uint u <> "".
Proof. by destruct u. Qed.

Lemma string_of_uint_NilZero u :
  u <> Decimal.Nil -> NilZero.string_of_uint u = NilEmpty.string_of_uint u.
Proof. by destruct u. Qed.

Lemma parse_digits_of_uint u :
  u <> Decimal.Nil -> parse_digits (NilEmpty.string_of_uint u) = Some (Z.of_uint u).
Proof.
  intros Hu. unfold parse_digits. pose proof (NilEmpty_string_nonempty u Hu) as Hs.
  pose proof (NilEmpty.usu u) as Hr.
  destruct (NilEmpty.string_of_uint u) as [|c s] eqn:E; [done|]. by rewrite Hr.
Qed.

Lemma Z_to_int_nonnil z :
  match Z.to_int z with Decimal.Pos u => u <> Decimal.Nil | Decimal.Neg u => u <> Decimal.Nil end.
Proof.
  destruct z; cbn; try done; apply DecimalPos.Unsigned.to_uint_nonnil.
Qed.

(** [NilEmpty.string_of_uint] starts with a digit. *)
Lemma string_of_uint_head u c s :
  NilEmpty.string_of_uint u = String c s -> c <> "-"%char /\ c <> "+"%char.
Proof. by destruct u; intros; simplify_eq/=. Qed.

(** Parsing what was formatted gives the number back. *)
Lemma ParseInt_FormatInt z : in_int64 z -> ParseInt (FormatInt z) = Some z.
Proof.
  intros Hz. unfold FormatInt, ParseInt. rewrite <-in_int64b_spec in Hz.
  pose proof (Z_to_int_nonnil z) as Hn. pose proof (DecimalZ.of_to z) as Hof.
  destruct (Z.to_int z) as [u|u]; cbn [NilZero.string_of_int];
    rewrite string_of_uint_NilZero by done; cbn in Hof; subst z.
  - pose proof (parse_digits_of_uint u Hn) as Hp.
    pose proof (NilEmpty_string_nonempty u Hn) as Hs.
    destruct (NilEmpty.string_of_uint u) as [|c s] eqn:E; [done|].
    apply string_of_uint_head in E as [??].
    rewrite !decide_False by done. by rewrite Hp, Hz.
  - rewrite decide_True by done. rewrite parse_digits_of_uint by done. cbn. by rewrite Hz.
Qed.

Lemma int_of_FormatInt z : NilZero.int_of_string (FormatInt z) = Some (Z.to_int z).
Proof.
  unfold FormatInt. pose proof (Z_to_int_nonnil z) as Hn.
  apply NilZero.isi; intros E; by rewrite E in Hn.
Qed.

Lemma FormatInt_inj z1 z2 : FormatInt z1 = FormatInt z2 -> z1 = z2.
Proof.
  intros H. apply DecimalZ.to_int_inj.
  pose proof (int_of_FormatInt z1) as H1. rewrite H, int_of_FormatInt in H1. congruence.
Qed.

(** A formatted number has no colon. *)
Lemma string_of_uint_no_colon u : has_char ":" (NilEmpty.string_of_uint u) = false.
Proof. by induction u. Qed.

Lemma FormatInt_no_colon z : has_char ":" (FormatInt z) = false.
Proof.
  unfold FormatInt. pose proof (Z_to_int_nonnil z) as Hn.
  destruct (Z.to_int z) as [u|u]; cbn [NilZero.string_of_int];
    rewrite string_of_uint_NilZero by done; apply (string_of_uint_no_colon u).
Qed.
