(* ===== verification/Sha256.v ===== *)
(** The hash functions of Go's standard library that the modelled code calls:
    [crypto/sha256] (FIPS 180-4), [crypto/hmac] (RFC 2104) over it and
    [encoding/hex].  They are executable, so that signatures and token hashes
    of the model are the program's, and checked against published test
    vectors. *)

From S2P Require Import Prelude GoStr.

Module Sha256.

(** * Definitions *)

Definition add32 (a b : Z) : Z := Z.land (a + b) 0xffffffff.

Definition rotr (n x : Z) : Z :=
  Z.lor (Z.shiftr x n) (Z.land (Z.shiftl x (32 - n)) 0xffffffff).

Definition not32 (x : Z) : Z := Z.lxor x 0xffffffff.

Definition Ch (x y z : Z) : Z := Z.lxor (Z.land x y) (Z.land (not32 x) z).
Definition Maj (x y z : Z) : Z := Z.lxor (Z.lxor (Z.land x y) (Z.land x z)) (Z.land y z).
Definition Sigma0 (x : Z) : Z := Z.lxor (Z.lxor (rotr 2 x) (rotr 13 x)) (rotr 22 x).
Definition Sigma1 (x : Z) : Z := Z.lxor (Z.lxor (rotr 6 x) (rotr 11 x)) (rotr 25 x).
Definition sigma0 (x : Z) : Z := Z.lxor (Z.lxor (rotr 7 x) (rotr 18 x)) (Z.shiftr x 3).
Definition sigma1 (x : Z) : Z := Z.lxor (Z.lxor (rotr 17 x) (rotr 19 x)) (Z.shiftr x 10).

(** The constants of the standard, from their definition: the first 32 bits of
    the fractional parts of the cube roots (round constants) and square roots
    (initial state) of the first primes. *)
Definition is_prime (p : nat) : bool :=
  forallb (fun d => negb (p mod d =? 0)%nat) (seq 2 (p - 2)).

Definition primes (n : nat) : list Z :=
  Z.of_nat <$> filter (fun p => is_prime p = true) (seq 2 n).

(** The greatest [r] with at most [bits] bits and [r ^ e <= x]. *)
Fixpoint int_root (e x : Z) (bits : nat) (r : Z) : Z :=
  match bits with
  | O => r
  | S b =>
      let r' := r + 2 ^ Z.of_nat b in
      int_root e x b (if r' ^ e <=? x then r' else r)
  end.

(** The first 32 bits of the fractional part of the [e]-th root of [p]. *)
Definition frac_root (e p : Z) : Z := Z.land (int_root e (p * 2 ^ (32 * e)) 40 0) 0xffffffff.

Definition K : list Z := Eval vm_compute in frac_root 3 <$> primes 310.

Definition H0 : list Z := Eval vm_compute in frac_root 2 <$> primes 18.

(** Bytes of a Go string and back. *)
Fixpoint bytes (s : string) : list Z :=
  match s with
  | EmptyString => []
  | String c s => Z.of_N (Ascii.N_of_ascii c) :: bytes s
  end.

Fixpoint of_bytes (l : list Z) : string :=
  match l with
  | [] => EmptyString
  | b :: l => String (Ascii.ascii_of_N (Z.to_N b)) (of_bytes l)
  end.

(** [n] big-endian bytes of [z]. *)
Fixpoint be_bytes (n : nat) (z : Z) : list Z :=
  match n with
  | O => []
  | S n => be_bytes n (Z.shiftr z 8) ++ [Z.land z 0xff]
  end.

(** Padding: 0x80, zeros, and the bit length as 64 bits. *)
Definition pad (m : list Z) : list Z :=
  let l := Z.of_nat (length m) in
  let zeros := Z.to_nat ((55 - l) mod 64) in
  m ++ [0x80] ++ repeat 0 zeros ++ be_bytes 8 (8 * l).

(** The 32-bit big-endian words of a byte list. *)
Fixpoint words (m : list Z) : list Z :=
  match m with
  | a :: b :: c :: d :: m =>
      Z.lor (Z.shiftl a 24) (Z.lor (Z.shiftl b 16) (Z.lor (Z.shiftl c 8) d)) :: words m
  | _ => []
  end.

(** The message schedule: [n] more words, from the last sixteen, newest first. *)
Fixpoint schedule (n : nat) (w : list Z) : list Z :=
  match n with
  | O => w
  | S n =>
      let g i := nth i w 0 in
      schedule n (add32 (add32 (sigma1 (g 1%nat)) (g 6%nat)) (add32 (sigma0 (g 14%nat)) (g 15%nat)) :: w)
  end.

Definition round (st : list Z) (kw : Z * Z) : list Z :=
  match st with
  | [a; b; c; d; e; f; g; h] =>
      let t1 := add32 (add32 (add32 h (Sigma1 e)) (Ch e f g)) (add32 kw.1 kw.2) in
      let t2 := add32 (Sigma0 a) (Maj a b c) in
      [add32 t1 t2; a; b; c; add32 d t1; e; f; g]
  | _ => st
  end.

Definition compress (st : list Z) (block : list Z) : list Z :=
  let w := rev (schedule 48 (rev block)) in
  zip_with add32 st (foldl round st (zip K w)).

(** The blocks of sixteen words; [n] bounds their number. *)
Fixpoint blocks (n : nat) (w : list Z) : list (list Z) :=
  match n, w with
  | S n, _ :: _ => take 16 w :: blocks n (drop 16 w)
  | _, _ => []
  end.

Definition sum256_bytes (m : list Z) : list Z :=
  let w := words (pad m) in
  let st := foldl compress H0 (blocks (length w) w) in
  mjoin (be_bytes 4 <$> st).

(** [sha256.Sum256] *)
Definition sum256 (s : string) : string := of_bytes (sum256_bytes (bytes s)).

(** [hmac.New(sha256.New, key)], [Write msg], [Sum(nil)]. *)
Definition hmac (key msg : string) : string :=
  let k := bytes key in
  let k := if decide (64 < length k)%nat then sum256_bytes k else k in
  let k := k ++ repeat 0 (64 - length k) in
  let ipad := (fun b => Z.lxor b 0x36) <$> k in
  let opad := (fun b => Z.lxor b 0x5c) <$> k in
  of_bytes (sum256_bytes (opad ++ sum256_bytes (ipad ++ bytes msg))).

Definition hex_digit (z : Z) : Ascii.ascii :=
  Ascii.ascii_of_N (Z.to_N (if z <? 10 then 48 + z else 87 + z)).

(** [hex.EncodeToString] *)
Fixpoint hex (s : string) : string :=
  match s with
  | EmptyString => EmptyString
  | String c s =>
      let b := Z.of_N (Ascii.N_of_ascii c) in
      String (hex_digit (Z.shiftr b 4)) (String (hex_digit (Z.land b 15)) (hex s))
  end.

(** * Lemmas *)

(** Published vectors: FIPS 180-4 for "abc" and the two-block message, RFC 4231
    test case 2 for HMAC. *)
Example sha256_abc :
  hex (sum256 "abc") = "ba7816bf8f01cfea414140de5dae2223b00361a396177a9cb410ff61f20015ad".
Proof. vm_compute. reflexivity. Qed.

Example sha256_two_blocks :
  hex (sum256 "abcdbcdecdefdefgefghfghighijhijkijkljklmklmnlmnomnopnopq")
  = "248d6a61d20638b8e5c026930c3e6039a33ce45964ff2167f6ecedd419db06c1".
Proof. vm_compute. reflexivity. Qed.

Example hmac_rfc4231_2 :
  hex (hmac "Jefe" "what do ya want for nothing?")
  = "5bdcc146bf60754e6a042426089575c75a003f089d2739839dec58b964ec3843".
Proof. vm_compute. reflexivity. Qed.

Lemma hex_digit_not_colon z : 0 <= z < 16 -> hex_digit z <> ":"%char.
Proof.
  intros Hz. assert (z ∈ seqZ 0 16) as Hin by (apply elem_of_seqZ; lia).
  revert z Hin Hz. rewrite <-Forall_forall.
  repeat constructor; intros _; vm_compute; done.
Qed.

(** A hex string has no colon, whatever the bytes. *)
Lemma hex_no_colon s : has_char ":" (hex s) = false.
Proof.
  induction s as [|c s IH]; [done|]. cbn [hex has_char].
  rewrite decide_False, decide_False; [done| |].
  - apply hex_digit_not_colon. change 15 with (Z.ones 4). rewrite Z.land_ones by lia.
    apply Z.mod_pos_bound. lia.
  - apply hex_digit_not_colon. rewrite Z.shiftr_div_pow2 by lia.
    pose proof (Ascii.N_ascii_bounded c) as Hb. change (2 ^ 4) with 16.
    split; [apply Z.div_pos; lia|]. apply Z.div_lt_upper_bound; lia.
Qed.

Lemma hex_digit_inj a b : 0 <= a < 16 -> 0 <= b < 16 -> hex_digit a = hex_digit b -> a = b.
Proof.
  intros Ha Hb.
  assert (a ∈ seqZ 0 16) as Hina by (apply elem_of_seqZ; lia).
  assert (b ∈ seqZ 0 16) as Hinb by (apply elem_of_seqZ; lia).
  revert b Hinb Hb. rewrite <-Forall_forall. revert a Hina Ha. rewrite <-Forall_forall.
  repeat (constructor; [intros _; repeat (constructor; [intros _ H; vm_compute in H; congruence|]); constructor|]).
  constructor.
Qed.

(** [hex] is injective: a hex string determines the bytes. *)
Lemma hex_inj s t : hex s = hex t -> s = t.
Proof.
  revert t. induction s as [|c s IH]; intros [|d t] H; try done.
  cbn [hex] in H. injection H as H1 H2 H3. apply IH in H3 as ->. f_equal.
  pose proof (Ascii.N_ascii_bounded c). pose proof (Ascii.N_ascii_bounded d).
  change 15 with (Z.ones 4) in H2. rewrite !Z.land_ones in H2 by lia.
  rewrite !Z.shiftr_div_pow2 in H1 by lia. change (2 ^ 4) with 16 in *.
  apply hex_digit_inj in H1; [|split; [apply Z.div_pos|apply Z.div_lt_upper_bound]; lia..].
  apply hex_digit_inj in H2; [|apply Z.mod_pos_bound; lia..].
  rewrite <-(Ascii.ascii_N_embedding c), <-(Ascii.ascii_N_embedding d). f_equal.
  pose proof (Z.div_mod (Z.of_N (Ascii.N_of_ascii c)) 16).
  pose proof (Z.div_mod (Z.of_N (Ascii.N_of_ascii d)) 16). lia.
Qed.

End Sha256.
