(* ===== verification/JobToken.v ===== *)
(** Signed job tokens: [services/shared/go/jobtoken/jobtoken.go], the
    middleware that guards the internal callbacks with them
    ([services/api/internal/middleware/jobtoken/jobtoken.go]) and the shared
    secret of the watchdog endpoint
    ([services/api/internal/middleware/watchdogauth/watchdogauth.go]).

    Instants are nanoseconds since the Unix epoch, as [time.Time] holds them. *)

From S2P Require Import Prelude GoStr Sha256.

(** * Definitions *)

(** [t.Unix()]: whole seconds, rounded down. *)
Definition unix (t : Z) : Z := t / 1000000000.

(** [strings.CutPrefix(r.Header.Get("Authorization"), "Bearer ")]; [None] when
    the header has no such prefix. *)
Definition cut_bearer (authorization : string) : option string :=
  CutPrefix authorization "Bearer ".

Module JobToken.

(** [ErrInvalidToken], [ErrTokenExpired] *)
Inductive TokenError : Set :=
| ErrInvalidToken
| ErrTokenExpired.

#[export] Instance TokenError_eq_dec : EqDecision TokenError.
Proof. solve_decision. Defined.

Record Signer := mkSigner {
  key : string;
  prevKey : option string;  (* nil means no fallback *)
  ttl : Z
}.

Definition NewSigner (key : string) (ttl : Z) : Signer := mkSigner key None ttl.

Definition WithPreviousKey (s : Signer) (prev : string) : Signer :=
  mkSigner (key s) (Some prev) (ttl s).

(** [fmt.Sprintf("%s:%d", jobID, expiry)] *)
Definition payload (jobID : string) (expiry : Z) : string :=
  jobID +:+ String ":" (FormatInt expiry).

Definition sign (key jobID : string) (expiry : Z) : string :=
  let sig := Sha256.hex (Sha256.hmac key (payload jobID expiry)) in
  sig +:+ String ":" (FormatInt expiry).

Definition Sign (s : Signer) (now : Z) (jobID : string) : string :=
  let expiry := unix (now + ttl s) in
  sign (key s) jobID expiry.

Definition validate (key jobID token : string) (now : Z) : result TokenError unit :=
  match SplitN2 ":" token with
  | None => Err ErrInvalidToken
  | Some (_, expiryStr) =>
      match ParseInt expiryStr with
      | None => Err ErrInvalidToken
      | Some expiry =>
          let expected := sign key jobID expiry in
          if negb (bool_decide (token = expected)) then Err ErrInvalidToken
          else if expiry <? unix now then Err ErrTokenExpired
          else Ok tt
      end
  end.

Definition Validate (s : Signer) (jobID token : string) (now : Z) : result TokenError unit :=
  match validate (key s) jobID token now with
  | Ok _ => Ok tt
  | Err e =>
      match prevKey s with
      | Some prev =>
          if decide (e = ErrInvalidToken) then validate prev jobID token now else Err e
      | None => Err e
      end
  end.

(** ** The callback middleware *)

Definition maxBodyBytes : nat := 1 * 1024 * 1024.

(** What the middleware passes on: the job id it validated and the body it
    read, or the error response it wrote. *)
Definition MwResult (A : Type) := result (Z * string) A.

Definition ErrMissingToken : string := "missing authorization token".
Definition ErrInvalidOrExpired : string := "invalid or expired token".
Definition ErrMissingJobID : string := "missing or invalid job_id".
Definition ErrInvalidBody : string := "failed to read body".

(** [io.ReadAll(io.LimitReader(r.Body, n))] of a body that can be read. *)
Definition limit_read (n : nat) (body : string) : string := String.substring 0 n body.

(** [extractBearer] returns the empty string when the prefix is missing. *)
Definition extractBearer (authorization : string) : string :=
  match cut_bearer authorization with Some t => t | None => "" end.

(** [Auth]: [decode] is the JSON decoder of [jobIDPayload] ([None] when the
    body is not such a document), [body] is [None] when reading it fails. *)
Definition Auth (signer : Signer) (decode : string -> option string) (now : Z)
    (authorization : string) (body : option string) : MwResult (string * string) :=
  let token := extractBearer authorization in
  if decide (token = "") then Err (StatusUnauthorized, ErrMissingToken)
  else
    match body with
    | None => Err (StatusBadRequest, ErrInvalidBody)
    | Some raw =>
        let body := limit_read maxBodyBytes raw in
        match decode body with
        | None => Err (StatusBadRequest, ErrMissingJobID)
        | Some jobID =>
            if decide (jobID = "") then Err (StatusBadRequest, ErrMissingJobID)
            else
              match Validate signer jobID token now with
              | Err _ => Err (StatusUnauthorized, ErrInvalidOrExpired)
              | Ok _ => Ok (jobID, body)
              end
        end
    end.

End JobToken.

Module WatchdogAuth.

(** [SharedSecret]: [Ok] when the request goes on to the handler. *)
Definition SharedSecret (secret authorization : string) : JobToken.MwResult unit :=
  match cut_bearer authorization with
  | None => Err (StatusUnauthorized, "missing authorization token")
  | Some token =>
      if decide (token = "") then Err (StatusUnauthorized, "missing authorization token")
      else if negb (bool_decide (token = secret))
           then Err (StatusUnauthorized, "invalid watchdog token")
           else Ok tt
  end.

End WatchdogAuth.

(** * Lemmas *)

Module JobTokenFacts.
Import JobToken.

(** The token carries its own expiry: it is found again by splitting. *)
Lemma sign_split k j e :
  SplitN2 ":" (sign k j e) = Some (Sha256.hex (Sha256.hmac k (payload j e)), FormatInt e).
Proof. apply SplitN2_app, Sha256.hex_no_colon. Qed.

Lemma validate_sign k j e now :
  in_int64 e ->
  validate k j (sign k j e) now = if e <? unix now then Err ErrTokenExpired else Ok tt.
Proof.
  intros He. unfold validate. rewrite sign_split, ParseInt_FormatInt by done.
  by rewrite bool_decide_true.
Qed.

Lemma ParseInt_range s z : ParseInt s = Some z -> in_int64 z.
Proof.
  unfold ParseInt. intros H.
  repeat (case_match; simplify_eq/=); by apply in_int64b_spec.
Qed.

(** Inversion of an accepted or expired token: it is the signature itself. *)
Lemma validate_inv k j tok now :
  validate k j tok now <> Err ErrInvalidToken ->
  exists e, in_int64 e /\ tok = sign k j e.
Proof.
  unfold validate. intros H. destruct (SplitN2 ":" tok) as [[a b]|]; [|done].
  destruct (ParseInt b) as [e|] eqn:Hp; [|done].
  case_bool_decide as Ht; [|done]. eauto using ParseInt_range.
Qed.

Lemma validate_Ok k j tok now :
  validate k j tok now = Ok tt <->
  exists e, in_int64 e /\ tok = sign k j e /\ unix now <= e.
Proof.
  split.
  - intros H. destruct (validate_inv k j tok now) as (e & He & ->); [by rewrite H|].
    rewrite validate_sign in H by done. exists e. split_and!; [done..|].
    destruct (e <? unix now) eqn:E; [done|lia].
  - intros (e & He & -> & Hn). rewrite validate_sign by done.
    destruct (e <? unix now) eqn:E; [lia|done].
Qed.

(** Two signatures are equal only for the same expiry. *)
Lemma sign_expiry_inj k1 j1 e1 k2 j2 e2 :
  sign k1 j1 e1 = sign k2 j2 e2 ->
  e1 = e2 /\ Sha256.hmac k1 (payload j1 e1) = Sha256.hmac k2 (payload j2 e2).
Proof.
  intros H. pose proof (sign_split k1 j1 e1) as H1. rewrite H, sign_split in H1.
  injection H1 as H1 H2. split; [by apply FormatInt_inj|by apply Sha256.hex_inj].
Qed.

Lemma payload_inj j1 e1 j2 e2 : payload j1 e1 = payload j2 e2 -> j1 = j2 /\ e1 = e2.
Proof.
  intros H. apply app_sep_inj in H as [-> H2]; [|apply FormatInt_no_colon..].
  split; [done|by apply FormatInt_inj].
Qed.

(** Acceptance with the fallback key. *)
Lemma Validate_Ok (s : Signer) (jobID token : string) (now : Z) :
  Validate s jobID token now = Ok tt <->
  exists k e, (k = key s \/ prevKey s = Some k) /\
    in_int64 e /\ token = sign k jobID e /\ unix now <= e.
Proof.
  unfold Validate. split.
  - intros H. destruct (validate (key s) jobID token now) as [[]|e] eqn:E.
    + apply validate_Ok in E as (e & He). exists (key s), e. tauto.
    + destruct (prevKey s) as [p|] eqn:Hp; [|done]. case_decide; [|done].
      apply validate_Ok in H as (e' & He). exists p, e'. tauto.
  - intros (k & e & [->|Hk] & He & -> & Hn).
    + by rewrite (proj2 (validate_Ok _ _ _ _)) by eauto.
    + rewrite Hk. destruct (validate (key s) jobID (sign k jobID e) now) as [|err] eqn:E; [done|].
      rewrite decide_True; [apply validate_Ok; eauto|].
      destruct err; [done|]. exfalso.
      destruct (validate_inv (key s) jobID (sign k jobID e) now) as (e' & He' & Heq);
        [by rewrite E|].
      destruct (sign_expiry_inj _ _ _ _ _ _ Heq) as [<- _].
      rewrite Heq, validate_sign in E by done. destruct (e <? unix now) eqn:E2; [lia|done].
Qed.

End JobTokenFacts.

(** * Properties *)

Module JobTokenProps.
Import JobToken JobTokenFacts.

(** C1: A token is accepted for a job exactly when it is the signature of that
    job id under the current or the previous key with an int64 expiry that has
    not passed; nothing else (a reformatted expiry, a truncated signature, a
    missing separator) is accepted. *)
Theorem Validate_accepts_iff (s : Signer) (jobID token : string) (now : Z) :
  Validate s jobID token now = Ok tt <->
  exists k e, (k = key s \/ prevKey s = Some k) /\
    in_int64 e /\ token = sign k jobID e /\ unix now <= e.
Proof. apply Validate_Ok. Qed.

(** C2: Round trip: what [Sign] issues, [Validate] accepts for the same job
    until the expiry second, and reports as expired afterwards. *)
Theorem Sign_Validate_roundtrip (s : Signer) (jobID : string) (t t' : Z) :
  in_int64 (unix (t + ttl s)) ->
  Validate s jobID (Sign s t jobID) t' =
    (if unix (t + ttl s) <? unix t' then Err ErrTokenExpired else Ok tt).
Proof.
  intros He. unfold Validate, Sign. rewrite validate_sign by done.
  destruct (unix (t + ttl s) <? unix t'); [|done]. by destruct (prevKey s).
Qed.


(** Key rotation: a signer with a new key and the old one as previous key
    still accepts the tokens the old signer issued, and signs with the new
    key. *)
Theorem rotation_accepts_old_tokens (kold knew jobID : string) (ttl0 t t' : Z) :
  in_int64 (unix (t + ttl0)) -> unix t' <= unix (t + ttl0) ->
  let rotated := WithPreviousKey (NewSigner knew ttl0) kold in
  Validate rotated jobID (Sign (NewSigner kold ttl0) t jobID) t' = Ok tt /\
  Sign rotated t jobID = sign knew jobID (unix (t + ttl0)).
Proof.
  intros He Ht rotated. split; [|done]. apply Validate_Ok.
  exists kold, (unix (t + ttl0)). by split_and!; [right|..].
Qed.

Lemma Sign_Validate_roundtrip_witness :
  in_int64 (unix (5000000000 + ttl (NewSigner "k" 60000000000))) /\
  Validate (NewSigner "k" 60000000000) "job" (Sign (NewSigner "k" 60000000000) 5000000000 "job") 65999999999
    = Ok tt.
Proof.
  assert (in_int64 (unix (5000000000 + ttl (NewSigner "k" 60000000000)))) as H
    by (vm_compute; split; discriminate || reflexivity).
  split; [exact H|].
  exact (Sign_Validate_roundtrip (NewSigner "k" 60000000000) "job" 5000000000 65999999999 H).
Defined.


Lemma rotation_accepts_old_tokens_witness :
  Validate (WithPreviousKey (NewSigner "new" 60000000000) "old") "job"
    (Sign (NewSigner "old" 60000000000) 5000000000 "job") 6000000000 = Ok tt.
Proof.
  refine (proj1 (rotation_accepts_old_tokens "old" "new" "job" 60000000000 5000000000 6000000000 _ _)).
  - vm_compute; split; discriminate || reflexivity.
  - vm_compute; discriminate.
Defined.

End JobTokenProps.
