(* ===== verification/Store.v ===== *)
(** The API database: the rows of [services/shared/go/store/models.go] and
    [types.go] with the constraints of [services/api/internal/db/migrations],
    and the state every API handler runs in.

    A statement of the generated store is a pure function on the database; a
    handler runs it through [query], [exec] or [insert_stmt], which also let the
    statement fail: the world carries a schedule of connection failures, one
    entry per statement, so that every error path of a handler is a run of the
    model.  [now()] is the world's clock in microseconds (the resolution of
    [timestamptz]), [gen_random_uuid()] draws from the world's identifiers. *)

From S2P Require Import Prelude GoStr.

(** * Definitions *)

(** ** Job status: [types.go] *)
Inductive JobStatus : Set :=
| JobStatusQueued
| JobStatusRunning
| JobStatusSucceeded
| JobStatusFailed
| JobStatusCancelled
| JobStatusSuperseded.

#[export] Instance JobStatus_eq_dec : EqDecision JobStatus.
Proof. solve_decision. Defined.

(** [string(status)] *)
Definition status_text (s : JobStatus) : string :=
  match s with
  | JobStatusQueued => "queued"
  | JobStatusRunning => "running"
  | JobStatusSucceeded => "succeeded"
  | JobStatusFailed => "failed"
  | JobStatusCancelled => "cancelled"
  | JobStatusSuperseded => "superseded"
  end.

(** [store.JobStatus(s)] on a text the CHECK constraint of [jobs.status]
    accepts. *)
Definition status_of_text (s : string) : option JobStatus :=
  if decide (s = "queued") then Some JobStatusQueued
  else if decide (s = "running") then Some JobStatusRunning
  else if decide (s = "succeeded") then Some JobStatusSucceeded
  else if decide (s = "failed") then Some JobStatusFailed
  else if decide (s = "cancelled") then Some JobStatusCancelled
  else if decide (s = "superseded") then Some JobStatusSuperseded
  else None.

Definition IsTerminal (s : JobStatus) : bool :=
  match s with
  | JobStatusSucceeded | JobStatusFailed | JobStatusCancelled | JobStatusSuperseded => true
  | _ => false
  end.

(** ** Rows: [models.go] *)
Record Job := mkJob {
  j_ID : uuid;
  j_RepoID : uuid;
  j_Branch : string;
  j_CommitSha : string;
  j_DeliveryID : option string;
  j_Status : JobStatus;
  j_ErrorMessage : option string;
  j_CreatedAt : Z;
  j_UpdatedAt : Z;
  j_StartedAt : option Z;
  j_FinishedAt : option Z
}.

Record Snapshot := mkSnapshot {
  s_ID : uuid;
  s_RepoID : uuid;
  s_JobID : option uuid;
  s_Branch : string;
  s_CommitSha : string;
  s_GcsPath : string;
  s_SnapshotVersion : Z;
  s_ZigzagVersion : string;
  s_SizeBytes : Z;
  s_CreatedAt : Z;
  s_Metadata : option string
}.

Record Repository := mkRepository {
  r_ID : uuid;
  r_OrgID : option uuid;
  r_GithubRepoID : Z;
  r_InstallationID : Z;
  r_FullName : string;
  r_DefaultBranch : string;
  r_InstalledAt : Z;
  r_UserID : option uuid
}.

Record Organization := mkOrganization {
  o_ID : uuid;
  o_Slug : string;
  o_Name : string;
  o_CreatedAt : Z;
  o_AuthOrgID : string
}.

Record User := mkUser {
  u_ID : uuid;
  u_AuthUserID : string;
  u_Username : string;
  u_Email : string;
  u_EmailVerified : bool;
  u_Phone : option string;
  u_AvatarUrl : option string;
  u_CreatedAt : Z;
  u_UpdatedAt : Z
}.

Record Membership := mkMembership {
  m_ID : uuid;
  m_UserID : uuid;
  m_OrgID : uuid;
  m_Role : string;
  m_InvitedBy : option uuid;
  m_JoinedAt : Z
}.

Inductive ContextVisibility : Set :=
| ContextVisibilityPublic
| ContextVisibilityPrivate
| ContextVisibilityProtected.

#[export] Instance ContextVisibility_eq_dec : EqDecision ContextVisibility.
Proof. solve_decision. Defined.

Record ContextToken := mkContextToken {
  ct_ID : uuid;
  ct_RepoID : uuid;
  ct_OrgID : option uuid;
  ct_TargetSnapshotID : option uuid;
  ct_TokenHash : string;
  ct_Label : option string;
  ct_LastUsedAt : option Z;
  ct_ExpiresAt : option Z;
  ct_CreatedAt : Z;
  ct_UserID : option uuid;
  ct_Visibility : ContextVisibility
}.

Record ContextTokenAllowedUser := mkAllowedUser {
  au_ID : uuid;
  au_TokenID : uuid;
  au_UserID : uuid;
  au_CreatedAt : Z
}.

Record CliApiKey := mkCliApiKey {
  ck_ID : uuid;
  ck_UserID : option uuid;
  ck_OrgID : option uuid;
  ck_KeyHash : string;
  ck_KeyHint : string;
  ck_Label : string;
  ck_CreatedAt : Z
}.

Record AiProviderKey := mkAiProviderKey {
  ak_ID : uuid;
  ak_OrgID : option uuid;
  ak_Provider : string;
  ak_KeyCipher : string;
  ak_KeyHint : string;
  ak_CreatedAt : Z;
  ak_UserID : option uuid
}.

Record AuditLog := mkAuditLog {
  al_ID : uuid;
  al_UserID : option uuid;
  al_OrgID : option uuid;
  al_ActorID : uuid;
  al_Action : string;
  al_TargetID : option uuid;
  al_Metadata : option string;
  al_CreatedAt : Z
}.

Record Session := mkSession {
  ss_ID : uuid;
  ss_UserID : uuid;
  ss_AuthSessionID : string;
  ss_DeviceName : option string;
  ss_IpAddress : option string;
  ss_LastActiveAt : Z;
  ss_CreatedAt : Z
}.

(** ** The database *)
Record DB := mkDB {
  jobs : gmap N Job;
  snapshots : gmap N Snapshot;
  repositories : gmap N Repository;
  organizations : gmap N Organization;
  users : gmap N User;
  memberships : gmap N Membership;
  context_tokens : gmap N ContextToken;
  allowed_users : gmap N ContextTokenAllowedUser;
  cli_api_keys : gmap N CliApiKey;
  ai_provider_keys : gmap N AiProviderKey;
  audit_log : gmap N AuditLog;
  sessions : gmap N Session
}.

Definition empty_db : DB := mkDB ∅ ∅ ∅ ∅ ∅ ∅ ∅ ∅ ∅ ∅ ∅ ∅.

Definition set_jobs (t : gmap N Job) (d : DB) : DB :=
  mkDB t (snapshots d) (repositories d) (organizations d) (users d) (memberships d)
    (context_tokens d) (allowed_users d) (cli_api_keys d) (ai_provider_keys d) (audit_log d) (sessions d).
Definition set_snapshots (t : gmap N Snapshot) (d : DB) : DB :=
  mkDB (jobs d) t (repositories d) (organizations d) (users d) (memberships d)
    (context_tokens d) (allowed_users d) (cli_api_keys d) (ai_provider_keys d) (audit_log d) (sessions d).
Definition set_repositories (t : gmap N Repository) (d : DB) : DB :=
  mkDB (jobs d) (snapshots d) t (organizations d) (users d) (memberships d)
    (context_tokens d) (allowed_users d) (cli_api_keys d) (ai_provider_keys d) (audit_log d) (sessions d).
Definition set_organizations (t : gmap N Organization) (d : DB) : DB :=
  mkDB (jobs d) (snapshots d) (repositories d) t (users d) (memberships d)
    (context_tokens d) (allowed_users d) (cli_api_keys d) (ai_provider_keys d) (audit_log d) (sessions d).
Definition set_users (t : gmap N User) (d : DB) : DB :=
  mkDB (jobs d) (snapshots d) (repositories d) (organizations d) t (memberships d)
    (context_tokens d) (allowed_users d) (cli_api_keys d) (ai_provider_keys d) (audit_log d) (sessions d).
Definition set_memberships (t : gmap N Membership) (d : DB) : DB :=
  mkDB (jobs d) (snapshots d) (repositories d) (organizations d) (users d) t
    (context_tokens d) (allowed_users d) (cli_api_keys d) (ai_provider_keys d) (audit_log d) (sessions d).
Definition set_context_tokens (t : gmap N ContextToken) (d : DB) : DB :=
  mkDB (jobs d) (snapshots d) (repositories d) (organizations d) (users d) (memberships d)
    t (allowed_users d) (cli_api_keys d) (ai_provider_keys d) (audit_log d) (sessions d).
Definition set_allowed_users (t : gmap N ContextTokenAllowedUser) (d : DB) : DB :=
  mkDB (jobs d) (snapshots d) (repositories d) (organizations d) (users d) (memberships d)
    (context_tokens d) t (cli_api_keys d) (ai_provider_keys d) (audit_log d) (sessions d).
Definition set_cli_api_keys (t : gmap N CliApiKey) (d : DB) : DB :=
  mkDB (jobs d) (snapshots d) (repositories d) (organizations d) (users d) (memberships d)
    (context_tokens d) (allowed_users d) t (ai_provider_keys d) (audit_log d) (sessions d).
Definition set_ai_provider_keys (t : gmap N AiProviderKey) (d : DB) : DB :=
  mkDB (jobs d) (snapshots d) (repositories d) (organizations d) (users d) (memberships d)
    (context_tokens d) (allowed_users d) (cli_api_keys d) t (audit_log d) (sessions d).
Definition set_audit_log (t : gmap N AuditLog) (d : DB) : DB :=
  mkDB (jobs d) (snapshots d) (repositories d) (organizations d) (users d) (memberships d)
    (context_tokens d) (allowed_users d) (cli_api_keys d) (ai_provider_keys d) t (sessions d).
Definition set_sessions (t : gmap N Session) (d : DB) : DB :=
  mkDB (jobs d) (snapshots d) (repositories d) (organizations d) (users d) (memberships d)
    (context_tokens d) (allowed_users d) (cli_api_keys d) (ai_provider_keys d) (audit_log d) t.

(** ** The state of a handler *)
Record World := mkWorld {
  w_db : DB;
  w_tx : option DB;        (* the state a rollback restores, inside a transaction *)
  w_now : Z;               (* microseconds since the epoch *)
  w_ids : list uuid;       (* what gen_random_uuid() returns next *)
  w_faults : list bool;    (* which of the next statements fail *)
  w_tasks : list (string * string);  (* Cloud Tasks created: job id and token *)
  w_objects : gmap string string;    (* the snapshot bucket *)
  w_cache : gmap string (string * Z) (* cached contexts with their expiry *)
}.

Definition set_db (x : DB) (w : World) : World :=
  mkWorld x (w_tx w) (w_now w) (w_ids w) (w_faults w) (w_tasks w) (w_objects w) (w_cache w).
Definition set_tx (x : option DB) (w : World) : World :=
  mkWorld (w_db w) x (w_now w) (w_ids w) (w_faults w) (w_tasks w) (w_objects w) (w_cache w).
Definition set_now (x : Z) (w : World) : World :=
  mkWorld (w_db w) (w_tx w) x (w_ids w) (w_faults w) (w_tasks w) (w_objects w) (w_cache w).
Definition set_ids (x : list uuid) (w : World) : World :=
  mkWorld (w_db w) (w_tx w) (w_now w) x (w_faults w) (w_tasks w) (w_objects w) (w_cache w).
Definition set_faults (x : list bool) (w : World) : World :=
  mkWorld (w_db w) (w_tx w) (w_now w) (w_ids w) x (w_tasks w) (w_objects w) (w_cache w).
Definition add_task (t : string * string) (w : World) : World :=
  mkWorld (w_db w) (w_tx w) (w_now w) (w_ids w) (w_faults w) (w_tasks w ++ [t]) (w_objects w) (w_cache w).
Definition set_objects (x : gmap string string) (w : World) : World :=
  mkWorld (w_db w) (w_tx w) (w_now w) (w_ids w) (w_faults w) (w_tasks w) x (w_cache w).
Definition set_cache (x : gmap string (string * Z)) (w : World) : World :=
  mkWorld (w_db w) (w_tx w) (w_now w) (w_ids w) (w_faults w) (w_tasks w) (w_objects w) x.

(** Go's [time.Now()] in nanoseconds. *)
Definition go_now (w : World) : Z := 1000 * w_now w.

(** The next entry of the failure schedule; no entry means no failure. *)
Definition next_fault : M World bool := fun w =>
  match w_faults w with
  | [] => (false, w)
  | b :: f => (b, set_faults f w)
  end.

(** A statement that only reads. *)
Definition query {A} (q : DB -> result DBError A) : M World (result DBError A) :=
  b <- next_fault ;;
  if (b : bool) then ret (Err ErrConn) else gets (fun w => q (w_db w)).

(** A statement that writes; it has no effect when it fails. *)
Definition exec {A} (q : Z -> DB -> result DBError (A * DB)) : M World (result DBError A) :=
  b <- next_fault ;;
  if (b : bool) then ret (Err ErrConn)
  else fun w =>
    match q (w_now w) (w_db w) with
    | Ok (a, d) => (Ok a, set_db d w)
    | Err e => (Err e, w)
    end.

(** An INSERT whose primary key is [gen_random_uuid()]. *)
Definition insert_stmt {A} (q : Z -> uuid -> DB -> result DBError (A * DB)) : M World (result DBError A) :=
  fun w => exec (fun now d => q now (hd 0%N (w_ids w)) d) (set_ids (tl (w_ids w)) w).

(** [Pool.Begin], [tx.Commit] and the deferred [tx.Rollback]. *)
Definition Begin : M World (result DBError unit) :=
  b <- next_fault ;;
  if (b : bool) then ret (Err ErrConn)
  else fun w => (Ok tt, set_tx (Some (w_db w)) w).

Definition Rollback : M World unit := fun w =>
  match w_tx w with
  | Some d => (tt, set_tx None (set_db d w))
  | None => (tt, w)
  end.

Definition Commit : M World (result DBError unit) :=
  b <- next_fault ;;
  if (b : bool) then (do Rollback ;; ret (Err ErrConn))
  else fun w => (Ok tt, set_tx None w).

(** * Lemmas *)

Lemma status_of_text_text s : status_of_text (status_text s) = Some s.
Proof. by destruct s. Qed.

Lemma status_text_inj s1 s2 : status_text s1 = status_text s2 -> s1 = s2.
Proof. intros H. pose proof (status_of_text_text s1) as H1. rewrite H, status_of_text_text in H1. congruence. Qed.

Lemma status_of_text_Some t s : status_of_text t = Some s -> t = status_text s.
Proof. unfold status_of_text. intros H. by repeat (case_decide; simplify_eq/=). Qed.

(** Outside a transaction, a rollback does nothing. *)
Lemma Rollback_none w : w_tx w = None -> Rollback w = (tt, w).
Proof. unfold Rollback. by intros ->. Qed.

#[export] Hint Resolve status_of_text_text Rollback_none : zag.

(** ** Running handlers

    Inversion of one step of a handler: what the statement returned and how the
    world changed.  [go_run] applies these along the sequence of statements of
    a handler, so that a handler's effect is found by symbolic execution. *)

Lemma next_fault_inv w b w' : next_fault w = (b, w') -> exists f, w' = set_faults f w.
Proof.
  unfold next_fault. intros H. destruct w as [d t n i f k o c]. cbn in H.
  destruct f as [|x f]; simplify_eq/=; eexists; done.
Qed.

Lemma query_inv {A} (q : DB -> result DBError A) w r w' :
  query q w = (r, w') ->
  exists f, w' = set_faults f w /\ (r = Err ErrConn \/ r = q (w_db w)).
Proof.
  unfold query. intros H. apply bind_inv in H as (b & w1 & Hb & H).
  apply next_fault_inv in Hb as [f ->]. exists f. destruct b; unfold ret, gets in H; by simplify_eq/=; auto.
Qed.

Lemma exec_inv {A} (q : Z -> DB -> result DBError (A * DB)) w r w' :
  exec q w = (r, w') ->
  exists f,
    (exists e, r = Err e /\ w' = set_faults f w /\ (e = ErrConn \/ q (w_now w) (w_db w) = Err e)) \/
    (exists a d, r = Ok a /\ q (w_now w) (w_db w) = Ok (a, d) /\ w' = set_db d (set_faults f w)).
Proof.
  unfold exec. intros H. apply bind_inv in H as (b & w1 & Hb & H).
  apply next_fault_inv in Hb as [f ->]. exists f. destruct b; unfold ret in H; simplify_eq/=.
  - left. eauto.
  - destruct (q (w_now w) (w_db w)) as [[a d]|e]; simplify_eq/=; [right|left]; eauto 10.
Qed.

Lemma insert_stmt_inv {A} (q : Z -> uuid -> DB -> result DBError (A * DB)) w r w' :
  insert_stmt q w = (r, w') ->
  exists f,
    (exists e, r = Err e /\ w' = set_faults f (set_ids (tl (w_ids w)) w) /\
       (e = ErrConn \/ q (w_now w) (hd 0%N (w_ids w)) (w_db w) = Err e)) \/
    (exists a d, r = Ok a /\ q (w_now w) (hd 0%N (w_ids w)) (w_db w) = Ok (a, d) /\
       w' = set_db d (set_faults f (set_ids (tl (w_ids w)) w))).
Proof. unfold insert_stmt. intros H. by apply exec_inv in H. Qed.

Lemma Begin_inv w r w' :
  Begin w = (r, w') ->
  exists f, (r = Err ErrConn /\ w' = set_faults f w) \/
            (r = Ok tt /\ w' = set_tx (Some (w_db w)) (set_faults f w)).
Proof.
  unfold Begin. intros H. apply bind_inv in H as (b & w1 & Hb & H).
  apply next_fault_inv in Hb as [f ->]. exists f. destruct b; unfold ret in H; simplify_eq/=; auto.
Qed.

(** A commit succeeds, or the transaction is rolled back and closed. *)
Lemma Commit_inv w r w' :
  Commit w = (r, w') ->
  exists f, (r = Ok tt /\ w' = set_tx None (set_faults f w)) \/
            (r = Err ErrConn /\
             w' = set_tx None (set_db (default (w_db w) (w_tx w)) (set_faults f w))).
Proof.
  unfold Commit. intros H. apply bind_inv in H as (b & w1 & Hb & H).
  apply next_fault_inv in Hb as [f ->]. exists f.
  destruct b; unfold ret, bind, Rollback in H; simplify_eq/=; [right|left; done].
  destruct w as [d [t|] ? ? ? ? ? ?]; cbn in H; by simplify_eq/=.
Qed.

Lemma Rollback_inv w r w' :
  Rollback w = (r, w') ->
  w' = set_tx None (set_db (default (w_db w) (w_tx w)) w).
Proof.
  unfold Rollback. intros H. destruct w as [d [t|] ? ? ? ? ? ?]; cbn in H; by simplify_eq/=.
Qed.

Ltac go_run :=
  repeat match goal with
  | H : bind _ _ _ = (_, _) |- _ => apply bind_inv in H as (? & ? & ? & H)
  | H : query _ _ = (_, _) |- _ => apply query_inv in H as (? & -> & [-> | ->])
  | H : exec _ _ = (_, _) |- _ =>
      apply exec_inv in H as (? & [(? & -> & -> & ?) | (? & ? & -> & ? & ->)])
  | H : insert_stmt _ _ = (_, _) |- _ =>
      apply insert_stmt_inv in H as (? & [(? & -> & -> & ?) | (? & ? & -> & ? & ->)])
  | H : Begin _ = (_, _) |- _ => apply Begin_inv in H as (? & [[-> ->] | [-> ->]])
  | H : Commit _ = (_, _) |- _ => apply Commit_inv in H as (? & [[-> ->] | [-> ->]])
  | H : Rollback _ = (_, _) |- _ => apply Rollback_inv in H as ->
  | H : ret _ _ = (_, _) |- _ => unfold ret in H; simplify_eq/=
  | H : gets _ _ = (_, _) |- _ => unfold gets in H; simplify_eq/=
  | H : modify _ _ = (_, _) |- _ => unfold modify in H; simplify_eq/=
  | H : (match ?x with _ => _ end) ?w = (_, _) |- _ => is_var w; destruct x eqn:?
  | H : (match ?x with _ => _ end) (set_tx _ _) = (_, _) |- _ => destruct x eqn:?
  | H : (match ?x with _ => _ end) (set_db _ _) = (_, _) |- _ => destruct x eqn:?
  | H : (match ?x with _ => _ end) (set_faults _ _) = (_, _) |- _ => destruct x eqn:?
  | H : (match ?x with _ => _ end) (set_ids _ _) = (_, _) |- _ => destruct x eqn:?
  | _ => progress simplify_eq/=
  end.

(** ** Runs without failures *)

Lemma query_ok {A} (q : DB -> result DBError A) w :
  w_faults w = [] -> query q w = (q (w_db w), w).
Proof. unfold query, bind, next_fault, gets. by intros ->. Qed.

Lemma exec_ok {A} (q : Z -> DB -> result DBError (A * DB)) w a d :
  w_faults w = [] -> q (w_now w) (w_db w) = Ok (a, d) -> exec q w = (Ok a, set_db d w).
Proof. unfold exec, bind, next_fault. by intros -> ->. Qed.

Lemma exec_err {A} (q : Z -> DB -> result DBError (A * DB)) w e :
  w_faults w = [] -> q (w_now w) (w_db w) = Err e -> exec q w = (Err e, w).
Proof. unfold exec, bind, next_fault. by intros -> ->. Qed.

Lemma insert_stmt_ok {A} (q : Z -> uuid -> DB -> result DBError (A * DB)) w a d :
  w_faults w = [] -> q (w_now w) (hd 0%N (w_ids w)) (w_db w) = Ok (a, d) ->
  insert_stmt q w = (Ok a, set_db d (set_ids (tl (w_ids w)) w)).
Proof. intros Hf Hq. unfold insert_stmt. by apply exec_ok. Qed.

Lemma insert_stmt_err {A} (q : Z -> uuid -> DB -> result DBError (A * DB)) w e :
  w_faults w = [] -> q (w_now w) (hd 0%N (w_ids w)) (w_db w) = Err e ->
  insert_stmt q w = (Err e, set_ids (tl (w_ids w)) w).
Proof. intros Hf Hq. unfold insert_stmt. by apply exec_err. Qed.

Lemma Begin_ok w : w_faults w = [] -> Begin w = (Ok tt, set_tx (Some (w_db w)) w).
Proof. unfold Begin, bind, next_fault. by intros ->. Qed.

Lemma Commit_ok w : w_faults w = [] -> Commit w = (Ok tt, set_tx None w).
Proof. unfold Commit, bind, next_fault. by intros ->. Qed.

(** Evaluate the next statement of a run in a world without failures. *)
Ltac go_eval :=
  repeat first
    [ erewrite bind_eval by (apply query_ok; done)
    | erewrite bind_eval by (apply Begin_ok; done)
    | erewrite bind_eval by (apply Commit_ok; done)
    | erewrite bind_eval by (eapply exec_ok; [done|eassumption || reflexivity])
    | erewrite bind_eval by (eapply insert_stmt_ok; [done|eassumption || reflexivity])
    | erewrite bind_eval by (eapply insert_stmt_err; [done|eassumption || reflexivity])
    | progress cbn ].
