(* ===== verification/JobStore.v ===== *)
(** The statements of the generated store on jobs, snapshots and repositories:
    [services/shared/go/store/jobs.sql.go], [snapshots.sql.go] and
    [repositories.sql.go].  Each definition is the SQL text of the query: its
    WHERE clause as a boolean predicate, its SET list as a row update, its
    constraints (primary key, unique index, foreign key, CHECK) as the errors
    it returns.  [now] is the statement's [now()], [id] the identifier
    [gen_random_uuid()] drew. *)

From S2P Require Import Prelude GoStr Store.

Module JobStore.

(** * Definitions *)

(** ** Row updates of [jobs]; the trigger [jobs_set_updated_at] stamps
    [updated_at] on every UPDATE. *)
Definition touch (now : Z) (j : Job) : Job :=
  mkJob (j_ID j) (j_RepoID j) (j_Branch j) (j_CommitSha j) (j_DeliveryID j) (j_Status j)
    (j_ErrorMessage j) (j_CreatedAt j) now (j_StartedAt j) (j_FinishedAt j).

Definition set_claimed (now : Z) (j : Job) : Job :=
  mkJob (j_ID j) (j_RepoID j) (j_Branch j) (j_CommitSha j) (j_DeliveryID j) JobStatusRunning
    (j_ErrorMessage j) (j_CreatedAt j) (j_UpdatedAt j) (Some now) (j_FinishedAt j).

Definition set_status (now : Z) (st : JobStatus) (msg : option string) (j : Job) : Job :=
  mkJob (j_ID j) (j_RepoID j) (j_Branch j) (j_CommitSha j) (j_DeliveryID j) st msg
    (j_CreatedAt j) (j_UpdatedAt j)
    (if decide (st = JobStatusRunning) then Some now else j_StartedAt j)
    (if IsTerminal st then Some now else j_FinishedAt j).

Definition set_commit (sha : string) (j : Job) : Job :=
  mkJob (j_ID j) (j_RepoID j) (j_Branch j) sha (j_DeliveryID j) (j_Status j)
    (j_ErrorMessage j) (j_CreatedAt j) (j_UpdatedAt j) (j_StartedAt j) (j_FinishedAt j).

Definition set_superseded (j : Job) : Job :=
  mkJob (j_ID j) (j_RepoID j) (j_Branch j) (j_CommitSha j) (j_DeliveryID j) JobStatusSuperseded
    (j_ErrorMessage j) (j_CreatedAt j) (j_UpdatedAt j) (j_StartedAt j) (j_FinishedAt j).

Definition set_timed_out (now : Z) (j : Job) : Job :=
  mkJob (j_ID j) (j_RepoID j) (j_Branch j) (j_CommitSha j) (j_DeliveryID j) JobStatusFailed
    (Some "Job timed out") (j_CreatedAt j) (j_UpdatedAt j) (j_StartedAt j) (Some now).

Definition has_status (st : JobStatus) (j : Job) : bool := bool_decide (j_Status j = st).

(** [UPDATE jobs SET f WHERE id = k AND p] *)
Definition update_job (k : uuid) (p : Job -> bool) (f : Job -> Job) (d : DB) : DB :=
  match jobs d !! k with
  | Some j => if p j then set_jobs (<[k := f j]> (jobs d)) d else d
  | None => d
  end.

(** ** [jobs.sql.go] *)

(** [ClaimJob]; [locked] are the rows other sessions hold locks on, which
    [FOR UPDATE SKIP LOCKED] passes over. *)
Definition ClaimJob (locked : gset N) (now : Z) (d : DB) : result DBError (Job * DB) :=
  let free j := has_status JobStatusQueued j && bool_decide (j_ID j ∉ locked) in
  match head (order_asc j_CreatedAt (select free (jobs d))) with
  | None => Err ErrNoRows
  | Some j =>
      let j' := touch now (set_claimed now j) in
      Ok (j', set_jobs (<[j_ID j := j']> (jobs d)) d)
  end.

Record CreateJobParams := mkCreateJobParams {
  cj_RepoID : uuid;
  cj_Branch : string;
  cj_CommitSha : string;
  cj_Column4 : string
}.

(** [NULLIF(s, '')] *)
Definition NULLIF_empty (s : string) : option string :=
  if decide (s = "") then None else Some s.

Definition has_delivery (did : option string) (j : Job) : bool :=
  match did with
  | None => false
  | Some x => bool_decide (j_DeliveryID j = Some x)
  end.

Definition CreateJob (arg : CreateJobParams) (now : Z) (id : uuid) (d : DB) : result DBError (Job * DB) :=
  let delivery := NULLIF_empty (cj_Column4 arg) in
  let j := mkJob id (cj_RepoID arg) (cj_Branch arg) (cj_CommitSha arg) delivery JobStatusQueued
             None now now None None in
  if bool_decide (is_Some (jobs d !! id)) then Err ErrUniqueViolation
  else if any_row (has_delivery delivery) (jobs d) then Err ErrUniqueViolation
  else if bool_decide (repositories d !! cj_RepoID arg = None) then Err ErrForeignKeyViolation
  else Ok (j, set_jobs (<[id := j]> (jobs d)) d).

Definition active_on (repo : uuid) (branch : string) (j : Job) : bool :=
  bool_decide (j_RepoID j = repo) && bool_decide (j_Branch j = branch)
  && (has_status JobStatusQueued j || has_status JobStatusRunning j).

Definition GetActiveJobsForBranch (repo : uuid) (branch : string) (d : DB) : result DBError (list Job) :=
  Ok (order_asc j_CreatedAt (select (active_on repo branch) (jobs d))).

Definition GetJobByID (id : uuid) (d : DB) : result DBError Job :=
  result_of_option ErrNoRows (jobs d !! id).

Definition GetJobForUpdate (id : uuid) (d : DB) : result DBError Job :=
  result_of_option ErrNoRows (jobs d !! id).

Record GetRepoForJobRow := mkGetRepoForJobRow {
  rj_ID : uuid;
  rj_GithubRepoID : Z;
  rj_InstallationID : Z;
  rj_FullName : string;
  rj_DefaultBranch : string
}.

Definition GetRepoForJob (id : uuid) (d : DB) : result DBError GetRepoForJobRow :=
  match jobs d !! id with
  | None => Err ErrNoRows
  | Some j =>
      match repositories d !! j_RepoID j with
      | None => Err ErrNoRows
      | Some r => Ok (mkGetRepoForJobRow (r_ID r) (r_GithubRepoID r) (r_InstallationID r)
                        (r_FullName r) (r_DefaultBranch r))
      end
  end.

(** [ORDER BY created_at DESC LIMIT n]; a negative LIMIT is an error. *)
Definition limit {A} (n : Z) (l : list A) : list A := take (Z.to_nat n) l.

Definition ListJobsByRepo (repo : uuid) (before : Z) (n : Z) (d : DB) : result DBError (list Job) :=
  let p j := bool_decide (j_RepoID j = repo) && (j_CreatedAt j <? before) in
  if n <? 0 then Err ErrConn
  else Ok (limit n (order_desc j_CreatedAt (select p (jobs d)))).

Definition MarkJobSuperseded (id : uuid) (now : Z) (d : DB) : result DBError (unit * DB) :=
  Ok (tt, update_job id (has_status JobStatusQueued) (fun j => touch now (set_superseded j)) d).

(** [started_at < now() - make_interval(mins => n)] *)
Definition timed_out (now mins : Z) (j : Job) : bool :=
  has_status JobStatusRunning j &&
  match j_StartedAt j with
  | Some t => t <? now - mins * 60000000
  | None => false
  end.

Definition TimeoutRunningJobs (mins : Z) (now : Z) (d : DB) : result DBError (Z * DB) :=
  let hit := timed_out now mins in
  Ok (Z.of_nat (length (select hit (jobs d))),
      set_jobs ((fun j => if hit j then touch now (set_timed_out now j) else j) <$> jobs d) d).

Definition UpdateJobCommitSHA (id : uuid) (sha : string) (now : Z) (d : DB) : result DBError (unit * DB) :=
  Ok (tt, update_job id (has_status JobStatusQueued) (fun j => touch now (set_commit sha j)) d).

Record UpdateJobStatusParams := mkUpdateJobStatusParams {
  us_ID : uuid;
  us_Status : JobStatus;
  us_ErrorMessage : option string
}.

Definition UpdateJobStatus (arg : UpdateJobStatusParams) (now : Z) (d : DB) : result DBError (unit * DB) :=
  Ok (tt, update_job (us_ID arg) (fun _ => true)
            (fun j => touch now (set_status now (us_Status arg) (us_ErrorMessage arg) j)) d).

(** ** [snapshots.sql.go] *)

Definition on_branch (repo : uuid) (branch : string) (s : Snapshot) : bool :=
  bool_decide (s_RepoID s = repo) && bool_decide (s_Branch s = branch).

Definition same_commit (repo : uuid) (branch sha : string) (s : Snapshot) : bool :=
  on_branch repo branch s && bool_decide (s_CommitSha s = sha).

Definition GetLatestSnapshot (repo : uuid) (branch : string) (d : DB) : result DBError Snapshot :=
  result_of_option ErrNoRows
    (head (order_desc s_CreatedAt (select (on_branch repo branch) (snapshots d)))).

Definition GetSnapshotByID (id : uuid) (d : DB) : result DBError Snapshot :=
  result_of_option ErrNoRows (snapshots d !! id).

Definition GetSnapshotsByBranch (repo : uuid) (branch : string) (d : DB) : result DBError (list Snapshot) :=
  Ok (order_desc s_CreatedAt (select (on_branch repo branch) (snapshots d))).

Record InsertCLISnapshotParams := mkInsertCLISnapshotParams {
  ics_RepoID : uuid;
  ics_Branch : string;
  ics_CommitSha : string;
  ics_GcsPath : string;
  ics_SnapshotVersion : Z;
  ics_ZigzagVersion : string;
  ics_SizeBytes : Z;
  ics_Metadata : option string
}.

(** The DO UPDATE branch keeps the id, the job and the creation time. *)
Definition cli_overwrite (a : InsertCLISnapshotParams) (s : Snapshot) : Snapshot :=
  mkSnapshot (s_ID s) (s_RepoID s) (s_JobID s) (s_Branch s) (s_CommitSha s) (ics_GcsPath a)
    (ics_SnapshotVersion a) (ics_ZigzagVersion a) (ics_SizeBytes a) (s_CreatedAt s) (ics_Metadata a).

Definition InsertCLISnapshot (a : InsertCLISnapshotParams) (now : Z) (id : uuid) (d : DB) :
    result DBError (Snapshot * DB) :=
  match find_row (same_commit (ics_RepoID a) (ics_Branch a) (ics_CommitSha a)) (snapshots d) with
  | Some s =>
      let s' := cli_overwrite a s in
      Ok (s', set_snapshots (<[s_ID s := s']> (snapshots d)) d)
  | None =>
      if bool_decide (is_Some (snapshots d !! id)) then Err ErrUniqueViolation
      else if bool_decide (repositories d !! ics_RepoID a = None) then Err ErrForeignKeyViolation
      else
        let s := mkSnapshot id (ics_RepoID a) None (ics_Branch a) (ics_CommitSha a) (ics_GcsPath a)
                   (ics_SnapshotVersion a) (ics_ZigzagVersion a) (ics_SizeBytes a) now (ics_Metadata a) in
        Ok (s, set_snapshots (<[id := s]> (snapshots d)) d)
  end.

Record InsertSnapshotParams := mkInsertSnapshotParams {
  is_RepoID : uuid;
  is_JobID : uuid;
  is_Branch : string;
  is_CommitSha : string;
  is_GcsPath : string;
  is_SnapshotVersion : Z;
  is_ZigzagVersion : string;
  is_SizeBytes : Z
}.

Definition InsertSnapshot (a : InsertSnapshotParams) (now : Z) (id : uuid) (d : DB) :
    result DBError (Snapshot * DB) :=
  let s := mkSnapshot id (is_RepoID a) (Some (is_JobID a)) (is_Branch a) (is_CommitSha a) (is_GcsPath a)
             (is_SnapshotVersion a) (is_ZigzagVersion a) (is_SizeBytes a) now None in
  if bool_decide (is_Some (snapshots d !! id)) then Err ErrUniqueViolation
  else if any_row (same_commit (is_RepoID a) (is_Branch a) (is_CommitSha a)) (snapshots d)
       then Err ErrUniqueViolation
  else if bool_decide (repositories d !! is_RepoID a = None) then Err ErrForeignKeyViolation
  else if bool_decide (jobs d !! is_JobID a = None) then Err ErrForeignKeyViolation
  else Ok (s, set_snapshots (<[id := s]> (snapshots d)) d).

(** ** [repositories.sql.go] *)

Definition GetRepoByGithubID (gid : Z) (d : DB) : result DBError Repository :=
  result_of_option ErrNoRows
    (find_row (fun r => bool_decide (r_GithubRepoID r = gid)) (repositories d)).

Definition GetRepoByID (id : uuid) (d : DB) : result DBError Repository :=
  result_of_option ErrNoRows (repositories d !! id).

(** [org_id = $2] is never true for a NULL parameter or a NULL column. *)
Definition sql_eq (a b : option uuid) : bool :=
  match a, b with Some x, Some y => bool_decide (x = y) | _, _ => false end.

Definition GetRepoByFullNameAndOrg (name : string) (org : option uuid) (d : DB) : result DBError Repository :=
  result_of_option ErrNoRows
    (find_row (fun r => bool_decide (r_FullName r = name) && sql_eq (r_OrgID r) org) (repositories d)).

Definition GetRepoByFullNameAndUser (name : string) (user : option uuid) (d : DB) : result DBError Repository :=
  result_of_option ErrNoRows
    (find_row (fun r => bool_decide (r_FullName r = name) && sql_eq (r_UserID r) user) (repositories d)).

Record UpsertRepoParams := mkUpsertRepoParams {
  ur_UserID : option uuid;
  ur_OrgID : option uuid;
  ur_GithubRepoID : Z;
  ur_InstallationID : Z;
  ur_FullName : string;
  ur_DefaultBranch : string
}.

(** [repositories_owner_check]: exactly one owner. *)
Definition one_owner (user org : option uuid) : bool :=
  match user, org with
  | Some _, None | None, Some _ => true
  | _, _ => false
  end.

Definition UpsertRepo (a : UpsertRepoParams) (now : Z) (id : uuid) (d : DB) : result DBError (Repository * DB) :=
  let fk :=
    match ur_UserID a with Some u => bool_decide (users d !! u = None) | None => false end
    || match ur_OrgID a with Some o => bool_decide (organizations d !! o = None) | None => false end in
  if negb (one_owner (ur_UserID a) (ur_OrgID a)) then Err ErrCheckViolation
  else
    match find_row (fun r => bool_decide (r_GithubRepoID r = ur_GithubRepoID a)) (repositories d) with
    | Some r =>
        let r' := mkRepository (r_ID r) (r_OrgID r) (r_GithubRepoID r) (ur_InstallationID a)
                    (ur_FullName a) (ur_DefaultBranch a) (r_InstalledAt r) (r_UserID r) in
        Ok (r', set_repositories (<[r_ID r := r']> (repositories d)) d)
    | None =>
        if bool_decide (is_Some (repositories d !! id)) then Err ErrUniqueViolation
        else if fk then Err ErrForeignKeyViolation
        else
          let r := mkRepository id (ur_OrgID a) (ur_GithubRepoID a) (ur_InstallationID a)
                     (ur_FullName a) (ur_DefaultBranch a) now (ur_UserID a) in
          Ok (r, set_repositories (<[id := r]> (repositories d)) d)
    end.

End JobStore.
