(* ===== verification/HttpUtil.v ===== *)
(** Request plumbing shared by the handlers: [services/shared/go/httputil]
    (page limits, cursors, UUID parameters) and the struct validation of
    [services/api/internal/validate/validate.go].

    The validator library itself is not part of the program: its tag checks
    are the fields of the class [Validator], with the documented meaning of
    each tag as a law. *)

From S2P Require Import Prelude GoStr.

(** * Definitions *)

(** ** [params.go] *)
Definition DefaultPageLimit : Z := 50.
Definition MaxPageLimit : Z := 100.

(** [ParseLimit], on the text of the [limit] query parameter. *)
Definition ParseLimit (s : string) : Z :=
  if decide (s = "") then DefaultPageLimit
  else
    match Atoi s with
    | None => DefaultPageLimit
    | Some n =>
        if n <? 1 then DefaultPageLimit
        else if MaxPageLimit <? n then MaxPageLimit
        else wrap32 n
    end.

Definition ErrInvalidCursor : string := "invalid cursor, expected RFC3339".

(** [ParseCursor]: [parse] is [time.Parse(time.RFC3339Nano, _)] in
    microseconds, [now] the current time. *)
Definition ParseCursor (parse : string -> option Z) (now : Z) (raw : string) : result string Z :=
  if decide (raw = "") then Ok now
  else match parse raw with
       | Some t => Ok t
       | None => Err ErrInvalidCursor
       end.

Definition UUIDFromString `{UUIDCodec} (s : string) : option uuid := uuid_scan s.

(** ** [validate.go] *)
Record FieldError := mkFieldError {
  fe_Field : string;
  fe_Tag : string;
  fe_Param : string
}.

Definition fieldError (fe : FieldError) : string :=
  let field := fe_Field fe in
  let tag := fe_Tag fe in
  if decide (tag = "required") then field +:+ " is required"
  else if decide (tag = "required_if") then field +:+ " is required when " +:+ fe_Param fe
  else if decide (tag = "uuid") then field +:+ " must be a valid UUID"
  else if decide (tag = "oneof") then field +:+ " must be one of: " +:+ fe_Param fe
  else if decide (tag = "gt") then field +:+ " must be greater than " +:+ fe_Param fe
  else if decide (tag = "gte") then field +:+ " must be greater than or equal to " +:+ fe_Param fe
  else if decide (tag = "max") then field +:+ " must be at most " +:+ fe_Param fe +:+ " characters"
  else if decide (tag = "min") then field +:+ " must be at least " +:+ fe_Param fe +:+ " characters"
  else field +:+ " failed on " +:+ tag +:+ " validation".

(** [strings.Join(msgs, "; ")] *)
Fixpoint join_msgs (l : list string) : string :=
  match l with
  | [] => ""
  | [x] => x
  | x :: l => x +:+ "; " +:+ join_msgs l
  end.

Definition formatErrors (ve : list FieldError) : string := join_msgs (fieldError <$> ve).

(** [Struct], on the errors the validator reports for the struct's tags. *)
Definition Struct (ve : list FieldError) : result string unit :=
  match ve with
  | [] => Ok tt
  | _ => Err (formatErrors ve)
  end.

(** The tags the request structs use, with their documented meaning. *)
Class Validator := {
  tag_required : string -> bool;
  tag_uuid : string -> bool;
  tag_oneof : list string -> string -> bool;
  tag_gte : Z -> Z -> bool;
  tag_min : Z -> string -> bool;
  tag_max : Z -> string -> bool;
  tag_email : string -> bool;
  tag_len : Z -> string -> bool;
  tag_url : string -> bool;
  tag_lte : Z -> Z -> bool;
  tag_required_spec : forall s, tag_required s = true <-> s <> "";
  tag_oneof_spec : forall l s, tag_oneof l s = true <-> s ∈ l;
  tag_gte_spec : forall n z, tag_gte n z = true <-> n <= z
}.

(** The first failing tag of a field, as the validator reports it. *)
Fixpoint check_field (field : string) (tags : list (string * string * bool)) : list FieldError :=
  match tags with
  | [] => []
  | (tag, param, ok) :: tags =>
      if (ok : bool) then check_field field tags else [mkFieldError field tag param]
  end.

(** A validator for closed examples: a text is a UUID when the codec scans it. *)
Definition example_validator `{UUIDCodec} : Validator.
Proof.
  refine {|
    tag_required s := bool_decide (s <> "");
    tag_uuid s := bool_decide (is_Some (uuid_scan s));
    tag_oneof l s := bool_decide (s ∈ l);
    tag_gte n z := n <=? z;
    tag_min n s := n <=? len s;
    tag_max n s := len s <=? n;
    tag_email s := has_char "@" s;
    tag_len n s := len s =? n;
    tag_url s := has_char ":" s;
    tag_lte n z := z <=? n |}.
  - intros s. by rewrite bool_decide_eq_true.
  - intros l s. by rewrite bool_decide_eq_true.
  - intros n z. lia.
Defined.

(** A codec for closed examples: an identifier's text is its decimal number. *)
Definition example_codec : UUIDCodec.
Proof.
  refine {|
    uuid_scan s := Z.to_N <$> parse_digits s;
    uuid_text u := FormatInt (Z.of_N u) |}.
  intros u. unfold FormatInt.
  pose proof (Z_to_int_nonnil (Z.of_N u)) as Hn.
  pose proof (DecimalZ.of_to (Z.of_N u)) as Ho.
  destruct (Z.to_int (Z.of_N u)) as [v|v] eqn:E; cbn [DecimalString.NilZero.string_of_int].
  - rewrite string_of_uint_NilZero, parse_digits_of_uint by done. cbn in Ho |- *.
    by rewrite Ho, N2Z.id.
  - exfalso. destruct u; by vm_compute in E.
Defined.

(** A collation for closed examples. *)
Definition example_collation : Collation.
Proof.
  refine {| text_lt a b := (encode a <? encode b)%positive |}.
  - intros a. apply Pos.ltb_irrefl.
  - intros a b c. rewrite !Pos.ltb_lt. lia.
  - intros a b. rewrite !Pos.ltb_lt. destruct (decide (encode a = encode b)) as [E|E]; [|lia].
    right; left. by apply encode_inj in E.
Defined.

(** Any value as the text of the bits of its number, for closed examples. *)
Fixpoint bits (p : positive) : string :=
  match p with
  | xH => "."
  | xO p => String "0" (bits p)
  | xI p => String "1" (bits p)
  end.

Fixpoint of_bits (s : string) : option positive :=
  match s with
  | "" => None
  | String c s =>
      if bool_decide (c = "0"%char) then xO <$> of_bits s
      else if bool_decide (c = "1"%char) then xI <$> of_bits s
      else Some xH
  end.

Definition to_text {A} `{Countable A} (x : A) : string := bits (encode x).
Definition of_text {A} `{Countable A} (s : string) : option A := of_bits s ≫= decode.

(** * Lemmas *)

Lemma of_bits_bits p : of_bits (bits p) = Some p.
Proof. induction p as [p IH|p IH|]; [| |done]; cbn -[bool_decide]; by rewrite IH. Qed.

Lemma of_to_text {A} `{Countable A} (x : A) : of_text (to_text x) = Some x.
Proof. unfold of_text, to_text. rewrite of_bits_bits. apply decode_encode. Qed.

Lemma ParseLimit_cases s :
  ParseLimit s = DefaultPageLimit \/ ParseLimit s = MaxPageLimit \/
  exists n, Atoi s = Some n /\ 1 <= n <= MaxPageLimit /\ ParseLimit s = n.
Proof.
  unfold ParseLimit. case_decide; [by left|].
  destruct (Atoi s) as [n|]; [|by left].
  destruct (n <? 1) eqn:H1; [by left|].
  destruct (MaxPageLimit <? n) eqn:H2; [by right; left|].
  right; right. exists n. split_and!; [done|unfold MaxPageLimit in *; lia..|].
  unfold wrap32, MaxPageLimit in *. rewrite Z.mod_small; lia.
Qed.

Lemma ParseLimit_bounds s : 1 <= ParseLimit s <= MaxPageLimit.
Proof.
  destruct (ParseLimit_cases s) as [->|[->|(n & _ & Hn & ->)]]; [by vm_compute|by vm_compute|done].
Qed.

Lemma Struct_Ok ve : Struct ve = Ok tt <-> ve = [].
Proof. by destruct ve. Qed.

Lemma check_field_nil f tags :
  check_field f tags = [] <-> Forall (fun t => t.2 = true) tags.
Proof.
  induction tags as [|[[tag param] ok] tags IH]; [done|]. cbn.
  rewrite Forall_cons. destruct ok; naive_solver.
Qed.

#[export] Hint Resolve ParseLimit_bounds : zag.
