(* ===== verification/Middleware.v ===== *)
(** The middlewares in front of the API's handlers that need no database:
    [services/api/internal/middleware/bodylimit], [contenttype] and
    [ratelimit], with the sliding window the last keeps in Redis. *)

From S2P Require Import Prelude GoStr.

(** * Definitions *)

(** ** [bodylimit.go] *)
Module BodyLimit.

(** A request body: its bytes ([None] when the connection fails before the
    end) and the cap of an [http.MaxBytesReader] around it. *)
Record Body := mkBody {
  b_content : option string;
  b_cap : option Z
}.

Definition hasBody (method : string) : bool :=
  bool_decide (method ∈ ["POST"; "PUT"; "PATCH"]).

Definition Limit (maxBytes : Z) (method : string) (b : Body) : Body :=
  if hasBody method then mkBody (b_content b) (Some maxBytes) else b.

(** Reading at most [n] bytes: the cap is only noticed when a byte beyond it is
    asked for. *)
Definition read_upto (n : Z) (b : Body) : option string :=
  match b_content b with
  | None => None
  | Some s =>
      match b_cap b with
      | Some cap => if cap <? Z.min (len s) n then None else Some s
      | None => Some s
      end
  end.

(** Reading to the end. *)
Definition read_all (b : Body) : option string :=
  match b_content b with
  | None => None
  | Some s =>
      match b_cap b with
      | Some cap => if cap <? len s then None else Some s
      | None => Some s
      end
  end.

End BodyLimit.

(** ** [contenttype.go] *)
Module ContentType.

Definition ErrUnsupportedMediaType : string := "Content-Type must be application/json".

Definition requiresBody (method : string) : bool :=
  bool_decide (method ∈ ["POST"; "PUT"; "PATCH"]).

(** [mime.ParseMediaType] is library code: [parse] gives the media type. *)
Definition isJSON (parse : string -> option string) (ct : string) : bool :=
  if decide (ct = "") then false
  else match parse ct with
       | None => false
       | Some mediaType => bool_decide (mediaType = "application/json")
       end.

Definition RequireJSON (parse : string -> option string) (method ct : string) : result (Z * string) unit :=
  if requiresBody method && negb (isJSON parse ct)
  then Err (StatusUnsupportedMediaType, ErrUnsupportedMediaType)
  else Ok tt.

End ContentType.

(** ** [ratelimit.go] *)
Module RateLimit.

Record RateLimitConfig := mkRateLimitConfig {
  MaxRequests : Z;
  Window : Z  (* nanoseconds *)
}.

(** [keyFunc]: [subject] are the claims of an authenticated request,
    [SplitHostPort] the library's split of a host:port pair. *)
Definition keyFunc (SplitHostPort : string -> option string) (subject : option string)
    (remoteAddr prefix : string) : string :=
  match subject with
  | Some sub => "rl:" +:+ prefix +:+ ":user:" +:+ sub
  | None =>
      let ip := match SplitHostPort remoteAddr with Some h => h | None => remoteAddr end in
      "rl:" +:+ prefix +:+ ":ip:" +:+ ip
  end.

(** Redis, as far as the limiter uses it: sorted sets (member to score) with an
    expiry instant in nanoseconds. *)
Record ZSet := mkZSet {
  z_scores : gmap string Z;
  z_expires : option Z
}.

Abbreviation Redis := (gmap string ZSet) (only parsing).

Definition live (now : Z) (z : ZSet) : ZSet :=
  match z_expires z with
  | Some e => if e <=? now then mkZSet ∅ None else z
  | None => z
  end.

(** The set of a key at [now]; a missing or expired key is empty. *)
Definition zset (now : Z) (key : string) (rdb : Redis) : ZSet :=
  match rdb !! key with Some z => live now z | None => mkZSet ∅ None end.

Definition ZRemRangeByScore (hi : Z) (z : ZSet) : ZSet :=
  mkZSet (filter (fun e => hi < e.2) (z_scores z)) (z_expires z).

Definition ZCard (z : ZSet) : Z := Z.of_nat (size (z_scores z)).

Definition ZAdd (score : Z) (member : string) (z : ZSet) : ZSet :=
  mkZSet (<[member := score]> (z_scores z)) (z_expires z).

Definition Expire (at_ : Z) (z : ZSet) : ZSet := mkZSet (z_scores z) (Some at_).

(** [t.UnixMicro()] *)
Definition unix_micro (t : Z) : Z := t / 1000.

(** The whole pipeline of [checkRateLimit] at instant [now] and its decision
    (allowed, remaining). *)
Definition checkRateLimit (cfg : RateLimitConfig) (key : string) (now : Z) (rdb : Redis) :
    (bool * Z) * Redis :=
  let windowStart := unix_micro (now - Window cfg) in
  let nowMicro := unix_micro now in
  let member := FormatInt nowMicro in
  let z1 := ZRemRangeByScore windowStart (zset now key rdb) in
  let count := ZCard z1 in
  let z2 := ZAdd nowMicro member z1 in
  let z3 := Expire (now + Window cfg + 1000000000) z2 in
  let remaining := Z.max (MaxRequests cfg - count - 1) 0 in
  let rdb' := <[key := z3]> rdb in
  if MaxRequests cfg <=? count then ((false, 0), rdb') else ((true, remaining), rdb').

Definition errRateLimitExceeded : string := "rate limit exceeded".

(** The middleware: [up] says whether the pipeline could be executed; when it
    could not, the request is let through. *)
Definition RateLimit (cfg : RateLimitConfig) (key : string) (up : bool) (now : Z) :
    M Redis (result (Z * string) unit) := fun rdb =>
  if up then
    let '((allowed, _), rdb') := checkRateLimit cfg key now rdb in
    if (allowed : bool) then (Ok tt, rdb') else (Err (StatusTooManyRequests, errRateLimitExceeded), rdb')
  else (Ok tt, rdb).

(** The decisions for the requests of one key at the given instants. *)
Fixpoint decisions (cfg : RateLimitConfig) (key : string) (ts : list Z) (rdb : Redis) : list bool :=
  match ts with
  | [] => []
  | t :: ts =>
      let '((allowed, _), rdb') := checkRateLimit cfg key t rdb in
      allowed :: decisions cfg key ts rdb'
  end.

(** The instants of the requests that were let through. *)
Fixpoint granted (ts : list Z) (bs : list bool) : list Z :=
  match ts, bs with
  | t :: ts, b :: bs => if (b : bool) then t :: granted ts bs else granted ts bs
  | _, _ => []
  end.

End RateLimit.

(** ** [zaprecoverer.go]: a panic of the handler becomes a log entry and, unless
    the connection was upgraded, a 500. *)
Module ZapRecoverer.

(** The response writer: the status sent, if any; and the log. *)
Record Writer := mkWriter {
  wr_Status : option Z;
  wr_Log : list (string * string * string)  (* panic value, method, path *)
}.

(** How a handler ends. *)
Inductive Outcome : Set :=
| Returned
| Panicked (v : string).

(** [w.WriteHeader]: only the first status is sent. *)
Definition WriteHeader (status : Z) : M Writer unit :=
  modify (fun w => mkWriter (Some (default status (wr_Status w))) (wr_Log w)).

Definition Middleware (method path connection : string) (next : M Writer Outcome) : M Writer unit :=
  o <- next ;;
  match o with
  | Returned => ret tt
  | Panicked v =>
      do modify (fun w => mkWriter (wr_Status w) (wr_Log w ++ [(v, method, path)])) ;;
      if decide (connection <> "Upgrade") then WriteHeader StatusInternalServerError else ret tt
  end.

End ZapRecoverer.

(** * Lemmas *)

Module RateLimitFacts.
Import RateLimit.

(** What the limiter promises: a request at [m] passes when fewer than
    [limit] requests arrived in the window before it. *)
Definition recent (w m : Z) (hist : list Z) : list Z := filter (fun h => m - w < h) hist.

Fixpoint window_decisions (limit w : Z) (hist ms : list Z) : list bool :=
  match ms with
  | [] => []
  | m :: ms =>
      bool_decide (Z.of_nat (length (recent w m hist)) < limit) :: window_decisions limit w (hist ++ [m]) ms
  end.

Definition in_window (lo w m : Z) : Prop := lo < m <= lo + w.

#[export] Instance in_window_dec lo w m : Decision (in_window lo w m).
Proof. unfold in_window. apply _. Defined.

(** A filter of a sublist by a stronger test is shorter. *)
Lemma filter_length_mono {A} (P Q : A -> Prop) `{!forall x, Decision (P x)} `{!forall x, Decision (Q x)} (l k : list A) :
  l `sublist_of` k -> (forall x, x ∈ l -> P x -> Q x) -> (length (filter P l) <= length (filter Q k))%nat.
Proof.
  intros Hs HPQ. induction Hs as [|x l k Hs IH|x l k Hs IH]; [done| |].
  - rewrite !filter_cons. assert (length (filter P l) <= length (filter Q k))%nat as IH'.
    { apply IH. intros y Hy. apply HPQ. by right. }
    destruct (decide (P x)) as [HP|]; destruct (decide (Q x)) as [|HQ]; cbn; try lia.
    destruct HQ. apply HPQ; [by left|done].
  - rewrite filter_cons. destruct (decide (Q x)); cbn; specialize (IH HPQ); lia.
Qed.

(** The window bound of the abstract limiter, with [G] granted earlier. *)
Lemma window_bound limit w lo ms : forall hist G,
  0 <= limit -> 0 <= w -> G `sublist_of` hist ->
  Z.of_nat (length (filter (in_window lo w) G)) <= limit ->
  Z.of_nat (length (filter (in_window lo w) (G ++ granted ms (window_decisions limit w hist ms)))) <= limit.
Proof.
  induction ms as [|m ms IH]; intros hist G Hl Hw Hs HG; cbn [window_decisions granted].
  - by rewrite app_nil_r.
  - assert (G `sublist_of` hist ++ [m]) as Hs1 by (by apply sublist_inserts_r).
    case_bool_decide as Hc; [|by apply IH].
    rewrite (cons_middle m G), app_assoc. apply IH; [done..| |].
    + by apply sublist_app.
    + rewrite filter_app, length_app, filter_cons, filter_nil.
      destruct (decide (in_window lo w m)) as [Hm|]; cbn; [|lia].
      assert (length (filter (in_window lo w) G) <= length (recent w m hist))%nat; [|lia].
      apply filter_length_mono; [done|]. unfold in_window in *. intros; lia.
Qed.

Definition entry (h : Z) : string * Z := (FormatInt h, h).

(** What Redis holds for a key after the requests [hist], the last at [last]. *)
Definition tracks (W : Z) (key : string) (hist : list Z) (last : Z) (rdb : Redis) : Prop :=
  match rdb !! key with
  | None => hist = []
  | Some z =>
      z_expires z = Some (last + W + 1000000000) /\
      (forall m s, z_scores z !! m = Some s -> m = FormatInt s /\ s ∈ hist) /\
      (forall h, h ∈ hist -> unix_micro (last - W) < h -> z_scores z !! FormatInt h = Some h) /\
      (forall h, h ∈ hist -> h <= unix_micro last)
  end.

Lemma unix_micro_mono a b : a <= b -> unix_micro a <= unix_micro b.
Proof. unfold unix_micro. intros. by apply Z.div_le_mono. Qed.

(** The entries that survive the trimming at [now] are the recent requests. *)
Lemma tracks_window W key hist last rdb now i s :
  0 <= W -> tracks W key hist last rdb -> last <= now ->
  z_scores (ZRemRangeByScore (unix_micro (now - W)) (zset now key rdb)) !! i = Some s <->
  i = FormatInt s /\ s ∈ hist /\ unix_micro (now - W) < s.
Proof.
  intros HW Ht Hn. unfold ZRemRangeByScore. cbn [z_scores]. rewrite map_lookup_filter_Some. cbn [snd].
  unfold zset. unfold tracks in Ht. destruct (rdb !! key) as [z|].
  2:{ subst hist. cbn. rewrite lookup_empty. split; [by intros []|]. by intros (_ & Hin & _); apply not_elem_of_nil in Hin. }
  destruct Ht as (He & Hs & Hk & Hle). unfold live. rewrite He.
  pose proof (unix_micro_mono (last - W) (now - W)) as Hm1.
  destruct (last + W + 1000000000 <=? now) eqn:Hexp; cbn.
  - rewrite lookup_empty. split; [by intros []|]. intros (_ & Hin & Hlt). specialize (Hle s Hin).
    pose proof (unix_micro_mono last (now - W)). lia.
  - split; [intros [Hi Hlt]; by destruct (Hs i s Hi)|]. intros (-> & Hin & Hlt). split; [|done].
    apply Hk; [done|lia].
Qed.

Lemma tracks_count W key hist last rdb now :
  0 <= W -> tracks W key hist last rdb -> last <= now -> NoDup hist ->
  ZCard (ZRemRangeByScore (unix_micro (now - W)) (zset now key rdb)) =
    Z.of_nat (length (filter (fun h => unix_micro (now - W) < h) hist)).
Proof.
  intros HW Ht Hn Hnd. unfold ZCard. f_equal.
  set (l := entry <$> filter (fun h => unix_micro (now - W) < h) hist).
  assert (NoDup l.*1) as Hnd1.
  { unfold l. rewrite <-list_fmap_compose. apply NoDup_fmap_2; [intros a b; apply FormatInt_inj|].
    by apply NoDup_filter. }
  replace (length _) with (length l) by (unfold l; by rewrite length_fmap).
  rewrite <-(map_size_list_to_map (M := gmap string) l Hnd1). f_equal.
  apply map_eq. intros i. apply option_eq. intros s.
  rewrite (tracks_window W key hist last rdb now i s HW Ht Hn).
  rewrite <-elem_of_list_to_map by done. unfold l. rewrite list_elem_of_fmap. unfold entry. split.
  - intros (-> & Hin & Hlt). exists s. split; [done|]. by apply list_elem_of_filter.
  - intros (h & [= -> ->] & Hin). apply list_elem_of_filter in Hin as [Hlt Hin]. done.
Qed.

(** One request keeps the record in step. *)
Lemma tracks_step W limit key hist last rdb now :
  0 <= W -> tracks W key hist last rdb -> last <= now ->
  tracks W key (hist ++ [unix_micro now]) now (checkRateLimit (mkRateLimitConfig limit W) key now rdb).2.
Proof.
  intros HW Ht Hn. pose proof (tracks_window W key hist last rdb now) as Hwin.
  assert (forall h, h ∈ hist -> h <= unix_micro now) as Hle.
  { intros h Hh. unfold tracks in Ht. pose proof (unix_micro_mono last now Hn).
    destruct (rdb !! key); [|subst; by apply not_elem_of_nil in Hh].
    destruct Ht as (_ & _ & _ & Hle). specialize (Hle h Hh). lia. }
  assert ((checkRateLimit (mkRateLimitConfig limit W) key now rdb).2 =
    <[key := Expire (now + W + 1000000000) (ZAdd (unix_micro now) (FormatInt (unix_micro now))
       (ZRemRangeByScore (unix_micro (now - W)) (zset now key rdb)))]> rdb) as ->
    by (unfold checkRateLimit; cbn; by destruct (_ <=? _)).
  unfold tracks. rewrite lookup_insert_eq. cbn [z_expires z_scores Expire ZAdd].
  split; [done|split; [|split]].
  - intros m s Hm. destruct (decide (m = FormatInt (unix_micro now))) as [->|Hne]; simplify_map_eq.
    + split; [done|]. apply elem_of_app. right. by apply list_elem_of_singleton.
    + apply Hwin in Hm as (-> & Hin & _); [|done..]. split; [done|]. apply elem_of_app. by left.
  - intros h Hh Hlt. destruct (decide (h = unix_micro now)) as [->|Hne]; [by rewrite lookup_insert_eq|].
    rewrite lookup_insert_ne; [|intros E; by apply FormatInt_inj in E].
    apply Hwin; [done..|]. apply elem_of_app in Hh as [Hh|Hh]; [done|]. by apply list_elem_of_singleton in Hh.
  - intros h Hh. apply elem_of_app in Hh as [Hh|Hh]; [auto|]. apply list_elem_of_singleton in Hh as ->. lia.
Qed.

(** The Redis pipeline implements the abstract limiter, for requests in
    distinct microseconds. *)
Lemma decisions_window limit w key ts : forall hist last rdb,
  0 <= w -> tracks (1000 * w) key hist last rdb -> NoDup hist ->
  (forall h, h ∈ hist -> h <= unix_micro last) ->
  StronglySorted Z.lt (unix_micro last :: (unix_micro <$> ts)) ->
  StronglySorted Z.le (last :: ts) ->
  decisions (mkRateLimitConfig limit (1000 * w)) key ts rdb = window_decisions limit w hist (unix_micro <$> ts).
Proof.
  induction ts as [|t ts IH]; intros hist last rdb Hw Ht Hnd Hle Hlt Hls; [done|].
  apply StronglySorted_inv in Hls as [Hls Hge]. apply Forall_cons in Hge as [Hge _].
  apply StronglySorted_inv in Hlt as [Hlt Hgt]. cbn in Hgt. apply Forall_cons in Hgt as [Hgt _].
  pose proof (tracks_step (1000 * w) limit key hist last rdb t ltac:(lia) Ht Hge) as Ht1.
  pose proof (tracks_count (1000 * w) key hist last rdb t ltac:(lia) Ht Hge Hnd) as Hcount.
  assert (unix_micro (t - 1000 * w) = unix_micro t - w) as Hmw.
  { unfold unix_micro. replace (t - 1000 * w) with (t + (- w) * 1000) by lia. rewrite Z.div_add by lia. lia. }
  cbn [decisions fmap list_fmap window_decisions].
  destruct (checkRateLimit _ key t rdb) as [[a r] rdb'] eqn:Hc. cbn [snd] in Ht1. f_equal.
  - unfold checkRateLimit in Hc. cbn [MaxRequests Window] in Hc. rewrite Hcount, Hmw in Hc. unfold recent.
    destruct (_ <=? _) eqn:E; simplify_eq/=; symmetry; [apply bool_decide_eq_false|apply bool_decide_eq_true]; lia.
  - eapply (IH _ t); try done.
    + apply NoDup_app. split_and!; [done| |apply NoDup_singleton].
      intros h Hh Hx. apply list_elem_of_singleton in Hx as ->. specialize (Hle _ Hh). lia.
    + intros h Hh. apply elem_of_app in Hh as [Hh|Hh]; [specialize (Hle h Hh); lia|].
      apply list_elem_of_singleton in Hh as ->. lia.
Qed.

Lemma granted_fmap (f : Z -> Z) (bs : list bool) : forall ts,
  f <$> granted ts bs = granted (f <$> ts) bs.
Proof. induction bs as [|b bs IH]; intros [|t ts]; try done. cbn. destruct b; cbn; by rewrite ?IH. Qed.

End RateLimitFacts.

(** * Properties *)

Module RateLimitProps.
Import RateLimit RateLimitFacts.

Lemma decisions_fresh limit w key ts rdb :
  0 <= w -> rdb !! key = None ->
  StronglySorted Z.lt (unix_micro <$> ts) -> StronglySorted Z.le ts ->
  decisions (mkRateLimitConfig limit (1000 * w)) key ts rdb = window_decisions limit w [] (unix_micro <$> ts).
Proof.
  intros Hw Hk Hlt Hle. destruct ts as [|t ts]; [done|].
  assert (unix_micro (t - 1000) = unix_micro t - 1) as Hm.
  { unfold unix_micro. replace (t - 1000) with (t + (-1) * 1000) by lia. rewrite Z.div_add by lia. lia. }
  eapply (decisions_window _ _ _ _ [] (t - 1000)); [done| |by apply NoDup_nil| | |].
  - unfold tracks. by rewrite Hk.
  - intros h Hh. by apply not_elem_of_nil in Hh.
  - cbn. constructor; [done|]. cbn in Hlt. apply StronglySorted_inv in Hlt as [_ Hlt].
    apply Forall_cons. split; [lia|]. eapply Forall_impl; [exact Hlt|]. cbn. intros; lia.
  - constructor; [done|]. apply StronglySorted_inv in Hle as [_ Hle].
    apply Forall_cons. split; [lia|]. eapply Forall_impl; [exact Hle|]. cbn. intros; lia.
Qed.



(** Rejected requests are recorded too: a client that sends two requests per
    window of three microseconds with a limit of one is let through once and
    then never again. *)
Example rejected_requests_extend_the_block :
  decisions (mkRateLimitConfig 1 3000) "k" [1000; 3000; 5000; 7000; 9000] ∅ = [true; false; false; false; false].
Proof. vm_compute. reflexivity. Qed.

(** Requests in the same microsecond are one member of the set: four of them
    pass a limit of two. *)
Example same_microsecond_counts_once :
  decisions (mkRateLimitConfig 2 3000) "k" [1000; 1100; 1200; 1300] ∅ = [true; true; true; true].
Proof. vm_compute. reflexivity. Qed.

(** When Redis is down the limiter lets every request through. *)
Lemma rate_limit_fails_open cfg key now rdb : RateLimit cfg key false now rdb = (Ok tt, rdb).
Proof. done. Qed.

End RateLimitProps.

Module ZapRecovererProps.
Import ZapRecoverer.

(** A handler that returns is not touched; a panic is logged once, and the client
    gets the status the handler had sent already, or a 500. *)
Lemma recoverer_outcome method path connection (next : M Writer Outcome) w :
  let '(o, w1) := next w in
  let w2 := (Middleware method path connection next w).2 in
  match o with
  | Returned => w2 = w1
  | Panicked v =>
      wr_Log w2 = wr_Log w1 ++ [(v, method, path)] /\
      (connection <> "Upgrade" -> wr_Status w2 = Some (default StatusInternalServerError (wr_Status w1))) /\
      (connection = "Upgrade" -> wr_Status w2 = wr_Status w1)
  end.
Proof.
  unfold Middleware, bind, ret, modify, WriteHeader. destruct (next w) as [[|v] w1]; cbn; [done|].
  case_decide; cbn; split_and!; naive_solver.
Qed.

End ZapRecovererProps.
