(* ===== verification/AuthLimit.v ===== *)
(** The rate limiter of the auth service:
    [services/auth/internal/middleware/ratelimit/ratelimit.go], on the Redis
    sorted sets of [Middleware.RateLimit]. *)

From S2P Require Import Prelude GoStr HttpUtil Middleware.

(** * Definitions *)

Module AuthRateLimit.
Import RateLimit.

Record Config := mkConfig {
  MaxRequests : Z;
  Window : Z  (* nanoseconds *)
}.

Definition keyFunc (SplitHostPort : string -> option string) (subject : option string) (remoteAddr prefix : string) : string :=
  match subject with
  | Some sub => "rl:" +:+ prefix +:+ ":user:" +:+ sub
  | None => "rl:" +:+ prefix +:+ ":ip:" +:+ default remoteAddr (SplitHostPort remoteAddr)
  end.

(** The pipeline at instant [now]: whether the request is allowed, and how many
    are left. *)
Definition checkRateLimit (cfg : Config) (key : string) (now : Z) : M Redis (bool * Z) := fun rdb =>
  let windowStart := unix_micro (now - Window cfg) in
  let nowMicro := unix_micro now in
  let z := ZRemRangeByScore windowStart (zset now key rdb) in
  let count := ZCard z in
  let z := Expire (now + (Window cfg + 1000000000)) (ZAdd nowMicro (FormatInt nowMicro) z) in
  let remaining := Z.max (MaxRequests cfg - count - 1) 0 in
  (if MaxRequests cfg <=? count then (false, 0) else (true, remaining), <[key := z]> rdb).

(** The headers the limiter sets, and its verdict. *)
Record Verdict := mkVerdict {
  v_Headers : list (string * string);
  v_Next : result (Z * string) unit
}.

Definition RateLimit (cfg : Config) (key : string) (up : bool) (now : Z) : M Redis Verdict :=
  if up then
    r <- checkRateLimit cfg key now ;;
    let '(allowed, remaining) := r in
    let headers := [("X-RateLimit-Limit", FormatInt (MaxRequests cfg)); ("X-RateLimit-Remaining", FormatInt remaining)] in
    if (allowed : bool) then ret (mkVerdict headers (Ok tt))
    else ret (mkVerdict (headers ++ [("Retry-After", FormatInt (Window cfg / 1000000000))])
                (Err (StatusTooManyRequests, errRateLimitExceeded)))
  else ret (mkVerdict [] (Ok tt)).

(** The decisions for the requests of one key at the given instants. *)
Fixpoint decisions (cfg : Config) (key : string) (ts : list Z) (rdb : Redis) : list bool :=
  match ts with
  | [] => []
  | t :: ts => let '((allowed, _), rdb) := checkRateLimit cfg key t rdb in allowed :: decisions cfg key ts rdb
  end.

End AuthRateLimit.

(** * Lemmas *)

Module AuthLimitProps.
Import RateLimitFacts.

Definition api_config (c : AuthRateLimit.Config) : RateLimit.RateLimitConfig :=
  RateLimit.mkRateLimitConfig (AuthRateLimit.MaxRequests c) (AuthRateLimit.Window c).

(** The two services limit alike: the same keys, the same sorted sets, the same
    verdicts. *)
Lemma limiters_agree split subject addr prefix cfg key up now rdb :
  AuthRateLimit.keyFunc split subject addr prefix = RateLimit.keyFunc split subject addr prefix /\
  (let '(v, rdb') := AuthRateLimit.RateLimit cfg key up now rdb in (AuthRateLimit.v_Next v, rdb')) =
    RateLimit.RateLimit (api_config cfg) key up now rdb.
Proof.
  split; [destruct subject; [done|]; cbn; by destruct (split addr)|].
  unfold AuthRateLimit.RateLimit, RateLimit.RateLimit, AuthRateLimit.checkRateLimit, RateLimit.checkRateLimit, bind, ret. destruct up; [|done]. cbn.
  rewrite Z.add_assoc. by destruct (_ <=? _).
Qed.

Lemma decisions_agree cfg key ts rdb : AuthRateLimit.decisions cfg key ts rdb = RateLimit.decisions (api_config cfg) key ts rdb.
Proof.
  revert rdb. induction ts as [|t ts IH]; intros rdb; [done|]. cbn. unfold AuthRateLimit.checkRateLimit, RateLimit.checkRateLimit.
  rewrite Z.add_assoc. cbn. destruct (_ <=? _); cbn; by rewrite IH.
Qed.

(** So no window of the auth service grants more than its limit either. *)
Lemma auth_window_bound limit w key ts rdb lo :
  0 <= limit -> 0 <= w -> rdb !! key = None ->
  StronglySorted Z.lt (RateLimit.unix_micro <$> ts) -> StronglySorted Z.le ts ->
  let ds := AuthRateLimit.decisions (AuthRateLimit.mkConfig limit (1000 * w)) key ts rdb in
  Z.of_nat (length (filter (in_window lo w) (RateLimit.unix_micro <$> RateLimit.granted ts ds))) <= limit.
Proof.
  intros Hl Hw Hk Hlt Hle ds. unfold ds. rewrite decisions_agree. unfold api_config. cbn.
  rewrite RateLimitProps.decisions_fresh, granted_fmap by done. by apply (window_bound limit w lo _ [] []).
Qed.

(** The answer a refused client gets. *)
Example refused_headers :
  let rdb := (AuthRateLimit.RateLimit (AuthRateLimit.mkConfig 1 60000000000) "k" true 1000 ∅).2 in
  (AuthRateLimit.RateLimit (AuthRateLimit.mkConfig 1 60000000000) "k" true 2000 rdb).1 =
  AuthRateLimit.mkVerdict [("X-RateLimit-Limit", "1"); ("X-RateLimit-Remaining", "0"); ("Retry-After", "60")]
    (Err (StatusTooManyRequests, "rate limit exceeded")).
Proof. vm_compute. reflexivity. Qed.

End AuthLimitProps.
