(* ===== verification/JobService.v ===== *)
(** Push events: the job service with its deduplication
    ([services/api/internal/service/job.go]), the task enqueuers
    ([services/api/internal/engine/noop.go], [orchestrator.go]), the webhook
    handler in front of it ([services/api/internal/handler/webhook/webhook.go])
    and the payload validation of the GitHub provider
    ([services/shared/go/provider/github/client.go], [webhook.go], [api.go]). *)

From S2P Require Import Prelude GoStr Sha256 JobToken Store JobStore.

(** * Definitions *)

(** ** The provider's event: [provider/github/webhook.go], [provider.go] *)
Module Github.

Record WebhookEvent := mkWebhookEvent {
  EventType : string;
  Action : string;
  RepoID : Z;
  RepoName : string;
  CloneURL : string;
  Branch : string;
  CommitSHA : string;
  InstallationID : Z
}.

Record PushPayload := mkPushPayload {
  Ref : string;
  After : string;
  PAction : string;
  Repository_ID : Z;
  Repository_FullName : string;
  Repository_CloneURL : string;
  Installation_ID : Z
}.

Inductive WebhookError : Set :=
| ErrInvalidSignature
| ErrParsePayload.

(** [BranchFromRef] *)
Definition BranchFromRef (ref : string) : string := TrimPrefix ref "refs/heads/".

(** [ValidateWebhook]; [ParsePayload] is the JSON decoder of [PushPayload]. *)
Definition ValidateWebhook (webhookSecret : string) (ParsePayload : string -> option PushPayload)
    (payload signature eventType : string) : result WebhookError WebhookEvent :=
  let expected := "sha256=" +:+ Sha256.hex (Sha256.hmac webhookSecret payload) in
  if negb (bool_decide (expected = signature)) then Err ErrInvalidSignature
  else
    match ParsePayload payload with
    | None => Err ErrParsePayload
    | Some p =>
        Ok (mkWebhookEvent eventType (PAction p) (Repository_ID p) (Repository_FullName p)
              (Repository_CloneURL p) (BranchFromRef (Ref p)) (After p) (Installation_ID p))
    end.

End Github.

(** ** Task enqueuers: [engine/orchestrator.go], [engine/noop.go] *)

(** What the job service expects of [engine.TaskEnqueuer]: enqueuing touches
    neither the database nor the clock. *)
Class TaskEnqueuer := {
  Enqueue : string -> string -> M World (result string unit);
  Enqueue_db : forall j t w, w_db (Enqueue j t w).2 = w_db w;
  Enqueue_tx : forall j t w, w_tx (Enqueue j t w).2 = w_tx w;
  Enqueue_now : forall j t w, w_now (Enqueue j t w).2 = w_now w
}.

(** [NoopEnqueuer.Enqueue] *)
Definition noop_Enqueue (jobID jobToken : string) : M World (result string unit) := ret (Ok tt).

#[export] Instance NoopEnqueuer : TaskEnqueuer := {|
  Enqueue := noop_Enqueue;
  Enqueue_db _ _ _ := eq_refl;
  Enqueue_tx _ _ _ := eq_refl;
  Enqueue_now _ _ _ := eq_refl
|}.

(** [CloudTasksEnqueuer.Enqueue]: the task carries the job id and its token;
    [breaker] is the state of the circuit breaker ([true]: open), absent when
    none is attached. *)
Definition cloud_Enqueue (breaker : option (World -> bool)) (jobID jobToken : string) :
    M World (result string unit) := fun w =>
  let create : M World (result string unit) :=
    b <- next_fault ;;
    if (b : bool) then ret (Err "create cloud task")
    else do modify (add_task (jobID, jobToken)) ;; ret (Ok tt) in
  match breaker with
  | Some isopen => if isopen w then (Err "circuit breaker is open", w) else create w
  | None => create w
  end.

Lemma next_fault_db w : w_db (next_fault w).2 = w_db w.
Proof. unfold next_fault. by destruct (w_faults w). Qed.

Lemma next_fault_tx w : w_tx (next_fault w).2 = w_tx w.
Proof. unfold next_fault. by destruct (w_faults w). Qed.

(** What is left alone by any run of [cloud_Enqueue]. *)
Lemma cloud_Enqueue_frame br j t w :
  w_db (cloud_Enqueue br j t w).2 = w_db w /\ w_tx (cloud_Enqueue br j t w).2 = w_tx w /\
  w_now (cloud_Enqueue br j t w).2 = w_now w.
Proof.
  unfold cloud_Enqueue, bind, next_fault, modify, ret.
  destruct br as [o|]; [destruct (o w); [done|]|]; destruct (w_faults w) as [|[] ?]; done.
Qed.

#[export] Program Instance CloudTasksEnqueuer (breaker : option (World -> bool)) : TaskEnqueuer := {|
  Enqueue := cloud_Enqueue breaker
|}.
Next Obligation. intros. by apply cloud_Enqueue_frame. Qed.
Next Obligation. intros. by apply cloud_Enqueue_frame. Qed.
Next Obligation. intros. by apply cloud_Enqueue_frame. Qed.

(** ** The job service: [service/job.go] *)
Module JobService.
Import JobStore Github.

(** The wrapped error: the context string and its cause. *)
Definition PushError : Type := string * DBError.

Section JobService.
Context `{UUIDCodec} `{TaskEnqueuer}.
Context (signer : JobToken.Signer).

(** After the commit: sign a token and enqueue; a failure is only logged. *)
Definition enqueue_job (job : Job) : M World (result PushError unit) :=
  fun w =>
    let jobID := uuid_text (j_ID job) in
    let token := JobToken.Sign signer (go_now w) jobID in
    (_ <- Enqueue jobID token ;; ret (Ok tt)) w.

(** From the list of active jobs on: update in place, or create and enqueue. *)
Definition HandlePush_apply (event : WebhookEvent) (deliveryID : string) (repo : Repository)
    (active : list Job) : M World (result PushError unit) :=
  match find (has_status JobStatusQueued) active with
  | Some j =>
      try _ <- exec (UpdateJobCommitSHA (j_ID j) (CommitSHA event))
        catch e => ret (Err ("update job commit sha", e)) ;;
      try _ <- Commit catch e => ret (Err ("commit tx", e)) ;;
      ret (Ok tt)
  | None =>
      r <- insert_stmt (CreateJob (mkCreateJobParams (r_ID repo) (Branch event) (CommitSHA event) deliveryID)) ;;
      match r with
      | Err ErrUniqueViolation => ret (Ok tt)  (* duplicate delivery, no-op *)
      | Err e => ret (Err ("create job", e))
      | Ok job =>
          try _ <- Commit catch e => ret (Err ("commit tx", e)) ;;
          enqueue_job job
      end
  end.

(** The lock statement returns nothing and changes no row. *)
Definition advisory_lock (repo : uuid) (branch : string) (d : DB) : result DBError unit := Ok tt.

Definition HandlePush_tx (event : WebhookEvent) (deliveryID : string) : M World (result PushError unit) :=
  rr <- query (GetRepoByGithubID (RepoID event)) ;;
  match rr with
  | Err ErrNoRows => ret (Ok tt)  (* repo not registered, skipping *)
  | Err e => ret (Err ("get repo", e))
  | Ok repo =>
      try _ <- query (advisory_lock (r_ID repo) (Branch event))
        catch e => ret (Err ("acquire advisory lock", e)) ;;
      try active <- query (GetActiveJobsForBranch (r_ID repo) (Branch event))
        catch e => ret (Err ("get active jobs", e)) ;;
      HandlePush_apply event deliveryID repo active
  end.

Definition HandlePush (event : WebhookEvent) (deliveryID : string) : M World (result PushError unit) :=
  try _ <- Begin catch e => ret (Err ("begin tx", e)) ;;
  r <- HandlePush_tx event deliveryID ;;
  do Rollback ;;
  ret r.

End JobService.

(** ** The webhook endpoint: [handler/webhook/webhook.go] *)

Definition maxPayloadBytes : Z := 25 * 1024 * 1024.

Definition supportedEvents (t : string) : bool := bool_decide (t = "push").

Record WebhookRequest := mkWebhookRequest {
  X_Hub_Signature_256 : string;
  X_GitHub_Event : string;
  X_GitHub_Delivery : string;
  wr_body : option string  (* None: reading the body fails *)
}.

Section Webhook.
Context `{UUIDCodec} `{TaskEnqueuer}.
Context (signer : JobToken.Signer) (webhookSecret : string) (ParsePayload : string -> option PushPayload).

Definition ServeHTTP (r : WebhookRequest) : M World (Resp unit) :=
  let signature := X_Hub_Signature_256 r in
  if decide (signature = "") then ret (Fail StatusUnauthorized "missing signature")
  else
    match wr_body r with
    | None => ret (Fail StatusInternalServerError "failed to read body")
    | Some raw =>
        (* io.LimitReader(r.Body, maxPayloadBytes+1) then the length test *)
        if maxPayloadBytes <? Z.min (len raw) (maxPayloadBytes + 1)
        then ret (Fail StatusRequestEntityTooLarge "payload too large")
        else
          match ValidateWebhook webhookSecret ParsePayload raw signature (X_GitHub_Event r) with
          | Err ErrInvalidSignature => ret (Fail StatusUnauthorized "invalid signature")
          | Err _ => ret (Fail StatusInternalServerError "validation error")
          | Ok event =>
              if negb (supportedEvents (EventType event)) then ret (Reply StatusOK tt)
              else
                res <- HandlePush signer event (X_GitHub_Delivery r) ;;
                match res with
                | Err _ => ret (Fail StatusInternalServerError "internal error")
                | Ok _ => ret (Reply StatusAccepted tt)
                end
          end
    end.

End Webhook.
End JobService.
