(* ===== verification/Callback.v ===== *)
(** The worker callbacks: [services/api/internal/handler/callback] (start and
    complete a job) and the watchdog of
    [services/api/internal/handler/watchdog/watchdog.go]. *)

From S2P Require Import Prelude GoStr JobToken Store JobStore HttpUtil.

(** * Definitions *)

Module Callback.
Import JobStore.

(** ** [dto.go] *)
Record StartRequest := mkStartRequest { sr_JobID : string }.

Record StartResponse := mkStartResponse {
  CommitSHA : string;
  Branch : string;
  RepoFullName : string;
  CloneToken : string;
  InstallationID : Z
}.

Record CompleteRequest := mkCompleteRequest {
  cr_JobID : string;
  cr_Status : string;
  cr_ErrorMessage : string;
  cr_SnapshotPath : string;
  cr_ZigzagVersion : string;
  cr_SizeBytes : Z;
  cr_DurationMs : Z
}.

Definition StatusSucceeded : string := "succeeded".
Definition StatusFailed : string := "failed".

(** The struct tags of the two requests. *)
Section Tags.
Context `{Validator}.

Definition tags_JobID (s : string) : list FieldError :=
  check_field "JobID" [("required", "", tag_required s); ("uuid", "", tag_uuid s)].

Definition validate_StartRequest (r : StartRequest) : list FieldError := tags_JobID (sr_JobID r).

(** [required_if=Status v] *)
Definition tag_required_if (status v s : string) : bool :=
  if decide (status = v) then tag_required s else true.

Definition validate_CompleteRequest (r : CompleteRequest) : list FieldError :=
  tags_JobID (cr_JobID r) ++
  check_field "Status" [("required", "", tag_required (cr_Status r));
                        ("oneof", "succeeded failed", tag_oneof [StatusSucceeded; StatusFailed] (cr_Status r))] ++
  check_field "ErrorMessage" [("required_if", "Status failed",
                               tag_required_if (cr_Status r) StatusFailed (cr_ErrorMessage r))] ++
  check_field "SnapshotPath" [("required_if", "Status succeeded",
                               tag_required_if (cr_Status r) StatusSucceeded (cr_SnapshotPath r))] ++
  check_field "ZigzagVersion" [("required_if", "Status succeeded",
                                tag_required_if (cr_Status r) StatusSucceeded (cr_ZigzagVersion r))] ++
  check_field "SizeBytes" [("gte", "0", tag_gte 0 (cr_SizeBytes r))] ++
  check_field "DurationMs" [("gte", "0", tag_gte 0 (cr_DurationMs r))].

End Tags.

(** ** [errors.go] *)
Definition ErrInvalidRequestBody : string := "invalid request body".
Definition ErrJobIDMismatch : string := "job_id mismatch".
Definition ErrInvalidJobID : string := "invalid job_id".
Definition ErrInternal : string := "internal error".
Definition ErrJobNotFound : string := "job not found".
Definition ErrJobAlreadyTerminal : string := "job already in terminal state".
Definition ErrFailedToCloneToken : string := "failed to generate clone token".

Section Handlers.
Context `{UUIDCodec} `{Validator}.

(** [cloner.GenerateCloneToken]: [None] when GitHub refuses. *)
Context (GenerateCloneToken : Z -> option string).

(** ** [start.go] *)
Definition respondStart (job : Job) : M World (Resp StartResponse) :=
  try repo <- query (GetRepoForJob (j_ID job))
    catch e => ret (Fail StatusInternalServerError ErrInternal) ;;
  match GenerateCloneToken (rj_InstallationID repo) with
  | None => ret (Fail StatusInternalServerError ErrFailedToCloneToken)
  | Some cloneToken =>
      ret (Reply StatusOK (mkStartResponse (j_CommitSha job) (j_Branch job) (rj_FullName repo)
                             cloneToken (rj_InstallationID repo)))
  end.

(** Inside the transaction; the deferred rollback follows in [Start]. *)
Definition Start_tx (jobUUID : uuid) : M World (Resp StartResponse) :=
  r <- query (GetJobForUpdate jobUUID) ;;
  match r with
  | Err ErrNoRows => ret (Fail StatusNotFound ErrJobNotFound)
  | Err _ => ret (Fail StatusInternalServerError ErrInternal)
  | Ok job =>
      if has_status JobStatusRunning job then
        try _ <- Commit catch e => ret (Fail StatusInternalServerError ErrInternal) ;;
        respondStart job
      else if IsTerminal (j_Status job) then
        ret (Fail StatusConflict (ErrJobAlreadyTerminal +:+ ": " +:+ status_text (j_Status job)))
      else
        try _ <- exec (UpdateJobStatus (mkUpdateJobStatusParams (j_ID job) JobStatusRunning None))
          catch e => ret (Fail StatusInternalServerError ErrInternal) ;;
        try _ <- Commit catch e => ret (Fail StatusInternalServerError ErrInternal) ;;
        respondStart job
  end.

(** [Start]: [body] is what the JSON decoder returns for the request body,
    [ctxJobID] the job id the token middleware put into the context. *)
Definition Start (ctxJobID : string) (body : option StartRequest) : M World (Resp StartResponse) :=
  match body with
  | None => ret (Fail StatusBadRequest ErrInvalidRequestBody)
  | Some req =>
      match Struct (validate_StartRequest req) with
      | Err msg => ret (Fail StatusBadRequest msg)
      | Ok _ =>
          if decide (sr_JobID req <> ctxJobID) then ret (Fail StatusBadRequest ErrJobIDMismatch)
          else
            match UUIDFromString (sr_JobID req) with
            | None => ret (Fail StatusBadRequest ErrInvalidJobID)
            | Some jobUUID =>
                try _ <- Begin catch e => ret (Fail StatusInternalServerError ErrInternal) ;;
                resp <- Start_tx jobUUID ;;
                do Rollback ;;
                ret resp
            end
      end
  end.

(** ** [complete.go] *)
Definition Complete_write (req : CompleteRequest) (job : Job) : M World (Resp string) :=
  match status_of_text (cr_Status req) with
  | None => ret (Fail StatusInternalServerError ErrInternal)  (* refused by the CHECK on status *)
  | Some status =>
      try _ <- exec (UpdateJobStatus (mkUpdateJobStatusParams (j_ID job) status (NULLIF_empty (cr_ErrorMessage req))))
        catch e => ret (Fail StatusInternalServerError ErrInternal) ;;
      try _ <- (if decide (status = JobStatusSucceeded) then
                  r <- insert_stmt (InsertSnapshot
                         (mkInsertSnapshotParams (j_RepoID job) (j_ID job) (j_Branch job) (j_CommitSha job)
                            (cr_SnapshotPath req) 1 (cr_ZigzagVersion req) (cr_SizeBytes req))) ;;
                  ret (match r with Ok _ => Ok tt | Err e => Err e end)
                else ret (Ok tt))
        catch e => ret (Fail StatusInternalServerError ErrInternal) ;;
      try _ <- Commit catch e => ret (Fail StatusInternalServerError ErrInternal) ;;
      ret (Reply StatusOK (cr_Status req))
  end.

Definition Complete_tx (req : CompleteRequest) (jobUUID : uuid) : M World (Resp string) :=
  r <- query (GetJobForUpdate jobUUID) ;;
  match r with
  | Err ErrNoRows => ret (Fail StatusNotFound ErrJobNotFound)
  | Err _ => ret (Fail StatusInternalServerError ErrInternal)
  | Ok job =>
      if IsTerminal (j_Status job) then
        _ <- Commit ;;  (* the error is ignored *)
        ret (Reply StatusOK (status_text (j_Status job)))
      else Complete_write req job
  end.

Definition Complete (ctxJobID : string) (body : option CompleteRequest) : M World (Resp string) :=
  match body with
  | None => ret (Fail StatusBadRequest ErrInvalidRequestBody)
  | Some req =>
      match Struct (validate_CompleteRequest req) with
      | Err msg => ret (Fail StatusBadRequest msg)
      | Ok _ =>
          if decide (cr_JobID req <> ctxJobID) then ret (Fail StatusBadRequest ErrJobIDMismatch)
          else
            match UUIDFromString (cr_JobID req) with
            | None => ret (Fail StatusBadRequest ErrInvalidJobID)
            | Some jobUUID =>
                try _ <- Begin catch e => ret (Fail StatusInternalServerError ErrInternal) ;;
                resp <- Complete_tx req jobUUID ;;
                do Rollback ;;
                ret resp
            end
      end
  end.

End Handlers.
End Callback.

(** ** The watchdog *)
Module Watchdog.
Import JobStore.

Definition defaultTimeoutMinutes : Z := 20.

(** [Timeout]: the number of jobs failed. *)
Definition Timeout (timeoutMinutes : Z) : M World (Resp Z) :=
  try count <- exec (TimeoutRunningJobs timeoutMinutes)
    catch e => ret (Fail StatusInternalServerError "internal error") ;;
  ret (Reply StatusOK count).

(** [HealthCheck]: a ping is a statement that may fail. *)
Definition HealthCheck : M World (Resp unit) :=
  try _ <- query (fun _ => Ok tt) catch e => ret (Fail 503 "internal error") ;;
  ret (Reply StatusOK tt).

End Watchdog.
