(* ===== verification/JobEffects.v ===== *)
(** What each operation of the job pipeline does to the database, by symbolic
    execution of its handler: the abstract transitions [db_step] of the job
    tables, and for every handler the theorem that a run takes one of them. *)

From S2P Require Import Prelude GoStr Sha256 JobToken Store JobStore HttpUtil JobService Callback.

Module JobEffects.
Import JobStore Github.

(** * Definitions *)

(** The abstract transitions of the job tables at time [now]. *)
Inductive db_step (now : Z) (d : DB) : DB -> Prop :=
| ds_same :
    db_step now d d
| ds_retarget k j sha :
    (* a push re-targets the queued job of its branch *)
    jobs d !! k = Some j -> j_Status j = JobStatusQueued ->
    db_step now d (set_jobs (<[k := touch now (set_commit sha j)]> (jobs d)) d)
| ds_create arg id j d' :
    (* a push creates a queued job on a branch that has none *)
    (forall k' j', jobs d !! k' = Some j' -> j_RepoID j' = cj_RepoID arg -> j_Branch j' = cj_Branch arg ->
       j_Status j' <> JobStatusQueued) ->
    CreateJob arg now id d = Ok (j, d') ->
    db_step now d d'
| ds_start k j msg :
    (* the poller claims, or the worker starts, a queued job *)
    jobs d !! k = Some j -> j_Status j = JobStatusQueued ->
    db_step now d (set_jobs (<[k := touch now (set_status now JobStatusRunning msg j)]> (jobs d)) d)
| ds_fail k j msg :
    jobs d !! k = Some j -> IsTerminal (j_Status j) = false ->
    db_step now d (set_jobs (<[k := touch now (set_status now JobStatusFailed msg j)]> (jobs d)) d)
| ds_succeed k j msg a id s d1 d' :
    (* success and its snapshot in one transaction *)
    jobs d !! k = Some j -> IsTerminal (j_Status j) = false ->
    d1 = set_jobs (<[k := touch now (set_status now JobStatusSucceeded msg j)]> (jobs d)) d ->
    is_RepoID a = j_RepoID j -> is_JobID a = k -> is_Branch a = j_Branch j -> is_CommitSha a = j_CommitSha j ->
    InsertSnapshot a now id d1 = Ok (s, d') ->
    db_step now d d'
| ds_timeout mins n d' :
    TimeoutRunningJobs mins now d = Ok (n, d') ->
    db_step now d d'
| ds_upload a id s d' :
    InsertCLISnapshot a now id d = Ok (s, d') ->
    db_step now d d'
| ds_repo a id r d' :
    UpsertRepo a now id d = Ok (r, d') ->
    db_step now d d'.

#[export] Hint Constructors db_step : zag.

(** Rows are stored under their id (the primary key). *)
Definition keys_ok (d : DB) : Prop :=
  (forall k j, jobs d !! k = Some j -> j_ID j = k) /\
  (forall k s, snapshots d !! k = Some s -> s_ID s = k) /\
  (forall k r, repositories d !! k = Some r -> r_ID r = k).

(** * Lemmas *)

Lemma has_status_true st j : has_status st j = true <-> j_Status j = st.
Proof. unfold has_status. by rewrite bool_decide_eq_true. Qed.

Lemma has_status_false st j : has_status st j = false <-> j_Status j <> st.
Proof. unfold has_status. by rewrite bool_decide_eq_false. Qed.

Lemma active_on_true repo branch j :
  active_on repo branch j = true <->
  j_RepoID j = repo /\ j_Branch j = branch /\ (j_Status j = JobStatusQueued \/ j_Status j = JobStatusRunning).
Proof.
  unfold active_on. rewrite !andb_true_iff, orb_true_iff, !has_status_true, !bool_decide_eq_true. tauto.
Qed.

(** What the loop over the active jobs finds. *)
Lemma find_queued_Some repo branch d j :
  find (has_status JobStatusQueued) (order_asc j_CreatedAt (select (active_on repo branch) (jobs d))) = Some j ->
  j_Status j = JobStatusQueued /\ j_RepoID j = repo /\ j_Branch j = branch /\
  exists k, jobs d !! k = Some j.
Proof.
  intros H. apply find_some in H as [Hin Hq]. apply has_status_true in Hq.
  apply list_elem_of_In in Hin. rewrite order_asc_perm in Hin.
  apply elem_of_select in Hin as [Ha Hk]. apply active_on_true in Ha. naive_solver.
Qed.

Lemma find_queued_None repo branch d :
  find (has_status JobStatusQueued) (order_asc j_CreatedAt (select (active_on repo branch) (jobs d))) = None ->
  forall k j, jobs d !! k = Some j -> j_RepoID j = repo -> j_Branch j = branch ->
  j_Status j <> JobStatusQueued.
Proof.
  intros H k j Hk Hr Hb Hq. eapply find_none in H.
  - by rewrite has_status_false in H.
  - apply list_elem_of_In. rewrite order_asc_perm. apply elem_of_select.
    split; [apply active_on_true; auto|eauto].
Qed.

Lemma update_job_id d k j p f :
  jobs d !! k = Some j -> p j = true -> update_job k p f d = set_jobs (<[k := f j]> (jobs d)) d.
Proof. unfold update_job. by intros -> ->. Qed.

(** ** Handler effects *)
Section Effects.
Context `{UUIDCodec} `{TaskEnqueuer}.

Lemma enqueue_job_inv signer job w r w' :
  JobService.enqueue_job signer job w = (r, w') ->
  r = Ok tt /\ w_db w' = w_db w /\ w_tx w' = w_tx w.
Proof.
  unfold JobService.enqueue_job, bind, ret. intros Hrun.
  pose proof (Enqueue_db (uuid_text (j_ID job)) (JobToken.Sign signer (go_now w) (uuid_text (j_ID job))) w) as Hd.
  pose proof (Enqueue_tx (uuid_text (j_ID job)) (JobToken.Sign signer (go_now w) (uuid_text (j_ID job))) w) as Ht.
  destruct (Enqueue _ _ w) as [x w1]. by simplify_eq/=.
Qed.

(** The three outcomes of a push: nothing, re-target, create. *)
Lemma HandlePush_inv signer ev did w r w' :
  w_tx w = None ->
  JobService.HandlePush signer ev did w = (r, w') ->
  w_tx w' = None /\
  ( (w_db w' = w_db w) \/
    (exists repo j,
       r = Ok tt /\ GetRepoByGithubID (RepoID ev) (w_db w) = Ok repo /\
       find (has_status JobStatusQueued)
         (order_asc j_CreatedAt (select (active_on (r_ID repo) (Branch ev)) (jobs (w_db w)))) = Some j /\
       UpdateJobCommitSHA (j_ID j) (CommitSHA ev) (w_now w) (w_db w) = Ok (tt, w_db w')) \/
    (exists repo j,
       r = Ok tt /\ GetRepoByGithubID (RepoID ev) (w_db w) = Ok repo /\
       find (has_status JobStatusQueued)
         (order_asc j_CreatedAt (select (active_on (r_ID repo) (Branch ev)) (jobs (w_db w)))) = None /\
       CreateJob (mkCreateJobParams (r_ID repo) (Branch ev) (CommitSHA ev) did) (w_now w) (hd 0%N (w_ids w)) (w_db w)
         = Ok (j, w_db w')) ).
Proof.
  intros Htx Hrun.
  unfold JobService.HandlePush, JobService.HandlePush_tx, JobService.HandlePush_apply,
    JobService.advisory_lock, GetActiveJobsForBranch in Hrun.
  go_run; try (by auto); try (destruct_or!; simplify_eq).
  - split; [done|]. right; left. repeat match goal with x : () |- _ => destruct x end. eauto 10.
  - apply enqueue_job_inv in H1 as (-> & Hd & Ht). cbn in Hd, Ht. rewrite Ht. cbn.
    split; [done|]. right; right. rewrite Hd. eauto 10.
Qed.

(** Starting a job: what changed, and what each success answers. *)
Lemma respondStart_inv (gct : Z -> option string) job w r w' :
  Callback.respondStart gct job w = (r, w') ->
  w_db w' = w_db w /\ w_tx w' = w_tx w /\
  (forall st b, r = Reply st b ->
     st = StatusOK /\ exists repo tok, GetRepoForJob (j_ID job) (w_db w) = Ok repo /\
       gct (rj_InstallationID repo) = Some tok /\
       b = Callback.mkStartResponse (j_CommitSha job) (j_Branch job) (rj_FullName repo) tok (rj_InstallationID repo)).
Proof.
  intros Hrun. unfold Callback.respondStart in Hrun. go_run; split_and!; try done; naive_solver.
Qed.

Lemma Start_inv `{Validator} gct ctx body w r w' :
  w_tx w = None -> Callback.Start gct ctx body w = (r, w') ->
  w_tx w' = None /\
  ( w_db w' = w_db w \/
    exists req k j, body = Some req /\ Callback.sr_JobID req = ctx /\ uuid_scan ctx = Some k /\
      jobs (w_db w) !! k = Some j /\ j_Status j = JobStatusQueued /\
      w_db w' = update_job (j_ID j) (fun _ => true)
                  (fun j => touch (w_now w) (set_status (w_now w) JobStatusRunning None j)) (w_db w)).
Proof.
  intros Htx Hrun. unfold Callback.Start, Callback.Start_tx, GetJobForUpdate, result_of_option, UUIDFromString in Hrun.
  go_run; rewrite ?Htx; auto.
  all: try match goal with Hr : Callback.respondStart _ _ _ = _ |- _ =>
         apply respondStart_inv in Hr as (Hd & Ht & _); cbn in Hd, Ht; rewrite ?Ht, ?Hd end; auto.
  destruct (jobs (w_db w) !! n0) as [j|] eqn:Hj; simplify_eq/=.
  pose proof (dec_stable n) as Hctx. subst ctx. split; [done|]. right.
  eexists s, n0, a0. split_and!; try done.
  - apply has_status_false in Heqb. by destruct (j_Status a0).
  - unfold UpdateJobStatus in *. by simplify_eq/=.
Qed.

(** Completing a job: the two transitions. *)
Lemma Complete_inv `{Validator} ctx body w r w' :
  w_tx w = None -> Callback.Complete ctx body w = (r, w') ->
  w_tx w' = None /\
  ( (w_db w' = w_db w /\
     forall st b, r = Reply st b -> exists k j, uuid_scan ctx = Some k /\ jobs (w_db w) !! k = Some j /\
       IsTerminal (j_Status j) = true /\ b = status_text (j_Status j)) \/
    exists req k j, body = Some req /\ Callback.cr_JobID req = ctx /\ uuid_scan ctx = Some k /\
      Struct (Callback.validate_CompleteRequest req) = Ok tt /\
      jobs (w_db w) !! k = Some j /\ IsTerminal (j_Status j) = false /\
      r = Reply StatusOK (Callback.cr_Status req) /\
      exists st d1, status_of_text (Callback.cr_Status req) = Some st /\
        d1 = update_job (j_ID j) (fun _ => true)
               (fun j => touch (w_now w) (set_status (w_now w) st (NULLIF_empty (Callback.cr_ErrorMessage req)) j)) (w_db w) /\
        ( (st <> JobStatusSucceeded /\ w_db w' = d1) \/
          (st = JobStatusSucceeded /\ exists s,
             InsertSnapshot (mkInsertSnapshotParams (j_RepoID j) (j_ID j) (j_Branch j) (j_CommitSha j)
                (Callback.cr_SnapshotPath req) 1 (Callback.cr_ZigzagVersion req) (Callback.cr_SizeBytes req))
                (w_now w) (hd 0%N (w_ids w)) d1 = Ok (s, w_db w')))).
Proof.
  intros Htx Hrun. unfold Callback.Complete, Callback.Complete_tx, Callback.Complete_write, GetJobForUpdate,
    result_of_option, UUIDFromString in Hrun.
  go_run; rewrite ?Htx; try (split; [done|left; split; [done|]; naive_solver]).
  all: destruct (jobs (w_db w) !! _) as [j'|] eqn:Hj; simplify_eq/=; try done.
  all: pose proof (dec_stable n) as Hctx; subst ctx;
    try (split; [done|left; split; [done|]; intros ? ? [= <- <-]; by eauto 10]).
  all: split; [done|]; right; unfold UpdateJobStatus in *;
    simplify_eq/=; exists c, n0, a0; destruct a; split_and!; try done; eauto 10.
Qed.

Lemma Timeout_inv mins w r w' :
  Watchdog.Timeout mins w = (r, w') ->
  w_tx w' = w_tx w /\
  (w_db w' = w_db w /\ (exists st m, r = Fail st m) \/
   exists n, r = Reply StatusOK n /\ TimeoutRunningJobs mins (w_now w) (w_db w) = Ok (n, w_db w')).
Proof. intros Hrun. unfold Watchdog.Timeout in Hrun. go_run; eauto 10. Qed.

(** ** Every run of a handler is an abstract transition *)

Lemma HandlePush_step signer ev did w r w' :
  keys_ok (w_db w) -> w_tx w = None ->
  JobService.HandlePush signer ev did w = (r, w') -> db_step (w_now w) (w_db w) (w_db w').
Proof.
  intros (Hid & _) Htx Hrun.
  apply HandlePush_inv in Hrun as (_ & [-> | [(repo & j & _ & _ & Hf & Hu) | (repo & j & _ & _ & Hf & Hc)]]);
    [apply ds_same| | |done].
  - apply find_queued_Some in Hf as (Hq & _ & _ & k & Hk). pose proof (Hid k j Hk) as <-.
    unfold UpdateJobCommitSHA in Hu. injection Hu as <-.
    erewrite update_job_id by (done || by apply has_status_true). by apply ds_retarget.
  - eapply ds_create; [|exact Hc]. cbn. by apply find_queued_None.
Qed.

Lemma ClaimJob_step locked now d j d' :
  keys_ok d -> ClaimJob locked now d = Ok (j, d') -> db_step now d d'.
Proof.
  intros (Hid & _) Hc. unfold ClaimJob in Hc.
  destruct (head _) as [j0|] eqn:Hh; simplify_eq/=.
  apply head_order_asc_elem, elem_of_select in Hh as [Hp [k Hk]].
  apply andb_true_iff in Hp as [Hq _]. apply has_status_true in Hq.
  pose proof (Hid k j0 Hk) as <-.
  replace (set_claimed now j0) with (set_status now JobStatusRunning (j_ErrorMessage j0) j0) by done.
  by apply ds_start.
Qed.

Lemma Start_step `{Validator} gct ctx body w r w' :
  keys_ok (w_db w) -> w_tx w = None ->
  Callback.Start gct ctx body w = (r, w') -> db_step (w_now w) (w_db w) (w_db w').
Proof.
  intros (Hid & _) Htx Hrun.
  apply Start_inv in Hrun as (_ & [-> | (req & k & j & _ & _ & _ & Hk & Hq & ->)]); [apply ds_same| |done].
  rewrite (Hid k j Hk). erewrite update_job_id by done. by apply ds_start.
Qed.

(** The two statuses a validated report can carry. *)
Lemma Complete_status_valid `{Validator} req st :
  Struct (Callback.validate_CompleteRequest req) = Ok tt ->
  status_of_text (Callback.cr_Status req) = Some st -> st = JobStatusSucceeded \/ st = JobStatusFailed.
Proof.
  intros Hv Hst. apply Struct_Ok in Hv. unfold Callback.validate_CompleteRequest in Hv.
  apply app_eq_nil in Hv as [_ Hv]. apply app_eq_nil in Hv as [Hv _].
  apply check_field_nil, Forall_cons in Hv as [_ Hv]. apply Forall_cons in Hv as [Hv _]. cbn in Hv.
  apply tag_oneof_spec in Hv. apply status_of_text_Some in Hst.
  apply elem_of_cons in Hv as [Hv|Hv]; [|apply list_elem_of_singleton in Hv];
    rewrite Hst in Hv; destruct st; by auto.
Qed.

Lemma Complete_step `{Validator} ctx body w r w' :
  keys_ok (w_db w) -> w_tx w = None ->
  Callback.Complete ctx body w = (r, w') -> db_step (w_now w) (w_db w) (w_db w').
Proof.
  intros (Hid & _) Htx Hrun.
  apply Complete_inv in Hrun
    as (_ & [[-> _] | (req & k & j & _ & _ & _ & Hv & Hk & Ht & _ & st & d1 & Hst & -> & Hw)]); [apply ds_same| |done].
  rewrite (Hid k j Hk) in Hw. rewrite (update_job_id _ k j) in Hw by done.
  destruct Hw as [[Hne ->] | [-> [s Hs]]].
  - assert (st = JobStatusFailed) as ->; [|by apply ds_fail].
    by destruct (Complete_status_valid req st Hv Hst) as [-> | ->].
  - eapply ds_succeed; [done|done|reflexivity| | | | |exact Hs]; done.
Qed.

Lemma Timeout_step mins w r w' :
  Watchdog.Timeout mins w = (r, w') -> db_step (w_now w) (w_db w) (w_db w').
Proof.
  intros Hrun. apply Timeout_inv in Hrun as (_ & [[-> _] | (n & _ & Hn)]); eauto with zag.
Qed.
End Effects.
End JobEffects.
