(* ===== verification/JobSystem.v ===== *)
(** The job pipeline as a transition system: pushes, claims, callbacks, the
    watchdog and uploads interleave on one database.  The abstract lifecycle
    of a single job is the specification; every step of every handler refines
    it, and the invariant of the job tables holds in every reachable state. *)

From S2P Require Import Prelude GoStr Sha256 JobToken Store JobStore HttpUtil JobService Callback JobEffects.

Module JobSystem.
Import JobStore Github JobEffects.

(** * Definitions *)

(** ** The abstract specification of one job *)

(** What the timestamps of a row say about its status. *)
Definition times_ok (j : Job) : Prop :=
  match j_Status j with
  | JobStatusQueued => j_StartedAt j = None /\ j_FinishedAt j = None
  | JobStatusRunning => is_Some (j_StartedAt j) /\ j_FinishedAt j = None
  | _ => is_Some (j_FinishedAt j)
  end.

(** The life of the row with key [k]: it appears queued, may be re-targeted
    while queued, starts once, finishes once, and then stays as it is. *)
Inductive lifecycle (k : uuid) : option Job -> option Job -> Prop :=
| lc_absent : lifecycle k None None
| lc_same j : lifecycle k (Some j) (Some j)
| lc_create j :
    j_ID j = k -> j_Status j = JobStatusQueued -> times_ok j ->
    lifecycle k None (Some j)
| lc_retarget now sha j :
    j_Status j = JobStatusQueued ->
    lifecycle k (Some j) (Some (touch now (set_commit sha j)))
| lc_start now msg j :
    j_Status j = JobStatusQueued ->
    lifecycle k (Some j) (Some (touch now (set_status now JobStatusRunning msg j)))
| lc_finish now st msg j :
    IsTerminal (j_Status j) = false -> IsTerminal st = true ->
    lifecycle k (Some j) (Some (touch now (set_status now st msg j))).

(** ** The invariant of the job tables *)
Record wf (d : DB) : Prop := {
  wf_keys : keys_ok d;
  wf_times : forall k j, jobs d !! k = Some j -> times_ok j;
  (* jobs.repo_id REFERENCES repositories *)
  wf_repo : forall k j, jobs d !! k = Some j -> is_Some (repositories d !! j_RepoID j);
  (* idx_jobs_delivery_id *)
  wf_delivery : forall k1 k2 j1 j2 x, jobs d !! k1 = Some j1 -> jobs d !! k2 = Some j2 ->
    j_DeliveryID j1 = Some x -> j_DeliveryID j2 = Some x -> k1 = k2;
  (* the deduplication promise: one queued job per branch *)
  wf_queued : forall k1 k2 j1 j2, jobs d !! k1 = Some j1 -> jobs d !! k2 = Some j2 ->
    j_Status j1 = JobStatusQueued -> j_Status j2 = JobStatusQueued ->
    j_RepoID j1 = j_RepoID j2 -> j_Branch j1 = j_Branch j2 -> k1 = k2;
  (* idx_snapshots_unique *)
  wf_commit : forall k1 k2 s1 s2, snapshots d !! k1 = Some s1 -> snapshots d !! k2 = Some s2 ->
    s_RepoID s1 = s_RepoID s2 -> s_Branch s1 = s_Branch s2 -> s_CommitSha s1 = s_CommitSha s2 -> k1 = k2;
  (* a snapshot that names a job is the result of that job, which succeeded *)
  wf_snapshot : forall k s jid, snapshots d !! k = Some s -> s_JobID s = Some jid ->
    exists j, jobs d !! jid = Some j /\ j_Status j = JobStatusSucceeded /\
      j_RepoID j = s_RepoID s /\ j_Branch j = s_Branch s /\ j_CommitSha j = s_CommitSha s
}.

(** ** The system *)
Section System.
Context `{UUIDCodec} `{Validator} `{TaskEnqueuer}.

Inductive sys_step : World -> World -> Prop :=
| sys_push signer ev did r w w' :
    JobService.HandlePush signer ev did w = (r, w') -> sys_step w w'
| sys_claim locked r w w' :
    exec (ClaimJob locked) w = (r, w') -> sys_step w w'
| sys_start gct ctx body r w w' :
    Callback.Start gct ctx body w = (r, w') -> sys_step w w'
| sys_complete ctx body r w w' :
    Callback.Complete ctx body w = (r, w') -> sys_step w w'
| sys_timeout mins r w w' :
    Watchdog.Timeout mins w = (r, w') -> sys_step w w'
| sys_upload a r w w' :
    insert_stmt (InsertCLISnapshot a) w = (r, w') -> sys_step w w'
| sys_repo a r w w' :
    insert_stmt (UpsertRepo a) w = (r, w') -> sys_step w w'
| sys_env now ids faults w :
    (* time passes; the next statements may draw other ids and fail elsewhere *)
    w_now w <= now ->
    sys_step w (mkWorld (w_db w) (w_tx w) now ids faults (w_tasks w) (w_objects w) (w_cache w)).

End System.

(** * Lemmas *)

(** ** The lifecycle of each job under an abstract transition *)

Lemma CreateJob_Ok arg now id d j d' :
  CreateJob arg now id d = Ok (j, d') ->
  jobs d !! id = None /\ d' = set_jobs (<[id := j]> (jobs d)) d /\
  (forall x, NULLIF_empty (cj_Column4 arg) = Some x ->
     forall k' j', jobs d !! k' = Some j' -> j_DeliveryID j' <> Some x) /\
  is_Some (repositories d !! cj_RepoID arg) /\
  j = mkJob id (cj_RepoID arg) (cj_Branch arg) (cj_CommitSha arg) (NULLIF_empty (cj_Column4 arg))
        JobStatusQueued None now now None None.
Proof.
  unfold CreateJob. intros Hc.
  case_bool_decide as Hid; [done|]. destruct (any_row _ _) eqn:Ha; [done|].
  case_bool_decide as Hr; [done|]. simplify_eq/=.
  rewrite any_row_false in Ha. split_and!; try done.
  - destruct (jobs d !! id) eqn:E; [|done]. destruct Hid. eauto.
  - intros x Hx k' j' Hk' Hd. specialize (Ha k' j' Hk'). unfold has_delivery in Ha. rewrite Hx in Ha.
    by apply bool_decide_eq_false in Ha.
  - by destruct (repositories d !! cj_RepoID arg); [eauto|].
Qed.

Lemma InsertSnapshot_Ok a now id d s d' :
  InsertSnapshot a now id d = Ok (s, d') ->
  snapshots d !! id = None /\ d' = set_snapshots (<[id := s]> (snapshots d)) d /\
  (forall k' s', snapshots d !! k' = Some s' ->
     s_RepoID s' = is_RepoID a -> s_Branch s' = is_Branch a -> s_CommitSha s' <> is_CommitSha a) /\
  s = mkSnapshot id (is_RepoID a) (Some (is_JobID a)) (is_Branch a) (is_CommitSha a) (is_GcsPath a)
        (is_SnapshotVersion a) (is_ZigzagVersion a) (is_SizeBytes a) now None.
Proof.
  unfold InsertSnapshot. intros Hi.
  case_bool_decide as Hid; [done|]. destruct (any_row _ _) eqn:Ha; [done|].
  case_bool_decide as Hr; [done|]. case_bool_decide as Hj; [done|]. simplify_eq/=.
  rewrite any_row_false in Ha. split_and!; try done.
  - destruct (snapshots d !! id) eqn:E; [|done]. destruct Hid. eauto.
  - intros k' s' Hk' Hr' Hb' Hc'. specialize (Ha k' s' Hk').
    unfold same_commit, on_branch in Ha. rewrite !bool_decide_true in Ha by done. done.
Qed.

(** The CLI upload changes no job, and overwrites or adds a snapshot. *)
Lemma InsertCLISnapshot_Ok a now id d s d' :
  keys_ok d ->
  InsertCLISnapshot a now id d = Ok (s, d') ->
  jobs d' = jobs d /\ repositories d' = repositories d /\
  ( (exists k s0, snapshots d !! k = Some s0 /\ s = cli_overwrite a s0 /\
       s_RepoID s0 = ics_RepoID a /\ s_Branch s0 = ics_Branch a /\ s_CommitSha s0 = ics_CommitSha a /\
       snapshots d' = <[k := s]> (snapshots d)) \/
    (snapshots d !! id = None /\ snapshots d' = <[id := s]> (snapshots d) /\ s_ID s = id /\ s_JobID s = None /\
       (forall k' s', snapshots d !! k' = Some s' -> s_RepoID s' = s_RepoID s -> s_Branch s' = s_Branch s ->
          s_CommitSha s' <> s_CommitSha s))).
Proof.
  intros (_ & Hsid & _) Hi. unfold InsertCLISnapshot in Hi.
  destruct (find_row _ _) as [s0|] eqn:Hf; simplify_eq/=.
  - split_and!; [done..|]. left. apply find_row_Some in Hf as [Hp [k Hk]].
    unfold same_commit, on_branch in Hp. rewrite !andb_true_iff, !bool_decide_eq_true in Hp.
    exists k, s0. rewrite (Hsid k s0 Hk). naive_solver.
  - case_bool_decide as Hid; [done|]. case_bool_decide; [done|]. simplify_eq/=.
    split_and!; [done..|]. right. rewrite find_row_None in Hf. split_and!; try done.
    + destruct (snapshots d !! id) eqn:E; [|done]. destruct Hid. eauto.
    + intros k' s' Hk' Hr Hb Hc. specialize (Hf k' s' Hk').
      unfold same_commit, on_branch in Hf. by rewrite !bool_decide_true in Hf by done.
Qed.

Lemma UpsertRepo_jobs a now id d r d' :
  UpsertRepo a now id d = Ok (r, d') -> jobs d' = jobs d /\ snapshots d' = snapshots d.
Proof. unfold UpsertRepo. intros Hu. repeat (case_match; simplify_eq/=); done. Qed.

Lemma UpsertRepo_repos a now id d r d' :
  keys_ok d -> UpsertRepo a now id d = Ok (r, d') ->
  exists k, repositories d' = <[k := r]> (repositories d) /\ r_ID r = k.
Proof.
  intros (_ & _ & Hrid). unfold UpsertRepo. intros Hu.
  repeat (case_match; simplify_eq/=); eexists; split; done.
Qed.

Lemma db_step_lifecycle now d d' :
  keys_ok d -> db_step now d d' -> forall k, lifecycle k (jobs d !! k) (jobs d' !! k).
Proof.
  intros Hkeys Hs k.
  assert (forall o, lifecycle k o o) as Hrefl by (intros [?|]; constructor).
  destruct Hs as [ | k0 j sha Hk Hq | arg id j d' Hn Hc | k0 j msg Hk Hq | k0 j msg Hk Ht
                 | k0 j msg a id s d1 d' Hk Ht -> ? ? ? ? Hi | mins n d' Hi | a id s d' Hi | a id r d' Hi ];
    try done.
  - destruct (decide (k = k0)) as [->|]; cbn; simplify_map_eq; [by constructor|done].
  - apply CreateJob_Ok in Hc as (Hid & -> & _ & _ & ->). cbn.
    destruct (decide (k = id)) as [->|]; [rewrite Hid|]; simplify_map_eq; [by constructor|done].
  - destruct (decide (k = k0)) as [->|]; cbn; simplify_map_eq; [by constructor|done].
  - destruct (decide (k = k0)) as [->|]; cbn; simplify_map_eq; [by constructor|done].
  - apply InsertSnapshot_Ok in Hi as (_ & -> & _). cbn.
    destruct (decide (k = k0)) as [->|]; simplify_map_eq; [by constructor|done].
  - unfold TimeoutRunningJobs in Hi. simplify_eq/=. rewrite lookup_fmap.
    destruct (jobs d !! k) as [j|]; cbn; [|constructor].
    destruct (timed_out now mins j) eqn:Hto; [|constructor].
    unfold timed_out in Hto. apply andb_true_iff in Hto as [Hr _]. apply has_status_true in Hr.
    apply (lc_finish k now JobStatusFailed (Some "Job timed out") j); [by rewrite Hr|done].
  - apply InsertCLISnapshot_Ok in Hi as (-> & _); done.
  - apply UpsertRepo_jobs in Hi as (-> & _). done.
Qed.

(** Identity of a row is preserved: id, repository, branch, delivery. *)
Lemma lifecycle_identity k j j' :
  lifecycle k (Some j) (Some j') ->
  j_ID j' = j_ID j /\ j_RepoID j' = j_RepoID j /\ j_Branch j' = j_Branch j /\ j_DeliveryID j' = j_DeliveryID j.
Proof. by inversion 1. Qed.

Lemma lifecycle_times k o j' :
  (forall j, o = Some j -> times_ok j) -> lifecycle k o (Some j') -> times_ok j'.
Proof.
  intros Hin Hl.
  inversion Hl as [|j|j Hid Hq Ht|now sha j Hq|now msg j Hq|now st msg j Hnt Ht]; subst; auto;
    specialize (Hin _ eq_refl); unfold times_ok in *; cbn in *.
  - by rewrite Hq in *.
  - rewrite Hq in Hin. naive_solver.
  - rewrite Ht. destruct st; naive_solver.
Qed.

(** A queued row was queued before, or is new. *)
Lemma lifecycle_queued k o j' :
  lifecycle k o (Some j') -> j_Status j' = JobStatusQueued ->
  o = None \/ exists j, o = Some j /\ j_Status j = JobStatusQueued.
Proof.
  intros Hl Hq. inversion Hl; subst; cbn in *; try done; eauto; try discriminate.
  by subst st.
Qed.

(** A finished row stays exactly as it is. *)
Lemma lifecycle_terminal k j o :
  IsTerminal (j_Status j) = true -> lifecycle k (Some j) o -> o = Some j.
Proof.
  intros Ht Hl.
  inversion Hl as [|?|?|now sha ? Hq|now msg ? Hq|now st msg ? Hnt Ht2]; subst; auto.
  - by rewrite Hq in Ht.
  - by rewrite Hq in Ht.
  - by rewrite Hnt in Ht.
Qed.

(** ** Preservation of the invariant *)

Lemma db_step_keys now d d' : keys_ok d -> db_step now d d' -> keys_ok d'.
Proof.
  intros Hkeys Hs. pose proof (db_step_lifecycle now d d' Hkeys Hs) as Hl.
  pose proof Hkeys as (Hid & Hsid & Hrid).
  split.
  { intros k j Hk. specialize (Hl k). rewrite Hk in Hl. destruct (jobs d !! k) as [j0|] eqn:E.
    - apply lifecycle_identity in Hl as (-> & _). eauto.
    - by inversion Hl. }
  destruct Hs as [ | k0 j sha Hk Hq | arg id j d' Hn Hc | k0 j msg Hk Hq | k0 j msg Hk Ht
                 | k0 j msg a id s d1 d' Hk Ht -> ? ? ? ? Hi | mins n d' Hi | a id s d' Hi | a id r d' Hi ];
    try (split; done).
  - apply CreateJob_Ok in Hc as (_ & -> & _). done.
  - apply InsertSnapshot_Ok in Hi as (_ & -> & _ & ->). split; [|done]. cbn. intros k s Hs.
    destruct (decide (k = id)) as [->|]; simplify_map_eq; eauto.
  - unfold TimeoutRunningJobs in Hi. by simplify_eq/=.
  - apply InsertCLISnapshot_Ok in Hi as (_ & -> & [(k0 & s0 & Hk0 & -> & _ & _ & _ & ->) | (_ & -> & Hid' & _)]);
      [| |done]; (split; [|done]); intros k s' Hs.
    + destruct (decide (k = k0)) as [->|]; simplify_map_eq; [cbn|]; eauto.
    + destruct (decide (k = id)) as [->|]; simplify_map_eq; eauto.
  - pose proof (UpsertRepo_jobs _ _ _ _ _ _ Hi) as [_ ->].
    apply UpsertRepo_repos in Hi as (k0 & -> & Hk0); [|done]. split; [done|].
    intros k r' Hr. destruct (decide (k = k0)) as [->|]; simplify_map_eq; eauto.
Qed.

(** Repositories are only added or updated. *)
Lemma db_step_repos now d d' k :
  keys_ok d -> db_step now d d' -> is_Some (repositories d !! k) -> is_Some (repositories d' !! k).
Proof.
  intros Hkeys Hs Hk.
  destruct Hs as [ | | arg id j d' Hn Hc | |
                 | k0 j msg a id s d1 d' ? Ht -> ? ? ? ? Hi | mins n d' Hi | a id s d' Hi | a id r d' Hi ];
    try done.
  - by apply CreateJob_Ok in Hc as (_ & -> & _).
  - by apply InsertSnapshot_Ok in Hi as (_ & -> & _ & ->).
  - unfold TimeoutRunningJobs in Hi. by simplify_eq/=.
  - by apply InsertCLISnapshot_Ok in Hi as (_ & -> & _).
  - apply UpsertRepo_repos in Hi as (k0 & -> & _); [|done].
    destruct (decide (k = k0)) as [->|]; simplify_map_eq; eauto.
Qed.

(** The row of a created job, seen from the new table. *)
Lemma db_step_new now d d' k j' :
  db_step now d d' -> keys_ok d -> jobs d !! k = None -> jobs d' !! k = Some j' ->
  is_Some (repositories d !! j_RepoID j') /\
  (forall k2 j2, jobs d !! k2 = Some j2 -> j_RepoID j2 = j_RepoID j' -> j_Branch j2 = j_Branch j' ->
     j_Status j2 <> JobStatusQueued) /\
  (forall k2 j2 x, jobs d !! k2 = Some j2 -> j_DeliveryID j' = Some x -> j_DeliveryID j2 <> Some x) /\
  (forall k2, k2 <> k -> jobs d' !! k2 = jobs d !! k2).
Proof.
  intros Hs Hkeys Hnone Hk.
  destruct Hs as [ | k0 j sha Hk0 Hq | arg id j d' Hn Hc | k0 j msg Hk0 Hq | k0 j msg Hk0 Ht
                 | k0 j msg a id s d1 d' Hk0 Ht -> ? ? ? ? Hi | mins n d' Hi | a id s d' Hi | a id r d' Hi ];
    try (cbn in Hk; destruct (decide (k = k0)) as [->|]; simplify_map_eq; done); try (by rewrite Hnone in Hk).
  - apply CreateJob_Ok in Hc as (Hid & -> & Hdel & Hr & ->). cbn in Hk.
    destruct (decide (k = id)) as [->|]; simplify_map_eq. cbn. split_and!; try done.
    + intros k2 j2 x Hk2 Hx. eauto.
    + intros k2 Hk2. by simplify_map_eq.
  - apply InsertSnapshot_Ok in Hi as (_ & -> & _). cbn in Hk.
    destruct (decide (k = k0)) as [->|]; simplify_map_eq; done.
  - unfold TimeoutRunningJobs in Hi. simplify_eq/=. by rewrite lookup_fmap, Hnone in Hk.
  - apply InsertCLISnapshot_Ok in Hi as (E & _); [|done]. by rewrite E, Hnone in Hk.
  - apply UpsertRepo_jobs in Hi as (E & _). by rewrite E, Hnone in Hk.
Qed.

(** Uniqueness constraints: two rows that agree on a key [P] which new rows do
    not share with old ones, and old rows keep, are the same row. *)
Lemma db_step_unique now d d' (P : Job -> Job -> Prop) :
  keys_ok d -> db_step now d d' ->
  (forall j1 j2, P j1 j2 -> P j2 j1) ->
  (forall k1 k2 j1 j2, jobs d !! k1 = Some j1 -> jobs d !! k2 = Some j2 -> P j1 j2 -> k1 = k2) ->
  (forall k1 k2 j1 j2 j1' j2', lifecycle k1 (Some j1) (Some j1') -> lifecycle k2 (Some j2) (Some j2') ->
     P j1' j2' -> P j1 j2) ->
  (forall k j', jobs d !! k = None -> jobs d' !! k = Some j' ->
     forall k2 j2, jobs d !! k2 = Some j2 -> ~ P j' j2) ->
  forall k1 k2 j1 j2, jobs d' !! k1 = Some j1 -> jobs d' !! k2 = Some j2 -> P j1 j2 -> k1 = k2.
Proof.
  intros Hkeys Hs Hsym Hold Hkeep Hnew k1 k2 j1 j2 Hk1 Hk2 HP.
  pose proof (db_step_lifecycle now d d' Hkeys Hs) as Hl.
  destruct (decide (k1 = k2)) as [|Hne]; [done|].
  pose proof (Hl k1) as Hl1. pose proof (Hl k2) as Hl2. rewrite Hk1 in Hl1. rewrite Hk2 in Hl2.
  destruct (jobs d !! k1) as [i1|] eqn:E1; destruct (jobs d !! k2) as [i2|] eqn:E2.
  - eauto.
  - destruct (db_step_new now d d' k2 j2 Hs Hkeys E2 Hk2) as (_ & _ & _ & Hoth).
    rewrite Hoth, E1 in Hk1 by done. injection Hk1 as ->. exfalso. eapply (Hnew k2 j2); eauto.
  - destruct (db_step_new now d d' k1 j1 Hs Hkeys E1 Hk1) as (_ & _ & _ & Hoth).
    rewrite Hoth, E2 in Hk2 by done. injection Hk2 as ->. exfalso. eapply (Hnew k1 j1); eauto.
  - destruct (db_step_new now d d' k1 j1 Hs Hkeys E1 Hk1) as (_ & _ & _ & Hoth).
    by rewrite Hoth, E2 in Hk2 by done.
Qed.

(** The snapshot table: unchanged, one new row, or one row overwritten in
    place by an upload. *)
Lemma db_step_snapshots now d d' :
  keys_ok d -> db_step now d d' ->
  snapshots d' = snapshots d \/
  (exists k s, snapshots d !! k = None /\ snapshots d' = <[k := s]> (snapshots d) /\
     (forall k2 s2, snapshots d !! k2 = Some s2 -> s_RepoID s2 = s_RepoID s -> s_Branch s2 = s_Branch s ->
        s_CommitSha s2 <> s_CommitSha s) /\
     (forall jid, s_JobID s = Some jid -> exists j, jobs d' !! jid = Some j /\ j_Status j = JobStatusSucceeded /\
        j_RepoID j = s_RepoID s /\ j_Branch j = s_Branch s /\ j_CommitSha j = s_CommitSha s)) \/
  (exists k s0 s, snapshots d !! k = Some s0 /\ snapshots d' = <[k := s]> (snapshots d) /\
     s_JobID s = s_JobID s0 /\ s_RepoID s = s_RepoID s0 /\ s_Branch s = s_Branch s0 /\ s_CommitSha s = s_CommitSha s0).
Proof.
  intros Hkeys Hs.
  destruct Hs as [ | | arg id j d' Hn Hc | |
                 | k0 j msg a id s d1 d' Hk0 Ht -> Hr Hj Hb Hsha Hi | mins n d' Hi | a id s d' Hi | a id r d' Hi ];
    try (by left).
  - left. by apply CreateJob_Ok in Hc as (_ & -> & _).
  - right; left. apply InsertSnapshot_Ok in Hi as (Hid & -> & Hu & ->). cbn in *.
    exists id. eexists. split_and!; [done|reflexivity| |].
    + intros k2 s2 Hk2. cbn. by apply (Hu k2 s2).
    + cbn. intros jid [= <-]. rewrite Hj, lookup_insert_eq. eexists. split_and!; [reflexivity|done..].
  - left. unfold TimeoutRunningJobs in Hi. by simplify_eq/=.
  - apply InsertCLISnapshot_Ok in Hi
      as (_ & _ & [(k0 & s0 & Hk0 & -> & _ & _ & _ & Hd) | (Hid & Hd & _ & Hjob & Hu)]); [| |done].
    + right; right. exists k0, s0. eexists. split_and!; done.
    + right; left. exists id, s. split_and!; try done. intros jid Hjid. by rewrite Hjob in Hjid.
  - left. by apply UpsertRepo_jobs in Hi as (_ & ->).
Qed.

Section Preserve.
Context (now : Z) (d d' : DB) (Hs : db_step now d d') (Hwf : wf d).

Let Hkeys : keys_ok d := wf_keys d Hwf.
Let Hl : forall k, lifecycle k (jobs d !! k) (jobs d' !! k) := db_step_lifecycle now d d' Hkeys Hs.

Lemma db_step_times k j : jobs d' !! k = Some j -> times_ok j.
Proof.
  intros Hk. eapply lifecycle_times; [|rewrite <-Hk; apply Hl]. eauto using wf_times.
Qed.

Lemma db_step_fk k j : jobs d' !! k = Some j -> is_Some (repositories d' !! j_RepoID j).
Proof.
  intros Hk. eapply db_step_repos; [done..|].
  pose proof (Hl k) as Hlk. rewrite Hk in Hlk. destruct (jobs d !! k) as [j0|] eqn:E.
  - apply lifecycle_identity in Hlk as (_ & -> & _). eauto using wf_repo.
  - by destruct (db_step_new now d d' k j Hs Hkeys E Hk) as (? & _).
Qed.

Lemma db_step_delivery k1 k2 j1 j2 x :
  jobs d' !! k1 = Some j1 -> jobs d' !! k2 = Some j2 ->
  j_DeliveryID j1 = Some x -> j_DeliveryID j2 = Some x -> k1 = k2.
Proof.
  intros H1 H2 Hx1 Hx2.
  eapply (db_step_unique now d d' (fun a b => exists x, j_DeliveryID a = Some x /\ j_DeliveryID b = Some x));
    eauto; [naive_solver| | |].
  - intros ? ? ? ? ? ? (y & ? & ?). eauto using wf_delivery.
  - intros ? ? ? ? ? ? Ha Hb (y & ? & ?).
    apply lifecycle_identity in Ha as (_ & _ & _ & Ha). apply lifecycle_identity in Hb as (_ & _ & _ & Hb).
    exists y. by rewrite <-Ha, <-Hb.
  - intros k j' Hn Hk k3 j3 Hk3 (y & Hy1 & Hy2).
    destruct (db_step_new now d d' k j' Hs Hkeys Hn Hk) as (_ & _ & Hd & _). by eapply Hd.
Qed.

Lemma db_step_queued k1 k2 j1 j2 :
  jobs d' !! k1 = Some j1 -> jobs d' !! k2 = Some j2 ->
  j_Status j1 = JobStatusQueued -> j_Status j2 = JobStatusQueued ->
  j_RepoID j1 = j_RepoID j2 -> j_Branch j1 = j_Branch j2 -> k1 = k2.
Proof.
  intros H1 H2 Hq1 Hq2 Hr Hb.
  eapply (db_step_unique now d d' (fun a b => j_Status a = JobStatusQueued /\ j_Status b = JobStatusQueued /\
            j_RepoID a = j_RepoID b /\ j_Branch a = j_Branch b)); eauto; [naive_solver| | |].
  - intros ? ? ? ? ? ? (? & ? & ? & ?). eauto using wf_queued.
  - intros ? ? ? ? ? ? Ha Hc (Hqa & Hqb & ? & ?).
    apply (lifecycle_queued _ _ _ Ha) in Hqa as [|(? & [= <-] & ?)]; [done|].
    apply (lifecycle_queued _ _ _ Hc) in Hqb as [|(? & [= <-] & ?)]; [done|].
    apply lifecycle_identity in Ha as (_ & <- & <- & _). apply lifecycle_identity in Hc as (_ & <- & <- & _). done.
  - intros k j' Hn Hk k3 j3 Hk3 (? & Hq & ? & ?).
    destruct (db_step_new now d d' k j' Hs Hkeys Hn Hk) as (_ & Hd & _ & _). by eapply (Hd k3 j3).
Qed.

Lemma db_step_commit k1 k2 s1 s2 :
  snapshots d' !! k1 = Some s1 -> snapshots d' !! k2 = Some s2 ->
  s_RepoID s1 = s_RepoID s2 -> s_Branch s1 = s_Branch s2 -> s_CommitSha s1 = s_CommitSha s2 -> k1 = k2.
Proof.
  intros H1 H2 Hr Hb Hc.
  destruct (db_step_snapshots now d d' Hkeys Hs)
    as [E | [(k & s & Hn & E & Hu & _) | (k & s0 & s & Hk & E & Ej & Er & Eb & Ec)]]; rewrite E in *.
  - eauto using wf_commit.
  - destruct (decide (k1 = k)) as [->|]; destruct (decide (k2 = k)) as [->|]; simplify_map_eq; try done.
    + exfalso. by eapply (Hu k2 s2).
    + exfalso. by eapply (Hu k1 s1).
    + eauto using wf_commit.
  - destruct (decide (k1 = k)) as [->|]; destruct (decide (k2 = k)) as [->|]; simplify_map_eq; try done.
    + eapply (wf_commit d Hwf k k2 s0 s2); congruence.
    + eapply (wf_commit d Hwf k1 k s1 s0); congruence.
    + eauto using wf_commit.
Qed.

(** A job a snapshot refers to has succeeded, so its row does not change. *)
Lemma db_step_source_fixed k s jid :
  snapshots d !! k = Some s -> s_JobID s = Some jid -> jobs d' !! jid = jobs d !! jid.
Proof.
  intros Hk Hjid. destruct (wf_snapshot d Hwf k s jid Hk Hjid) as (j & Hj & Ht & _).
  pose proof (Hl jid) as Hlj. rewrite Hj in Hlj |- *. apply lifecycle_terminal in Hlj; [done|by rewrite Ht].
Qed.

Lemma db_step_source k1 s1 jid :
  snapshots d' !! k1 = Some s1 -> s_JobID s1 = Some jid ->
  exists j, jobs d' !! jid = Some j /\ j_Status j = JobStatusSucceeded /\
    j_RepoID j = s_RepoID s1 /\ j_Branch j = s_Branch s1 /\ j_CommitSha j = s_CommitSha s1.
Proof.
  intros H1 Hjid.
  destruct (db_step_snapshots now d d' Hkeys Hs)
    as [E | [(k & s & Hn & E & _ & Hjob) | (k & s0 & s & Hk & E & Ej & Er & Eb & Ec)]]; rewrite E in H1.
  - rewrite (db_step_source_fixed k1 s1 jid H1 Hjid). eauto using wf_snapshot.
  - destruct (decide (k1 = k)) as [->|]; simplify_map_eq; [by apply Hjob|].
    rewrite (db_step_source_fixed k1 s1 jid H1 Hjid). eauto using wf_snapshot.
  - destruct (decide (k1 = k)) as [->|]; simplify_map_eq.
    + rewrite Ej in Hjid. rewrite (db_step_source_fixed k s0 jid Hk Hjid), Er, Eb, Ec. eauto using wf_snapshot.
    + rewrite (db_step_source_fixed k1 s1 jid H1 Hjid). eauto using wf_snapshot.
Qed.

Lemma db_step_wf : wf d'.
Proof.
  split; eauto using db_step_keys, db_step_times, db_step_fk, db_step_delivery, db_step_queued,
    db_step_commit, db_step_source.
Qed.

End Preserve.

(** ** The system *)
Section SystemFacts.
Context `{UUIDCodec} `{Validator} `{TaskEnqueuer}.

Lemma sys_step_db w w' :
  keys_ok (w_db w) -> w_tx w = None -> sys_step w w' ->
  db_step (w_now w) (w_db w) (w_db w') /\ w_tx w' = None.
Proof.
  intros Hk Htx Hs.
  destruct Hs as [signer ev did r w w' Hr | locked r w w' Hr | gct ctx body r w w' Hr | ctx body r w w' Hr
                 | mins r w w' Hr | a r w w' Hr | a r w w' Hr | now ids faults w Hn].
  - split; [by eapply HandlePush_step|by apply HandlePush_inv in Hr as [? _]].
  - go_run; (split; [|done]); eauto using ClaimJob_step with zag.
  - split; [by eapply Start_step|eapply Start_inv in Hr as [? _]; done].
  - split; [by eapply Complete_step|eapply Complete_inv in Hr as [? _]; done].
  - split; [by eapply Timeout_step|apply Timeout_inv in Hr as [-> _]; done].
  - go_run; (split; [|done]); eauto with zag.
  - go_run; (split; [|done]); eauto with zag.
  - split; [apply ds_same|done].
Qed.

Lemma sys_steps_wf w w' :
  rtc sys_step w w' -> wf (w_db w) -> w_tx w = None -> wf (w_db w') /\ w_tx w' = None.
Proof.
  induction 1 as [w|w w1 w' Hs _ IH]; intros Hwf Htx; [done|].
  destruct (sys_step_db w w1 (wf_keys _ Hwf) Htx Hs) as [Hd Htx1]. eauto using db_step_wf.
Qed.

Lemma sys_step_lifecycle w w' k :
  wf (w_db w) -> w_tx w = None -> sys_step w w' ->
  lifecycle k (jobs (w_db w) !! k) (jobs (w_db w') !! k).
Proof.
  intros Hwf Htx Hs. destruct (sys_step_db w w' (wf_keys _ Hwf) Htx Hs) as [Hd _].
  eauto using db_step_lifecycle, wf_keys.
Qed.

End SystemFacts.

Lemma wf_empty : wf empty_db.
Proof. split; cbn; try (by intros; simplify_map_eq). Qed.

End JobSystem.
