(* ===== verification/JobProps.v ===== *)
(** The properties of the job pipeline: what a push, a claim, a start, a
    completion and a watchdog run guarantee, alone and over any interleaving. *)

From S2P Require Import Prelude GoStr Sha256 JobToken Store JobStore HttpUtil Middleware JobService Callback JobEffects JobSystem.

Module JobProps.
Import JobStore Github JobEffects JobSystem.

(** * Closed examples used by the witnesses *)

#[local] Existing Instance example_codec.
#[local] Existing Instance example_validator.

Definition ex_repo : Repository := mkRepository 7 (Some 1%N) 42 99 "acme/app" "main" 0 None.

Definition ex_db : DB := set_repositories {[ 7%N := ex_repo ]} empty_db.

Definition ex_world : World := mkWorld ex_db None 1000 [100; 101; 102]%N [] [] ∅ ∅.

Definition ex_event (sha : string) : WebhookEvent :=
  mkWebhookEvent "push" "" 42 "acme/app" "https://github.com/acme/app.git" "main" sha 99.

Definition ex_signer : JobToken.Signer := JobToken.NewSigner "secret" 60000000000.

(** A push, a start, a failing report and a watchdog run, one after another. *)
Definition ex_w1 : World := (JobService.HandlePush ex_signer (ex_event "c1") "d1" ex_world).2.

Definition ex_gct (installation : Z) : option string := Some "clone-token".

Definition ex_w2 : World := (Callback.Start ex_gct "100" (Some (Callback.mkStartRequest "100")) ex_w1).2.

Definition ex_failed : Callback.CompleteRequest := Callback.mkCompleteRequest "100" "failed" "boom" "" "" 0 5.

Definition ex_succeeded : Callback.CompleteRequest :=
  Callback.mkCompleteRequest "100" "succeeded" "" "gs://b/1/7/c1" "1.0" 10 5.

Definition ex_w3 : World := (Callback.Complete "100" (Some ex_failed) ex_w2).2.

Definition ex_w4 : World := (Watchdog.Timeout 20 ex_w3).2.

(** * Definitions *)

Definition bodyLimit1MB : Z := 1024 * 1024.

Record InternalRequest := mkInternalRequest {
  ir_Authorization : string;
  ir_ContentType : string;
  ir_Body : BodyLimit.Body
}.

(** A callback route of [routes/internal.go], always a POST: the body limit,
    the content type, the token middleware, then the handler on the body the
    latter read.  [media] is the media type parser, [decode] reads the token
    middleware's payload, [parse] the handler's request. *)
Definition internal_route {Req A} (media : string -> option string) (signer : JobToken.Signer)
    (decode : string -> option string) (parse : string -> option Req)
    (handler : string -> option Req -> M World (Resp A)) (r : InternalRequest) : M World (Resp A) := fun w =>
  let body := BodyLimit.Limit bodyLimit1MB "POST" (ir_Body r) in
  match ContentType.RequireJSON media "POST" (ir_ContentType r) with
  | Err (st, msg) => (Fail st msg, w)
  | Ok _ =>
      match JobToken.Auth signer decode (go_now w) (ir_Authorization r)
              (BodyLimit.read_upto (Z.of_nat JobToken.maxBodyBytes) body) with
      | Err (st, msg) => (Fail st msg, w)
      | Ok (jobID, raw) => handler jobID (parse raw) w
      end
  end.

(** The request carries an unexpired token, signed with the current or the
    previous key, for the job [k] names; only rows of that job may differ. *)
Definition authorised_change `{UUIDCodec} (signer : JobToken.Signer) (authorization : string) (w w' : World) : Prop :=
  exists jobID key e k,
    (key = JobToken.key signer \/ JobToken.prevKey signer = Some key) /\
    JobToken.extractBearer authorization = JobToken.sign key jobID e /\ unix (go_now w) <= e /\
    uuid_scan jobID = Some k /\
    (forall k', k' <> k -> jobs (w_db w') !! k' = jobs (w_db w) !! k') /\
    (forall k' s, snapshots (w_db w') !! k' = Some s ->
       snapshots (w_db w) !! k' = Some s \/ s_JobID s = Some k) /\
    repositories (w_db w') = repositories (w_db w).

(** * Lemmas *)

Lemma ex_db_wf : wf ex_db.
Proof.
  split; cbn; try (by intros; simplify_map_eq).
  split_and!; cbn; intros k r Hk; simplify_map_eq; try done.
Qed.

Section Lemmas.
Context `{UUIDCodec} `{Validator} `{TaskEnqueuer}.

(** The rollback that is deferred runs after the commit and does nothing. *)
Lemma Rollback_closed w : w_tx w = None -> Rollback w = (tt, w).
Proof. unfold Rollback. by intros ->. Qed.

(** A transaction run: begin, the body, the deferred rollback. *)
Lemma HandlePush_run signer ev did w r w' :
  w_faults w = [] ->
  JobService.HandlePush_tx signer ev did (set_tx (Some (w_db w)) w) = (r, w') ->
  JobService.HandlePush signer ev did w = (r, (Rollback w').2).
Proof.
  intros Hf Hrun. unfold JobService.HandlePush.
  erewrite bind_eval by (apply Begin_ok; done). cbn beta iota.
  rewrite (bind_eval _ _ _ _ _ Hrun). unfold bind, ret. by destruct (Rollback w').
Qed.

(** Inside the transaction the active jobs of the branch are read. *)
Lemma HandlePush_tx_run signer ev did w repo :
  w_faults w = [] -> GetRepoByGithubID (RepoID ev) (w_db w) = Ok repo ->
  JobService.HandlePush_tx signer ev did w =
    JobService.HandlePush_apply signer ev did repo
      (order_asc j_CreatedAt (select (active_on (r_ID repo) (Branch ev)) (jobs (w_db w)))) w.
Proof.
  intros Hf Hr. unfold JobService.HandlePush_tx.
  erewrite bind_eval by (apply query_ok; done). rewrite Hr. cbn beta iota.
  erewrite bind_eval by (apply query_ok; done). cbn.
  by erewrite bind_eval by (apply query_ok; done).
Qed.

Lemma HandlePush_retarget_run signer ev did w repo j d' :
  w_tx w = None -> w_faults w = [] ->
  GetRepoByGithubID (RepoID ev) (w_db w) = Ok repo ->
  find (has_status JobStatusQueued)
    (order_asc j_CreatedAt (select (active_on (r_ID repo) (Branch ev)) (jobs (w_db w)))) = Some j ->
  UpdateJobCommitSHA (j_ID j) (CommitSHA ev) (w_now w) (w_db w) = Ok (tt, d') ->
  JobService.HandlePush signer ev did w = (Ok tt, set_tx None (set_db d' w)).
Proof.
  intros Htx Hf Hr Hq Hu.
  erewrite (HandlePush_run _ _ _ _ (Ok tt) (set_tx None (set_db d' w))); [done|done|].
  erewrite HandlePush_tx_run by done. unfold JobService.HandlePush_apply. cbn. rewrite Hq.
  erewrite bind_eval by (eapply exec_ok; [done|exact Hu]). cbn.
  by erewrite bind_eval by (apply Commit_ok; done).
Qed.

(** The push that creates a job, up to what the enqueuer does. *)
Lemma HandlePush_create_run signer ev did w repo j d' :
  w_tx w = None -> w_faults w = [] ->
  GetRepoByGithubID (RepoID ev) (w_db w) = Ok repo ->
  find (has_status JobStatusQueued)
    (order_asc j_CreatedAt (select (active_on (r_ID repo) (Branch ev)) (jobs (w_db w)))) = None ->
  CreateJob (mkCreateJobParams (r_ID repo) (Branch ev) (CommitSHA ev) did)
    (w_now w) (hd 0%N (w_ids w)) (w_db w) = Ok (j, d') ->
  let w1 := set_tx None (set_db d' (set_ids (tl (w_ids w)) w)) in
  JobService.HandlePush signer ev did w =
    (Ok tt, (Enqueue (uuid_text (j_ID j)) (JobToken.Sign signer (go_now w) (uuid_text (j_ID j))) w1).2).
Proof.
  intros Htx Hf Hr Hq Hc w1.
  set (tok := JobToken.Sign _ _ _).
  erewrite (HandlePush_run _ _ _ _ (Ok tt) (Enqueue (uuid_text (j_ID j)) tok w1).2); [|done|].
  - rewrite Rollback_closed; [done|]. by rewrite Enqueue_tx.
  - erewrite HandlePush_tx_run by done. unfold JobService.HandlePush_apply. cbn. rewrite Hq.
    erewrite bind_eval by (eapply insert_stmt_ok; [done|exact Hc]). cbn.
    erewrite bind_eval by (apply Commit_ok; done). cbn.
    unfold JobService.enqueue_job, bind, ret.
    match goal with |- context [Enqueue _ ?t ?c] => change t with tok; change c with w1 end.
    by destruct (Enqueue _ _ w1).
Qed.

(** A redelivery that finds no queued job is recognised and ignored. *)
Lemma HandlePush_duplicate_run signer ev did w repo :
  w_tx w = None -> w_faults w = [] ->
  GetRepoByGithubID (RepoID ev) (w_db w) = Ok repo ->
  find (has_status JobStatusQueued)
    (order_asc j_CreatedAt (select (active_on (r_ID repo) (Branch ev)) (jobs (w_db w)))) = None ->
  CreateJob (mkCreateJobParams (r_ID repo) (Branch ev) (CommitSHA ev) did)
    (w_now w) (hd 0%N (w_ids w)) (w_db w) = Err ErrUniqueViolation ->
  exists w', JobService.HandlePush signer ev did w = (Ok tt, w') /\
    w_db w' = w_db w /\ w_tx w' = None /\ w_tasks w' = w_tasks w.
Proof.
  intros Htx Hf Hr Hq Hc. eexists. split.
  - apply HandlePush_run; [done|]. erewrite HandlePush_tx_run by done.
    unfold JobService.HandlePush_apply. cbn. rewrite Hq.
    by erewrite bind_eval by (eapply insert_stmt_err; [done|exact Hc]).
  - done.
Qed.

(** A failed push leaves the database and the task queue as they were. *)
Lemma HandlePush_err signer ev did w e w' :
  w_tx w = None -> JobService.HandlePush signer ev did w = (Err e, w') ->
  w_db w' = w_db w /\ w_tx w' = None /\ w_tasks w' = w_tasks w.
Proof.
  intros Htx Hrun.
  unfold JobService.HandlePush, JobService.HandlePush_tx, JobService.HandlePush_apply,
    JobService.advisory_lock, GetActiveJobsForBranch in Hrun.
  go_run; try done.
  exfalso. match goal with Hr : JobService.enqueue_job _ _ _ = _ |- _ => by apply enqueue_job_inv in Hr as (? & _) end.
Qed.

(** A new job can be inserted when its id is fresh, its delivery is new and its
    repository exists. *)
Lemma CreateJob_fresh arg now id d :
  jobs d !! id = None -> is_Some (repositories d !! cj_RepoID arg) ->
  (cj_Column4 arg <> "" -> forall k j, jobs d !! k = Some j -> j_DeliveryID j <> Some (cj_Column4 arg)) ->
  exists j, CreateJob arg now id d = Ok (j, set_jobs (<[id := j]> (jobs d)) d) /\
    j = mkJob id (cj_RepoID arg) (cj_Branch arg) (cj_CommitSha arg) (NULLIF_empty (cj_Column4 arg))
          JobStatusQueued None now now None None.
Proof.
  intros Hid [r Hr] Hdel. eexists. split; [|reflexivity]. unfold CreateJob.
  rewrite bool_decide_false by (rewrite Hid; by intros []).
  rewrite (proj2 (any_row_false _ _)).
  - rewrite bool_decide_false; [done|]. by rewrite Hr.
  - intros k j Hk. unfold has_delivery, NULLIF_empty. case_decide; [done|].
    apply bool_decide_eq_false. eauto.
Qed.

(** The repository a query by GitHub id returns is a row of the table. *)
Lemma GetRepoByGithubID_row gid d r :
  keys_ok d -> GetRepoByGithubID gid d = Ok r -> repositories d !! r_ID r = Some r /\ r_GithubRepoID r = gid.
Proof.
  intros (_ & _ & Hk) Hr. unfold GetRepoByGithubID, result_of_option in Hr.
  destruct (find_row _ _) as [r'|] eqn:E; simplify_eq/=.
  apply find_row_Some in E as [Hp [k Hr]]. apply bool_decide_eq_true in Hp. by rewrite (Hk k r Hr).
Qed.

(** A transaction run of the callbacks: the checks pass, the body runs, the
    deferred rollback closes. *)
Lemma Start_run gct ctx k w r w' :
  w_faults w = [] -> uuid_scan ctx = Some k -> Callback.validate_StartRequest (Callback.mkStartRequest ctx) = [] ->
  Callback.Start_tx gct k (set_tx (Some (w_db w)) w) = (r, w') ->
  Callback.Start gct ctx (Some (Callback.mkStartRequest ctx)) w = (r, (Rollback w').2).
Proof.
  intros Hf Hk Hv Hrun. unfold Callback.Start. rewrite Hv. cbn. rewrite decide_False by (intros X; by apply X).
  unfold UUIDFromString. rewrite Hk.
  erewrite bind_eval by (apply Begin_ok; done). cbn beta iota.
  rewrite (bind_eval _ _ _ _ _ Hrun). unfold bind, ret. by destruct (Rollback w').
Qed.

Lemma Complete_run req k w r w' :
  w_faults w = [] -> uuid_scan (Callback.cr_JobID req) = Some k -> Callback.validate_CompleteRequest req = [] ->
  Callback.Complete_tx req k (set_tx (Some (w_db w)) w) = (r, w') ->
  Callback.Complete (Callback.cr_JobID req) (Some req) w = (r, (Rollback w').2).
Proof.
  intros Hf Hk Hv Hrun. unfold Callback.Complete. rewrite Hv. cbn. rewrite decide_False by (intros X; by apply X).
  unfold UUIDFromString. rewrite Hk.
  erewrite bind_eval by (apply Begin_ok; done). cbn beta iota.
  rewrite (bind_eval _ _ _ _ _ Hrun). unfold bind, ret. by destruct (Rollback w').
Qed.

(** Answering a start: the repository of the job and a clone token. *)
Lemma respondStart_run gct job w row repo tok :
  w_faults w = [] -> jobs (w_db w) !! j_ID job = Some row -> repositories (w_db w) !! j_RepoID row = Some repo ->
  gct (r_InstallationID repo) = Some tok ->
  Callback.respondStart gct job w =
    (Reply StatusOK (Callback.mkStartResponse (j_CommitSha job) (j_Branch job) (r_FullName repo) tok
                       (r_InstallationID repo)), w).
Proof.
  intros Hf Hj Hr Hg. unfold Callback.respondStart, GetRepoForJob.
  erewrite bind_eval by (apply query_ok; done). rewrite Hj, Hr. cbn. by rewrite Hg.
Qed.

(** What a handler leaves alone: the clock, the failure schedule, the bucket,
    and no transaction stays open. *)
Definition settled (w w' : World) : Prop :=
  w_now w' = w_now w /\ w_faults w' = w_faults w /\ w_objects w' = w_objects w /\ w_tx w' = None.

(** A succeeding report on a live job whose commit has no snapshot yet. *)
Lemma Complete_success_run req k w j :
  keys_ok (w_db w) -> w_faults w = [] ->
  uuid_scan (Callback.cr_JobID req) = Some k -> Callback.validate_CompleteRequest req = [] ->
  Callback.cr_Status req = Callback.StatusSucceeded ->
  jobs (w_db w) !! k = Some j -> IsTerminal (j_Status j) = false -> is_Some (repositories (w_db w) !! j_RepoID j) ->
  snapshots (w_db w) !! hd 0%N (w_ids w) = None ->
  (forall k' s, snapshots (w_db w) !! k' = Some s ->
     same_commit (j_RepoID j) (j_Branch j) (j_CommitSha j) s = false) ->
  exists w', Callback.Complete (Callback.cr_JobID req) (Some req) w = (Reply StatusOK "succeeded", w') /\
    jobs (w_db w') = <[k := touch (w_now w) (set_status (w_now w) JobStatusSucceeded
                              (NULLIF_empty (Callback.cr_ErrorMessage req)) j)]> (jobs (w_db w)) /\
    snapshots (w_db w') =
      <[hd 0%N (w_ids w) := mkSnapshot (hd 0%N (w_ids w)) (j_RepoID j) (Some k) (j_Branch j) (j_CommitSha j)
          (Callback.cr_SnapshotPath req) 1 (Callback.cr_ZigzagVersion req) (Callback.cr_SizeBytes req)
          (w_now w) None]> (snapshots (w_db w)) /\
    settled w w'.
Proof.
  intros (Hid & _) Hf Hk Hv Hst Hj Ht [r Hr] Hsid Hsame. specialize (Hid k j Hj).
  eexists. split.
  - apply (Complete_run req k); [done..|].
    unfold Callback.Complete_tx. erewrite bind_eval by (apply query_ok; done).
    cbn. unfold GetJobForUpdate. rewrite Hj. cbn. rewrite Ht.
    unfold Callback.Complete_write. rewrite Hst.
    change (status_of_text Callback.StatusSucceeded) with (Some JobStatusSucceeded). cbn beta iota.
    rewrite decide_True by done.
    erewrite bind_eval by (eapply exec_ok; [done|reflexivity]). cbn. rewrite Hid.
    rewrite (update_job_id _ k j) by done.
    erewrite bind_eval.
    2:{ erewrite bind_eval; [reflexivity|]. eapply insert_stmt_ok; [done|]. unfold InsertSnapshot. cbn.
        rewrite bool_decide_false by (rewrite Hsid; by intros []).
        rewrite (proj2 (any_row_false _ _)) by done.
        rewrite bool_decide_false by (by rewrite Hr).
        rewrite bool_decide_false by (by rewrite lookup_insert_eq). reflexivity. }
    cbn. by erewrite bind_eval by (apply Commit_ok; done).
  - cbn. by split_and!.
Qed.

(** A failure report on a live job. *)
Lemma Complete_failed_run req k w j :
  keys_ok (w_db w) -> w_faults w = [] ->
  uuid_scan (Callback.cr_JobID req) = Some k -> Callback.validate_CompleteRequest req = [] ->
  Callback.cr_Status req = Callback.StatusFailed ->
  jobs (w_db w) !! k = Some j -> IsTerminal (j_Status j) = false ->
  exists w', Callback.Complete (Callback.cr_JobID req) (Some req) w = (Reply StatusOK "failed", w') /\
    w_db w' = set_jobs (<[k := touch (w_now w) (set_status (w_now w) JobStatusFailed
                              (NULLIF_empty (Callback.cr_ErrorMessage req)) j)]> (jobs (w_db w))) (w_db w) /\
    settled w w'.
Proof.
  intros (Hid & _) Hf Hk Hv Hst Hj Ht. specialize (Hid k j Hj).
  eexists. split.
  - apply (Complete_run req k); [done..|].
    unfold Callback.Complete_tx. erewrite bind_eval by (apply query_ok; done).
    cbn. unfold GetJobForUpdate. rewrite Hj. cbn. rewrite Ht.
    unfold Callback.Complete_write. rewrite Hst.
    change (status_of_text Callback.StatusFailed) with (Some JobStatusFailed). cbn beta iota.
    erewrite bind_eval by (eapply exec_ok; [done|reflexivity]). cbn. rewrite Hid.
    rewrite (update_job_id _ k j) by done.
    erewrite bind_eval by reflexivity. cbn beta iota.
    by erewrite bind_eval by (apply Commit_ok; done).
  - by split_and!.
Qed.

(** A start callback on a running job: the answer, and nothing changes. *)
Lemma Start_running_run gct ctx k w j repo tok :
  keys_ok (w_db w) -> w_tx w = None -> w_faults w = [] ->
  uuid_scan ctx = Some k -> Callback.validate_StartRequest (Callback.mkStartRequest ctx) = [] ->
  jobs (w_db w) !! k = Some j -> j_Status j = JobStatusRunning ->
  repositories (w_db w) !! j_RepoID j = Some repo -> gct (r_InstallationID repo) = Some tok ->
  Callback.Start gct ctx (Some (Callback.mkStartRequest ctx)) w =
    (Reply StatusOK (Callback.mkStartResponse (j_CommitSha j) (j_Branch j) (r_FullName repo) tok
                       (r_InstallationID repo)), w).
Proof.
  intros (Hid & _) Htx Hf Hk Hv Hj Hst Hr Hg. specialize (Hid k j Hj).
  destruct (Callback.Start_tx gct k (set_tx (Some (w_db w)) w)) as [r w1] eqn:Hrun.
  erewrite Start_run by done. unfold Callback.Start_tx in Hrun. erewrite bind_eval in Hrun by (apply query_ok; done).
  cbn in Hrun. unfold GetJobForUpdate in Hrun. rewrite Hj in Hrun. cbn in Hrun.
  rewrite (proj2 (has_status_true _ _)) in Hrun by done.
  erewrite bind_eval in Hrun by (apply Commit_ok; done). cbn in Hrun.
  erewrite respondStart_run in Hrun; [|done|cbn; by rewrite Hid|exact Hr|exact Hg]. simplify_eq/=.
  unfold set_tx. destruct w; cbn in *. by subst.
Qed.

(** A report on a finished job answers the recorded status. *)
Lemma Complete_terminal_run req k w j :
  w_faults w = [] -> w_tx w = None ->
  uuid_scan (Callback.cr_JobID req) = Some k -> Callback.validate_CompleteRequest req = [] ->
  jobs (w_db w) !! k = Some j -> IsTerminal (j_Status j) = true ->
  Callback.Complete (Callback.cr_JobID req) (Some req) w = (Reply StatusOK (status_text (j_Status j)), w).
Proof.
  intros Hf Htx Hk Hv Hj Ht. rewrite (Complete_run req k w (Reply StatusOK (status_text (j_Status j))) w); [..|].
  - by rewrite Rollback_closed.
  - done.
  - done.
  - done.
  - unfold Callback.Complete_tx. erewrite bind_eval by (apply query_ok; done).
    cbn. unfold GetJobForUpdate. rewrite Hj. cbn. rewrite Ht.
    erewrite bind_eval by (apply Commit_ok; done). unfold ret, set_tx; cbn. destruct w; cbn in *. by subst.
Qed.

(** The validator only lets terminal statuses through. *)
Lemma validated_status req st :
  Struct (Callback.validate_CompleteRequest req) = Ok tt ->
  status_of_text (Callback.cr_Status req) = Some st -> IsTerminal st = true.
Proof.
  intros Hv Hst. apply (Complete_status_valid req st) in Hv as [-> | ->]; done.
Qed.

(** A report on a live job that is answered 200 was written: the job has the
    reported status, and that status is terminal. *)
Lemma Complete_written req k w w1 j st body :
  wf (w_db w) -> w_tx w = None -> uuid_scan (Callback.cr_JobID req) = Some k ->
  Callback.Complete (Callback.cr_JobID req) (Some req) w = (Reply st body, w1) ->
  jobs (w_db w) !! k = Some j -> IsTerminal (j_Status j) = false ->
  exists j1, jobs (w_db w1) !! k = Some j1 /\ IsTerminal (j_Status j1) = true /\
    status_text (j_Status j1) = Callback.cr_Status req /\ body = Callback.cr_Status req.
Proof.
  intros Hwf Htx Hk Hrun Hj Hnt.
  pose proof (Complete_inv _ _ _ _ _ Htx Hrun) as (Htx1 & Hc).
  destruct Hc as [[_ Heq] | (r & k' & j' & [= <-] & _ & Hk' & Hv & Hj' & _ & [= -> ->] & st' & d1 & Hst & -> & Hw)].
  { destruct (Heq st body eq_refl) as (k' & j' & Hk' & Hj' & Ht & _). congruence. }
  assert (k' = k) as -> by congruence. assert (j' = j) as -> by congruence.
  rewrite (proj1 (wf_keys _ Hwf) k j Hj) in Hw. rewrite (update_job_id _ k j) in Hw by done.
  pose proof (validated_status req st' Hv Hst) as Ht. apply status_of_text_Some in Hst.
  assert (jobs (w_db w1) !! k = Some (touch (w_now w) (set_status (w_now w) st'
            (NULLIF_empty (Callback.cr_ErrorMessage req)) j))) as Hj1.
  { destruct Hw as [[_ ->] | [-> [s Hw]]]; [|apply InsertSnapshot_Ok in Hw as (_ & -> & _)];
      cbn; by rewrite lookup_insert_eq. }
  eauto 10.
Qed.

Lemma Auth_Ok signer decode now authorization body jobID raw :
  JobToken.Auth signer decode now authorization body = Ok (jobID, raw) ->
  JobToken.Validate signer jobID (JobToken.extractBearer authorization) now = Ok tt.
Proof.
  unfold JobToken.Auth. intros Ha. repeat (case_match; simplify_eq/=).
  match goal with u : unit |- _ => by destruct u end.
Qed.

(** Behind the middleware, a handler that only changes the job it is given
    makes authorised changes only. *)
Lemma internal_route_authorised {Req A} media signer decode parse
    (handler : string -> option Req -> M World (Resp A)) req w r w' :
  internal_route media signer decode parse handler req w = (r, w') -> w_db w' <> w_db w ->
  (forall ctx body r0, handler ctx body w = (r0, w') -> w_db w' <> w_db w ->
     exists k, uuid_scan ctx = Some k /\
       (forall k', k' <> k -> jobs (w_db w') !! k' = jobs (w_db w) !! k') /\
       (forall k' s, snapshots (w_db w') !! k' = Some s ->
          snapshots (w_db w) !! k' = Some s \/ s_JobID s = Some k) /\
       repositories (w_db w') = repositories (w_db w)) ->
  authorised_change signer (ir_Authorization req) w w'.
Proof.
  intros Hrun Hne Hh. unfold internal_route in Hrun.
  destruct (ContentType.RequireJSON _ _ _) as [|[st msg]]; [|by simplify_eq].
  destruct (JobToken.Auth _ _ _ _ _) as [[jobID raw]|[st msg]] eqn:Ha; [|by simplify_eq].
  apply Auth_Ok, JobTokenFacts.Validate_Ok in Ha as (key & e & Hkey & _ & Htok & He).
  destruct (Hh _ _ _ Hrun Hne) as (k & Hk & Hrest). exists jobID, key, e, k. naive_solver.
Qed.

Lemma Start_confined gct ctx body w r w' :
  keys_ok (w_db w) -> w_tx w = None -> Callback.Start gct ctx body w = (r, w') -> w_db w' <> w_db w ->
  exists k, uuid_scan ctx = Some k /\
    (forall k', k' <> k -> jobs (w_db w') !! k' = jobs (w_db w) !! k') /\
    (forall k' s, snapshots (w_db w') !! k' = Some s ->
       snapshots (w_db w) !! k' = Some s \/ s_JobID s = Some k) /\
    repositories (w_db w') = repositories (w_db w).
Proof.
  intros (Hid & _) Htx Hrun Hne.
  apply Start_inv in Hrun as (_ & [? | (req & k & j & _ & _ & Hk & Hj & _ & ->)]); [done| |done].
  exists k. rewrite (Hid k j Hj), (update_job_id _ k j) by done. cbn.
  split_and!; auto. intros k' Hk'. by rewrite lookup_insert_ne.
Qed.

Lemma Complete_confined ctx body w r w' :
  keys_ok (w_db w) -> w_tx w = None -> Callback.Complete ctx body w = (r, w') -> w_db w' <> w_db w ->
  exists k, uuid_scan ctx = Some k /\
    (forall k', k' <> k -> jobs (w_db w') !! k' = jobs (w_db w) !! k') /\
    (forall k' s, snapshots (w_db w') !! k' = Some s ->
       snapshots (w_db w) !! k' = Some s \/ s_JobID s = Some k) /\
    repositories (w_db w') = repositories (w_db w).
Proof.
  intros (Hid & _) Htx Hrun Hne.
  apply Complete_inv in Hrun
    as (_ & [[? _] | (req & k & j & _ & _ & Hk & _ & Hj & _ & _ & st & d1 & _ & -> & Hw)]); [done| |done].
  exists k. rewrite (Hid k j Hj), (update_job_id _ k j) in Hw by done.
  destruct Hw as [[_ ->] | [-> [s Hw]]]; [|apply InsertSnapshot_Ok in Hw as (_ & -> & _ & ->)]; cbn;
    split_and!; auto; try (intros k' Hk'; by rewrite lookup_insert_ne).
  intros k' s Hs. destruct (decide (k' = hd 0%N (w_ids w))) as [->|]; simplify_map_eq; auto.
Qed.

(** A webhook request that changes the database is a signed push. *)
Lemma ServeHTTP_change signer secret ParsePayload req w r w' :
  w_tx w = None ->
  JobService.ServeHTTP signer secret ParsePayload req w = (r, w') -> w_db w' <> w_db w ->
  r = Reply StatusAccepted tt /\ JobService.X_GitHub_Event req = "push" /\
  exists raw, JobService.wr_body req = Some raw /\ len raw <= JobService.maxPayloadBytes /\
    JobService.X_Hub_Signature_256 req = "sha256=" +:+ Sha256.hex (Sha256.hmac secret raw).
Proof.
  intros Htx Hrun Hne. unfold JobService.ServeHTTP, ret in Hrun.
  case_decide; [by simplify_eq/=|]. destruct (JobService.wr_body req) as [raw|]; [|by simplify_eq/=].
  destruct (_ <? _) eqn:Hlen; [by simplify_eq/=|].
  destruct (ValidateWebhook _ _ _ _ _) as [ev|[]] eqn:Hv; [|by simplify_eq/=..].
  unfold ValidateWebhook in Hv. case_bool_decide as Hsig; [|done]. cbn in Hv.
  destruct (ParsePayload raw) as [p|]; simplify_eq/=.
  unfold JobService.supportedEvents in Hrun. case_bool_decide as Hpush; cbn in Hrun; [|by simplify_eq/=].
  apply bind_inv in Hrun as (res & w1 & Hp & Hrun). destruct res as [[]|e]; simplify_eq/=.
  - split_and!; [done..|]. exists raw. split_and!; [done| |done].
    unfold JobService.maxPayloadBytes in *. lia.
  - apply HandlePush_err in Hp as (? & _); done.
Qed.

End Lemmas.


(** * Properties *)

Section Props.
Context `{UUIDCodec} `{Validator} `{TaskEnqueuer}.


(** C6: Refinement: in every reachable state, each step of each handler moves
    every job along the abstract lifecycle (created queued, re-targeted while
    queued, started once, finished once) or leaves it alone. *)
Theorem handlers_refine_lifecycle w w1 w2 k :
  rtc sys_step w w1 -> wf (w_db w) -> w_tx w = None -> sys_step w1 w2 ->
  lifecycle k (jobs (w_db w1) !! k) (jobs (w_db w2) !! k).
Proof.
  intros Hr Hwf Htx Hs. destruct (sys_steps_wf w w1 Hr Hwf Htx) as [Hwf1 Htx1].
  by apply sys_step_lifecycle.
Qed.


(** C8: A push of a new delivery to a registered repository succeeds (no
    statement failing) and afterwards the branch has exactly one queued job,
    which builds the pushed commit. *)
Theorem push_queues_latest_commit signer ev did w repo :
  wf (w_db w) -> w_tx w = None -> w_faults w = [] ->
  GetRepoByGithubID (RepoID ev) (w_db w) = Ok repo ->
  jobs (w_db w) !! hd 0%N (w_ids w) = None ->
  (did <> "" -> forall k j, jobs (w_db w) !! k = Some j -> j_DeliveryID j <> Some did) ->
  exists w' k j, JobService.HandlePush signer ev did w = (Ok tt, w') /\
    jobs (w_db w') !! k = Some j /\ j_Status j = JobStatusQueued /\
    j_RepoID j = r_ID repo /\ j_Branch j = Branch ev /\ j_CommitSha j = CommitSHA ev /\
    (forall k' j', jobs (w_db w') !! k' = Some j' -> j_Status j' = JobStatusQueued ->
       j_RepoID j' = r_ID repo -> j_Branch j' = Branch ev -> k' = k).
Proof.
  intros Hwf Htx Hf Hr Hid Hdel. pose proof (wf_keys _ Hwf) as Hk.
  destruct (find (has_status JobStatusQueued) (order_asc j_CreatedAt
              (select (active_on (r_ID repo) (Branch ev)) (jobs (w_db w))))) as [j|] eqn:Hq.
  - pose proof (find_queued_Some _ _ _ _ Hq) as (Hst & Hjr & Hjb & k & Hj).
    assert (j_ID j = k) as Hjk by (by apply Hk).
    eassert (JobService.HandlePush signer ev did w = (Ok tt, _)) as Hrun
      by (by apply (HandlePush_retarget_run _ _ _ _ repo j)).
    eexists _, k, _. split; [exact Hrun|]. cbn. rewrite Hjk.
    erewrite update_job_id by (done || by apply has_status_true). cbn.
    split; [by rewrite lookup_insert_eq|]. split_and!; try done.
    intros k' j' Hk' Hq' Hr' Hb'. destruct (decide (k' = k)) as [|Hne]; [done|]. simplify_map_eq.
    eapply (wf_queued _ Hwf k' _ j' j); congruence.
  - destruct (CreateJob_fresh (mkCreateJobParams (r_ID repo) (Branch ev) (CommitSHA ev) did)
                (w_now w) (hd 0%N (w_ids w)) (w_db w) Hid) as (j & Hc & ->); cbn.
    { apply GetRepoByGithubID_row in Hr as [-> _]; eauto. }
    { done. }
    eexists _, (hd 0%N (w_ids w)), _. split; [by eapply HandlePush_create_run|].
    rewrite Enqueue_db. cbn. split; [by rewrite lookup_insert_eq|]. split_and!; try done.
    intros k' j' Hk' Hq' Hr' Hb'. destruct (decide (k' = hd 0%N (w_ids w))) as [|Hne]; [done|]. simplify_map_eq.
    exfalso. by eapply (find_queued_None (r_ID repo) (Branch ev)).
Qed.

(** C9: Atomicity: a push that fails at any statement, the commit included,
    leaves the database and the task queue exactly as they were. *)
Theorem push_error_changes_nothing signer ev did w e w' :
  w_tx w = None -> JobService.HandlePush signer ev did w = (Err e, w') ->
  w_db w' = w_db w /\ w_tx w' = None /\ w_tasks w' = w_tasks w.
Proof. apply HandlePush_err. Qed.

(** A redelivered push (its delivery id is already recorded) that finds no
    queued job on the branch is acknowledged and changes nothing. *)
Theorem duplicate_delivery_is_noop signer ev did w repo k j :
  wf (w_db w) -> w_tx w = None -> w_faults w = [] ->
  GetRepoByGithubID (RepoID ev) (w_db w) = Ok repo ->
  jobs (w_db w) !! k = Some j -> j_DeliveryID j = Some did -> did <> "" ->
  (forall k j, jobs (w_db w) !! k = Some j -> active_on (r_ID repo) (Branch ev) j = true ->
     j_Status j <> JobStatusQueued) ->
  exists w', JobService.HandlePush signer ev did w = (Ok tt, w') /\
    w_db w' = w_db w /\ w_tx w' = None /\ w_tasks w' = w_tasks w.
Proof.
  intros Hwf Htx Hf Hr Hk Hd Hne Hnq. eapply HandlePush_duplicate_run; try done.
  - destruct (find _ _) as [j'|] eqn:Hq; [|done]. exfalso.
    pose proof (find_queued_Some _ _ _ _ Hq) as (Hst & Hjr & Hjb & k' & Hj').
    eapply (Hnq k' j'); [done| |done]. apply active_on_true. auto.
  - unfold CreateJob. case_bool_decide; [done|].
    rewrite (proj2 (any_row_true _ _)); [done|]. exists k, j. split; [done|].
    unfold has_delivery, NULLIF_empty. rewrite decide_False by done. by apply bool_decide_eq_true.
Qed.

(** C11: A created job reaches the workers: without failures exactly one Cloud
    Task is added, it names the new job, and the token it carries is accepted
    for that job by the callback check until the signer's expiry. *)
Theorem created_job_is_enqueued_with_its_token signer ev did w repo t' :
  wf (w_db w) -> w_tx w = None -> w_faults w = [] ->
  GetRepoByGithubID (RepoID ev) (w_db w) = Ok repo ->
  jobs (w_db w) !! hd 0%N (w_ids w) = None ->
  (did <> "" -> forall k j, jobs (w_db w) !! k = Some j -> j_DeliveryID j <> Some did) ->
  (forall k j, jobs (w_db w) !! k = Some j -> active_on (r_ID repo) (Branch ev) j = true ->
     j_Status j <> JobStatusQueued) ->
  in_int64 (unix (go_now w + JobToken.ttl signer)) -> unix t' <= unix (go_now w + JobToken.ttl signer) ->
  let push := @JobService.HandlePush _ (CloudTasksEnqueuer None) in
  let jobID := uuid_text (hd 0%N (w_ids w)) in
  exists w' tok, push signer ev did w = (Ok tt, w') /\
    w_tasks w' = w_tasks w ++ [(jobID, tok)] /\
    is_Some (jobs (w_db w') !! hd 0%N (w_ids w)) /\
    JobToken.Validate signer jobID tok t' = Ok tt.
Proof.
  intros Hwf Htx Hf Hr Hid Hdel Hnq He Ht push jobID.
  destruct (CreateJob_fresh (mkCreateJobParams (r_ID repo) (Branch ev) (CommitSHA ev) did)
              (w_now w) (hd 0%N (w_ids w)) (w_db w) Hid) as (j & Hc & ->); cbn.
  { apply GetRepoByGithubID_row in Hr as [-> _]; [eauto|by apply wf_keys]. }
  { done. }
  eexists _, _. split; [eapply (@HandlePush_create_run _ (CloudTasksEnqueuer None)); [done..| |exact Hc]|].
  - destruct (find _ _) as [j'|] eqn:Hq; [|done]. exfalso.
    pose proof (find_queued_Some _ _ _ _ Hq) as (Hst & Hjr & Hjb & k' & Hj').
    eapply (Hnq k' j'); [done| |done]. apply active_on_true. auto.
  - cbn. unfold cloud_Enqueue, bind, next_fault, modify, ret. cbn. rewrite Hf. cbn. split_and!; [done| |].
    + by rewrite lookup_insert_eq.
    + apply JobTokenFacts.Validate_Ok. exists (JobToken.key signer), (unix (go_now w + JobToken.ttl signer)).
      by split_and!; [left|..].
Qed.

(** C12: Starting a job, every outcome: a queued job becomes running and the
    worker gets its branch, commit and a clone token; a running job gets the
    same answer and does not change (a retried start); a terminal job is a
    conflict and does not change. *)
Theorem start_outcomes gct ctx k w j repo tok :
  wf (w_db w) -> w_tx w = None -> w_faults w = [] ->
  uuid_scan ctx = Some k -> Callback.validate_StartRequest (Callback.mkStartRequest ctx) = [] ->
  jobs (w_db w) !! k = Some j -> repositories (w_db w) !! j_RepoID j = Some repo ->
  gct (r_InstallationID repo) = Some tok ->
  let '(r, w') := Callback.Start gct ctx (Some (Callback.mkStartRequest ctx)) w in
  let answer := Reply StatusOK (Callback.mkStartResponse (j_CommitSha j) (j_Branch j) (r_FullName repo) tok
                                  (r_InstallationID repo)) in
  match j_Status j with
  | JobStatusQueued => r = answer /\ w_db w' =
      set_jobs (<[k := touch (w_now w) (set_status (w_now w) JobStatusRunning None j)]> (jobs (w_db w))) (w_db w)
  | JobStatusRunning => r = answer /\ w_db w' = w_db w
  | st => r = Fail StatusConflict ("job already in terminal state: " +:+ status_text st) /\ w_db w' = w_db w
  end.
Proof.
  intros Hwf Htx Hf Hk Hv Hj Hr Hg. pose proof (proj1 (wf_keys _ Hwf) k j Hj) as Hid.
  destruct (Callback.Start_tx gct k (set_tx (Some (w_db w)) w)) as [r w1] eqn:Hrun.
  erewrite Start_run by done.
  unfold Callback.Start_tx in Hrun. erewrite bind_eval in Hrun by (apply query_ok; done).
  cbn in Hrun. unfold GetJobForUpdate in Hrun. rewrite Hj in Hrun. cbn in Hrun.
  assert (has_status JobStatusRunning j = bool_decide (j_Status j = JobStatusRunning)) as Hb by done.
  destruct (j_Status j) eqn:Hst;
    first [rewrite bool_decide_false in Hb by done | rewrite bool_decide_true in Hb by done];
    rewrite Hb in Hrun; cbn in Hrun; try (unfold ret in Hrun; by simplify_eq/=).
  - erewrite bind_eval in Hrun by (eapply exec_ok; [done|reflexivity]). cbn in Hrun.
    erewrite bind_eval in Hrun by (apply Commit_ok; done). cbn in Hrun. rewrite Hid in Hrun.
    rewrite (update_job_id _ k j) in Hrun by done.
    erewrite respondStart_run in Hrun;
      [|done|cbn; rewrite Hid; by rewrite lookup_insert_eq|exact Hr|exact Hg]. by simplify_eq/=.
  - erewrite bind_eval in Hrun by (apply Commit_ok; done). cbn in Hrun.
    erewrite respondStart_run in Hrun; [|done|cbn; by rewrite Hid|exact Hr|exact Hg]. by simplify_eq/=.
Qed.


(** C14: Completion is idempotent: once a report was written, any later report
    for the job (a retry, or a contradicting one) is answered 200 with the
    status recorded first and changes nothing. *)
Theorem complete_idempotent req req2 k w w1 j st body :
  wf (w_db w) -> w_tx w = None -> uuid_scan (Callback.cr_JobID req) = Some k ->
  jobs (w_db w) !! k = Some j -> IsTerminal (j_Status j) = false ->
  Callback.Complete (Callback.cr_JobID req) (Some req) w = (Reply st body, w1) ->
  w_faults w1 = [] -> Callback.cr_JobID req2 = Callback.cr_JobID req ->
  Callback.validate_CompleteRequest req2 = [] ->
  body = Callback.cr_Status req /\
  Callback.Complete (Callback.cr_JobID req2) (Some req2) w1 = (Reply StatusOK (Callback.cr_Status req), w1).
Proof.
  intros Hwf Htx Hk Hj Hnt Hrun Hf Hid Hv.
  pose proof (Complete_inv _ _ _ _ _ Htx Hrun) as (Htx1 & _).
  destruct (Complete_written _ _ _ _ _ _ _ Hwf Htx Hk Hrun Hj Hnt) as (j1 & Hj1 & Ht1 & Hst & ->).
  split; [done|]. rewrite <-Hst. eapply Complete_terminal_run; try done. by rewrite Hid.
Qed.

(** C15: The watchdog: without failures it answers the number of running jobs
    that started more than the timeout ago; exactly those become failed with
    the message, and every other row (a queued one, a recent one, a finished
    one) is untouched. *)
Theorem watchdog_fails_exactly_the_overdue mins w :
  w_faults w = [] ->
  exists w', Watchdog.Timeout mins w =
      (Reply StatusOK (Z.of_nat (length (select (timed_out (w_now w) mins) (jobs (w_db w))))), w') /\
    (forall k j, jobs (w_db w) !! k = Some j ->
       (j_Status j = JobStatusRunning /\ (exists t, j_StartedAt j = Some t /\ t < w_now w - mins * 60000000) ->
        exists j', jobs (w_db w') !! k = Some j' /\ j_Status j' = JobStatusFailed /\
          j_ErrorMessage j' = Some "Job timed out" /\ j_FinishedAt j' = Some (w_now w)) /\
       (~ (j_Status j = JobStatusRunning /\ (exists t, j_StartedAt j = Some t /\ t < w_now w - mins * 60000000)) ->
        jobs (w_db w') !! k = Some j)) /\
    (forall k, jobs (w_db w) !! k = None -> jobs (w_db w') !! k = None) /\
    snapshots (w_db w') = snapshots (w_db w).
Proof.
  intros Hf. eexists. split; [unfold Watchdog.Timeout; by erewrite bind_eval by (eapply exec_ok; done)|].
  cbn. split_and!; [|intros k Hk; by rewrite lookup_fmap, Hk|done].
  intros k j Hk. rewrite lookup_fmap, Hk. cbn.
  destruct (timed_out (w_now w) mins j) eqn:Hto; unfold timed_out in Hto.
  - apply andb_true_iff in Hto as [Hs Ht]. apply has_status_true in Hs.
    destruct (j_StartedAt j) as [t|] eqn:E; [|done]. apply Z.ltb_lt in Ht. split; [eauto|].
    intros Hn. destruct Hn. eauto.
  - split; [|done]. intros (Hs & t & E & Ht). rewrite E in Hto.
    apply andb_false_iff in Hto as [Hto|Hto]; [by apply has_status_false in Hto|].
    apply Z.ltb_ge in Hto. lia.
Qed.

(** Claiming takes the oldest queued job no other session has locked,
    exactly when there is one, and marks only that row running. *)
Theorem claim_takes_oldest locked now d :
  keys_ok d ->
  match ClaimJob locked now d with
  | Ok (j', d') => exists j, jobs d !! j_ID j = Some j /\ j_Status j = JobStatusQueued /\ j_ID j ∉ locked /\
      j' = touch now (set_claimed now j) /\ d' = set_jobs (<[j_ID j := j']> (jobs d)) d /\
      (forall k i, jobs d !! k = Some i -> j_Status i = JobStatusQueued -> k ∉ locked ->
         j_CreatedAt j <= j_CreatedAt i)
  | Err e => e = ErrNoRows /\ forall k i, jobs d !! k = Some i -> j_Status i = JobStatusQueued -> k ∈ locked
  end.
Proof.
  intros (Hid & _). unfold ClaimJob.
  set (free := fun j => has_status JobStatusQueued j && bool_decide (j_ID j ∉ locked)).
  assert (forall j, free j = true <-> j_Status j = JobStatusQueued /\ j_ID j ∉ locked) as Hfree.
  { intros j. unfold free. by rewrite andb_true_iff, has_status_true, bool_decide_eq_true. }
  destruct (head _) as [j|] eqn:Hh.
  - pose proof (head_order_asc_elem _ _ _ Hh) as Hin. apply elem_of_select in Hin as [Hp [k Hk]].
    apply Hfree in Hp as [Hq Hl]. exists j. split_and!; try done; [by rewrite (Hid k j Hk)|].
    intros k' i Hk' Hq' Hl'. eapply order_asc_head; [exact Hh|].
    apply elem_of_select. split; [|eauto]. apply Hfree. by rewrite (Hid k' i Hk').
  - split; [done|]. apply head_order_asc_None in Hh. intros k i Hk Hq.
    destruct (decide (k ∈ locked)) as [|Hl]; [done|]. exfalso.
    assert (i ∈ select free (jobs d)) as Hin by (apply elem_of_select; split; [apply Hfree; by rewrite (Hid k i Hk)|eauto]).
    rewrite Hh in Hin. by apply not_elem_of_nil in Hin.
Qed.


(** Authenticity of webhooks: a webhook request changes the database only
    when its signature header is the HMAC-SHA256 of its body under the webhook
    secret, the body is within the size limit and the event is a push, and
    then it is answered 202. *)
Theorem webhook_changes_require_signature signer secret ParsePayload req w r w' :
  w_tx w = None ->
  JobService.ServeHTTP signer secret ParsePayload req w = (r, w') -> w_db w' <> w_db w ->
  r = Reply StatusAccepted tt /\ JobService.X_GitHub_Event req = "push" /\
  exists raw, JobService.wr_body req = Some raw /\ len raw <= JobService.maxPayloadBytes /\
    JobService.X_Hub_Signature_256 req = "sha256=" +:+ Sha256.hex (Sha256.hmac secret raw).
Proof. apply ServeHTTP_change. Qed.

End Props.

(** * Where the code and its comments part *)

Section Divergences.
Context `{UUIDCodec} `{Validator} `{TaskEnqueuer}.

(** The list of active jobs is read before the update: when a worker claims
    the queued job in between, the guarded UPDATE matches no row, and the push
    is acknowledged without any job that builds its commit. *)
Lemma push_lost_when_claimed_meanwhile signer ev did w repo j j' :
  keys_ok (w_db w) -> w_faults w = [] ->
  j_Status j = JobStatusQueued -> jobs (w_db w) !! j_ID j = Some j' -> j_Status j' = JobStatusRunning ->
  JobService.HandlePush_apply signer ev did repo [j] w = (Ok tt, set_tx None w).
Proof.
  intros Hk Hf Hq Hj Hr. unfold JobService.HandlePush_apply. cbn [find].
  rewrite (proj2 (has_status_true _ _) Hq).
  erewrite bind_eval by (eapply exec_ok; [done|reflexivity]). cbn.
  unfold update_job. rewrite Hj, (proj2 (has_status_false _ _)) by (by rewrite Hr).
  by erewrite bind_eval by (apply Commit_ok; done).
Qed.

(** The watchdog never touches a queued job, so a job whose task was lost stays
    queued. *)
Lemma watchdog_leaves_queued mins w r w' k j :
  Watchdog.Timeout mins w = (r, w') -> jobs (w_db w) !! k = Some j -> j_Status j = JobStatusQueued ->
  jobs (w_db w') !! k = Some j.
Proof.
  intros Hrun Hk Hq. apply Timeout_inv in Hrun as (_ & [[-> _] | (n & _ & Hn)]); [done|].
  unfold TimeoutRunningJobs in Hn. simplify_eq/=. match goal with E : w_db w' = _ |- _ => rewrite E | E : _ = w_db w' |- _ => rewrite <-E end.
  cbn. rewrite lookup_fmap, Hk. cbn. unfold timed_out.
  by rewrite (proj2 (has_status_false _ _)) by (by rewrite Hq).
Qed.

(** A second job that builds a commit which has a snapshot cannot report
    success: the INSERT violates the unique index, the transaction is rolled
    back and the job stays live. *)
Lemma second_success_is_refused req k w j k' s :
  wf (w_db w) -> w_tx w = None -> w_faults w = [] ->
  uuid_scan (Callback.cr_JobID req) = Some k -> Callback.validate_CompleteRequest req = [] ->
  Callback.cr_Status req = Callback.StatusSucceeded ->
  jobs (w_db w) !! k = Some j -> IsTerminal (j_Status j) = false ->
  snapshots (w_db w) !! k' = Some s -> same_commit (j_RepoID j) (j_Branch j) (j_CommitSha j) s = true ->
  exists w', Callback.Complete (Callback.cr_JobID req) (Some req) w =
    (Fail StatusInternalServerError "internal error", w') /\ w_db w' = w_db w.
Proof.
  intros Hwf Htx Hf Hk Hv Hst Hj Ht Hs Hsame. eexists. split.
  - apply (Complete_run req k); [done..|].
    unfold Callback.Complete_tx. erewrite bind_eval by (apply query_ok; done).
    cbn. unfold GetJobForUpdate. rewrite Hj. cbn. rewrite Ht.
    unfold Callback.Complete_write. rewrite Hst.
    change (status_of_text Callback.StatusSucceeded) with (Some JobStatusSucceeded). cbn beta iota.
    rewrite decide_True by done.
    erewrite bind_eval by (eapply exec_ok; [done|reflexivity]). cbn beta iota.
    erewrite (bind_eval _ _ _ (Err ErrUniqueViolation)); [reflexivity|].
    erewrite (bind_eval _ _ _ (Err ErrUniqueViolation)); [reflexivity|].
    eapply (insert_stmt_err _ _ ErrUniqueViolation); [done|].
    unfold InsertSnapshot. cbn. rewrite (proj1 (wf_keys _ Hwf) k j Hj), (update_job_id _ k j) by done. cbn.
    case_bool_decide; [done|].
    rewrite (proj2 (any_row_true _ _)); [done|]. by exists k', s.
  - done.
Qed.

(** The route caps bodies at 1 MB, below the handler's own 25 MB limit: a
    larger push is answered 500 before its signature is looked at. *)
Lemma webhook_over_1MB_is_a_500 signer secret ParsePayload sig ev did s w :
  sig <> "" -> bodyLimit1MB < len s ->
  JobService.ServeHTTP signer secret ParsePayload
    (JobService.mkWebhookRequest sig ev did
       (BodyLimit.read_upto (JobService.maxPayloadBytes + 1)
          (BodyLimit.Limit bodyLimit1MB "POST" (BodyLimit.mkBody (Some s) None)))) w =
  (Fail StatusInternalServerError "failed to read body", w).
Proof.
  intros Hsig Hlen. unfold JobService.ServeHTTP. cbn [JobService.X_Hub_Signature_256].
  rewrite decide_False by done. cbn [JobService.wr_body].
  replace (BodyLimit.read_upto _ _) with (@None string); [done|]. symmetry.
  change (BodyLimit.Limit _ _ _) with (BodyLimit.mkBody (Some s) (Some bodyLimit1MB)).
  unfold BodyLimit.read_upto. cbn [BodyLimit.b_content BodyLimit.b_cap].
  destruct (bodyLimit1MB <? _) eqn:E; [done|]. apply Z.ltb_ge in E.
  unfold bodyLimit1MB, JobService.maxPayloadBytes in *. lia.
Qed.

End Divergences.

(** * Witnesses *)

Lemma ex_step1 : sys_step ex_world ex_w1.
Proof. eapply (sys_push ex_signer (ex_event "c1") "d1"), surjective_pairing. Qed.

Lemma ex_step2 : sys_step ex_w1 ex_w2.
Proof. eapply (sys_start ex_gct "100" (Some (Callback.mkStartRequest "100"))), surjective_pairing. Qed.

Lemma ex_step3 : sys_step ex_w2 ex_w3.
Proof. eapply (sys_complete "100" (Some ex_failed)), surjective_pairing. Qed.

Lemma ex_step4 : sys_step ex_w3 ex_w4.
Proof. eapply (sys_timeout 20), surjective_pairing. Qed.

Lemma ex_wf1 : wf (w_db ex_w1) /\ w_tx ex_w1 = None.
Proof. eapply sys_steps_wf; [apply rtc_once, ex_step1|apply ex_db_wf|done]. Qed.

Lemma ex_wf2 : wf (w_db ex_w2) /\ w_tx ex_w2 = None.
Proof. eapply sys_steps_wf; [apply rtc_once, ex_step2|apply ex_wf1..]. Qed.

Lemma ex_wf3 : wf (w_db ex_w3) /\ w_tx ex_w3 = None.
Proof. eapply sys_steps_wf; [apply rtc_once, ex_step3|apply ex_wf2..]. Qed.


Lemma handlers_refine_lifecycle_witness :
  lifecycle 100%N (jobs (w_db ex_w1) !! 100%N) (jobs (w_db ex_w2) !! 100%N).
Proof.
  apply (handlers_refine_lifecycle ex_world);
    [apply rtc_once, ex_step1|apply ex_db_wf|reflexivity|apply ex_step2].
Defined.

Definition ex_job3 : Job :=
  mkJob 100 7 "main" "c1" (Some "d1") JobStatusFailed (Some "boom") 1000 1000 (Some 1000) (Some 1000).


Lemma push_queues_latest_commit_witness :
  exists w' k j, JobService.HandlePush ex_signer (ex_event "c1") "d1" ex_world = (Ok tt, w') /\
    jobs (w_db w') !! k = Some j /\ j_CommitSha j = "c1".
Proof.
  destruct (push_queues_latest_commit ex_signer (ex_event "c1") "d1" ex_world ex_repo)
    as (w' & k & j & Hr & Hk & _ & _ & _ & Hc & _).
  - apply ex_db_wf.
  - reflexivity.
  - reflexivity.
  - vm_compute; reflexivity.
  - vm_compute; reflexivity.
  - intros _ k j Hk. change (jobs (w_db ex_world)) with (∅ : gmap N Job) in Hk. by rewrite lookup_empty in Hk.
  - exists w', k, j. auto.
Defined.

Definition ex_faulty : World := set_faults [false; true] ex_world.

Lemma push_error_changes_nothing_witness :
  let w' := (JobService.HandlePush ex_signer (ex_event "c1") "d1" ex_faulty).2 in
  w_db w' = w_db ex_faulty /\ w_tx w' = None /\ w_tasks w' = w_tasks ex_faulty.
Proof.
  apply (push_error_changes_nothing ex_signer (ex_event "c1") "d1" ex_faulty ("get repo", ErrConn)).
  - reflexivity.
  - vm_compute; reflexivity.
Defined.

Lemma duplicate_delivery_is_noop_witness :
  exists w', JobService.HandlePush ex_signer (ex_event "c1") "d1" ex_w3 = (Ok tt, w') /\ w_db w' = w_db ex_w3.
Proof.
  destruct (duplicate_delivery_is_noop ex_signer (ex_event "c1") "d1" ex_w3 ex_repo 100%N ex_job3)
    as (w' & Hr & Hd & _); [apply ex_wf3|apply ex_wf3|vm_compute; reflexivity..|done| |eauto].
  intros k j Hk Ha. assert (jobs (w_db ex_w3) = {[ 100%N := ex_job3 ]}) as E by (vm_compute; reflexivity).
  rewrite E in Hk. by apply lookup_singleton_Some in Hk as [<- <-].
Defined.

Lemma created_job_is_enqueued_with_its_token_witness :
  exists w' tok, @JobService.HandlePush _ (CloudTasksEnqueuer None) ex_signer (ex_event "c1") "d1" ex_world = (Ok tt, w') /\
    w_tasks w' = [("100", tok)].
Proof.
  destruct (created_job_is_enqueued_with_its_token ex_signer (ex_event "c1") "d1" ex_world ex_repo 1000000)
    as (w' & tok & Hr & Ht & _).
  - apply ex_db_wf.
  - reflexivity.
  - reflexivity.
  - vm_compute; reflexivity.
  - vm_compute; reflexivity.
  - intros _ k j Hk. change (jobs (w_db ex_world)) with (∅ : gmap N Job) in Hk. by rewrite lookup_empty in Hk.
  - intros k j Hk. change (jobs (w_db ex_world)) with (∅ : gmap N Job) in Hk. by rewrite lookup_empty in Hk.
  - vm_compute; split; discriminate || reflexivity.
  - vm_compute; discriminate.
  - exists w', tok. split; [exact Hr|exact Ht].
Defined.

Definition ex_job1 : Job := mkJob 100 7 "main" "c1" (Some "d1") JobStatusQueued None 1000 1000 None None.

Definition ex_job2 : Job := mkJob 100 7 "main" "c1" (Some "d1") JobStatusRunning None 1000 1000 (Some 1000) None.

Lemma start_outcomes_witness :
  (Callback.Start ex_gct "100" (Some (Callback.mkStartRequest "100")) ex_w1).1 =
    Reply StatusOK (Callback.mkStartResponse "c1" "main" "acme/app" "clone-token" 99).
Proof.
  pose proof (start_outcomes ex_gct "100" 100%N ex_w1 ex_job1 ex_repo "clone-token") as Hs.
  destruct (Callback.Start _ _ _ _) as [r w']. cbn [fst]. apply Hs;
    [apply ex_wf1|apply ex_wf1|vm_compute; reflexivity..].
Defined.


Lemma complete_idempotent_witness :
  Callback.Complete "100" (Some ex_succeeded) ex_w3 = (Reply StatusOK "failed", ex_w3).
Proof.
  apply (complete_idempotent ex_failed ex_succeeded 100%N ex_w2 ex_w3 ex_job2 StatusOK "failed");
    [apply ex_wf2|apply ex_wf2|vm_compute; reflexivity..].
Defined.

Lemma watchdog_fails_exactly_the_overdue_witness :
  exists n w', Watchdog.Timeout 20 (set_now 2000000000 ex_w2) = (Reply StatusOK n, w') /\
    exists j, jobs (w_db w') !! 100%N = Some j /\ j_Status j = JobStatusFailed.
Proof.
  destruct (watchdog_fails_exactly_the_overdue 20 (set_now 2000000000 ex_w2)) as (w' & Hr & Hk & _);
    [vm_compute; reflexivity|].
  do 2 eexists. split; [exact Hr|].
  destruct (Hk 100%N ex_job2) as [Hf _]; [vm_compute; reflexivity|].
  destruct Hf as (j & Hj & Hs & _); [|eauto].
  split; [reflexivity|]. exists 1000. split; [reflexivity|vm_compute; reflexivity].
Defined.

Lemma claim_takes_oldest_witness :
  match ClaimJob ∅ 5 (w_db ex_w1) with
  | Ok (j', d') => exists j, jobs (w_db ex_w1) !! j_ID j = Some j /\ j_Status j = JobStatusQueued /\ j_ID j ∉ (∅ : gset N) /\
      j' = touch 5 (set_claimed 5 j) /\ d' = set_jobs (<[j_ID j := j']> (jobs (w_db ex_w1))) (w_db ex_w1) /\
      (forall k i, jobs (w_db ex_w1) !! k = Some i -> j_Status i = JobStatusQueued -> k ∉ (∅ : gset N) ->
         j_CreatedAt j <= j_CreatedAt i)
  | Err e => e = ErrNoRows /\ forall k i, jobs (w_db ex_w1) !! k = Some i -> j_Status i = JobStatusQueued -> k ∈ (∅ : gset N)
  end.
Proof. apply (claim_takes_oldest ∅ 5 (w_db ex_w1)). apply wf_keys, ex_wf1. Defined.

(** The token of job 100 and the middleware's view of a body that is the id. *)
Definition ex_bearer : string := "Bearer " +:+ JobToken.Sign ex_signer (go_now ex_w1) "100".

Definition ex_media (ct : string) : option string := Some ct.

Definition ex_request : InternalRequest :=
  mkInternalRequest ex_bearer "application/json" (BodyLimit.mkBody (Some "100") None).

Definition ex_start_route : M World (Resp Callback.StartResponse) :=
  internal_route ex_media ex_signer (fun b => Some b) (fun b => Some (Callback.mkStartRequest b))
    (Callback.Start ex_gct) ex_request.


Definition ex_webhook : JobService.WebhookRequest :=
  JobService.mkWebhookRequest ("sha256=" +:+ Sha256.hex (Sha256.hmac "hook" "body")) "push" "d1" (Some "body").

Definition ex_parse (b : string) : option PushPayload :=
  Some (mkPushPayload "refs/heads/main" "c1" "" 42 "acme/app" "https://github.com/acme/app.git" 99).

Lemma webhook_changes_require_signature_witness :
  (JobService.ServeHTTP ex_signer "hook" ex_parse ex_webhook ex_world).1 = Reply StatusAccepted tt.
Proof.
  apply (webhook_changes_require_signature ex_signer "hook" ex_parse ex_webhook ex_world _
           (JobService.ServeHTTP ex_signer "hook" ex_parse ex_webhook ex_world).2);
    [reflexivity|apply surjective_pairing|].
  intros E.
  assert (j_Status <$> (jobs (w_db (JobService.ServeHTTP ex_signer "hook" ex_parse ex_webhook ex_world).2) !! 100%N)
            = Some JobStatusQueued) as X by (vm_compute; reflexivity).
  rewrite E in X. vm_compute in X. discriminate.
Defined.

End JobProps.
