(* ===== verification/AccountStore.v ===== *)
(** The statements of the generated store on users, organizations, memberships,
    sessions, CLI keys and the audit log: [services/shared/go/store]
    ([users.sql.go], [organizations.sql.go], [memberships.sql.go],
    [audit_log.sql.go], [sessions.sql.go], [cli_api_keys.sql.go]), with the
    constraints and cascades of the migrations.  A parameter that comes from the
    request context may be NULL and is an [option]. *)

From S2P Require Import Prelude GoStr Store JobStore.

Module AccountStore.
Import JobStore.

(** * Definitions *)

Definition is_id (a : uuid) (b : option uuid) : bool := sql_eq (Some a) b.

(** ** [users.sql.go] *)
Definition GetUserByAuthID (authID : string) (d : DB) : result DBError User :=
  result_of_option ErrNoRows (find_row (fun u => bool_decide (u_AuthUserID u = authID)) (users d)).

Definition GetUserByEmail (email : string) (d : DB) : result DBError User :=
  result_of_option ErrNoRows (find_row (fun u => bool_decide (u_Email u = email)) (users d)).

Definition GetUserByID (id : option uuid) (d : DB) : result DBError User :=
  result_of_option ErrNoRows (id ≫= fun i => users d !! i).

Definition GetUserByUsername (name : string) (d : DB) : result DBError User :=
  result_of_option ErrNoRows (find_row (fun u => bool_decide (u_Username u = name)) (users d)).

(** The unique columns of [users], among the rows other than [id]. *)
Definition user_clash (id : uuid) (authID username email : string) (d : DB) : bool :=
  any_row (fun u => negb (bool_decide (u_ID u = id)) &&
    (bool_decide (u_AuthUserID u = authID) || bool_decide (u_Username u = username)
     || bool_decide (u_Email u = email))) (users d).

Record UpdateUserParams := mkUpdateUserParams {
  uu_Username : string;
  uu_Email : string;
  uu_EmailVerified : bool;
  uu_Phone : option string;
  uu_AvatarUrl : option string;
  uu_ID : option uuid
}.

Definition coalesce_empty (s old : string) : string := if decide (s = "") then old else s.

Definition UpdateUser (a : UpdateUserParams) (now : Z) (d : DB) : result DBError (User * DB) :=
  match uu_ID a ≫= fun i => users d !! i with
  | None => Err ErrNoRows
  | Some u =>
      let u' := mkUser (u_ID u) (u_AuthUserID u) (coalesce_empty (uu_Username a) (u_Username u))
                  (coalesce_empty (uu_Email a) (u_Email u)) (uu_EmailVerified a) (uu_Phone a)
                  (uu_AvatarUrl a) (u_CreatedAt u) now in
      if user_clash (u_ID u) (u_AuthUserID u') (u_Username u') (u_Email u') d then Err ErrUniqueViolation
      else Ok (u', set_users (<[u_ID u := u']> (users d)) d)
  end.

Record UpsertUserParams := mkUpsertUserParams {
  pu_AuthUserID : string;
  pu_Username : string;
  pu_Email : string;
  pu_EmailVerified : bool;
  pu_Phone : option string;
  pu_AvatarUrl : option string
}.

Definition UpsertUser (a : UpsertUserParams) (now : Z) (id : uuid) (d : DB) : result DBError (User * DB) :=
  match find_row (fun u => bool_decide (u_AuthUserID u = pu_AuthUserID a)) (users d) with
  | Some u =>
      let u' := mkUser (u_ID u) (u_AuthUserID u) (pu_Username a) (pu_Email a) (pu_EmailVerified a)
                  (pu_Phone a) (pu_AvatarUrl a) (u_CreatedAt u) now in
      if user_clash (u_ID u) (u_AuthUserID u) (pu_Username a) (pu_Email a) d then Err ErrUniqueViolation
      else Ok (u', set_users (<[u_ID u := u']> (users d)) d)
  | None =>
      let u := mkUser id (pu_AuthUserID a) (pu_Username a) (pu_Email a) (pu_EmailVerified a)
                 (pu_Phone a) (pu_AvatarUrl a) now now in
      if bool_decide (is_Some (users d !! id)) || user_clash id (pu_AuthUserID a) (pu_Username a) (pu_Email a) d
      then Err ErrUniqueViolation
      else Ok (u, set_users (<[id := u]> (users d)) d)
  end.

(** [DeleteUser]: repositories, keys, tokens, memberships and sessions go with
    the user; jobs and snapshots of those repositories, audit entries and
    memberships of others the user invited stop the deletion. *)
Definition DeleteUser (id : option uuid) (now : Z) (d : DB) : result DBError (unit * DB) :=
  match id ≫= fun i => users d !! i with
  | None => Ok (tt, d)
  | Some u =>
      let i := u_ID u in
      let mine o := sql_eq o (Some i) in
      let gone r := match repositories d !! r with Some r => mine (r_UserID r) | None => false end in
      let ct_gone t := mine (ct_UserID t) || gone (ct_RepoID t) in
      if any_row (fun j => gone (j_RepoID j)) (jobs d)
         || any_row (fun s => gone (s_RepoID s)) (snapshots d)
         || any_row (fun l => mine (al_UserID l) || bool_decide (al_ActorID l = i)) (audit_log d)
         || any_row (fun m => negb (bool_decide (m_UserID m = i)) && mine (m_InvitedBy m)) (memberships d)
      then Err ErrForeignKeyViolation
      else
        let toks := select ct_gone (context_tokens d) in
        let au_gone a := bool_decide (au_UserID a = i) || bool_decide (au_TokenID a ∈ ct_ID <$> toks) in
        Ok (tt,
          set_users (delete i (users d))
         (set_repositories (delete_where (fun r => mine (r_UserID r)) (repositories d))
         (set_ai_provider_keys (delete_where (fun k => mine (ak_UserID k)) (ai_provider_keys d))
         (set_cli_api_keys (delete_where (fun k => mine (ck_UserID k)) (cli_api_keys d))
         (set_context_tokens (delete_where ct_gone (context_tokens d))
         (set_allowed_users (delete_where au_gone (allowed_users d))
         (set_memberships (delete_where (fun m => bool_decide (m_UserID m = i)) (memberships d))
         (set_sessions (delete_where (fun s => bool_decide (ss_UserID s = i)) (sessions d)) d))))))))
  end.

(** ** [organizations.sql.go] *)
Definition GetOrgByAuthID (authID : string) (d : DB) : result DBError Organization :=
  result_of_option ErrNoRows (find_row (fun o => bool_decide (o_AuthOrgID o = authID)) (organizations d)).

Definition GetOrganizationByID (id : uuid) (d : DB) : result DBError Organization :=
  result_of_option ErrNoRows (organizations d !! id).

Definition GetOrganizationBySlug (slug : string) (d : DB) : result DBError Organization :=
  result_of_option ErrNoRows (find_row (fun o => bool_decide (o_Slug o = slug)) (organizations d)).

Definition UpdateOrganization (id : uuid) (name slug : string) (now : Z) (d : DB) : result DBError (Organization * DB) :=
  match organizations d !! id with
  | None => Err ErrNoRows
  | Some o =>
      if any_row (fun o' => negb (bool_decide (o_ID o' = id)) && bool_decide (o_Slug o' = slug)) (organizations d)
      then Err ErrUniqueViolation
      else
        let o' := mkOrganization (o_ID o) slug name (o_CreatedAt o) (o_AuthOrgID o) in
        Ok (o', set_organizations (<[id := o']> (organizations d)) d)
  end.

Record UpsertOrgParams := mkUpsertOrgParams {
  uo_AuthOrgID : string;
  uo_Slug : string;
  uo_Name : string
}.

Definition UpsertOrg (a : UpsertOrgParams) (now : Z) (id : uuid) (d : DB) : result DBError (Organization * DB) :=
  match find_row (fun o => bool_decide (o_AuthOrgID o = uo_AuthOrgID a)) (organizations d) with
  | Some o =>
      let o' := mkOrganization (o_ID o) (o_Slug o) (uo_Name a) (o_CreatedAt o) (o_AuthOrgID o) in
      Ok (o', set_organizations (<[o_ID o := o']> (organizations d)) d)
  | None =>
      if bool_decide (is_Some (organizations d !! id))
         || any_row (fun o => bool_decide (o_Slug o = uo_Slug a)) (organizations d)
      then Err ErrUniqueViolation
      else
        let o := mkOrganization id (uo_Slug a) (uo_Name a) now (uo_AuthOrgID a) in
        Ok (o, set_organizations (<[id := o]> (organizations d)) d)
  end.

(** [DeleteOrganization]: repositories and context tokens of the organization
    stop the deletion; memberships, keys and audit entries go with it. *)
Definition DeleteOrganization (id : uuid) (now : Z) (d : DB) : result DBError (unit * DB) :=
  let its o := sql_eq o (Some id) in
  if bool_decide (organizations d !! id = None) then Ok (tt, d)
  else if any_row (fun r => its (r_OrgID r)) (repositories d) || any_row (fun t => its (ct_OrgID t)) (context_tokens d)
  then Err ErrForeignKeyViolation
  else Ok (tt,
     set_organizations (delete id (organizations d))
    (set_memberships (delete_where (fun m => bool_decide (m_OrgID m = id)) (memberships d))
    (set_ai_provider_keys (delete_where (fun k => its (ak_OrgID k)) (ai_provider_keys d))
    (set_cli_api_keys (delete_where (fun k => its (ck_OrgID k)) (cli_api_keys d))
    (set_audit_log (delete_where (fun l => its (al_OrgID l)) (audit_log d)) d))))).

(** ** [memberships.sql.go] *)
Definition is_member (user : option uuid) (org : uuid) (m : Membership) : bool :=
  is_id (m_UserID m) user && bool_decide (m_OrgID m = org).

Definition owner_of (org : uuid) (m : Membership) : bool :=
  bool_decide (m_OrgID m = org) && bool_decide (m_Role m = "owner").

Definition CountMembershipsByOrg (org : uuid) (d : DB) : result DBError Z :=
  Ok (Z.of_nat (length (select (fun m => bool_decide (m_OrgID m = org)) (memberships d)))).

Definition CountOwnersByOrg (org : uuid) (d : DB) : result DBError Z :=
  Ok (Z.of_nat (length (select (owner_of org) (memberships d)))).

Definition valid_role (r : string) : bool := bool_decide (r ∈ ["owner"; "admin"; "member"]).

Record CreateMembershipParams := mkCreateMembershipParams {
  cm_UserID : option uuid;
  cm_OrgID : uuid;
  cm_Role : string;
  cm_InvitedBy : option uuid
}.

Definition CreateMembership (a : CreateMembershipParams) (now : Z) (id : uuid) (d : DB) : result DBError (Membership * DB) :=
  match cm_UserID a with
  | None => Err ErrNotNullViolation
  | Some user =>
      let m := mkMembership id user (cm_OrgID a) (cm_Role a) (cm_InvitedBy a) now in
      if negb (valid_role (cm_Role a)) then Err ErrCheckViolation
      else if bool_decide (is_Some (memberships d !! id)) then Err ErrUniqueViolation
      else if any_row (is_member (Some user) (cm_OrgID a)) (memberships d) then Err ErrUniqueViolation
      else if negb (fk_ok (users d) (Some user) && fk_ok (organizations d) (Some (cm_OrgID a))
                    && fk_ok (users d) (cm_InvitedBy a)) then Err ErrForeignKeyViolation
      else Ok (m, set_memberships (<[id := m]> (memberships d)) d)
  end.

Definition DeleteMembership (user : option uuid) (org : uuid) (now : Z) (d : DB) : result DBError (unit * DB) :=
  Ok (tt, set_memberships (delete_where (is_member user org) (memberships d)) d).

Definition GetMembership (user : option uuid) (org : uuid) (d : DB) : result DBError Membership :=
  result_of_option ErrNoRows (find_row (is_member user org) (memberships d)).

(** The rows of the two joins: the membership with the columns of the other
    table. *)
Definition ListMembershipsByOrg (org : uuid) (d : DB) : result DBError (list (Membership * User)) :=
  Ok (omap (fun m => (fun u => (m, u)) <$> (users d !! m_UserID m))
        (order_asc m_JoinedAt (select (fun m => bool_decide (m_OrgID m = org)) (memberships d)))).

Definition ListMembershipsByUser (user : option uuid) (d : DB) : result DBError (list (Membership * Organization)) :=
  Ok (omap (fun m => (fun o => (m, o)) <$> (organizations d !! m_OrgID m))
        (order_asc m_JoinedAt (select (fun m => is_id (m_UserID m) user) (memberships d)))).

Definition set_role (r : string) (m : Membership) : Membership :=
  mkMembership (m_ID m) (m_UserID m) (m_OrgID m) r (m_InvitedBy m) (m_JoinedAt m).

Definition UpdateMembershipRole (user : option uuid) (org : uuid) (role : string) (now : Z) (d : DB) :
    result DBError (Membership * DB) :=
  match find_row (is_member user org) (memberships d) with
  | None => Err ErrNoRows
  | Some m =>
      if negb (valid_role role) then Err ErrCheckViolation
      else Ok (set_role role m, set_memberships (<[m_ID m := set_role role m]> (memberships d)) d)
  end.

(** ** [audit_log.sql.go] *)
Record InsertAuditLogParams := mkInsertAuditLogParams {
  ial_UserID : option uuid;
  ial_OrgID : option uuid;
  ial_ActorID : option uuid;
  ial_Action : string;
  ial_TargetID : option uuid;
  ial_Metadata : option string
}.

Definition InsertAuditLog (a : InsertAuditLogParams) (now : Z) (id : uuid) (d : DB) : result DBError (AuditLog * DB) :=
  match ial_ActorID a with
  | None => Err ErrNotNullViolation
  | Some actor =>
      let l := mkAuditLog id (ial_UserID a) (ial_OrgID a) actor (ial_Action a) (ial_TargetID a) (ial_Metadata a) now in
      if negb (one_owner (ial_UserID a) (ial_OrgID a)) then Err ErrCheckViolation
      else if bool_decide (is_Some (audit_log d !! id)) then Err ErrUniqueViolation
      else if negb (fk_ok (users d) (ial_UserID a) && fk_ok (organizations d) (ial_OrgID a)
                    && fk_ok (users d) (Some actor)) then Err ErrForeignKeyViolation
      else Ok (l, set_audit_log (<[id := l]> (audit_log d)) d)
  end.

Definition audit_page (p : AuditLog -> bool) (before n : Z) (d : DB) : result DBError (list (AuditLog * string)) :=
  let joined := omap (fun l => (fun u => (l, u_Username u)) <$> (users d !! al_ActorID l))
                  (order_desc al_CreatedAt (select (fun l => p l && (al_CreatedAt l <? before)) (audit_log d))) in
  if n <? 0 then Err ErrConn else Ok (limit n joined).

Definition ListAuditLogByOrg (org : option uuid) (before n : Z) (d : DB) : result DBError (list (AuditLog * string)) :=
  audit_page (fun l => sql_eq (al_OrgID l) org) before n d.

Definition ListAuditLogByUser (user : option uuid) (before n : Z) (d : DB) : result DBError (list (AuditLog * string)) :=
  audit_page (fun l => sql_eq (al_UserID l) user) before n d.

(** ** [sessions.sql.go] *)
Definition DeleteSession (id : uuid) (user : option uuid) (now : Z) (d : DB) : result DBError (unit * DB) :=
  Ok (tt, set_sessions (delete_where (fun s => bool_decide (ss_ID s = id) && is_id (ss_UserID s) user) (sessions d)) d).

Definition DeleteSessionByAuthID (authSessionID : string) (now : Z) (d : DB) : result DBError (unit * DB) :=
  Ok (tt, set_sessions (delete_where (fun s => bool_decide (ss_AuthSessionID s = authSessionID)) (sessions d)) d).

Definition DeleteAllSessionsByUser (user : option uuid) (now : Z) (d : DB) : result DBError (unit * DB) :=
  Ok (tt, set_sessions (delete_where (fun s => is_id (ss_UserID s) user) (sessions d)) d).

Record UpsertSessionParams := mkUpsertSessionParams {
  ups_UserID : option uuid;
  ups_AuthSessionID : string;
  ups_DeviceName : option string;
  ups_IpAddress : option string
}.

Definition UpsertSession (a : UpsertSessionParams) (now : Z) (id : uuid) (d : DB) : result DBError (Session * DB) :=
  match ups_UserID a with
  | None => Err ErrNotNullViolation
  | Some user =>
      match find_row (fun s => bool_decide (ss_AuthSessionID s = ups_AuthSessionID a)) (sessions d) with
      | Some s =>
          let s' := mkSession (ss_ID s) (ss_UserID s) (ss_AuthSessionID s) (ups_DeviceName a) (ups_IpAddress a) now (ss_CreatedAt s) in
          Ok (s', set_sessions (<[ss_ID s := s']> (sessions d)) d)
      | None =>
          if bool_decide (is_Some (sessions d !! id)) then Err ErrUniqueViolation
          else if negb (fk_ok (users d) (Some user)) then Err ErrForeignKeyViolation
          else
            let s := mkSession id user (ups_AuthSessionID a) (ups_DeviceName a) (ups_IpAddress a) now now in
            Ok (s, set_sessions (<[id := s]> (sessions d)) d)
      end
  end.

Definition ListSessionsByUser (user : option uuid) (d : DB) : result DBError (list Session) :=
  Ok (order_desc ss_LastActiveAt (select (fun s => is_id (ss_UserID s) user) (sessions d))).

(** ** [cli_api_keys.sql.go] *)
Definition GetCLIAPIKeyByHash (h : string) (d : DB) : result DBError CliApiKey :=
  result_of_option ErrNoRows (find_row (fun k => bool_decide (ck_KeyHash k = h)) (cli_api_keys d)).

Record InsertCLIAPIKeyParams := mkInsertCLIAPIKeyParams {
  ick_OrgID : option uuid;
  ick_UserID : option uuid;
  ick_KeyHash : string;
  ick_KeyHint : string;
  ick_Label : string
}.

Definition InsertCLIAPIKey (a : InsertCLIAPIKeyParams) (now : Z) (id : uuid) (d : DB) : result DBError (CliApiKey * DB) :=
  let k := mkCliApiKey id (ick_UserID a) (ick_OrgID a) (ick_KeyHash a) (ick_KeyHint a) (ick_Label a) now in
  if negb (one_owner (ick_UserID a) (ick_OrgID a)) then Err ErrCheckViolation
  else if bool_decide (is_Some (cli_api_keys d !! id))
          || any_row (fun k => bool_decide (ck_KeyHash k = ick_KeyHash a)) (cli_api_keys d) then Err ErrUniqueViolation
  else if negb (fk_ok (users d) (ick_UserID a) && fk_ok (organizations d) (ick_OrgID a)) then Err ErrForeignKeyViolation
  else Ok (k, set_cli_api_keys (<[id := k]> (cli_api_keys d)) d).

Definition ListCLIAPIKeysByOrg (org : option uuid) (d : DB) : result DBError (list CliApiKey) :=
  Ok (order_desc ck_CreatedAt (select (fun k => sql_eq (ck_OrgID k) org) (cli_api_keys d))).

Definition ListCLIAPIKeysByUser (user : option uuid) (d : DB) : result DBError (list CliApiKey) :=
  Ok (order_desc ck_CreatedAt (select (fun k => sql_eq (ck_UserID k) user) (cli_api_keys d))).

Definition DeleteCLIAPIKeyForOrg (id : uuid) (org : option uuid) (now : Z) (d : DB) : result DBError (unit * DB) :=
  Ok (tt, set_cli_api_keys (delete_where (fun k => bool_decide (ck_ID k = id) && sql_eq (ck_OrgID k) org) (cli_api_keys d)) d).

Definition DeleteCLIAPIKeyForUser (id : uuid) (user : option uuid) (now : Z) (d : DB) : result DBError (unit * DB) :=
  Ok (tt, set_cli_api_keys (delete_where (fun k => bool_decide (ck_ID k = id) && sql_eq (ck_UserID k) user) (cli_api_keys d)) d).

End AccountStore.
