(* ===== verification/ContextStore.v ===== *)
(** The statements of the generated store on context tokens, their allowed
    users, AI provider keys and the repository listings:
    [services/shared/go/store] ([context_tokens.sql.go],
    [context_token_allowed_users.sql.go], [ai_provider_keys.sql.go],
    [repositories.sql.go]). *)

From S2P Require Import Prelude GoStr Store JobStore AccountStore.

Module ContextStore.
Import JobStore AccountStore.

(** * Definitions *)

(** ** [context_tokens.sql.go] *)
Definition GetContextTokenByHash (h : string) (d : DB) : result DBError ContextToken :=
  result_of_option ErrNoRows (find_row (fun t => bool_decide (ct_TokenHash t = h)) (context_tokens d)).

Record InsertContextTokenParams := mkInsertContextTokenParams {
  ict_RepoID : uuid;
  ict_UserID : option uuid;
  ict_OrgID : option uuid;
  ict_TargetSnapshotID : option uuid;
  ict_TokenHash : string;
  ict_Label : option string;
  ict_ExpiresAt : option Z;
  ict_Visibility : ContextVisibility
}.

Definition InsertContextToken (a : InsertContextTokenParams) (now : Z) (id : uuid) (d : DB) :
    result DBError (ContextToken * DB) :=
  let t := mkContextToken id (ict_RepoID a) (ict_OrgID a) (ict_TargetSnapshotID a) (ict_TokenHash a)
             (ict_Label a) None (ict_ExpiresAt a) now (ict_UserID a) (ict_Visibility a) in
  if negb (one_owner (ict_UserID a) (ict_OrgID a)) then Err ErrCheckViolation
  else if bool_decide (is_Some (context_tokens d !! id))
          || any_row (fun t => bool_decide (ct_TokenHash t = ict_TokenHash a)) (context_tokens d)
  then Err ErrUniqueViolation
  else if negb (fk_ok (repositories d) (Some (ict_RepoID a)) && fk_ok (users d) (ict_UserID a)
                && fk_ok (organizations d) (ict_OrgID a) && fk_ok (snapshots d) (ict_TargetSnapshotID a))
  then Err ErrForeignKeyViolation
  else Ok (t, set_context_tokens (<[id := t]> (context_tokens d)) d).

(** Rows with the number of their allowed users. *)
Definition ListContextTokensByRepo (repo : uuid) (d : DB) : result DBError (list (ContextToken * Z)) :=
  Ok ((fun t => (t, Z.of_nat (length (select (fun a => bool_decide (au_TokenID a = ct_ID t)) (allowed_users d)))))
      <$> order_desc ct_CreatedAt (select (fun t => bool_decide (ct_RepoID t = repo)) (context_tokens d))).

Definition delete_tokens (p : ContextToken -> bool) (d : DB) : DB :=
  let gone := ct_ID <$> select p (context_tokens d) in
  set_context_tokens (delete_where p (context_tokens d))
    (set_allowed_users (delete_where (fun a => bool_decide (au_TokenID a ∈ gone)) (allowed_users d)) d).

Definition DeleteContextTokenForOrg (id : uuid) (org : option uuid) (now : Z) (d : DB) : result DBError (unit * DB) :=
  Ok (tt, delete_tokens (fun t => bool_decide (ct_ID t = id) && sql_eq (ct_OrgID t) org) d).

Definition DeleteContextTokenForUser (id : uuid) (user : option uuid) (now : Z) (d : DB) : result DBError (unit * DB) :=
  Ok (tt, delete_tokens (fun t => bool_decide (ct_ID t = id) && sql_eq (ct_UserID t) user) d).

Definition DeleteExpiredContextTokens (now : Z) (d : DB) : result DBError (unit * DB) :=
  Ok (tt, delete_tokens (fun t => match ct_ExpiresAt t with Some e => e <? now | None => false end) d).

Definition set_last_used (now : Z) (t : ContextToken) : ContextToken :=
  mkContextToken (ct_ID t) (ct_RepoID t) (ct_OrgID t) (ct_TargetSnapshotID t) (ct_TokenHash t) (ct_Label t)
    (Some now) (ct_ExpiresAt t) (ct_CreatedAt t) (ct_UserID t) (ct_Visibility t).

Definition UpdateContextTokenLastUsed (id : uuid) (now : Z) (d : DB) : result DBError (unit * DB) :=
  match context_tokens d !! id with
  | None => Ok (tt, d)
  | Some t => Ok (tt, set_context_tokens (<[id := set_last_used now t]> (context_tokens d)) d)
  end.

(** ** [context_token_allowed_users.sql.go] *)
Definition allows (token : uuid) (user : option uuid) (a : ContextTokenAllowedUser) : bool :=
  bool_decide (au_TokenID a = token) && is_id (au_UserID a) user.

Definition InsertContextTokenAllowedUser (token user : uuid) (now : Z) (id : uuid) (d : DB) : result DBError (unit * DB) :=
  if any_row (allows token (Some user)) (allowed_users d) then Ok (tt, d)
  else if bool_decide (is_Some (allowed_users d !! id)) then Err ErrUniqueViolation
  else if negb (fk_ok (context_tokens d) (Some token) && fk_ok (users d) (Some user)) then Err ErrForeignKeyViolation
  else Ok (tt, set_allowed_users (<[id := mkAllowedUser id token user now]> (allowed_users d)) d).

Definition IsUserAllowedForToken (token : uuid) (user : option uuid) (d : DB) : result DBError bool :=
  Ok (any_row (allows token user) (allowed_users d)).

Definition ListContextTokenAllowedUsers (token : uuid) (d : DB) : result DBError (list (ContextTokenAllowedUser * User)) :=
  Ok (omap (fun a => (fun u => (a, u)) <$> (users d !! au_UserID a))
        (order_desc au_CreatedAt (select (fun a => bool_decide (au_TokenID a = token)) (allowed_users d)))).

Definition DeleteContextTokenAllowedUser (token : uuid) (user : option uuid) (now : Z) (d : DB) : result DBError (unit * DB) :=
  Ok (tt, set_allowed_users (delete_where (allows token user) (allowed_users d)) d).

Definition ReplaceContextTokenAllowedUsers (token : uuid) (now : Z) (d : DB) : result DBError (unit * DB) :=
  Ok (tt, set_allowed_users (delete_where (fun a => bool_decide (au_TokenID a = token)) (allowed_users d)) d).

(** ** [ai_provider_keys.sql.go] *)
Definition valid_provider (p : string) : bool := bool_decide (p ∈ ["openai"; "anthropic"; "google"; "xai"]).

Definition org_provider (org : option uuid) (p : string) (k : AiProviderKey) : bool :=
  sql_eq (ak_OrgID k) org && bool_decide (ak_Provider k = p).

Definition user_provider (user : option uuid) (p : string) (k : AiProviderKey) : bool :=
  sql_eq (ak_UserID k) user && bool_decide (ak_Provider k = p).

Definition GetAIProviderKeyForOrg (org : option uuid) (p : string) (d : DB) : result DBError AiProviderKey :=
  result_of_option ErrNoRows (find_row (org_provider org p) (ai_provider_keys d)).

Definition GetAIProviderKeyForUser (user : option uuid) (p : string) (d : DB) : result DBError AiProviderKey :=
  result_of_option ErrNoRows (find_row (user_provider user p) (ai_provider_keys d)).

Definition DeleteAIProviderKeyForOrg (org : option uuid) (p : string) (now : Z) (d : DB) : result DBError (unit * DB) :=
  Ok (tt, set_ai_provider_keys (delete_where (org_provider org p) (ai_provider_keys d)) d).

Definition DeleteAIProviderKeyForUser (user : option uuid) (p : string) (now : Z) (d : DB) : result DBError (unit * DB) :=
  Ok (tt, set_ai_provider_keys (delete_where (user_provider user p) (ai_provider_keys d)) d).

(** The INSERT with the given owner, and its ON CONFLICT branch on the row
    [clash] finds. *)
Definition upsert_ai_key (clash : AiProviderKey -> bool) (user org : option uuid) (p cipher hint : string)
    (now : Z) (id : uuid) (d : DB) : result DBError (AiProviderKey * DB) :=
  if negb (one_owner user org) || negb (valid_provider p) then Err ErrCheckViolation
  else
    match find_row clash (ai_provider_keys d) with
    | Some k =>
        let k' := mkAiProviderKey (ak_ID k) (ak_OrgID k) (ak_Provider k) cipher hint (ak_CreatedAt k) (ak_UserID k) in
        Ok (k', set_ai_provider_keys (<[ak_ID k := k']> (ai_provider_keys d)) d)
    | None =>
        if bool_decide (is_Some (ai_provider_keys d !! id)) then Err ErrUniqueViolation
        else if negb (fk_ok (users d) user && fk_ok (organizations d) org) then Err ErrForeignKeyViolation
        else
          let k := mkAiProviderKey id org p cipher hint now user in
          Ok (k, set_ai_provider_keys (<[id := k]> (ai_provider_keys d)) d)
    end.

Definition UpsertAIProviderKeyForOrg (org : option uuid) (p cipher hint : string) :=
  upsert_ai_key (org_provider org p) None org p cipher hint.

Definition UpsertAIProviderKeyForUser (user : option uuid) (p cipher hint : string) :=
  upsert_ai_key (user_provider user p) user None p cipher hint.

Section Text.
Context `{Collation}.

(** The listings never return the cipher: the row without it. *)
Record AIKeyRow := mkAIKeyRow {
  akr_ID : uuid;
  akr_UserID : option uuid;
  akr_OrgID : option uuid;
  akr_Provider : string;
  akr_KeyHint : string;
  akr_CreatedAt : Z
}.

Definition ai_key_row (k : AiProviderKey) : AIKeyRow :=
  mkAIKeyRow (ak_ID k) (ak_UserID k) (ak_OrgID k) (ak_Provider k) (ak_KeyHint k) (ak_CreatedAt k).

Definition ListAIProviderKeysByOrg (org : option uuid) (d : DB) : result DBError (list AIKeyRow) :=
  Ok (ai_key_row <$> order_text ak_Provider (select (fun k => sql_eq (ak_OrgID k) org) (ai_provider_keys d))).

Definition ListAIProviderKeysByUser (user : option uuid) (d : DB) : result DBError (list AIKeyRow) :=
  Ok (ai_key_row <$> order_text ak_Provider (select (fun k => sql_eq (ak_UserID k) user) (ai_provider_keys d))).

(** ** [repositories.sql.go]: the listings *)
Definition repo_page (p : Repository -> bool) (after : string) (n : Z) (d : DB) : result DBError (list Repository) :=
  if n <? 0 then Err ErrConn
  else Ok (limit n (order_text r_FullName
             (select (fun r => p r && text_lt after (r_FullName r)) (repositories d)))).

Definition ListReposByOrg (org : option uuid) (after : string) (n : Z) (d : DB) : result DBError (list Repository) :=
  repo_page (fun r => sql_eq (r_OrgID r) org) after n d.

Definition ListReposByUser (user : option uuid) (after : string) (n : Z) (d : DB) : result DBError (list Repository) :=
  repo_page (fun r => sql_eq (r_UserID r) user) after n d.

End Text.

(** * Lemmas *)

Lemma sql_eq_true a b : sql_eq a b = true <-> exists x, a = Some x /\ b = Some x.
Proof.
  destruct a as [x|], b as [y|]; cbn; rewrite ?bool_decide_eq_true; naive_solver.
Qed.


Lemma select_In {A} (p : A -> bool) (t : gmap N A) k a :
  t !! k = Some a -> p a = true -> a ∈ select p t.
Proof. intros. apply elem_of_select. eauto. Qed.

End ContextStore.
