(* ===== verification/ApiWf.v ===== *)
(** Well-formed databases of the API: the constraints of its migrations on all
    twelve tables together with the invariant of the job pipeline, preserved by
    every statement the handlers run and so by every request. *)

From S2P Require Import Prelude Tables GoStr Sha256 JobToken Store JobStore AccountStore ContextStore HttpUtil.
From S2P Require Import JobService Callback JobEffects JobSystem.

Module ApiWf.
Import JobStore AccountStore ContextStore JobEffects JobSystem.

(** * Definitions *)

Definition owned_once (user org : option uuid) : Prop := one_owner user org = true.

Record api_wf (d : DB) : Prop := mkApiWf {
  aw_jobs : wf d;
  aw_snapshot_repo : refs s_RepoID (snapshots d) (repositories d);
  key_users : keyed u_ID (users d);
  key_orgs : keyed o_ID (organizations d);
  key_members : keyed m_ID (memberships d);
  key_tokens : keyed ct_ID (context_tokens d);
  key_allowed : keyed au_ID (allowed_users d);
  key_cli : keyed ck_ID (cli_api_keys d);
  key_ai : keyed ak_ID (ai_provider_keys d);
  key_audit : keyed al_ID (audit_log d);
  key_sessions : keyed ss_ID (sessions d);
  uniq_user_auth : uniq u_AuthUserID (users d);
  uniq_username : uniq u_Username (users d);
  uniq_email : uniq u_Email (users d);
  uniq_org_auth : uniq o_AuthOrgID (organizations d);
  uniq_org_slug : uniq o_Slug (organizations d);
  uniq_github_repo : uniq r_GithubRepoID (repositories d);
  uniq_member : uniq (fun m => (m_UserID m, m_OrgID m)) (memberships d);
  uniq_token : uniq ct_TokenHash (context_tokens d);
  uniq_allowed : uniq (fun a => (au_TokenID a, au_UserID a)) (allowed_users d);
  uniq_cli : uniq ck_KeyHash (cli_api_keys d);
  uniq_ai_org : ouniq (fun k => (fun o => (o, ak_Provider k)) <$> ak_OrgID k) (ai_provider_keys d);
  uniq_ai_user : ouniq (fun k => (fun u => (u, ak_Provider k)) <$> ak_UserID k) (ai_provider_keys d);
  uniq_session : uniq ss_AuthSessionID (sessions d);
  fk_repo_org : orefs r_OrgID (repositories d) (organizations d);
  fk_repo_user : orefs r_UserID (repositories d) (users d);
  fk_member_user : refs m_UserID (memberships d) (users d);
  fk_member_org : refs m_OrgID (memberships d) (organizations d);
  fk_member_by : orefs m_InvitedBy (memberships d) (users d);
  fk_token_repo : refs ct_RepoID (context_tokens d) (repositories d);
  fk_token_org : orefs ct_OrgID (context_tokens d) (organizations d);
  fk_token_user : orefs ct_UserID (context_tokens d) (users d);
  fk_token_snapshot : orefs ct_TargetSnapshotID (context_tokens d) (snapshots d);
  fk_allowed_token : refs au_TokenID (allowed_users d) (context_tokens d);
  fk_allowed_user : refs au_UserID (allowed_users d) (users d);
  fk_cli_org : orefs ck_OrgID (cli_api_keys d) (organizations d);
  fk_cli_user : orefs ck_UserID (cli_api_keys d) (users d);
  fk_ai_org : orefs ak_OrgID (ai_provider_keys d) (organizations d);
  fk_ai_user : orefs ak_UserID (ai_provider_keys d) (users d);
  fk_audit_org : orefs al_OrgID (audit_log d) (organizations d);
  fk_audit_user : orefs al_UserID (audit_log d) (users d);
  fk_audit_actor : refs al_ActorID (audit_log d) (users d);
  fk_session_user : refs ss_UserID (sessions d) (users d);
  ck_repo_owner : each (fun r => owned_once (r_UserID r) (r_OrgID r)) (repositories d);
  ck_token_owner : each (fun t => owned_once (ct_UserID t) (ct_OrgID t)) (context_tokens d);
  ck_cli_owner : each (fun k => owned_once (ck_UserID k) (ck_OrgID k)) (cli_api_keys d);
  ck_ai_owner : each (fun k => owned_once (ak_UserID k) (ak_OrgID k)) (ai_provider_keys d);
  ck_audit_owner : each (fun l => owned_once (al_UserID l) (al_OrgID l)) (audit_log d);
  ck_role : each (fun m => valid_role (m_Role m) = true) (memberships d);
  ck_provider : each (fun k => valid_provider (ak_Provider k) = true) (ai_provider_keys d)
}.

(** * Lemmas *)

(** The job invariant reads three tables only. *)
Lemma wf_same d d' :
  jobs d' = jobs d -> snapshots d' = snapshots d -> repositories d' = repositories d -> wf d -> wf d'.
Proof.
  intros Hj Hs Hr [Hk H1 H2 H3 H4 H5 H6]. destruct Hk as (K1 & K2 & K3).
  split; rewrite ?Hj, ?Hs, ?Hr; try done. split_and!; by rewrite ?Hj, ?Hs, ?Hr.
Qed.

(** Rows of users: a free identity. *)
Lemma user_clash_free id a n e d k u :
  keyed u_ID (users d) -> user_clash id a n e d = false -> users d !! k = Some u ->
  u_AuthUserID u = a \/ u_Username u = n \/ u_Email u = e -> k = id.
Proof.
  intros Hk Hc Hu Hor. unfold user_clash in Hc. rewrite any_row_false in Hc. specialize (Hc _ _ Hu).
  rewrite (Hk _ _ Hu) in Hc. destruct (decide (k = id)) as [|Hne]; [done|].
  rewrite bool_decide_false in Hc by done. cbn in Hc. rewrite !orb_false_iff, !bool_decide_eq_false in Hc. naive_solver.
Qed.

(** A fact about the row a statement writes. *)
Create HintDb api_wf discriminated.

Ltac row_fact :=
  cbn; first
  [ assumption
  | reflexivity
  | by eauto
  | match goal with
    | H : keyed _ ?t, H' : ?t !! _ = Some _ |- _ => exact (H _ _ H')
    | H : refs _ ?t _, H' : ?t !! _ = Some _ |- _ => exact (H _ _ H')
    | H : each _ ?t, H' : ?t !! _ = Some _ |- _ => exact (H _ _ H')
    | H : orefs _ ?t _, H' : ?t !! _ = Some _ |- forall i, _ -> _ => exact (fun i => H _ _ i H')
    end
  | by intros; eapply fk_ok_true ].

Ltac key_free :=
  cbn; intros ? ?; simplify_eq; unfold is_member, allows, is_id, sql_eq; by rewrite ?bool_decide_true by congruence.

(** Open the guards of a statement that succeeded. *)
Ltac stmt_inv :=
  repeat match goal with
  | H : Ok _ = Ok _ |- _ => injection H as ? ?; subst
  | H : (match ?x with _ => _ end) = Ok _ |- _ => destruct x eqn:?; try discriminate H
  | H : negb _ = false |- _ => rewrite negb_false_iff in H
  | H : (_ && _)%bool = true |- _ => apply andb_true_iff in H as [? ?]
  | H : (_ || _)%bool = false |- _ => apply orb_false_iff in H as [? ?]
  | H : bool_decide (_ = None) = false |- _ => apply bool_decide_eq_false, not_eq_None_Some in H
  | H : fk_ok _ (Some _) = true |- _ => apply bool_decide_eq_true in H
  | H : find_row _ _ = Some _ |- _ => eapply find_row_keyed in H as [? ?]; [|by eassumption]
  | _ => progress simplify_eq/=
  end.

Ltac wf_clause :=
  first
  [ table_clause row_fact key_free
  | match goal with H : wf ?d |- wf _ => apply (wf_same d); [reflexivity..|exact H] end
  | apply uniq_insert; [intros; eapply user_clash_free; by eauto|assumption]
  | eapply uniq_insert_absent; [eassumption| |assumption]; key_free ].

(** The clauses of one statement, but for those it needs an argument for. *)
Ltac wf_stmt := intros [] Hs; stmt_inv; split; cbn; try wf_clause.

(** ** Users, organizations and memberships *)

Lemma UpdateUser_wf a now d u d' : api_wf d -> UpdateUser a now d = Ok (u, d') -> api_wf d'.
Proof. unfold UpdateUser. wf_stmt. Qed.

Lemma UpsertUser_wf a now id d u d' : api_wf d -> UpsertUser a now id d = Ok (u, d') -> api_wf d'.
Proof. unfold UpsertUser. wf_stmt. Qed.

Lemma DeleteSession_wf id u now d r d' : api_wf d -> DeleteSession id u now d = Ok (r, d') -> api_wf d'.
Proof. unfold DeleteSession. wf_stmt. Qed.

Lemma DeleteSessionByAuthID_wf a now d r d' : api_wf d -> DeleteSessionByAuthID a now d = Ok (r, d') -> api_wf d'.
Proof. unfold DeleteSessionByAuthID. wf_stmt. Qed.

Lemma DeleteAllSessionsByUser_wf u now d r d' : api_wf d -> DeleteAllSessionsByUser u now d = Ok (r, d') -> api_wf d'.
Proof. unfold DeleteAllSessionsByUser. wf_stmt. Qed.

Lemma UpsertSession_wf a now id d s d' : api_wf d -> UpsertSession a now id d = Ok (s, d') -> api_wf d'.
Proof. unfold UpsertSession. wf_stmt. Qed.

Lemma UpsertOrg_wf a now id d o d' : api_wf d -> UpsertOrg a now id d = Ok (o, d') -> api_wf d'.
Proof. unfold UpsertOrg. wf_stmt. Qed.

Lemma UpdateOrganization_wf id n sl now d o d' :
  api_wf d -> UpdateOrganization id n sl now d = Ok (o, d') -> api_wf d'.
Proof.
  unfold UpdateOrganization. wf_stmt. apply uniq_insert; [|done]. cbn. intros k b Hb <-.
  destruct (decide (k = id)) as [|Hne]; [done|]. rewrite any_row_false in Heqb. specialize (Heqb _ _ Hb). cbn in Heqb.
  rewrite (key_orgs0 _ _ Hb), bool_decide_false, bool_decide_true in Heqb; done.
Qed.

Lemma CreateMembership_wf a now id d m d' : api_wf d -> CreateMembership a now id d = Ok (m, d') -> api_wf d'.
Proof. unfold CreateMembership. wf_stmt. Qed.

Lemma UpdateMembershipRole_wf u o r now d m d' :
  api_wf d -> UpdateMembershipRole u o r now d = Ok (m, d') -> api_wf d'.
Proof. unfold UpdateMembershipRole. wf_stmt. Qed.

Lemma DeleteMembership_wf u o now d r d' : api_wf d -> DeleteMembership u o now d = Ok (r, d') -> api_wf d'.
Proof. unfold DeleteMembership. wf_stmt. Qed.

Lemma InsertAuditLog_wf a now id d l d' : api_wf d -> InsertAuditLog a now id d = Ok (l, d') -> api_wf d'.
Proof. unfold InsertAuditLog. wf_stmt. Qed.

(** ** Tokens and keys *)

Lemma InsertContextToken_wf a now id d t d' : api_wf d -> InsertContextToken a now id d = Ok (t, d') -> api_wf d'.
Proof. unfold InsertContextToken. wf_stmt. Qed.

Lemma InsertContextTokenAllowedUser_wf t u now id d r d' :
  api_wf d -> InsertContextTokenAllowedUser t u now id d = Ok (r, d') -> api_wf d'.
Proof. unfold InsertContextTokenAllowedUser. wf_stmt. Qed.

Lemma ReplaceContextTokenAllowedUsers_wf t now d r d' :
  api_wf d -> ReplaceContextTokenAllowedUsers t now d = Ok (r, d') -> api_wf d'.
Proof. unfold ReplaceContextTokenAllowedUsers. wf_stmt. Qed.

Lemma UpdateContextTokenLastUsed_wf t now d r d' :
  api_wf d -> UpdateContextTokenLastUsed t now d = Ok (r, d') -> api_wf d'.
Proof. unfold UpdateContextTokenLastUsed. wf_stmt. Qed.

(** An upsert updates the row of the owner and the provider, or adds it. *)
Lemma upsert_ai_key_wf clash user org p c h now id d k d' :
  (forall k u, ak_UserID k = Some u -> user = Some u -> ak_Provider k = p -> clash k = true) ->
  (forall k o, ak_OrgID k = Some o -> org = Some o -> ak_Provider k = p -> clash k = true) ->
  api_wf d -> upsert_ai_key clash user org p c h now id d = Ok (k, d') -> api_wf d'.
Proof.
  intros Hu Ho. unfold upsert_ai_key. wf_stmt.
  all: match goal with Hf : find_row _ _ = None |- _ => rewrite find_row_None in Hf; rename Hf into Hn end.
  all: apply ouniq_insert; [|done]; intros k' b x Hb E1 E2; cbn in E1, E2; specialize (Hn _ _ Hb).
  - destruct (ak_OrgID b) as [o|] eqn:E, org; simplify_eq/=. by erewrite Ho in Hn.
  - destruct (ak_UserID b) as [u|] eqn:E, user; simplify_eq/=. by erewrite Hu in Hn.
Qed.

Lemma UpsertAIProviderKeyForOrg_wf o p c h now id d k d' :
  api_wf d -> UpsertAIProviderKeyForOrg o p c h now id d = Ok (k, d') -> api_wf d'.
Proof.
  apply upsert_ai_key_wf; [done|]. intros k0 o0 Ek -> <-. unfold org_provider, sql_eq. by rewrite Ek, !bool_decide_true.
Qed.

Lemma DeleteAIProviderKeyForOrg_wf o p now d r d' :
  api_wf d -> DeleteAIProviderKeyForOrg o p now d = Ok (r, d') -> api_wf d'.
Proof. unfold DeleteAIProviderKeyForOrg. wf_stmt. Qed.

Lemma InsertCLIAPIKey_wf a now id d k d' : api_wf d -> InsertCLIAPIKey a now id d = Ok (k, d') -> api_wf d'.
Proof. unfold InsertCLIAPIKey. wf_stmt. Qed.

Lemma DeleteCLIAPIKeyForOrg_wf i o now d r d' :
  api_wf d -> DeleteCLIAPIKeyForOrg i o now d = Ok (r, d') -> api_wf d'.
Proof. unfold DeleteCLIAPIKeyForOrg. wf_stmt. Qed.

Lemma DeleteCLIAPIKeyForUser_wf i u now d r d' :
  api_wf d -> DeleteCLIAPIKeyForUser i u now d = Ok (r, d') -> api_wf d'.
Proof. unfold DeleteCLIAPIKeyForUser. wf_stmt. Qed.

(** ** Deletions that cascade *)

Ltac cascade :=
  cbn; intros; simplify_eq; repeat match goal with E : _ = Some _ |- _ => rewrite E end; unfold sql_eq;
  rewrite ?orb_true_iff, ?bool_decide_eq_true; by auto.

(** A row the guard of the deletion would have found. *)
Ltac restricted :=
  cbn; intros;
  match goal with
  | Hg : any_row _ ?t = false, Hr : ?t !! _ = Some _ |- _ =>
      rewrite any_row_false in Hg; specialize (Hg _ _ Hr); cbn in Hg
  end;
  try (match goal with |- _ <> _ => intros ? end); simplify_eq;
  repeat match goal with E : _ = Some _, Hg : _ = false |- _ => rewrite E in Hg end; unfold sql_eq in *;
  rewrite ?orb_false_iff, ?andb_false_iff, ?negb_false_iff, ?bool_decide_eq_false, ?bool_decide_eq_true in *; naive_solver.

Ltac delete_clause :=
  first
  [ apply refs_cascade_key; [cascade|assumption]
  | apply orefs_cascade_key; [cascade|assumption]
  | apply refs_target_delete_key; [restricted|assumption]
  | apply orefs_target_delete_key; [restricted|assumption] ].

(** Repositories without jobs can go. *)
Lemma wf_delete_repos q d d' :
  (forall k j r, jobs d !! k = Some j -> repositories d !! j_RepoID j = Some r -> q r = false) ->
  jobs d' = jobs d -> snapshots d' = snapshots d -> repositories d' = delete_where q (repositories d) -> wf d -> wf d'.
Proof.
  intros Hq Hj Hs Hr [(K1 & K2 & K3) H1 H2 H3 H4 H5 H6]. split; rewrite ?Hj, ?Hs, ?Hr; try done.
  - split_and!; rewrite ?Hj, ?Hs, ?Hr; [done..|]. intros k r. rewrite delete_where_Some. intros [Hk _]. eauto.
  - intros k j Hk. destruct (H2 _ _ Hk) as [r Er]. exists r. apply delete_where_Some. eauto.
Qed.

(** The rows of deleted tokens go with them. *)
Lemma allowed_cascade (p : ContextToken -> bool) (q : ContextTokenAllowedUser -> bool) d :
  (forall a, au_TokenID a ∈ ct_ID <$> select p (context_tokens d) -> q a = true) ->
  keyed ct_ID (context_tokens d) -> refs au_TokenID (allowed_users d) (context_tokens d) ->
  refs au_TokenID (delete_where q (allowed_users d)) (delete_where p (context_tokens d)).
Proof.
  intros Hq Hk. apply refs_cascade. intros k a t _ Ht Hp. apply Hq. rewrite list_elem_of_fmap.
  exists t. split; [by rewrite (Hk _ _ Ht)|]. apply elem_of_select. eauto.
Qed.

Lemma delete_tokens_wf p d : api_wf d -> api_wf (delete_tokens p d).
Proof.
  unfold delete_tokens. intros []. split; cbn; try wf_clause.
  apply allowed_cascade; [|done..]. intros a. by rewrite bool_decide_eq_true.
Qed.

Lemma DeleteOrganization_wf i now d r d' :
  api_wf d -> DeleteOrganization i now d = Ok (r, d') -> api_wf d'.
Proof. unfold DeleteOrganization. wf_stmt. all: delete_clause. Qed.

Lemma DeleteUser_wf i now d r d' : api_wf d -> DeleteUser i now d = Ok (r, d') -> api_wf d'.
Proof.
  unfold DeleteUser. wf_stmt. all: try delete_clause.
  - eapply (wf_delete_repos _ d); [|reflexivity..|done]. restricted.
  - apply refs_target_delete; [restricted|done].
  - apply orefs_target_delete_key; [|by apply orefs_delete]. intros k m. rewrite delete_where_Some. intros [? ?]. restricted.
  - apply refs_cascade; [|done]. intros k t r _ ->. intros ->. apply orb_true_r.
  - apply allowed_cascade; [|done..]. intros a Ha. by rewrite orb_true_iff, !bool_decide_eq_true; right.
Qed.

Lemma db_step_api_wf now d d' : db_step now d d' -> api_wf d -> api_wf d'.
Proof.
  intros Hs Hw. pose proof (db_step_wf now d d' Hs (aw_jobs _ Hw)) as Hj.
  destruct Hs as [ | | arg id j d' Hn Hc | | | k j msg a id s d1 d' ? Ht -> ? ? ? ? Hi | mins n d' Hi | a id s d' Hi | a id r d' Hi ].
  all: destruct Hw; try (split; cbn; wf_clause).
  - apply CreateJob_Ok in Hc as (_ & -> & _). split; cbn; wf_clause.
  - unfold InsertSnapshot in Hi. stmt_inv. split; cbn; wf_clause.
  - unfold TimeoutRunningJobs in Hi. stmt_inv. split; cbn; wf_clause.
  - destruct (wf_keys _ aw_jobs0) as (_ & Ks & _). fold (keyed s_ID (snapshots d)) in Ks.
    unfold InsertCLISnapshot in Hi. stmt_inv. all: split; cbn; wf_clause.
  - destruct (wf_keys _ aw_jobs0) as (_ & _ & Kr). fold (keyed r_ID (repositories d)) in Kr.
    unfold UpsertRepo in Hi. stmt_inv. all: split; cbn; try wf_clause.
    all: apply orefs_insert; [|done]; cbn; intros i E; rewrite E in *; by stmt_inv.
Qed.

Lemma DeleteContextTokenForOrg_wf i o now d r d' :
  api_wf d -> DeleteContextTokenForOrg i o now d = Ok (r, d') -> api_wf d'.
Proof. intros Hw [= _ <-]. by apply delete_tokens_wf. Qed.

Lemma InsertCLISnapshot_wf a now id d s d' : api_wf d -> InsertCLISnapshot a now id d = Ok (s, d') -> api_wf d'.
Proof. intros Hw Hs. eapply db_step_api_wf; [by eapply ds_upload|done]. Qed.

#[export] Hint Resolve UpdateUser_wf UpsertUser_wf DeleteUser_wf DeleteSession_wf DeleteSessionByAuthID_wf
  DeleteAllSessionsByUser_wf UpsertSession_wf UpsertOrg_wf UpdateOrganization_wf
  DeleteOrganization_wf CreateMembership_wf UpdateMembershipRole_wf DeleteMembership_wf InsertAuditLog_wf : api_wf.
#[export] Hint Resolve InsertContextToken_wf InsertContextTokenAllowedUser_wf ReplaceContextTokenAllowedUsers_wf
  DeleteContextTokenForOrg_wf UpdateContextTokenLastUsed_wf UpsertAIProviderKeyForOrg_wf DeleteAIProviderKeyForOrg_wf
  InsertCLIAPIKey_wf DeleteCLIAPIKeyForOrg_wf DeleteCLIAPIKeyForUser_wf InsertCLISnapshot_wf : api_wf.

Lemma api_wf_empty : api_wf empty_db.
Proof. split; [apply wf_empty|..]; by intros ?. Qed.

End ApiWf.
