(* ===== verification/Scope.v ===== *)
(** Who is asking: the JWT middleware and the workspace resolution of
    [services/api/internal/middleware/auth] ([auth.go], [scope.go]), the CLI
    key middleware [services/api/internal/middleware/clitoken/clitoken.go], the
    claims of [services/shared/go/authclaims/claims.go] and the ownership check
    of [services/api/internal/handler/helpers.go]. *)

From S2P Require Import Prelude GoStr Sha256 JobToken Store JobStore AccountStore.

(** * Definitions *)

(** ** [claims.go] *)
Record OrgClaim := mkOrgClaim {
  oc_ID : string;
  oc_Slug : string;
  oc_Role : string
}.

Record Claims := mkClaims {
  cl_Subject : string;
  cl_Email : string;
  cl_Name : string;
  cl_Org : OrgClaim;
  cl_Teams : list string;
  cl_MFA : bool
}.

Definition OrgUUID `{UUIDCodec} (c : Claims) : option uuid := uuid_scan (oc_ID (cl_Org c)).
Definition SubjectUUID `{UUIDCodec} (c : Claims) : option uuid := uuid_scan (cl_Subject c).

(** ** [auth.go] *)
Module JwtAuth.

Definition ErrMissingToken : string := "missing authorization token".
Definition ErrInvalidToken : string := "invalid or expired token".

(** [extractToken]: the header first, then the cookie when it is present and
    not empty. *)
Definition extractToken (authorization : string) (cookie : option string) : string :=
  match cut_bearer authorization with
  | Some token => token
  | None => match cookie with Some c => c | None => "" end
  end.

(** [Auth]: [ParseWithClaims] is the JWT library with the Ed25519 key and the
    issuer of the configuration; it returns the claims of a valid token. *)
Definition Auth (ParseWithClaims : string -> option Claims) (authorization : string) (cookie : option string) :
    result (Z * string) Claims :=
  let token := extractToken authorization cookie in
  if decide (token = "") then Err (StatusUnauthorized, ErrMissingToken)
  else match ParseWithClaims token with
       | None => Err (StatusUnauthorized, ErrInvalidToken)
       | Some c => Ok c
       end.

End JwtAuth.

(** ** [scope.go] *)
Module Scope.
Import AccountStore.

(** What [Scope] puts into the request context. *)
Record Ctx := mkCtx {
  UserIDFromContext : option uuid;
  OrgIDFromContext : option uuid
}.

Definition IsOrgScope (c : Ctx) : bool := bool_decide (is_Some (OrgIDFromContext c)).

Definition ErrClaimsNotFound : string := "auth claims not found in context".
Definition ErrUserNotFound : string := "user not found".

Definition ensureUser (claims : Claims) : M World (result DBError User) :=
  r <- query (GetUserByAuthID (cl_Subject claims)) ;;
  match r with
  | Err ErrNoRows =>
      insert_stmt (UpsertUser (mkUpsertUserParams (cl_Subject claims) (cl_Name claims) (cl_Email claims) false None None))
  | r => ret r
  end.

Definition ensureOrg (slug authID name : string) : M World (result DBError Organization) :=
  r <- query (GetOrganizationBySlug slug) ;;
  match r with
  | Err ErrNoRows =>
      if decide (authID = "") then ret r
      else
        let name := if decide (name = "") then slug else name in
        insert_stmt (UpsertOrg (mkUpsertOrgParams authID slug name))
  | r => ret r
  end.

Record OrgHeaders := mkOrgHeaders {
  X_Org_Slug : string;
  X_Org_ID : string;
  X_Org_Name : string
}.

(** The slug and auth id [Scope] resolves: the headers, or the claims when the
    slug header is absent. *)
Definition org_source (h : OrgHeaders) (claims : Claims) : string * string :=
  if bool_decide (X_Org_Slug h = "") && negb (bool_decide (oc_Slug (cl_Org claims) = ""))
  then (oc_Slug (cl_Org claims), oc_ID (cl_Org claims))
  else (X_Org_Slug h, X_Org_ID h).

Definition Scope (claims : option Claims) (h : OrgHeaders) : M World (result (Z * string) Ctx) :=
  match claims with
  | None => ret (Err (StatusUnauthorized, ErrClaimsNotFound))
  | Some claims =>
      try user <- ensureUser claims
        catch e => ret (Err (StatusInternalServerError, ErrUserNotFound)) ;;
      let '(orgSlug, orgAuthID) := org_source h claims in
      if decide (orgSlug = "") then ret (Ok (mkCtx (Some (u_ID user)) None))
      else
        r <- ensureOrg orgSlug orgAuthID (X_Org_Name h) ;;
        match r with
        | Ok org => ret (Ok (mkCtx (Some (u_ID user)) (Some (o_ID org))))
        | Err _ => ret (Ok (mkCtx (Some (u_ID user)) None))
        end
  end.

End Scope.

(** ** [clitoken.go] *)
Module CliToken.
Import AccountStore.

Definition CLIKeyPrefix : string := "zf_cli_".
Definition errMissing : string := "missing CLI API key".
Definition errInvalid : string := "invalid CLI API key".
Definition errInternal : string := "internal error".

(** [SHA256Hash] of [helpers.go] *)
Definition SHA256Hash (s : string) : string := Sha256.hex (Sha256.sum256 s).

(** [Auth]: what [OrgIDFromCLIKey] reads in the handler; [None] both for the
    global key and for a key that belongs to no organization. *)
Definition Auth (globalKey authorization : string) : M World (result (Z * string) (option uuid)) :=
  let token := match cut_bearer authorization with Some t => t | None => "" end in
  if decide (token = "") then ret (Err (StatusUnauthorized, errMissing))
  else if HasPrefix token CLIKeyPrefix then
    r <- query (GetCLIAPIKeyByHash (SHA256Hash token)) ;;
    match r with
    | Err ErrNoRows => ret (Err (StatusUnauthorized, errInvalid))
    | Err _ => ret (Err (StatusInternalServerError, errInternal))
    | Ok key => ret (Ok (ck_OrgID key))
    end
  else if negb (bool_decide (globalKey = "")) && bool_decide (token = globalKey) then ret (Ok None)
  else ret (Err (StatusUnauthorized, errInvalid)).

Definition HasOrgScope (cliOrg : option uuid) : bool := bool_decide (is_Some cliOrg).

End CliToken.

(** ** [helpers.go] *)
Module Ownership.
Import JobStore.

Definition ErrNotFound : string := "not found".

(** [VerifyRepoOwnership]; the second error carries the database's message. *)
Definition VerifyRepoOwnership (repoID : uuid) (orgID : option uuid) : M World (result string unit) :=
  r <- query (GetRepoByID repoID) ;;
  match r with
  | Err ErrNoRows => ret (Err ErrNotFound)
  | Err _ => ret (Err "query failed")
  | Ok repo => if decide (r_OrgID repo <> orgID) then ret (Err ErrNotFound) else ret (Ok tt)
  end.

End Ownership.

(** * Lemmas *)

Lemma VerifyRepoOwnership_inv repoID orgID w r w' :
  Ownership.VerifyRepoOwnership repoID orgID w = (r, w') ->
  w_db w' = w_db w /\ w_tx w' = w_tx w /\ w_now w' = w_now w /\
  (r = Ok tt -> exists repo, repositories (w_db w) !! repoID = Some repo /\ r_OrgID repo = orgID).
Proof.
  unfold Ownership.VerifyRepoOwnership, JobStore.GetRepoByID, result_of_option. intros Hrun.
  go_run; split_and!; try done; intros ?; simplify_eq.
  destruct (repositories (w_db w) !! repoID) as [rp|] eqn:E; [|done].
  simplify_eq/=. exists a. split; [done|]. by apply dec_stable.
Qed.

(** Outside failures, the check passes exactly for a repository of the scope. *)
Lemma VerifyRepoOwnership_ok repoID orgID w :
  w_faults w = [] ->
  (Ownership.VerifyRepoOwnership repoID orgID w).1 = Ok tt <->
  exists repo, repositories (w_db w) !! repoID = Some repo /\ r_OrgID repo = orgID.
Proof.
  intros Hf. unfold Ownership.VerifyRepoOwnership. erewrite bind_eval by (by apply query_ok).
  unfold JobStore.GetRepoByID, result_of_option.
  destruct (repositories (w_db w) !! repoID) as [rp|]; cbn; [|naive_solver].
  case_decide as E; cbn; naive_solver.
Qed.
