(* ===== verification/RepoApi.v ===== *)
(** Reading repositories, jobs and snapshots:
    [services/api/internal/handler/api] ([repos.go], [list_repos.go],
    [jobs.go], [snapshots.go]), the tenancy they promise and the pagination of
    the job list. *)

From S2P Require Import Prelude GoStr Store JobStore AccountStore ContextStore HttpUtil Scope.

(** * Definitions *)

(** The RFC 3339 text of an instant in microseconds ([time.Format] and
    [time.Parse] with [RFC3339Nano]); an instant's text is never empty. *)
Class TimeCodec := {
  time_parse : string -> option Z;
  time_format : Z -> string;
  time_parse_format : forall t, time_parse (time_format t) = Some t;
  time_format_nonempty : forall t, time_format t <> ""
}.

Module RepoApi.
Import JobStore AccountStore ContextStore Scope Ownership.

Definition maxBranchLength : Z := 256.
Definition ErrInvalidRepoID : string := "invalid repo id".
Definition ErrInvalidJobID : string := "invalid job id".
Definition ErrInvalidSnapshotID : string := "invalid snapshot id".
Definition ErrRepoNotFound : string := "repo not found".
Definition ErrJobNotFound : string := "job not found".
Definition ErrSnapshotNotFound : string := "snapshot not found".
Definition ErrBranchRequired : string := "branch query param required".
Definition ErrBranchTooLong : string := "branch name exceeds maximum length".
Definition ErrInternal : string := "internal error".

Section Handlers.
Context `{UUIDCodec} `{TimeCodec} `{Collation}.

(** [GetRepo]; [id] is the URL parameter. *)
Definition GetRepo (c : Ctx) (repoID : string) : M World (Resp Repository) :=
  match uuid_scan repoID with
  | None => ret (Fail StatusBadRequest ErrInvalidRepoID)
  | Some id =>
      r <- query (GetRepoByID id) ;;
      match r with
      | Err ErrNoRows => ret (Fail StatusNotFound ErrRepoNotFound)
      | Err _ => ret (Fail StatusInternalServerError ErrInternal)
      | Ok repo =>
          if decide (r_OrgID repo <> OrgIDFromContext c) then ret (Fail StatusNotFound ErrRepoNotFound)
          else ret (Reply StatusOK repo)
      end
  end.

Definition ListRepos (c : Ctx) (limitParam cursor : string) : M World (Resp (list Repository)) :=
  let n := ParseLimit limitParam in
  if IsOrgScope c then
    try repos <- query (ListReposByOrg (OrgIDFromContext c) cursor n)
      catch e => ret (Fail StatusInternalServerError ErrInternal) ;;
    ret (Reply StatusOK repos)
  else
    try repos <- query (ListReposByUser (UserIDFromContext c) cursor n)
      catch e => ret (Fail StatusInternalServerError ErrInternal) ;;
    ret (Reply StatusOK repos).

Definition GetJob (c : Ctx) (repoParam jobParam : string) : M World (Resp Job) :=
  match uuid_scan repoParam with
  | None => ret (Fail StatusBadRequest ErrInvalidRepoID)
  | Some repoID =>
      try _ <- VerifyRepoOwnership repoID (OrgIDFromContext c)
        catch e => ret (Fail StatusNotFound ErrRepoNotFound) ;;
      match uuid_scan jobParam with
      | None => ret (Fail StatusBadRequest ErrInvalidJobID)
      | Some jobID =>
          r <- query (GetJobByID jobID) ;;
          match r with
          | Err ErrNoRows => ret (Fail StatusNotFound ErrJobNotFound)
          | Err _ => ret (Fail StatusInternalServerError ErrInternal)
          | Ok job =>
              if decide (j_RepoID job <> repoID) then ret (Fail StatusNotFound ErrJobNotFound)
              else ret (Reply StatusOK job)
          end
      end
  end.

(** [httputil.Response[[]store.Job]]: the page and the next cursor. *)
Record JobPage := mkJobPage {
  Data : list Job;
  NextCursor : option string
}.

Definition job_page (n : Z) (jobs : list Job) : JobPage :=
  mkJobPage jobs
    (if decide (Z.of_nat (length jobs) = n) then (fun j => time_format (j_CreatedAt j)) <$> last jobs else None).

Definition ListJobs (c : Ctx) (repoParam limitParam cursorParam : string) : M World (Resp JobPage) := fun w =>
  (match uuid_scan repoParam with
  | None => ret (Fail StatusBadRequest ErrInvalidRepoID)
  | Some repoID =>
      try _ <- VerifyRepoOwnership repoID (OrgIDFromContext c)
        catch e => ret (Fail StatusNotFound ErrRepoNotFound) ;;
      let n := ParseLimit limitParam in
      match ParseCursor time_parse (w_now w) cursorParam with
      | Err e => ret (Fail StatusBadRequest e)
      | Ok cursor =>
          try jobs <- query (ListJobsByRepo repoID cursor n)
            catch e => ret (Fail StatusInternalServerError ErrInternal) ;;
          ret (Reply StatusOK (job_page n jobs))
      end
  end) w.

(** ** [snapshots.go] *)

Definition parseBranch (raw : string) : result string string :=
  let branch := TrimSpace raw in
  if decide (branch = "") then Err ErrBranchRequired
  else if maxBranchLength <? len branch then Err ErrBranchTooLong
  else Ok branch.

Definition GetSnapshot (c : Ctx) (param : string) : M World (Resp Snapshot) :=
  match uuid_scan param with
  | None => ret (Fail StatusBadRequest ErrInvalidSnapshotID)
  | Some id =>
      r <- query (GetSnapshotByID id) ;;
      match r with
      | Err ErrNoRows => ret (Fail StatusNotFound ErrSnapshotNotFound)
      | Err _ => ret (Fail StatusInternalServerError ErrInternal)
      | Ok snap =>
          try repo <- query (GetRepoByID (s_RepoID snap))
            catch e => ret (Fail StatusNotFound ErrSnapshotNotFound) ;;
          if decide (r_OrgID repo <> OrgIDFromContext c) then ret (Fail StatusNotFound ErrSnapshotNotFound)
          else ret (Reply StatusOK snap)
      end
  end.

Definition ListSnapshots (c : Ctx) (repoParam branchParam : string) : M World (Resp (list Snapshot)) :=
  match uuid_scan repoParam with
  | None => ret (Fail StatusBadRequest ErrInvalidRepoID)
  | Some repoID =>
      try _ <- VerifyRepoOwnership repoID (OrgIDFromContext c)
        catch e => ret (Fail StatusNotFound ErrRepoNotFound) ;;
      match parseBranch branchParam with
      | Err e => ret (Fail StatusBadRequest e)
      | Ok branch =>
          try snaps <- query (GetSnapshotsByBranch repoID branch)
            catch e => ret (Fail StatusInternalServerError ErrInternal) ;;
          ret (Reply StatusOK snaps)
      end
  end.

Definition GetLatestSnapshot (c : Ctx) (repoParam branchParam : string) : M World (Resp Snapshot) :=
  match uuid_scan repoParam with
  | None => ret (Fail StatusBadRequest ErrInvalidRepoID)
  | Some repoID =>
      try _ <- VerifyRepoOwnership repoID (OrgIDFromContext c)
        catch e => ret (Fail StatusNotFound ErrRepoNotFound) ;;
      match parseBranch branchParam with
      | Err e => ret (Fail StatusBadRequest e)
      | Ok branch =>
          r <- query (JobStore.GetLatestSnapshot repoID branch) ;;
          match r with
          | Err ErrNoRows => ret (Fail StatusNotFound ErrSnapshotNotFound)
          | Err _ => ret (Fail StatusInternalServerError ErrInternal)
          | Ok snap => ret (Reply StatusOK snap)
          end
      end
  end.

(** A client that follows the cursors: the pages' jobs, one after another.
    [fuel] bounds the number of requests. *)
Fixpoint walk (fuel : nat) (c : Ctx) (repoParam limitParam cursor : string) (w : World) : option (list Job) :=
  match fuel with
  | O => None
  | S f =>
      match (ListJobs c repoParam limitParam cursor w).1 with
      | Reply _ page =>
          match NextCursor page with
          | None => Some (Data page)
          | Some next => app (Data page) <$> walk f c repoParam limitParam next w
          end
      | Fail _ _ => None
      end
  end.

End Handlers.
End RepoApi.

(** * Lemmas *)

Module RepoApiFacts.
Import JobStore AccountStore ContextStore Scope Ownership RepoApi.

(** The repository of a row is one of organization [o]. *)
Definition owned (d : DB) (o : uuid) (repoID : uuid) : Prop :=
  exists r, repositories d !! repoID = Some r /\ r_OrgID r = Some o.

Lemma elem_of_limit {A} n (l : list A) x : x ∈ limit n l -> x ∈ l.
Proof. unfold limit. intros Hx. by apply elem_of_take in Hx as (i & Hi & _); eapply list_elem_of_lookup_2. Qed.


(** Rows stored under their own id are listed without repetition. *)
Lemma NoDup_rows {A} (id : A -> N) (t : gmap N A) :
  (forall k a, t !! k = Some a -> id a = k) -> NoDup (rows t).
Proof.
  intros Hid. unfold rows. apply (NoDup_fmap_1 id). rewrite <-list_fmap_compose.
  assert ((id ∘ snd) <$> map_to_list t = fst <$> map_to_list t) as ->; [|apply NoDup_fst_map_to_list].
  apply list_fmap_ext. intros i [k a] Hi. cbn. apply Hid.
  apply elem_of_map_to_list. by eapply list_elem_of_lookup_2.
Qed.

Lemma NoDup_select {A} (id : A -> N) (p : A -> bool) (t : gmap N A) :
  (forall k a, t !! k = Some a -> id a = k) -> NoDup (select p t).
Proof. intros Hid. unfold select. by apply NoDup_filter, (NoDup_rows id). Qed.

(** ** Pagination *)
Section Pages.
Context (t : gmap N Job) (repo : uuid).
Context (Hid : forall k j, t !! k = Some j -> j_ID j = k).
Context (Hdistinct : forall k1 k2 j1 j2, t !! k1 = Some j1 -> t !! k2 = Some j2 ->
  j_RepoID j1 = repo -> j_RepoID j2 = repo -> j_CreatedAt j1 = j_CreatedAt j2 -> k1 = k2).

Definition older (b : Z) (j : Job) : bool := bool_decide (j_RepoID j = repo) && (j_CreatedAt j <? b).
Definition listing (b : Z) : list Job := order_desc j_CreatedAt (select (older b) t).

Lemma elem_of_listing b j :
  j ∈ listing b <-> (exists k, t !! k = Some j) /\ j_RepoID j = repo /\ j_CreatedAt j < b.
Proof.
  unfold listing. rewrite order_desc_perm, elem_of_select. unfold older.
  rewrite andb_true_iff, bool_decide_eq_true, Z.ltb_lt. naive_solver.
Qed.

Lemma listing_NoDup b : NoDup (listing b).
Proof. unfold listing. rewrite order_desc_perm. by apply (NoDup_select j_ID). Qed.

Lemma listing_same b j1 j2 :
  j1 ∈ listing b -> j2 ∈ listing b -> j_CreatedAt j1 = j_CreatedAt j2 -> j1 = j2.
Proof.
  rewrite !elem_of_listing. intros ([k1 H1] & R1 & _) ([k2 H2] & R2 & _) E.
  assert (k1 = k2) by eauto. congruence.
Qed.

(** After a full page the next query lists exactly what remains. *)
Lemma listing_next b n j :
  last (take n (listing b)) = Some j -> listing (j_CreatedAt j) = drop n (listing b).
Proof.
  intros Hlast. pose proof (listing_NoDup b) as Hnd.
  pose proof (order_desc_sorted j_CreatedAt (select (older b) t)) as Hs. fold (listing b) in Hs.
  pose proof (take_drop n (listing b)) as Htd.
  apply last_Some in Hlast as [l' Hl']. rewrite Hl' in Htd.
  assert (j ∈ listing b) as Hj by (rewrite <-Htd; set_solver).
  rewrite <-Htd in Hs, Hnd. rewrite <-app_assoc in Hs, Hnd. cbn in Hs, Hnd.
  assert (forall x, x ∈ drop n (listing b) -> j_CreatedAt x < j_CreatedAt j) as Hafter.
  { intros x Hx. apply StronglySorted_app_1_r in Hs. apply StronglySorted_inv in Hs as [_ Hs].
    rewrite Forall_forall in Hs. specialize (Hs x Hx). cbn in Hs.
    destruct (decide (j_CreatedAt x = j_CreatedAt j)) as [E|]; [|lia]. exfalso.
    assert (x = j) as -> by (apply (listing_same b); [rewrite <-Htd; set_solver|done|done]).
    apply NoDup_app in Hnd as (_ & _ & Hnd). apply NoDup_cons in Hnd as [Hnd _]. done. }
  assert (forall x, x ∈ l' ++ [j] -> j_CreatedAt j <= j_CreatedAt x) as Hbefore.
  { intros x Hx. apply elem_of_app in Hx as [Hx|Hx]; [|apply list_elem_of_singleton in Hx as ->; done].
    pose proof (StronglySorted_app_1_elem_of _ _ _ x j Hs Hx ltac:(by left)) as Hle. cbn in Hle. lia. }
  apply (StronglySorted_unique_strong (fun a b => - j_CreatedAt a <= - j_CreatedAt b)).
  - intros x y Hx Hy Hxy Hyx. apply (listing_same b); [| |lia].
    + apply elem_of_listing in Hx as (? & ? & ?). apply elem_of_listing in Hj as (_ & _ & ?).
      apply elem_of_listing. split_and!; try done. lia.
    + rewrite <-Htd. set_solver.
  - apply order_desc_sorted.
  - apply StronglySorted_app_1_r in Hs. by apply StronglySorted_inv in Hs as [? _].
  - apply NoDup_Permutation; [apply listing_NoDup| |].
    + apply NoDup_app in Hnd as (_ & _ & Hnd). by apply NoDup_cons in Hnd as [_ ?].
    + intros x. split.
      * intros Hx. apply elem_of_listing in Hx as (Hk & Hr & Hlt). apply elem_of_listing in Hj as (_ & _ & Hjb).
        assert (x ∈ listing b) as Hxb by (apply elem_of_listing; split_and!; try done; lia).
        rewrite <-Htd in Hxb. apply elem_of_app in Hxb as [Hxb|Hxb]; [|done].
        specialize (Hbefore x Hxb). lia.
      * intros Hx. assert (x ∈ listing b) as Hxb by (rewrite <-Htd; set_solver).
        apply elem_of_listing in Hxb as (? & ? & _). apply elem_of_listing. split_and!; auto.
Qed.

End Pages.
Section Walk.
Context `{UUIDCodec} `{TimeCodec}.

(** One request of the walk, without failures. *)
Lemma ListJobs_run c repoParam limitParam cursor b w repoID repo :
  w_faults w = [] -> uuid_scan repoParam = Some repoID ->
  repositories (w_db w) !! repoID = Some repo -> r_OrgID repo = OrgIDFromContext c ->
  ParseCursor time_parse (w_now w) cursor = Ok b ->
  (ListJobs c repoParam limitParam cursor w).1 =
    Reply StatusOK (job_page (ParseLimit limitParam)
      (take (Z.to_nat (ParseLimit limitParam)) (listing (jobs (w_db w)) repoID b))).
Proof.
  intros Hf Hs Hr Ho Hb. pose proof (ParseLimit_bounds limitParam) as Hn.
  unfold ListJobs. rewrite Hs, Hb.
  unfold VerifyRepoOwnership, bind at 1. cbn.
  erewrite bind_eval by (by apply query_ok). unfold GetRepoByID. rewrite Hr. cbn.
  destruct (decide (r_OrgID repo <> OrgIDFromContext c)); [done|]. cbn.
  erewrite bind_eval by (by apply query_ok). unfold ListJobsByRepo.
  rewrite (proj2 (Z.ltb_ge _ _)) by lia. done.
Qed.

Lemma walk_listing c repoParam limitParam w repoID repo :
  w_faults w = [] -> uuid_scan repoParam = Some repoID ->
  repositories (w_db w) !! repoID = Some repo -> r_OrgID repo = OrgIDFromContext c ->
  (forall k j, jobs (w_db w) !! k = Some j -> j_ID j = k) ->
  (forall k1 k2 j1 j2, jobs (w_db w) !! k1 = Some j1 -> jobs (w_db w) !! k2 = Some j2 ->
     j_RepoID j1 = repoID -> j_RepoID j2 = repoID -> j_CreatedAt j1 = j_CreatedAt j2 -> k1 = k2) ->
  forall fuel cursor b, ParseCursor time_parse (w_now w) cursor = Ok b ->
  (length (listing (jobs (w_db w)) repoID b) < fuel)%nat ->
  walk fuel c repoParam limitParam cursor w = Some (listing (jobs (w_db w)) repoID b).
Proof.
  intros Hf Hs Hr Ho Hid Hd. pose proof (ParseLimit_bounds limitParam) as Hn.
  induction fuel as [|fuel IH]; intros cursor b Hb Hlen; [lia|].
  cbn [walk]. erewrite ListJobs_run by done. unfold job_page. cbn [NextCursor Data].
  set (L := listing (jobs (w_db w)) repoID b) in *. set (n := ParseLimit limitParam) in *.
  case_decide as E.
  - rewrite length_take in E. destruct (last (take (Z.to_nat n) L)) as [j|] eqn:Hl.
    + cbn. rewrite (IH _ (j_CreatedAt j)).
      * cbn. rewrite (listing_next _ _ Hid Hd b (Z.to_nat n) j Hl). by rewrite take_drop.
      * unfold ParseCursor. rewrite decide_False by apply time_format_nonempty. by rewrite time_parse_format.
      * rewrite (listing_next _ _ Hid Hd b (Z.to_nat n) j Hl), length_drop. fold L. lia.
    + apply last_None in Hl. apply (f_equal length) in Hl. rewrite length_take in Hl. cbn in Hl. lia.
  - rewrite length_take in E. rewrite take_ge by lia. done.
Qed.

End Walk.

(** ** Tenancy, endpoint by endpoint *)
Section Tenancy.
Context `{UUIDCodec} `{TimeCodec} `{Collation}.

(** The ownership check, followed along a run. *)
Ltac go_owned :=
  match goal with
  | Hv : VerifyRepoOwnership _ _ _ = (_, _) |- _ =>
      apply VerifyRepoOwnership_inv in Hv as (Hd & Htx & Hnow & Hok)
  end.

Lemma GetRepo_owned o user p w r w' :
  GetRepo (mkCtx user (Some o)) p w = (r, w') -> w_db w' = w_db w /\
  forall st repo, r = Reply st repo -> r_OrgID repo = Some o.
Proof.
  unfold GetRepo, GetRepoByID, result_of_option. intros Hrun.
  go_run; split; try done; intros ? ? [= <- <-]. cbn in *. by apply dec_stable.
Qed.

Lemma ListRepos_owned o user l cur w r w' :
  ListRepos (mkCtx user (Some o)) l cur w = (r, w') -> w_db w' = w_db w /\
  forall st repos, r = Reply st repos -> forall x, x ∈ repos -> r_OrgID x = Some o.
Proof.
  unfold ListRepos. intros Hrun.
  change (IsOrgScope (mkCtx user (Some o))) with true in Hrun. cbn beta iota in Hrun.
  unfold ListReposByOrg, repo_page in Hrun.
  go_run; split; try done; intros ? ? [= <- <-] x Hx.
  destruct (_ <? 0); [done|]. simplify_eq/=.
  apply elem_of_limit, elem_of_order_text, elem_of_select in Hx as [Hx _].
  apply andb_true_iff in Hx as [Hx _]. apply sql_eq_true in Hx as (y & -> & [= <-]). done.
Qed.

Lemma GetJob_owned o user p q w r w' :
  GetJob (mkCtx user (Some o)) p q w = (r, w') -> w_db w' = w_db w /\
  forall st j, r = Reply st j -> owned (w_db w) o (j_RepoID j).
Proof.
  unfold GetJob. intros Hrun. go_run; try (by split); go_owned; split; try done; intros ? ? [= <- <-].
  match goal with x : unit |- _ => destruct x end.
  assert (j_RepoID a0 = n) as -> by (by apply dec_stable).
  destruct (Hok eq_refl) as (rp & ? & ?). by exists rp.
Qed.

Lemma listed_owned n d repo b l : ListJobsByRepo repo b n d = Ok l -> forall j, j ∈ l -> j_RepoID j = repo.
Proof.
  unfold ListJobsByRepo. destruct (n <? 0); [done|]. intros [= <-] j Hj.
  apply elem_of_limit in Hj. rewrite order_desc_perm in Hj. apply elem_of_select in Hj as [Hj _].
  apply andb_true_iff in Hj as [Hj _]. by apply bool_decide_eq_true in Hj.
Qed.

Lemma ListJobs_owned o user p l cur w r w' :
  ListJobs (mkCtx user (Some o)) p l cur w = (r, w') -> w_db w' = w_db w /\
  forall st page, r = Reply st page -> forall j, j ∈ Data page -> owned (w_db w) o (j_RepoID j).
Proof.
  unfold ListJobs. intros Hrun. go_run; try (by split); go_owned; split; try done; intros ? ? [= <- <-] j Hj.
  match goal with x : unit |- _ => destruct x end. cbn in Hj.
  match goal with Hl : _ = ListJobsByRepo _ _ _ _ |- _ => symmetry in Hl; apply (listed_owned _ _ _ _ _ Hl) in Hj as ->
                | Hl : ListJobsByRepo _ _ _ _ = _ |- _ => apply (listed_owned _ _ _ _ _ Hl) in Hj as -> end.
  destruct (Hok eq_refl) as (rp & ? & ?). by exists rp.
Qed.

Lemma GetSnapshot_owned o user p w r w' :
  GetSnapshot (mkCtx user (Some o)) p w = (r, w') -> w_db w' = w_db w /\
  forall st s, r = Reply st s -> owned (w_db w) o (s_RepoID s).
Proof.
  unfold GetSnapshot, GetRepoByID, result_of_option. intros Hrun.
  go_run; split; try done; intros ? ? [= <- <-].
  destruct (repositories (w_db w) !! _) as [rp|] eqn:E; simplify_eq/=. exists a0. split; [done|]. by apply dec_stable.
Qed.

Lemma ListSnapshots_owned o user p b w r w' :
  ListSnapshots (mkCtx user (Some o)) p b w = (r, w') -> w_db w' = w_db w /\
  forall st l, r = Reply st l -> forall s, s ∈ l -> owned (w_db w) o (s_RepoID s).
Proof.
  unfold ListSnapshots, GetSnapshotsByBranch. intros Hrun.
  go_run; try (by split); go_owned; split; try done; intros ? ? [= <- <-] s Hs.
  rewrite order_desc_perm in Hs. apply elem_of_select in Hs as [Hs _].
  unfold on_branch in Hs. apply andb_true_iff in Hs as [Hs _]. apply bool_decide_eq_true in Hs as ->.
  match goal with x : unit |- _ => destruct x end. destruct (Hok eq_refl) as (rp & ? & ?). by exists rp.
Qed.

Lemma GetLatestSnapshot_owned o user p b w r w' :
  GetLatestSnapshot (mkCtx user (Some o)) p b w = (r, w') -> w_db w' = w_db w /\
  forall st s, r = Reply st s -> owned (w_db w) o (s_RepoID s).
Proof.
  unfold GetLatestSnapshot, JobStore.GetLatestSnapshot. intros Hrun.
  go_run; try (by split); go_owned; split; try done; intros ? ? [= <- <-].
  match goal with x : unit |- _ => destruct x end. destruct (Hok eq_refl) as (rp & ? & ?). exists rp.
  unfold result_of_option in *. destruct (head _) as [s|] eqn:Hh; simplify_eq/=.
  apply head_order_desc_elem, elem_of_select in Hh as [Hs _].
  unfold on_branch in Hs. apply andb_true_iff in Hs as [Hs _]. by apply bool_decide_eq_true in Hs as ->.
Qed.

End Tenancy.
End RepoApiFacts.

(** * Properties *)

Module RepoApiProps.
Import JobStore AccountStore ContextStore Scope Ownership RepoApi RepoApiFacts.

Section Props.
Context `{UUIDCodec} `{TimeCodec} `{Collation}.

(** C20: Tenancy: in the scope of an organization, whatever the parameters and
    whichever statements fail, every repository, job and snapshot a read
    endpoint returns belongs to a repository of that organization, and nothing
    is written. *)
Theorem reads_stay_in_the_organization o user w :
  let c := mkCtx user (Some o) in
  (forall p r w', GetRepo c p w = (r, w') -> w_db w' = w_db w /\
     forall st repo, r = Reply st repo -> r_OrgID repo = Some o) /\
  (forall l cur r w', ListRepos c l cur w = (r, w') -> w_db w' = w_db w /\
     forall st repos, r = Reply st repos -> forall x, x ∈ repos -> r_OrgID x = Some o) /\
  (forall p q r w', GetJob c p q w = (r, w') -> w_db w' = w_db w /\
     forall st j, r = Reply st j -> owned (w_db w) o (j_RepoID j)) /\
  (forall p l cur r w', ListJobs c p l cur w = (r, w') -> w_db w' = w_db w /\
     forall st page, r = Reply st page -> forall j, j ∈ Data page -> owned (w_db w) o (j_RepoID j)) /\
  (forall p r w', GetSnapshot c p w = (r, w') -> w_db w' = w_db w /\
     forall st s, r = Reply st s -> owned (w_db w) o (s_RepoID s)) /\
  (forall p b r w', ListSnapshots c p b w = (r, w') -> w_db w' = w_db w /\
     forall st l, r = Reply st l -> forall s, s ∈ l -> owned (w_db w) o (s_RepoID s)) /\
  (forall p b r w', GetLatestSnapshot c p b w = (r, w') -> w_db w' = w_db w /\
     forall st s, r = Reply st s -> owned (w_db w) o (s_RepoID s)).
Proof.
  intros c. split_and!; intros *;
    [apply GetRepo_owned|apply ListRepos_owned|apply GetJob_owned|apply ListJobs_owned
    |apply GetSnapshot_owned|apply ListSnapshots_owned|apply GetLatestSnapshot_owned].
Qed.

(** C21: Pagination: a client that follows [next_cursor] from the first page
    gets, after finitely many requests and whatever the page size, every job of
    the repository created before the first request exactly once, newest first,
    provided no two jobs of the repository share a creation instant. *)
Theorem pagination_lists_every_job_once c repoParam limitParam w repoID repo :
  w_faults w = [] -> uuid_scan repoParam = Some repoID ->
  repositories (w_db w) !! repoID = Some repo -> r_OrgID repo = OrgIDFromContext c ->
  (forall k j, jobs (w_db w) !! k = Some j -> j_ID j = k) ->
  (forall k1 k2 j1 j2, jobs (w_db w) !! k1 = Some j1 -> jobs (w_db w) !! k2 = Some j2 ->
     j_RepoID j1 = repoID -> j_RepoID j2 = repoID -> j_CreatedAt j1 = j_CreatedAt j2 -> k1 = k2) ->
  exists l, walk (S (length (select (older repoID (w_now w)) (jobs (w_db w))))) c repoParam limitParam "" w = Some l /\
    NoDup l /\ StronglySorted (fun a b => j_CreatedAt b <= j_CreatedAt a) l /\
    forall j, j ∈ l <-> (exists k, jobs (w_db w) !! k = Some j) /\ j_RepoID j = repoID /\ j_CreatedAt j < w_now w.
Proof.
  intros Hf Hs Hr Ho Hid Hd. exists (listing (jobs (w_db w)) repoID (w_now w)). split_and!.
  - apply (walk_listing c repoParam limitParam w repoID repo); try done.
    unfold listing. rewrite order_desc_perm. lia.
  - by apply listing_NoDup.
  - pose proof (order_desc_sorted j_CreatedAt (select (older repoID (w_now w)) (jobs (w_db w)))) as Hsort.
    fold (listing (jobs (w_db w)) repoID (w_now w)) in Hsort.
    induction Hsort as [|x l _ IH Hx]; constructor; [done|]. eapply Forall_impl; [exact Hx|]. cbn. intros; lia.
  - intros j. by apply elem_of_listing.
Qed.

End Props.

(** ** Closed examples *)

(** Instants as decimal numbers. *)
Definition example_time : TimeCodec.
Proof.
  refine {|
    time_parse s := Z.of_int <$> DecimalString.NilZero.int_of_string s;
    time_format t := FormatInt t |}.
  - intros t. rewrite int_of_FormatInt. cbn. by rewrite DecimalZ.of_to.
  - intros t E. pose proof (int_of_FormatInt t) as Hi. rewrite E in Hi. done.
Defined.

#[local] Existing Instance example_codec.
#[local] Existing Instance example_time.

Definition ex_repo : Repository := mkRepository 7 (Some 1%N) 42 99 "acme/app" "main" 0 None.

Definition ex_job (id : N) (created : Z) : Job :=
  mkJob id 7 "main" "c" None JobStatusQueued None created created None None.

Definition ex_jobs (l : list (N * Z)) : World :=
  mkWorld (set_jobs (list_to_map ((fun e => (e.1, ex_job e.1 e.2)) <$> l))
            (set_repositories {[ 7%N := ex_repo ]} empty_db)) None 1000 [] [] [] ∅ ∅.

Lemma pagination_lists_every_job_once_witness :
  exists l, walk 4 (mkCtx None (Some 1%N)) "7" "2" "" (ex_jobs [(1%N, 10); (2%N, 20); (3%N, 30)]) = Some l /\ NoDup l.
Proof.
  destruct (pagination_lists_every_job_once (mkCtx None (Some 1%N)) "7" "2" (ex_jobs [(1%N, 10); (2%N, 20); (3%N, 30)]) 7%N ex_repo)
    as (l & Hw & Hn & _).
  - reflexivity.
  - vm_compute; reflexivity.
  - vm_compute; reflexivity.
  - reflexivity.
  - intros k j Hk. apply elem_of_list_to_map_2 in Hk. cbn in Hk. set_solver.
  - intros k1 k2 j1 j2 H1 H2 _ _. apply elem_of_list_to_map_2 in H1, H2. cbn in H1, H2. set_solver.
  - exists l. split; [exact Hw|exact Hn].
Defined.

(** Jobs of one creation instant: the cursor skips the rest of a page break. *)
Example pagination_skips_ties :
  option_map (map j_ID) (walk 4 (mkCtx None (Some 1%N)) "7" "1" "" (ex_jobs [(1%N, 10); (2%N, 10)])) = Some [2%N].
Proof. vm_compute. reflexivity. Qed.

(** In a personal workspace the comparison with the organization of the scope
    is between two NULLs: the repository of any other user passes. *)
Lemma personal_scope_sees_foreign_repos user other w id repo p :
  w_faults w = [] -> uuid_scan p = Some id -> repositories (w_db w) !! id = Some repo ->
  r_OrgID repo = None -> r_UserID repo = Some other -> other <> user ->
  (GetRepo (mkCtx (Some user) None) p w).1 = Reply StatusOK repo.
Proof.
  intros Hf Hp Hr Ho Hu Hne. unfold GetRepo. rewrite Hp. erewrite bind_eval by (by apply query_ok).
  unfold GetRepoByID. rewrite Hr. cbn. destruct (decide _); done.
Qed.

End RepoApiProps.
