(* ===== verification/OrgApi.v ===== *)
(** Organizations and their members:
    [services/api/internal/handler/org/handler.go].  Every handler is a
    sequence of statements without a transaction. *)

From S2P Require Import Prelude GoStr Store JobStore AccountStore ContextStore HttpUtil Scope RepoApi.

Module OrgApi.
Import JobStore AccountStore Scope.

(** * Definitions *)

Definition ErrForbidden : string := "forbidden".
Definition ErrInvalidBody : string := "invalid request body".
Definition ErrInternal : string := "internal error".
Definition errOrgNotFound : string := "organization not found".
Definition errAlreadyMember : string := "user is already a member".
Definition errUserNotFound : string := "user not found".
Definition errLastOwner : string := "cannot remove the last owner".
Definition errCannotDemote : string := "only owners can change owner roles".
Definition errInvalidID : string := "cannot parse UUID".

Record orgRequest := mkOrgRequest { or_Name : string; or_Slug : string }.
Record inviteRequest := mkInviteRequest { ir_Email : string; ir_Role : string }.
Record roleRequest := mkRoleRequest { rr_Role : string }.

Definition roles : list string := ["owner"; "admin"; "member"].

Section Tags.
Context `{Validator}.

Definition validate_orgRequest (b : orgRequest) : list FieldError :=
  check_field "Name" [("required", "", tag_required (or_Name b))] ++
  check_field "Slug" [("required", "", tag_required (or_Slug b))].

Definition validate_inviteRequest (b : inviteRequest) : list FieldError :=
  check_field "Email" [("required", "", tag_required (ir_Email b)); ("email", "", tag_email (ir_Email b))] ++
  check_field "Role" [("oneof", "owner admin member",
                       bool_decide (ir_Role b = "") || tag_oneof roles (ir_Role b))].

Definition validate_roleRequest (b : roleRequest) : list FieldError :=
  check_field "Role" [("required", "", tag_required (rr_Role b));
                      ("oneof", "owner admin member", tag_oneof roles (rr_Role b))].

End Tags.

(** [requireRole] *)
Definition requireRole (orgID : uuid) (userID : option uuid) (allowed : list string) :
    M World (result string Membership) :=
  try m <- query (GetMembership userID orgID) catch e => ret (Err ErrForbidden) ;;
  if bool_decide (m_Role m ∈ allowed) then ret (Ok m) else ret (Err ErrForbidden).

(** [audit]: an error is only logged. *)
Definition audit (c : Ctx) (userID orgID : option uuid) (action : string) (targetID : option uuid) : M World unit :=
  _ <- insert_stmt (InsertAuditLog (mkInsertAuditLogParams userID orgID (UserIDFromContext c) action targetID None)) ;;
  ret tt.

Section Handlers.
Context `{UUIDCodec} `{Validator} `{TimeCodec}.

Definition CreateOrg (c : Ctx) (body : option orgRequest) : M World (Resp Organization) :=
  let userID := UserIDFromContext c in
  match body with
  | None => ret (Fail StatusBadRequest ErrInvalidBody)
  | Some b =>
      match Struct (validate_orgRequest b) with
      | Err msg => ret (Fail StatusBadRequest msg)
      | Ok _ =>
          try org <- insert_stmt (UpsertOrg (mkUpsertOrgParams ("local_" +:+ or_Slug b) (or_Slug b) (or_Name b)))
            catch e => ret (Fail StatusInternalServerError ErrInternal) ;;
          try _ <- insert_stmt (CreateMembership (mkCreateMembershipParams userID (o_ID org) "owner" None))
            catch e => ret (Fail StatusInternalServerError ErrInternal) ;;
          do audit c userID (Some (o_ID org)) "org.created" (Some (o_ID org)) ;;
          ret (Reply StatusCreated org)
      end
  end.

Definition ListOrgs (c : Ctx) : M World (Resp (list (Membership * Organization))) :=
  try ms <- query (ListMembershipsByUser (UserIDFromContext c))
    catch e => ret (Fail StatusInternalServerError ErrInternal) ;;
  ret (Reply StatusOK ms).

Definition UpdateOrg (c : Ctx) (orgParam : string) (body : option orgRequest) : M World (Resp Organization) :=
  match uuid_scan orgParam with
  | None => ret (Fail StatusBadRequest errInvalidID)
  | Some orgID =>
      try _ <- requireRole orgID (UserIDFromContext c) ["owner"; "admin"]
        catch e => ret (Fail StatusForbidden ErrForbidden) ;;
      match body with
      | None => ret (Fail StatusBadRequest ErrInvalidBody)
      | Some b =>
          match Struct (validate_orgRequest b) with
          | Err msg => ret (Fail StatusBadRequest msg)
          | Ok _ =>
              r <- exec (UpdateOrganization orgID (or_Name b) (or_Slug b)) ;;
              match r with
              | Err ErrNoRows => ret (Fail StatusNotFound errOrgNotFound)
              | Err _ => ret (Fail StatusInternalServerError ErrInternal)
              | Ok org =>
                  do audit c None (Some orgID) "org.updated" (Some orgID) ;;
                  ret (Reply StatusOK org)
              end
          end
      end
  end.

Definition DeleteOrg (c : Ctx) (orgParam : string) : M World (Resp unit) :=
  match uuid_scan orgParam with
  | None => ret (Fail StatusBadRequest errInvalidID)
  | Some orgID =>
      try _ <- requireRole orgID (UserIDFromContext c) ["owner"]
        catch e => ret (Fail StatusForbidden ErrForbidden) ;;
      try _ <- exec (DeleteOrganization orgID)
        catch e => ret (Fail StatusInternalServerError ErrInternal) ;;
      ret (Reply StatusNoContent tt)
  end.

Definition ListMembers (c : Ctx) (orgParam : string) : M World (Resp (list (Membership * User))) :=
  match uuid_scan orgParam with
  | None => ret (Fail StatusBadRequest errInvalidID)
  | Some orgID =>
      try _ <- requireRole orgID (UserIDFromContext c) ["owner"; "admin"; "member"]
        catch e => ret (Fail StatusForbidden ErrForbidden) ;;
      try members <- query (ListMembershipsByOrg orgID)
        catch e => ret (Fail StatusInternalServerError ErrInternal) ;;
      ret (Reply StatusOK members)
  end.

Definition InviteMember (c : Ctx) (orgParam : string) (body : option inviteRequest) : M World (Resp Membership) :=
  match uuid_scan orgParam with
  | None => ret (Fail StatusBadRequest errInvalidID)
  | Some orgID =>
      try _ <- requireRole orgID (UserIDFromContext c) ["owner"; "admin"]
        catch e => ret (Fail StatusForbidden ErrForbidden) ;;
      match body with
      | None => ret (Fail StatusBadRequest ErrInvalidBody)
      | Some b =>
          match Struct (validate_inviteRequest b) with
          | Err msg => ret (Fail StatusBadRequest msg)
          | Ok _ =>
              let role := if decide (ir_Role b = "") then "member" else ir_Role b in
              r <- query (GetUserByEmail (ir_Email b)) ;;
              match r with
              | Err ErrNoRows => ret (Fail StatusNotFound errUserNotFound)
              | Err _ => ret (Fail StatusInternalServerError ErrInternal)
              | Ok invitee =>
                  try m <- insert_stmt (CreateMembership
                             (mkCreateMembershipParams (Some (u_ID invitee)) orgID role (UserIDFromContext c)))
                    catch e => ret (Fail StatusConflict errAlreadyMember) ;;
                  do audit c None (Some orgID) "member.invited" (Some (u_ID invitee)) ;;
                  ret (Reply StatusCreated m)
              end
          end
      end
  end.

(** The guard shared by the two operations that can remove an owner; [Some] is
    the response that ends the handler. *)
Definition last_owner_guard {A} (orgID : uuid) : M World (option (Resp A)) :=
  try count <- query (CountOwnersByOrg orgID)
    catch e => ret (Some (Fail StatusInternalServerError ErrInternal)) ;;
  if count <=? 1 then ret (Some (Fail StatusConflict errLastOwner)) else ret None.

(** From the target's membership on. *)
Definition UpdateMemberRole_apply (c : Ctx) (orgID targetUserID : uuid) (caller : Membership) (role : string) :
    M World (Resp Membership) :=
  try target <- query (GetMembership (Some targetUserID) orgID)
    catch e => ret (Fail StatusNotFound errUserNotFound) ;;
  if bool_decide (m_Role caller = "admin")
     && (bool_decide (m_Role target = "owner") || bool_decide (role = "owner"))
  then ret (Fail StatusForbidden errCannotDemote)
  else
    g <- (if bool_decide (m_Role target = "owner") && negb (bool_decide (role = "owner"))
          then last_owner_guard orgID else ret None) ;;
    match g with
    | Some resp => ret resp
    | None =>
        try updated <- exec (UpdateMembershipRole (Some targetUserID) orgID role)
          catch e => ret (Fail StatusInternalServerError ErrInternal) ;;
        do audit c None (Some orgID) "member.role_changed" (Some targetUserID) ;;
        ret (Reply StatusOK updated)
    end.

Definition UpdateMemberRole (c : Ctx) (orgParam userParam : string) (body : option roleRequest) :
    M World (Resp Membership) :=
  match uuid_scan orgParam, uuid_scan userParam with
  | None, _ | _, None => ret (Fail StatusBadRequest errInvalidID)
  | Some orgID, Some targetUserID =>
      try caller <- requireRole orgID (UserIDFromContext c) ["owner"; "admin"]
        catch e => ret (Fail StatusForbidden ErrForbidden) ;;
      match body with
      | None => ret (Fail StatusBadRequest ErrInvalidBody)
      | Some b =>
          match Struct (validate_roleRequest b) with
          | Err msg => ret (Fail StatusBadRequest msg)
          | Ok _ => UpdateMemberRole_apply c orgID targetUserID caller (rr_Role b)
          end
      end
  end.

Definition RemoveMember_apply (c : Ctx) (orgID targetUserID : uuid) : M World (Resp unit) :=
  try target <- query (GetMembership (Some targetUserID) orgID)
    catch e => ret (Fail StatusNotFound errUserNotFound) ;;
  g <- (if bool_decide (m_Role target = "owner") then last_owner_guard orgID else ret None) ;;
  match g with
  | Some resp => ret resp
  | None =>
      try _ <- exec (DeleteMembership (Some targetUserID) orgID)
        catch e => ret (Fail StatusInternalServerError ErrInternal) ;;
      do audit c None (Some orgID) "member.removed" (Some targetUserID) ;;
      ret (Reply StatusNoContent tt)
  end.

Definition RemoveMember (c : Ctx) (orgParam userParam : string) : M World (Resp unit) :=
  match uuid_scan orgParam, uuid_scan userParam with
  | None, _ | _, None => ret (Fail StatusBadRequest errInvalidID)
  | Some orgID, Some targetUserID =>
      try _ <- requireRole orgID (UserIDFromContext c) ["owner"; "admin"]
        catch e => ret (Fail StatusForbidden ErrForbidden) ;;
      RemoveMember_apply c orgID targetUserID
  end.

Definition ListAuditLog (c : Ctx) (orgParam cursorParam limitParam : string) :
    M World (Resp (list (AuditLog * string))) := fun w =>
  (match uuid_scan orgParam with
  | None => ret (Fail StatusBadRequest errInvalidID)
  | Some orgID =>
      try _ <- requireRole orgID (UserIDFromContext c) ["owner"; "admin"]
        catch e => ret (Fail StatusForbidden ErrForbidden) ;;
      match ParseCursor time_parse (w_now w) cursorParam with
      | Err e => ret (Fail StatusBadRequest e)
      | Ok cursor =>
          try entries <- query (ListAuditLogByOrg (Some orgID) cursor (ParseLimit limitParam))
            catch e => ret (Fail StatusInternalServerError ErrInternal) ;;
          ret (Reply StatusOK entries)
      end
  end) w.

(** ** The system of organization handlers *)
Inductive org_step (c : Ctx) : World -> World -> Prop :=
| os_create body r w w' : CreateOrg c body w = (r, w') -> org_step c w w'
| os_list r w w' : ListOrgs c w = (r, w') -> org_step c w w'
| os_update o body r w w' : UpdateOrg c o body w = (r, w') -> org_step c w w'
| os_delete o r w w' : DeleteOrg c o w = (r, w') -> org_step c w w'
| os_members o r w w' : ListMembers c o w = (r, w') -> org_step c w w'
| os_invite o body r w w' : InviteMember c o body w = (r, w') -> org_step c w w'
| os_role o u body r w w' : UpdateMemberRole c o u body w = (r, w') -> org_step c w w'
| os_remove o u r w w' : RemoveMember c o u w = (r, w') -> org_step c w w'
| os_audit o cur l r w w' : ListAuditLog c o cur l w = (r, w') -> org_step c w w'
| os_env now ids faults w :
    org_step c w (mkWorld (w_db w) (w_tx w) now ids faults (w_tasks w) (w_objects w) (w_cache w)).

End Handlers.
End OrgApi.

(** * Lemmas *)

Module OrgFacts.
Import JobStore AccountStore Scope OrgApi.

#[export] Instance Membership_eq_dec : EqDecision Membership.
Proof. solve_decision. Defined.

(** Keys and uniqueness of the tables the handlers work on. *)
Record mwf (d : DB) : Prop := {
  mwf_id : forall k m, memberships d !! k = Some m -> m_ID m = k;
  mwf_unique : forall k1 k2 m1 m2, memberships d !! k1 = Some m1 -> memberships d !! k2 = Some m2 ->
    m_UserID m1 = m_UserID m2 -> m_OrgID m1 = m_OrgID m2 -> k1 = k2
}.

Definition has_owner (d : DB) (o : uuid) : Prop :=
  exists k m, memberships d !! k = Some m /\ m_OrgID m = o /\ m_Role m = "owner".

(** The caller's role in an organization. *)
Definition caller_role (c : Ctx) (d : DB) (o : uuid) (r : string) : Prop :=
  exists m, GetMembership (UserIDFromContext c) o d = Ok m /\ m_Role m = r.

Definition manages (c : Ctx) (d : DB) (o : uuid) : Prop :=
  caller_role c d o "owner" \/ caller_role c d o "admin".

(** What a handler may do to the membership table: the abstract transitions
    with the guards that must have held. *)
Inductive mstep (c : Ctx) (d : DB) : DB -> Prop :=
| ms_same d' :
    memberships d' = memberships d -> (forall o, is_Some (organizations d !! o) -> is_Some (organizations d' !! o)) ->
    mstep c d d'
| ms_found k m d' :
    (* the creator of an organization joins it as owner *)
    Some (m_UserID m) = UserIDFromContext c -> m_Role m = "owner" ->
    memberships d !! k = None -> m_ID m = k ->
    (forall k' m', memberships d !! k' = Some m' -> m_UserID m' = m_UserID m -> m_OrgID m' <> m_OrgID m) ->
    memberships d' = <[k := m]> (memberships d) ->
    (forall o, is_Some (organizations d !! o) -> is_Some (organizations d' !! o)) ->
    mstep c d d'
| ms_invite k m d' :
    manages c d (m_OrgID m) ->
    memberships d !! k = None -> m_ID m = k ->
    (forall k' m', memberships d !! k' = Some m' -> m_UserID m' = m_UserID m -> m_OrgID m' <> m_OrgID m) ->
    memberships d' = <[k := m]> (memberships d) -> organizations d' = organizations d ->
    mstep c d d'
| ms_role k m r d' :
    manages c d (m_OrgID m) -> memberships d !! k = Some m ->
    (m_Role m = "owner" \/ r = "owner" -> caller_role c d (m_OrgID m) "owner") ->
    (m_Role m = "owner" -> r <> "owner" -> (2 <= length (select (owner_of (m_OrgID m)) (memberships d)))%nat) ->
    memberships d' = <[k := set_role r m]> (memberships d) -> organizations d' = organizations d ->
    mstep c d d'
| ms_remove u o d' :
    manages c d o ->
    ((exists k m, memberships d !! k = Some m /\ is_member (Some u) o m = true /\ m_Role m = "owner") ->
     (2 <= length (select (owner_of o) (memberships d)))%nat) ->
    memberships d' = delete_where (is_member (Some u) o) (memberships d) -> organizations d' = organizations d ->
    mstep c d d'
| ms_delete o d' :
    caller_role c d o "owner" ->
    memberships d' = delete_where (fun m => bool_decide (m_OrgID m = o)) (memberships d) ->
    organizations d' = delete o (organizations d) ->
    mstep c d d'.

(** ** Runs of the shared pieces *)

Lemma requireRole_inv o u allowed w r w' :
  requireRole o u allowed w = (r, w') ->
  w_db w' = w_db w /\
  (forall m, r = Ok m -> GetMembership u o (w_db w) = Ok m /\ m_Role m ∈ allowed).
Proof.
  unfold requireRole. intros Hrun. go_run; split; try done; intros ? [= <-].
  match goal with Hb : bool_decide _ = true |- _ => by apply bool_decide_eq_true in Hb end.
Qed.

Lemma audit_inv c u o a t w r w' :
  audit c u o a t w = (r, w') -> memberships (w_db w') = memberships (w_db w) /\ organizations (w_db w') = organizations (w_db w).
Proof.
  unfold audit, InsertAuditLog. intros Hrun. go_run; try done. repeat case_match; by simplify_eq/=.
Qed.

Lemma last_owner_guard_inv {A} o w (r : option (Resp A)) w' :
  last_owner_guard o w = (r, w') ->
  w_db w' = w_db w /\ (r = None -> (2 <= length (select (owner_of o) (memberships (w_db w))))%nat).
Proof.
  unfold last_owner_guard, CountOwnersByOrg. intros Hrun. go_run; split; try done. intros _.
  match goal with Hb : (_ <=? 1) = false |- _ => apply Z.leb_gt in Hb; lia end.
Qed.

Lemma CreateMembership_Ok a now id d m d' :
  CreateMembership a now id d = Ok (m, d') ->
  cm_UserID a = Some (m_UserID m) /\ m_OrgID m = cm_OrgID a /\ m_Role m = cm_Role a /\ m_ID m = id /\
  memberships d !! id = None /\ d' = set_memberships (<[id := m]> (memberships d)) d /\
  (forall k' m', memberships d !! k' = Some m' -> m_UserID m' = m_UserID m -> m_OrgID m' <> m_OrgID m).
Proof.
  unfold CreateMembership. intros Hc. destruct (cm_UserID a) as [u|]; [|done].
  destruct (negb (valid_role _)); [done|]. case_bool_decide as Hid; [done|].
  destruct (any_row _ _) eqn:Ha; [done|]. destruct (negb _); [done|]. simplify_eq/=.
  rewrite any_row_false in Ha. split_and!; try done.
  - destruct (memberships d !! id) eqn:E; [|done]. destruct Hid. eauto.
  - intros k' m' Hk' Hu Ho. specialize (Ha k' m' Hk'). unfold is_member, is_id in Ha. cbn in Ha.
    by rewrite !bool_decide_true in Ha by done.
Qed.

Lemma UpsertOrg_orgs a now id d o d' :
  UpsertOrg a now id d = Ok (o, d') ->
  memberships d' = memberships d /\ (forall k, is_Some (organizations d !! k) -> is_Some (organizations d' !! k)).
Proof.
  unfold UpsertOrg. intros Hu. repeat (case_match; simplify_eq/=); split; try done;
    intros k Hk; rewrite lookup_insert_is_Some'; auto.
Qed.

Lemma is_member_true u o m : is_member (Some u) o m = true <-> m_UserID m = u /\ m_OrgID m = o.
Proof. unfold is_member, is_id. cbn. by rewrite andb_true_iff, !bool_decide_eq_true. Qed.

Lemma GetMembership_Ok u o d m :
  GetMembership u o d = Ok m -> is_member u o m = true /\ exists k, memberships d !! k = Some m.
Proof.
  unfold GetMembership, result_of_option. destruct (find_row _ _) eqn:E; [|done]. intros [= <-].
  by apply find_row_Some in E.
Qed.

Lemma role_manages c d o m :
  GetMembership (UserIDFromContext c) o d = Ok m -> m_Role m ∈ ["owner"; "admin"] -> manages c d o.
Proof.
  intros Hm Hr. unfold manages, caller_role.
  apply elem_of_cons in Hr as [Hr|Hr]; [left|right; apply list_elem_of_singleton in Hr]; eauto.
Qed.

(** ** Every handler takes one of the transitions *)
Section Steps.
Context `{UUIDCodec} `{Validator} `{TimeCodec}.

(** Use the facts of the shared pieces along a run. *)
Ltac go_org :=
  repeat match goal with
  | Hr : requireRole _ _ _ _ = (_, _) |- _ => apply requireRole_inv in Hr as [? Hr]
  | Hr : audit _ _ _ _ _ _ = (_, _) |- _ => apply audit_inv in Hr as [? ?]
  | Hr : last_owner_guard _ _ = (_, _) |- _ => apply last_owner_guard_inv in Hr as [? ?]
  | Hr : forall m, Ok ?x = Ok m -> _ |- _ => specialize (Hr x eq_refl) as [? ?]
  end.

(** Only the database matters, and it is the one of an earlier world. *)
Ltac go_dbs :=
  cbn [w_db set_faults set_db set_ids] in *;
  repeat match goal with E : w_db ?x = _ |- _ => rewrite E in *; clear E end.

Lemma ms_refl c d d' : memberships d' = memberships d -> organizations d' = organizations d -> mstep c d d'.
Proof. intros Hm Ho. apply ms_same; [done|]. by rewrite Ho. Qed.

Lemma ms_eq c d d' : d' = d -> mstep c d d'.
Proof. intros ->. by apply ms_refl. Qed.

Lemma CreateOrg_mstep c body w r w' : CreateOrg c body w = (r, w') -> mstep c (w_db w) (w_db w').
Proof.
  unfold CreateOrg. intros Hrun. go_run; try (by apply ms_eq).
  all: match goal with Hu : UpsertOrg _ _ _ _ = _ |- _ => apply UpsertOrg_orgs in Hu as [Hm Ho] end.
  - by apply ms_same.
  - go_org. cbn in *.
    match goal with Hc : CreateMembership _ _ _ _ = Ok (?m, _) |- _ =>
      apply CreateMembership_Ok in Hc as (Hu & Horg & Hrole & Hid & Hn & -> & Huniq);
      eapply (ms_found _ _ _ m) end; cbn in *; rewrite ?Hm in *; try done; try congruence.
    intros o' Ho'. match goal with E : organizations (w_db w') = _ |- _ => rewrite E end. auto.
Qed.

Lemma UpdateOrg_mstep c o body w r w' : UpdateOrg c o body w = (r, w') -> mstep c (w_db w) (w_db w').
Proof.
  unfold UpdateOrg. intros Hrun. go_run; go_org; try (apply ms_eq; congruence).
  unfold UpdateOrganization in *. repeat (case_match; simplify_eq/=). apply ms_same; [congruence|].
  intros o' Ho'. match goal with E : organizations (w_db w') = _ |- _ => rewrite E end.
  rewrite lookup_insert_is_Some'. right. congruence.
Qed.

Lemma DeleteOrg_mstep c o w r w' : DeleteOrg c o w = (r, w') -> mstep c (w_db w) (w_db w').
Proof.
  unfold DeleteOrg. intros Hrun. go_run; go_org; try (apply ms_eq; congruence).
  unfold DeleteOrganization in *. case_bool_decide; simplify_eq/=; [apply ms_eq; congruence|].
  destruct (_ || _); simplify_eq/=. eapply (ms_delete _ _ n); cbn; [|congruence..].
  match goal with Hm : m_Role ?m ∈ _ |- _ => apply list_elem_of_singleton in Hm; exists m end.
  split; [congruence|done].
Qed.

Lemma InviteMember_mstep c o body w r w' : InviteMember c o body w = (r, w') -> mstep c (w_db w) (w_db w').
Proof.
  unfold InviteMember. intros Hrun. go_run; go_org; try (apply ms_eq; congruence).
  match goal with Hc : CreateMembership _ _ _ _ = _ |- _ =>
    apply CreateMembership_Ok in Hc as (Hu & Horg & Hrole & Hid & Hn & -> & Huniq) end. cbn in *.
  match goal with E : w_db ?x = w_db w |- _ => rewrite E in * end.
  eapply ms_invite; try done. rewrite Horg. by eapply role_manages.
Qed.

Lemma RemoveMember_mstep c o u w r w' :
  mwf (w_db w) -> RemoveMember c o u w = (r, w') -> mstep c (w_db w) (w_db w').
Proof.
  intros Hwf Hrun. unfold RemoveMember, RemoveMember_apply, DeleteMembership in Hrun.
  go_run; go_org; go_dbs; try (by apply ms_eq).
  all: eapply (ms_remove _ _ n0 n); cbn in *; [by eapply role_manages| |congruence..].
  - intros _. match goal with Hg : None = None -> _ |- _ => by apply Hg end.
  - intros (k & m & Hk & Hm & Hr). exfalso.
    match goal with Hg : GetMembership (Some n0) n _ = Ok ?t |- _ =>
      apply GetMembership_Ok in Hg as [Ht [kt Hkt]] end.
    apply is_member_true in Hm as [Hm1 Hm2], Ht as [Ht1 Ht2].
    assert (k = kt) as -> by (eapply (mwf_unique _ Hwf); eauto; congruence).
    match goal with Hb : bool_decide (m_Role _ = "owner") = false |- _ => apply bool_decide_eq_false in Hb end.
    congruence.
Qed.

Lemma role_change_mstep c u o role now d d1 d' caller target m' :
  mwf d -> GetMembership (UserIDFromContext c) o d = Ok caller -> m_Role caller ∈ ["owner"; "admin"] ->
  GetMembership (Some u) o d = Ok target ->
  bool_decide (m_Role caller = "admin") &&
    (bool_decide (m_Role target = "owner") || bool_decide (role = "owner")) = false ->
  (m_Role target = "owner" -> role <> "owner" -> (2 <= length (select (owner_of o) (memberships d)))%nat) ->
  UpdateMembershipRole (Some u) o role now d = Ok (m', d1) ->
  memberships d' = memberships d1 -> organizations d' = organizations d1 -> mstep c d d'.
Proof.
  intros Hwf Hc Hr Ht Hg Hcount Hu Hm Ho. pose proof Ht as Ht'.
  apply GetMembership_Ok in Ht' as [Htm [k Hk]]. apply is_member_true in Htm as [_ Hto].
  unfold UpdateMembershipRole in Hu. unfold GetMembership, result_of_option in Ht.
  destruct (find_row _ _) as [m|]; [|done]. simplify_eq/=.
  destruct (negb _); [done|]. simplify_eq/=. rewrite (mwf_id _ Hwf k target Hk) in Hm.
  eapply (ms_role _ _ k target); try done; [by eapply role_manages|].
  intros How. exists caller. split; [done|].
  apply elem_of_cons in Hr as [Hr|Hr]; [done|]. apply list_elem_of_singleton in Hr. exfalso.
  rewrite Hr in Hg. rewrite (bool_decide_true ("admin" = "admin")) in Hg by done.
  destruct How as [Hw|Hw]; rewrite Hw in Hg; rewrite (bool_decide_true ("owner" = "owner")) in Hg by done;
    rewrite ?orb_true_r in Hg; done.
Qed.

Lemma UpdateMemberRole_mstep c o u body w r w' :
  mwf (w_db w) -> UpdateMemberRole c o u body w = (r, w') -> mstep c (w_db w) (w_db w').
Proof.
  intros Hwf Hrun. unfold UpdateMemberRole, UpdateMemberRole_apply in Hrun.
  go_run; go_org; go_dbs; try (by apply ms_eq).
  all: eapply role_change_mstep; try done.
  - intros _ _. match goal with Hg : None = None -> _ |- _ => by apply Hg end.
  - intros Ht Hn. exfalso.
    match goal with Hb : bool_decide _ && negb _ = false |- _ =>
      rewrite bool_decide_true in Hb by done; rewrite bool_decide_false in Hb by done; done end.
Qed.

Lemma reads_mstep c w w' : w_db w' = w_db w -> mstep c (w_db w) (w_db w').
Proof. apply ms_eq. Qed.

(** Refinement: every handler run is an abstract transition. *)
Lemma org_step_mstep c w w' : mwf (w_db w) -> org_step c w w' -> mstep c (w_db w) (w_db w').
Proof.
  intros Hwf Hs. destruct Hs;
    eauto using CreateOrg_mstep, UpdateOrg_mstep, DeleteOrg_mstep, InviteMember_mstep, UpdateMemberRole_mstep,
      RemoveMember_mstep.
  - unfold ListOrgs in *. go_run; by apply ms_eq.
  - unfold ListMembers in *. go_run; go_org; go_dbs; by apply ms_eq.
  - unfold ListAuditLog in *. go_run; go_org; go_dbs; by apply ms_eq.
  - by apply ms_eq.
Qed.

(** ** Invariants under the transitions *)

Lemma mwf_insert d k m t :
  mwf d -> t = <[k := m]> (memberships d) -> m_ID m = k ->
  (forall k' m', memberships d !! k' = Some m' -> k' <> k -> m_UserID m' = m_UserID m -> m_OrgID m' <> m_OrgID m) ->
  (forall k' m', t !! k' = Some m' -> m_ID m' = k') /\
  (forall k1 k2 m1 m2, t !! k1 = Some m1 -> t !! k2 = Some m2 ->
    m_UserID m1 = m_UserID m2 -> m_OrgID m1 = m_OrgID m2 -> k1 = k2).
Proof.
  intros Hwf -> Hid Hnew. split.
  - intros k' m' Hk. destruct (decide (k' = k)) as [->|]; simplify_map_eq; [done|]. by apply (mwf_id _ Hwf).
  - intros k1 k2 m1 m2 H2' H3' Hu Ho.
    destruct (decide (k1 = k)) as [->|]; destruct (decide (k2 = k)) as [->|]; simplify_map_eq; try done.
    + exfalso. by eapply (Hnew k2 m2).
    + exfalso. by eapply (Hnew k1 m1).
    + by eapply (mwf_unique _ Hwf).
Qed.

Lemma mwf_delete d p t :
  mwf d -> t = delete_where p (memberships d) ->
  (forall k' m', t !! k' = Some m' -> m_ID m' = k') /\
  (forall k1 k2 m1 m2, t !! k1 = Some m1 -> t !! k2 = Some m2 ->
    m_UserID m1 = m_UserID m2 -> m_OrgID m1 = m_OrgID m2 -> k1 = k2).
Proof.
  intros Hwf ->. split.
  - intros k m Hk. apply delete_where_Some in Hk as [Hk _]. by apply (mwf_id _ Hwf).
  - intros k1 k2 m1 m2 Hk1 Hk2. apply delete_where_Some in Hk1 as [? _], Hk2 as [? _].
    by apply (mwf_unique _ Hwf).
Qed.

Lemma mstep_mwf c d d' : mwf d -> mstep c d d' -> mwf d'.
Proof.
  intros Hwf Hs. destruct Hs as [d' E _|k m d' _ _ Hn Hid Hu E _|k m d' _ Hn Hid Hu E _|k m r d' _ Hk _ _ E _
                                |u o d' _ _ E _|o d' _ E _].
  - destruct Hwf as [H1' H2']. split; rewrite E; done.
  - destruct (mwf_insert d k m _ Hwf E Hid) as [? ?]; [intros; by eapply Hu|]. by split.
  - destruct (mwf_insert d k m _ Hwf E Hid) as [? ?]; [intros; by eapply Hu|]. by split.
  - destruct (mwf_insert d k (set_role r m) _ Hwf E) as [? ?]; [exact (mwf_id _ Hwf k m Hk)| |by split].
    cbn. intros k' m' Hk' Hne Hu Ho. apply Hne. by eapply (mwf_unique _ Hwf).
  - destruct (mwf_delete d _ _ Hwf E) as [? ?]. by split.
  - destruct (mwf_delete d _ _ Hwf E) as [? ?]. by split.
Qed.

(** With two owners, one of them is not the given membership. *)
Lemma another_owner d o m :
  mwf d -> (2 <= length (select (owner_of o) (memberships d)))%nat ->
  exists k m2, memberships d !! k = Some m2 /\ m_OrgID m2 = o /\ m_Role m2 = "owner" /\ m2 <> m.
Proof.
  intros Hwf Hlen.
  assert (NoDup (select (owner_of o) (memberships d))) as Hnd
    by (apply (RepoApiFacts.NoDup_select m_ID), (mwf_id _ Hwf)).
  assert (exists m2, m2 ∈ select (owner_of o) (memberships d) /\ m2 <> m) as (m2 & Hin & Hne).
  { destruct (select _ _) as [|a [|b l]]; cbn in Hlen; try lia.
    apply NoDup_cons in Hnd as [Ha _]. destruct (decide (a = m)) as [->|Hne].
    - exists b. split; [set_solver|]. intros ->. apply Ha. by left.
    - exists a. split; [by left|done]. }
  apply elem_of_select in Hin as [Ho [k Hk]]. unfold owner_of in Ho.
  rewrite andb_true_iff, !bool_decide_eq_true in Ho. exists k, m2. naive_solver.
Qed.

Lemma mstep_owner c d d' o :
  mwf d -> mstep c d d' -> has_owner d o ->
  has_owner d' o \/ (organizations d' !! o = None /\ caller_role c d o "owner").
Proof.
  intros Hwf Hs (k0 & m0 & Hk0 & Ho0 & Hr0).
  destruct Hs as [d' E _|k m d' _ _ Hn Hid Hu E _|k m d' _ Hn Hid Hu E _|k m r d' _ Hk _ Hc E _
                 |u o' d' _ Hc E _|o' d' Hc E Eo].
  - left. exists k0, m0. by rewrite E.
  - left. exists k0, m0. rewrite E, lookup_insert_ne; [done|]. intros ->. by rewrite Hk0 in Hn.
  - left. exists k0, m0. rewrite E, lookup_insert_ne; [done|]. intros ->. by rewrite Hk0 in Hn.
  - left. destruct (decide (k0 = k)) as [->|Hne].
    + simplify_eq. destruct (decide (r = "owner")) as [->|Hr].
      * exists k, (set_role "owner" m). rewrite E, lookup_insert_eq. done.
      * destruct (another_owner d (m_OrgID m) m Hwf (Hc Hr0 Hr)) as (k2 & m2 & Hk2 & Ho2 & Hr2 & Hm2).
        exists k2, m2. rewrite E, lookup_insert_ne; [done|]. intros ->. congruence.
    + exists k0, m0. by rewrite E, lookup_insert_ne.
  - left. destruct (is_member (Some u) o' m0) eqn:Hm.
    + pose proof Hm as Hm'. apply is_member_true in Hm' as [Hmu Hmo].
      destruct (another_owner d o' m0 Hwf) as (k2 & m2 & Hk2 & Ho2 & Hr2 & Hm2); [apply Hc; by exists k0, m0|].
      exists k2, m2. rewrite E, delete_where_Some. split_and!; [done| |congruence|done].
      destruct (is_member (Some u) o' m2) eqn:Hm3; [|done]. apply is_member_true in Hm3 as [? ?].
      assert (k2 = k0) by (eapply (mwf_unique _ Hwf); eauto; congruence). congruence.
    + exists k0, m0. rewrite E, delete_where_Some. done.
  - destruct (decide (o' = o)) as [->|Hne].
    + right. rewrite Eo, lookup_delete_eq. done.
    + left. exists k0, m0. rewrite E, delete_where_Some. split_and!; try done.
      apply bool_decide_eq_false. congruence.
Qed.

(** A change to the members of an organization. *)
Lemma mstep_authorised c d d' k :
  mstep c d d' -> memberships d' !! k <> memberships d !! k ->
  exists o,
    (forall m, memberships d !! k = Some m -> m_OrgID m = o) /\
    (forall m, memberships d' !! k = Some m -> m_OrgID m = o) /\
    (manages c d o \/
     (memberships d !! k = None /\
      exists m, memberships d' !! k = Some m /\ Some (m_UserID m) = UserIDFromContext c /\ m_Role m = "owner")).
Proof.
  intros Hs Hne.
  destruct Hs as [d' E _|k' m d' Hu Hr Hn Hid _ E _|k' m d' Hm Hn Hid _ E _|k' m r d' Hm Hk _ _ E _
                 |u o' d' Hm Hc E _|o' d' Hm E _].
  - by rewrite E in Hne.
  - rewrite E in *. destruct (decide (k = k')) as [->|]; simplify_map_eq; try done.
    exists (m_OrgID m). rewrite Hn. split_and!; [naive_solver..|]. right. eauto.
  - rewrite E in *. destruct (decide (k = k')) as [->|]; simplify_map_eq; try done.
    exists (m_OrgID m). rewrite Hn. split_and!; [naive_solver..|]. by left.
  - rewrite E in *. destruct (decide (k = k')) as [->|]; simplify_map_eq; try done.
    exists (m_OrgID m). split_and!; [naive_solver..|]. by left.
  - exists o'. rewrite E in *. destruct (memberships d !! k) as [m|] eqn:Hk.
    + destruct (is_member (Some u) o' m) eqn:Hm'.
      * apply is_member_true in Hm' as [_ Ho]. split_and!; [naive_solver| |by left].
        intros m' Hm2. apply delete_where_Some in Hm2 as [? _]. naive_solver.
      * destruct Hne. by apply delete_where_Some.
    + destruct Hne. destruct (delete_where _ _ !! k) eqn:Hd; [|done].
      apply delete_where_Some in Hd as [? _]. congruence.
  - exists o'. rewrite E in *. destruct (memberships d !! k) as [m|] eqn:Hk.
    + destruct (bool_decide (m_OrgID m = o')) eqn:Hm'.
      * apply bool_decide_eq_true in Hm'. split_and!; [naive_solver| |left; by left].
        intros m' Hm2. apply delete_where_Some in Hm2 as [? _]. naive_solver.
      * destruct Hne. by apply delete_where_Some.
    + destruct Hne. destruct (delete_where _ _ !! k) eqn:Hd; [|done].
      apply delete_where_Some in Hd as [? _]. congruence.
Qed.

Lemma org_steps_mwf w w' :
  rtc (fun a b => exists c, org_step c a b) w w' -> mwf (w_db w) -> mwf (w_db w').
Proof.
  induction 1 as [|a b z [c Hs] _ IH]; intros Hwf; [done|]. apply IH.
  eapply mstep_mwf; [done|]. by eapply org_step_mstep.
Qed.

End Steps.
End OrgFacts.

(** * Properties *)

Module OrgProps.
Import JobStore AccountStore Scope OrgApi OrgFacts.

Section Props.
Context `{UUIDCodec} `{Validator} `{TimeCodec}.

(** C22: No organization loses its last owner: in every state the handlers can
    reach, whichever handler runs for whichever caller and whichever statements
    fail, an organization that has an owner keeps one, unless the organization
    itself was deleted, which only one of its owners can do. *)
Theorem organizations_keep_an_owner c w w1 w2 o :
  mwf (w_db w) -> rtc (fun a b => exists c, org_step c a b) w w1 -> org_step c w1 w2 ->
  has_owner (w_db w1) o ->
  has_owner (w_db w2) o \/ (organizations (w_db w2) !! o = None /\ caller_role c (w_db w1) o "owner").
Proof.
  intros Hwf Hr Hs Ho. pose proof (org_steps_mwf _ _ Hr Hwf) as Hwf1.
  eapply mstep_owner; [done| |done]. by eapply org_step_mstep.
Qed.


End Props.

(** ** Closed examples *)

#[local] Existing Instance example_codec.
#[local] Existing Instance example_validator.
#[local] Existing Instance RepoApiProps.example_time.

Definition ex_user (id : N) (email : string) : User := mkUser id email email email true None None 0 0.

Definition ex_member (id user : N) (role : string) : Membership := mkMembership id user 5 role None 0.

Definition ex_db (second : string) : DB :=
  set_organizations {[ 5%N := mkOrganization 5 "acme" "Acme" 0 "local_acme" ]}
    (set_users (list_to_map [(1%N, ex_user 1 "a@x"); (2%N, ex_user 2 "b@x"); (3%N, ex_user 3 "c@x")])
      (set_memberships (list_to_map [(10%N, ex_member 10 1 "owner"); (11%N, ex_member 11 2 second)]) empty_db)).

Definition ex_world (second : string) : World := mkWorld (ex_db second) None 100 [20; 21; 22]%N [] [] ∅ ∅.

Lemma ex_mwf second : mwf (w_db (ex_world second)).
Proof.
  split.
  - intros k m Hk. apply elem_of_list_to_map_2 in Hk. set_solver.
  - intros k1 k2 m1 m2 H1 H2. apply elem_of_list_to_map_2 in H1, H2. set_solver.
Qed.

Definition as_user (u : N) : Ctx := mkCtx (Some u) None.

Lemma organizations_keep_an_owner_witness :
  has_owner (w_db (RemoveMember (as_user 2) "5" "1" (ex_world "admin")).2) 5%N \/
  (organizations (w_db (RemoveMember (as_user 2) "5" "1" (ex_world "admin")).2) !! 5%N = None /\
   caller_role (as_user 2) (w_db (ex_world "admin")) 5%N "owner").
Proof.
  apply (organizations_keep_an_owner (as_user 2) (ex_world "admin") (ex_world "admin")).
  - apply ex_mwf.
  - apply rtc_refl.
  - eapply (os_remove _ "5" "1"), surjective_pairing.
  - exists 10%N, (ex_member 10 1 "owner"). split; [vm_compute; reflexivity|]. split; reflexivity.
Defined.

Definition ex_invited : World :=
  (InviteMember (as_user 1) "5" (Some (mkInviteRequest "c@x" "")) (ex_world "admin")).2.


(** ** Where the code falls short of its comments *)

(** An admin cannot make a member an owner through a role change, but can
    invite a user directly as owner. *)
Example admin_invites_an_owner :
  option_map m_Role (memberships (w_db
    (InviteMember (as_user 2) "5" (Some (mkInviteRequest "c@x" "owner")) (ex_world "admin")).2) !! 20%N) = Some "owner".
Proof. vm_compute. reflexivity. Qed.

(** With two owners, an admin can remove one of them. *)
Example admin_removes_an_owner :
  let w := set_db (set_memberships (<[12%N := ex_member 12 3 "admin"]> (memberships (ex_db "owner"))) (ex_db "owner"))
             (ex_world "owner") in
  memberships (w_db (RemoveMember (as_user 3) "5" "1" w).2) !! 10%N = None.
Proof. vm_compute. reflexivity. Qed.

(** The guard counts before the deletion, in separate statements: two removals
    whose counts both run first leave the organization without an owner. *)
Example concurrent_removals_lose_the_last_owner :
  let w := ex_world "owner" in
  (last_owner_guard (A := unit) 5%N w).1 = None /\
  let w1 := (exec (DeleteMembership (Some 1%N) 5%N) w).2 in
  let w2 := (exec (DeleteMembership (Some 2%N) 5%N) w1).2 in
  CountOwnersByOrg 5%N (w_db w2) = Ok 0.
Proof. vm_compute. split; reflexivity. Qed.

(** Creating an organization under the slug of an existing local one makes the
    caller an owner of that organization. *)
Example create_org_joins_existing :
  option_map (fun m => (m_OrgID m, m_Role m)) (memberships (w_db
    (CreateOrg (as_user 3) (Some (mkOrgRequest "Mine" "acme")) (ex_world "admin")).2) !! 21%N) = Some (5%N, "owner").
Proof. vm_compute. reflexivity. Qed.

(** The audit entry of a creation names both a user and an organization, which
    the table's CHECK refuses: it is never written. *)
Example create_org_is_not_audited :
  audit_log (w_db (CreateOrg (as_user 3) (Some (mkOrgRequest "Mine" "mine")) (ex_world "admin")).2) = ∅.
Proof. vm_compute. reflexivity. Qed.

End OrgProps.
