(* ===== verification/Services.v ===== *)
(** Services behind the handlers: encryption of provider keys
    ([services/api/internal/service/encryption/encryption.go]), the assembly of
    a context document ([service/assembly/assembly.go]), its cache
    ([internal/cache/contextcache/contextcache.go]) and the snapshot bucket
    ([services/shared/go/storage/gcs.go]). *)

From S2P Require Import Prelude GoStr Store.

(** * Definitions *)

(** ** Byte strings: [s[:n]] and [s[n:]] for [n] within the length *)
Fixpoint str_take (n : nat) (s : string) : string :=
  match n, s with
  | S n, String c s => String c (str_take n s)
  | _, _ => ""
  end.

Fixpoint str_drop (n : nat) (s : string) : string :=
  match n, s with
  | S n, String _ s => str_drop n s
  | _, s => s
  end.

(** ** [encryption.go] *)
Module Encryption.

(** AES-256-GCM of the standard library: [Seal] and [Open] under a key and a
    nonce, with the documented law that opening a sealed text gives it back. *)
Class AEAD := {
  NonceSize : nat;
  NonceSize_pos : (0 < NonceSize)%nat;
  Seal : string -> string -> string -> string;
  Open : string -> string -> string -> option string;
  Open_Seal : forall k n p, String.length n = NonceSize -> Open k n (Seal k n p) = Some p
}.

Definition KeyByteSize : Z := 32.

Inductive EncError : Set :=
| ErrKeySize (n : Z)
| ErrNonce
| ErrTooShort
| ErrDecrypt.

Section Service.
Context `{AEAD}.

Record Service := mkService { svc_key : string }.

Definition New (key : string) : result EncError Service :=
  if decide (len key <> KeyByteSize) then Err (ErrKeySize (len key)) else Ok (mkService key).

(** [Encrypt]: [nonce] is what [io.ReadFull(rand.Reader, nonce)] read, [None]
    when it failed. *)
Definition Encrypt (s : Service) (nonce : option string) (plaintext : string) : result EncError string :=
  match nonce with
  | None => Err ErrNonce
  | Some nonce => Ok (nonce +:+ Seal (svc_key s) nonce plaintext)
  end.

Definition Decrypt (s : Service) (data : string) : result EncError string :=
  if len data <? Z.of_nat NonceSize then Err ErrTooShort
  else match Open (svc_key s) (str_take NonceSize data) (str_drop NonceSize data) with
       | None => Err ErrDecrypt
       | Some plain => Ok plain
       end.

End Service.
End Encryption.

(** ** [assembly.go] *)
Module Assembly.

Record FileEntry := mkFileEntry {
  Path : string;
  Language : string;
  Lines : Z;
  SHA : string
}.

Definition newline : string := String (Ascii.ascii_of_nat 10) "".

Definition short_sha (commitSha : string) : string :=
  if 8 <? len commitSha then str_take 8 commitSha else commitSha.

Definition header (repoFullName commitSha : string) : string :=
  "# Codebase Snapshot — " +:+ repoFullName +:+ " @ " +:+ short_sha commitSha +:+ newline +:+ newline.

Definition section (f : FileEntry) (content : string) : string :=
  let lang := if decide (Language f = "") then "text" else Language f in
  "## " +:+ Path f +:+ newline +:+ newline +:+ "```" +:+ lang +:+ newline +:+ content +:+ newline
  +:+ "```" +:+ newline +:+ newline.

(** A writer: whether the next writes succeed (an empty schedule: all do), and
    what was written. *)
Record Writer := mkWriter {
  wr_fails : list bool;
  wr_out : string
}.

Definition write (s : string) (w : Writer) : result string unit * Writer :=
  match wr_fails w with
  | true :: f => (Err "write failed", mkWriter f (wr_out w))
  | false :: f => (Ok tt, mkWriter f (wr_out w +:+ s))
  | [] => (Ok tt, mkWriter [] (wr_out w +:+ s))
  end.

Fixpoint assemble_files (fetch : string -> option string) (files : list FileEntry) : M Writer (result string unit) :=
  match files with
  | [] => ret (Ok tt)
  | f :: files =>
      match fetch (SHA f) with
      | None => ret (Err ("fetch " +:+ Path f))
      | Some content =>
          try _ <- write (section f content) catch e => ret (Err e) ;;
          assemble_files fetch files
      end
  end.

Definition Assemble (fetch : string -> option string) (repoFullName commitSha : string) (files : list FileEntry) :
    M Writer (result string unit) :=
  try _ <- write (header repoFullName commitSha) catch e => ret (Err e) ;;
  assemble_files fetch files.

(** The document the assembly is meant to write. *)
Definition document (fetch : string -> option string) (repoFullName commitSha : string) (files : list FileEntry) :
    option string :=
  foldl (fun acc f => a ← acc; c ← fetch (SHA f); Some (a +:+ section f c)) (Some (header repoFullName commitSha)) files.

End Assembly.

(** ** [contextcache.go] *)
Module ContextCache.

Definition ttl : Z := 600000000.  (* 10 minutes in microseconds *)

Definition Key (repoID commitSha : string) : string := "ctx:" +:+ repoID +:+ ":" +:+ commitSha.

Definition cache_live (now : Z) (e : string * Z) : option string := if now <? e.2 then Some e.1 else None.

(** [RedisCache.Get]: the value and whether there is one, or the error. *)
Definition Get (key : string) : M World (result string (option string)) :=
  b <- next_fault ;;
  if (b : bool) then ret (Err "redis")
  else gets (fun w => Ok (w_cache w !! key ≫= cache_live (w_now w))).

Definition Set_ (key value : string) : M World (result string unit) :=
  b <- next_fault ;;
  if (b : bool) then ret (Err "redis")
  else fun w => (Ok tt, set_cache (<[key := (value, w_now w + ttl)]> (w_cache w)) w).

End ContextCache.

(** ** [gcs.go] *)
Module Storage.

Inductive StorageError : Set :=
| ErrObjectNotFound
| ErrBucket.

Definition SnapshotPath (orgID repoID commitSHA : string) : string :=
  orgID +:+ "/" +:+ repoID +:+ "/" +:+ commitSHA +:+ "/snapshot.json".

(** A failure is one of the bucket, or an open circuit breaker. *)
Definition Upload (path data : string) : M World (result StorageError unit) :=
  b <- next_fault ;;
  if (b : bool) then ret (Err ErrBucket)
  else fun w => (Ok tt, set_objects (<[path := data]> (w_objects w)) w).

Definition Download (path : string) : M World (result StorageError string) :=
  b <- next_fault ;;
  if (b : bool) then ret (Err ErrBucket)
  else gets (fun w => result_of_option ErrObjectNotFound (w_objects w !! path)).

End Storage.

(** * Lemmas *)

Lemma str_take_app a b : str_take (String.length a) (a +:+ b) = a.
Proof. induction a as [|c a IH]; cbn; [by destruct b|]. by rewrite string_cons_app; cbn; rewrite IH. Qed.

Lemma str_drop_app a b : str_drop (String.length a) (a +:+ b) = b.
Proof. induction a as [|c a IH]; cbn; [by destruct b|]. by rewrite string_cons_app; cbn; rewrite IH. Qed.

Lemma str_take_drop n s : str_take n s +:+ str_drop n s = s.
Proof.
  revert s. induction n as [|n IH]; intros [|c s]; cbn; try done. by rewrite string_cons_app, IH.
Qed.

(** The effect of a file loop: the sections fetched so far are written, in
    order, whatever stops the loop. *)
Lemma assemble_files_spec fetch files : forall w,
  Assembly.wr_fails w = [] ->
  match foldl (fun acc f => a ← acc; c ← fetch (Assembly.SHA f); Some (a +:+ Assembly.section f c))
          (Some (Assembly.wr_out w)) files with
  | Some doc => Assembly.assemble_files fetch files w = (Ok tt, Assembly.mkWriter [] doc)
  | None => exists done f rest out, files = done ++ f :: rest /\ fetch (Assembly.SHA f) = None /\
      foldl (fun acc f => a ← acc; c ← fetch (Assembly.SHA f); Some (a +:+ Assembly.section f c))
          (Some (Assembly.wr_out w)) done = Some out /\
      Assembly.assemble_files fetch files w = (Err ("fetch " +:+ Assembly.Path f), Assembly.mkWriter [] out)
  end.
Proof.
  induction files as [|f files IH]; intros w Hw; cbn [foldl Assembly.assemble_files].
  - unfold ret. destruct w; cbn in *. by subst.
  - cbn [mbind option_bind]. destruct (fetch (Assembly.SHA f)) as [c|] eqn:Hf; cbn [mbind option_bind].
    + assert (Assembly.write (Assembly.section f c) w
              = (Ok tt, Assembly.mkWriter [] (Assembly.wr_out w +:+ Assembly.section f c))) as Hwr
        by (unfold Assembly.write; by rewrite Hw).
      unfold bind. rewrite Hwr.
      specialize (IH (Assembly.mkWriter [] (Assembly.wr_out w +:+ Assembly.section f c)) eq_refl). cbn in IH.
      destruct (foldl _ _ files); [exact IH|].
      destruct IH as (dn & f' & rest & out & -> & Hn & Ho & Hr).
      exists (f :: dn), f', rest, out. cbn. rewrite Hf. done.
    + assert (foldl (fun acc f => a ← acc; c ← fetch (Assembly.SHA f); Some (a +:+ Assembly.section f c)) None files = None) as ->.
      { clear. induction files as [|f files IH]; [done|]. exact IH. }
      exists [], f, files, (Assembly.wr_out w). split_and!; try done.
      unfold ret. destruct w; cbn in *. by subst.
Qed.

(** Decryption undoes encryption under any nonce of the cipher's size. *)
Lemma Decrypt_Encrypt `{Encryption.AEAD} s nonce plain c :
  String.length nonce = Encryption.NonceSize ->
  Encryption.Encrypt s (Some nonce) plain = Ok c -> Encryption.Decrypt s c = Ok plain.
Proof.
  intros Hn Hc. injection Hc as <-. unfold Encryption.Decrypt. rewrite (proj2 (Z.ltb_ge _ _)).
  - rewrite <-Hn at 1 2. rewrite str_take_app, str_drop_app. cbn. by rewrite Encryption.Open_Seal.
  - unfold len. rewrite length_string_app. lia.
Qed.

(** * Properties *)

Module ServiceProps.

(** C24: Encryption round trip: a service made from a 32-byte key decrypts what
    it encrypted, for every plaintext and every full nonce; a text shorter than
    a nonce is refused, and so is every key of another length. *)
Theorem encryption_roundtrip `{Encryption.AEAD} key nonce plain :
  len key = Encryption.KeyByteSize -> String.length nonce = Encryption.NonceSize ->
  exists s c, Encryption.New key = Ok s /\ Encryption.Encrypt s (Some nonce) plain = Ok c /\
    Encryption.Decrypt s c = Ok plain /\ str_take Encryption.NonceSize c = nonce /\
    (forall data, len data < Z.of_nat Encryption.NonceSize -> Encryption.Decrypt s data = Err Encryption.ErrTooShort) /\
    (forall key', len key' <> Encryption.KeyByteSize ->
       Encryption.New key' = Err (Encryption.ErrKeySize (len key'))).
Proof.
  intros Hk Hn. exists (Encryption.mkService key), (nonce +:+ Encryption.Seal key nonce plain).
  split_and!; try done.
  - unfold Encryption.New. rewrite decide_False; [done|]. by intros [].
  - by eapply Decrypt_Encrypt.
  - rewrite <-Hn. apply str_take_app.
  - intros data Hd. unfold Encryption.Decrypt. by rewrite (proj2 (Z.ltb_lt _ _)) by done.
  - intros key' Hk'. unfold Encryption.New. by rewrite decide_True.
Qed.

(** A toy cipher that satisfies the law. *)
Definition example_aead : Encryption.AEAD := {|
  Encryption.NonceSize := 2;
  Encryption.NonceSize_pos := ltac:(lia);
  Encryption.Seal k n p := p;
  Encryption.Open k n c := Some c;
  Encryption.Open_Seal k n p _ := eq_refl
|}.

#[local] Existing Instance example_aead.

Lemma encryption_roundtrip_witness :
  exists s c, Encryption.New "0123456789abcdef0123456789abcdef" = Ok s /\
    Encryption.Encrypt s (Some "nn") "secret" = Ok c /\ Encryption.Decrypt s c = Ok "secret".
Proof.
  destruct (encryption_roundtrip "0123456789abcdef0123456789abcdef" "nn" "secret") as (s & c & H1 & H2 & H3 & _);
    [vm_compute; reflexivity|reflexivity|].
  exists s, c. split; [exact H1|]. split; [exact H2|exact H3].
Defined.

(** C25: Assembly: on a writer that does not fail, the document is complete (the
    header and one section per file, in the order of the tree) exactly when
    every blob can be fetched; otherwise the error names the first file that
    cannot, and the sections before it, and nothing else, have been written. *)
Theorem assemble_writes_the_document fetch repo sha files :
  let run := Assembly.Assemble fetch repo sha files (Assembly.mkWriter [] "") in
  match Assembly.document fetch repo sha files with
  | Some doc => run = (Ok tt, Assembly.mkWriter [] doc)
  | None => exists done f rest out, files = done ++ f :: rest /\ fetch (Assembly.SHA f) = None /\
      Assembly.document fetch repo sha done = Some out /\
      run = (Err ("fetch " +:+ Assembly.Path f), Assembly.mkWriter [] out)
  end.
Proof.
  intros run.
  pose proof (assemble_files_spec fetch files (Assembly.mkWriter [] (Assembly.header repo sha)) eq_refl) as Hs.
  assert (run = Assembly.assemble_files fetch files (Assembly.mkWriter [] (Assembly.header repo sha))) as -> by done.
  exact Hs.
Qed.

End ServiceProps.
