(* ===== verification/ContextApi.v ===== *)
(** Context tokens and what they open: [services/api/internal/handler]
    ([contexttokens/handler.go], [contexttokens/token.go],
    [contexturl/context.go], [contexturl/token.go], [upload/upload.go],
    [query/query.go]).

    A goroutine a handler starts ([last_used_at], the cache fill) runs here at
    the point where it is started; it can fail without being noticed. *)

From S2P Require Import Prelude GoStr Sha256 JobToken Store JobStore AccountStore ContextStore HttpUtil Scope RepoApi Services.

(** * Definitions *)

Module ContextTokens.
Import JobStore AccountStore ContextStore Scope Ownership CliToken.

Definition ErrInvalidBody : string := "invalid request body".
Definition ErrInternal : string := "internal error".
Definition errRepoNotFound : string := "repository not found".
Definition errInvalidExpiry : string := "expires_at must be a valid RFC3339 timestamp".
Definition errInvalidID : string := "cannot parse UUID".

(** [generateToken]: [encoded] is the base64 text of the random bytes, [None]
    when the generator fails. *)
Definition generateToken (encoded : option string) : option string := (fun e => "zf_ctx_" +:+ e) <$> encoded.

Definition visibility_of_text (s : string) : option ContextVisibility :=
  if decide (s = "public") then Some ContextVisibilityPublic
  else if decide (s = "private") then Some ContextVisibilityPrivate
  else if decide (s = "protected") then Some ContextVisibilityProtected
  else None.

Record createTokenRequest := mkCreateTokenRequest {
  ctr_Label : string;
  ctr_ExpiresAt : option string;
  ctr_Visibility : string;
  ctr_AllowedUsers : list string
}.

Record createTokenResponse := mkCreateTokenResponse {
  cts_ID : string;
  cts_RawToken : string;
  cts_Label : string;
  cts_Visibility : ContextVisibility;
  cts_CreatedAt : Z;
  cts_ExpiresAt : option Z
}.

Section Handlers.
Context `{UUIDCodec} `{Validator} `{TimeCodec}.

Definition validate_createToken (b : createTokenRequest) : list FieldError :=
  check_field "Visibility" [("oneof", "public private protected",
    bool_decide (ctr_Visibility b = "") || tag_oneof ["public"; "private"; "protected"] (ctr_Visibility b))].

Definition List_ (c : Ctx) (repoParam : string) : M World (Resp (list (ContextToken * Z))) :=
  match uuid_scan repoParam with
  | None => ret (Fail StatusBadRequest errInvalidID)
  | Some repoID =>
      try _ <- VerifyRepoOwnership repoID (OrgIDFromContext c)
        catch e => ret (Fail StatusNotFound errRepoNotFound) ;;
      try tokens <- query (ListContextTokensByRepo repoID)
        catch e => ret (Fail StatusInternalServerError ErrInternal) ;;
      ret (Reply StatusOK tokens)
  end.

(** The loops over user ids: an id that does not parse is skipped, a failing
    insertion is ignored. *)
Definition allow_users (token : uuid) (uids : list string) : M World unit :=
  for_range uids (fun uid =>
    match UUIDFromString uid with
    | None => ret tt
    | Some userID => _ <- insert_stmt (InsertContextTokenAllowedUser token userID) ;; ret tt
    end).

(** From the parsed expiry on. *)
Definition Create_insert (c : Ctx) (repoID : uuid) (b : createTokenRequest) (visibility : ContextVisibility)
    (raw : string) (expiresAt : option Z) : M World (Resp createTokenResponse) :=
  try tok <- insert_stmt (InsertContextToken (mkInsertContextTokenParams repoID None (OrgIDFromContext c) None
               (SHA256Hash raw) (NULLIF_empty (ctr_Label b)) expiresAt visibility))
    catch e => ret (Fail StatusInternalServerError ErrInternal) ;;
  do (if bool_decide (visibility = ContextVisibilityProtected) && (0 <? Z.of_nat (length (ctr_AllowedUsers b)))
      then allow_users (ct_ID tok) (ctr_AllowedUsers b) else ret tt) ;;
  ret (Reply StatusCreated (mkCreateTokenResponse (uuid_text (ct_ID tok)) raw (default "" (ct_Label tok))
                              (ct_Visibility tok) (ct_CreatedAt tok) (ct_ExpiresAt tok))).

(** [Create]; [rand] is the encoded random text. *)
Definition Create (c : Ctx) (rand : option string) (repoParam : string) (body : option createTokenRequest) :
    M World (Resp createTokenResponse) :=
  match uuid_scan repoParam with
  | None => ret (Fail StatusBadRequest errInvalidID)
  | Some repoID =>
      try _ <- VerifyRepoOwnership repoID (OrgIDFromContext c)
        catch e => ret (Fail StatusNotFound errRepoNotFound) ;;
      match body with
      | None => ret (Fail StatusBadRequest ErrInvalidBody)
      | Some b =>
          match Struct (validate_createToken b) with
          | Err msg => ret (Fail StatusBadRequest msg)
          | Ok _ =>
              let visibility := if decide (ctr_Visibility b = "") then Some ContextVisibilityPublic
                                else visibility_of_text (ctr_Visibility b) in
              match generateToken rand with
              | None => ret (Fail StatusInternalServerError ErrInternal)
              | Some raw =>
                  match ctr_ExpiresAt b with
                  | Some text =>
                      match time_parse text with
                      | None => ret (Fail StatusBadRequest errInvalidExpiry)
                      | Some t =>
                          match visibility with
                          | Some v => Create_insert c repoID b v raw (Some t)
                          | None => ret (Fail StatusInternalServerError ErrInternal)  (* refused by the enum type *)
                          end
                      end
                  | None =>
                      match visibility with
                      | Some v => Create_insert c repoID b v raw None
                      | None => ret (Fail StatusInternalServerError ErrInternal)
                      end
                  end
              end
          end
      end
  end.

(** [UpdateAllowedUsers]: the list may be absent ([nil]) or empty, which the
    tags [required] and [min=1] tell apart. *)
Definition UpdateAllowedUsers (c : Ctx) (tokenParam : string) (body : option (option (list string))) : M World (Resp unit) :=
  match uuid_scan tokenParam with
  | None => ret (Fail StatusBadRequest errInvalidID)
  | Some tokenID =>
      match body with
      | None => ret (Fail StatusBadRequest ErrInvalidBody)
      | Some None => ret (Fail StatusBadRequest (formatErrors [mkFieldError "UserIDs" "required" ""]))
      | Some (Some []) => ret (Fail StatusBadRequest (formatErrors [mkFieldError "UserIDs" "min" "1"]))
      | Some (Some uids) =>
          try _ <- exec (ReplaceContextTokenAllowedUsers tokenID)
            catch e => ret (Fail StatusInternalServerError ErrInternal) ;;
          do allow_users tokenID uids ;;
          ret (Reply StatusNoContent tt)
      end
  end.

Definition ListAllowedUsers (tokenParam : string) : M World (Resp (list (ContextTokenAllowedUser * User))) :=
  match uuid_scan tokenParam with
  | None => ret (Fail StatusBadRequest errInvalidID)
  | Some tokenID =>
      try users <- query (ListContextTokenAllowedUsers tokenID)
        catch e => ret (Fail StatusInternalServerError ErrInternal) ;;
      ret (Reply StatusOK users)
  end.

Definition Delete (c : Ctx) (tokenParam : string) : M World (Resp unit) :=
  match uuid_scan tokenParam with
  | None => ret (Fail StatusBadRequest errInvalidID)
  | Some tokenID =>
      try _ <- exec (DeleteContextTokenForOrg tokenID (OrgIDFromContext c))
        catch e => ret (Fail StatusInternalServerError ErrInternal) ;;
      ret (Reply StatusNoContent tt)
  end.

End Handlers.
End ContextTokens.

(** ** [contexturl/context.go] *)
Module ContextURL.
Import JobStore AccountStore ContextStore CliToken.

Definition ErrInternal : string := "internal error".
Definition errNotFound : string := "context token not found".
Definition errExpired : string := "context token has expired".
Definition errSnapshotNotFound : string := "no snapshot available for this token".
Definition errSnapshotOutdated : string := "snapshot outdated: re-run zigzag --upload to generate a v2 snapshot".
Definition errAuthRequired : string := "authentication required for this context token".
Definition errForbidden : string := "you do not have access to this context token".

Inductive AccessError : Set :=
| AuthRequired
| Forbidden.

Section Handlers.
Context `{UUIDCodec}.

(** The JWT library with the configured key and issuer; the decoder of the
    file tree of a stored snapshot; [GetBlob] of the GitHub client. *)
Context (ParseWithClaims : string -> option Claims).
Context (decode_tree : string -> option (list Assembly.FileEntry)).
Context (GetBlob : Z -> string -> string -> option string).

Definition extractClaims (authorization : string) : option Claims :=
  match cut_bearer authorization with
  | None => None
  | Some raw => if decide (raw = "") then None else ParseWithClaims raw
  end.

Definition checkVisibility (authorization : string) (tok : ContextToken) : M World (result AccessError unit) :=
  if decide (ct_Visibility tok = ContextVisibilityPublic) then ret (Ok tt)
  else
    match extractClaims authorization with
    | None => ret (Err AuthRequired)
    | Some claims =>
        match SubjectUUID claims with
        | None => ret (Err Forbidden)
        | Some userID =>
            match ct_Visibility tok with
            | ContextVisibilityPrivate =>
                if decide (ct_UserID tok = Some userID) then ret (Ok tt)
                else
                  match ct_OrgID tok with
                  | Some org =>
                      r <- query (GetMembership (Some userID) org) ;;
                      ret (if is_ok r then Ok tt else Err Forbidden)
                  | None => ret (Err Forbidden)
                  end
            | ContextVisibilityProtected =>
                r <- query (IsUserAllowedForToken (ct_ID tok) (Some userID)) ;;
                ret (match r with Ok true => Ok tt | _ => Err Forbidden end)
            | ContextVisibilityPublic => ret (Err Forbidden)
            end
        end
    end.

(** [tok.ExpiresAt.Valid && tok.ExpiresAt.Time.Before(time.Now())] *)
Definition expired (now : Z) (tok : ContextToken) : bool :=
  match ct_ExpiresAt tok with Some e => e <? now | None => false end.

Definition tokenHash (raw : string) : string := SHA256Hash raw.

(** [Head]: the two headers of a 200. *)
Definition Head (raw authorization : string) : M World (Resp (string * string)) :=
  try tok <- query (GetContextTokenByHash (tokenHash raw)) catch e => ret (Fail StatusNotFound "") ;;
  now <- gets w_now ;;
  if expired now tok then ret (Fail StatusGone "")
  else
    v <- checkVisibility authorization tok ;;
    match v with
    | Err AuthRequired => ret (Fail StatusUnauthorized "")
    | Err Forbidden => ret (Fail StatusForbidden "")
    | Ok _ =>
        match ct_TargetSnapshotID tok with
        | None => ret (Fail StatusNotFound "")
        | Some target =>
            try snap <- query (GetSnapshotByID target) catch e => ret (Fail StatusNotFound "") ;;
            ret (Reply StatusOK (uuid_text target, s_CommitSha snap))
        end
    end.

(** [Get] once access is granted: resolve the snapshot. *)
Definition resolve (tok : ContextToken) : M World (result (Resp string) Snapshot) :=
  match ct_TargetSnapshotID tok with
  | Some target =>
      r <- query (GetSnapshotByID target) ;;
      ret (match r with Ok s => Ok s | Err _ => Err (Fail StatusNotFound errSnapshotNotFound) end)
  | None =>
      try repo <- query (GetRepoByID (ct_RepoID tok))
        catch e => ret (Err (Fail StatusInternalServerError ErrInternal)) ;;
      r <- query (GetLatestSnapshot (ct_RepoID tok) (r_DefaultBranch repo)) ;;
      ret (match r with Ok s => Ok s | Err _ => Err (Fail StatusNotFound errSnapshotNotFound) end)
  end.

(** A cache miss: load the tree, assemble into the response and a buffer, and
    fill the cache.  When a blob is missing the part written so far has already
    been sent with status 200. *)
Definition serve_assembled (tok : ContextToken) (snap : Snapshot) (cacheKey : string) : M World (Resp string) :=
  try metaBytes <- Storage.Download (s_GcsPath snap)
    catch e => ret (Fail StatusInternalServerError ErrInternal) ;;
  match decode_tree metaBytes with
  | None => ret (Fail StatusInternalServerError ErrInternal)
  | Some tree =>
      try repo <- query (GetRepoByID (ct_RepoID tok))
        catch e => ret (Fail StatusInternalServerError ErrInternal) ;;
      let fetch := GetBlob (r_InstallationID repo) (r_FullName repo) in
      let '(res, out) := Assembly.Assemble fetch (r_FullName repo) (s_CommitSha snap) tree (Assembly.mkWriter [] "") in
      match res with
      | Err _ => ret (Reply StatusOK (Assembly.wr_out out))
      | Ok _ =>
          _ <- ContextCache.Set_ cacheKey (Assembly.wr_out out) ;;
          ret (Reply StatusOK (Assembly.wr_out out))
      end
  end.

Definition serve (tok : ContextToken) : M World (Resp string) :=
  _ <- exec (UpdateContextTokenLastUsed (ct_ID tok)) ;;
  r <- resolve tok ;;
  match r with
  | Err resp => ret resp
  | Ok snap =>
      if s_SnapshotVersion snap <? 2 then ret (Fail StatusUnprocessableEntity errSnapshotOutdated)
      else
        let cacheKey := ContextCache.Key (uuid_text (ct_RepoID tok)) (s_CommitSha snap) in
        hit <- ContextCache.Get cacheKey ;;
        match hit with
        | Ok (Some cached) => ret (Reply StatusOK cached)
        | _ => serve_assembled tok snap cacheKey
        end
  end.

Definition Get (raw authorization : string) : M World (Resp string) :=
  try tok <- query (GetContextTokenByHash (tokenHash raw)) catch e => ret (Fail StatusNotFound errNotFound) ;;
  now <- gets w_now ;;
  if expired now tok then ret (Fail StatusGone errExpired)
  else
    v <- checkVisibility authorization tok ;;
    match v with
    | Err AuthRequired => ret (Fail StatusUnauthorized errAuthRequired)
    | Err Forbidden => ret (Fail StatusForbidden errForbidden)
    | Ok _ => serve tok
    end.

End Handlers.
End ContextURL.

(** ** [upload/upload.go] *)
Module Upload.
Import JobStore AccountStore CliToken.

Definition ErrInternal : string := "internal error".
Definition errBadJSON : string := "invalid JSON".
Definition errSnapshotVersion : string := "metadata_snapshot.snapshot_version must be 2".
Definition errOrgNotFound : string := "organization not found".
Definition errOrgMismatch : string := "CLI key is not authorized for this organization".
Definition errRepoNotConnected : string := "repository not connected; install the Zagforge GitHub App first".

Record snapshotMetadata := mkSnapshotMetadata {
  sm_SnapshotVersion : Z;
  sm_ZigzagVersion : string;
  sm_CommitSha : string;
  sm_Branch : string;
  sm_Summary : option string;  (* the raw JSON of [any] *)
  sm_FileTree : option (list Assembly.FileEntry)  (* None: nil *)
}.

Record uploadRequest := mkUploadRequest {
  up_OrgSlug : string;
  up_RepoFullName : string;
  up_CommitSha : string;
  up_Branch : string;
  up_MetadataSnapshot : snapshotMetadata
}.

Section Handler.
Context `{UUIDCodec} `{Validator}.

(** [json.Marshal] of the metadata. *)
Context (marshal : snapshotMetadata -> option string).

Definition validate_metadata (m : snapshotMetadata) : list FieldError :=
  check_field "SnapshotVersion" [("required", "", negb (sm_SnapshotVersion m =? 0));
                                 ("gte", "2", tag_gte 2 (sm_SnapshotVersion m))] ++
  check_field "ZigzagVersion" [("required", "", tag_required (sm_ZigzagVersion m))] ++
  check_field "CommitSha" [("required", "", tag_required (sm_CommitSha m))] ++
  check_field "Branch" [("required", "", tag_required (sm_Branch m))] ++
  let tree := default [] (sm_FileTree m) in
  let n := Z.of_nat (length tree) in
  check_field "FileTree" [("required", "", bool_decide (is_Some (sm_FileTree m)));
                          ("min", "1", 1 <=? n); ("max", "10000", n <=? 10000)] ++
  (if (1 <=? n) && (n <=? 10000)
   then tree ≫= fun f =>
     check_field "Path" [("required", "", tag_required (Assembly.Path f))] ++
     check_field "SHA" [("required", "", tag_required (Assembly.SHA f))]
   else []).

(** The zero value, which [required] on a struct refuses before its fields. *)
Definition metadata_zero (m : snapshotMetadata) : bool :=
  (sm_SnapshotVersion m =? 0) && bool_decide (sm_ZigzagVersion m = "") && bool_decide (sm_CommitSha m = "")
  && bool_decide (sm_Branch m = "") && bool_decide (sm_Summary m = None) && negb (bool_decide (is_Some (sm_FileTree m))).

Definition validate_uploadRequest (r : uploadRequest) : list FieldError :=
  check_field "OrgSlug" [("required", "", tag_required (up_OrgSlug r))] ++
  check_field "RepoFullName" [("required", "", tag_required (up_RepoFullName r))] ++
  check_field "CommitSha" [("required", "", tag_required (up_CommitSha r));
                           ("min", "7", tag_min 7 (up_CommitSha r)); ("max", "40", tag_max 40 (up_CommitSha r))] ++
  check_field "Branch" [("required", "", tag_required (up_Branch r))] ++
  (if metadata_zero (up_MetadataSnapshot r) then [mkFieldError "MetadataSnapshot" "required" ""]
   else validate_metadata (up_MetadataSnapshot r)).

(** [Upload]: [cliOrg] is what the CLI key middleware resolved. *)
Definition Upload (cliOrg : option uuid) (body : option uploadRequest) : M World (Resp (string * Z)) :=
  match body with
  | None => ret (Fail StatusBadRequest errBadJSON)
  | Some req =>
      match Struct (validate_uploadRequest req) with
      | Err msg => ret (Fail StatusBadRequest msg)
      | Ok _ =>
          if decide (sm_SnapshotVersion (up_MetadataSnapshot req) <> 2)
          then ret (Fail StatusBadRequest errSnapshotVersion)
          else
            try org <- query (GetOrganizationBySlug (up_OrgSlug req))
              catch e => ret (Fail StatusNotFound errOrgNotFound) ;;
            if HasOrgScope cliOrg && negb (bool_decide (cliOrg = Some (o_ID org)))
            then ret (Fail StatusForbidden errOrgMismatch)
            else
              try repo <- query (GetRepoByFullNameAndOrg (up_RepoFullName req) (Some (o_ID org)))
                catch e => ret (Fail StatusNotFound errRepoNotConnected) ;;
              match marshal (up_MetadataSnapshot req) with
              | None => ret (Fail StatusInternalServerError ErrInternal)
              | Some metaJSON =>
                  let gcsPath := uuid_text (o_ID org) +:+ "/" +:+ uuid_text (r_ID repo) +:+ "/"
                                 +:+ up_CommitSha req +:+ "/snapshot.json" in
                  try _ <- Storage.Upload gcsPath metaJSON
                    catch e => ret (Fail StatusInternalServerError ErrInternal) ;;
                  try snap <- insert_stmt (InsertCLISnapshot (mkInsertCLISnapshotParams (r_ID repo) (up_Branch req)
                                (up_CommitSha req) gcsPath 2 (sm_ZigzagVersion (up_MetadataSnapshot req))
                                (len metaJSON) (Some metaJSON)))
                    catch e => ret (Fail StatusInternalServerError ErrInternal) ;;
                  ret (Reply StatusCreated (uuid_text (s_ID snap), s_CreatedAt snap))
              end
      end
  end.

End Handler.
End Upload.

(** ** [query/query.go] *)
Module Query.
Import JobStore ContextStore Scope.

Definition errInvalidBody : string := "invalid request body".
Definition errRepoNotFound : string := "repository not found".
Definition errNoAIKey : string := "no AI provider key configured — add one in Settings".
Definition errSnapshotNotFound : string := "no snapshot available".
Definition errSnapshotOutdated : string := "snapshot outdated: re-run zigzag --upload to generate a v2 snapshot".
Definition errInternal : string := "internal error".
Definition errInvalidID : string := "cannot parse UUID".

Definition SystemPrompt : string :=
  "You are an expert on this codebase. Refer to files by their full path. Answer concisely and precisely. If unsure, say so.".

Definition ProviderOrder : list string := ["anthropic"; "openai"; "google"; "xai"].

Record queryRequest := mkQueryRequest {
  qr_Question : string;
  qr_SnapshotID : option string
}.

Section Handler.
Context `{UUIDCodec} `{Validator} `{Encryption.AEAD}.
Context (enc : Encryption.Service).
Context (decode_tree : string -> option (list Assembly.FileEntry)).
Context (GetBlob : Z -> string -> string -> option string).

Definition validate_queryRequest (r : queryRequest) : list FieldError :=
  check_field "Question" [("required", "", tag_required (qr_Question r)); ("min", "1", tag_min 1 (qr_Question r));
                          ("max", "4000", tag_max 4000 (qr_Question r))] ++
  check_field "SnapshotID" [("uuid", "", match qr_SnapshotID r with Some s => tag_uuid s | None => true end)].

(** [selectProvider]: the first provider of the list with a key that
    decrypts. *)
Fixpoint selectProvider (orgID : option uuid) (providers : list string) : M World (option (string * string)) :=
  match providers with
  | [] => ret None
  | p :: providers =>
      r <- query (GetAIProviderKeyForOrg orgID p) ;;
      match r with
      | Err _ => selectProvider orgID providers
      | Ok k =>
          match Encryption.Decrypt enc (ak_KeyCipher k) with
          | Err _ => selectProvider orgID providers
          | Ok key => ret (Some (p, key))
          end
      end
  end.

Definition resolveSnapshot (snapshotID : option string) (repoID : uuid) (defaultBranch : string) :
    M World (option Snapshot) :=
  match snapshotID with
  | Some s =>
      match UUIDFromString s with
      | None => ret None
      | Some id => r <- query (GetSnapshotByID id) ;; ret (match r with Ok s => Some s | Err _ => None end)
      end
  | None => r <- query (GetLatestSnapshot repoID defaultBranch) ;; ret (match r with Ok s => Some s | Err _ => None end)
  end.

Definition getOrAssembleContext (repo : Repository) (snap : Snapshot) : M World (option string) :=
  let cacheKey := ContextCache.Key (uuid_text (r_ID repo)) (s_CommitSha snap) in
  hit <- ContextCache.Get cacheKey ;;
  match hit with
  | Ok (Some cached) => ret (Some cached)
  | _ =>
      try metaBytes <- Storage.Download (s_GcsPath snap) catch e => ret None ;;
      match decode_tree metaBytes with
      | None => ret None
      | Some tree =>
          let fetch := GetBlob (r_InstallationID repo) (r_FullName repo) in
          let '(res, out) := Assembly.Assemble fetch (r_FullName repo) (s_CommitSha snap) tree (Assembly.mkWriter [] "") in
          match res with
          | Err _ => ret None
          | Ok _ =>
              _ <- ContextCache.Set_ cacheKey (Assembly.wr_out out) ;;
              ret (Some (Assembly.wr_out out))
          end
      end
  end.

Definition separator : string :=
  Assembly.newline +:+ Assembly.newline +:+ "---" +:+ Assembly.newline +:+ Assembly.newline.

(** [Query] up to the stream: the provider, its key and the prompt that is
    sent; the streamed answer is the provider's. *)
Definition Query (c : Ctx) (repoParam : string) (body : option queryRequest) : M World (Resp (string * string * string)) :=
  match body with
  | None => ret (Fail StatusBadRequest errInvalidBody)
  | Some req =>
      match Struct (validate_queryRequest req) with
      | Err msg => ret (Fail StatusBadRequest msg)
      | Ok _ =>
          sel <- selectProvider (OrgIDFromContext c) ProviderOrder ;;
          match sel with
          | None => ret (Fail StatusUnprocessableEntity errNoAIKey)
          | Some (provider, rawKey) =>
              match uuid_scan repoParam with
              | None => ret (Fail StatusBadRequest errInvalidID)
              | Some repoID =>
                  try repo <- query (GetRepoByID repoID) catch e => ret (Fail StatusNotFound errRepoNotFound) ;;
                  if decide (r_OrgID repo <> OrgIDFromContext c) then ret (Fail StatusNotFound errRepoNotFound)
                  else
                    s <- resolveSnapshot (qr_SnapshotID req) repoID (r_DefaultBranch repo) ;;
                    match s with
                    | None => ret (Fail StatusNotFound errSnapshotNotFound)
                    | Some snap =>
                        if s_SnapshotVersion snap <? 2 then ret (Fail StatusUnprocessableEntity errSnapshotOutdated)
                        else
                          md <- getOrAssembleContext repo snap ;;
                          match md with
                          | None => ret (Fail StatusInternalServerError errInternal)
                          | Some contextMD =>
                              ret (Reply StatusOK (provider, rawKey,
                                SystemPrompt +:+ separator +:+ contextMD +:+ separator +:+ "User: " +:+ qr_Question req))
                          end
                    end
              end
          end
      end
  end.

End Handler.
End Query.

(** * Lemmas *)

Module ContextFacts.
Import JobStore AccountStore ContextStore Scope CliToken.

(** Who may read through a token: the rule of the three visibilities. *)
Definition may_read `{UUIDCodec} (parse : string -> option Claims) (authorization : string) (d : DB) (tok : ContextToken) : Prop :=
  ct_Visibility tok = ContextVisibilityPublic \/
  exists claims user, ContextURL.extractClaims parse authorization = Some claims /\ SubjectUUID claims = Some user /\
    ((ct_Visibility tok = ContextVisibilityPrivate /\
      (ct_UserID tok = Some user \/
       exists org k m, ct_OrgID tok = Some org /\ memberships d !! k = Some m /\ m_UserID m = user /\ m_OrgID m = org)) \/
     (ct_Visibility tok = ContextVisibilityProtected /\
      exists k a, allowed_users d !! k = Some a /\ au_TokenID a = ct_ID tok /\ au_UserID a = user)).

Section Access.
Context `{UUIDCodec}.

Lemma checkVisibility_inv parse authorization tok w r w' :
  ContextURL.checkVisibility parse authorization tok w = (r, w') ->
  w_db w' = w_db w /\ (r = Ok tt -> may_read parse authorization (w_db w) tok).
Proof.
  unfold ContextURL.checkVisibility, may_read. intros Hrun.
  case_decide as Hp; [unfold ret in Hrun; simplify_eq/=; auto|].
  destruct (ContextURL.extractClaims parse authorization) as [cl|] eqn:Hc; [|unfold ret in Hrun; by simplify_eq/=].
  destruct (SubjectUUID cl) as [u|] eqn:Hu; [|unfold ret in Hrun; by simplify_eq/=].
  destruct (ct_Visibility tok) eqn:Hv; [by unfold ret in Hrun; simplify_eq/=| |].
  - case_decide as Ho; [unfold ret in Hrun; simplify_eq/=; eauto 10|].
    destruct (ct_OrgID tok) as [org|] eqn:Horg; [|unfold ret in Hrun; by simplify_eq/=].
    go_run; split; try done. intros Hok. right. exists cl, u. split_and!; try done. left. split; [done|]. right.
    unfold GetMembership, result_of_option in Hok. destruct (find_row _ _) as [m|] eqn:Hf; [|done].
    apply find_row_Some in Hf as [Hm [k Hk]]. unfold is_member, is_id in Hm. cbn in Hm.
    rewrite andb_true_iff, !bool_decide_eq_true in Hm. exists org, k, m. naive_solver.
  - unfold IsUserAllowedForToken in Hrun. go_run; split; try done. intros Hok. right. exists cl, u.
    split_and!; try done. right. split; [done|].
    destruct (any_row _ _) eqn:Ha; [|done]. apply any_row_true in Ha as (k & a & Hk & Hal).
    unfold allows, is_id in Hal. cbn in Hal. rewrite andb_true_iff, !bool_decide_eq_true in Hal.
    exists k, a. naive_solver.
Qed.

(** The guard in front of both endpoints. *)
Definition readable (parse : string -> option Claims) (raw authorization : string) (w : World) : Prop :=
  exists tok, GetContextTokenByHash (SHA256Hash raw) (w_db w) = Ok tok /\
    ContextURL.expired (w_now w) tok = false /\ may_read parse authorization (w_db w) tok.

Lemma Head_readable parse raw authorization w st b w' :
  ContextURL.Head parse raw authorization w = (Reply st b, w') -> readable parse raw authorization w.
Proof.
  unfold ContextURL.Head. intros Hrun. go_run.
  all: match goal with Hv : ContextURL.checkVisibility _ _ _ _ = _ |- _ =>
         apply checkVisibility_inv in Hv as [_ Hv]; cbn in Hv end.
  all: match goal with u : unit |- _ => destruct u end; eexists; split_and!; [eassumption|done|auto].
Qed.

Lemma Get_readable parse decode blob raw authorization w st b w' :
  ContextURL.Get parse decode blob raw authorization w = (Reply st b, w') -> readable parse raw authorization w.
Proof.
  unfold ContextURL.Get. intros Hrun. go_run.
  match goal with Hv : ContextURL.checkVisibility _ _ _ _ = _ |- _ =>
    apply checkVisibility_inv in Hv as [_ Hv]; cbn in Hv end.
  match goal with u : unit |- _ => destruct u end; eexists; split_and!; [eassumption|done|auto].
Qed.

(** The providers are tried in order. *)
Lemma selectProvider_run `{Encryption.AEAD} enc org w ps :
  w_faults w = [] ->
  Query.selectProvider enc org ps w =
    (head (omap (fun p => match GetAIProviderKeyForOrg org p (w_db w) with
                          | Ok k => match Encryption.Decrypt enc (ak_KeyCipher k) with
                                    | Ok key => Some (p, key)
                                    | Err _ => None
                                    end
                          | Err _ => None
                          end) ps), w).
Proof.
  intros Hf. induction ps as [|p ps IH]; [done|]. cbn [Query.selectProvider omap list_omap].
  erewrite bind_eval by (by apply query_ok).
  destruct (GetAIProviderKeyForOrg org p (w_db w)) as [k|]; [|exact IH].
  destruct (Encryption.Decrypt enc (ak_KeyCipher k)); [done|exact IH].
Qed.

End Access.

Lemma InsertContextToken_fresh a now id d :
  one_owner (ict_UserID a) (ict_OrgID a) = true -> context_tokens d !! id = None ->
  (forall k t, context_tokens d !! k = Some t -> ct_TokenHash t <> ict_TokenHash a) ->
  fk_ok (repositories d) (Some (ict_RepoID a)) && fk_ok (users d) (ict_UserID a)
    && fk_ok (organizations d) (ict_OrgID a) && fk_ok (snapshots d) (ict_TargetSnapshotID a) = true ->
  exists t, InsertContextToken a now id d = Ok (t, set_context_tokens (<[id := t]> (context_tokens d)) d) /\
    t = mkContextToken id (ict_RepoID a) (ict_OrgID a) (ict_TargetSnapshotID a) (ict_TokenHash a)
          (ict_Label a) None (ict_ExpiresAt a) now (ict_UserID a) (ict_Visibility a).
Proof.
  intros Ho Hid Hh Hfk. eexists. split; [|reflexivity]. unfold InsertContextToken. rewrite Ho. cbn [negb].
  rewrite bool_decide_false by (rewrite Hid; by intros []). cbn [orb].
  rewrite (proj2 (any_row_false _ _)); [by rewrite Hfk|].
  intros k t Hk. apply bool_decide_eq_false. eauto.
Qed.

(** An upload writes one snapshot row, new or in place. *)
Lemma InsertCLISnapshot_row a now id d s d' :
  (forall k s, snapshots d !! k = Some s -> s_ID s = k) ->
  InsertCLISnapshot a now id d = Ok (s, d') ->
  exists k, snapshots d' = <[k := s]> (snapshots d) /\ jobs d' = jobs d /\ repositories d' = repositories d /\
    s_RepoID s = ics_RepoID a /\ s_Branch s = ics_Branch a /\ s_CommitSha s = ics_CommitSha a /\
    s_Metadata s = ics_Metadata a /\ s_SizeBytes s = ics_SizeBytes a /\ s_GcsPath s = ics_GcsPath a.
Proof.
  intros Hid Hi. unfold InsertCLISnapshot in Hi. destruct (find_row _ _) as [s0|] eqn:Hf; simplify_eq/=.
  - apply find_row_Some in Hf as [Hp _]. unfold same_commit, on_branch in Hp.
    rewrite !andb_true_iff, !bool_decide_eq_true in Hp. exists (s_ID s0). naive_solver.
  - case_bool_decide; [done|]. case_bool_decide; [done|]. simplify_eq/=. by exists id.
Qed.

Lemma GetRepoByFullNameAndOrg_Ok name o d r :
  GetRepoByFullNameAndOrg name (Some o) d = Ok r -> r_OrgID r = Some o.
Proof.
  unfold GetRepoByFullNameAndOrg, result_of_option. destruct (find_row _ _) eqn:Hf; [|done]. intros [= <-].
  apply find_row_Some in Hf as [Hp _]. apply andb_true_iff in Hp as [_ Hp].
  apply sql_eq_true in Hp as (x & -> & [= <-]). done.
Qed.

(** Adding allowed users changes neither the tokens nor the rest. *)
Lemma allow_users_tokens `{UUIDCodec} tok uids : forall w r w',
  ContextTokens.allow_users tok uids w = (r, w') ->
  context_tokens (w_db w') = context_tokens (w_db w).
Proof.
  induction uids as [|u uids IH]; intros w r w' Hrun.
  - unfold ContextTokens.allow_users in Hrun. cbn in Hrun. unfold ret in Hrun. by simplify_eq/=.
  - unfold ContextTokens.allow_users in Hrun. cbn [for_range] in Hrun.
    apply bind_inv in Hrun as (x & w1 & Hx & Hrun). apply IH in Hrun. rewrite Hrun.
    unfold InsertContextTokenAllowedUser in Hx. go_run; try done. repeat case_match; by simplify_eq/=.
Qed.
End ContextFacts.

(** * Properties *)

Module ContextProps.
Import JobStore AccountStore ContextStore Scope CliToken ContextFacts.

Section Props.
Context `{UUIDCodec} `{Validator} `{TimeCodec}.



(** C28: Uploads with an organization's CLI key stay in the organization: if an
    upload with such a key changes the database, the key's organization owns
    the repository of the snapshot, exactly one snapshot row changed, it
    describes that repository and the uploaded commit, and the object it points
    to holds the uploaded metadata. *)
Theorem org_key_uploads_stay_in_the_organization marshal o req w r w' :
  (forall k s, snapshots (w_db w) !! k = Some s -> s_ID s = k) ->
  Upload.Upload marshal (Some o) (Some req) w = (r, w') -> w_db w' <> w_db w ->
  exists repo m k s,
    GetRepoByFullNameAndOrg (Upload.up_RepoFullName req) (Some o) (w_db w) = Ok repo /\ r_OrgID repo = Some o /\
    marshal (Upload.up_MetadataSnapshot req) = Some m /\
    snapshots (w_db w') = <[k := s]> (snapshots (w_db w)) /\ jobs (w_db w') = jobs (w_db w) /\
    repositories (w_db w') = repositories (w_db w) /\
    s_RepoID s = r_ID repo /\ s_Branch s = Upload.up_Branch req /\ s_CommitSha s = Upload.up_CommitSha req /\
    s_Metadata s = Some m /\ s_SizeBytes s = len m /\ w_objects w' !! s_GcsPath s = Some m.
Proof.
  intros Hid Hrun Hne. unfold Upload.Upload, Storage.Upload in Hrun.
  go_run; try done;
    try (match goal with Hn : next_fault _ = _ |- _ => apply next_fault_inv in Hn as [? ->] end; cbn in *; done).
  match goal with Hn : next_fault _ = _ |- _ => apply next_fault_inv in Hn as [? ->] end. cbn in *.
  match goal with Hs : negb (bool_decide (Some o = _)) = false |- _ =>
    apply negb_false_iff, bool_decide_eq_true in Hs; injection Hs as -> end.
  match goal with Hi : InsertCLISnapshot _ _ _ _ = Ok (?s, _), Hm : marshal _ = Some ?m |- _ =>
    apply InsertCLISnapshot_row in Hi as (k & ? & ? & ? & ? & ? & ? & ? & ? & Hpath); [|done]; eexists _, m, k, s end.
  split_and!; try done; [by eapply GetRepoByFullNameAndOrg_Ok|].
  rewrite Hpath. by rewrite lookup_insert_eq.
Qed.

End Props.

(** ** Closed examples *)

#[local] Existing Instance example_codec.
#[local] Existing Instance example_validator.
#[local] Existing Instance RepoApiProps.example_time.

Definition ex_repo : Repository := mkRepository 7 (Some 5%N) 42 99 "acme/app" "main" 0 None.

Definition ex_db : DB :=
  set_organizations {[ 5%N := mkOrganization 5 "acme" "Acme" 0 "auth-5" ]}
    (set_repositories {[ 7%N := ex_repo ]} empty_db).

Definition ex_world : World := mkWorld ex_db None 1000 [20; 21; 22]%N [] [] ∅ ∅.

Definition ex_create : ContextTokens.createTokenRequest := ContextTokens.mkCreateTokenRequest "ci" None "private" [].


Definition ex_meta : Upload.snapshotMetadata :=
  Upload.mkSnapshotMetadata 2 "1.0" "abcdef0" "main" None (Some [Assembly.mkFileEntry "a.go" "go" 1 "sha1"]).

Definition ex_upload : Upload.uploadRequest := Upload.mkUploadRequest "acme" "acme/app" "abcdef0" "main" ex_meta.

Definition ex_marshal (m : Upload.snapshotMetadata) : option string := Some "{}".

Lemma org_key_uploads_stay_in_the_organization_witness :
  exists repo, GetRepoByFullNameAndOrg "acme/app" (Some 5%N) (w_db ex_world) = Ok repo /\ r_OrgID repo = Some 5%N.
Proof.
  assert (s_CommitSha <$> (snapshots (w_db (Upload.Upload ex_marshal (Some 5%N) (Some ex_upload) ex_world).2) !! 20%N)
            = Some "abcdef0") as X by (vm_compute; reflexivity).
  destruct (Upload.Upload ex_marshal (Some 5%N) (Some ex_upload) ex_world) as [r w'] eqn:Hrun. cbn [snd] in X.
  destruct (org_key_uploads_stay_in_the_organization ex_marshal 5%N ex_upload ex_world r w')
    as (repo & m & k & s & Hg & Ho & _).
  - intros k s Hk. change (snapshots (w_db ex_world)) with (∅ : gmap N Snapshot) in Hk. by rewrite lookup_empty in Hk.
  - exact Hrun.
  - intros E. rewrite E in X. vm_compute in X. discriminate.
  - exists repo. split; [exact Hg|exact Ho].
Defined.

(** ** Where the code falls short of its comments *)

(** In a personal workspace a token cannot be created: neither owner column is
    set and the table's CHECK refuses the row. *)
Example personal_tokens_cannot_be_created :
  let repo := mkRepository 7 None 42 99 "me/app" "main" 0 (Some 1%N) in
  let w := set_db (set_users {[ 1%N := mkUser 1 "a" "a" "a@x" true None None 0 0 ]}
                    (set_repositories {[ 7%N := repo ]} empty_db)) ex_world in
  (ContextTokens.Create (mkCtx (Some 1%N) None) (Some "abc") "7" (Some ex_create) w).1
    = Fail StatusInternalServerError "internal error".
Proof. vm_compute. reflexivity. Qed.

(** The allow list of a token of one organization can be replaced from the
    scope of any other: the organization of the scope is not used. *)
Lemma allow_list_ignores_the_scope c1 c2 tokenParam body :
  ContextTokens.UpdateAllowedUsers c1 tokenParam body = ContextTokens.UpdateAllowedUsers c2 tokenParam body.
Proof. done. Qed.

(** A CLI key that belongs to a user resolves to no organization and is then
    treated like the global key: it can upload into any organization. *)
Example user_keys_upload_everywhere :
  (Upload.Upload ex_marshal None (Some ex_upload) ex_world).1 = Reply StatusCreated ("20", 1000).
Proof. vm_compute. reflexivity. Qed.

(** A snapshot named by id is not checked against the repository of the query. *)
Lemma query_accepts_foreign_snapshots id s repoID branch w text :
  w_faults w = [] -> uuid_scan text = Some id -> snapshots (w_db w) !! id = Some s -> s_RepoID s <> repoID ->
  Query.resolveSnapshot (Some text) repoID branch w = (Some s, w).
Proof.
  intros Hf Ht Hs Hne. unfold Query.resolveSnapshot, UUIDFromString. rewrite Ht.
  erewrite bind_eval by (by apply query_ok). unfold GetSnapshotByID. by rewrite Hs.
Qed.

End ContextProps.
