(* ===== verification/KeysApi.v ===== *)
(** Keys and accounts: [services/api/internal/handler] ([aikeys/handler.go],
    [clikeys/handler.go], [account/handler.go]). *)

From S2P Require Import Prelude GoStr Sha256 JobToken Store JobStore AccountStore ContextStore HttpUtil Scope RepoApi Services.

(** * Definitions *)

(** ** [aikeys/handler.go] *)
Module AIKeys.
Import ContextStore Scope.

Definition ErrInvalidBody : string := "invalid request body".
Definition ErrInternal : string := "internal error".

Record upsertRequest := mkUpsertRequest {
  uk_Provider : string;
  uk_RawKey : string
}.

Section Handlers.
Context `{Validator} `{Collation} `{Encryption.AEAD}.
Context (enc : Encryption.Service).

Definition List_ (c : Ctx) : M World (Resp (list AIKeyRow)) :=
  try keys <- query (ListAIProviderKeysByOrg (OrgIDFromContext c))
    catch e => ret (Fail StatusInternalServerError ErrInternal) ;;
  ret (Reply StatusOK keys).

Definition validate_upsert (b : upsertRequest) : list FieldError :=
  check_field "Provider" [("required", "", tag_required (uk_Provider b))] ++
  check_field "RawKey" [("required", "", tag_required (uk_RawKey b)); ("min", "8", tag_min 8 (uk_RawKey b))].

(** The last four bytes. *)
Definition last4 (s : string) : string := str_drop (String.length s - 4) s.

Definition hint (rawKey : string) : string := "..." +:+ last4 rawKey.

(** [Upsert]; [nonce] is what the cipher draws. *)
Definition Upsert (c : Ctx) (nonce : option string) (body : option upsertRequest) : M World (Resp unit) :=
  match body with
  | None => ret (Fail StatusBadRequest ErrInvalidBody)
  | Some b =>
      match Struct (validate_upsert b) with
      | Err msg => ret (Fail StatusBadRequest msg)
      | Ok _ =>
          match Encryption.Encrypt enc nonce (uk_RawKey b) with
          | Err _ => ret (Fail StatusInternalServerError ErrInternal)
          | Ok cipher =>
              try _ <- insert_stmt (UpsertAIProviderKeyForOrg (OrgIDFromContext c) (uk_Provider b) cipher (hint (uk_RawKey b)))
                catch e => ret (Fail StatusInternalServerError ErrInternal) ;;
              ret (Reply StatusNoContent tt)
          end
      end
  end.

Definition Delete (c : Ctx) (provider : string) : M World (Resp unit) :=
  try _ <- exec (DeleteAIProviderKeyForOrg (OrgIDFromContext c) provider)
    catch e => ret (Fail StatusInternalServerError ErrInternal) ;;
  ret (Reply StatusNoContent tt).

End Handlers.
End AIKeys.

(** ** [clikeys/handler.go] *)
Module CLIKeys.
Import AccountStore Scope CliToken.

Definition ErrInvalidBody : string := "invalid request body".
Definition ErrInternal : string := "internal error".
Definition errInvalidID : string := "cannot parse UUID".

Record createResponse := mkCreateResponse {
  ckr_ID : string;
  ckr_RawKey : string;
  ckr_KeyHint : string;
  ckr_Label : string;
  ckr_CreatedAt : Z
}.

Record listItem := mkListItem {
  li_ID : string;
  li_KeyHint : string;
  li_Label : string;
  li_CreatedAt : Z
}.

(** [generateKey]: [encoded] is the base64 text of the random bytes. *)
Definition generateKey (encoded : option string) : option string := (fun e => CLIKeyPrefix +:+ e) <$> encoded.

Section Handlers.
Context `{UUIDCodec} `{Validator}.

Definition validate_create (label : string) : list FieldError :=
  check_field "Label" [("required", "", tag_required label)].

(** [raw[:len(prefix)+4] + "..." + raw[len(raw)-4:]] *)
Definition key_hint (raw : string) : string :=
  str_take (String.length CLIKeyPrefix + 4) raw +:+ "..." +:+ AIKeys.last4 raw.

Definition insert_params (c : Ctx) (raw label : string) : InsertCLIAPIKeyParams :=
  if IsOrgScope c
  then mkInsertCLIAPIKeyParams (OrgIDFromContext c) None (SHA256Hash raw) (key_hint raw) label
  else mkInsertCLIAPIKeyParams None (UserIDFromContext c) (SHA256Hash raw) (key_hint raw) label.

Definition Create (c : Ctx) (rand : option string) (body : option string) : M World (Resp createResponse) :=
  match body with
  | None => ret (Fail StatusBadRequest ErrInvalidBody)
  | Some label =>
      match Struct (validate_create label) with
      | Err msg => ret (Fail StatusBadRequest msg)
      | Ok _ =>
          match generateKey rand with
          | None => ret (Fail StatusInternalServerError ErrInternal)
          | Some raw =>
              try key <- insert_stmt (InsertCLIAPIKey (insert_params c raw label))
                catch e => ret (Fail StatusInternalServerError ErrInternal) ;;
              ret (Reply StatusCreated (mkCreateResponse (uuid_text (ck_ID key)) raw (key_hint raw)
                                          (ck_Label key) (ck_CreatedAt key)))
          end
      end
  end.

Definition item (k : CliApiKey) : listItem :=
  mkListItem (uuid_text (ck_ID k)) (ck_KeyHint k) (ck_Label k) (ck_CreatedAt k).

Definition List_ (c : Ctx) : M World (Resp (list listItem)) :=
  if IsOrgScope c then
    try keys <- query (ListCLIAPIKeysByOrg (OrgIDFromContext c))
      catch e => ret (Fail StatusInternalServerError ErrInternal) ;;
    ret (Reply StatusOK (item <$> keys))
  else
    try keys <- query (ListCLIAPIKeysByUser (UserIDFromContext c))
      catch e => ret (Fail StatusInternalServerError ErrInternal) ;;
    ret (Reply StatusOK (item <$> keys)).

Definition Delete (c : Ctx) (keyParam : string) : M World (Resp unit) :=
  match uuid_scan keyParam with
  | None => ret (Fail StatusBadRequest errInvalidID)
  | Some keyID =>
      try _ <- (if IsOrgScope c then exec (DeleteCLIAPIKeyForOrg keyID (OrgIDFromContext c))
                else exec (DeleteCLIAPIKeyForUser keyID (UserIDFromContext c)))
        catch e => ret (Fail StatusInternalServerError ErrInternal) ;;
      ret (Reply StatusNoContent tt)
  end.

(** [ParseOrgID] *)
Definition ParseOrgID (k : CliApiKey) : option uuid := ck_OrgID k.

End Handlers.
End CLIKeys.

(** ** [account/handler.go] *)
Module Account.
Import AccountStore Scope.

Definition ErrInvalidBody : string := "invalid request body".
Definition ErrInternal : string := "internal error".
Definition errSessionNotFound : string := "session not found".
Definition errInvalidID : string := "cannot parse UUID".

Record updateProfileRequest := mkUpdateProfileRequest {
  upr_Username : string;
  upr_Phone : option string
}.

Record profileResponse := mkProfileResponse {
  pr_User : User;
  pr_Memberships : list (Membership * Organization)
}.

Definition GetProfile (c : Ctx) : M World (Resp profileResponse) :=
  try user <- query (GetUserByID (UserIDFromContext c))
    catch e => ret (Fail StatusInternalServerError ErrInternal) ;;
  try ms <- query (ListMembershipsByUser (UserIDFromContext c))
    catch e => ret (Fail StatusInternalServerError ErrInternal) ;;
  ret (Reply StatusOK (mkProfileResponse user ms)).

Definition UpdateProfile (c : Ctx) (body : option updateProfileRequest) : M World (Resp User) :=
  match body with
  | None => ret (Fail StatusBadRequest ErrInvalidBody)
  | Some b =>
      if bool_decide (upr_Username b = "") && bool_decide (upr_Phone b = None)
      then ret (Fail StatusBadRequest "at least one field required")
      else
        try user <- exec (UpdateUser (mkUpdateUserParams (upr_Username b) "" false (upr_Phone b) None (UserIDFromContext c)))
          catch e => ret (Fail StatusInternalServerError ErrInternal) ;;
        _ <- insert_stmt (InsertAuditLog (mkInsertAuditLogParams (UserIDFromContext c) None (UserIDFromContext c)
               "account.updated" (UserIDFromContext c) None)) ;;
        ret (Reply StatusOK user)
  end.

Definition DeleteAccount (c : Ctx) : M World (Resp unit) :=
  try _ <- exec (DeleteUser (UserIDFromContext c))
    catch e => ret (Fail StatusInternalServerError ErrInternal) ;;
  ret (Reply StatusNoContent tt).

Definition ListSessions (c : Ctx) : M World (Resp (list Session)) :=
  try l <- query (ListSessionsByUser (UserIDFromContext c))
    catch e => ret (Fail StatusInternalServerError ErrInternal) ;;
  ret (Reply StatusOK l).

Definition RevokeSession `{UUIDCodec} (c : Ctx) (param : string) : M World (Resp unit) :=
  match uuid_scan param with
  | None => ret (Fail StatusBadRequest errInvalidID)
  | Some id =>
      try _ <- exec (DeleteSession id (UserIDFromContext c))
        catch e => ret (Fail StatusNotFound errSessionNotFound) ;;
      ret (Reply StatusNoContent tt)
  end.

End Account.

(** * Lemmas *)

Module KeysFacts.
Import JobStore AccountStore ContextStore Scope CliToken.

Lemma cut_bearer_app t : cut_bearer ("Bearer " +:+ t) = Some t.
Proof. apply CutPrefix_app. Qed.

Lemma HasPrefix_app p s : HasPrefix (p +:+ s) p = true.
Proof. unfold HasPrefix. by rewrite CutPrefix_app. Qed.

(** The middleware on a generated key is the lookup by hash. *)
Lemma CliAuth_run globalKey e w :
  w_faults w = [] ->
  CliToken.Auth globalKey ("Bearer " +:+ (CLIKeyPrefix +:+ e)) w =
    (match GetCLIAPIKeyByHash (SHA256Hash (CLIKeyPrefix +:+ e)) (w_db w) with
     | Ok k => Ok (ck_OrgID k)
     | Err ErrNoRows => Err (StatusUnauthorized, errInvalid)
     | Err _ => Err (StatusInternalServerError, errInternal)
     end, w).
Proof.
  intros Hf. unfold CliToken.Auth. rewrite cut_bearer_app. rewrite decide_False by done.
  rewrite HasPrefix_app. erewrite bind_eval by (by apply query_ok).
  by destruct (GetCLIAPIKeyByHash _ _) as [|[]].
Qed.

(** Inserting a key whose hash is new. *)
Lemma InsertCLIAPIKey_fresh a now id d :
  one_owner (ick_UserID a) (ick_OrgID a) = true -> cli_api_keys d !! id = None ->
  (forall k r, cli_api_keys d !! k = Some r -> ck_KeyHash r <> ick_KeyHash a) ->
  fk_ok (users d) (ick_UserID a) && fk_ok (organizations d) (ick_OrgID a) = true ->
  InsertCLIAPIKey a now id d =
    let k := mkCliApiKey id (ick_UserID a) (ick_OrgID a) (ick_KeyHash a) (ick_KeyHint a) (ick_Label a) now in
    Ok (k, set_cli_api_keys (<[id := k]> (cli_api_keys d)) d).
Proof.
  intros Ho Hid Hh Hfk. unfold InsertCLIAPIKey. rewrite Ho. cbn [negb].
  rewrite bool_decide_false by (rewrite Hid; by intros []). cbn [orb].
  rewrite (proj2 (any_row_false _ _)); [by rewrite Hfk|].
  intros k t Hk. apply bool_decide_eq_false. eauto.
Qed.

Record akwf (d : DB) : Prop := {
  akwf_id : forall k a, ai_provider_keys d !! k = Some a -> ak_ID a = k;
  akwf_org : forall k1 k2 a1 a2 o, ai_provider_keys d !! k1 = Some a1 -> ai_provider_keys d !! k2 = Some a2 ->
    ak_OrgID a1 = Some o -> ak_OrgID a2 = Some o -> ak_Provider a1 = ak_Provider a2 -> k1 = k2
}.

Lemma org_provider_true o p k : org_provider (Some o) p k = true <-> ak_OrgID k = Some o /\ ak_Provider k = p.
Proof.
  unfold org_provider. rewrite andb_true_iff, bool_decide_eq_true, sql_eq_true. naive_solver.
Qed.

(** What an upsert leaves behind: the row of the organization and provider has
    the new cipher and hint, and that row, if
    there was one, was theirs. *)
Lemma upsert_ai_key_Ok o p cipher h now id d k d' :
  akwf d -> UpsertAIProviderKeyForOrg (Some o) p cipher h now id d = Ok (k, d') ->
  exists key, ai_provider_keys d' = <[key := k]> (ai_provider_keys d) /\
    ak_KeyCipher k = cipher /\ ak_KeyHint k = h /\ ak_OrgID k = Some o /\ ak_Provider k = p /\
    GetAIProviderKeyForOrg (Some o) p d' = Ok k /\
    (forall a, ai_provider_keys d !! key = Some a -> ak_OrgID a = Some o /\ ak_Provider a = p).
Proof.
  intros Hwf Hu. unfold UpsertAIProviderKeyForOrg, upsert_ai_key in Hu.
  destruct (_ || _); [done|].
  assert (exists key, ai_provider_keys d' = <[key := k]> (ai_provider_keys d) /\
    ak_KeyCipher k = cipher /\ ak_KeyHint k = h /\ ak_OrgID k = Some o /\ ak_Provider k = p /\
    (forall k' a, ai_provider_keys d !! k' = Some a -> k' <> key -> ~ (ak_OrgID a = Some o /\ ak_Provider a = p)) /\
    (forall a, ai_provider_keys d !! key = Some a -> ak_OrgID a = Some o /\ ak_Provider a = p))
    as (key & Htab & Hc & Hh & Ho & Hp & Hoth & Hkey).
  { destruct (find_row _ _) as [k0|] eqn:Hf.
    - apply find_row_Some in Hf as [Hop [kk Hkk]]. apply org_provider_true in Hop as [Ho Hp].
      simplify_eq/=. rewrite (akwf_id _ Hwf kk k0 Hkk). exists kk. split_and!; try done.
      + intros k' a Ha Hne [Hao Hap]. apply Hne. eapply (akwf_org _ Hwf); eauto.
      + intros a Ha. by simplify_eq.
    - rewrite find_row_None in Hf. case_bool_decide as Hid; [done|]. destruct (negb _); [done|]. simplify_eq/=.
      exists id. split_and!; try done.
      + intros k' a Ha _ Hop. specialize (Hf k' a Ha). apply org_provider_true in Hop. congruence.
      + intros a Ha. by destruct Hid. }
  exists key. split_and!; try done. unfold GetAIProviderKeyForOrg. rewrite Htab.
  rewrite (find_row_insert _ _ _ k); [done|by apply org_provider_true|].
  intros k' a' Hk' Hop%org_provider_true. destruct (decide (k' = key)) as [|Hne]; [done|].
  exfalso. by eapply Hoth.
Qed.

End KeysFacts.

(** * Properties *)

Module KeysProps.
Import JobStore AccountStore ContextStore Scope CliToken KeysFacts.

Section Props.
Context `{UUIDCodec} `{Validator}.

(** C29: Life of a CLI key: a key created in the scope of an organization is
    accepted by the CLI middleware, which resolves it to that organization;
    after its deletion from the same scope it is refused with 401.  Only its
    hash and a hint are stored. *)
Theorem cli_key_lifecycle globalKey o user rand label w :
  w_faults w = [] -> is_Some (organizations (w_db w) !! o) -> label <> "" ->
  cli_api_keys (w_db w) !! hd 0%N (w_ids w) = None ->
  (forall k r, cli_api_keys (w_db w) !! k = Some r -> ck_KeyHash r <> SHA256Hash (CLIKeyPrefix +:+ rand)) ->
  let c := mkCtx user (Some o) in
  exists resp w1 w2, CLIKeys.Create c (Some rand) (Some label) w = (Reply StatusCreated resp, w1) /\
    CLIKeys.ckr_RawKey resp = CLIKeyPrefix +:+ rand /\
    CliToken.Auth globalKey ("Bearer " +:+ CLIKeys.ckr_RawKey resp) w1 = (Ok (Some o), w1) /\
    CLIKeys.Delete c (CLIKeys.ckr_ID resp) w1 = (Reply StatusNoContent tt, w2) /\
    (CliToken.Auth globalKey ("Bearer " +:+ CLIKeys.ckr_RawKey resp) w2).1 = Err (StatusUnauthorized, errInvalid).
Proof.
  intros Hf [org Horg] Hlab Hid Hhash c. set (raw := CLIKeyPrefix +:+ rand) in *.
  pose proof (InsertCLIAPIKey_fresh (CLIKeys.insert_params c raw label) (w_now w) (hd 0%N (w_ids w)) (w_db w)) as Hins.
  specialize (Hins eq_refl Hid Hhash). cbn [CLIKeys.insert_params IsOrgScope ick_UserID ick_OrgID] in Hins.
  specialize (Hins ltac:(cbn; by rewrite Horg)).
  set (k := mkCliApiKey (hd 0%N (w_ids w)) None (Some o) (SHA256Hash raw) (CLIKeys.key_hint raw) label (w_now w)).
  set (d1 := set_cli_api_keys (<[hd 0%N (w_ids w) := k]> (cli_api_keys (w_db w))) (w_db w)).
  set (w1 := set_db d1 (set_ids (tl (w_ids w)) w)).
  set (resp := CLIKeys.mkCreateResponse (uuid_text (hd 0%N (w_ids w))) raw (CLIKeys.key_hint raw) label (w_now w)).
  set (d2 := set_cli_api_keys (delete_where (fun r => bool_decide (ck_ID r = hd 0%N (w_ids w)) && sql_eq (ck_OrgID r) (Some o))
                                 (cli_api_keys d1)) d1).
  exists resp, w1, (set_db d2 w1).
  assert (GetCLIAPIKeyByHash (SHA256Hash raw) d1 = Ok k) as Hfind.
  { unfold GetCLIAPIKeyByHash. cbn. rewrite (find_row_insert _ _ _ k); [done|by apply bool_decide_eq_true|].
    intros k' r Hk' Hr%bool_decide_eq_true. exfalso. by eapply Hhash. }
  assert (GetCLIAPIKeyByHash (SHA256Hash raw) d2 = Err ErrNoRows) as Hgone.
  { unfold GetCLIAPIKeyByHash. rewrite (proj2 (find_row_None _ _)); [done|].
    intros k' r Hk'. cbn in Hk'. apply delete_where_Some in Hk' as [Hk' Hp]. apply bool_decide_eq_false.
    destruct (decide (k' = hd 0%N (w_ids w))) as [->|Hne]; simplify_map_eq; [|by eapply Hhash].
    cbn in Hp. by rewrite !bool_decide_true in Hp by done. }
  split_and!.
  - unfold CLIKeys.Create.
    assert (CLIKeys.validate_create label = []) as ->.
    { unfold CLIKeys.validate_create. cbn. by rewrite (proj2 (tag_required_spec label)). }
    cbn [Struct]. change (CLIKeys.generateKey (Some rand)) with (Some raw). cbn beta iota.
    by erewrite bind_eval by (eapply insert_stmt_ok; [done|exact Hins]).
  - done.
  - unfold resp, raw. cbn [CLIKeys.ckr_RawKey]. rewrite CliAuth_run by done. fold raw.
    change (w_db w1) with d1. by rewrite Hfind.
  - unfold CLIKeys.Delete, resp. cbn [CLIKeys.ckr_ID]. rewrite uuid_scan_text.
    change (IsOrgScope c) with true. cbn beta iota.
    by erewrite bind_eval by (eapply exec_ok; [done|reflexivity]).
  - unfold resp, raw. cbn [CLIKeys.ckr_RawKey]. rewrite CliAuth_run by done. fold raw. cbn [fst].
    change (w_db (set_db d2 w1)) with d2. by rewrite Hgone.
Qed.

(** Storing an AI provider key: when the upsert is answered 204, the row of
    the organization and provider holds a cipher text that decrypts to the raw
    key and a hint of its last four bytes, every other key row is unchanged,
    and the query console's lookup finds exactly this row. *)
Theorem stored_ai_key_is_usable `{Encryption.AEAD} enc o user nonce b w w' :
  akwf (w_db w) -> String.length nonce = Encryption.NonceSize ->
  AIKeys.Upsert enc (mkCtx user (Some o)) (Some nonce) (Some b) w = (Reply StatusNoContent tt, w') ->
  exists key k, ai_provider_keys (w_db w') = <[key := k]> (ai_provider_keys (w_db w)) /\
    GetAIProviderKeyForOrg (Some o) (AIKeys.uk_Provider b) (w_db w') = Ok k /\
    Encryption.Decrypt enc (ak_KeyCipher k) = Ok (AIKeys.uk_RawKey b) /\
    ak_KeyHint k = AIKeys.hint (AIKeys.uk_RawKey b) /\ ak_OrgID k = Some o /\
    (forall a, ai_provider_keys (w_db w) !! key = Some a ->
       ak_OrgID a = Some o /\ ak_Provider a = AIKeys.uk_Provider b).
Proof.
  intros Hwf Hn Hrun. unfold AIKeys.Upsert in Hrun. go_run; try done.
  match goal with
  | Hu : UpsertAIProviderKeyForOrg _ _ _ _ _ _ _ = Ok _ |- _ =>
      apply upsert_ai_key_Ok in Hu as (key & Htab & Hc & Hh & Ho & _ & Hget & Hkey); [|done]
  end.
  exists key. eexists. split_and!; try done.
  rewrite Hc. by eapply Decrypt_Encrypt.
Qed.

End Props.

(** ** Closed examples *)

#[local] Existing Instance example_codec.
#[local] Existing Instance example_validator.
#[local] Existing Instance ServiceProps.example_aead.

Definition ex_user : User := mkUser 1 "auth-1" "ann" "ann@x" true (Some "555") (Some "pic") 0 0.

Definition ex_db : DB :=
  set_users {[ 1%N := ex_user ]}
    (set_organizations {[ 5%N := mkOrganization 5 "acme" "Acme" 0 "auth-5" ]} empty_db).

Definition ex_world : World := mkWorld ex_db None 1000 [20; 21; 22]%N [] [] ∅ ∅.

Lemma cli_key_lifecycle_witness :
  exists resp w', CLIKeys.Create (mkCtx (Some 1%N) (Some 5%N)) (Some "abcdefgh") (Some "ci") ex_world
    = (Reply StatusCreated resp, w') /\ CLIKeys.ckr_RawKey resp = "zf_cli_abcdefgh" /\
    CliToken.Auth "" ("Bearer " +:+ CLIKeys.ckr_RawKey resp) w' = (Ok (Some 5%N), w').
Proof.
  destruct (cli_key_lifecycle "" 5%N (Some 1%N) "abcdefgh" "ci" ex_world) as (resp & w1 & w2 & Hc & Hraw & Ha & _).
  - reflexivity.
  - vm_compute. eauto.
  - discriminate.
  - vm_compute. reflexivity.
  - intros k r Hk. change (cli_api_keys (w_db ex_world)) with (∅ : gmap N CliApiKey) in Hk.
    rewrite lookup_empty in Hk. discriminate Hk.
  - exists resp, w1. split; [exact Hc|]. split; [exact Hraw|exact Ha].
Defined.

Definition ex_upsert : AIKeys.upsertRequest := AIKeys.mkUpsertRequest "openai" "sk-secret-1234".

Definition ex_service : Encryption.Service := Encryption.mkService "0123456789abcdef0123456789abcdef".

Lemma stored_ai_key_is_usable_witness :
  exists w' k, AIKeys.Upsert ex_service (mkCtx (Some 1%N) (Some 5%N)) (Some "nn") (Some ex_upsert) ex_world
    = (Reply StatusNoContent tt, w') /\
    GetAIProviderKeyForOrg (Some 5%N) "openai" (w_db w') = Ok k /\
    Encryption.Decrypt ex_service (ak_KeyCipher k) = Ok "sk-secret-1234".
Proof.
  destruct (AIKeys.Upsert ex_service (mkCtx (Some 1%N) (Some 5%N)) (Some "nn") (Some ex_upsert) ex_world) as [r w'] eqn:Hrun.
  assert (r = Reply StatusNoContent tt) as ->.
  { change r with (r, w').1. rewrite <-Hrun. vm_compute. reflexivity. }
  destruct (stored_ai_key_is_usable ex_service 5%N (Some 1%N) "nn" ex_upsert ex_world w')
    as (key & k & _ & Hg & Hd & _).
  - split; intros *; change (ai_provider_keys (w_db ex_world)) with (∅ : gmap N AiProviderKey);
      rewrite lookup_empty; discriminate.
  - reflexivity.
  - exact Hrun.
  - exists w', k. split; [reflexivity|]. split; [exact Hg|exact Hd].
Defined.

(** ** Where the code falls short of its comments *)

(** In a personal workspace a provider key cannot be stored: neither owner
    column is set and the table's CHECK refuses the row. *)
Example personal_ai_keys_cannot_be_stored :
  (AIKeys.Upsert ex_service (mkCtx (Some 1%N) None) (Some "nn") (Some ex_upsert) ex_world).1
    = Fail StatusInternalServerError "internal error".
Proof. vm_compute. reflexivity. Qed.

(** Changing only the username clears the phone number and the avatar and
    marks the address as not verified. *)
Example profile_update_resets_fields :
  match (Account.UpdateProfile (mkCtx (Some 1%N) None) (Some (Account.mkUpdateProfileRequest "bob" None)) ex_world).1 with
  | Reply _ u => (u_Username u, u_EmailVerified u, u_Phone u, u_AvatarUrl u) = ("bob", false, None, None)
  | Fail _ _ => False
  end.
Proof. vm_compute. reflexivity. Qed.

(** An account that has changed its profile once cannot be deleted: the audit
    entry of the change refers to it. *)
Example audited_account_cannot_be_deleted :
  let w := (Account.UpdateProfile (mkCtx (Some 1%N) None) (Some (Account.mkUpdateProfileRequest "bob" None)) ex_world).2 in
  (Account.DeleteAccount (mkCtx (Some 1%N) None) w).1 = Fail StatusInternalServerError "internal error" /\
  (Account.DeleteAccount (mkCtx (Some 1%N) None) ex_world).1 = Reply StatusNoContent tt.
Proof. vm_compute. done. Qed.

End KeysProps.
