(* ===== verification/GithubApi.v ===== *)
(** The GitHub App client: [services/shared/go/provider/github] ([client.go],
    [provider.go], [payload.go]; [ValidateWebhook] is in JobService) and the
    circuit breaker wrapper [services/shared/go/circuitbreaker/circuitbreaker.go].

    The network, the JWT and URL libraries, the JSON decoder and the breaker
    library are parameters; an error is its text. *)

From S2P Require Import Prelude GoStr Store.

(** * Definitions *)

(** ** [circuitbreaker.go] *)
Module CircuitBreaker.

(** The breaker library: whether it lets a call through at an instant, and how
    it records the outcome. *)
Class GoBreaker := {
  cb_state : Type;
  cb_before : Z -> cb_state -> result string cb_state;
  cb_after : Z -> bool -> cb_state -> cb_state
}.

(** The settings of [New]: requests let through when half open, the interval
    and the timeout in nanoseconds, and the number of consecutive failures that
    trips it. *)
Record Settings := mkSettings {
  MaxRequests : Z;
  Interval : Z;
  BreakerTimeout : Z;
  failureThreshold : Z
}.

Definition default_settings : Settings := mkSettings 1 (60 * 1000000000) (10 * 1000000000) 5.

Definition ReadyToTrip (s : Settings) (ConsecutiveFailures : Z) : bool := failureThreshold s <=? ConsecutiveFailures.

Section Execute.
Context `{GoBreaker} {W : Type}.
Context (get : W -> cb_state) (put : cb_state -> W -> W) (now : W -> Z).

(** [Execute] and [Run]: the call runs only when the breaker lets it through;
    its error counts as a failure and is returned as it is. *)
Definition Execute {T} (fn : M W (result string T)) : M W (result string T) := fun w =>
  match cb_before (now w) (get w) with
  | Err e => (Err e, w)
  | Ok s =>
      let '(r, w1) := fn (put s w) in
      (r, put (cb_after (now w1) (is_ok r) (get w1)) w1)
  end.

End Execute.
End CircuitBreaker.

Module GithubApi.

(** ** [payload.go] *)
Record Repo := mkRepo {
  gr_ID : Z;
  gr_FullName : string;
  gr_DefaultBranch : string
}.

(** ** [provider.go] *)

(** [net/url]: the parts of a URL the code reads or sets. *)
Record URL := mkURL {
  Scheme : string;
  UserInfo : option (string * string);
  url_rest : string
}.

Class NetURL := {
  url_Parse : string -> result string URL;
  url_String : URL -> string
}.

Definition BuildAuthURL `{NetURL} (repoURL token : string) : result string string :=
  match url_Parse repoURL with
  | Err e => Err ("invalid repo URL: " +:+ e)
  | Ok u =>
      let u := if negb (bool_decide (token = "")) && bool_decide (Scheme u = "https")
               then mkURL (Scheme u) (Some ("x-access-token", token)) (url_rest u) else u in
      Ok (url_String u)
  end.

(** ** [client.go] *)
Record HttpRequest := mkHttpRequest {
  rq_Method : string;
  rq_URL : string;
  rq_Authorization : string;
  rq_Accept : string
}.

(** A response; [rs_Body] is [None] when reading it fails. *)
Record HttpResponse := mkHttpResponse {
  StatusCode : Z;
  rs_Body : option string
}.

(** The decoded page of [ListRepos]. *)
Record RepoPage := mkRepoPage {
  TotalCount : Z;
  Repositories : list Repo
}.

Class GithubEnv (W : Type) := {
  gh_now : W -> Z;
  (* [jwt.ParseRSAPrivateKeyFromPEM] and [SignedString]: issued at, expires at, issuer *)
  gh_sign : Z -> Z -> string -> result string string;
  (* the error of [http.NewRequestWithContext] on a URL, if it has one *)
  gh_bad_url : string -> option string;
  gh_Do : HttpRequest -> M W (result string HttpResponse);
  gh_decode_token : string -> result string string;
  gh_decode_repos : string -> result string RepoPage
}.

Section Client.
Context {W : Type} `{GithubEnv W} (appID : Z) (apiBaseURL : string).

Definition second : Z := 1000000000.

Definition generateAppJWT : M W (result string string) := fun w =>
  let iat := gh_now w - 60 * second in
  match gh_sign iat (iat + 10 * 60 * second) (FormatInt appID) with
  | Ok signed => (Ok signed, w)
  | Err e => (Err e, w)
  end.

(** [string(body)] of [body, _ := io.ReadAll(resp.Body)] *)
Definition body_text (r : HttpResponse) : string := default "" (rs_Body r).

Definition api_error (r : HttpResponse) : string :=
  "GitHub API returned " +:+ FormatInt (StatusCode r) +:+ ": " +:+ body_text r.

(** [http.NewRequestWithContext] and [httpClient.Do] *)
Definition send (ctext dtext : string) (rq : HttpRequest) : M W (result string HttpResponse) :=
  match gh_bad_url (rq_URL rq) with
  | Some e => ret (Err (ctext +:+ e))
  | None =>
      r <- gh_Do rq ;;
      ret (match r with Ok r => Ok r | Err e => Err (dtext +:+ e) end)
  end.

(** The body of [GenerateCloneToken]; the handler runs it through the breaker. *)
Definition GenerateCloneToken_do (installationID : Z) : M W (result string string) :=
  try appJWT <- generateAppJWT catch e => ret (Err e) ;;
  let url := apiBaseURL +:+ "/app/installations/" +:+ FormatInt installationID +:+ "/access_tokens" in
  try resp <- send "failed to create request: " "failed to call GitHub API: "
                (mkHttpRequest "POST" url ("Bearer " +:+ appJWT) "application/vnd.github+json")
    catch e => ret (Err e) ;;
  if negb (bool_decide (StatusCode resp = StatusCreated)) then ret (Err (api_error resp))
  else
    match rs_Body resp with
    | None => ret (Err "failed to decode response: read error")
    | Some b =>
        match gh_decode_token b with
        | Err e => ret (Err ("failed to decode response: " +:+ e))
        | Ok t => if decide (t = "") then ret (Err "GitHub API returned empty token") else ret (Ok t)
        end
    end.

(** Calls go through the breaker when one is attached. *)
Context (guarded : M W (result string string) -> M W (result string string)).

Definition GenerateCloneToken (installationID : Z) : M W (result string string) :=
  guarded (GenerateCloneToken_do installationID).

Definition GetBlob (installationID : Z) (repoFullName sha : string) : M W (result string string) :=
  try token <- GenerateCloneToken installationID catch e => ret (Err ("generate token: " +:+ e)) ;;
  let url := apiBaseURL +:+ "/repos/" +:+ repoFullName +:+ "/git/blobs/" +:+ sha in
  try resp <- send "create request: " "get blob: "
                (mkHttpRequest "GET" url ("token " +:+ token) "application/vnd.github.raw+json")
    catch e => ret (Err e) ;;
  if negb (bool_decide (StatusCode resp = StatusOK)) then ret (Err (api_error resp))
  else match rs_Body resp with
       | None => ret (Err "read blob body: read error")
       | Some b => ret (Ok b)
       end.

(** One iteration of the loop of [ListRepos]. *)
Definition list_page (token : string) (page : Z) : M W (result string RepoPage) :=
  let url := apiBaseURL +:+ "/installation/repositories?per_page=100&page=" +:+ FormatInt page in
  try resp <- send "create request: " "list repos: "
                (mkHttpRequest "GET" url ("token " +:+ token) "application/vnd.github+json")
    catch e => ret (Err e) ;;
  if negb (bool_decide (StatusCode resp = StatusOK)) then ret (Err (api_error resp))
  else match rs_Body resp with
       | None => ret (Err "decode response: read error")
       | Some b =>
           match gh_decode_repos b with
           | Err e => ret (Err ("decode response: " +:+ e))
           | Ok p => ret (Ok p)
           end
       end.

(** The loop; [None] when the fuel runs out before it ends. *)
Fixpoint list_pages (fuel : nat) (token : string) (page : Z) (repos : list Repo) :
    M W (option (result string (list Repo))) :=
  match fuel with
  | O => ret None
  | S fuel =>
      try p <- list_page token page catch e => ret (Some (Err e)) ;;
      let repos := repos ++ Repositories p in
      if TotalCount p <=? Z.of_nat (length repos) then ret (Some (Ok repos))
      else list_pages fuel token (page + 1) repos
  end.

Definition ListRepos (fuel : nat) (installationID : Z) : M W (option (result string (list Repo))) :=
  try token <- GenerateCloneToken installationID catch e => ret (Some (Err ("generate token: " +:+ e))) ;;
  list_pages fuel token 1 [].

End Client.
End GithubApi.

(** * Lemmas *)

Module GithubFacts.
Import GithubApi.

Section Facts.
Context {W : Type} `{GithubEnv W} (apiBaseURL : string).

Definition page_request (token : string) (page : Z) : HttpRequest :=
  mkHttpRequest "GET" (apiBaseURL +:+ "/installation/repositories?per_page=100&page=" +:+ FormatInt page)
    ("token " +:+ token) "application/vnd.github+json".

(** What a server answers to the request of a page. *)
Definition answers (token : string) (page : Z) (p : RepoPage) : Prop :=
  gh_bad_url (rq_URL (page_request token page)) = None /\
  forall w, exists b w', gh_Do (page_request token page) w = (Ok (mkHttpResponse StatusOK (Some b)), w') /\
    gh_decode_repos b = Ok p.

Lemma list_page_answered token page p w :
  answers token page p -> exists w', list_page apiBaseURL token page w = (Ok p, w').
Proof.
  intros [Hu Hd]. destruct (Hd w) as (b & w' & Hdo & Hdec). exists w'.
  unfold list_page, send. fold (page_request token page). rewrite Hu.
  erewrite bind_eval; [|erewrite bind_eval; [reflexivity|exact Hdo]]. cbn. by rewrite Hdec.
Qed.

(** The page of a listing of [all], 100 entries per page. *)
Definition page_of (all : list Repo) (page : Z) : RepoPage :=
  mkRepoPage (Z.of_nat (length all)) (take 100 (drop (100 * Z.to_nat (page - 1)) all)).

(** After [n] pages the loop has the first [100 * n] entries, and ends with all
    of them. *)
Lemma list_pages_collects all token fuel : forall n w,
  (forall page, 1 <= page -> answers token page (page_of all page)) ->
  (length all <= 100 * (n + fuel))%nat -> (0 < fuel)%nat ->
  exists w', list_pages apiBaseURL fuel token (1 + Z.of_nat n) (take (100 * n) all) w = (Some (Ok all), w').
Proof.
  induction fuel as [|fuel IH]; intros n w Ha Hlen Hf; [lia|].
  destruct (list_page_answered token (1 + Z.of_nat n) (page_of all (1 + Z.of_nat n)) w) as [w1 Hp]; [apply Ha; lia|].
  cbn [list_pages]. erewrite bind_eval by exact Hp. cbn [Repositories TotalCount page_of].
  replace (Z.to_nat (1 + Z.of_nat n - 1)) with n by lia.
  rewrite take_take_drop. replace (100 * n + 100)%nat with (100 * S n)%nat by lia.
  destruct (_ <=? _) eqn:E.
  - exists w1. rewrite length_take in E. apply Z.leb_le in E. unfold ret. do 3 f_equal. apply take_ge.
    lia.
  - rewrite length_take in E. replace (1 + Z.of_nat n + 1) with (1 + Z.of_nat (S n)) by lia.
    apply Z.leb_gt in E. apply IH; [done|lia|]. lia.
Qed.

(** A server whose count never matches what it lists keeps the loop running. *)
Lemma list_pages_diverges token fuel : forall page w,
  (forall page, answers token page (mkRepoPage 1 [])) ->
  exists w', list_pages apiBaseURL fuel token page [] w = (None, w').
Proof.
  induction fuel as [|fuel IH]; intros page w Ha; [by eexists|].
  destruct (list_page_answered token page (mkRepoPage 1 []) w) as [w1 Hp]; [done|].
  cbn [list_pages]. erewrite bind_eval by exact Hp. cbn. by apply IH.
Qed.

End Facts.
End GithubFacts.

(** * Properties *)

Module GithubProps.
Import GithubApi GithubFacts.

(** C31: Listing an installation: against a server that serves the list [all]
    in pages of 100 with its total, the loop of [ListRepos] ends after at most
    one page per 100 repositories (and one for an empty list) and returns
    exactly [all], in the server's order. *)
Theorem list_repos_returns_every_repository {W} `{GithubEnv W} appID base guarded installationID all token fuel w w1 :
  GenerateCloneToken appID base guarded installationID w = (Ok token, w1) ->
  (forall page, 1 <= page -> answers base token page (page_of all page)) ->
  (length all <= 100 * fuel)%nat -> (0 < fuel)%nat ->
  exists w', ListRepos appID base guarded fuel installationID w = (Some (Ok all), w').
Proof.
  intros Ht Ha Hlen Hf. unfold ListRepos. erewrite bind_eval by exact Ht.
  apply (list_pages_collects base all token fuel 0 w1); [done|lia|done].
Qed.

(** A server for closed examples: three repositories, one token. *)
Definition ex_repos : list Repo := [mkRepo 1 "a/x" "main"; mkRepo 2 "a/y" "main"; mkRepo 3 "a/z" "dev"].

#[local] Instance ex_env : GithubEnv unit := {|
  gh_now _ := 0;
  gh_sign iat exp iss := Ok "jwt";
  gh_bad_url _ := None;
  gh_Do rq := fun w =>
    (Ok (if decide (rq_Method rq = "POST") then mkHttpResponse StatusCreated (Some "tok")
         else mkHttpResponse StatusOK (Some (rq_URL rq))), w);
  gh_decode_token b := Ok b;
  gh_decode_repos b :=
    Ok (mkRepoPage 3 (if decide (b = "/installation/repositories?per_page=100&page=1") then ex_repos else []))
|}.

Lemma list_repos_returns_every_repository_witness :
  exists w', ListRepos 7 "" (fun c => c) 1 42 tt = (Some (Ok ex_repos), w').
Proof.
  apply (list_repos_returns_every_repository 7 "" (fun c => c) 42 ex_repos "tok" 1 tt tt).
  - vm_compute. reflexivity.
  - intros page Hp. split; [reflexivity|]. intros []. eexists _, tt. split; [reflexivity|].
    cbn [gh_decode_repos ex_env]. case_decide as E.
    + change ("/installation/repositories?per_page=100&page=" +:+ FormatInt page =
              "/installation/repositories?per_page=100&page=" +:+ FormatInt 1) in E.
      apply (inj (String.append _)), FormatInt_inj in E. subst page. reflexivity.
    + unfold page_of. rewrite drop_ge; [reflexivity|]. cbn.
      destruct (decide (page = 1)) as [->|Hne]; [by destruct E|lia].
  - cbn. lia.
  - lia.
Defined.

(** When the reported total is larger than what is listed (a repository was
    removed meanwhile), no number of requests ends the loop. *)
Lemma list_repos_can_run_forever {W} `{GithubEnv W} appID base guarded installationID token fuel w w1 :
  GenerateCloneToken appID base guarded installationID w = (Ok token, w1) ->
  (forall page, answers base token page (mkRepoPage 1 [])) ->
  exists w', ListRepos appID base guarded fuel installationID w = (None, w').
Proof.
  intros Ht Ha. unfold ListRepos. erewrite bind_eval by exact Ht. by apply list_pages_diverges.
Qed.

End GithubProps.
