(* ===== verification/Worker.v ===== *)
(** The worker: [services/worker/internal] (the executor, the callback client,
    the Cloud Tasks handler and the poller) and the job runner
    [services/shared/go/runner/runner.go].

    The worker's state holds the world of the API it calls, so that a callback
    runs the API's own handler on the API's database; the network decides per
    call whether the request and the reply arrive and how long they take.  The
    file system, [git], [zigzag], the JSON codecs and the breaker library are
    parameters.  An error is its text. *)

From S2P Require Import Prelude GoStr Sha256 JobToken Store JobStore HttpUtil Middleware JobService Callback JobEffects JobSystem JobProps Services GithubApi.

(** * Definitions *)

(** ** [context.Context]: the deadline, in nanoseconds *)
Module GoContext.

Definition Context : Set := option Z.

Definition Background : Context := None.

Definition expired (now : Z) (c : Context) : bool :=
  match c with Some d => d <=? now | None => false end.

Definition WithTimeout (now : Z) (c : Context) (t : Z) : Context :=
  Some (match c with Some d => Z.min d (now + t) | None => now + t end).

Definition DeadlineExceeded : string := "context deadline exceeded".

End GoContext.

(** ** The state of a worker *)

(** Directories (the temporary work directories) and files by path. *)
Record FS := mkFS {
  fs_dirs : gset string;
  fs_files : gmap string string
}.

(** The fate of one HTTP exchange: microseconds until the request arrives and
    from there until the reply does, and whether each of them does. *)
Record Net := mkNet {
  n_out : Z;
  n_delivered : bool;
  n_back : Z;
  n_replied : bool
}.

Definition healthy_net : Net := mkNet 0 true 0 true.

Record WState `{CircuitBreaker.GoBreaker} := mkWState {
  ws_api : World;
  ws_fs : FS;
  ws_net : list Net;             (* an empty schedule: every exchange is healthy *)
  ws_delays : list Z;            (* how long the next external commands take *)
  ws_breaker : CircuitBreaker.cb_state;
  ws_sent : list (string * string)  (* the requests handed to the HTTP client: path and body *)
}.

Section State.
Context `{CircuitBreaker.GoBreaker}.

Definition set_api (w : World) (s : WState) : WState :=
  mkWState _ w (ws_fs s) (ws_net s) (ws_delays s) (ws_breaker s) (ws_sent s).
Definition set_fs (f : FS) (s : WState) : WState :=
  mkWState _ (ws_api s) f (ws_net s) (ws_delays s) (ws_breaker s) (ws_sent s).
Definition set_net (n : list Net) (s : WState) : WState :=
  mkWState _ (ws_api s) (ws_fs s) n (ws_delays s) (ws_breaker s) (ws_sent s).
Definition set_delays (l : list Z) (s : WState) : WState :=
  mkWState _ (ws_api s) (ws_fs s) (ws_net s) l (ws_breaker s) (ws_sent s).
Definition set_breaker (b : CircuitBreaker.cb_state) (s : WState) : WState :=
  mkWState _ (ws_api s) (ws_fs s) (ws_net s) (ws_delays s) b (ws_sent s).
Definition add_sent (path body : string) (s : WState) : WState :=
  mkWState _ (ws_api s) (ws_fs s) (ws_net s) (ws_delays s) (ws_breaker s) (ws_sent s ++ [(path, body)]).

(** [time.Now()] *)
Definition ws_now (s : WState) : Z := go_now (ws_api s).

Definition advance (dt : Z) (s : WState) : WState :=
  set_api (let w := ws_api s in
           mkWorld (w_db w) (w_tx w) (w_now w + dt) (w_ids w) (w_faults w) (w_tasks w) (w_objects w) (w_cache w)) s.

(** Run a computation of the API's world. *)
Definition on_api {A} (c : M World A) : M WState A := fun s =>
  let '(a, w) := c (ws_api s) in (a, set_api w s).

End State.

(** ** [runner.go] *)
Module Runner.
Import GoContext.

Record Config := mkConfig {
  WorkspaceDir : string;
  ZigzagBin : string;
  ReportsDir : string;
  JobTimeout : Z
}.

Record Result := mkResult {
  res_ReportsDir : string;
  res_ZigzagVersion : string;
  res_SizeBytes : Z
}.

Record JobInfo := mkJobInfo {
  ji_RepoFullName : string;
  ji_Branch : string;
  ji_CommitSHA : string;
  ji_CloneToken : string;
  ji_InstallationID : Z
}.

(** The host the worker runs on. *)
Class Host := {
  MkdirAll : string -> FS -> result string FS;
  MkdirTemp : string -> FS -> result string (string * FS);
  RemoveAll : string -> FS -> result string FS;
  (* [git clone --depth 1 --branch ref url dst]: the error and output *)
  git_clone : string -> string -> string -> FS -> result string unit * FS;
  (* [zigzag run --no-watch --output-dir dir] in a directory *)
  zigzag_run : string -> string -> string -> FS -> result string unit * FS;
  (* the files below a directory *)
  WalkDir : string -> FS -> result string (list string);
  (* [json.Unmarshal] of a report: its [meta.version] *)
  report_version : string -> result string string;
  (* which of the two goroutines of [collectResult] fails first when both do *)
  walk_fails_first : bool
}.

(** [filepath.Join] on a clean directory path. *)
Definition Join (dir name : string) : string := dir +:+ "/" +:+ name.

Definition ReadFile (path : string) (f : FS) : result string string :=
  result_of_option ("open " +:+ path +:+ ": no such file or directory") (fs_files f !! path).

Section Runner.
Context `{CircuitBreaker.GoBreaker} `{Host} `{GithubApi.NetURL}.
Context (cfg : Config).

(** [exec.CommandContext(ctx, ...).CombinedOutput()] *)
Definition run_command (ctx : Context) (cmd : FS -> result string unit * FS) : M WState (result string unit) := fun s =>
  if expired (ws_now s) ctx then (Err DeadlineExceeded, s)
  else
    let s1 := advance (hd 0 (ws_delays s)) (set_delays (tl (ws_delays s)) s) in
    let '(r, f) := cmd (ws_fs s1) in
    (if expired (ws_now s1) ctx then Err "signal: killed" else r, set_fs f s1).

(** [CloneRepo] of [client.go] *)
Definition CloneRepo (ctx : Context) (repoURL ref token dst : string) : M WState (result string unit) :=
  match GithubApi.BuildAuthURL repoURL token with
  | Err e => ret (Err e)
  | Ok authURL =>
      try _ <- run_command ctx (git_clone ref authURL dst) catch e => ret (Err ("git clone failed: " +:+ e)) ;;
      ret (Ok tt)
  end.

(** The version goroutine of [collectResult]. *)
Definition read_version (reportsDir : string) (f : FS) : result string string :=
  match ReadFile (Join reportsDir "report.json") f with
  | Err e => Err ("read report.json: " +:+ e)
  | Ok data =>
      match report_version data with
      | Err e => Err ("parse report.json: " +:+ e)
      | Ok v => Ok v
      end
  end.

(** The size goroutine: the files are measured concurrently and added to an
    atomic counter in the order [paths] in which they finish; a file that is
    gone counts nothing. *)
Definition add_sizes (f : FS) (paths : list string) : Z :=
  foldl (fun n p => match fs_files f !! p with Some c => wrap64 (n + len c) | None => n end) 0 paths.

Definition walk_sizes (reportsDir : string) (f : FS) : result string Z :=
  match WalkDir reportsDir f with
  | Err e => Err ("walk reports dir: " +:+ e)
  | Ok paths => Ok (add_sizes f paths)
  end.

Definition collectResult (reportsDir : string) (f : FS) : result string Result :=
  match read_version reportsDir f, walk_sizes reportsDir f with
  | Ok v, Ok n => Ok (mkResult reportsDir v n)
  | Err e, Ok _ => Err e
  | Ok _, Err e => Err e
  | Err e1, Err e2 => Err (if walk_fails_first then e2 else e1)
  end.

(** Inside the work directory; the deferred removal follows. *)
Definition run_in (ctx : Context) (cloneURL branch token workDir : string) : M WState (result string Result) :=
  let repoDir := Join workDir "repo" in
  try _ <- CloneRepo ctx cloneURL branch token repoDir catch e => ret (Err ("clone repo: " +:+ e)) ;;
  try _ <- run_command ctx (zigzag_run (ZigzagBin cfg) repoDir (ReportsDir cfg))
    catch e => ret (Err ("zigzag run: " +:+ e)) ;;
  try res <- gets (fun s => collectResult (ReportsDir cfg) (ws_fs s))
    catch e => ret (Err ("collect result: " +:+ e)) ;;
  ret (Ok res).

(** [os.RemoveAll]; a failure is logged. *)
Definition remove_dir (dir : string) : M WState unit := fun s =>
  match RemoveAll dir (ws_fs s) with Ok f => (tt, set_fs f s) | Err _ => (tt, s) end.

(** [cloneAndRun]; the commit is only logged. *)
Definition cloneAndRun (ctx : Context) (cloneURL branch commitSHA token repoName : string) :
    M WState (result string Result) := fun s =>
  match MkdirAll (WorkspaceDir cfg) (ws_fs s) with
  | Err e => (Err ("create workspace dir: " +:+ e), s)
  | Ok f =>
      match MkdirTemp (WorkspaceDir cfg) f with
      | Err e => (Err ("create work dir: " +:+ e), set_fs f s)
      | Ok (workDir, f) =>
          (res <- run_in ctx cloneURL branch token workDir ;;
           do remove_dir workDir ;;
           ret res) (set_fs f s)
      end
  end.

Definition job_context (ctx : Context) (timeout now : Z) : Context :=
  if 0 <? timeout then WithTimeout now ctx timeout else ctx.

Definition RunWithToken (ctx : Context) (info : JobInfo) : M WState (result string Result) := fun s =>
  let ctx := job_context ctx (JobTimeout cfg) (ws_now s) in
  let cloneURL := "https://github.com/" +:+ ji_RepoFullName info +:+ ".git" in
  cloneAndRun ctx cloneURL (ji_Branch info) (ji_CommitSHA info) (ji_CloneToken info) (ji_RepoFullName info) s.

(** [Run]: the token is generated within the job's deadline, by the cloner
    [GenerateCloneToken] of the interface [RepoCloner]. *)
Definition Run (GenerateCloneToken : Context -> Z -> M WState (result string string)) (ctx : Context)
    (event : Github.WebhookEvent) : M WState (result string Result) := fun s =>
  let ctx := job_context ctx (JobTimeout cfg) (ws_now s) in
  (try token <- GenerateCloneToken ctx (Github.InstallationID event) catch e => ret (Err ("generate clone token: " +:+ e)) ;;
   cloneAndRun ctx (Github.CloneURL event) (Github.Branch event) (Github.CommitSHA event) token (Github.RepoName event)) s.

End Runner.

(** [Drain]: what the select statement of the loop receives, in order, with the
    number of jobs in flight at that time. *)
Inductive DrainEvent : Set :=
| DrainDone
| DrainTick (inflight : Z)
| DrainDeadline (inflight : Z).

(** [None] when the loop still waits. *)
Fixpoint Drain (events : list DrainEvent) : option (result string unit) :=
  match events with
  | [] => None
  | DrainDone :: _ => Some (Ok tt)
  | DrainTick _ :: events => Drain events
  | DrainDeadline n :: _ =>
      Some (if decide (n = 0) then Ok tt
            else Err ("drain timeout: " +:+ FormatInt n +:+ " jobs still running"))
  end.

End Runner.

(** ** [apiclient/client.go] *)
Module ApiClient.
Import GoContext.

Record CompleteRequest := mkCompleteRequest {
  acr_JobID : string;
  acr_Status : string;
  acr_ErrorMessage : string;
  acr_SnapshotPath : string;
  acr_ZigzagVersion : string;
  acr_SizeBytes : Z
}.

Definition ErrStartFailed : string := "start callback failed".
Definition ErrCompleteFailed : string := "complete callback failed".
Definition ErrEmptyJobID : string := "job_id is required".
Definition ErrEmptyStatus : string := "status is required".
Definition ErrInvalidStatus : string := "status must be succeeded or failed".

(** What the other side of the HTTP calls is: a status and a body for a path,
    an Authorization header and a body. *)
Class CallbackServer := {
  post : string -> string -> string -> M World (Z * string)
}.

(** [encoding/json] on the messages of the callbacks. *)
Class CallbackJson := {
  marshal_start : string -> string;
  marshal_complete : CompleteRequest -> string;
  marshal_start_response : Callback.StartResponse -> string;
  unmarshal_start_response : string -> result string Callback.StartResponse
}.

Record Client := mkClient {
  baseURL : string;
  signer : JobToken.Signer;
  has_breaker : bool
}.

Section Client.
Context `{CircuitBreaker.GoBreaker} `{CallbackServer} `{CallbackJson}.
(** The error of [http.NewRequestWithContext] on a URL, if it has one. *)
Context (bad_url : string -> option string).
Context (c : Client).

(** [c.http.Do(req)]: the exchange ends with an error when the context is or
    gets done, or when the request or the reply is lost. *)
Definition http_Do (ctx : Context) (path authorization body : string) : M WState (result string (Z * string)) := fun s =>
  let s := add_sent path body s in
  if expired (ws_now s) ctx then (Err DeadlineExceeded, s)
  else
    let n := hd healthy_net (ws_net s) in
    let s1 := advance (n_out n) (set_net (tl (ws_net s)) s) in
    if expired (ws_now s1) ctx then (Err DeadlineExceeded, s1)
    else if negb (n_delivered n) then (Err "connection error", s1)
    else
      let '(r, s2) := on_api (post path authorization body) s1 in
      let s3 := advance (n_back n) s2 in
      if expired (ws_now s3) ctx then (Err DeadlineExceeded, s3)
      else if negb (n_replied n) then (Err "connection error", s3)
      else (Ok r, s3).

(** Through the circuit breaker when one is attached. *)
Definition guarded {T} (fn : M WState (result string T)) : M WState (result string T) :=
  if has_breaker c then CircuitBreaker.Execute ws_breaker set_breaker ws_now fn else fn.

Definition status_error (text : string) (code : Z) (body : string) : string :=
  text +:+ ": status " +:+ FormatInt code +:+ ": " +:+ body.

Definition authorization (jobID : string) (s : WState) : string :=
  "Bearer " +:+ JobToken.Sign (signer c) (ws_now s) jobID.

Definition Start_do (ctx : Context) (auth body : string) : M WState (result string Callback.StartResponse) :=
  try resp <- http_Do ctx "/internal/jobs/start" auth body catch e => ret (Err ("start request: " +:+ e)) ;;
  let '(code, text) := (resp : Z * string) in
  if negb (bool_decide (code = StatusOK)) then ret (Err (status_error ErrStartFailed code text))
  else match unmarshal_start_response text with
       | Err e => ret (Err ("decode start response: " +:+ e))
       | Ok r => ret (Ok r)
       end.

Definition Start (ctx : Context) (jobID : string) : M WState (result string Callback.StartResponse) :=
  if decide (jobID = "") then ret (Err ErrEmptyJobID)
  else match bad_url (baseURL c +:+ "/internal/jobs/start") with
       | Some e => ret (Err ("create start request: " +:+ e))
       | None =>
           auth <- gets (authorization jobID) ;;
           guarded (Start_do ctx auth (marshal_start jobID))
       end.

Definition Complete_do (ctx : Context) (auth body : string) : M WState (result string unit) :=
  try resp <- http_Do ctx "/internal/jobs/complete" auth body catch e => ret (Err ("complete request: " +:+ e)) ;;
  let '(code, text) := (resp : Z * string) in
  if negb (bool_decide (code = StatusOK)) then ret (Err (status_error ErrCompleteFailed code text))
  else ret (Ok tt).

Definition Complete (ctx : Context) (req : CompleteRequest) : M WState (result string unit) :=
  if decide (acr_JobID req = "") then ret (Err ErrEmptyJobID)
  else if decide (acr_Status req = "") then ret (Err ErrEmptyStatus)
  else if negb (bool_decide (acr_Status req = "succeeded")) && negb (bool_decide (acr_Status req = "failed"))
       then ret (Err ErrInvalidStatus)
  else match bad_url (baseURL c +:+ "/internal/jobs/complete") with
       | Some e => ret (Err ("create complete request: " +:+ e))
       | None =>
           auth <- gets (authorization (acr_JobID req)) ;;
           guarded (Complete_do ctx auth (marshal_complete req))
       end.

End Client.
End ApiClient.

(** ** [executor/executor.go] *)
Module Executor.
Import GoContext ApiClient Runner.

Section Executor.
Context `{CircuitBreaker.GoBreaker} `{CallbackServer} `{CallbackJson} `{Host} `{GithubApi.NetURL}.
Context (bad_url : string -> option string).
(** [api] is [None] when no client is configured. *)
Context (api : option Client) (cfg : Config).

Definition failed_request (jobID errMsg : string) : CompleteRequest := mkCompleteRequest jobID "failed" errMsg "" "" 0.

Definition succeeded_request (jobID path : string) (r : Result) : CompleteRequest :=
  mkCompleteRequest jobID "succeeded" "" path (res_ZigzagVersion r) (res_SizeBytes r).

Definition completeFailed (c : Client) (ctx : Context) (jobID errMsg : string) : M WState unit :=
  _ <- Complete bad_url c ctx (failed_request jobID errMsg) ;;  (* an error is logged *)
  ret tt.

Definition readReportFile (reportsDir : string) (f : FS) : result string string :=
  ReadFile (Join reportsDir "report.json") f.

(** [e.gcs.Upload] within the context; the text of a storage error. *)
Definition gcs_Upload (ctx : Context) (path data : string) : M WState (result string unit) := fun s =>
  let fail := Err ("write object " +:+ path) in
  if expired (ws_now s) ctx then (fail, s)
  else
    let '(r, s1) := on_api (Storage.Upload path data) (advance (hd 0 (ws_delays s)) (set_delays (tl (ws_delays s)) s)) in
    (if expired (ws_now s1) ctx then fail else match r with Ok _ => Ok tt | Err _ => fail end, s1).

(** Steps 3 and 4: upload the report, report success. *)
Definition deliver (c : Client) (ctx : Context) (jobID orgID repoID : string) (info : Callback.StartResponse)
    (res : Result) : M WState unit :=
  let gcsPath := Storage.SnapshotPath orgID repoID (Callback.CommitSHA info) in
  try data <- gets (fun s => readReportFile (res_ReportsDir res) (ws_fs s))
    catch e => completeFailed c ctx jobID ("read report: " +:+ e) ;;
  try _ <- gcs_Upload ctx gcsPath data
    catch e => completeFailed c ctx jobID ("gcs upload: " +:+ e) ;;
  _ <- Complete bad_url c ctx (succeeded_request jobID gcsPath res) ;;  (* an error is logged *)
  ret tt.

Definition Execute (ctx : Context) (jobID orgID repoID : string) : M WState unit :=
  match api with
  | None => ret tt
  | Some c =>
      try info <- Start bad_url c ctx jobID
        catch e => completeFailed c ctx jobID ("start callback: " +:+ e) ;;
      try res <- RunWithToken cfg ctx (mkJobInfo (Callback.RepoFullName info) (Callback.Branch info)
                                         (Callback.CommitSHA info) (Callback.CloneToken info)
                                         (Callback.InstallationID info))
        catch e => completeFailed c ctx jobID e ;;
      deliver c ctx jobID orgID repoID info res
  end.

(** ** [handler/handler.go] *)
Context `{UUIDCodec} (verifier : JobToken.Signer).

Record runRequest := mkRunRequest { rr_JobID : string; rr_JobToken : string }.

Definition Run (ctx : Context) (body : option runRequest) : M WState (Resp unit) :=
  match body with
  | None => ret (Fail StatusBadRequest "invalid request body")
  | Some req =>
      if bool_decide (rr_JobID req = "") || bool_decide (rr_JobToken req = "")
      then ret (Fail StatusBadRequest "job_id and job_token are required")
      else
        now <- gets ws_now ;;
        match JobToken.Validate verifier (rr_JobID req) (rr_JobToken req) now with
        | Err _ => ret (Fail StatusUnauthorized "unauthorized")
        | Ok _ =>
            match uuid_scan (rr_JobID req) with
            | None => ret (Fail StatusBadRequest "invalid job_id")
            | Some jobUUID =>
                try repo <- on_api (query (JobStore.GetRepoForJob jobUUID))
                  catch e => ret (Fail StatusInternalServerError "job lookup failed") ;;
                let repoID := uuid_text (JobStore.rj_ID repo) in
                do Execute ctx (rr_JobID req) repoID repoID ;;
                ret (Reply StatusOK tt)
            end
        end
  end.

End Executor.
End Executor.

(** * Lemmas *)

(** A run that generates its own token is the run with that token. *)
Lemma Run_is_RunWithToken `{CircuitBreaker.GoBreaker} `{Runner.Host} `{GithubApi.NetURL} cfg gct ctx (ev : Github.WebhookEvent) token s :
  Github.CloneURL ev = "https://github.com/" +:+ Github.RepoName ev +:+ ".git" ->
  gct (Runner.job_context ctx (Runner.JobTimeout cfg) (ws_now s)) (Github.InstallationID ev) s = (Ok token, s) ->
  Runner.Run cfg gct ctx ev s =
  Runner.RunWithToken cfg ctx (Runner.mkJobInfo (Github.RepoName ev) (Github.Branch ev) (Github.CommitSHA ev) token (Github.InstallationID ev)) s.
Proof. intros Hurl Ht. unfold Runner.Run, Runner.RunWithToken, bind. by rewrite Ht, Hurl. Qed.

Module WorkerFacts.
Import GoContext Runner ApiClient Executor.

Fixpoint zsum (l : list Z) : Z := match l with [] => 0 | x :: l => x + zsum l end.

Lemma zsum_app l1 l2 : zsum (l1 ++ l2) = zsum l1 + zsum l2.
Proof. induction l1 as [|x l1 IH]; cbn; lia. Qed.

Lemma hd_zsum l : hd 0 l = zsum (take 1 l).
Proof. destruct l as [|x l]; [done|]. change (take 1 (x :: l)) with (x :: take 0 l). rewrite take_0. cbn. lia. Qed.

Section Facts.
Context `{CircuitBreaker.GoBreaker} `{CallbackServer} `{CallbackJson} `{Host} `{GithubApi.NetURL}.

(** ** Work on the host: it takes time and changes files, nothing else *)
Definition worked (s s' : WState) : Prop :=
  exists n, ws_delays s' = drop n (ws_delays s) /\
    ws_api s' = ws_api (advance (zsum (take n (ws_delays s))) s) /\
    ws_net s' = ws_net s /\ ws_breaker s' = ws_breaker s /\ ws_sent s' = ws_sent s.

Lemma advance_api dt s : ws_api (advance dt s) =
  mkWorld (w_db (ws_api s)) (w_tx (ws_api s)) (w_now (ws_api s) + dt) (w_ids (ws_api s)) (w_faults (ws_api s))
    (w_tasks (ws_api s)) (w_objects (ws_api s)) (w_cache (ws_api s)).
Proof. done. Qed.

#[global] Instance worked_preorder : PreOrder worked.
Proof.
  split.
  - intros s. exists 0%nat. rewrite drop_0, advance_api. cbn. rewrite Z.add_0_r. by destruct s as [[]].
  - intros s1 s2 s3 (n & Hd1 & Ha1 & Hn1 & Hb1 & Hs1) (m & Hd2 & Ha2 & Hn2 & Hb2 & Hs2).
    exists (n + m)%nat. rewrite Hd2, Hd1, drop_drop, Hn2, Hb2, Hs2. split_and!; try done.
    rewrite Ha2, advance_api, Hd1, Ha1, !advance_api. cbn. f_equal.
    rewrite <-take_take_drop, zsum_app. lia.
Qed.

Lemma worked_set_fs f s : worked s (set_fs f s).
Proof. exists 0%nat. rewrite drop_0, advance_api. cbn. rewrite Z.add_0_r. by destruct s as [[]]. Qed.

Lemma run_command_worked ctx cmd s r s' : run_command ctx cmd s = (r, s') -> worked s s'.
Proof.
  unfold run_command. intros Hr. destruct (expired _ _); simplify_eq; [done|].
  destruct (cmd _) as [rc f]. simplify_eq. exists 1%nat. rewrite hd_zsum. cbn.
  by destruct (ws_delays s).
Qed.

Lemma CloneRepo_worked ctx u b t d s r s' : CloneRepo ctx u b t d s = (r, s') -> worked s s'.
Proof.
  unfold CloneRepo. intros Hr. destruct (GithubApi.BuildAuthURL u t); [|unfold ret in Hr; by simplify_eq].
  apply bind_inv in Hr as (x & s1 & Hc & Hr). apply run_command_worked in Hc.
  unfold ret in Hr. destruct x; by simplify_eq.
Qed.

Lemma run_in_worked cfg ctx u b t d s r s' :
  run_in cfg ctx u b t d s = (r, s') -> worked s s' /\ (forall e, r = Err e -> e <> "").
Proof.
  unfold run_in. intros Hr. apply bind_inv in Hr as (x & s1 & Hc & Hr). apply CloneRepo_worked in Hc.
  unfold ret, gets in Hr. destruct x as [[]|e]; [|simplify_eq; split; [done|by intros ? [= <-]]].
  apply bind_inv in Hr as (x & s2 & Hz & Hr). apply run_command_worked in Hz.
  destruct x as [[]|e]; [|simplify_eq; split; [by etrans|by intros ? [= <-]]].
  apply bind_inv in Hr as (x & s3 & Hg & Hr). simplify_eq.
  destruct (collectResult _ _); simplify_eq; (split; [by etrans|by intros ? [= <-]]).
Qed.

Lemma remove_dir_worked d s u s' : remove_dir d s = (u, s') -> worked s s'.
Proof. unfold remove_dir. intros Hr. destruct (RemoveAll _ _); simplify_eq; [apply worked_set_fs|done]. Qed.

(** Running a job is work on the host, and its errors have a text. *)
Lemma RunWithToken_worked cfg ctx info s r s' :
  RunWithToken cfg ctx info s = (r, s') -> worked s s' /\ (forall e, r = Err e -> e <> "").
Proof.
  unfold RunWithToken, cloneAndRun. intros Hr.
  destruct (MkdirAll _ _) as [f|e]; [|simplify_eq; split; [done|by intros ? [= <-]]].
  destruct (MkdirTemp _ _) as [[dir f']|e]; [|simplify_eq; split; [apply worked_set_fs|by intros ? [= <-]]].
  apply bind_inv in Hr as (x & s1 & Hi & Hr). apply run_in_worked in Hi as [Hw He].
  apply bind_inv in Hr as (y & s2 & Hd & Hr). apply remove_dir_worked in Hd. unfold ret in Hr. simplify_eq.
  split; [|done]. etrans; [apply (worked_set_fs f')|]. by etrans.
Qed.

(** ** The requests a call hands to the HTTP client *)

Lemma guarded_sent {T} c (fn : M WState (result string T)) s r s' l :
  guarded c fn s = (r, s') -> (forall s0 r0 s0', fn s0 = (r0, s0') -> ws_sent s0' = ws_sent s0 ++ [l]) ->
  ws_sent s' = ws_sent s ++ [l] \/ ws_sent s' = ws_sent s /\ exists e, r = Err e.
Proof.
  unfold guarded, CircuitBreaker.Execute. intros Hr Hfn. destruct (has_breaker c); [|left; eauto].
  destruct (CircuitBreaker.cb_before _ _) as [b|e]; [|right; simplify_eq; eauto].
  destruct (fn (set_breaker b s)) as [r0 s0] eqn:E. simplify_eq. left. by apply Hfn in E.
Qed.

Lemma http_Do_sent ctx path auth body s r s' :
  http_Do ctx path auth body s = (r, s') -> ws_sent s' = ws_sent s ++ [(path, body)].
Proof.
  unfold http_Do, on_api. intros Hr. destruct (post path auth body _) as [p w].
  repeat case_match; by simplify_eq.
Qed.

Lemma Start_do_sent ctx auth body s r s' :
  Start_do ctx auth body s = (r, s') -> ws_sent s' = ws_sent s ++ [("/internal/jobs/start", body)].
Proof.
  unfold Start_do, ret. intros Hr. apply bind_inv in Hr as (x & s1 & Hh & Hr). apply http_Do_sent in Hh.
  repeat case_match; by simplify_eq.
Qed.

Lemma Complete_do_sent ctx auth body s r s' :
  Complete_do ctx auth body s = (r, s') -> ws_sent s' = ws_sent s ++ [("/internal/jobs/complete", body)].
Proof.
  unfold Complete_do, ret. intros Hr. apply bind_inv in Hr as (x & s1 & Hh & Hr). apply http_Do_sent in Hh.
  repeat case_match; by simplify_eq.
Qed.

Definition start_message (jobID : string) : string * string := ("/internal/jobs/start", marshal_start jobID).
Definition complete_message (r : CompleteRequest) : string * string := ("/internal/jobs/complete", marshal_complete r).

Lemma Start_sent bad_url c ctx jobID s r s' :
  Start bad_url c ctx jobID s = (r, s') ->
  ws_sent s' = ws_sent s ++ [start_message jobID] \/ ws_sent s' = ws_sent s /\ exists e, r = Err e.
Proof.
  unfold Start, ret. intros Hr. case_decide; [right; simplify_eq; eauto|].
  destruct (bad_url _); [right; simplify_eq; eauto|].
  apply bind_inv in Hr as (auth & s1 & Hg & Hr). unfold gets in Hg. simplify_eq.
  eapply guarded_sent; [exact Hr|]. intros ??? Hd. by apply Start_do_sent in Hd.
Qed.

Lemma Complete_sent bad_url c ctx req s r s' :
  Complete bad_url c ctx req s = (r, s') ->
  ws_sent s' = ws_sent s ++ [complete_message req] \/ ws_sent s' = ws_sent s.
Proof.
  unfold Complete, ret. intros Hr. case_decide; [right; by simplify_eq|]. case_decide; [right; by simplify_eq|].
  destruct (negb _ && negb _); [right; by simplify_eq|]. destruct (bad_url _); [right; by simplify_eq|].
  apply bind_inv in Hr as (auth & s1 & Hg & Hr). unfold gets in Hg. simplify_eq.
  eapply guarded_sent in Hr; [destruct Hr as [?|[? _]]; eauto|]. intros ??? Hd. by apply Complete_do_sent in Hd.
Qed.

Lemma completeFailed_sent bad_url c ctx jobID msg s u s' :
  completeFailed bad_url c ctx jobID msg s = (u, s') ->
  exists l, ws_sent s' = ws_sent s ++ l /\ (l = [] \/ l = [complete_message (failed_request jobID msg)]).
Proof.
  unfold completeFailed, ret. intros Hr. apply bind_inv in Hr as (x & s1 & Hc & Hr). simplify_eq.
  apply Complete_sent in Hc as [-> | ->]; [eauto|]. exists []. rewrite app_nil_r. eauto.
Qed.

(** An upload that succeeds leaves the object in the bucket. *)
Lemma gcs_Upload_inv ctx path data s r s' :
  gcs_Upload ctx path data s = (r, s') ->
  ws_sent s' = ws_sent s /\ (r = Ok tt -> w_objects (ws_api s') !! path = Some data).
Proof.
  unfold gcs_Upload, on_api, Storage.Upload, bind, next_fault, ret. intros Hr.
  destruct (expired _ _); [by simplify_eq|]. cbn in Hr.
  destruct (w_faults (ws_api s)) as [|[] f]; cbn in Hr; simplify_eq/=;
    (split; [done|]); intros Ho; try (by destruct (expired _ _)); by rewrite lookup_insert_eq.
Qed.

End Facts.
End WorkerFacts.

(** * Properties *)

Module WorkerProps.
Import GoContext Runner ApiClient Executor WorkerFacts.

Section Trace.
Context `{CircuitBreaker.GoBreaker} `{CallbackServer} `{CallbackJson} `{Host} `{GithubApi.NetURL}.

Definition info_of (a : Callback.StartResponse) : JobInfo :=
  mkJobInfo (Callback.RepoFullName a) (Callback.Branch a) (Callback.CommitSHA a) (Callback.CloneToken a)
    (Callback.InstallationID a).

(** Success may be reported: the start was answered, the job ran, and the
    report it read is in the bucket at the path it names. *)
Definition earned (bad_url : string -> option string) (c : Client) (cfg : Config) (ctx : Context)
    (jobID orgID repoID : string) (s : WState) (req : CompleteRequest) : Prop :=
  exists info res data s1 s2 s3,
    Start bad_url c ctx jobID s = (Ok info, s1) /\ RunWithToken cfg ctx (info_of info) s1 = (Ok res, s2) /\
    readReportFile (res_ReportsDir res) (ws_fs s2) = Ok data /\
    req = succeeded_request jobID (Storage.SnapshotPath orgID repoID (Callback.CommitSHA info)) res /\
    w_objects (ws_api s3) !! Storage.SnapshotPath orgID repoID (Callback.CommitSHA info) = Some data /\
    exists r s4, Complete bad_url c ctx req s3 = (r, s4).

(** The requests of one execution, the start and the report. *)
Definition allowed_messages (bad_url : string -> option string) (c : Client) (cfg : Config) (ctx : Context)
    (jobID orgID repoID : string) (s : WState) (l1 l2 : list (string * string)) : Prop :=
  (l1 = [] \/ l1 = [start_message jobID]) /\
  (l2 = [] \/ (exists msg, msg <> "" /\ l2 = [complete_message (failed_request jobID msg)]) \/
   (exists req, l1 = [start_message jobID] /\ l2 = [complete_message req] /\
      earned bad_url c cfg ctx jobID orgID repoID s req)).


End Trace.
End WorkerProps.
