(* ===== verification/Poller.v ===== *)
(** The poller: [services/worker/internal/worker/poller/poller.go] with the
    in-flight counter of [services/shared/go/runner/runner.go], alone and as a
    fleet of pollers that share the database with every other component. *)

From S2P Require Import Prelude GoStr Sha256 JobToken Store JobStore HttpUtil JobService Callback JobEffects JobSystem JobProps.

(** * Definitions *)

Module Poller.
Import JobStore.

Inductive PollError : Set :=
| errNoJobs
| ErrClaim
| ErrRepo.

(** The goroutine's arguments: job, organization and repository id. *)
Record Dispatch := mkDispatch {
  dp_JobID : string;
  dp_OrgID : string;
  dp_RepoID : string
}.

(** The counters of the runner, the goroutines started so far, and what the
    rest of the world does meanwhile: before each claim, whether the context
    is cancelled and which rows other sessions hold locks on. *)
Record PollState := mkPollState {
  ps_world : World;
  ps_inflight : Z;
  ps_spawned : list Dispatch;
  ps_env : list (bool * gset N)
}.

Definition on_world {A} (c : M World A) : M PollState A := fun s =>
  let '(a, w) := c (ps_world s) in (a, mkPollState w (ps_inflight s) (ps_spawned s) (ps_env s)).

(** [GoWait] and the end of its goroutine. *)
Definition GoWait (g : Dispatch) (s : PollState) : PollState :=
  mkPollState (ps_world s) (wrap64 (ps_inflight s + 1)) (ps_spawned s ++ [g]) (ps_env s).

Definition goroutine_end (s : PollState) : PollState :=
  mkPollState (ps_world s) (wrap64 (ps_inflight s - 1)) (ps_spawned s) (ps_env s).

Section Poller.
Context `{UUIDCodec} (maxConcurrency : Z).

(** The first statement of [claimOne]. *)
Definition claim (locked : gset N) : M World (result PollError Job) :=
  r <- exec (ClaimJob locked) ;;
  ret (match r with Ok job => Ok job | Err ErrNoRows => Err errNoJobs | Err _ => Err ErrClaim end).

(** The rest of [claimOne] up to the start of the goroutine; [orgID] is the id
    of the repository, as in the source. *)
Definition prepare (job : Job) : M World (result PollError Dispatch) :=
  r <- query (GetRepoForJob (j_ID job)) ;;
  match r with
  | Err _ =>
      _ <- exec (UpdateJobStatus (mkUpdateJobStatusParams (j_ID job) JobStatusFailed (Some "repo not found for job"))) ;;
      ret (Err ErrRepo)
  | Ok repo => ret (Ok (mkDispatch (uuid_text (j_ID job)) (uuid_text (rj_ID repo)) (uuid_text (j_RepoID job))))
  end.

Definition claimOne (locked : gset N) : M PollState (result PollError unit) :=
  try job <- on_world (claim locked) catch e => ret (Err e) ;;
  try g <- on_world (prepare job) catch e => ret (Err e) ;;
  do modify (GoWait g) ;;
  ret (Ok tt).

(** [for range slots] *)
Fixpoint claims (slots : nat) : M PollState unit :=
  match slots with
  | O => ret tt
  | S slots => fun s =>
      let '(cancelled, locked) := hd (false, ∅) (ps_env s) in
      let s := mkPollState (ps_world s) (ps_inflight s) (ps_spawned s) (tl (ps_env s)) in
      if (cancelled : bool) then (tt, s)
      else
        (r <- claimOne locked ;;
         match r with
         | Ok _ => claims slots
         | Err _ => ret tt
         end) s
  end.

Definition pollBatch : M PollState unit := fun s =>
  claims (Z.to_nat (maxConcurrency - ps_inflight s)) s.

(** ** A fleet of pollers on one database

    Between any two statements of a poller, goroutines end, other pollers run
    and the rest of the system takes steps. *)

Inductive Phase :=
| Idle
| Batch (left : nat)             (* about to claim, or to leave the loop *)
| Claimed (left : nat) (j : Job). (* between the claim and the goroutine *)

Record Fleet := mkFleet {
  fl_world : World;
  fl_phase : N -> Phase;
  fl_inflight : N -> Z;
  fl_dispatched : list uuid  (* every job a goroutine was started for *)
}.

Definition put {A} (i : N) (a : A) (f : N -> A) : N -> A := fun j => if decide (j = i) then a else f j.

Section Fleet.
Context `{Validator} `{TaskEnqueuer}.

Inductive fleet_step : Fleet -> Fleet -> Prop :=
| fs_tick i s :
    fl_phase s i = Idle ->
    fleet_step s (mkFleet (fl_world s) (put i (Batch (Z.to_nat (maxConcurrency - fl_inflight s i))) (fl_phase s))
                    (fl_inflight s) (fl_dispatched s))
| fs_leave i n s :
    (* no slot left, or the context is cancelled *)
    fl_phase s i = Batch n ->
    fleet_step s (mkFleet (fl_world s) (put i Idle (fl_phase s)) (fl_inflight s) (fl_dispatched s))
| fs_claim i n locked r w' s :
    fl_phase s i = Batch (S n) -> claim locked (fl_world s) = (r, w') ->
    fleet_step s (mkFleet w' (put i (match r with Ok j => Claimed n j | Err _ => Idle end) (fl_phase s))
                    (fl_inflight s) (fl_dispatched s))
| fs_prepare i n j r w' s :
    fl_phase s i = Claimed n j -> prepare j (fl_world s) = (r, w') ->
    fleet_step s
      (match r with
       | Ok g => mkFleet w' (put i (Batch n) (fl_phase s)) (put i (fl_inflight s i + 1) (fl_inflight s))
                   (fl_dispatched s ++ [j_ID j])
       | Err _ => mkFleet w' (put i Idle (fl_phase s)) (fl_inflight s) (fl_dispatched s)
       end)
| fs_finish i s :
    0 < fl_inflight s i ->
    fleet_step s (mkFleet (fl_world s) (fl_phase s) (put i (fl_inflight s i - 1) (fl_inflight s)) (fl_dispatched s))
| fs_system w' s :
    JobSystem.sys_step (fl_world s) w' ->
    fleet_step s (mkFleet w' (fl_phase s) (fl_inflight s) (fl_dispatched s)).

End Fleet.
End Poller.
End Poller.

(** * Lemmas *)

Module PollerFacts.
Import JobStore JobEffects JobSystem Poller.

(** A job that has left the queue. *)
Definition taken (d : DB) (k : uuid) : Prop := exists j, jobs d !! k = Some j /\ j_Status j <> JobStatusQueued.

(** No transition of the job tables puts a job back into the queue. *)
Lemma db_step_taken now d d' k : keys_ok d -> db_step now d d' -> taken d k -> taken d' k.
Proof.
  intros Hk Hs (j & Hj & Hq). pose proof (db_step_lifecycle now d d' Hk Hs k) as Hl. rewrite Hj in Hl.
  destruct (jobs d' !! k) as [j'|] eqn:Hj'; [|inversion Hl].
  exists j'. split; [done|]. intros Hq'.
  by destruct (lifecycle_queued _ _ _ Hl Hq') as [? | (j0 & [= <-] & ?)].
Qed.

(** Marking a job failed, guarded or not, does not put it back either. *)
Lemma update_status_taken id st msg now d d' k :
  keys_ok d -> st <> JobStatusQueued ->
  UpdateJobStatus (mkUpdateJobStatusParams id st msg) now d = Ok (tt, d') ->
  keys_ok d' /\ (taken d k -> taken d' k).
Proof.
  intros (Hid & Hrest) Hst Hu. unfold UpdateJobStatus, update_job in Hu. cbn in Hu.
  destruct (jobs d !! id) as [j|] eqn:Hj; simplify_eq/=; [|by split].
  split; [split; [|done]|]; cbn.
  - intros k' j' Hk'. destruct (decide (k' = id)) as [->|]; simplify_map_eq; eauto.
  - intros (j0 & Hj0 & Hq). destruct (decide (k = id)) as [->|Hne].
    + eexists. split; [by cbn; rewrite lookup_insert_eq|done].
    + exists j0. cbn. by rewrite lookup_insert_ne.
Qed.

(** A claim takes a queued job. *)
Lemma claim_inv locked w r w' :
  keys_ok (w_db w) -> claim locked w = (r, w') ->
  db_step (w_now w) (w_db w) (w_db w') /\ w_tx w' = w_tx w /\
  (forall j, r = Ok j -> (exists j0, jobs (w_db w) !! j_ID j = Some j0 /\ j_Status j0 = JobStatusQueued) /\
     taken (w_db w') (j_ID j)).
Proof.
  intros Hk Hrun. unfold claim in Hrun. go_run.
  - split_and!; try done; [apply ds_same|]. intros j Hj. by repeat (case_match; simplify_eq/=).
  - split_and!; try done; [by eapply ClaimJob_step|]. intros j [= <-].
    match goal with Hc : ClaimJob _ _ _ = _ |- _ => unfold ClaimJob in Hc; destruct (head _) as [j0|] eqn:Hh end;
      simplify_eq/=.
    apply head_order_asc_elem, elem_of_select in Hh as [Hp [k Hj]].
    apply andb_true_iff in Hp as [Hq _]. apply has_status_true in Hq.
    pose proof (proj1 Hk k j0 Hj) as <-. split; [by eauto|].
    eexists. cbn. rewrite lookup_insert_eq. by split.
Qed.

(** Preparing a job keeps every taken job taken. *)
Lemma prepare_inv `{UUIDCodec} j w r w' k :
  keys_ok (w_db w) -> prepare j w = (r, w') ->
  keys_ok (w_db w') /\ w_tx w' = w_tx w /\ (taken (w_db w) k -> taken (w_db w') k).
Proof.
  intros Hk Hrun. unfold prepare in Hrun. go_run; try done;
    match goal with Hu : UpdateJobStatus _ _ _ = Ok (?u, _) |- _ =>
      destruct u; apply (update_status_taken _ _ _ _ _ _ k) in Hu as [? ?]; done end.
Qed.

Definition claimed_job (p : Phase) : option uuid :=
  match p with Claimed _ j => Some (j_ID j) | _ => None end.

Definition slots_left (p : Phase) : Z :=
  match p with Idle => 0 | Batch n => Z.of_nat n | Claimed n _ => Z.of_nat n + 1 end.

(** The invariant of the fleet. *)
Record fleet_inv (max : Z) (s : Fleet) : Prop := {
  fi_keys : keys_ok (w_db (fl_world s));
  fi_tx : w_tx (fl_world s) = None;
  fi_slots : forall i, 0 <= fl_inflight s i /\ fl_inflight s i + slots_left (fl_phase s i) <= max;
  fi_taken : forall k, k ∈ fl_dispatched s \/ (exists i, claimed_job (fl_phase s i) = Some k) ->
    taken (w_db (fl_world s)) k;
  fi_nodup : NoDup (fl_dispatched s);
  fi_fresh : forall i k, claimed_job (fl_phase s i) = Some k -> k ∉ fl_dispatched s;
  fi_apart : forall i i' k, claimed_job (fl_phase s i) = Some k -> claimed_job (fl_phase s i') = Some k -> i = i'
}.

Lemma put_eq {A} i (a : A) f : put i a f i = a.
Proof. unfold put. by rewrite decide_True. Qed.

Lemma put_ne {A} i j (a : A) f : j <> i -> put i a f j = f j.
Proof. intros. unfold put. by rewrite decide_False. Qed.

(** A phase without a claimed job keeps the clauses on claimed jobs. *)
Lemma put_claimed_None i p f i' k :
  claimed_job (put i p f i') = Some k -> claimed_job p = None -> claimed_job (f i') = Some k.
Proof. unfold put. case_decide; [by intros ->|done]. Qed.

Section Preservation.
Context `{UUIDCodec} `{Validator} `{TaskEnqueuer}.

(** Steps that change only the world, and keep the taken jobs taken. *)
Lemma fleet_inv_world max s w' :
  fleet_inv max s -> keys_ok (w_db w') -> w_tx w' = None ->
  (forall k, taken (w_db (fl_world s)) k -> taken (w_db w') k) ->
  fleet_inv max (mkFleet w' (fl_phase s) (fl_inflight s) (fl_dispatched s)).
Proof. intros [] Hk Htx Ht. split; cbn; auto. Qed.

(** Changing a phase to one without a claimed job. *)
Lemma fleet_inv_phase max s i p :
  fleet_inv max s -> claimed_job p = None -> fl_inflight s i + slots_left p <= max ->
  fleet_inv max (mkFleet (fl_world s) (put i p (fl_phase s)) (fl_inflight s) (fl_dispatched s)).
Proof.
  intros [Hk Htx Hs Ht Hn Hf Ha] Hp Hsl. split; cbn; try done.
  - intros j. destruct (decide (j = i)) as [->|Hne]; [rewrite put_eq|by rewrite put_ne]. split; [by apply Hs|done].
  - intros k [?|[j Hj]]; apply Ht; [by left|right]. eauto using put_claimed_None.
  - intros j k Hj. eauto using put_claimed_None.
  - intros j j' k Hj Hj'. eauto using put_claimed_None.
Qed.

Lemma fleet_inv_claimed max s i n j :
  fleet_inv max s -> fl_phase s i = Batch (S n) ->
  j_ID j ∉ fl_dispatched s -> (forall i', claimed_job (fl_phase s i') <> Some (j_ID j)) ->
  taken (w_db (fl_world s)) (j_ID j) ->
  fleet_inv max (mkFleet (fl_world s) (put i (Claimed n j) (fl_phase s)) (fl_inflight s) (fl_dispatched s)).
Proof.
  intros [Hk Htx Hs Ht Hn Hf Ha] Hp Hnew Hoth Htk. split; cbn; try done.
  - intros i'. destruct (decide (i' = i)) as [->|Hne]; [rewrite put_eq|by rewrite put_ne].
    specialize (Hs i). rewrite Hp in Hs. cbn in *. lia.
  - intros k [?|[i' Hi']]; [by apply Ht; left|].
    destruct (decide (i' = i)) as [->|Hne]; [rewrite put_eq in Hi'; by simplify_eq/=|].
    rewrite put_ne in Hi' by done. apply Ht. eauto.
  - intros i' k Hi'. destruct (decide (i' = i)) as [->|Hne]; [rewrite put_eq in Hi'; by simplify_eq/=|].
    rewrite put_ne in Hi' by done. eauto.
  - intros i1 i2 k Hc1 Hc2.
    destruct (decide (i1 = i)) as [->|]; destruct (decide (i2 = i)) as [->|];
      rewrite ?put_eq, ?put_ne in Hc1 by done; rewrite ?put_eq, ?put_ne in Hc2 by done; simplify_eq/=; try done.
    + by destruct (Hoth i2).
    + by destruct (Hoth i1).
    + eauto.
Qed.

Lemma fleet_inv_dispatch max s i n j :
  fleet_inv max s -> fl_phase s i = Claimed n j ->
  fleet_inv max (mkFleet (fl_world s) (put i (Batch n) (fl_phase s)) (put i (fl_inflight s i + 1) (fl_inflight s))
                   (fl_dispatched s ++ [j_ID j])).
Proof.
  intros [Hk Htx Hs Ht Hn Hf Ha] Hp. assert (claimed_job (fl_phase s i) = Some (j_ID j)) as Hi by by rewrite Hp.
  split; cbn; try done.
  - intros i'. destruct (decide (i' = i)) as [->|Hne]; [rewrite !put_eq|by rewrite !put_ne].
    specialize (Hs i). rewrite Hp in Hs. cbn in *. lia.
  - intros k [Hin|[i' Hi']]; apply Ht; [|right; exists i'; by eapply put_claimed_None].
    apply elem_of_app in Hin as [?| ->%list_elem_of_singleton]; [by left|right; eauto].
  - apply NoDup_app. split_and!; [done| |by apply NoDup_singleton].
    intros x Hx ->%list_elem_of_singleton. by eapply Hf.
  - intros i' k Hi' [Hin| ->%list_elem_of_singleton]%elem_of_app.
    + eapply Hf; [|done]. by eapply put_claimed_None.
    + destruct (decide (i' = i)) as [->|Hne]; [by rewrite put_eq in Hi'|]. rewrite put_ne in Hi' by done.
      apply Hne. eauto.
  - intros i1 i2 k Hc1 Hc2. eauto using put_claimed_None.
Qed.

Lemma fleet_step_inv max s s' : fleet_inv max s -> fleet_step max s s' -> fleet_inv max s'.
Proof.
  intros Hi Hs. pose proof Hi as [Hk Htx Hsl Ht Hn Hf Ha].
  destruct Hs as [i s Hp | i n s Hp | i n locked r w' s Hp Hc | i n j r w' s Hp Hc | i s Hpos | w' s Hc].
  - apply fleet_inv_phase; [done..|]. specialize (Hsl i). rewrite Hp in Hsl. cbn in *. lia.
  - apply fleet_inv_phase; [done..|]. specialize (Hsl i). cbn in *. destruct (fl_phase s i); cbn in *; lia.
  - pose proof (claim_inv _ _ _ _ Hk Hc) as (Hd & Htx' & Hj). rewrite Htx in Htx'.
    assert (fleet_inv max (mkFleet w' (fl_phase s) (fl_inflight s) (fl_dispatched s))) as Hi'.
    { apply fleet_inv_world; eauto using db_step_keys, db_step_taken. }
    destruct r as [j|e].
    + destruct (Hj j eq_refl) as ((j0 & Hj0 & Hq) & Htk).
      assert (forall k, taken (w_db (fl_world s)) k -> k <> j_ID j) as Hne.
      { intros k (j1 & Hj1 & Hq1) ->. congruence. }
      apply (fleet_inv_claimed max (mkFleet w' (fl_phase s) (fl_inflight s) (fl_dispatched s)) i n j); try done.
      * intros Hin. eapply Hne; [apply Ht; by left|done].
      * intros i' Hc'. eapply Hne; [apply Ht; right; eauto|done].
    + apply (fleet_inv_phase max (mkFleet w' (fl_phase s) (fl_inflight s) (fl_dispatched s)) i Idle); [done..|].
      specialize (Hsl i). rewrite Hp in Hsl. cbn in *. lia.
  - assert (fleet_inv max (mkFleet w' (fl_phase s) (fl_inflight s) (fl_dispatched s))) as Hi'.
    { apply fleet_inv_world; [done|..].
      - by apply (prepare_inv j _ r w' 0%N) in Hc as (? & _).
      - apply (prepare_inv j _ r w' 0%N) in Hc as (_ & -> & _); done.
      - intros k. by apply (prepare_inv j _ r w' k) in Hc as (_ & _ & ?). }
    destruct r as [g|e].
    + by apply (fleet_inv_dispatch max (mkFleet w' (fl_phase s) (fl_inflight s) (fl_dispatched s)) i n j).
    + apply (fleet_inv_phase max (mkFleet w' (fl_phase s) (fl_inflight s) (fl_dispatched s)) i Idle); [done..|].
      specialize (Hsl i). rewrite Hp in Hsl. cbn in *. lia.
  - split; cbn; try done. intros i'. specialize (Hsl i').
    destruct (decide (i' = i)) as [->|Hne]; [rewrite put_eq|rewrite put_ne by done]; lia.
  - destruct (sys_step_db _ _ Hk Htx Hc) as [Hd Htx'].
    apply fleet_inv_world; eauto using db_step_keys, db_step_taken.
Qed.

End Preservation.
End PollerFacts.

(** * Properties *)

Module PollerProps.
Import JobStore JobEffects JobSystem Poller PollerFacts.

Section Props.
Context `{UUIDCodec} `{Validator} `{TaskEnqueuer}.

(** Before the first tick. *)
Definition fleet_start (s : Fleet) : Prop :=
  keys_ok (w_db (fl_world s)) /\ w_tx (fl_world s) = None /\ fl_dispatched s = [] /\
  forall i, fl_phase s i = Idle /\ fl_inflight s i = 0.

Lemma fleet_start_inv max s : 0 <= max -> fleet_start s -> fleet_inv max s.
Proof.
  intros Hm (Hk & Htx & Hd & Hi). split; rewrite ?Hd; try done.
  - intros i. destruct (Hi i) as [-> ->]. cbn. lia.
  - intros k [Hin|[i Hc]]; [by apply not_elem_of_nil in Hin|]. destruct (Hi i) as [E _]. by rewrite E in Hc.
  - apply NoDup_nil_2.
  - intros i k Hc. destruct (Hi i) as [E _]. by rewrite E in Hc.
  - intros i i' k Hc. destruct (Hi i) as [E _]. by rewrite E in Hc.
Qed.

(** C32: A fleet of pollers, interleaved statement by statement with each other,
    with the ends of their goroutines and with every other component (pushes,
    callbacks, the watchdog, other claimers, failing statements): no poller
    ever has more than [maxConcurrency] jobs in flight, and no job is handed to
    two goroutines, of the same poller or of different ones. *)
Theorem fleet_dispatches_once_within_bounds max s s' :
  0 <= max -> fleet_start s -> rtc (fleet_step max) s s' ->
  (forall i, 0 <= fl_inflight s' i <= max) /\ NoDup (fl_dispatched s') /\
  (forall k, k ∈ fl_dispatched s' -> taken (w_db (fl_world s')) k).
Proof.
  intros Hm Hs Hr. assert (fleet_inv max s') as [_ _ Hsl Ht Hn _ _].
  { apply (fleet_start_inv max) in Hs; [|done]. induction Hr; eauto using fleet_step_inv. }
  split_and!; [|done|by auto].
  intros i. specialize (Hsl i). destruct (fl_phase s' i); cbn in *; lia.
Qed.

(** One iteration of the claim loop, as steps of poller [i]. *)
Lemma claimOne_refines max i n locked s r s' f :
  claimOne locked s = (r, s') -> fl_world f = ps_world s -> fl_phase f i = Batch (S n) ->
  fl_inflight f i = ps_inflight s -> in_int64 (ps_inflight s + 1) ->
  exists f', rtc (fleet_step max) f f' /\ fl_world f' = ps_world s' /\ ps_env s' = ps_env s /\
    fl_phase f' i = match r with Ok _ => Batch n | Err _ => Idle end /\
    fl_inflight f' i = ps_inflight s' /\
    (forall i', i' <> i -> fl_phase f' i' = fl_phase f i' /\ fl_inflight f' i' = fl_inflight f i') /\
    match r with
    | Ok _ => ps_inflight s' = ps_inflight s + 1 /\ exists k g, fl_dispatched f' = fl_dispatched f ++ [k] /\
        ps_spawned s' = ps_spawned s ++ [g] /\ dp_JobID g = uuid_text k
    | Err _ => fl_dispatched f' = fl_dispatched f /\ ps_spawned s' = ps_spawned s
    end.
Proof.
  intros Hrun Hw Hp Hi H64. unfold claimOne, on_world in Hrun.
  destruct (claim locked (ps_world s)) as [rc wc] eqn:Hc.
  rewrite <-Hw in Hc. pose proof (fs_claim max i n locked rc wc f Hp Hc) as Hstep1.
  unfold bind in Hrun. rewrite <-Hw, Hc in Hrun. destruct rc as [j|e].
  2:{ unfold ret in Hrun. simplify_eq/=. eexists. split; [by apply rtc_once|]. cbn.
      rewrite put_eq. split_and!; try done. intros i' Hne. by rewrite put_ne. }
  cbn in Hrun. destruct (prepare j wc) as [rp wp] eqn:Hpr.
  match type of Hstep1 with fleet_step _ _ ?g => set (f1 := g) in * end.
  assert (fl_phase f1 i = Claimed n j) as Hp1 by (cbn; by rewrite put_eq).
  pose proof (fs_prepare max i n j rp wp f1 Hp1 Hpr) as Hstep2.
  destruct rp as [g|e]; unfold modify, ret in Hrun; simplify_eq/=.
  - eexists. split; [eapply rtc_l; [exact Hstep1|]; by apply rtc_once|]. cbn. rewrite !put_eq.
    rewrite wrap64_id by done. split_and!; try done; [by rewrite Hi| |].
    + intros i' Hne. by rewrite !put_ne.
    + exists (j_ID j), g. split_and!; try done.
      unfold prepare in Hpr. by go_run.
  - eexists. split; [eapply rtc_l; [exact Hstep1|]; by apply rtc_once|]. cbn. rewrite !put_eq.
    split_and!; try done. intros i' Hne. by rewrite !put_ne.
Qed.

Lemma claims_refines max i n : forall s s' f,
  claims n s = (tt, s') -> fl_world f = ps_world s -> fl_phase f i = Batch n ->
  fl_inflight f i = ps_inflight s -> 0 <= ps_inflight s -> ps_inflight s + Z.of_nat n < 2 ^ 63 ->
  exists f' ks gs, rtc (fleet_step max) f f' /\ fl_world f' = ps_world s' /\ fl_phase f' i = Idle /\
    fl_inflight f' i = ps_inflight s' /\
    (forall i', i' <> i -> fl_phase f' i' = fl_phase f i' /\ fl_inflight f' i' = fl_inflight f i') /\
    fl_dispatched f' = fl_dispatched f ++ ks /\ ps_spawned s' = ps_spawned s ++ gs /\
    Forall2 (fun g k => dp_JobID g = uuid_text k) gs ks.
Proof.
  induction n as [|n IH]; intros s s' f Hrun Hw Hp Hi Hpos Hlt.
  - unfold claims, ret in Hrun. simplify_eq. eexists _, [], []. split; [by apply rtc_once, (fs_leave max i 0)|]. cbn.
    rewrite put_eq, !app_nil_r. split_and!; try done. intros i' Hne. by rewrite put_ne.
  - cbn [claims] in Hrun. destruct (hd _ _) as [[] locked].
    + simplify_eq/=. eexists _, [], []. split; [by apply rtc_once, (fs_leave max i (S n))|]. cbn.
      rewrite put_eq, !app_nil_r. split_and!; try done. intros i' Hne. by rewrite put_ne.
    + apply bind_inv in Hrun as (r & s1 & Hc & Hrun).
      destruct (claimOne_refines max i n locked _ r s1 f Hc) as (f1 & Hr1 & Hw1 & _ & Hp1 & Hi1 & Ho1 & Hd1);
        [exact Hw|exact Hp|exact Hi|unfold in_int64; cbn in *; lia|].
      destruct r as [u|e].
      * destruct Hd1 as (Hin1 & k & g & Hd1 & Hs1 & Hg).
        destruct (IH s1 s' f1 Hrun Hw1 Hp1 Hi1) as (f' & ks & gs & Hr & Hw' & Hp' & Hi' & Ho' & Hd' & Hs' & Hall);
          [cbn in *; lia..|].
        exists f', (k :: ks), (g :: gs). split; [by etrans|]. rewrite Hd', Hd1, Hs', Hs1, <-!app_assoc.
        split_and!; try done; [|by constructor]. intros i' Hne. destruct (Ho1 i' Hne), (Ho' i' Hne). split; congruence.
      * destruct Hd1 as [Hd1 Hs1]. unfold ret in Hrun. simplify_eq.
        exists f1, [], []. rewrite !app_nil_r. by split_and!.
Qed.

(** C33: A poll batch refines the fleet: run to its end without interleaving, it
    is a sequence of steps of its poller from [Idle] to [Idle], with the same
    database, the same number of jobs in flight and one dispatched job per
    goroutine; so the fleet's guarantees are guarantees about [pollBatch]. *)
Theorem pollBatch_refines_fleet max i s s' f :
  pollBatch max s = (tt, s') -> 0 <= ps_inflight s -> max < 2 ^ 63 -> ps_inflight s < 2 ^ 63 ->
  fl_world f = ps_world s -> fl_phase f i = Idle -> fl_inflight f i = ps_inflight s ->
  exists f' ks gs, rtc (fleet_step max) f f' /\ fl_world f' = ps_world s' /\ fl_phase f' i = Idle /\
    fl_inflight f' i = ps_inflight s' /\
    (forall i', i' <> i -> fl_phase f' i' = fl_phase f i' /\ fl_inflight f' i' = fl_inflight f i') /\
    fl_dispatched f' = fl_dispatched f ++ ks /\ ps_spawned s' = ps_spawned s ++ gs /\
    Forall2 (fun g k => dp_JobID g = uuid_text k) gs ks.
Proof.
  intros Hrun Hpos Hmax Hs64 Hw Hp Hi. unfold pollBatch in Hrun.
  pose proof (fs_tick max i f Hp) as Htick. match type of Htick with fleet_step _ _ ?g => set (f1 := g) in * end.
  destruct (claims_refines max i _ s s' f1 Hrun) as (f' & ks & gs & Hr & Hw' & Hp' & Hi' & Ho & Hrest); cbn;
    try done; [by rewrite put_eq, Hi|lia|].
  exists f', ks, gs. split_and!; try done; try (by apply Hrest); [by eapply rtc_l|].
  intros i' Hne. destruct (Ho i' Hne) as [-> ->]. cbn. by rewrite put_ne.
Qed.

End Props.

(** ** Closed examples *)

#[local] Existing Instance example_codec.
#[local] Existing Instance example_validator.

Definition ex_fleet : Fleet := mkFleet JobProps.ex_w1 (fun _ => Idle) (fun _ => 0) [].

Lemma ex_fleet_start : fleet_start ex_fleet.
Proof. destruct JobProps.ex_wf1 as [Hwf Htx]. split_and!; [by apply wf_keys|done|done|done]. Qed.

(** Poller 3 claims the job of the example push and starts it. *)
Lemma ex_fleet_run : exists s', rtc (fleet_step 2) ex_fleet s' /\ fl_dispatched s' = [100%N] /\ fl_inflight s' 3 = 1.
Proof.
  destruct (pollBatch 2 (mkPollState JobProps.ex_w1 0 [] [])) as [[] s'] eqn:Hrun.
  unfold pollBatch in Hrun.
  destruct (claims_refines 2 3 2 _ s' (mkFleet JobProps.ex_w1 (put 3%N (Batch 2) (fun _ => Idle)) (fun _ => 0) []) Hrun)
    as (f' & ks & gs & Hr & _ & _ & Hi & _ & Hd & Hs & Hall); [done..|].
  exists f'. split; [eapply rtc_l; [by apply (fs_tick 2 3 ex_fleet)|exact Hr]|].
  assert (ps_inflight s' = 1 /\ dp_JobID <$> ps_spawned s' = ["100"]) as [Hin Hsp].
  { split; [change s' with (tt, s').2|change (ps_spawned s') with (ps_spawned (tt, s').2)]; rewrite <-Hrun; vm_compute; done. }
  rewrite Hi, Hin. split; [|done]. rewrite Hd. cbn. rewrite Hs in Hsp. cbn in Hsp.
  destruct Hall as [|g k gs ks Hg Hall]; [done|]. destruct Hall; [|done]. injection Hsp as Hg'. rewrite Hg in Hg'.
  f_equal. assert (uuid_scan (uuid_text k) = uuid_scan "100") as E by congruence.
  rewrite uuid_scan_text in E. by injection E.
Qed.

Lemma fleet_dispatches_once_within_bounds_witness :
  exists s', rtc (fleet_step 2) ex_fleet s' /\ fl_dispatched s' = [100%N] /\ NoDup (fl_dispatched s') /\
    0 <= fl_inflight s' 3 <= 2.
Proof.
  destruct ex_fleet_run as (s' & Hr & Hd & _). exists s'.
  destruct (fleet_dispatches_once_within_bounds 2 ex_fleet s') as (Hi & Hn & _).
  - lia.
  - exact ex_fleet_start.
  - exact Hr.
  - split; [exact Hr|]. split; [exact Hd|]. split; [exact Hn|apply Hi].
Defined.

Lemma pollBatch_refines_fleet_witness :
  exists f' ks, rtc (fleet_step 2) ex_fleet f' /\ fl_dispatched f' = [] ++ ks /\ fl_phase f' 3 = Idle.
Proof.
  destruct (pollBatch 2 (mkPollState JobProps.ex_w1 0 [] [])) as [[] s'] eqn:Hrun.
  destruct (pollBatch_refines_fleet 2 3 (mkPollState JobProps.ex_w1 0 [] []) s' ex_fleet)
    as (f' & ks & gs & Hr & _ & Hp & _ & _ & Hd & _).
  - exact Hrun.
  - cbn; lia.
  - lia.
  - cbn; lia.
  - reflexivity.
  - reflexivity.
  - reflexivity.
  - exists f', ks. split; [exact Hr|]. split; [exact Hd|exact Hp].
Defined.

(** ** Where the code falls short of its comments *)

(** The organization part of the snapshot path is the repository's id. *)
Lemma poller_passes_repo_as_org `{UUIDCodec} job w g w' :
  keys_ok (w_db w) -> prepare job w = (Ok g, w') -> jobs (w_db w) !! j_ID job = Some job ->
  dp_OrgID g = dp_RepoID g.
Proof.
  intros (_ & _ & Hr) Hrun Hj. unfold prepare, GetRepoForJob in Hrun. go_run. rewrite Hj in *.
  destruct (repositories _ !! j_RepoID job) as [r|] eqn:E; simplify_eq/=. by rewrite (Hr _ _ E).
Qed.

End PollerProps.
