(* ===== verification/QueueLiveness.v ===== *)
(** Progress of the job queue: whatever pushes, callbacks, watchdog runs and
    failures interleave with a fleet of pollers, a queued job is claimed after
    at most as many answered claims as there are queued jobs not younger than
    it.  The measure is the set of those jobs: no step adds to it, and every
    answered claim takes one of them. *)

From S2P Require Import Prelude GoStr Sha256 JobToken Store JobStore HttpUtil JobService Callback JobEffects JobSystem JobProps Poller.

Module QueueLiveness.
Import JobStore JobEffects JobSystem Poller PollerFacts PollerProps.

(** * Definitions *)

(** The queued jobs created at [t] or before. *)
Definition ahead (t : Z) (d : DB) : gset N :=
  dom (filter (fun kj => j_Status kj.2 = JobStatusQueued /\ j_CreatedAt kj.2 <= t) (jobs d)).

(** A claim of a poller the database answered, while no other session held a
    lock on the row of job [k]. *)
Inductive answered_claim `{UUIDCodec} (k : uuid) (s : Fleet) : Fleet -> Prop :=
| ac_claim i n locked r w' :
    fl_phase s i = Batch (S n) -> k ∉ locked ->
    claim locked (fl_world s) = (r, w') -> r <> Err ErrClaim ->
    answered_claim k s
      (mkFleet w' (put i (match r with Ok j => Claimed n j | Err _ => Idle end) (fl_phase s))
         (fl_inflight s) (fl_dispatched s)).

(** A run of the fleet with [n] answered claims among its steps. *)
Inductive claims_in `{UUIDCodec} `{Validator} `{TaskEnqueuer} (max : Z) (k : uuid) : nat -> Fleet -> Fleet -> Prop :=
| ci_refl s : claims_in max k 0 s s
| ci_step n s s1 s' : fleet_step max s s1 -> claims_in max k n s1 s' -> claims_in max k n s s'
| ci_claim n s s1 s' : answered_claim k s s1 -> claims_in max k n s1 s' -> claims_in max k (S n) s s'.

(** * Lemmas *)

Lemma elem_of_ahead t d k :
  k ∈ ahead t d <-> exists j, jobs d !! k = Some j /\ j_Status j = JobStatusQueued /\ j_CreatedAt j <= t.
Proof.
  unfold ahead. rewrite elem_of_dom. split.
  - intros [j Hj]. apply map_lookup_filter_Some in Hj. naive_solver.
  - intros (j & Hj & Hq). exists j. by apply map_lookup_filter_Some.
Qed.

(** ** Creation times *)

Lemma lifecycle_created k j j' : lifecycle k (Some j) (Some j') -> j_CreatedAt j' = j_CreatedAt j.
Proof. by inversion 1. Qed.

Lemma db_step_created now d d' k j' :
  db_step now d d' -> keys_ok d -> jobs d !! k = None -> jobs d' !! k = Some j' -> j_CreatedAt j' = now.
Proof.
  intros Hs Hkeys Hnone Hk.
  destruct Hs as [ | k0 j sha Hk0 Hq | arg id j d' Hn Hc | k0 j msg Hk0 Hq | k0 j msg Hk0 Ht
                 | k0 j msg a id s d1 d' Hk0 Ht -> ? ? ? ? Hi | mins n d' Hi | a id s d' Hi | a id r d' Hi ];
    try (cbn in Hk; destruct (decide (k = k0)) as [->|]; simplify_map_eq; done); try (by rewrite Hnone in Hk).
  - apply CreateJob_Ok in Hc as (Hid & -> & Hdel & Hr & ->). cbn in Hk.
    destruct (decide (k = id)) as [->|]; by simplify_map_eq.
  - apply InsertSnapshot_Ok in Hi as (_ & -> & _). cbn in Hk.
    destruct (decide (k = k0)) as [->|]; simplify_map_eq; done.
  - unfold TimeoutRunningJobs in Hi. simplify_eq/=. by rewrite lookup_fmap, Hnone in Hk.
  - apply InsertCLISnapshot_Ok in Hi as (E & _); [|done]. by rewrite E, Hnone in Hk.
  - apply UpsertRepo_jobs in Hi as (E & _). by rewrite E, Hnone in Hk.
Qed.

(** ** Nothing overtakes: no transition after [t] adds to the jobs ahead *)

Lemma db_step_ahead now t d d' : keys_ok d -> db_step now d d' -> t < now -> ahead t d' ⊆ ahead t d.
Proof.
  intros Hk Hs Ht k (j' & Hj' & Hq & Hc)%elem_of_ahead. apply elem_of_ahead.
  pose proof (db_step_lifecycle now d d' Hk Hs k) as Hl. rewrite Hj' in Hl.
  destruct (jobs d !! k) as [j|] eqn:Hj.
  - exists j. pose proof (lifecycle_created _ _ _ Hl) as E.
    destruct (lifecycle_queued _ _ _ Hl Hq) as [?|(? & [= <-] & ?)]; [done|]. split_and!; [done..|lia].
  - pose proof (db_step_created _ _ _ _ _ Hs Hk Hj Hj'). lia.
Qed.

Lemma update_status_ahead id st msg now t d d' u :
  st <> JobStatusQueued ->
  UpdateJobStatus (mkUpdateJobStatusParams id st msg) now d = Ok (u, d') -> ahead t d' ⊆ ahead t d.
Proof.
  intros Hst Hu k (j' & Hj' & Hq & Hc)%elem_of_ahead. apply elem_of_ahead.
  unfold UpdateJobStatus, update_job in Hu. cbn in Hu.
  destruct (jobs d !! id) as [j|] eqn:Hj; simplify_eq/=; [|eauto].
  destruct (decide (k = id)) as [->|]; simplify_map_eq; eauto.
Qed.

(** What every transition after [t] does to the queue. *)
Record queue_step (t : Z) (d d' : DB) : Prop := {
  qs_ahead : ahead t d' ⊆ ahead t d;
  qs_taken : forall k, taken d k -> taken d' k;
  qs_created : forall k j, jobs d !! k = Some j -> exists j', jobs d' !! k = Some j' /\ j_CreatedAt j' = j_CreatedAt j
}.

#[export] Instance queue_step_refl t : Reflexive (queue_step t).
Proof. intros d. split; eauto. Qed.

Lemma db_step_queue now t d d' : keys_ok d -> db_step now d d' -> t < now -> queue_step t d d'.
Proof.
  intros Hk Hs Ht. split; [by eapply db_step_ahead|eauto using db_step_taken|].
  intros k j Hj. pose proof (db_step_lifecycle now d d' Hk Hs k) as Hl. rewrite Hj in Hl.
  destruct (jobs d' !! k) as [j'|]; [|inversion Hl]. eauto using lifecycle_created.
Qed.

Lemma update_status_queue id st msg now t d d' u :
  keys_ok d -> st <> JobStatusQueued ->
  UpdateJobStatus (mkUpdateJobStatusParams id st msg) now d = Ok (u, d') -> queue_step t d d'.
Proof.
  intros Hk Hst Hu. destruct u. split; [by eapply update_status_ahead|by intros k; eapply update_status_taken|].
  intros k j Hj. unfold UpdateJobStatus, update_job in Hu. cbn in Hu.
  destruct (jobs d !! id) as [j0|] eqn:Hj0; simplify_eq/=; [|eauto].
  destruct (decide (k = id)) as [->|]; simplify_map_eq; eauto.
Qed.

Lemma prepare_queue `{UUIDCodec} t j w r w' :
  keys_ok (w_db w) -> prepare j w = (r, w') -> queue_step t (w_db w) (w_db w') /\ w_now w' = w_now w.
Proof.
  intros Hk Hrun. unfold prepare in Hrun.
  go_run; (split; [|done]); first [reflexivity | by eapply update_status_queue; [| |eassumption]].
Qed.

(** ** The clock never runs backwards *)
Section Clock.
Context `{UUIDCodec} `{Validator} `{TaskEnqueuer}.

Lemma enqueue_job_now signer job w r w' :
  JobService.enqueue_job signer job w = (r, w') -> w_now w' = w_now w.
Proof.
  unfold JobService.enqueue_job, bind, ret. intros Hrun.
  pose proof (Enqueue_now (uuid_text (j_ID job)) (JobToken.Sign signer (go_now w) (uuid_text (j_ID job))) w) as Hn.
  destruct (Enqueue _ _ w) as [x w1]. by simplify_eq/=.
Qed.

Lemma HandlePush_now signer ev did w r w' :
  JobService.HandlePush signer ev did w = (r, w') -> w_now w' = w_now w.
Proof.
  intros Hrun. unfold JobService.HandlePush, JobService.HandlePush_tx, JobService.HandlePush_apply,
    JobService.advisory_lock, GetActiveJobsForBranch in Hrun.
  go_run; try done; match goal with He : JobService.enqueue_job _ _ _ = _ |- _ => apply enqueue_job_now in He end;
    repeat case_match; done.
Qed.

Lemma Start_now gct ctx body w r w' : Callback.Start gct ctx body w = (r, w') -> w_now w' = w_now w.
Proof.
  intros Hrun. unfold Callback.Start, Callback.Start_tx, Callback.respondStart, GetJobForUpdate in Hrun.
  go_run; repeat case_match; done.
Qed.

Lemma Complete_now ctx body w r w' : Callback.Complete ctx body w = (r, w') -> w_now w' = w_now w.
Proof.
  intros Hrun. unfold Callback.Complete, Callback.Complete_tx, Callback.Complete_write, GetJobForUpdate in Hrun.
  go_run; repeat case_match; done.
Qed.

Lemma sys_step_now w w' : sys_step w w' -> w_now w <= w_now w'.
Proof.
  destruct 1 as [signer ev did r w w' Hr | locked r w w' Hr | gct ctx body r w w' Hr | ctx body r w w' Hr
                | mins r w w' Hr | a r w w' Hr | a r w w' Hr | now ids faults w Hn]; [..|done].
  - by rewrite (HandlePush_now _ _ _ _ _ _ Hr).
  - go_run; done.
  - by rewrite (Start_now _ _ _ _ _ _ Hr).
  - by rewrite (Complete_now _ _ _ _ _ Hr).
  - unfold Watchdog.Timeout in Hr. go_run; done.
  - go_run; done.
  - go_run; done.
Qed.
End Clock.

(** ** Steps of the fleet *)
Section FleetQueue.
Context `{UUIDCodec} `{Validator} `{TaskEnqueuer}.

Lemma claim_now locked w r w' : claim locked w = (r, w') -> w_now w' = w_now w.
Proof. intros Hrun. unfold claim in Hrun. by go_run. Qed.

Lemma fleet_step_queue max t s s' :
  fleet_inv max s -> fleet_step max s s' -> t < w_now (fl_world s) ->
  queue_step t (w_db (fl_world s)) (w_db (fl_world s')) /\ t < w_now (fl_world s').
Proof.
  intros Hi Hs Ht. pose proof (fi_keys _ _ Hi) as Hk.
  destruct Hs as [i s Hp | i n s Hp | i n locked r w' s Hp Hc | i n j r w' s Hp Hc | i s Hpos | w' s Hc];
    try (split; [reflexivity|done]).
  - cbn. rewrite (claim_now _ _ _ _ Hc). apply claim_inv in Hc as (Hd & _); eauto using db_step_queue.
  - apply (prepare_queue t) in Hc as [Hq Hn]; [|done]. destruct r; cbn; by rewrite Hn.
  - cbn. pose proof (sys_step_now _ _ Hc). destruct (sys_step_db _ _ Hk (fi_tx _ _ Hi) Hc) as [Hd _].
    split; [by eapply db_step_queue|lia].
Qed.

Lemma answered_claim_step max k s s' : answered_claim k s s' -> fleet_step max s s'.
Proof. destruct 1. by eapply fs_claim. Qed.

(** While [k] waits, an answered claim takes a job that is not younger. *)
Lemma answered_claim_takes max k j s s' :
  fleet_inv max s -> answered_claim k s s' -> jobs (w_db (fl_world s)) !! k = Some j -> j_Status j = JobStatusQueued ->
  exists k0, k0 ∈ ahead (j_CreatedAt j) (w_db (fl_world s)) /\ taken (w_db (fl_world s')) k0.
Proof.
  intros Hi [i n locked r w' Hp Hl Hc Hr] Hj Hq. pose proof (fi_keys _ _ Hi) as Hk. cbn.
  unfold claim in Hc. go_run.
  - destruct_or!; [by subst; destruct Hr|].
    pose proof (JobProps.claim_takes_oldest locked (w_now (fl_world s)) _ Hk) as Ho.
    match goal with E : ClaimJob _ _ _ = _ |- _ => rewrite E in Ho end. destruct Ho as [_ Ho]. by destruct Hl; eapply Ho.
  - pose proof (JobProps.claim_takes_oldest locked (w_now (fl_world s)) _ Hk) as Ho.
    match goal with E : ClaimJob _ _ _ = _ |- _ => rewrite E in Ho end.
    destruct Ho as (j0 & Hj0 & Hq0 & _ & -> & -> & Hmin).
    exists (j_ID j0). split; [apply elem_of_ahead; eauto|].
    eexists. cbn. by rewrite lookup_insert_eq.
Qed.

Lemma taken_not_ahead t d k : taken d k -> k ∉ ahead t d.
Proof. intros (j & Hj & Hq) (j' & Hj' & Hq' & _)%elem_of_ahead. congruence. Qed.

Lemma answered_claim_decreases max k j s s' :
  fleet_inv max s -> answered_claim k s s' -> jobs (w_db (fl_world s)) !! k = Some j -> j_Status j = JobStatusQueued ->
  j_CreatedAt j < w_now (fl_world s) ->
  (size (ahead (j_CreatedAt j) (w_db (fl_world s'))) < size (ahead (j_CreatedAt j) (w_db (fl_world s))))%nat.
Proof.
  intros Hi Hc Hj Hq Hn. destruct (answered_claim_takes max k j s s' Hi Hc Hj Hq) as (k0 & Hin & Htk).
  apply (answered_claim_step max) in Hc. destruct (fleet_step_queue _ _ _ _ Hi Hc Hn) as [[Hsub _ _] _].
  apply subset_size. split; [done|]. intros Hsup. exact (taken_not_ahead _ _ _ Htk (Hsup _ Hin)).
Qed.

(** [n] answered claims are enough when at most [n] jobs are ahead. *)
Lemma claims_in_takes max k n s s' j :
  claims_in max k n s s' -> fleet_inv max s ->
  jobs (w_db (fl_world s)) !! k = Some j -> j_CreatedAt j < w_now (fl_world s) ->
  taken (w_db (fl_world s)) k \/ (size (ahead (j_CreatedAt j) (w_db (fl_world s))) <= n)%nat ->
  taken (w_db (fl_world s')) k.
Proof.
  intros Hr. revert j. induction Hr as [s|n s s1 s' Hs _ IH|n s s1 s' Hs _ IH]; intros j Hi Hj Hn Hor.
  - destruct Hor as [?|Hsz]; [done|]. exists j. split; [done|]. intros Hq.
    assert (ahead (j_CreatedAt j) (w_db (fl_world s)) ≡ ∅) as He by (apply size_empty_iff; lia).
    apply (not_elem_of_empty (C := gset N) k), He, elem_of_ahead. exists j. split_and!; [done..|lia].
  - destruct (fleet_step_queue max _ s s1 Hi Hs Hn) as [[Ha Ht Hc] Hn1].
    destruct (Hc k j Hj) as (j1 & Hj1 & E). rewrite <-E in *.
    apply (IH j1); eauto using fleet_step_inv.
    destruct Hor as [?|Hsz]; [by auto|right]. apply subseteq_size in Ha. lia.
  - destruct (fleet_step_queue max _ s s1 Hi (answered_claim_step _ _ _ _ Hs) Hn) as [[Ha Ht Hc] Hn1].
    destruct (Hc k j Hj) as (j1 & Hj1 & E).
    apply (IH j1); eauto using fleet_step_inv, answered_claim_step; [by rewrite E|]. rewrite E.
    destruct Hor as [?|Hsz]; [by auto|].
    destruct (decide (j_Status j = JobStatusQueued)) as [Hq|Hq]; [|left; apply Ht; by exists j].
    right. pose proof (answered_claim_decreases max k j s s1 Hi Hs Hj Hq Hn). lia.
Qed.

(** ** Answered claims keep being possible *)

Lemma poller_gets_idle max s : exists s', rtc (fleet_step max) s s' /\ fl_phase s' 0 = Idle.
Proof.
  assert (forall s n, fl_phase s 0 = Batch n -> exists s', rtc (fleet_step max) s s' /\ fl_phase s' 0 = Idle) as Hb.
  { intros s1 n Hp. eexists. split; [by apply rtc_once, (fs_leave max 0 n)|]. cbn. by rewrite put_eq. }
  destruct (fl_phase s 0) as [|n|n j] eqn:Hp; [by exists s|by eauto|].
  destruct (prepare j (fl_world s)) as [r w'] eqn:Hr. pose proof (fs_prepare max 0 n j r w' s Hp Hr) as Hs.
  destruct r as [g|e].
  - match type of Hs with fleet_step _ _ ?s1 => destruct (Hb s1 n) as (s' & Hr' & Hi) end; [cbn; by rewrite put_eq|].
    exists s'. split; [by eapply rtc_l|done].
  - eexists. split; [by apply rtc_once|]. cbn. by rewrite put_eq.
Qed.

Lemma fleet_steps_inv max s s' : rtc (fleet_step max) s s' -> fleet_inv max s -> fleet_inv max s'.
Proof. induction 1; eauto using fleet_step_inv. Qed.

Lemma poller_gets_slot max s :
  0 < max -> fleet_inv max s ->
  exists s', rtc (fleet_step max) s s' /\ fl_phase s' 0 = Idle /\ fl_inflight s' 0 < max.
Proof.
  intros Hm Hi. destruct (poller_gets_idle max s) as (s1 & Hr & Hp).
  pose proof (fi_slots _ _ (fleet_steps_inv _ _ _ Hr Hi) 0%N) as Hsl. rewrite Hp in Hsl. cbn in Hsl.
  destruct (decide (fl_inflight s1 0 < max)) as [|Hge]; [by exists s1|].
  eexists. split; [eapply rtc_r; [exact Hr|apply (fs_finish max 0); lia]|]. cbn. rewrite put_eq. split; [done|lia].
Qed.

Lemma poller_gets_ready max s :
  0 < max -> fleet_inv max s ->
  exists s' n, rtc (fleet_step max) s s' /\ fl_phase s' 0 = Batch (S n) /\ w_faults (fl_world s') = [].
Proof.
  intros Hm Hi. destruct (poller_gets_slot max s Hm Hi) as (s1 & Hr & Hp & Hlt).
  pose proof (fs_tick max 0 s1 Hp) as Ht. match type of Ht with fleet_step _ _ ?s2 => set (f := s2) in * end.
  pose proof (fs_system max _ f (sys_env _ (w_ids (fl_world f)) [] (fl_world f) (Z.le_refl _))) as He.
  eexists _, (pred (Z.to_nat (max - fl_inflight s1 0))).
  split; [eapply rtc_r; [eapply rtc_r; [exact Hr|exact Ht]|exact He]|]. cbn. rewrite put_eq. split; [f_equal; lia|done].
Qed.

Lemma claim_answered locked w r w' :
  w_faults w = [] -> claim locked w = (r, w') -> r <> Err ErrClaim.
Proof.
  intros Hf Hrun. unfold claim, exec, bind, next_fault, ret in Hrun. rewrite Hf in Hrun.
  unfold ClaimJob in Hrun. destruct (head _); by simplify_eq/=.
Qed.

Lemma claims_in_steps max k n s s1 s' :
  rtc (fleet_step max) s s1 -> claims_in max k n s1 s' -> claims_in max k n s s'.
Proof. induction 1; eauto using ci_step. Qed.

Lemma claims_possible max k n : forall s,
  0 < max -> fleet_inv max s -> exists s', claims_in max k n s s'.
Proof.
  induction n as [|n IH]; intros s Hm Hi; [exists s; constructor|].
  destruct (poller_gets_ready max s Hm Hi) as (s1 & m & Hr & Hp & Hf).
  destruct (claim ∅ (fl_world s1)) as [r w'] eqn:Hc.
  pose proof (ac_claim k s1 0 m ∅ r w' Hp ltac:(set_solver) Hc (claim_answered _ _ _ _ Hf Hc)) as Ha.
  destruct (IH _ Hm (fleet_step_inv _ _ _ (fleet_steps_inv _ _ _ Hr Hi) (answered_claim_step max _ _ _ Ha))) as [s' Hs'].
  exists s'. eapply claims_in_steps; [exact Hr|]. by eapply ci_claim.
Qed.

End FleetQueue.
End QueueLiveness.

(** * Properties *)

Module QueueProps.
Import JobStore JobEffects JobSystem Poller PollerFacts PollerProps QueueLiveness.

Section Props.
Context `{UUIDCodec} `{Validator} `{TaskEnqueuer}.

(** C30: No job starves.  In a fleet of pollers with at least one slot each,
    interleaved with pushes, callbacks, the watchdog and failures, take a
    queued job and let [n] be the number of queued jobs not younger than it:
    from every reachable state a run with [n] answered claims exists, and in
    every such run, whatever is pushed meanwhile, the job has left the queue. *)
Theorem no_job_starves max k j s0 s :
  0 < max -> fleet_start s0 -> rtc (fleet_step max) s0 s ->
  jobs (w_db (fl_world s)) !! k = Some j -> j_Status j = JobStatusQueued -> j_CreatedAt j < w_now (fl_world s) ->
  let n := size (ahead (j_CreatedAt j) (w_db (fl_world s))) in
  (exists s', claims_in max k n s s') /\
  forall s', claims_in max k n s s' -> taken (w_db (fl_world s')) k.
Proof.
  intros Hm Hs0 Hr Hj Hq Hn n. assert (fleet_inv max s) as Hi.
  { eapply fleet_steps_inv; [exact Hr|]. apply fleet_start_inv; [lia|done]. }
  split; [by apply claims_possible|]. intros s' Hs'. eapply claims_in_takes; eauto.
Qed.

(** Where the answer of the claim is a job, it is the job or one ahead of it:
    a waiting job is never overtaken by a younger one. *)
Theorem claims_never_overtake max k j i s s' :
  fleet_inv max s -> answered_claim k s s' ->
  jobs (w_db (fl_world s)) !! k = Some j -> j_Status j = JobStatusQueued ->
  taken (w_db (fl_world s')) i -> ~ taken (w_db (fl_world s)) i ->
  i ∈ ahead (j_CreatedAt j) (w_db (fl_world s)).
Proof.
  intros Hi Hc Hj Hq Hin Hnot. destruct (answered_claim_takes max k j s s' Hi Hc Hj Hq) as (k0 & Ha & Ht).
  destruct (decide (i = k0)) as [->|Hne]; [done|]. exfalso. apply Hnot.
  destruct Hc as [p n locked r w' Hp Hl Hc Hr]. cbn in *.
  unfold claim in Hc. go_run.
  match goal with E : ClaimJob _ _ _ = _ |- _ => unfold ClaimJob in E; destruct (head _) as [j0|] eqn:Hh end;
    simplify_eq/=.
  destruct Hin as (j1 & Hj1 & Hq1). destruct (decide (i = j_ID j0)) as [->|Hne'].
  - destruct Ht as (j2 & Hj2 & Hq2). cbn in Hj2. rewrite lookup_insert_ne in Hj2 by done.
    apply elem_of_ahead in Ha as (? & ? & ? & _). congruence.
  - cbn in Hj1. rewrite lookup_insert_ne in Hj1 by done. by exists j1.
Qed.

End Props.

(** ** Closed example *)

#[local] Existing Instance example_codec.
#[local] Existing Instance example_validator.

(** The example push, one tick later. *)
Definition ex_world_later : World :=
  mkWorld (w_db JobProps.ex_w1) (w_tx JobProps.ex_w1) 1001 [] [] [] ∅ ∅.

Definition ex_fleet_later : Fleet := mkFleet ex_world_later (fun _ => Idle) (fun _ => 0) [].

Lemma no_job_starves_witness :
  (exists s', claims_in 1 100 1 ex_fleet_later s' /\ taken (w_db (fl_world s')) 100%N) /\
  ahead 1000 (w_db ex_world_later) = {[ 100%N ]}.
Proof.
  split; [|vm_compute; reflexivity].
  destruct (no_job_starves 1 100%N JobProps.ex_job1 ex_fleet_later ex_fleet_later) as [[s' Hs'] Ht].
  - lia.
  - destruct JobProps.ex_wf1 as [Hwf Htx]. split; [by apply wf_keys|done].
  - apply rtc_refl.
  - vm_compute; reflexivity.
  - vm_compute; reflexivity.
  - vm_compute; reflexivity.
  - exists s'. split; [exact Hs'|exact (Ht s' Hs')].
Defined.

End QueueProps.
