(* ===== verification/WorkerSystem.v ===== *)
(** The worker against the API: the callback client of the worker talks to the
    internal routes of the API (body limit, content type, job token, handler),
    and the executor's run is followed to the rows it leaves in the database
    and the object it leaves in the bucket. *)

From S2P Require Import Prelude GoStr Sha256 JobToken Store JobStore HttpUtil Middleware JobService Callback JobEffects JobSystem JobProps Services GithubApi Worker.

(** * Definitions *)

Module WorkerSystem.
Import GoContext Runner ApiClient Executor JobStore JobEffects JobSystem JobProps WorkerFacts.

(** The worker's report as the API decodes it: the client sends no duration. *)
Definition api_request (r : CompleteRequest) : Callback.CompleteRequest :=
  Callback.mkCompleteRequest (acr_JobID r) (acr_Status r) (acr_ErrorMessage r) (acr_SnapshotPath r)
    (acr_ZigzagVersion r) (acr_SizeBytes r) 0.

(** The decoders on the API's side: the job id the token middleware reads and
    the request of each handler; they undo the client's encoding. *)
Class ApiJson `{CallbackJson} := {
  decode_id : string -> option string;
  parse_start : string -> option Callback.StartRequest;
  parse_complete : string -> option Callback.CompleteRequest;
  decode_id_start : forall j, decode_id (marshal_start j) = Some j;
  decode_id_complete : forall r, decode_id (marshal_complete r) = Some (acr_JobID r);
  parse_start_marshal : forall j, parse_start (marshal_start j) = Some (Callback.mkStartRequest j);
  parse_complete_marshal : forall r, parse_complete (marshal_complete r) = Some (api_request r);
  unmarshal_marshal : forall a, unmarshal_start_response (marshal_start_response a) = Ok a
}.

Section Server.
Context `{UUIDCodec} `{Validator} `{ApiJson}.
Context (media : string -> option string) (gct : Z -> option string) (api_signer : JobToken.Signer).

Definition request_of (auth body : string) : InternalRequest :=
  mkInternalRequest auth "application/json" (BodyLimit.mkBody (Some body) None).

(** The two internal routes of the API, as the client sees them. *)
#[global] Instance api_server : CallbackServer := {|
  post path auth body :=
    if decide (path = "/internal/jobs/start") then
      r <- internal_route media api_signer decode_id parse_start (Callback.Start gct) (request_of auth body) ;;
      ret (match r with Reply st a => (st, marshal_start_response a) | Fail st msg => (st, msg) end)
    else if decide (path = "/internal/jobs/complete") then
      r <- internal_route media api_signer decode_id parse_complete Callback.Complete (request_of auth body) ;;
      ret (match r with Reply st text => (st, text) | Fail st msg => (st, msg) end)
    else ret (StatusNotFound, "404 page not found")
|}.

End Server.

Section Calm.
Context `{CircuitBreaker.GoBreaker}.

(** ** A calm run: every exchange goes through, the API's statements succeed,
    and everything that is scheduled ends before the deadline. *)
Definition exchange_time (l : list Net) : Z := zsum ((fun n => n_out n + n_back n) <$> l).

Definition remaining (s : WState) : Z := exchange_time (ws_net s) + zsum (ws_delays s).

Record calm (closed : CircuitBreaker.cb_state -> Prop) (ttl : Z) (ctx : Context) (s : WState) : Prop := {
  calm_faults : w_faults (ws_api s) = [];
  calm_net : Forall (fun n => n_delivered n = true /\ n_replied n = true /\ 0 <= n_out n /\ 0 <= n_back n) (ws_net s);
  calm_delays : Forall (fun d => 0 <= d) (ws_delays s);
  calm_deadline : expired (ws_now s + 1000 * remaining s) ctx = false;
  (* clocks fit, and a token outlives the exchange it is signed for *)
  calm_clock : 0 <= w_now (ws_api s) /\ 0 <= ttl /\ ws_now s + 1000 * remaining s + ttl < 2 ^ 63;
  calm_token : 1000 * exchange_time (ws_net s) <= ttl;
  calm_breaker : closed (ws_breaker s)
}.

(** A breaker that lets calls through while they succeed. *)
Definition closed_laws (closed : CircuitBreaker.cb_state -> Prop) : Prop :=
  forall now b, closed b ->
    (exists b', CircuitBreaker.cb_before now b = Ok b' /\ closed b') /\ closed (CircuitBreaker.cb_after now true b).

End Calm.
End WorkerSystem.

(** * Lemmas *)

Module EndToEnd.
Import GoContext Runner ApiClient Executor JobStore JobEffects JobSystem JobProps WorkerFacts WorkerSystem.

Lemma zsum_nonneg l : Forall (fun d => 0 <= d) l -> 0 <= zsum l.
Proof. induction 1; cbn; lia. Qed.

Lemma zsum_take n l : Forall (fun d => 0 <= d) l -> 0 <= zsum (take n l) /\ zsum l = zsum (take n l) + zsum (drop n l).
Proof.
  intros Hl. split; [by apply zsum_nonneg, Forall_take|]. by rewrite <-zsum_app, take_drop.
Qed.

Lemma expired_mono c t t' : t <= t' -> expired t' c = false -> expired t c = false.
Proof. destruct c; cbn; lia. Qed.

Section Calm.
Context `{CircuitBreaker.GoBreaker} (closed : CircuitBreaker.cb_state -> Prop) (ttl : Z).

Lemma exchange_nonneg l :
  Forall (fun n => n_delivered n = true /\ n_replied n = true /\ 0 <= n_out n /\ 0 <= n_back n) l -> 0 <= exchange_time l.
Proof.
  intros Hl. apply zsum_nonneg, Forall_fmap. eapply Forall_impl; [exact Hl|]. cbn. intros n. lia.
Qed.

Lemma calm_now ctx s : calm closed ttl ctx s -> expired (ws_now s) ctx = false.
Proof.
  intros [Hf Hn Hd Hdl Hck Htk Hb]. eapply expired_mono; [|exact Hdl]. unfold remaining.
  pose proof (exchange_nonneg _ Hn). pose proof (zsum_nonneg _ Hd). lia.
Qed.

(** Work on the host keeps a run calm. *)
Lemma calm_worked ctx s s' : calm closed ttl ctx s -> worked s s' -> calm closed ttl ctx s'.
Proof.
  intros [Hf Hn Hd Hdl Hck Htk Hb] (n & Hd' & Ha & Hn' & Hb' & _).
  pose proof (zsum_take n _ Hd) as [Hpos Hsum].
  unfold remaining, ws_now, go_now in *. rewrite advance_api in Ha.
  split; rewrite ?Hn', ?Hb', ?Hd'; try done; unfold remaining, ws_now, go_now; rewrite ?Hn', ?Hd', ?Ha; cbn -[Z.mul Z.add];
    [done|by apply Forall_drop| |lia].
  eapply expired_mono; [|exact Hdl]. lia.
Qed.

(** A change of the API's world that keeps the clock keeps a run calm. *)
Lemma calm_set_api ctx s w :
  calm closed ttl ctx s -> w_now w = w_now (ws_api s) -> w_faults w = [] -> calm closed ttl ctx (set_api w s).
Proof.
  intros [Hf Hn Hd Hdl Hck Htk Hb] Hw Hfw. unfold ws_now, go_now in *.
  split; cbn -[Z.mul Z.add]; try done; unfold ws_now, go_now; cbn -[Z.mul Z.add]; by rewrite Hw.
Qed.

(** ** One exchange: the API's world it runs in differs in the clock only *)
Definition at_time (t : Z) (w : World) : World :=
  mkWorld (w_db w) (w_tx w) t (w_ids w) (w_faults w) (w_tasks w) (w_objects w) (w_cache w).

Context `{CallbackServer}.

Lemma http_Do_calm ctx path auth body s :
  calm closed ttl ctx s ->
  exists t, w_now (ws_api s) <= t <= w_now (ws_api s) + exchange_time (ws_net s) /\
    forall r w', post path auth body (at_time t (ws_api s)) = (r, w') -> w_now w' = t -> w_faults w' = [] ->
    exists s' t', http_Do ctx path auth body s = (Ok r, s') /\ calm closed ttl ctx s' /\ t <= t' /\
      ws_api s' = at_time t' w' /\ ws_fs s' = ws_fs s /\ ws_delays s' = ws_delays s /\
      ws_sent s' = ws_sent s ++ [(path, body)] /\ ws_breaker s' = ws_breaker s.
Proof.
  intros Hc. pose proof (calm_now _ _ Hc) as Hnow. destruct Hc as [Hf Hn Hd Hdl Hck Htk Hb].
  assert (exists n l, hd healthy_net (ws_net s) = n /\ tl (ws_net s) = l /\
    n_delivered n = true /\ n_replied n = true /\ 0 <= n_out n /\ 0 <= n_back n /\
    exchange_time (ws_net s) = n_out n + n_back n + exchange_time l /\
    Forall (fun n => n_delivered n = true /\ n_replied n = true /\ 0 <= n_out n /\ 0 <= n_back n) l)
    as (n & l & Hhd & Htl & Hdel & Hrep & Hout & Hback & Hsum & Hl).
  { destruct (ws_net s) as [|n l]; [by exists healthy_net, []|].
    apply Forall_cons in Hn as [(?&?&?&?) Hl]. exists n, l. by split_and!. }
  pose proof (exchange_nonneg _ Hl) as Hlpos. pose proof (zsum_nonneg _ Hd) as Hdpos.
  exists (w_now (ws_api s) + n_out n). split; [lia|]. intros r w' Hpost Hw' Hfw.
  assert (forall s0, ws_now s0 <= ws_now s + 1000 * (n_out n + n_back n) -> expired (ws_now s0) ctx = false) as Hne.
  { intros s0 Hs0. eapply expired_mono; [|exact Hdl]. unfold remaining. lia. }
  unfold http_Do. change (expired (ws_now (add_sent path body s)) ctx) with (expired (ws_now s) ctx). rewrite Hnow.
  cbn [add_sent ws_net]. rewrite Hhd, Htl, Hdel, Hrep. cbn [negb].
  rewrite Hne by (unfold ws_now, go_now; cbn -[Z.mul Z.add]; lia).
  unfold on_api. rewrite advance_api. cbn [set_net add_sent ws_api]. fold (at_time (w_now (ws_api s) + n_out n) (ws_api s)).
  rewrite Hpost. cbn beta iota.
  rewrite Hne by (unfold ws_now, go_now; cbn -[Z.mul Z.add]; lia).
  eexists _, (w_now w' + n_back n). split; [reflexivity|]. split_and!; try done; [|lia].
  unfold remaining, ws_now, go_now in *.
  split; try done; unfold remaining, ws_now, go_now; cbn -[Z.mul Z.add exchange_time zsum]; try lia.
  eapply expired_mono; [|exact Hdl]. lia.
Qed.

(** Through a closed breaker, a call that succeeds runs as it is. *)
Lemma guarded_calm {T} c ctx (fn : M WState (result string T)) s a (P : WState -> Prop) :
  closed_laws closed -> calm closed ttl ctx s ->
  (forall b, closed b -> exists s1, fn (set_breaker b s) = (Ok a, s1) /\ calm closed ttl ctx s1 /\ P s1) ->
  (forall b s1, P s1 -> P (set_breaker b s1)) ->
  exists s', guarded c fn s = (Ok a, s') /\ calm closed ttl ctx s' /\ P s'.
Proof.
  intros Hl Hc Hfn Hp. unfold guarded. destruct (has_breaker c).
  - unfold CircuitBreaker.Execute. destruct (Hl (ws_now s) _ (calm_breaker _ _ _ _ Hc)) as [(b & -> & Hb) _].
    destruct (Hfn b Hb) as (s1 & -> & Hc1 & He). eexists. split; [reflexivity|]. split; [|by apply Hp].
    destruct Hc1. split; try done. by apply Hl.
  - destruct (Hfn _ (calm_breaker _ _ _ _ Hc)) as (s1 & Hrun & Hc1 & He). exists s1. split; [|done].
    replace (set_breaker (ws_breaker s) s) with s in Hrun by (by destruct s). done.
Qed.

End Calm.

(** ** The API's side of an exchange *)

Lemma substring_all n s : (String.length s <= n)%nat -> String.substring 0 n s = s.
Proof.
  revert n. induction s as [|a s IH]; intros [|n] Hn; cbn in *; try done; try lia. f_equal. apply IH. lia.
Qed.

Section Routes.
Context `{UUIDCodec} `{Validator} `{ApiJson}.
Context (media : string -> option string) (gct : Z -> option string) (api_signer worker_signer : JobToken.Signer).
Context (Hmedia : media "application/json" = Some "application/json").
(** The API holds the worker's key, as its current or its previous one. *)
Context (Htrust : JobToken.key worker_signer = JobToken.key api_signer \/
                  JobToken.prevKey api_signer = Some (JobToken.key worker_signer)).

Lemma sign_not_empty k j e : JobToken.sign k j e <> "".
Proof. intros E. pose proof (JobTokenFacts.sign_split k j e) as Hs. by rewrite E in Hs. Qed.

(** A request signed by the worker reaches the handler. *)
Lemma route_reached {Req A} (parse : string -> option Req) (handler : string -> option Req -> M World (Resp A))
    body jobID t0 w :
  decode_id body = Some jobID -> jobID <> "" -> len body <= bodyLimit1MB ->
  in_int64 (unix (t0 + JobToken.ttl worker_signer)) -> unix (go_now w) <= unix (t0 + JobToken.ttl worker_signer) ->
  internal_route media api_signer decode_id parse handler
    (request_of ("Bearer " +:+ JobToken.Sign worker_signer t0 jobID) body) w = handler jobID (parse body) w.
Proof.
  intros Hdec Hne Hlen H64 Hnow. unfold internal_route, request_of. cbn [ir_Body ir_ContentType ir_Authorization].
  assert (ContentType.RequireJSON media "POST" "application/json" = Ok tt) as ->.
  { unfold ContentType.RequireJSON, ContentType.isJSON. rewrite decide_False, Hmedia by done. done. }
  cbn [BodyLimit.Limit]. change (BodyLimit.Limit bodyLimit1MB "POST" (BodyLimit.mkBody (Some body) None))
    with (BodyLimit.mkBody (Some body) (Some bodyLimit1MB)).
  unfold BodyLimit.read_upto. cbn [BodyLimit.b_content BodyLimit.b_cap].
  rewrite (proj2 (Z.ltb_ge _ _)) by lia.
  unfold JobToken.Auth, JobToken.extractBearer, cut_bearer. rewrite CutPrefix_app.
  rewrite decide_False by apply sign_not_empty. cbn beta iota.
  unfold JobToken.limit_read. rewrite substring_all.
  2:{ unfold len, bodyLimit1MB in Hlen. unfold JobToken.maxBodyBytes. lia. }
  rewrite Hdec, decide_False by done.
  rewrite (proj2 (JobTokenFacts.Validate_Ok _ _ _ _)); [done|].
  exists (JobToken.key worker_signer), (unix (t0 + JobToken.ttl worker_signer)). by split_and!.
Qed.

(** ** The client's side *)

Context `{CircuitBreaker.GoBreaker} (closed : CircuitBreaker.cb_state -> Prop) (Hclosed : closed_laws closed).
Context (bad_url : string -> option string) (Hurl : forall u, bad_url u = None) (base : string) (breaker : bool).

Definition the_client : Client := mkClient base worker_signer breaker.

#[local] Existing Instance api_server.
#[local] Instance the_server : CallbackServer := api_server media gct api_signer.

Lemma calm_set_breaker ttl ctx b s : calm closed ttl ctx s -> closed b -> calm closed ttl ctx (set_breaker b s).
Proof. intros [] Hb. by split. Qed.

(** A token signed when the exchange starts is valid when it arrives. *)
Lemma token_lasts ctx s t :
  calm closed (JobToken.ttl worker_signer) ctx s ->
  w_now (ws_api s) <= t <= w_now (ws_api s) + exchange_time (ws_net s) ->
  in_int64 (unix (ws_now s + JobToken.ttl worker_signer)) /\
  unix (go_now (at_time t (ws_api s))) <= unix (ws_now s + JobToken.ttl worker_signer).
Proof.
  intros [Hf Hn Hd Hdl Hck Htk Hb] Ht. pose proof (exchange_nonneg _ Hn). pose proof (zsum_nonneg _ Hd).
  unfold remaining, ws_now, go_now, unix, in_int64 in *. cbn -[Z.mul Z.add Z.div]. split.
  - split; [|apply Z.div_lt_upper_bound; lia]. pose proof (Z.div_pos (1000 * w_now (ws_api s) + JobToken.ttl worker_signer) 1000000000). lia.
  - apply Z.div_le_mono; lia.
Qed.

(** What an exchange leaves of the worker's state. *)
Definition exchanged (s s' : WState) (path body : string) (w' : World) : Prop :=
  exists t', w_now w' <= t' /\ ws_api s' = at_time t' w' /\ ws_fs s' = ws_fs s /\
    ws_sent s' = ws_sent s ++ [(path, body)].

Lemma Start_calm ctx s k j repo tok :
  let jobID := uuid_text k in
  calm closed (JobToken.ttl worker_signer) ctx s -> keys_ok (w_db (ws_api s)) -> w_tx (ws_api s) = None ->
  jobID <> "" -> Callback.validate_StartRequest (Callback.mkStartRequest jobID) = [] ->
  len (marshal_start jobID) <= bodyLimit1MB ->
  jobs (w_db (ws_api s)) !! k = Some j -> j_Status j = JobStatusRunning ->
  repositories (w_db (ws_api s)) !! j_RepoID j = Some repo -> gct (r_InstallationID repo) = Some tok ->
  exists s', Start bad_url the_client ctx jobID s =
      (Ok (Callback.mkStartResponse (j_CommitSha j) (j_Branch j) (r_FullName repo) tok (r_InstallationID repo)), s') /\
    calm closed (JobToken.ttl worker_signer) ctx s' /\
    exists t, w_now (ws_api s) <= t /\
      exchanged s s' "/internal/jobs/start" (marshal_start jobID) (at_time t (ws_api s)).
Proof.
  intros jobID Hc Hk Htx Hne Hv Hlen Hj Hst Hr Hg. unfold Start. rewrite decide_False, Hurl by done.
  unfold gets, bind. apply guarded_calm with (ttl := JobToken.ttl worker_signer) (closed := closed); try done.
  intros b Hb. pose proof (calm_set_breaker _ _ _ _ Hc Hb) as Hcb.
  destruct (http_Do_calm closed _ ctx "/internal/jobs/start" (authorization the_client jobID s) (marshal_start jobID) _ Hcb)
    as (t & Ht & Hdo).
  pose proof (token_lasts _ _ t Hcb Ht) as [H64 Hun].
  edestruct Hdo as (s1 & t' & Hrun & Hc1 & Htt & Hapi & Hfs & _ & Hsent & _).
  { unfold post, the_server, api_server. rewrite decide_True by done. erewrite bind_eval; [reflexivity|].
    unfold authorization. cbn [signer the_client].
    change (ws_now s) with (ws_now (set_breaker b s)).
    rewrite (route_reached parse_start) with (jobID := jobID); try done; [|apply decode_id_start].
    rewrite parse_start_marshal. eapply (Start_running_run gct jobID k); try done; [|apply uuid_scan_text].
    apply (calm_faults _ _ _ _ Hc). }
  { done. }
  { apply (calm_faults _ _ _ _ Hc). }
  exists s1. split; [|split; [done|]].
  - unfold Start_do. erewrite bind_eval by exact Hrun. cbn. by rewrite unmarshal_marshal.
  - exists t. split; [apply Ht|]. exists t'. by split_and!.
Qed.

(** A report the API accepts. *)
Lemma Complete_calm ctx s req :
  calm closed (JobToken.ttl worker_signer) ctx s -> acr_JobID req <> "" ->
  acr_Status req = "succeeded" \/ acr_Status req = "failed" -> len (marshal_complete req) <= bodyLimit1MB ->
  (forall t, exists text w', w_now (ws_api s) <= t ->
     Callback.Complete (acr_JobID req) (Some (api_request req)) (at_time t (ws_api s)) = (Reply StatusOK text, w') /\
     settled (at_time t (ws_api s)) w') ->
  exists s' t text w', Complete bad_url the_client ctx req s = (Ok tt, s') /\
    calm closed (JobToken.ttl worker_signer) ctx s' /\ w_now (ws_api s) <= t /\
    Callback.Complete (acr_JobID req) (Some (api_request req)) (at_time t (ws_api s)) = (Reply StatusOK text, w') /\
    exchanged s s' "/internal/jobs/complete" (marshal_complete req) w'.
Proof.
  intros Hc Hne Hst Hlen Hserve. unfold Complete. rewrite decide_False by done.
  rewrite decide_False by (destruct Hst as [-> | ->]; done).
  replace (negb _ && negb _) with false by (destruct Hst as [-> | ->]; done). rewrite Hurl.
  unfold gets, bind.
  edestruct (guarded_calm closed (JobToken.ttl worker_signer) the_client ctx
    (Complete_do ctx (authorization the_client (acr_JobID req) s) (marshal_complete req)) s tt
    (fun s' => exists t text w', w_now (ws_api s) <= t /\
       Callback.Complete (acr_JobID req) (Some (api_request req)) (at_time t (ws_api s)) = (Reply StatusOK text, w') /\
       exchanged s s' "/internal/jobs/complete" (marshal_complete req) w')) as (s' & Hrun & Hc' & Hp); try done.
  { intros b Hb. pose proof (calm_set_breaker _ _ _ _ Hc Hb) as Hcb.
    destruct (http_Do_calm closed _ ctx "/internal/jobs/complete" (authorization the_client (acr_JobID req) s)
      (marshal_complete req) _ Hcb) as (t & Ht & Hdo).
    pose proof (token_lasts _ _ t Hcb Ht) as [H64 Hun].
    destruct (Hserve t) as (text & w' & Hw'). destruct Hw' as (Hhandler & Hnow & Hfl & _); [apply Ht|].
    edestruct Hdo as (s1 & t' & Hrun & Hc1 & Htt & Hapi & Hfs & _ & Hsent & _).
    { unfold post, the_server, api_server. rewrite decide_False, decide_True by done. erewrite bind_eval; [reflexivity|].
      unfold authorization. cbn [signer the_client].
      change (ws_now s) with (ws_now (set_breaker b s)).
      rewrite (route_reached parse_complete) with (jobID := acr_JobID req); try done; [|apply decode_id_complete].
      rewrite parse_complete_marshal. exact Hhandler. }
    { exact Hnow. }
    { rewrite Hfl. apply (calm_faults _ _ _ _ Hc). }
    exists s1. split; [|split; [done|]].
    - unfold Complete_do. by erewrite bind_eval by exact Hrun.
    - exists t, text, w'. split_and!; [apply Ht|done|]. exists t'. split_and!; try done. by rewrite Hnow. }
  destruct Hp as (t & text & w' & Ht & Hh & He). exists s', t, text, w'. by split_and!.
Qed.

(** ** Reports that pass the API's validation *)

Lemma failed_request_valid jobID e :
  Callback.tags_JobID jobID = [] -> e <> "" ->
  Callback.validate_CompleteRequest (api_request (failed_request jobID e)) = [].
Proof.
  intros Hid He. unfold Callback.validate_CompleteRequest, Callback.tag_required_if. cbn [api_request failed_request
    acr_JobID acr_Status acr_ErrorMessage acr_SnapshotPath acr_ZigzagVersion acr_SizeBytes Callback.cr_JobID
    Callback.cr_Status Callback.cr_ErrorMessage Callback.cr_SnapshotPath Callback.cr_ZigzagVersion Callback.cr_SizeBytes
    Callback.cr_DurationMs].
  rewrite Hid, decide_True, !decide_False by done. cbn [check_field app].
  rewrite (proj2 (tag_required_spec "failed")), (proj2 (tag_oneof_spec _ "failed")), (proj2 (tag_required_spec e)),
    (proj2 (tag_gte_spec 0 0)) by (done || set_solver). done.
Qed.

Lemma succeeded_request_valid jobID path res :
  Callback.tags_JobID jobID = [] -> path <> "" -> res_ZigzagVersion res <> "" -> 0 <= res_SizeBytes res ->
  Callback.validate_CompleteRequest (api_request (succeeded_request jobID path res)) = [].
Proof.
  intros Hid Hp Hz Hs. unfold Callback.validate_CompleteRequest, Callback.tag_required_if. cbn [api_request succeeded_request
    acr_JobID acr_Status acr_ErrorMessage acr_SnapshotPath acr_ZigzagVersion acr_SizeBytes Callback.cr_JobID
    Callback.cr_Status Callback.cr_ErrorMessage Callback.cr_SnapshotPath Callback.cr_ZigzagVersion Callback.cr_SizeBytes
    Callback.cr_DurationMs].
  rewrite Hid, decide_False, !decide_True by done. cbn [check_field app].
  rewrite (proj2 (tag_required_spec "succeeded")), (proj2 (tag_oneof_spec _ "succeeded")), (proj2 (tag_required_spec path)),
    (proj2 (tag_required_spec _)), (proj2 (tag_gte_spec 0 (res_SizeBytes res))), (proj2 (tag_gte_spec 0 0))
    by (done || set_solver). done.
Qed.

Lemma gcs_Upload_calm ttl ctx path data s :
  calm closed ttl ctx s ->
  exists s' t, gcs_Upload ctx path data s = (Ok tt, s') /\ calm closed ttl ctx s' /\ w_now (ws_api s) <= t /\
    ws_api s' = set_objects (<[path := data]> (w_objects (ws_api s))) (at_time t (ws_api s)) /\
    ws_sent s' = ws_sent s.
Proof.
  intros Hc. pose proof (calm_now _ _ _ _ Hc) as Hnow.
  set (s1 := advance (hd 0 (ws_delays s)) (set_delays (tl (ws_delays s)) s)).
  assert (worked s s1) as Hw.
  { exists 1%nat. unfold s1. rewrite hd_zsum. cbn. by destruct (ws_delays s). }
  pose proof (calm_worked _ _ _ _ _ Hc Hw) as Hc1. pose proof (calm_now _ _ _ _ Hc1) as Hnow1.
  pose proof (calm_faults _ _ _ _ Hc1) as Hf1.
  exists (set_api (set_objects (<[path := data]> (w_objects (ws_api s1))) (ws_api s1)) s1), (w_now (ws_api s1)).
  assert (w_now (ws_api s) <= w_now (ws_api s1)) as Hle.
  { unfold s1. cbn. destruct (calm_delays _ _ _ _ Hc); cbn; lia. }
  split_and!; try done.
  - unfold gcs_Upload. rewrite Hnow. fold s1. unfold on_api, Storage.Upload, bind, next_fault. rewrite Hf1. cbn beta iota.
    change (expired (ws_now (set_api ?w s1)) ctx) with (expired (go_now w) ctx).
    change (go_now (set_objects ?o (ws_api s1))) with (ws_now s1). by rewrite Hnow1.
  - apply calm_set_api; [done|done|exact Hf1].
Qed.

(** ** Reporting, on a state whose database still has the running job *)

Context `{Host} `{GithubApi.NetURL}.

Definition live (s : WState) (k : uuid) (j : Job) : Prop :=
  wf (w_db (ws_api s)) /\ w_tx (ws_api s) = None /\ jobs (w_db (ws_api s)) !! k = Some j /\ j_Status j = JobStatusRunning.

Lemma report_failure ctx s k j e :
  let jobID := uuid_text k in
  calm closed (JobToken.ttl worker_signer) ctx s -> live s k j ->
  jobID <> "" -> Callback.tags_JobID jobID = [] -> e <> "" ->
  len (marshal_complete (failed_request jobID e)) <= bodyLimit1MB ->
  exists s' t, completeFailed bad_url the_client ctx jobID e s = (tt, s') /\
    jobs (w_db (ws_api s')) !! k = Some (touch t (set_status t JobStatusFailed (Some e) j)).
Proof.
  intros jobID Hc (Hwf & Htx & Hj & Hst) Hne Htags He Hlen.
  assert (forall t, exists w', Callback.Complete jobID (Some (api_request (failed_request jobID e))) (at_time t (ws_api s))
      = (Reply StatusOK "failed", w') /\
      w_db w' = set_jobs (<[k := touch t (set_status t JobStatusFailed (NULLIF_empty e) j)]> (jobs (w_db (ws_api s))))
                  (w_db (ws_api s)) /\ settled (at_time t (ws_api s)) w') as Hserve.
  { intros t. apply (Complete_failed_run (api_request (failed_request jobID e)) k (at_time t (ws_api s)) j); try done.
    - by apply wf_keys.
    - apply (calm_faults _ _ _ _ Hc).
    - apply uuid_scan_text.
    - by apply failed_request_valid.
    - by rewrite Hst. }
  edestruct (Complete_calm ctx s (failed_request jobID e)) as (s' & t & text & w' & Hrun & _ & _ & Hh & t' & _ & Hapi & _);
    try done; [by right| |].
  { intros t. destruct (Hserve t) as (w' & ? & _ & ?). exists "failed", w'. by intros. }
  destruct (Hserve t) as (w'' & Hh' & Hdb & _). cbn [acr_JobID failed_request] in Hh. rewrite Hh in Hh'. simplify_eq.
  exists s', t. split.
  - unfold completeFailed. by erewrite bind_eval by exact Hrun.
  - rewrite Hapi. cbn. rewrite Hdb. cbn. rewrite lookup_insert_eq. unfold NULLIF_empty. by rewrite decide_False.
Qed.

Lemma report_success ctx s k j path res :
  let jobID := uuid_text k in
  let id := hd 0%N (w_ids (ws_api s)) in
  calm closed (JobToken.ttl worker_signer) ctx s -> live s k j ->
  jobID <> "" -> Callback.tags_JobID jobID = [] ->
  path <> "" -> res_ZigzagVersion res <> "" -> 0 <= res_SizeBytes res ->
  len (marshal_complete (succeeded_request jobID path res)) <= bodyLimit1MB ->
  snapshots (w_db (ws_api s)) !! id = None ->
  (forall k' sn, snapshots (w_db (ws_api s)) !! k' = Some sn ->
     same_commit (j_RepoID j) (j_Branch j) (j_CommitSha j) sn = false) ->
  exists s' t, Complete bad_url the_client ctx (succeeded_request jobID path res) s = (Ok tt, s') /\
    jobs (w_db (ws_api s')) !! k = Some (touch t (set_status t JobStatusSucceeded None j)) /\
    snapshots (w_db (ws_api s')) !! id =
      Some (mkSnapshot id (j_RepoID j) (Some k) (j_Branch j) (j_CommitSha j) path 1 (res_ZigzagVersion res)
              (res_SizeBytes res) t None) /\
    w_objects (ws_api s') = w_objects (ws_api s).
Proof.
  intros jobID id Hc (Hwf & Htx & Hj & Hst) Hne Htags Hp Hz Hsz Hlen Hid Hsame.
  set (req := succeeded_request jobID path res) in *.
  assert (forall t, exists w', Callback.Complete jobID (Some (api_request req)) (at_time t (ws_api s))
      = (Reply StatusOK "succeeded", w') /\
      jobs (w_db w') = <[k := touch t (set_status t JobStatusSucceeded None j)]> (jobs (w_db (ws_api s))) /\
      snapshots (w_db w') = <[id := mkSnapshot id (j_RepoID j) (Some k) (j_Branch j) (j_CommitSha j) path 1
          (res_ZigzagVersion res) (res_SizeBytes res) t None]> (snapshots (w_db (ws_api s))) /\
      settled (at_time t (ws_api s)) w') as Hserve.
  { intros t. apply (Complete_success_run (api_request req) k (at_time t (ws_api s)) j); try done.
    - by apply wf_keys.
    - apply (calm_faults _ _ _ _ Hc).
    - apply uuid_scan_text.
    - by apply succeeded_request_valid.
    - by rewrite Hst.
    - by eapply wf_repo. }
  edestruct (Complete_calm ctx s req) as (s' & t & text & w' & Hrun & _ & _ & Hh & t' & _ & Hapi & _);
    try done; [by left| |].
  { intros t. destruct (Hserve t) as (w' & ? & _ & _ & ?). exists "succeeded", w'. by intros. }
  destruct (Hserve t) as (w'' & Hh' & Hjobs & Hsn & _ & _ & Hobj & _). cbn [acr_JobID req succeeded_request] in Hh.
  rewrite Hh in Hh'. simplify_eq.
  exists s', t. rewrite Hapi. cbn. rewrite Hjobs, Hsn, !lookup_insert_eq. by split_and!.
Qed.

(** The job's repository is found and GitHub gives a clone token for it. *)
Definition startable (s : WState) (j : Job) (a : Callback.StartResponse) : Prop :=
  exists repo tok, repositories (w_db (ws_api s)) !! j_RepoID j = Some repo /\ gct (r_InstallationID repo) = Some tok /\
    a = Callback.mkStartResponse (j_CommitSha j) (j_Branch j) (r_FullName repo) tok (r_InstallationID repo).

(** What the API's state shows after the run [r] of the job, given the file
    system [f] it left: a failure with the error's text, or success with the
    snapshot row and the report in the bucket. *)
Definition outcome (orgID repoID : string) (s : WState) (k : uuid) (j : Job) (r : result string Result) (f : FS)
    (w' : World) : Prop :=
  let jobID := uuid_text k in
  let failed e := len (marshal_complete (failed_request jobID e)) <= bodyLimit1MB ->
    exists t, jobs (w_db w') !! k = Some (touch t (set_status t JobStatusFailed (Some e) j)) in
  match r with
  | Err e => failed e
  | Ok res =>
      match readReportFile (res_ReportsDir res) f with
      | Err e => failed ("read report: " +:+ e)
      | Ok data =>
          let path := Storage.SnapshotPath orgID repoID (j_CommitSha j) in
          let id := hd 0%N (w_ids (ws_api s)) in
          res_ZigzagVersion res <> "" -> 0 <= res_SizeBytes res ->
          len (marshal_complete (succeeded_request jobID path res)) <= bodyLimit1MB ->
          snapshots (w_db (ws_api s)) !! id = None ->
          (forall k' sn, snapshots (w_db (ws_api s)) !! k' = Some sn ->
             same_commit (j_RepoID j) (j_Branch j) (j_CommitSha j) sn = false) ->
          exists t, jobs (w_db w') !! k = Some (touch t (set_status t JobStatusSucceeded None j)) /\
            snapshots (w_db w') !! id = Some (mkSnapshot id (j_RepoID j) (Some k) (j_Branch j) (j_CommitSha j) path 1
                                               (res_ZigzagVersion res) (res_SizeBytes res) t None) /\
            w_objects w' !! path = Some data
      end
  end.

Lemma live_worked s s' k j : live s k j -> worked s s' -> live s' k j.
Proof. intros Hl (n & _ & Ha & _). unfold live in *. by rewrite Ha, advance_api. Qed.

Lemma live_at_time s s' k j t : live s k j -> ws_api s' = at_time t (ws_api s) -> live s' k j.
Proof. intros Hl Ha. unfold live in *. by rewrite Ha. Qed.

Lemma SnapshotPath_not_empty o r c : Storage.SnapshotPath o r c <> "".
Proof. unfold Storage.SnapshotPath. by destruct o. Qed.

(** A failure is reported, when its text fits into a request body. *)
Lemma failure_reported orgID repoID ctx s k j e f :
  calm closed (JobToken.ttl worker_signer) ctx s -> live s k j ->
  uuid_text k <> "" -> Callback.tags_JobID (uuid_text k) = [] -> e <> "" ->
  exists s', completeFailed bad_url the_client ctx (uuid_text k) e s = (tt, s') /\
    outcome orgID repoID s k j (Err e) f (ws_api s').
Proof.
  intros Hc Hl Hne Htags He. unfold outcome.
  destruct (decide (len (marshal_complete (failed_request (uuid_text k) e)) <= bodyLimit1MB)) as [Hle|Hgt].
  - destruct (report_failure ctx s k j e) as (s' & tf & Hf & Hjf); eauto.
  - destruct (completeFailed bad_url the_client ctx (uuid_text k) e s) as [[] s']. exists s'. by split.
Qed.

(** The result of a run is stored and reported. *)
Lemma result_delivered orgID repoID ctx s k j a res :
  calm closed (JobToken.ttl worker_signer) ctx s -> live s k j ->
  uuid_text k <> "" -> Callback.tags_JobID (uuid_text k) = [] -> Callback.CommitSHA a = j_CommitSha j ->
  exists s', deliver bad_url the_client ctx (uuid_text k) orgID repoID a res s = (tt, s') /\
    outcome orgID repoID s k j (Ok res) (ws_fs s) (ws_api s').
Proof.
  intros Hc Hl Hne Htags Hsha. unfold deliver, outcome. unfold bind at 1, gets. cbn beta iota. rewrite Hsha.
  destruct (readReportFile (res_ReportsDir res) (ws_fs s)) as [data|e] eqn:Hd.
  2:{ destruct (failure_reported orgID repoID ctx s k j ("read report: " +:+ e) (ws_fs s)) as (s' & Hf & Ho); eauto. }
  destruct (gcs_Upload_calm (JobToken.ttl worker_signer) ctx (Storage.SnapshotPath orgID repoID (j_CommitSha j)) data s Hc)
    as (s3 & t3 & Hup & Hc3 & Ht3 & Hapi3 & _).
  erewrite bind_eval by exact Hup. cbn beta iota.
  destruct (Complete bad_url the_client ctx
              (succeeded_request (uuid_text k) (Storage.SnapshotPath orgID repoID (j_CommitSha j)) res) s3)
    as [rc s4] eqn:Hcomp.
  exists s4. erewrite bind_eval by exact Hcomp. split; [done|]. intros Hz Hsz Hle Hid Hsame.
  assert (live s3 k j) as Hl3 by (unfold live in Hl |- *; by rewrite Hapi3).
  edestruct (report_success ctx s3 k j (Storage.SnapshotPath orgID repoID (j_CommitSha j)) res)
    as (s' & tf & Hf & Hjf & Hsn & Hobj); try done; rewrite ?Hapi3; cbn; try done; [apply SnapshotPath_not_empty|].
  rewrite Hcomp in Hf. simplify_eq. exists tf. split; [done|]. split.
  - by rewrite Hapi3 in Hsn.
  - rewrite Hobj, Hapi3. cbn. by rewrite lookup_insert_eq.
Qed.


End Routes.
End EndToEnd.

(** * Closed examples *)

Module WorkerExamples.
Import GoContext Runner ApiClient Executor JobStore JobSystem JobProps WorkerFacts WorkerSystem EndToEnd.

#[local] Existing Instance example_codec.
#[local] Existing Instance example_validator.

Definition fields (r : CompleteRequest) :=
  (acr_JobID r, acr_Status r, acr_ErrorMessage r, acr_SnapshotPath r, acr_ZigzagVersion r, acr_SizeBytes r).

Definition of_fields (f : string * string * string * string * string * Z) : CompleteRequest :=
  let '(a, b, c, d, e, n) := f in mkCompleteRequest a b c d e n.

Lemma of_fields_fields r : of_fields (fields r) = r.
Proof. by destruct r. Qed.

Definition answer_fields (a : Callback.StartResponse) :=
  (Callback.CommitSHA a, Callback.Branch a, Callback.RepoFullName a, Callback.CloneToken a, Callback.InstallationID a).

Definition of_answer (f : string * string * string * string * Z) : Callback.StartResponse :=
  let '(a, b, c, d, n) := f in Callback.mkStartResponse a b c d n.

#[local] Instance ex_json : CallbackJson := {|
  marshal_start j := String "S" j;
  marshal_complete r := String "C" (to_text (fields r));
  marshal_start_response a := to_text (answer_fields a);
  unmarshal_start_response s := result_of_option "bad response" (of_answer <$> of_text s)
|}.

#[local] Instance ex_api_json : ApiJson.
Proof.
  refine {|
    decode_id s := match s with
                   | String "S" j => Some j
                   | String "C" t => (fun f => acr_JobID (of_fields f)) <$> of_text t
                   | _ => None
                   end;
    parse_start s := match s with String "S" j => Some (Callback.mkStartRequest j) | _ => None end;
    parse_complete s := match s with
                        | String "C" t => (fun f => api_request (of_fields f)) <$> of_text t
                        | _ => None
                        end |}; try done.
  - intros r. cbn -[of_text to_text fields of_fields]. rewrite of_to_text. cbn [fmap option_fmap option_map].
    by rewrite of_fields_fields.
  - intros r. cbn -[of_text to_text fields of_fields]. rewrite of_to_text. cbn [fmap option_fmap option_map].
    by rewrite of_fields_fields.
  - intros []. cbn -[of_text to_text]. by rewrite of_to_text.
Defined.

#[local] Instance ex_breaker : CircuitBreaker.GoBreaker := {|
  CircuitBreaker.cb_state := unit;
  CircuitBreaker.cb_before _ b := Ok b;
  CircuitBreaker.cb_after _ _ b := b
|}.

(** A host on which the clone and the run succeed. *)
#[local] Instance ex_host : Host := {|
  MkdirAll _ f := Ok f;
  MkdirTemp dir f := Ok (Join dir "job-1", mkFS ({[ Join dir "job-1" ]} ∪ fs_dirs f) (fs_files f));
  RemoveAll dir f := Ok (mkFS (fs_dirs f ∖ {[ dir ]}) (fs_files f));
  git_clone _ _ _ f := (Ok tt, f);
  zigzag_run _ _ dir f := (Ok tt, mkFS (fs_dirs f) (<[Join dir "report.json" := "{}"]> (fs_files f)));
  WalkDir _ f := Ok ((map_to_list (fs_files f)).*1);
  report_version _ := Ok "1.0";
  walk_fails_first := false
|}.

#[local] Instance ex_url : GithubApi.NetURL := {|
  GithubApi.url_Parse s := Ok (GithubApi.mkURL "https" None s);
  GithubApi.url_String u := GithubApi.url_rest u
|}.

Definition ex_config : Config := mkConfig "/tmp/work" "zigzag" "/data/reports" 0.

Definition ex_state : WState := mkWState _ ex_w2 (mkFS ∅ ∅) [] [] tt [].

Definition ex_no_url_error (u : string) : option string := None.

#[local] Instance ex_server : CallbackServer := api_server ex_media ex_gct ex_signer.

Definition ex_client : Client := mkClient "http://api" ex_signer true.


Lemma ex_closed : closed_laws (fun _ => True).
Proof. intros now b _. split; [|done]. by exists b. Qed.

Definition ex_answer : Callback.StartResponse := Callback.mkStartResponse "c1" "main" "acme/app" "clone-token" 99.


(** The whole run, evaluated: job 100 succeeds and its report is stored. *)
Example worker_run_example :
  let w := ws_api (Execute ex_no_url_error (Some ex_client) ex_config Background "100" "7" "7" ex_state).2 in
  j_Status <$> (jobs (w_db w) !! 100%N) = Some JobStatusSucceeded /\
  w_objects w !! "7/7/c1/snapshot.json" = Some "{}" /\
  s_GcsPath <$> head (rows (snapshots (w_db w))) = Some "7/7/c1/snapshot.json".
Proof. vm_compute. done. Qed.

(** ** Where the code falls short of its comments *)

(** A job that is still running at the deadline cannot be reported: the report
    is sent in the context that has just ended.  The clone takes two seconds
    here, the context ends after one; the job stays running. *)
Example timed_out_job_is_not_reported :
  let s := set_delays [2000000] ex_state in
  let w := ws_api (Execute ex_no_url_error (Some ex_client) ex_config (WithTimeout (ws_now s) Background 1000000000)
                     "100" "7" "7" s).2 in
  j_Status <$> (jobs (w_db w) !! 100%N) = Some JobStatusRunning.
Proof. vm_compute. reflexivity. Qed.

End WorkerExamples.
