(* ===== verification/GoCodec.v ===== *)
(** The parts of Go's standard library the auth service uses on top of GoStr.v:
    [encoding/base64] (the raw URL encoding of random tokens and the standard
    encoding of configured keys), [net.SplitHostPort], [strings.Contains] and
    [strings.ToLower], and the addresses of [net/netip]. *)

From S2P Require Import Prelude GoStr.

(** * Definitions *)

(** ** [encoding/base64] *)
Module Base64.

Definition std_alphabet : string := "ABCDEFGHIJKLMNOPQRSTUVWXYZabcdefghijklmnopqrstuvwxyz0123456789+/".
Definition url_alphabet : string := "ABCDEFGHIJKLMNOPQRSTUVWXYZabcdefghijklmnopqrstuvwxyz0123456789-_".

Definition digit (alphabet : string) (z : Z) : Ascii.ascii :=
  default "="%char (String.get (Z.to_nat z) alphabet).

(** The position of a character in the alphabet. *)
Fixpoint index_of (c : Ascii.ascii) (s : string) (i : Z) : option Z :=
  match s with
  | EmptyString => None
  | String d s => if decide (c = d) then Some i else index_of c s (i + 1)
  end.

Definition undigit (alphabet : string) (c : Ascii.ascii) : option Z := index_of c alphabet 0.

Definition byte (c : Ascii.ascii) : Z := Z.of_nat (Ascii.nat_of_ascii c).
Definition chr (z : Z) : Ascii.ascii := Ascii.ascii_of_nat (Z.to_nat z).

(** [EncodeToString]: three bytes are four digits; [pad] follows the digits of
    an incomplete group. *)
Fixpoint encode (alphabet : string) (pad : bool) (s : string) : string :=
  let dg := digit alphabet in
  match s with
  | EmptyString => ""
  | String a EmptyString =>
      let n := 16 * byte a in
      String (dg (n / 64)) (String (dg (n mod 64)) (if pad then "==" else ""))
  | String a (String b EmptyString) =>
      let n := 4 * (256 * byte a + byte b) in
      String (dg (n / 4096)) (String (dg (n / 64 mod 64)) (String (dg (n mod 64)) (if pad then "=" else "")))
  | String a (String b (String c s)) =>
      let n := 65536 * byte a + 256 * byte b + byte c in
      String (dg (n / 262144)) (String (dg (n / 4096 mod 64)) (String (dg (n / 64 mod 64)) (String (dg (n mod 64))
        (encode alphabet pad s))))
  end.

(** [DecodeString] of an encoding with padding, on text without line breaks. *)
Fixpoint decode (alphabet : string) (s : string) : option string :=
  let ud := undigit alphabet in
  match s with
  | EmptyString => Some ""
  | String a (String b (String c (String d s))) =>
      match ud a, ud b with
      | Some x, Some y =>
          if decide (c = "="%char) then
            if decide (d = "="%char) then
              match s with EmptyString => Some (String (chr ((64 * x + y) / 16)) "") | _ => None end
            else None
          else match ud c with
               | None => None
               | Some z =>
                   let n := 4096 * x + 64 * y + z in
                   if decide (d = "="%char) then
                     match s with
                     | EmptyString => Some (String (chr (n / 1024)) (String (chr (n / 4 mod 256)) ""))
                     | _ => None
                     end
                   else match ud d, decode alphabet s with
                        | Some t, Some rest =>
                            let m := 64 * n + t in
                            Some (String (chr (m / 65536)) (String (chr (m / 256 mod 256)) (String (chr (m mod 256)) rest)))
                        | _, _ => None
                        end
               end
      | _, _ => None
      end
  | _ => None
  end.

(** The decoder skips line breaks. *)
Fixpoint drop_newlines (s : string) : string :=
  match s with
  | EmptyString => ""
  | String c s => if decide (byte c = 10 \/ byte c = 13) then drop_newlines s else String c (drop_newlines s)
  end.

Definition RawURL_EncodeToString (s : string) : string := encode url_alphabet false s.
Definition Std_EncodeToString (s : string) : string := encode std_alphabet true s.
Definition Std_DecodeString (s : string) : option string := decode std_alphabet (drop_newlines s).

End Base64.

(** ** [strings] *)
Fixpoint Contains (s sub : string) : bool :=
  HasPrefix s sub || match s with EmptyString => false | String _ s => Contains s sub end.

(** [strings.ToLower], as far as ASCII text in the result goes: the capitals of
    ASCII and the two other code points whose lower case is ASCII (the dotted
    capital I and the Kelvin sign); other letters stay, lower or upper. *)
Definition lower_ascii (c : Ascii.ascii) : Ascii.ascii :=
  let n := Base64.byte c in
  if (65 <=? n) && (n <=? 90) then Base64.chr (n + 32) else c.

Fixpoint lower_runes (fuel : nat) (s : string) : string :=
  match fuel with
  | O => ""
  | S fuel =>
      match CutPrefix s (String (Base64.chr 196) (String (Base64.chr 176) "")) with
      | Some rest => String "i" (lower_runes fuel rest)
      | None =>
          match CutPrefix s (String (Base64.chr 226) (String (Base64.chr 132) (String (Base64.chr 170) ""))) with
          | Some rest => String "k" (lower_runes fuel rest)
          | None =>
              match s with
              | EmptyString => ""
              | String c s => String (lower_ascii c) (lower_runes fuel s)
              end
          end
      end
  end.

Definition ToLower (s : string) : string := lower_runes (String.length s) s.

(** [strings.Split(s, sep)[0]] *)
Definition split_head (sep : Ascii.ascii) (s : string) : string :=
  match SplitN2 sep s with Some (a, _) => a | None => s end.

(** ** [net] *)

(** The text before and after the last separator. *)
Fixpoint split_last (sep : Ascii.ascii) (s : string) : option (string * string) :=
  match s with
  | EmptyString => None
  | String c rest =>
      match split_last sep rest with
      | Some (a, b) => Some (String c a, b)
      | None => if decide (c = sep) then Some ("", rest) else None
      end
  end.

(** [net.SplitHostPort]: the host, [None] for an error.  A bracketed host ends
    at the first closing bracket, which the last colon must follow; a plain one
    holds no colon; brackets appear nowhere else. *)
Definition SplitHostPort (hostport : string) : option string :=
  match split_last ":" hostport with
  | None => None
  | Some (before, port) =>
      match hostport with
      | String "[" rest =>
          match SplitN2 "]" rest with
          | None => None
          | Some (host, after) =>
              if decide (after = String ":" port) then
                if has_char "[" rest || has_char "]" port then None else Some host
              else None
          end
      | _ =>
          if has_char ":" before then None
          else if has_char "[" hostport || has_char "]" hostport then None
          else Some before
      end
  end.

(** [netip.ParseAddr] and the text of an address: an address is identified with
    its canonical text. *)
Class NetAddr := {
  ParseAddr : string -> option string
}.

(** * Lemmas *)

Example split_host_port_cases :
  SplitHostPort "10.0.0.1:443" = Some "10.0.0.1" /\ SplitHostPort "[::1]:80" = Some "::1" /\
  SplitHostPort "::1:80" = None /\ SplitHostPort "localhost" = None /\ SplitHostPort ":80" = Some "".
Proof. by vm_compute. Qed.

Example base64_vectors :
  Base64.Std_EncodeToString "foobar" = "Zm9vYmFy" /\ Base64.Std_EncodeToString "fooba" = "Zm9vYmE=" /\
  Base64.Std_EncodeToString "foob" = "Zm9vYg==" /\ Base64.RawURL_EncodeToString "foob" = "Zm9vYg" /\
  Base64.Std_DecodeString "Zm9vYmE=" = Some "fooba".
Proof. by vm_compute. Qed.

Module Base64Facts.
Import Base64.

Lemma byte_range c : 0 <= byte c < 256.
Proof. unfold byte. pose proof (nat_ascii_bounded c). lia. Qed.

Lemma chr_byte c : chr (byte c) = c.
Proof. unfold chr, byte. rewrite Nat2Z.id. apply ascii_nat_embedding. Qed.

Lemma chr_eq z c : z = byte c -> chr z = c.
Proof. intros ->. apply chr_byte. Qed.

(** An alphabet whose digits are distinct and not the padding. *)
Definition good_alphabet (al : string) : bool :=
  forallb (fun i => bool_decide (undigit al (digit al (Z.of_nat i)) = Some (Z.of_nat i)) &&
                    negb (bool_decide (digit al (Z.of_nat i) = "="%char)) &&
                    negb (bool_decide (byte (digit al (Z.of_nat i)) = 10 \/ byte (digit al (Z.of_nat i)) = 13)))
    (seq 0 64).

Lemma std_good : good_alphabet std_alphabet = true.
Proof. by vm_compute. Qed.

Lemma url_good : good_alphabet url_alphabet = true.
Proof. by vm_compute. Qed.

Section Alphabet.
Context (al : string) (Hal : good_alphabet al = true).

Lemma digit_facts z :
  0 <= z < 64 ->
  undigit al (digit al z) = Some z /\ digit al z <> "="%char /\
  ~ (byte (digit al z) = 10 \/ byte (digit al z) = 13).
Proof using Hal.
  intros Hz. unfold good_alphabet in Hal. rewrite forallb_forall in Hal.
  specialize (Hal (Z.to_nat z)). rewrite in_seq, Z2Nat.id in Hal by lia.
  specialize (Hal ltac:(lia)). rewrite !andb_true_iff, !negb_true_iff in Hal.
  rewrite bool_decide_eq_true, !bool_decide_eq_false in Hal. tauto.
Qed.

Lemma undigit_digit z : 0 <= z < 64 -> undigit al (digit al z) = Some z.
Proof using Hal. intros Hz. by destruct (digit_facts z Hz). Qed.

Lemma digit_not_pad z : 0 <= z < 64 -> digit al z <> "="%char.
Proof using Hal. intros Hz. by destruct (digit_facts z Hz) as (_ & H & _). Qed.

(** Decoding gives back what was encoded, three bytes at a time. *)
Lemma decode_encode_aux n s :
  (String.length s <= n)%nat -> decode al (encode al true s) = Some s.
Proof using Hal.
  revert s. induction n as [|n IH]; intros s Hn.
  { by destruct s; cbn in Hn; [|lia]. }
  destruct s as [|a [|b [|c s]]]; [done| | |].
  - pose proof (byte_range a). cbn -[Z.mul Z.div Z.modulo].
    rewrite !undigit_digit by (split; Z.div_mod_to_equations; lia).
    rewrite !decide_True by done. do 2 f_equal. apply chr_eq. Z.div_mod_to_equations; lia.
  - pose proof (byte_range a). pose proof (byte_range b). cbn -[Z.mul Z.div Z.modulo Z.add].
    rewrite !undigit_digit by (split; Z.div_mod_to_equations; lia).
    rewrite decide_False by (apply digit_not_pad; Z.div_mod_to_equations; lia).
    rewrite !decide_True by done.
    f_equal. f_equal; [|f_equal]; apply chr_eq; Z.div_mod_to_equations; lia.
  - pose proof (byte_range a). pose proof (byte_range b). pose proof (byte_range c). cbn -[Z.mul Z.div Z.modulo Z.add].
    rewrite !undigit_digit by (split; Z.div_mod_to_equations; lia).
    rewrite !decide_False by (apply digit_not_pad; Z.div_mod_to_equations; lia).
    cbn in Hn. rewrite IH by lia.
    f_equal. f_equal; [|f_equal; [|f_equal]]; apply chr_eq; Z.div_mod_to_equations; lia.
Qed.

End Alphabet.

(** Decoding inverts encoding, for both alphabets. *)
Lemma decode_encode al s : good_alphabet al = true -> decode al (encode al true s) = Some s.
Proof. intros Hal. by eapply decode_encode_aux. Qed.

End Base64Facts.
