(* ===== verification/Config.v ===== *)
(** The configuration of the three processes: [services/api/internal/config],
    [services/auth/internal/config] and
    [services/worker/internal/worker/config].

    A process reads its environment into a struct whose tags say which variables
    are required and which have defaults.  The [env] library that follows the
    tags and the [godotenv] library that reads a file into the environment are
    parameters with the documented laws used here. *)

From S2P Require Import Prelude GoStr.

(** * Definitions *)

Abbreviation Environ := (gmap string string) (only parsing).

(** [os.Getenv] *)
Definition Getenv (e : Environ) (k : string) : string := default "" (e !! k).

(** [strings.ReplaceAll(s, old, new)] with a non-empty [old]; [skip] counts the
    characters of a match that are still to be passed over. *)
Fixpoint replace_from (old new : string) (skip : nat) (s : string) : string :=
  match s with
  | "" => ""
  | String c rest =>
      match skip with
      | S k => replace_from old new k rest
      | O =>
          if String.prefix old s then new +:+ replace_from old new (String.length old - 1) rest
          else String c (replace_from old new 0 rest)
      end
  end.
Definition ReplaceAll (s old new : string) : string := replace_from old new 0 s.

(** ** The tags of a field *)
Record Tag := mkTag {
  t_Name : string;
  t_Required : bool;
  t_Default : option string
}.

Definition required (name : string) : Tag := mkTag name true None.
Definition optional (name : string) : Tag := mkTag name false None.
Definition defaulted (name v : string) : Tag := mkTag name false (Some v).

(** The libraries: [field] is the text of a field under its tag, [None] when the
    variable is required and not set (a variable that is set but empty is
    accepted); the decoders turn the text into the type of the field. *)
Class EnvLib := {
  field : Environ -> Tag -> option string;
  decode_int64 : string -> option Z;
  decode_int : string -> option Z;
  decode_duration : string -> option Z;
  decode_list : string -> list string;
  dotenv : string -> option Environ;
  field_set : forall e t v, e !! t_Name t = Some v -> v <> "" -> field e t = Some v;
  field_empty : forall e t, e !! t_Name t = Some "" -> t_Default t = None -> field e t = Some "";
  field_missing : forall e t, e !! t_Name t = None -> t_Required t = true -> field e t = None;
  field_unset : forall e t, e !! t_Name t = None -> t_Required t = false -> field e t = Some (default "" (t_Default t))
}.

Inductive LoadError : Set :=
| ErrEnvFile
| ErrParseConfig
| ErrMaxConcurrency.

(** The environment of a development process with an [ENV_FILE]; [godotenv.Load]
    does not override variables that are set. *)
Definition load_env_file `{EnvLib} (e : Environ) : result LoadError Environ :=
  if decide (Getenv e "APP_ENV" = "dev") then
    if decide (Getenv e "ENV_FILE" = "") then Ok e
    else match dotenv (Getenv e "ENV_FILE") with Some f => Ok (e ∪ f) | None => Err ErrEnvFile end
  else Ok e.

(** PEM keys are often stored with the two characters [\n] for a newline. *)
Definition literal_newline : string := "\n".
Definition newline : string := String (Ascii.ascii_of_nat 10) "".
Definition unescape (s : string) : string := ReplaceAll s literal_newline newline.

(** ** The API: [app.go], [config.go], [server.go] *)
Module ApiConfig.

Record AppConfig := mkAppConfig {
  GithubAppID : Z;
  GithubAppSlug : string;
  GithubAppPrivateKey : string;
  GithubAppWebhookSecret : string;
  JWTPublicKeyBase64 : string;
  JWTIssuer : string;
  HMACSigningKey : string;
  HMACSigningKeyPrev : string;
  WatchdogSecret : string;
  EncryptionKeyBase64 : string;
  CLIAPIKey : string
}.

Record CloudTasksConfig := mkCloudTasksConfig {
  Project : string;
  Location : string;
  Queue : string;
  WorkerURL : string;
  ServiceAccount : string
}.

Definition Enabled (c : CloudTasksConfig) : bool :=
  negb (bool_decide (Project c = "")) && negb (bool_decide (Location c = "")) && negb (bool_decide (Queue c = ""))
  && negb (bool_decide (WorkerURL c = "")).

Record GCSConfig := mkGCSConfig { Bucket : string; Endpoint : string }.

Record Config := mkConfig {
  App : AppConfig;
  Port : string;
  DB_URL : string;
  Redis_URL : string;
  GCS : GCSConfig;
  CloudTasks : CloudTasksConfig;
  AllowedOrigins : list string
}.

Section Load.
Context `{EnvLib}.

Definition parse_App (e : Environ) : option AppConfig :=
  id ← field e (required "GITHUB_APP_ID") ≫= decode_int64;
  slug ← field e (required "GITHUB_APP_SLUG");
  key ← field e (required "GITHUB_APP_PRIVATE_KEY");
  hook ← field e (required "GITHUB_APP_WEBHOOK_SECRET");
  pub ← field e (required "JWT_PUBLIC_KEY_BASE64");
  issuer ← field e (required "JWT_ISSUER");
  hmac ← field e (required "HMAC_SIGNING_KEY");
  prev ← field e (optional "HMAC_SIGNING_KEY_PREV");
  dog ← field e (required "WATCHDOG_SECRET");
  enc ← field e (required "ENCRYPTION_KEY_BASE64");
  cli ← field e (required "CLI_API_KEY");
  Some (mkAppConfig id slug key hook pub issuer hmac prev dog enc cli).

Definition parse_CloudTasks (e : Environ) : option CloudTasksConfig :=
  project ← field e (optional "CLOUD_TASKS_PROJECT");
  location ← field e (optional "CLOUD_TASKS_LOCATION");
  queue ← field e (optional "CLOUD_TASKS_QUEUE");
  url ← field e (optional "CLOUD_TASKS_WORKER_URL");
  account ← field e (optional "CLOUD_TASKS_SERVICE_ACCOUNT");
  Some (mkCloudTasksConfig project location queue url account).

(** [env.Parse(&cfg)] *)
Definition Parse (e : Environ) : option Config :=
  app ← parse_App e;
  port ← field e (required "PORT");
  db ← field e (required "DATABASE_URL");
  redis ← field e (required "REDIS_URL");
  bucket ← field e (required "GCS_BUCKET");
  endpoint ← field e (optional "GCS_ENDPOINT");
  tasks ← parse_CloudTasks e;
  origins ← field e (optional "CORS_ALLOWED_ORIGINS");
  Some (mkConfig app port db redis (mkGCSConfig bucket endpoint) tasks (decode_list origins)).

Definition with_key (k : string) (a : AppConfig) : AppConfig :=
  mkAppConfig (GithubAppID a) (GithubAppSlug a) k (GithubAppWebhookSecret a) (JWTPublicKeyBase64 a) (JWTIssuer a)
    (HMACSigningKey a) (HMACSigningKeyPrev a) (WatchdogSecret a) (EncryptionKeyBase64 a) (CLIAPIKey a).

Definition Load (e : Environ) : result LoadError Config :=
  match load_env_file e with
  | Err x => Err x
  | Ok e =>
      match Parse e with
      | None => Err ErrParseConfig
      | Some c => Ok (mkConfig (with_key (unescape (GithubAppPrivateKey (App c))) (App c)) (Port c) (DB_URL c) (Redis_URL c)
                        (GCS c) (CloudTasks c) (AllowedOrigins c))
      end
  end.

(** The variables the tags require. *)
Definition required_vars : list string :=
  ["GITHUB_APP_ID"; "GITHUB_APP_SLUG"; "GITHUB_APP_PRIVATE_KEY"; "GITHUB_APP_WEBHOOK_SECRET"; "JWT_PUBLIC_KEY_BASE64";
   "JWT_ISSUER"; "HMAC_SIGNING_KEY"; "WATCHDOG_SECRET"; "ENCRYPTION_KEY_BASE64"; "CLI_API_KEY"; "PORT"; "DATABASE_URL";
   "REDIS_URL"; "GCS_BUCKET"].

End Load.
End ApiConfig.

(** ** [worker.go] of the API *)
Module RunnerConfig.

Record WorkerConfig := mkWorkerConfig {
  WorkspaceDir : string;
  ZigzagBin : string;
  ReportsDir : string
}.

(** [filepath.IsAbs] on Unix, and [filepath.Join] of a clean directory and a
    clean relative path. *)
Definition IsAbs (p : string) : bool := String.prefix "/" p.
Definition Join (dir name : string) : string := dir +:+ "/" +:+ name.

(** [init]: [cwd] is what [os.Getwd] returns. *)
Definition init (TempDir : string) (cwd : option string) (w : WorkerConfig) : option WorkerConfig :=
  let dir := if decide (WorkspaceDir w = "") then Join TempDir "zagforge-workspace" else WorkspaceDir w in
  if IsAbs (ReportsDir w) then Some (mkWorkerConfig dir (ZigzagBin w) (ReportsDir w))
  else match cwd with
       | None => None
       | Some c => Some (mkWorkerConfig dir (ZigzagBin w) (Join c (ReportsDir w)))
       end.

End RunnerConfig.

(** ** The auth service: [app.go], [config.go] *)
Module AuthConfig.

Record AppConfig := mkAppConfig {
  JWTPrivateKeyBase64 : string;
  JWTPublicKeyBase64 : string;
  JWTIssuer : string;
  JWTAccessTokenTTL : Z;
  JWTRefreshTokenTTL : Z;
  GithubOAuthClientID : string;
  GithubOAuthClientSecret : string;
  GoogleOAuthClientID : string;
  GoogleOAuthClientSecret : string;
  OAuthCallbackBaseURL : string;
  EncryptionKeyBase64 : string;
  JWKSKeyID : string;
  FrontendURL : string;
  SessionMaxAge : Z
}.

Record Config := mkConfig {
  App : AppConfig;
  Port : string;
  DB_URL : string;
  Redis_URL : string;
  AllowedOrigins : list string
}.

Section Load.
Context `{EnvLib}.

Definition parse_App (e : Environ) : option AppConfig :=
  priv ← field e (required "JWT_PRIVATE_KEY_BASE64");
  pub ← field e (required "JWT_PUBLIC_KEY_BASE64");
  issuer ← field e (required "JWT_ISSUER");
  access ← field e (defaulted "JWT_ACCESS_TOKEN_TTL" "15m") ≫= decode_duration;
  refresh ← field e (defaulted "JWT_REFRESH_TOKEN_TTL" "168h") ≫= decode_duration;
  ghID ← field e (required "GITHUB_OAUTH_CLIENT_ID");
  ghSecret ← field e (required "GITHUB_OAUTH_CLIENT_SECRET");
  goID ← field e (required "GOOGLE_OAUTH_CLIENT_ID");
  goSecret ← field e (required "GOOGLE_OAUTH_CLIENT_SECRET");
  callback ← field e (required "OAUTH_CALLBACK_BASE_URL");
  enc ← field e (required "ENCRYPTION_KEY_BASE64");
  kid ← field e (defaulted "JWKS_KEY_ID" "zagforge-auth-1");
  front ← field e (defaulted "FRONTEND_URL" "http://localhost:3000");
  age ← field e (defaulted "SESSION_MAX_AGE" "720h") ≫= decode_duration;
  Some (mkAppConfig priv pub issuer access refresh ghID ghSecret goID goSecret callback enc kid front age).

Definition Parse (e : Environ) : option Config :=
  app ← parse_App e;
  port ← field e (required "PORT");
  db ← field e (required "AUTH_DATABASE_URL");
  redis ← field e (required "REDIS_URL");
  origins ← field e (optional "CORS_ALLOWED_ORIGINS");
  Some (mkConfig app port db redis (decode_list origins)).

Definition Load (e : Environ) : result LoadError Config :=
  match load_env_file e with
  | Err x => Err x
  | Ok e => match Parse e with None => Err ErrParseConfig | Some c => Ok c end
  end.

Definition required_vars : list string :=
  ["JWT_PRIVATE_KEY_BASE64"; "JWT_PUBLIC_KEY_BASE64"; "JWT_ISSUER"; "GITHUB_OAUTH_CLIENT_ID"; "GITHUB_OAUTH_CLIENT_SECRET";
   "GOOGLE_OAUTH_CLIENT_ID"; "GOOGLE_OAUTH_CLIENT_SECRET"; "OAUTH_CALLBACK_BASE_URL"; "ENCRYPTION_KEY_BASE64"; "PORT";
   "AUTH_DATABASE_URL"; "REDIS_URL"].

End Load.
End AuthConfig.

(** ** The worker: [config.go] *)
Module WorkerConfig.

Record GitHubConfig := mkGitHubConfig {
  AppID : Z;
  PrivateKey : string;
  PrivateKeyRaw : string;
  WebhookSecret : string
}.

Record Config := mkConfig {
  DatabaseURL : string;
  AppEnv : string;
  WorkspaceDir : string;
  ZigzagBin : string;
  ReportsDir : string;
  JobTimeout : Z;
  MaxConcurrency : Z;
  APIBaseURL : string;
  HMACSigningKey : string;
  HMACSigningKeyPrev : string;
  WorkerMode : string;
  Port : string;
  GitHub : GitHubConfig;
  GCS : ApiConfig.GCSConfig
}.

Section Load.
Context `{EnvLib} (TempDir : string).

Definition parse_GitHub (e : Environ) : option GitHubConfig :=
  id ← field e (required "GITHUB_APP_ID") ≫= decode_int64;
  raw ← field e (required "GITHUB_APP_PRIVATE_KEY");
  hook ← field e (required "GITHUB_APP_WEBHOOK_SECRET");
  Some (mkGitHubConfig id "" raw hook).

Definition Parse (e : Environ) : option Config :=
  db ← field e (required "DATABASE_URL");
  env ← field e (optional "APP_ENV");
  dir ← field e (optional "WORKSPACE_DIR");
  bin ← field e (defaulted "ZIGZAG_BIN" "zigzag");
  reports ← field e (defaulted "REPORTS_DIR" "/data/reports");
  timeout ← field e (defaulted "JOB_TIMEOUT" "5m") ≫= decode_duration;
  conc ← field e (defaulted "MAX_CONCURRENCY" "5") ≫= decode_int;
  api ← field e (required "API_BASE_URL");
  hmac ← field e (required "HMAC_SIGNING_KEY");
  prev ← field e (optional "HMAC_SIGNING_KEY_PREV");
  mode ← field e (defaulted "WORKER_MODE" "poll");
  port ← field e (defaulted "PORT" "8080");
  github ← parse_GitHub e;
  bucket ← field e (required "GCS_BUCKET");
  endpoint ← field e (optional "GCS_ENDPOINT");
  Some (mkConfig db env dir bin reports timeout conc api hmac prev mode port github (ApiConfig.mkGCSConfig bucket endpoint)).

Definition LoadConfig (e : Environ) : result LoadError Config :=
  match Parse e with
  | None => Err ErrParseConfig
  | Some c =>
      let dir := if decide (WorkspaceDir c = "") then TempDir +:+ "/" +:+ "zagforge-workspace" else WorkspaceDir c in
      if MaxConcurrency c <? 1 then Err ErrMaxConcurrency
      else
        let g := mkGitHubConfig (AppID (GitHub c)) (unescape (PrivateKeyRaw (GitHub c))) (PrivateKeyRaw (GitHub c)) (WebhookSecret (GitHub c)) in
        Ok (mkConfig (DatabaseURL c) (AppEnv c) dir (ZigzagBin c) (ReportsDir c) (JobTimeout c) (MaxConcurrency c) (APIBaseURL c)
              (HMACSigningKey c) (HMACSigningKeyPrev c) (WorkerMode c) (Port c) g (GCS c))
  end.

Definition required_vars : list string :=
  ["DATABASE_URL"; "API_BASE_URL"; "HMAC_SIGNING_KEY"; "GITHUB_APP_ID"; "GITHUB_APP_PRIVATE_KEY"; "GITHUB_APP_WEBHOOK_SECRET";
   "GCS_BUCKET"].

End Load.
End WorkerConfig.

(** * Lemmas *)

Module ConfigFacts.

Definition backslash : Ascii.ascii := Ascii.ascii_of_nat 92.

(** How such keys are stored. *)
Definition escape (s : string) : string := ReplaceAll s newline literal_newline.

Lemma prefix_head a old c s :
  String.prefix (String a old) (String c s) = if decide (a = c) then String.prefix old s else false.
Proof. cbn. destruct (Ascii.ascii_dec a c), (decide (a = c)); done. Qed.

Lemma escape_cons c k :
  escape (String c k) = if decide (c = Ascii.ascii_of_nat 10) then literal_newline +:+ escape k else String c (escape k).
Proof.
  unfold escape, ReplaceAll. cbn [replace_from]. unfold newline at 1 3. rewrite prefix_head.
  destruct (decide (Ascii.ascii_of_nat 10 = c)), (decide (c = Ascii.ascii_of_nat 10)); try congruence. by destruct k.
Qed.

Lemma unescape_literal s : unescape (literal_newline +:+ s) = newline +:+ unescape s.
Proof. by destruct s. Qed.

Lemma unescape_other c s : c <> backslash -> unescape (String c s) = String c (unescape s).
Proof.
  intros Hc. unfold unescape, ReplaceAll. cbn [replace_from]. unfold literal_newline at 1. rewrite prefix_head.
  rewrite decide_False; [done|]. intros <-. by destruct Hc.
Qed.

(** A key without backslashes survives being stored with escaped newlines. *)
Lemma unescape_escape k : has_char backslash k = false -> unescape (escape k) = k.
Proof.
  induction k as [|c k IH]; [done|]. cbn [has_char]. intros Hk. case_decide as E; [done|]. rewrite escape_cons.
  case_decide as En; [subst c; by rewrite unescape_literal, IH|by rewrite unescape_other, IH].
Qed.

Section Required.
Context `{EnvLib}.

Lemma required_set e n v : field e (required n) = Some v -> is_Some (e !! n).
Proof. intros Hf. destruct (e !! n) eqn:E; [by eexists|]. by rewrite (field_missing e (required n) E) in Hf. Qed.

Lemma optional_field e n : is_Some (field e (optional n)).
Proof.
  destruct (e !! n) as [v|] eqn:E; [|by rewrite (field_unset e (optional n) E)].
  destruct (decide (v = "")) as [->|Hv]; [by rewrite (field_empty e (optional n) E)|by rewrite (field_set e (optional n) v E Hv)].
Qed.

Lemma required_field e n : is_Some (e !! n) -> is_Some (field e (required n)).
Proof.
  intros [v E]. destruct (decide (v = "")) as [->|Hv]; [by rewrite (field_empty e (required n) E)|by rewrite (field_set e (required n) v E Hv)].
Qed.

(** Each field of a parsed struct was read. *)
Ltac fields :=
  repeat match goal with
  | H : (_ ≫= _) = Some _ |- _ => apply bind_Some in H as (? & ? & H)
  | H : field _ (required _) = Some _ |- _ => apply required_set in H
  end.

Lemma api_Parse_required e c : ApiConfig.Parse e = Some c -> Forall (fun n => is_Some (e !! n)) ApiConfig.required_vars.
Proof.
  unfold ApiConfig.Parse, ApiConfig.parse_App. intros Hp. fields. repeat (apply Forall_cons_2; [done|]). apply Forall_nil_2.
Qed.

Lemma auth_Parse_required e c : AuthConfig.Parse e = Some c -> Forall (fun n => is_Some (e !! n)) AuthConfig.required_vars.
Proof.
  unfold AuthConfig.Parse, AuthConfig.parse_App. intros Hp. fields. repeat (apply Forall_cons_2; [done|]). apply Forall_nil_2.
Qed.

Lemma worker_Parse_required e c : WorkerConfig.Parse e = Some c -> Forall (fun n => is_Some (e !! n)) WorkerConfig.required_vars.
Proof.
  unfold WorkerConfig.Parse, WorkerConfig.parse_GitHub. intros Hp. fields. repeat (apply Forall_cons_2; [done|]). apply Forall_nil_2.
Qed.

(** A missing variable that a tag requires stops the API. *)
Lemma api_Load_required e c :
  ApiConfig.Load e = Ok c -> exists e', load_env_file e = Ok e' /\ Forall (fun n => is_Some (e' !! n)) ApiConfig.required_vars.
Proof.
  unfold ApiConfig.Load. intros Hl. destruct (load_env_file e) as [e'|]; [|done]. exists e'. split; [done|].
  destruct (ApiConfig.Parse e') eqn:Hp; [by eapply api_Parse_required|done].
Qed.

(** It is all the API needs, but for an application id that is a number. *)
Lemma api_Load_complete e e' id n :
  load_env_file e = Ok e' -> Forall (fun n => is_Some (e' !! n)) ApiConfig.required_vars ->
  field e' (required "GITHUB_APP_ID") = Some id -> decode_int64 id = Some n -> exists c, ApiConfig.Load e = Ok c.
Proof.
  intros He Hall Hid Hn. unfold ApiConfig.Load. rewrite He. unfold ApiConfig.Parse, ApiConfig.parse_App, ApiConfig.parse_CloudTasks.
  unfold ApiConfig.required_vars in Hall. rewrite !Forall_cons in Hall.
  repeat match goal with
  | Hs : is_Some (e' !! ?v) |- _ => let t := fresh "t" in let Ht := fresh "Ht" in
      apply required_field in Hs as [t Ht]
  | Hc : _ /\ _ |- _ => destruct Hc
  end.
  repeat match goal with |- context [field e' (optional ?v)] =>
    let t := fresh "t" in let Ht := fresh "Ht" in destruct (optional_field e' v) as [t Ht]; rewrite Ht end.
  rewrite Hid. cbn. rewrite Hn. cbn.
  repeat match goal with Ht : field e' _ = Some _ |- _ => progress (rewrite ?Ht; cbn) end. by eexists.
Qed.

(** The worker never runs without a free slot. *)
Lemma worker_concurrency TempDir e c : WorkerConfig.LoadConfig TempDir e = Ok c -> 1 <= WorkerConfig.MaxConcurrency c.
Proof.
  unfold WorkerConfig.LoadConfig. intros Hl. destruct (WorkerConfig.Parse e) as [c0|]; [|done].
  destruct (WorkerConfig.MaxConcurrency c0 <? 1) eqn:E; [done|]. simplify_eq/=. apply Z.ltb_ge in E. lia.
Qed.

(** An empty value passes a required tag: an empty signing key is accepted. *)
Lemma empty_key_is_accepted e : e !! "HMAC_SIGNING_KEY" = Some "" -> field e (required "HMAC_SIGNING_KEY") = Some "".
Proof. intros He. by apply field_empty. Qed.

End Required.

(** ** A library with these laws *)
Definition example_field (e : Environ) (t : Tag) : option string :=
  match e !! t_Name t with
  | Some v => Some (if decide (v = "") then default "" (t_Default t) else v)
  | None => if t_Required t then None else Some (default "" (t_Default t))
  end.

Definition example_env : EnvLib.
Proof.
  refine {| field := example_field; decode_int64 := ParseInt; decode_int := ParseInt; decode_duration := fun _ => Some 0;
            decode_list := fun s => [s]; dotenv := fun _ => None |}; unfold example_field.
  - intros e t v -> Hv. by rewrite decide_False.
  - intros e t -> ->. done.
  - intros e t -> ->. done.
  - intros e t -> ->. done.
Defined.

End ConfigFacts.
