(* ===== verification/AuthModels.v ===== *)
(** The auth service's database and the state its handlers run in: the rows of
    [services/auth/internal/store/models.go] with the tables of
    [services/auth/internal/db/migrations], and the world of a request.

    A statement of the generated store is a pure function on the database.
    [query], [exec] and [insert_stmt] run it in the world, where a schedule of
    connection failures decides which statements fail; no handler of this
    service opens a transaction, so every statement commits on its own.  Times
    are microseconds, the resolution of [timestamptz].  [crypto/rand] is a list
    of reads to come (an absent or [None] read fails) and outgoing HTTP requests
    are logged, their responses drawn from a list. *)

From S2P Require Import Prelude GoStr.

(** * Definitions *)

(** ** Rows: [models.go]

    A nullable column is an [option]; bytes, network addresses and JSON
    documents are their text. *)
Record User := mkUser {
  u_ID : uuid;
  u_Email : string;
  u_EmailVerified : bool;
  u_FirstName : option string;
  u_LastName : option string;
  u_Nickname : option string;
  u_Bio : option string;
  u_Country : option string;
  u_Age : option Z;
  u_Timezone : string;
  u_Language : string;
  u_AvatarUrl : option string;
  u_PhoneCipher : option string;
  u_SocialLinks : string;
  u_ProfileVisibility : string;
  u_OnboardingStep : string;
  u_IsPlatformAdmin : bool;
  u_CreatedAt : Z;
  u_UpdatedAt : Z
}.

Record OauthIdentity := mkOauthIdentity {
  oi_ID : uuid;
  oi_UserID : uuid;
  oi_Provider : string;
  oi_ProviderID : string;
  oi_Email : option string;
  oi_DisplayName : option string;
  oi_AvatarUrl : option string;
  oi_AccessToken : option string;
  oi_RefreshToken : option string;
  oi_TokenExpiresAt : option Z;
  oi_CreatedAt : Z;
  oi_UpdatedAt : Z
}.

Record Session := mkSession {
  se_ID : uuid;
  se_UserID : uuid;
  se_IpAddress : option string;
  se_UserAgent : option string;
  se_DeviceName : option string;
  se_DeviceFingerprint : option string;
  se_Country : option string;
  se_LastActiveAt : Z;
  se_ExpiresAt : Z;
  se_RevokedAt : option Z;
  se_CreatedAt : Z
}.

Record RefreshToken := mkRefreshToken {
  rt_ID : uuid;
  rt_UserID : uuid;
  rt_SessionID : uuid;
  rt_TokenHash : string;
  rt_ExpiresAt : Z;
  rt_RevokedAt : option Z;
  rt_CreatedAt : Z
}.

Record OauthState := mkOauthState {
  os_ID : uuid;
  os_State : string;
  os_Provider : string;
  os_RedirectUri : string;
  os_ExpiresAt : Z;
  os_CreatedAt : Z
}.

Record FailedLoginAttempt := mkFailedLoginAttempt {
  fl_ID : uuid;
  fl_Identifier : string;
  fl_IpAddress : string;
  fl_UserAgent : option string;
  fl_CreatedAt : Z
}.

Record MfaSetting := mkMfaSetting {
  ms_ID : uuid;
  ms_UserID : uuid;
  ms_TotpSecret : option string;
  ms_TotpEnabled : bool;
  ms_TotpVerifiedAt : option Z;
  ms_CreatedAt : Z;
  ms_UpdatedAt : Z
}.

Record MfaBackupCode := mkMfaBackupCode {
  bc_ID : uuid;
  bc_UserID : uuid;
  bc_CodeHash : string;
  bc_UsedAt : option Z;
  bc_CreatedAt : Z
}.

Record Organization := mkOrganization {
  o_ID : uuid;
  o_Slug : string;
  o_Name : string;
  o_LogoUrl : option string;
  o_Plan : string;
  o_BillingEmail : option string;
  o_MaxMembers : Z;
  o_CreatedAt : Z;
  o_UpdatedAt : Z
}.

Record OrgMembership := mkOrgMembership {
  om_ID : uuid;
  om_OrgID : uuid;
  om_UserID : uuid;
  om_Role : string;
  om_CreatedAt : Z;
  om_UpdatedAt : Z
}.

Record Team := mkTeam {
  t_ID : uuid;
  t_OrgID : uuid;
  t_Slug : string;
  t_Name : string;
  t_Description : option string;
  t_CreatedAt : Z;
  t_UpdatedAt : Z
}.

Record TeamMembership := mkTeamMembership {
  tm_ID : uuid;
  tm_TeamID : uuid;
  tm_UserID : uuid;
  tm_Role : string;
  tm_CreatedAt : Z
}.

Record Invite := mkInvite {
  iv_ID : uuid;
  iv_OrgID : uuid;
  iv_TeamID : option uuid;
  iv_InvitedBy : uuid;
  iv_Email : string;
  iv_Role : string;
  iv_TokenHash : string;
  iv_Status : string;
  iv_ExpiresAt : Z;
  iv_AcceptedAt : option Z;
  iv_CreatedAt : Z
}.

Record AuditLog := mkAuditLog {
  al_ID : uuid;
  al_OrgID : option uuid;
  al_ActorID : option uuid;
  al_Action : string;
  al_TargetType : option string;
  al_TargetID : option uuid;
  al_IpAddress : option string;
  al_UserAgent : option string;
  al_Metadata : string;
  al_CreatedAt : Z
}.

Record WebhookSubscription := mkWebhookSubscription {
  ws_ID : uuid;
  ws_OrgID : uuid;
  ws_Url : string;
  ws_Secret : string;
  ws_Events : list string;
  ws_Active : bool;
  ws_CreatedAt : Z;
  ws_UpdatedAt : Z
}.

Record WebhookDelivery := mkWebhookDelivery {
  wd_ID : uuid;
  wd_SubscriptionID : uuid;
  wd_Event : string;
  wd_Payload : string;
  wd_ResponseStatus : option Z;
  wd_ResponseBody : option string;
  wd_DeliveredAt : option Z;
  wd_Attempts : Z;
  wd_NextRetryAt : option Z;
  wd_CreatedAt : Z
}.

(** ** The database *)
Record DB := mkDB {
  users : gmap N User;
  oauth_identities : gmap N OauthIdentity;
  sessions : gmap N Session;
  refresh_tokens : gmap N RefreshToken;
  oauth_states : gmap N OauthState;
  failed_login_attempts : gmap N FailedLoginAttempt;
  mfa_settings : gmap N MfaSetting;
  mfa_backup_codes : gmap N MfaBackupCode;
  organizations : gmap N Organization;
  org_memberships : gmap N OrgMembership;
  teams : gmap N Team;
  team_memberships : gmap N TeamMembership;
  invites : gmap N Invite;
  audit_logs : gmap N AuditLog;
  webhook_subscriptions : gmap N WebhookSubscription;
  webhook_deliveries : gmap N WebhookDelivery
}.

Definition empty_db : DB := mkDB ∅ ∅ ∅ ∅ ∅ ∅ ∅ ∅ ∅ ∅ ∅ ∅ ∅ ∅ ∅ ∅.

Definition set_users (t : gmap N User) (d : DB) : DB :=
  mkDB t (oauth_identities d) (sessions d) (refresh_tokens d) (oauth_states d) (failed_login_attempts
    d) (mfa_settings d) (mfa_backup_codes d) (organizations d) (org_memberships d) (teams d)
    (team_memberships d) (invites d) (audit_logs d) (webhook_subscriptions d) (webhook_deliveries d).
Definition set_oauth_identities (t : gmap N OauthIdentity) (d : DB) : DB :=
  mkDB (users d) t (sessions d) (refresh_tokens d) (oauth_states d) (failed_login_attempts d)
    (mfa_settings d) (mfa_backup_codes d) (organizations d) (org_memberships d) (teams d)
    (team_memberships d) (invites d) (audit_logs d) (webhook_subscriptions d) (webhook_deliveries d).
Definition set_sessions (t : gmap N Session) (d : DB) : DB :=
  mkDB (users d) (oauth_identities d) t (refresh_tokens d) (oauth_states d) (failed_login_attempts d)
    (mfa_settings d) (mfa_backup_codes d) (organizations d) (org_memberships d) (teams d)
    (team_memberships d) (invites d) (audit_logs d) (webhook_subscriptions d) (webhook_deliveries d).
Definition set_refresh_tokens (t : gmap N RefreshToken) (d : DB) : DB :=
  mkDB (users d) (oauth_identities d) (sessions d) t (oauth_states d) (failed_login_attempts d)
    (mfa_settings d) (mfa_backup_codes d) (organizations d) (org_memberships d) (teams d)
    (team_memberships d) (invites d) (audit_logs d) (webhook_subscriptions d) (webhook_deliveries d).
Definition set_oauth_states (t : gmap N OauthState) (d : DB) : DB :=
  mkDB (users d) (oauth_identities d) (sessions d) (refresh_tokens d) t (failed_login_attempts d)
    (mfa_settings d) (mfa_backup_codes d) (organizations d) (org_memberships d) (teams d)
    (team_memberships d) (invites d) (audit_logs d) (webhook_subscriptions d) (webhook_deliveries d).
Definition set_failed_login_attempts (t : gmap N FailedLoginAttempt) (d : DB) : DB :=
  mkDB (users d) (oauth_identities d) (sessions d) (refresh_tokens d) (oauth_states d) t (mfa_settings
    d) (mfa_backup_codes d) (organizations d) (org_memberships d) (teams d) (team_memberships d)
    (invites d) (audit_logs d) (webhook_subscriptions d) (webhook_deliveries d).
Definition set_mfa_settings (t : gmap N MfaSetting) (d : DB) : DB :=
  mkDB (users d) (oauth_identities d) (sessions d) (refresh_tokens d) (oauth_states d)
    (failed_login_attempts d) t (mfa_backup_codes d) (organizations d) (org_memberships d) (teams d)
    (team_memberships d) (invites d) (audit_logs d) (webhook_subscriptions d) (webhook_deliveries d).
Definition set_mfa_backup_codes (t : gmap N MfaBackupCode) (d : DB) : DB :=
  mkDB (users d) (oauth_identities d) (sessions d) (refresh_tokens d) (oauth_states d)
    (failed_login_attempts d) (mfa_settings d) t (organizations d) (org_memberships d) (teams d)
    (team_memberships d) (invites d) (audit_logs d) (webhook_subscriptions d) (webhook_deliveries d).
Definition set_organizations (t : gmap N Organization) (d : DB) : DB :=
  mkDB (users d) (oauth_identities d) (sessions d) (refresh_tokens d) (oauth_states d)
    (failed_login_attempts d) (mfa_settings d) (mfa_backup_codes d) t (org_memberships d) (teams d)
    (team_memberships d) (invites d) (audit_logs d) (webhook_subscriptions d) (webhook_deliveries d).
Definition set_org_memberships (t : gmap N OrgMembership) (d : DB) : DB :=
  mkDB (users d) (oauth_identities d) (sessions d) (refresh_tokens d) (oauth_states d)
    (failed_login_attempts d) (mfa_settings d) (mfa_backup_codes d) (organizations d) t (teams d)
    (team_memberships d) (invites d) (audit_logs d) (webhook_subscriptions d) (webhook_deliveries d).
Definition set_teams (t : gmap N Team) (d : DB) : DB :=
  mkDB (users d) (oauth_identities d) (sessions d) (refresh_tokens d) (oauth_states d)
    (failed_login_attempts d) (mfa_settings d) (mfa_backup_codes d) (organizations d) (org_memberships d) t (team_memberships d) (invites d) (audit_logs d) (webhook_subscriptions d) (webhook_deliveries
    d).
Definition set_team_memberships (t : gmap N TeamMembership) (d : DB) : DB :=
  mkDB (users d) (oauth_identities d) (sessions d) (refresh_tokens d) (oauth_states d)
    (failed_login_attempts d) (mfa_settings d) (mfa_backup_codes d) (organizations d) (org_memberships d) (teams d) t (invites d) (audit_logs d) (webhook_subscriptions d) (webhook_deliveries d).
Definition set_invites (t : gmap N Invite) (d : DB) : DB :=
  mkDB (users d) (oauth_identities d) (sessions d) (refresh_tokens d) (oauth_states d)
    (failed_login_attempts d) (mfa_settings d) (mfa_backup_codes d) (organizations d) (org_memberships d) (teams d) (team_memberships d) t (audit_logs d) (webhook_subscriptions d) (webhook_deliveries d).
Definition set_audit_logs (t : gmap N AuditLog) (d : DB) : DB :=
  mkDB (users d) (oauth_identities d) (sessions d) (refresh_tokens d) (oauth_states d)
    (failed_login_attempts d) (mfa_settings d) (mfa_backup_codes d) (organizations d) (org_memberships d) (teams d) (team_memberships d) (invites d) t (webhook_subscriptions d) (webhook_deliveries d).
Definition set_webhook_subscriptions (t : gmap N WebhookSubscription) (d : DB) : DB :=
  mkDB (users d) (oauth_identities d) (sessions d) (refresh_tokens d) (oauth_states d)
    (failed_login_attempts d) (mfa_settings d) (mfa_backup_codes d) (organizations d) (org_memberships d) (teams d) (team_memberships d) (invites d) (audit_logs d) t (webhook_deliveries d).
Definition set_webhook_deliveries (t : gmap N WebhookDelivery) (d : DB) : DB :=
  mkDB (users d) (oauth_identities d) (sessions d) (refresh_tokens d) (oauth_states d)
    (failed_login_attempts d) (mfa_settings d) (mfa_backup_codes d) (organizations d) (org_memberships d) (teams d) (team_memberships d) (invites d) (audit_logs d) (webhook_subscriptions d) t.

(** ** The world of a request *)

(** A webhook request as it leaves [http.Client.Do]. *)
Record Sent := mkSent {
  sn_Url : string;
  sn_Event : string;
  sn_Signature : string;
  sn_Body : string
}.

Record World := mkWorld {
  w_db : DB;
  w_now : Z;                            (* microseconds since the epoch *)
  w_ids : list uuid;                    (* what gen_random_uuid() and uuid.New() return next *)
  w_faults : list bool;                 (* which of the next statements fail *)
  w_rand : list (option string);        (* what the next reads of crypto/rand return *)
  w_sent : list Sent;                   (* webhook requests sent *)
  w_net : list (option (Z * string))    (* the responses to the next requests *)
}.

Definition set_db (x : DB) (w : World) : World :=
  mkWorld x (w_now w) (w_ids w) (w_faults w) (w_rand w) (w_sent w) (w_net w).
Definition set_now (x : Z) (w : World) : World :=
  mkWorld (w_db w) x (w_ids w) (w_faults w) (w_rand w) (w_sent w) (w_net w).
Definition set_ids (x : list uuid) (w : World) : World :=
  mkWorld (w_db w) (w_now w) x (w_faults w) (w_rand w) (w_sent w) (w_net w).
Definition set_faults (x : list bool) (w : World) : World :=
  mkWorld (w_db w) (w_now w) (w_ids w) x (w_rand w) (w_sent w) (w_net w).
Definition set_rand (x : list (option string)) (w : World) : World :=
  mkWorld (w_db w) (w_now w) (w_ids w) (w_faults w) x (w_sent w) (w_net w).
Definition set_net (s : list Sent) (x : list (option (Z * string))) (w : World) : World :=
  mkWorld (w_db w) (w_now w) (w_ids w) (w_faults w) (w_rand w) s x.

(** The next entry of the failure schedule; no entry means no failure. *)
Definition next_fault : M World bool := fun w =>
  match w_faults w with
  | [] => (false, w)
  | b :: f => (b, set_faults f w)
  end.

(** A statement that only reads; [now()] is the world's clock. *)
Definition query {A} (q : Z -> DB -> result DBError A) : M World (result DBError A) :=
  b <- next_fault ;;
  if (b : bool) then ret (Err ErrConn) else gets (fun w => q (w_now w) (w_db w)).

(** A statement that writes; it has no effect when it fails. *)
Definition exec {A} (q : Z -> DB -> result DBError (A * DB)) : M World (result DBError A) :=
  b <- next_fault ;;
  if (b : bool) then ret (Err ErrConn)
  else fun w =>
    match q (w_now w) (w_db w) with
    | Ok (a, d) => (Ok a, set_db d w)
    | Err e => (Err e, w)
    end.

(** A statement that draws identifiers with [gen_random_uuid()]. *)
Definition insert_stmt {A} (q : Z -> uuid -> DB -> result DBError (A * DB)) : M World (result DBError A) :=
  fun w => exec (fun now d => q now (hd 0%N (w_ids w)) d) (set_ids (tl (w_ids w)) w).

(** [uuid.New()] *)
Definition new_uuid : M World uuid := fun w => (hd 0%N (w_ids w), set_ids (tl (w_ids w)) w).

(** [rand.Read(b)] for a buffer of [n] bytes: exactly [n] bytes or an error. *)
Definition rand_read (n : nat) : M World (option string) := fun w =>
  match w_rand w with
  | [] => (None, w)
  | x :: r => (match x with
               | Some s => if decide (String.length s = n) then Some s else None
               | None => None
               end, set_rand r w)
  end.

(** [time.Now()] *)
Definition time_now : M World Z := gets w_now.

(** [client.Do(req)]: the status and body of the response, [None] when no
    response arrives. *)
Definition http_do (s : Sent) : M World (option (Z * string)) := fun w =>
  match w_net w with
  | [] => (None, set_net (w_sent w ++ [s]) [] w)
  | x :: r => (x, set_net (w_sent w ++ [s]) r w)
  end.

(** ** Frame conditions of handlers

    [keeps R c]: every run of [c] relates the databases before and after it by
    [R], leaves the clock alone and adds no failures. *)
Definition keeps (R : DB -> DB -> Prop) {A} (c : M World A) : Prop :=
  forall w a w', c w = (a, w') ->
    R (w_db w) (w_db w') /\ w_now w' = w_now w /\ (w_faults w = [] -> w_faults w' = []).

(** * Lemmas *)

Lemma au_next_fault_inv w b w' : next_fault w = (b, w') -> exists f, w' = set_faults f w.
Proof.
  unfold next_fault. intros H. destruct w as [d n i f r s x]. cbn in H.
  destruct f as [|y f]; simplify_eq/=; eexists; done.
Qed.

Lemma au_query_inv {A} (q : Z -> DB -> result DBError A) w r w' :
  query q w = (r, w') ->
  exists f, w' = set_faults f w /\ (r = Err ErrConn \/ r = q (w_now w) (w_db w)).
Proof.
  unfold query. intros H. apply bind_inv in H as (b & w1 & Hb & H).
  apply au_next_fault_inv in Hb as [f ->]. exists f. destruct b; unfold ret, gets in H; by simplify_eq/=; auto.
Qed.

Lemma au_exec_inv {A} (q : Z -> DB -> result DBError (A * DB)) w r w' :
  exec q w = (r, w') ->
  exists f,
    (exists e, r = Err e /\ w' = set_faults f w /\ (e = ErrConn \/ q (w_now w) (w_db w) = Err e)) \/
    (exists a d, r = Ok a /\ q (w_now w) (w_db w) = Ok (a, d) /\ w' = set_db d (set_faults f w)).
Proof.
  unfold exec. intros H. apply bind_inv in H as (b & w1 & Hb & H).
  apply au_next_fault_inv in Hb as [f ->]. exists f. destruct b; unfold ret in H; simplify_eq/=.
  - left. eauto.
  - destruct (q (w_now w) (w_db w)) as [[a d]|e]; simplify_eq/=; [right|left]; eauto 10.
Qed.

Lemma au_insert_stmt_inv {A} (q : Z -> uuid -> DB -> result DBError (A * DB)) w r w' :
  insert_stmt q w = (r, w') ->
  exists f,
    (exists e, r = Err e /\ w' = set_faults f (set_ids (tl (w_ids w)) w) /\
       (e = ErrConn \/ q (w_now w) (hd 0%N (w_ids w)) (w_db w) = Err e)) \/
    (exists a d, r = Ok a /\ q (w_now w) (hd 0%N (w_ids w)) (w_db w) = Ok (a, d) /\
       w' = set_db d (set_faults f (set_ids (tl (w_ids w)) w))).
Proof. unfold insert_stmt. intros H. by apply au_exec_inv in H. Qed.

Lemma rand_read_inv n w r w' :
  rand_read n w = (r, w') -> exists x, w' = set_rand x w.
Proof.
  unfold rand_read. intros H. destruct w as [d t i f rd s x]. cbn in H.
  destruct rd; simplify_eq/=; eexists; done.
Qed.

Lemma http_do_inv s w r w' :
  http_do s w = (r, w') -> exists x, w' = set_net (w_sent w ++ [s]) x w.
Proof. unfold http_do. intros H. destruct (w_net w); simplify_eq/=; eauto. Qed.

(** Symbolic execution of a handler: the database after each statement. *)
Ltac au_run :=
  repeat match goal with
  | H : bind _ _ _ = (_, _) |- _ => apply bind_inv in H as (? & ? & ? & H)
  | H : query _ _ = (_, _) |- _ => apply au_query_inv in H as (? & -> & [-> | ->])
  | H : exec _ _ = (_, _) |- _ =>
      apply au_exec_inv in H as (? & [(? & -> & -> & ?) | (? & ? & -> & ? & ->)])
  | H : insert_stmt _ _ = (_, _) |- _ =>
      apply au_insert_stmt_inv in H as (? & [(? & -> & -> & ?) | (? & ? & -> & ? & ->)])
  | H : rand_read _ _ = (_, _) |- _ => apply rand_read_inv in H as (? & ->)
  | H : http_do _ _ = (_, _) |- _ => apply http_do_inv in H as (? & ->)
  | H : ret _ _ = (_, _) |- _ => unfold ret in H; simplify_eq/=
  | H : gets _ _ = (_, _) |- _ => unfold gets in H; simplify_eq/=
  | H : time_now _ = (_, _) |- _ => unfold time_now, gets in H; simplify_eq/=
  | H : new_uuid _ = (_, _) |- _ => unfold new_uuid in H; simplify_eq/=
  | H : modify _ _ = (_, _) |- _ => unfold modify in H; simplify_eq/=
  | H : (match ?x with _ => _ end) _ = (_, _) |- _ => destruct x eqn:?
  | _ => progress simplify_eq/=
  end.

(** ** Runs without failures *)

Lemma au_query_ok {A} (q : Z -> DB -> result DBError A) w :
  w_faults w = [] -> query q w = (q (w_now w) (w_db w), w).
Proof. unfold query, bind, next_fault, gets. by intros ->. Qed.

Lemma au_exec_ok {A} (q : Z -> DB -> result DBError (A * DB)) w a d :
  w_faults w = [] -> q (w_now w) (w_db w) = Ok (a, d) -> exec q w = (Ok a, set_db d w).
Proof. unfold exec, bind, next_fault. by intros -> ->. Qed.

Lemma au_exec_err {A} (q : Z -> DB -> result DBError (A * DB)) w e :
  w_faults w = [] -> q (w_now w) (w_db w) = Err e -> exec q w = (Err e, w).
Proof. unfold exec, bind, next_fault. by intros -> ->. Qed.

Lemma au_insert_stmt_ok {A} (q : Z -> uuid -> DB -> result DBError (A * DB)) w a d :
  w_faults w = [] -> q (w_now w) (hd 0%N (w_ids w)) (w_db w) = Ok (a, d) ->
  insert_stmt q w = (Ok a, set_db d (set_ids (tl (w_ids w)) w)).
Proof. intros Hf Hq. unfold insert_stmt. by apply au_exec_ok. Qed.

Lemma au_insert_stmt_err {A} (q : Z -> uuid -> DB -> result DBError (A * DB)) w e :
  w_faults w = [] -> q (w_now w) (hd 0%N (w_ids w)) (w_db w) = Err e ->
  insert_stmt q w = (Err e, set_ids (tl (w_ids w)) w).
Proof. intros Hf Hq. unfold insert_stmt. by apply au_exec_err. Qed.

(** One statement of a run without failures. *)
Lemma bind_query_ok {A B} (q : Z -> DB -> result DBError A) (k : _ -> M World B) w :
  w_faults w = [] -> bind (query q) k w = k (q (w_now w) (w_db w)) w.
Proof. intros Hf. erewrite bind_eval; [done|by apply au_query_ok]. Qed.

Lemma bind_exec_ok {A B} (q : Z -> DB -> result DBError (A * DB)) (k : _ -> M World B) w a d :
  w_faults w = [] -> q (w_now w) (w_db w) = Ok (a, d) -> bind (exec q) k w = k (Ok a) (set_db d w).
Proof. intros Hf Hq. erewrite bind_eval; [done|by apply au_exec_ok]. Qed.

Lemma exec_calm {A} (q : Z -> DB -> result DBError (A * DB)) w r w' :
  exec q w = (r, w') -> w_faults w = [] -> w_faults w' = [].
Proof.
  intros H Hf. destruct (q (w_now w) (w_db w)) as [[a d]|e] eqn:E.
  - erewrite au_exec_ok in H by done. by simplify_eq.
  - erewrite au_exec_err in H by done. by simplify_eq.
Qed.

(** ** Composing frame conditions *)

Create HintDb keeps.

Section Keeps.
Context (R : DB -> DB -> Prop) `{!PreOrder R}.

Lemma keeps_ret {A} (a : A) : keeps R (ret a).
Proof. intros w x w' H. unfold ret in H. by simplify_eq. Qed.

Lemma keeps_gets {A} (f : World -> A) : keeps R (gets f).
Proof. intros w x w' H. unfold gets in H. by simplify_eq. Qed.

Lemma keeps_bind {A B} (c : M World A) (k : A -> M World B) :
  keeps R c -> (forall a, keeps R (k a)) -> keeps R (bind c k).
Proof.
  intros Hc Hk w b w' H. apply bind_inv in H as (a & w1 & H1 & H2).
  apply Hc in H1 as (H1 & N1 & F1). apply Hk in H2 as (H2 & N2 & F2). split_and!; [by etrans|congruence|auto].
Qed.

Lemma keeps_query {A} (q : Z -> DB -> result DBError A) : keeps R (query q).
Proof.
  intros w r w' H. split_and!; [by apply au_query_inv in H as (f & -> & _)..|].
  intros Hf. rewrite au_query_ok in H by done. by simplify_eq.
Qed.

Lemma keeps_exec {A} (q : Z -> DB -> result DBError (A * DB)) :
  (forall now d a d', q now d = Ok (a, d') -> R d d') -> keeps R (exec q).
Proof.
  intros Hq w r w' H. split_and!; [..|by eapply exec_calm];
    apply au_exec_inv in H as (f & [(e & _ & -> & _)|(a & d & _ & E & ->)]); try done. by eapply Hq.
Qed.

Lemma keeps_insert {A} (q : Z -> uuid -> DB -> result DBError (A * DB)) :
  (forall now id d a d', q now id d = Ok (a, d') -> R d d') -> keeps R (insert_stmt q).
Proof.
  intros Hq w r w' H. split_and!; [..|intros Hf; by eapply exec_calm in H];
    apply au_insert_stmt_inv in H as (f & [(e & _ & -> & _)|(a & d & _ & E & ->)]); try done. by eapply Hq.
Qed.

(** And conversely, what a statement that runs respects it respects alone. *)
Lemma keeps_exec_stmt {A} (q : Z -> DB -> result DBError (A * DB)) now d a d' :
  keeps R (exec q) -> q now d = Ok (a, d') -> R d d'.
Proof.
  intros Hk Hq. set (w := mkWorld d now [] [] [] [] []).
  by destruct (Hk w (Ok a) (set_db d' w) (au_exec_ok q w a d' eq_refl Hq)).
Qed.

Lemma keeps_insert_stmt {A} (q : Z -> uuid -> DB -> result DBError (A * DB)) now id d a d' :
  keeps R (insert_stmt q) -> q now id d = Ok (a, d') -> R d d'.
Proof.
  intros Hk Hq. set (w := mkWorld d now [id] [] [] [] []).
  by destruct (Hk w _ _ (au_insert_stmt_ok q w a d' eq_refl Hq)).
Qed.

Lemma keeps_rand n : keeps R (rand_read n).
Proof. intros w r w' H. by apply rand_read_inv in H as [x ->]. Qed.

Lemma keeps_uuid : keeps R new_uuid.
Proof. intros w r w' H. unfold new_uuid in H. by simplify_eq. Qed.

Lemma keeps_http s : keeps R (http_do s).
Proof. intros w r w' H. by apply http_do_inv in H as [x ->]. Qed.

Lemma keeps_for {A} (xs : list A) (body : A -> M World unit) :
  (forall x, keeps R (body x)) -> keeps R (for_range xs body).
Proof.
  intros Hb. induction xs as [|x xs IH]; cbn; [apply keeps_ret|]. by apply keeps_bind.
Qed.

End Keeps.

#[export] Hint Resolve keeps_ret keeps_gets keeps_query keeps_rand keeps_uuid keeps_http : keeps.

(** Split a handler into its statements; what is left are the statements that
    write. *)
Ltac keeps_step :=
  lazymatch goal with
  | |- keeps _ (match ?x with _ => _ end) => destruct x
  | |- keeps _ (bind _ _) => apply keeps_bind; [apply _| |intros ?]
  | |- keeps _ (ret _) => apply keeps_ret, _
  | |- keeps _ (gets _) => apply keeps_gets, _
  | |- keeps _ time_now => apply keeps_gets, _
  | |- keeps _ (query _) => apply keeps_query, _
  | |- keeps _ (rand_read _) => apply keeps_rand, _
  | |- keeps _ new_uuid => apply keeps_uuid, _
  | |- keeps _ (http_do _) => apply keeps_http, _
  | |- keeps _ (for_range _ _) => apply keeps_for; [apply _|intros ?]
  | |- keeps _ _ => solve [eauto with keeps]
  end.
Ltac keeps_tac := repeat keeps_step.
