(* ===== verification/AuthStore.v ===== *)
(** The statements of the auth service's generated store on users, OAuth
    identities and states, sessions, refresh tokens, multi-factor settings and
    failed logins: [services/auth/internal/store] ([users.sql.go],
    [oauth_identities.sql.go], [oauth_states.sql.go], [sessions.sql.go],
    [refresh_tokens.sql.go], [mfa.sql.go], [copyfrom.go],
    [failed_logins.sql.go]), with the constraints, defaults, cascades and
    triggers of the migrations. *)

From S2P Require Import Prelude Tables GoStr AuthModels.

(** * Definitions *)

(** ** Statements on one table *)

(** [INSERT]: the first violated constraint of [checks] fails the statement, so
    does a primary key that is taken. *)
Fixpoint first_violation (checks : list (bool * DBError)) : option DBError :=
  match checks with
  | [] => None
  | (bad, e) :: checks => if (bad : bool) then Some e else first_violation checks
  end.

Definition insert_row {A} (get : DB -> gmap N A) (set : gmap N A -> DB -> DB)
    (checks : list (bool * DBError)) (id : uuid) (row : A) (d : DB) : result DBError (A * DB) :=
  match first_violation ((bool_decide (is_Some (get d !! id)), ErrUniqueViolation) :: checks) with
  | Some e => Err e
  | None => Ok (row, set (<[id := row]> (get d)) d)
  end.

(** [UPDATE ... WHERE id = $1 RETURNING ...]: no row is an error. *)
Definition update_one {A} (get : DB -> gmap N A) (set : gmap N A -> DB -> DB)
    (checks : A -> list (bool * DBError)) (f : A -> A) (id : uuid) (d : DB) : result DBError (A * DB) :=
  match get d !! id with
  | None => Err ErrNoRows
  | Some a =>
      match first_violation (checks a) with
      | Some e => Err e
      | None => Ok (f a, set (<[id := f a]> (get d)) d)
      end
  end.

(** [UPDATE ... WHERE p] without a result: no row is no error. *)
Definition update_exec {A} (get : DB -> gmap N A) (set : gmap N A -> DB -> DB)
    (checks : list (bool * DBError)) (f : A -> A) (p : A -> bool) (d : DB) : result DBError (unit * DB) :=
  match (if any_row p (get d) then first_violation checks else None) with
  | Some e => Err e
  | None => Ok (tt, set (update_where p f (get d)) d)
  end.

Definition get_row {A} (t : gmap N A) (id : uuid) : result DBError A := result_of_option ErrNoRows (t !! id).
Definition get_where {A} (p : A -> bool) (t : gmap N A) : result DBError A :=
  result_of_option ErrNoRows (find_row p t).
Definition count_where {A} (p : A -> bool) (t : gmap N A) : Z := Z.of_nat (length (select p t)).
Definition missing {A} (t : gmap N A) (id : uuid) : bool := negb (bool_decide (is_Some (t !! id))).

(** [LIMIT l OFFSET o]: PostgreSQL rejects negative values. *)
Definition limit_offset {A} (l o : Z) (xs : list A) : result DBError (list A) :=
  if (l <? 0) || (o <? 0) then Err ErrConn else Ok (take (Z.to_nat l) (drop (Z.to_nat o) xs)).

Definition minutes (n : Z) : Z := n * 60000000.
Definition hours (n : Z) : Z := n * 3600000000.
Definition days (n : Z) : Z := n * 86400000000.

Module AuthStore.

(** ** [users.sql.go] *)
Definition CountUsers (_ : Z) (d : DB) : result DBError Z := Ok (count_where (fun _ => true) (users d)).

Definition CreateUser (email : string) (emailVerified : bool) (firstName lastName avatarUrl : option string)
    (now : Z) (id : uuid) (d : DB) : result DBError (User * DB) :=
  insert_row users set_users
    [(any_row (fun u => bool_decide (u_Email u = email)) (users d), ErrUniqueViolation)] id
    (mkUser id email emailVerified firstName lastName None None None None "UTC" "en" avatarUrl None "{}"
       "team_only" "profile" false now now) d.

Definition GetUserByEmail (email : string) (_ : Z) (d : DB) : result DBError User :=
  get_where (fun u => bool_decide (u_Email u = email)) (users d).

Definition GetUserByID (id : uuid) (_ : Z) (d : DB) : result DBError User := get_row (users d) id.

Definition ListUsers (limit offset : Z) (_ : Z) (d : DB) : result DBError (list User) :=
  limit_offset limit offset (order_desc u_CreatedAt (rows (users d))).

(** A row of [users] with the columns the updates set; the trigger sets
    [updated_at]. *)
Definition user_with (avatar phone : option string) (onboarding : string) (admin : bool) (now : Z) (u : User) : User :=
  mkUser (u_ID u) (u_Email u) (u_EmailVerified u) (u_FirstName u) (u_LastName u) (u_Nickname u) (u_Bio u)
    (u_Country u) (u_Age u) (u_Timezone u) (u_Language u) avatar phone (u_SocialLinks u)
    (u_ProfileVisibility u) onboarding admin (u_CreatedAt u) now.

Definition UpdateUserAvatar (id : uuid) (avatarUrl : option string) (now : Z) (d : DB) : result DBError (unit * DB) :=
  update_exec users set_users []
    (fun u => user_with avatarUrl (u_PhoneCipher u) (u_OnboardingStep u) (u_IsPlatformAdmin u) now u)
    (fun u => bool_decide (u_ID u = id)) d.

Definition onboarding_steps : list string := ["profile"; "connect_oauth"; "join_team"; "completed"].
Definition visibilities : list string := ["public"; "private"; "team_only"].

Definition UpdateUserOnboardingStep (id : uuid) (step : string) (now : Z) (d : DB) : result DBError (unit * DB) :=
  update_exec users set_users [(bool_decide (step ∉ onboarding_steps), ErrCheckViolation)]
    (fun u => user_with (u_AvatarUrl u) (u_PhoneCipher u) step (u_IsPlatformAdmin u) now u)
    (fun u => bool_decide (u_ID u = id)) d.

Definition UpdateUserPhone (id : uuid) (phoneCipher : option string) (now : Z) (d : DB) : result DBError (unit * DB) :=
  update_exec users set_users []
    (fun u => user_with (u_AvatarUrl u) phoneCipher (u_OnboardingStep u) (u_IsPlatformAdmin u) now u)
    (fun u => bool_decide (u_ID u = id)) d.

Definition UpdateUserPlatformAdmin (id : uuid) (admin : bool) (now : Z) (d : DB) : result DBError (unit * DB) :=
  update_exec users set_users []
    (fun u => user_with (u_AvatarUrl u) (u_PhoneCipher u) (u_OnboardingStep u) admin now u)
    (fun u => bool_decide (u_ID u = id)) d.

Record UpdateUserProfileParams := mkUpdateUserProfileParams {
  up_ID : uuid;
  up_FirstName : option string;
  up_LastName : option string;
  up_Nickname : option string;
  up_Bio : option string;
  up_Country : option string;
  up_Age : option Z;
  up_Timezone : string;
  up_Language : string;
  up_SocialLinks : string;
  up_ProfileVisibility : string
}.

Definition UpdateUserProfile (a : UpdateUserProfileParams) (now : Z) (d : DB) : result DBError (User * DB) :=
  update_one users set_users
    (fun _ => [(bool_decide (up_ProfileVisibility a ∉ visibilities), ErrCheckViolation)])
    (fun u => mkUser (u_ID u) (u_Email u) (u_EmailVerified u) (up_FirstName a) (up_LastName a) (up_Nickname a)
       (up_Bio a) (up_Country a) (up_Age a) (up_Timezone a) (up_Language a) (u_AvatarUrl u) (u_PhoneCipher u)
       (up_SocialLinks a) (up_ProfileVisibility a) (u_OnboardingStep u) (u_IsPlatformAdmin u) (u_CreatedAt u) now)
    (up_ID a) d.

(** ** [sessions.sql.go] *)
Record CreateSessionParams := mkCreateSessionParams {
  cs_UserID : uuid;
  cs_IpAddress : option string;
  cs_UserAgent : option string;
  cs_DeviceName : option string;
  cs_DeviceFingerprint : option string;
  cs_Country : option string;
  cs_ExpiresAt : Z
}.

Definition CreateSession (a : CreateSessionParams) (now : Z) (id : uuid) (d : DB) : result DBError (Session * DB) :=
  insert_row sessions set_sessions [(missing (users d) (cs_UserID a), ErrForeignKeyViolation)] id
    (mkSession id (cs_UserID a) (cs_IpAddress a) (cs_UserAgent a) (cs_DeviceName a) (cs_DeviceFingerprint a)
       (cs_Country a) now (cs_ExpiresAt a) None now) d.

(** Deleted sessions take their refresh tokens with them. *)
Definition delete_sessions (p : Session -> bool) (d : DB) : DB :=
  set_sessions (delete_where p (sessions d))
    (set_refresh_tokens
       (delete_where (fun t => match sessions d !! rt_SessionID t with Some s => p s | None => false end)
          (refresh_tokens d)) d).

Definition DeleteExpiredSessions (now : Z) (d : DB) : result DBError (unit * DB) :=
  Ok (tt, delete_sessions (fun s => se_ExpiresAt s <? now - days 7) d).

Definition GetSessionByID (id : uuid) (_ : Z) (d : DB) : result DBError Session := get_row (sessions d) id.

Definition ListActiveSessions (userID : uuid) (now : Z) (d : DB) : result DBError (list Session) :=
  Ok (order_desc se_LastActiveAt
        (select (fun s => bool_decide (se_UserID s = userID) && bool_decide (se_RevokedAt s = None)
                            && (now <? se_ExpiresAt s)) (sessions d))).

Definition session_with (lastActive : Z) (revoked : option Z) (s : Session) : Session :=
  mkSession (se_ID s) (se_UserID s) (se_IpAddress s) (se_UserAgent s) (se_DeviceName s)
    (se_DeviceFingerprint s) (se_Country s) lastActive (se_ExpiresAt s) revoked (se_CreatedAt s).

Definition RevokeAllUserSessions (userID : uuid) (now : Z) (d : DB) : result DBError (unit * DB) :=
  update_exec sessions set_sessions [] (fun s => session_with (se_LastActiveAt s) (Some now) s)
    (fun s => bool_decide (se_UserID s = userID) && bool_decide (se_RevokedAt s = None)) d.

Definition RevokeSession (id : uuid) (now : Z) (d : DB) : result DBError (unit * DB) :=
  update_exec sessions set_sessions [] (fun s => session_with (se_LastActiveAt s) (Some now) s)
    (fun s => bool_decide (se_ID s = id)) d.

Definition UpdateSessionLastActive (id : uuid) (now : Z) (d : DB) : result DBError (unit * DB) :=
  update_exec sessions set_sessions [] (fun s => session_with now (se_RevokedAt s) s)
    (fun s => bool_decide (se_ID s = id)) d.

(** ** [refresh_tokens.sql.go] *)
Definition CreateRefreshToken (userID sessionID : uuid) (tokenHash : string) (expiresAt : Z)
    (now : Z) (id : uuid) (d : DB) : result DBError (RefreshToken * DB) :=
  insert_row refresh_tokens set_refresh_tokens
    [(any_row (fun t => bool_decide (rt_TokenHash t = tokenHash)) (refresh_tokens d), ErrUniqueViolation);
     (missing (users d) userID, ErrForeignKeyViolation);
     (missing (sessions d) sessionID, ErrForeignKeyViolation)] id
    (mkRefreshToken id userID sessionID tokenHash expiresAt None now) d.

Definition DeleteExpiredRefreshTokens (now : Z) (d : DB) : result DBError (unit * DB) :=
  Ok (tt, set_refresh_tokens (delete_where (fun t => rt_ExpiresAt t <? now - days 7) (refresh_tokens d)) d).

Definition GetRefreshTokenByHash (tokenHash : string) (_ : Z) (d : DB) : result DBError RefreshToken :=
  get_where (fun t => bool_decide (rt_TokenHash t = tokenHash)) (refresh_tokens d).

Definition revoked_at (now : Z) (t : RefreshToken) : RefreshToken :=
  mkRefreshToken (rt_ID t) (rt_UserID t) (rt_SessionID t) (rt_TokenHash t) (rt_ExpiresAt t) (Some now) (rt_CreatedAt t).

Definition RevokeAllUserRefreshTokens (userID : uuid) (now : Z) (d : DB) : result DBError (unit * DB) :=
  update_exec refresh_tokens set_refresh_tokens [] (revoked_at now)
    (fun t => bool_decide (rt_UserID t = userID) && bool_decide (rt_RevokedAt t = None)) d.

Definition RevokeRefreshToken (id : uuid) (now : Z) (d : DB) : result DBError (unit * DB) :=
  update_exec refresh_tokens set_refresh_tokens [] (revoked_at now) (fun t => bool_decide (rt_ID t = id)) d.

Definition RevokeRefreshTokensBySession (sessionID : uuid) (now : Z) (d : DB) : result DBError (unit * DB) :=
  update_exec refresh_tokens set_refresh_tokens [] (revoked_at now)
    (fun t => bool_decide (rt_SessionID t = sessionID) && bool_decide (rt_RevokedAt t = None)) d.

(** ** [oauth_states.sql.go] *)
Definition CreateOAuthState (state provider redirectUri : string) (expiresAt : Z)
    (now : Z) (id : uuid) (d : DB) : result DBError (unit * DB) :=
  match insert_row oauth_states set_oauth_states
    [(any_row (fun s => bool_decide (os_State s = state)) (oauth_states d), ErrUniqueViolation)] id
    (mkOauthState id state provider redirectUri expiresAt now) d with
  | Ok (_, d) => Ok (tt, d)
  | Err e => Err e
  end.

Definition DeleteExpiredOAuthStates (now : Z) (d : DB) : result DBError (unit * DB) :=
  Ok (tt, set_oauth_states (delete_where (fun s => os_ExpiresAt s <? now) (oauth_states d)) d).

Definition GetAndDeleteOAuthState (state : string) (now : Z) (d : DB) : result DBError (OauthState * DB) :=
  let p s := bool_decide (os_State s = state) && (now <? os_ExpiresAt s) in
  match find_row p (oauth_states d) with
  | None => Err ErrNoRows
  | Some s => Ok (s, set_oauth_states (delete_where p (oauth_states d)) d)
  end.

(** ** [oauth_identities.sql.go] *)
Definition CountOAuthIdentitiesByUser (userID : uuid) (_ : Z) (d : DB) : result DBError Z :=
  Ok (count_where (fun i => bool_decide (oi_UserID i = userID)) (oauth_identities d)).

Record CreateOAuthIdentityParams := mkCreateOAuthIdentityParams {
  ci_UserID : uuid;
  ci_Provider : string;
  ci_ProviderID : string;
  ci_Email : option string;
  ci_DisplayName : option string;
  ci_AvatarUrl : option string;
  ci_AccessToken : option string;
  ci_RefreshToken : option string;
  ci_TokenExpiresAt : option Z
}.

Definition same_identity (provider providerID : string) (i : OauthIdentity) : bool :=
  bool_decide (oi_Provider i = provider) && bool_decide (oi_ProviderID i = providerID).

Definition providers : list string := ["github"; "google"].

Definition CreateOAuthIdentity (a : CreateOAuthIdentityParams) (now : Z) (id : uuid) (d : DB) :
    result DBError (OauthIdentity * DB) :=
  insert_row oauth_identities set_oauth_identities
    [(bool_decide (ci_Provider a ∉ providers), ErrCheckViolation);
     (any_row (same_identity (ci_Provider a) (ci_ProviderID a)) (oauth_identities d), ErrUniqueViolation);
     (missing (users d) (ci_UserID a), ErrForeignKeyViolation)] id
    (mkOauthIdentity id (ci_UserID a) (ci_Provider a) (ci_ProviderID a) (ci_Email a) (ci_DisplayName a)
       (ci_AvatarUrl a) (ci_AccessToken a) (ci_RefreshToken a) (ci_TokenExpiresAt a) now now) d.

Definition DeleteOAuthIdentity (userID : uuid) (provider : string) (_ : Z) (d : DB) : result DBError (unit * DB) :=
  Ok (tt, set_oauth_identities
            (delete_where (fun i => bool_decide (oi_UserID i = userID) && bool_decide (oi_Provider i = provider))
               (oauth_identities d)) d).

Definition GetOAuthIdentity (provider providerID : string) (_ : Z) (d : DB) : result DBError OauthIdentity :=
  get_where (same_identity provider providerID) (oauth_identities d).

Definition ListOAuthIdentitiesByUser `{Collation} (userID : uuid) (_ : Z) (d : DB) :
    result DBError (list OauthIdentity) :=
  Ok (order_text oi_Provider (select (fun i => bool_decide (oi_UserID i = userID)) (oauth_identities d))).

Definition UpdateOAuthTokens (provider providerID : string) (accessToken refreshToken : option string)
    (tokenExpiresAt : option Z) (now : Z) (d : DB) : result DBError (unit * DB) :=
  update_exec oauth_identities set_oauth_identities []
    (fun i => mkOauthIdentity (oi_ID i) (oi_UserID i) (oi_Provider i) (oi_ProviderID i) (oi_Email i)
       (oi_DisplayName i) (oi_AvatarUrl i) accessToken refreshToken tokenExpiresAt (oi_CreatedAt i) now)
    (same_identity provider providerID) d.

(** ** [mfa.sql.go] *)
Definition DeleteBackupCodes (userID : uuid) (_ : Z) (d : DB) : result DBError (unit * DB) :=
  Ok (tt, set_mfa_backup_codes
            (delete_where (fun c => bool_decide (bc_UserID c = userID)) (mfa_backup_codes d)) d).

Definition mfa_with (secret : option string) (enabled : bool) (verified : option Z) (now : Z) (m : MfaSetting) :
    MfaSetting :=
  mkMfaSetting (ms_ID m) (ms_UserID m) secret enabled verified (ms_CreatedAt m) now.

Definition of_user (userID : uuid) (m : MfaSetting) : bool := bool_decide (ms_UserID m = userID).

Definition DisableTOTP (userID : uuid) (now : Z) (d : DB) : result DBError (unit * DB) :=
  update_exec mfa_settings set_mfa_settings [] (mfa_with None false None now) (of_user userID) d.

Definition EnableTOTP (userID : uuid) (now : Z) (d : DB) : result DBError (unit * DB) :=
  update_exec mfa_settings set_mfa_settings []
    (fun m => mfa_with (ms_TotpSecret m) true (Some now) now m) (of_user userID) d.

Definition GetMFASettings (userID : uuid) (_ : Z) (d : DB) : result DBError MfaSetting :=
  get_where (of_user userID) (mfa_settings d).

Definition ListUnusedBackupCodes (userID : uuid) (_ : Z) (d : DB) : result DBError (list MfaBackupCode) :=
  Ok (select (fun c => bool_decide (bc_UserID c = userID) && bool_decide (bc_UsedAt c = None)) (mfa_backup_codes d)).

Definition MarkBackupCodeUsed (id : uuid) (now : Z) (d : DB) : result DBError (unit * DB) :=
  update_exec mfa_backup_codes set_mfa_backup_codes []
    (fun c => mkMfaBackupCode (bc_ID c) (bc_UserID c) (bc_CodeHash c) (Some now) (bc_CreatedAt c))
    (fun c => bool_decide (bc_ID c = id)) d.

Definition UpsertMFASettings (userID : uuid) (secret : option string) (enabled : bool)
    (now : Z) (id : uuid) (d : DB) : result DBError (MfaSetting * DB) :=
  match find_row (of_user userID) (mfa_settings d) with
  | Some m =>
      let m' := mfa_with secret enabled (ms_TotpVerifiedAt m) now m in
      Ok (m', set_mfa_settings (<[ms_ID m := m']> (mfa_settings d)) d)
  | None =>
      insert_row mfa_settings set_mfa_settings [(missing (users d) userID, ErrForeignKeyViolation)] id
        (mkMfaSetting id userID secret enabled None now now) d
  end.

(** ** [copyfrom.go]

    The iterator that hands the rows to COPY, as its state machine. *)
Record CreateBackupCodesParams := mkCreateBackupCodesParams {
  cb_UserID : uuid;
  cb_CodeHash : string
}.

Record iteratorForCreateBackupCodes := mkIterator {
  it_rows : list CreateBackupCodesParams;
  skippedFirstNextCall : bool
}.

Definition Next (r : iteratorForCreateBackupCodes) : bool * iteratorForCreateBackupCodes :=
  match it_rows r with
  | [] => (false, r)
  | _ :: rest =>
      if skippedFirstNextCall r
      then (match rest with [] => false | _ => true end, mkIterator rest true)
      else (true, mkIterator (it_rows r) true)
  end.

Definition Values (r : iteratorForCreateBackupCodes) : option (uuid * string) :=
  match it_rows r with [] => None | row :: _ => Some (cb_UserID row, cb_CodeHash row) end.

(** What COPY reads: [Values] after every [Next] that returns true. *)
Fixpoint copy_rows (fuel : nat) (r : iteratorForCreateBackupCodes) : list (uuid * string) :=
  match fuel with
  | O => []
  | S fuel =>
      let '(more, r) := Next r in
      if more then match Values r with Some v => v :: copy_rows fuel r | None => [] end else []
  end.

(** The rows of one COPY, with the identifiers drawn for them; COPY inserts all
    of them or none. *)
Fixpoint copy_insert (now : Z) (ids : list uuid) (vs : list (uuid * string)) (d : DB) : result DBError DB :=
  match vs with
  | [] => Ok d
  | (userID, hash) :: vs =>
      match insert_row mfa_backup_codes set_mfa_backup_codes
              [(missing (users d) userID, ErrForeignKeyViolation)] (hd 0%N ids)
              (mkMfaBackupCode (hd 0%N ids) userID hash None now) d with
      | Ok (_, d) => copy_insert now (tl ids) vs d
      | Err e => Err e
      end
  end.

Definition CreateBackupCodes (arg : list CreateBackupCodesParams) : M World (result DBError Z) := fun w =>
  let vs := copy_rows (S (length arg)) (mkIterator arg false) in
  exec (fun now d =>
          match copy_insert now (w_ids w) vs d with
          | Ok d => Ok (Z.of_nat (length vs), d)
          | Err e => Err e
          end) (set_ids (drop (length vs) (w_ids w)) w).

(** ** [failed_logins.sql.go] *)
Definition CountRecentFailedLogins (identifier : string) (now : Z) (d : DB) : result DBError Z :=
  Ok (count_where (fun f => bool_decide (fl_Identifier f = identifier) && (now - minutes 15 <? fl_CreatedAt f))
        (failed_login_attempts d)).

Definition CountRecentFailedLoginsByIP (ip : string) (now : Z) (d : DB) : result DBError Z :=
  Ok (count_where (fun f => bool_decide (fl_IpAddress f = ip) && (now - minutes 15 <? fl_CreatedAt f))
        (failed_login_attempts d)).

Definition DeleteOldFailedLogins (now : Z) (d : DB) : result DBError (unit * DB) :=
  Ok (tt, set_failed_login_attempts
            (delete_where (fun f => fl_CreatedAt f <? now - hours 24) (failed_login_attempts d)) d).

(** [ip] is NULL for the zero [netip.Addr], which the column does not admit. *)
Definition RecordFailedLogin (identifier : string) (ip : option string) (userAgent : option string)
    (now : Z) (id : uuid) (d : DB) : result DBError (unit * DB) :=
  match ip with
  | None => Err ErrNotNullViolation
  | Some ip =>
      match insert_row failed_login_attempts set_failed_login_attempts [] id
              (mkFailedLoginAttempt id identifier ip userAgent now) d with
      | Ok (_, d) => Ok (tt, d)
      | Err e => Err e
      end
  end.

(** [DeleteUser]: what belongs to the user goes with the row, audit entries lose
    their actor, invitations the user sent stop the deletion. *)
Definition DeleteUser (id : uuid) (_ : Z) (d : DB) : result DBError (unit * DB) :=
  if missing (users d) id then Ok (tt, d)
  else if any_row (fun i => bool_decide (iv_InvitedBy i = id)) (invites d) then Err ErrForeignKeyViolation
  else
    let d := delete_sessions (fun s => bool_decide (se_UserID s = id)) d in
    let d := set_refresh_tokens (delete_where (fun t => bool_decide (rt_UserID t = id)) (refresh_tokens d)) d in
    let d := set_oauth_identities (delete_where (fun i => bool_decide (oi_UserID i = id)) (oauth_identities d)) d in
    let d := set_mfa_settings (delete_where (of_user id) (mfa_settings d)) d in
    let d := set_mfa_backup_codes (delete_where (fun c => bool_decide (bc_UserID c = id)) (mfa_backup_codes d)) d in
    let d := set_org_memberships (delete_where (fun m => bool_decide (om_UserID m = id)) (org_memberships d)) d in
    let d := set_team_memberships (delete_where (fun m => bool_decide (tm_UserID m = id)) (team_memberships d)) d in
    let d := set_audit_logs
               (update_where (fun a => bool_decide (al_ActorID a = Some id))
                  (fun a => mkAuditLog (al_ID a) (al_OrgID a) None (al_Action a) (al_TargetType a) (al_TargetID a)
                     (al_IpAddress a) (al_UserAgent a) (al_Metadata a) (al_CreatedAt a)) (audit_logs d)) d in
    Ok (tt, set_users (delete id (users d)) d).

End AuthStore.

(** * Lemmas *)

Lemma first_violation_None checks :
  first_violation checks = None <-> Forall (fun c => c.1 = false) checks.
Proof.
  induction checks as [|[b e] cs IH]; cbn; [done|]. rewrite Forall_cons, <-IH. destruct b; naive_solver.
Qed.

Lemma insert_row_inv {A} get set checks id (row : A) d a d' :
  insert_row get set checks id row d = Ok (a, d') ->
  a = row /\ d' = set (<[id := row]> (get d)) d /\ get d !! id = None /\
  Forall (fun c => c.1 = false) checks.
Proof.
  unfold insert_row. intros H. destruct (first_violation _) eqn:E; [done|]. simplify_eq/=.
  apply (first_violation_None ((_, _) :: _)), Forall_cons in E as [E1 E2]. cbn in E1. apply bool_decide_eq_false in E1.
  split_and!; try done. by apply eq_None_not_Some.
Qed.

Lemma update_one_inv {A} get set checks (f : A -> A) id d a d' :
  update_one get set checks f id d = Ok (a, d') ->
  exists r, get d !! id = Some r /\ a = f r /\ d' = set (<[id := f r]> (get d)) d /\
    Forall (fun c => c.1 = false) (checks r).
Proof.
  unfold update_one. intros H. destruct (get d !! id) as [r|]; [|done].
  destruct (first_violation _) eqn:E; [done|]. simplify_eq/=.
  apply first_violation_None in E. eauto 10.
Qed.

Lemma update_exec_inv {A} get set checks (f : A -> A) p d a d' :
  update_exec get set checks f p d = Ok (a, d') ->
  d' = set (update_where p f (get d)) d /\
  (forall k r, get d !! k = Some r -> p r = true -> Forall (fun c => c.1 = false) checks).
Proof.
  unfold update_exec. intros H. destruct (any_row p (get d)) eqn:Ea.
  - destruct (first_violation checks) eqn:E; [done|]. simplify_eq/=. split; [done|].
    intros _ _ _ _. by apply first_violation_None.
  - simplify_eq. split; [done|]. rewrite any_row_false in Ea. intros k r Hr Hp. by rewrite (Ea k r Hr) in Hp.
Qed.

(** An update without constraints to violate succeeds. *)
Lemma update_exec_nil {A} get set (f : A -> A) p d :
  update_exec get set [] f p d = Ok (tt, set (update_where p f (get d)) d).
Proof. unfold update_exec. by destruct (any_row p (get d)). Qed.

Lemma missing_false {A} (t : gmap N A) id : missing t id = false <-> is_Some (t !! id).
Proof. unfold missing. by rewrite negb_false_iff, bool_decide_eq_true. Qed.

(** The iterator protocol hands COPY exactly the rows it was given, in order. *)
Lemma copy_rows_skipped rows fuel :
  (length rows <= fuel)%nat ->
  AuthStore.copy_rows fuel (AuthStore.mkIterator rows true) =
    (fun r => (AuthStore.cb_UserID r, AuthStore.cb_CodeHash r)) <$> tail rows.
Proof.
  revert fuel. induction rows as [|r rows IH]; intros fuel Hf.
  - destruct fuel; done.
  - destruct fuel as [|fuel]; cbn in Hf; [lia|]. cbn.
    destruct rows as [|r' rows]; [done|]. cbn. f_equal. apply (IH fuel). cbn in *. lia.
Qed.

Lemma copy_rows_all rows :
  AuthStore.copy_rows (S (length rows)) (AuthStore.mkIterator rows false) =
    (fun r => (AuthStore.cb_UserID r, AuthStore.cb_CodeHash r)) <$> rows.
Proof.
  destruct rows as [|r rows]; [done|]. cbn -[AuthStore.copy_rows].
  change (AuthStore.copy_rows (S (S (length rows))) (AuthStore.mkIterator (r :: rows) false))
    with ((AuthStore.cb_UserID r, AuthStore.cb_CodeHash r) ::
          AuthStore.copy_rows (S (length rows)) (AuthStore.mkIterator (r :: rows) true)).
  by rewrite copy_rows_skipped by (cbn; lia).
Qed.
