(* ===== verification/AuthOrgStore.v ===== *)
(** The statements of the auth service's generated store on organizations,
    teams, invitations, the audit log and webhooks:
    [services/auth/internal/store] ([organizations.sql.go], [teams.sql.go],
    [invites.sql.go], [audit_logs.sql.go], [webhooks.sql.go]), with the
    constraints, defaults, cascades and triggers of the migrations. *)

From S2P Require Import Prelude Tables GoStr AuthModels AuthStore.

Module AuthOrgStore.

(** * Definitions *)

Definition org_roles : list string := ["owner"; "admin"; "member"].
Definition team_roles : list string := ["lead"; "member"].
Definition invite_roles : list string := ["admin"; "member"].
Definition plans : list string := ["free"; "pro"; "enterprise"].

(** [ORDER BY a, b] on two text columns. *)
Definition text2_le `{Collation} {A} (k1 k2 : A -> string) (a b : A) : Prop :=
  text_lt (k1 a) (k1 b) = true \/ (k1 a = k1 b /\ text_lt (k2 b) (k2 a) = false).

#[export] Instance text2_le_dec `{Collation} {A} (k1 k2 : A -> string) : RelDecision (text2_le k1 k2).
Proof. unfold text2_le. intros a b. apply _. Defined.

Definition order_text2 `{Collation} {A} (k1 k2 : A -> string) (l : list A) : list A :=
  merge_sort (text2_le k1 k2) l.

(** ** [organizations.sql.go] *)
Definition in_org (orgID : uuid) (m : OrgMembership) : bool := bool_decide (om_OrgID m = orgID).
Definition is_member (orgID userID : uuid) (m : OrgMembership) : bool :=
  bool_decide (om_OrgID m = orgID) && bool_decide (om_UserID m = userID).

Definition CountOrgMembers (orgID : uuid) (_ : Z) (d : DB) : result DBError Z :=
  Ok (count_where (in_org orgID) (org_memberships d)).

Definition CountOrganizations (_ : Z) (d : DB) : result DBError Z :=
  Ok (count_where (fun _ => true) (organizations d)).

Definition CreateOrgMembership (orgID userID : uuid) (role : string) (now : Z) (id : uuid) (d : DB) :
    result DBError (OrgMembership * DB) :=
  insert_row org_memberships set_org_memberships
    [(bool_decide (role ∉ org_roles), ErrCheckViolation);
     (any_row (is_member orgID userID) (org_memberships d), ErrUniqueViolation);
     (missing (organizations d) orgID, ErrForeignKeyViolation);
     (missing (users d) userID, ErrForeignKeyViolation)] id
    (mkOrgMembership id orgID userID role now now) d.

Definition CreateOrganization (slug name : string) (now : Z) (id : uuid) (d : DB) :
    result DBError (Organization * DB) :=
  insert_row organizations set_organizations
    [(any_row (fun o => bool_decide (o_Slug o = slug)) (organizations d), ErrUniqueViolation)] id
    (mkOrganization id slug name None "free" None 5 now now) d.

Definition DeleteOrgMembership (orgID userID : uuid) (_ : Z) (d : DB) : result DBError (unit * DB) :=
  Ok (tt, set_org_memberships (delete_where (is_member orgID userID) (org_memberships d)) d).

(** Deleted teams take their members with them; invitations to them stay,
    without the team. *)
Definition team_gone (p : Team -> bool) (d : DB) (t : uuid) : bool :=
  match teams d !! t with Some t => p t | None => false end.

Definition delete_teams (p : Team -> bool) (d : DB) : DB :=
  let memberships := delete_where (fun m => team_gone p d (tm_TeamID m)) (team_memberships d) in
  let invs := update_where (fun i => match iv_TeamID i with Some t => team_gone p d t | None => false end)
                (fun i => mkInvite (iv_ID i) (iv_OrgID i) None (iv_InvitedBy i) (iv_Email i) (iv_Role i)
                   (iv_TokenHash i) (iv_Status i) (iv_ExpiresAt i) (iv_AcceptedAt i) (iv_CreatedAt i))
                (invites d) in
  set_teams (delete_where p (teams d)) (set_team_memberships memberships (set_invites invs d)).

(** Deleted subscriptions take their deliveries with them. *)
Definition delete_subscriptions (p : WebhookSubscription -> bool) (d : DB) : DB :=
  let gone s := match webhook_subscriptions d !! s with Some s => p s | None => false end in
  set_webhook_subscriptions (delete_where p (webhook_subscriptions d))
    (set_webhook_deliveries (delete_where (fun x => gone (wd_SubscriptionID x)) (webhook_deliveries d)) d).

(** [DeleteOrganization]: memberships, teams, invitations and webhooks go with
    the organization, audit entries lose their organization. *)
Definition delete_organization (id : uuid) (d : DB) : DB :=
  let d := set_org_memberships (delete_where (in_org id) (org_memberships d)) d in
  let d := delete_teams (fun t => bool_decide (t_OrgID t = id)) d in
  let d := set_invites (delete_where (fun i => bool_decide (iv_OrgID i = id)) (invites d)) d in
  let d := delete_subscriptions (fun s => bool_decide (ws_OrgID s = id)) d in
  let d := set_audit_logs
             (update_where (fun a => bool_decide (al_OrgID a = Some id))
                (fun a => mkAuditLog (al_ID a) None (al_ActorID a) (al_Action a) (al_TargetType a) (al_TargetID a)
                   (al_IpAddress a) (al_UserAgent a) (al_Metadata a) (al_CreatedAt a)) (audit_logs d)) d in
  set_organizations (delete id (organizations d)) d.

Definition DeleteOrganization (id : uuid) (_ : Z) (d : DB) : result DBError (unit * DB) :=
  Ok (tt, delete_organization id d).

Definition GetOrgMembership (orgID userID : uuid) (_ : Z) (d : DB) : result DBError OrgMembership :=
  get_where (is_member orgID userID) (org_memberships d).

Definition GetOrganizationByID (id : uuid) (_ : Z) (d : DB) : result DBError Organization :=
  get_row (organizations d) id.

Definition GetOrganizationBySlug (slug : string) (_ : Z) (d : DB) : result DBError Organization :=
  get_where (fun o => bool_decide (o_Slug o = slug)) (organizations d).

(** A membership joined with its user. *)
Record MemberRow := mkMemberRow {
  mr_ID : uuid;
  mr_GroupID : uuid;
  mr_UserID : uuid;
  mr_Role : string;
  mr_CreatedAt : Z;
  mr_Email : string;
  mr_FirstName : option string;
  mr_LastName : option string;
  mr_AvatarUrl : option string
}.

Definition ListOrgMembers `{Collation} (orgID : uuid) (_ : Z) (d : DB) : result DBError (list MemberRow) :=
  Ok (order_text2 mr_Role mr_Email
        (omap (fun m => match users d !! om_UserID m with
                        | Some u => Some (mkMemberRow (om_ID m) (om_OrgID m) (om_UserID m) (om_Role m) (om_CreatedAt m)
                                            (u_Email u) (u_FirstName u) (u_LastName u) (u_AvatarUrl u))
                        | None => None
                        end) (select (in_org orgID) (org_memberships d)))).

Definition ListOrganizations (limit offset : Z) (_ : Z) (d : DB) : result DBError (list Organization) :=
  limit_offset limit offset (order_desc o_CreatedAt (rows (organizations d))).

Definition ListUserOrganizations `{Collation} (userID : uuid) (_ : Z) (d : DB) : result DBError (list Organization) :=
  Ok (order_text o_Name
        (omap (fun m => organizations d !! om_OrgID m)
           (select (fun m => bool_decide (om_UserID m = userID)) (org_memberships d)))).

Definition UpdateOrgMemberRole (orgID userID : uuid) (role : string) (now : Z) (d : DB) : result DBError (unit * DB) :=
  update_exec org_memberships set_org_memberships [(bool_decide (role ∉ org_roles), ErrCheckViolation)]
    (fun m => mkOrgMembership (om_ID m) (om_OrgID m) (om_UserID m) role (om_CreatedAt m) now)
    (is_member orgID userID) d.

Definition UpdateOrganization (id : uuid) (name : string) (logoUrl billingEmail : option string)
    (now : Z) (d : DB) : result DBError (Organization * DB) :=
  update_one organizations set_organizations (fun _ => [])
    (fun o => mkOrganization (o_ID o) (o_Slug o) name logoUrl (o_Plan o) billingEmail (o_MaxMembers o)
       (o_CreatedAt o) now) id d.

Definition UpdateOrganizationPlan (id : uuid) (plan : string) (maxMembers : Z) (now : Z) (d : DB) :
    result DBError (Organization * DB) :=
  update_one organizations set_organizations (fun _ => [(bool_decide (plan ∉ plans), ErrCheckViolation)])
    (fun o => mkOrganization (o_ID o) (o_Slug o) (o_Name o) (o_LogoUrl o) plan (o_BillingEmail o) maxMembers
       (o_CreatedAt o) now) id d.

(** ** [teams.sql.go] *)
Definition in_team (teamID userID : uuid) (m : TeamMembership) : bool :=
  bool_decide (tm_TeamID m = teamID) && bool_decide (tm_UserID m = userID).

Definition CountTeamMembers (teamID : uuid) (_ : Z) (d : DB) : result DBError Z :=
  Ok (count_where (fun m => bool_decide (tm_TeamID m = teamID)) (team_memberships d)).

(** The unique key [(org_id, slug)], among the teams other than [id]. *)
Definition team_clash (id orgID : uuid) (slug : string) (d : DB) : bool :=
  any_row (fun t => negb (bool_decide (t_ID t = id)) && bool_decide (t_OrgID t = orgID)
                      && bool_decide (t_Slug t = slug)) (teams d).

Definition CreateTeam (orgID : uuid) (slug name : string) (description : option string)
    (now : Z) (id : uuid) (d : DB) : result DBError (Team * DB) :=
  insert_row teams set_teams
    [(team_clash id orgID slug d, ErrUniqueViolation); (missing (organizations d) orgID, ErrForeignKeyViolation)]
    id (mkTeam id orgID slug name description now now) d.

Definition CreateTeamMembership (teamID userID : uuid) (role : string) (now : Z) (id : uuid) (d : DB) :
    result DBError (TeamMembership * DB) :=
  insert_row team_memberships set_team_memberships
    [(bool_decide (role ∉ team_roles), ErrCheckViolation);
     (any_row (in_team teamID userID) (team_memberships d), ErrUniqueViolation);
     (missing (teams d) teamID, ErrForeignKeyViolation);
     (missing (users d) userID, ErrForeignKeyViolation)] id
    (mkTeamMembership id teamID userID role now) d.

Definition DeleteTeam (id : uuid) (_ : Z) (d : DB) : result DBError (unit * DB) :=
  Ok (tt, delete_teams (fun t => bool_decide (t_ID t = id)) d).

Definition DeleteTeamMembership (teamID userID : uuid) (_ : Z) (d : DB) : result DBError (unit * DB) :=
  Ok (tt, set_team_memberships (delete_where (in_team teamID userID) (team_memberships d)) d).

Definition GetTeamByID (id : uuid) (_ : Z) (d : DB) : result DBError Team := get_row (teams d) id.

Definition GetTeamMembership (teamID userID : uuid) (_ : Z) (d : DB) : result DBError TeamMembership :=
  get_where (in_team teamID userID) (team_memberships d).

Definition ListTeamMembers `{Collation} (teamID : uuid) (_ : Z) (d : DB) : result DBError (list MemberRow) :=
  Ok (order_text2 mr_Role mr_Email
        (omap (fun m => match users d !! tm_UserID m with
                        | Some u => Some (mkMemberRow (tm_ID m) (tm_TeamID m) (tm_UserID m) (tm_Role m) (tm_CreatedAt m)
                                            (u_Email u) (u_FirstName u) (u_LastName u) (u_AvatarUrl u))
                        | None => None
                        end) (select (fun m => bool_decide (tm_TeamID m = teamID)) (team_memberships d)))).

Definition ListTeamsByOrg `{Collation} (orgID : uuid) (_ : Z) (d : DB) : result DBError (list Team) :=
  Ok (order_text t_Name (select (fun t => bool_decide (t_OrgID t = orgID)) (teams d))).

Definition ListUserTeams `{Collation} (userID orgID : uuid) (_ : Z) (d : DB) : result DBError (list Team) :=
  Ok (order_text t_Name
        (omap (fun m => match teams d !! tm_TeamID m with
                        | Some t => if decide (t_OrgID t = orgID) then Some t else None
                        | None => None
                        end) (select (fun m => bool_decide (tm_UserID m = userID)) (team_memberships d)))).

Definition UpdateTeam (id : uuid) (name slug : string) (description : option string) (now : Z) (d : DB) :
    result DBError (Team * DB) :=
  update_one teams set_teams (fun t => [(team_clash id (t_OrgID t) slug d, ErrUniqueViolation)])
    (fun t => mkTeam (t_ID t) (t_OrgID t) slug name description (t_CreatedAt t) now) id d.

Definition UpdateTeamMemberRole (teamID userID : uuid) (role : string) (_ : Z) (d : DB) : result DBError (unit * DB) :=
  update_exec team_memberships set_team_memberships [(bool_decide (role ∉ team_roles), ErrCheckViolation)]
    (fun m => mkTeamMembership (tm_ID m) (tm_TeamID m) (tm_UserID m) role (tm_CreatedAt m))
    (in_team teamID userID) d.

(** ** [invites.sql.go] *)
Definition invite_with (status : string) (accepted : option Z) (i : Invite) : Invite :=
  mkInvite (iv_ID i) (iv_OrgID i) (iv_TeamID i) (iv_InvitedBy i) (iv_Email i) (iv_Role i) (iv_TokenHash i)
    status (iv_ExpiresAt i) accepted (iv_CreatedAt i).

Definition AcceptInvite (id : uuid) (now : Z) (d : DB) : result DBError (Invite * DB) :=
  match invites d !! id with
  | None => Err ErrNoRows
  | Some i =>
      if bool_decide (iv_Status i = "pending") && (now <? iv_ExpiresAt i) then
        let i' := invite_with "accepted" (Some now) i in
        Ok (i', set_invites (<[id := i']> (invites d)) d)
      else Err ErrNoRows
  end.

Definition CreateInvite (orgID : uuid) (teamID : option uuid) (invitedBy : uuid) (email role tokenHash : string)
    (expiresAt : Z) (now : Z) (id : uuid) (d : DB) : result DBError (Invite * DB) :=
  insert_row invites set_invites
    [(bool_decide (role ∉ invite_roles), ErrCheckViolation);
     (any_row (fun i => bool_decide (iv_TokenHash i = tokenHash)) (invites d), ErrUniqueViolation);
     (missing (organizations d) orgID, ErrForeignKeyViolation);
     (match teamID with Some t => missing (teams d) t | None => false end, ErrForeignKeyViolation);
     (missing (users d) invitedBy, ErrForeignKeyViolation)] id
    (mkInvite id orgID teamID invitedBy email role tokenHash "pending" expiresAt None now) d.

Definition DeleteExpiredInvites (now : Z) (d : DB) : result DBError (unit * DB) :=
  update_exec invites set_invites [] (fun i => invite_with "expired" (iv_AcceptedAt i) i)
    (fun i => bool_decide (iv_Status i = "pending") && (iv_ExpiresAt i <? now)) d.

Definition GetInviteByID (id : uuid) (_ : Z) (d : DB) : result DBError Invite := get_row (invites d) id.

Definition GetInviteByTokenHash (tokenHash : string) (now : Z) (d : DB) : result DBError Invite :=
  get_where (fun i => bool_decide (iv_TokenHash i = tokenHash) && bool_decide (iv_Status i = "pending")
                        && (now <? iv_ExpiresAt i)) (invites d).

Definition ListOrgInvites (orgID : uuid) (_ : Z) (d : DB) : result DBError (list Invite) :=
  Ok (order_desc iv_CreatedAt (select (fun i => bool_decide (iv_OrgID i = orgID)) (invites d))).

Definition RevokeInvite (id orgID : uuid) (_ : Z) (d : DB) : result DBError (unit * DB) :=
  update_exec invites set_invites [] (fun i => invite_with "revoked" (iv_AcceptedAt i) i)
    (fun i => bool_decide (iv_ID i = id) && bool_decide (iv_OrgID i = orgID)
                && bool_decide (iv_Status i = "pending")) d.

(** ** [audit_logs.sql.go] *)

(** [GROUP BY day ORDER BY day DESC] on instants in descending order, with the
    days of UTC. *)
Definition day_of (t : Z) : Z := t / days 1.

Fixpoint group_days (ts : list Z) : list (Z * Z) :=
  match ts with
  | [] => []
  | t :: ts =>
      match group_days ts with
      | (d, n) :: l => if decide (d = day_of t) then (d, n + 1) :: l else (day_of t, 1) :: (d, n) :: l
      | [] => [(day_of t, 1)]
      end
  end.

Definition CountFailedLoginsByDay (from to : Z) (_ : Z) (d : DB) : result DBError (list (Z * Z)) :=
  Ok (group_days (fl_CreatedAt <$> order_desc fl_CreatedAt
        (select (fun f => (from <=? fl_CreatedAt f) && (fl_CreatedAt f <=? to)) (failed_login_attempts d)))).

Definition CountLoginsByDay (orgID : uuid) (from to : Z) (_ : Z) (d : DB) : result DBError (list (Z * Z)) :=
  Ok (group_days (al_CreatedAt <$> order_desc al_CreatedAt
        (select (fun a => bool_decide (al_OrgID a = Some orgID) && bool_decide (al_Action a = "user.login")
                            && (from <=? al_CreatedAt a) && (al_CreatedAt a <=? to)) (audit_logs d)))).

Record CreateAuditLogParams := mkCreateAuditLogParams {
  ca_OrgID : option uuid;
  ca_ActorID : option uuid;
  ca_Action : string;
  ca_TargetType : option string;
  ca_TargetID : option uuid;
  ca_IpAddress : option string;
  ca_UserAgent : option string;
  ca_Metadata : string
}.

Definition CreateAuditLog (a : CreateAuditLogParams) (now : Z) (id : uuid) (d : DB) : result DBError (unit * DB) :=
  match insert_row audit_logs set_audit_logs
    [(negb (fk_ok (organizations d) (ca_OrgID a)), ErrForeignKeyViolation);
     (negb (fk_ok (users d) (ca_ActorID a)), ErrForeignKeyViolation)] id
    (mkAuditLog id (ca_OrgID a) (ca_ActorID a) (ca_Action a) (ca_TargetType a) (ca_TargetID a)
       (ca_IpAddress a) (ca_UserAgent a) (ca_Metadata a) now) d with
  | Ok (_, d) => Ok (tt, d)
  | Err e => Err e
  end.

Definition ListAuditLogs (orgID : uuid) (before limit : Z) (_ : Z) (d : DB) : result DBError (list AuditLog) :=
  limit_offset limit 0 (order_desc al_CreatedAt
    (select (fun a => bool_decide (al_OrgID a = Some orgID) && (al_CreatedAt a <? before)) (audit_logs d))).

Definition ListAuditLogsByAction (orgID : uuid) (action : string) (before limit : Z) (_ : Z) (d : DB) :
    result DBError (list AuditLog) :=
  limit_offset limit 0 (order_desc al_CreatedAt
    (select (fun a => bool_decide (al_OrgID a = Some orgID) && bool_decide (al_Action a = action)
                        && (al_CreatedAt a <? before)) (audit_logs d))).

Definition ListAuditLogsByDateRange (orgID : uuid) (from to limit : Z) (_ : Z) (d : DB) :
    result DBError (list AuditLog) :=
  limit_offset limit 0 (order_desc al_CreatedAt
    (select (fun a => bool_decide (al_OrgID a = Some orgID) && (from <=? al_CreatedAt a)
                        && (al_CreatedAt a <=? to)) (audit_logs d))).

(** ** [webhooks.sql.go] *)
Definition CreateWebhookDelivery (subscriptionID : uuid) (event payload : string) (attempts : Z)
    (nextRetryAt : option Z) (now : Z) (id : uuid) (d : DB) : result DBError (WebhookDelivery * DB) :=
  insert_row webhook_deliveries set_webhook_deliveries
    [(missing (webhook_subscriptions d) subscriptionID, ErrForeignKeyViolation)] id
    (mkWebhookDelivery id subscriptionID event payload None None None attempts nextRetryAt now) d.

Definition CreateWebhookSubscription (orgID : uuid) (url secret : string) (events : list string)
    (now : Z) (id : uuid) (d : DB) : result DBError (WebhookSubscription * DB) :=
  insert_row webhook_subscriptions set_webhook_subscriptions
    [(missing (organizations d) orgID, ErrForeignKeyViolation)] id
    (mkWebhookSubscription id orgID url secret events true now now) d.

Definition DeleteWebhookSubscription (id : uuid) (_ : Z) (d : DB) : result DBError (unit * DB) :=
  Ok (tt, delete_subscriptions (fun s => bool_decide (ws_ID s = id)) d).

Definition GetWebhookSubscription (id : uuid) (_ : Z) (d : DB) : result DBError WebhookSubscription :=
  get_row (webhook_subscriptions d) id.

(** [$2 = ANY(events)] compares with one text, but the generated parameter is a
    list of strings: [encode] is the driver's encoding of that parameter as a
    text, [None] when it refuses. *)
Definition ListActiveWebhooksByEvent (encode : list string -> option string) (orgID : uuid) (events : list string)
    (_ : Z) (d : DB) : result DBError (list WebhookSubscription) :=
  match encode events with
  | None => Err ErrConn
  | Some e =>
      Ok (select (fun s => bool_decide (ws_OrgID s = orgID) && ws_Active s && bool_decide (e ∈ ws_Events s))
            (webhook_subscriptions d))
  end.

Definition pending (now : Z) (x : WebhookDelivery) : bool :=
  bool_decide (wd_DeliveredAt x = None) &&
  match wd_NextRetryAt x with None => true | Some t => t <=? now end.

Definition ListPendingDeliveries (limit : Z) (now : Z) (d : DB) : result DBError (list WebhookDelivery) :=
  limit_offset limit 0 (order_asc wd_CreatedAt (select (pending now) (webhook_deliveries d))).

Definition ListWebhookDeliveries (subscriptionID : uuid) (limit : Z) (_ : Z) (d : DB) :
    result DBError (list WebhookDelivery) :=
  limit_offset limit 0 (order_desc wd_CreatedAt
    (select (fun x => bool_decide (wd_SubscriptionID x = subscriptionID)) (webhook_deliveries d))).

Definition ListWebhookSubscriptions (orgID : uuid) (_ : Z) (d : DB) : result DBError (list WebhookSubscription) :=
  Ok (order_desc ws_CreatedAt (select (fun s => bool_decide (ws_OrgID s = orgID)) (webhook_subscriptions d))).

Record UpdateWebhookDeliveryResultParams := mkUpdateWebhookDeliveryResultParams {
  ud_ID : uuid;
  ud_ResponseStatus : option Z;
  ud_ResponseBody : option string;
  ud_DeliveredAt : option Z;
  ud_Attempts : Z;
  ud_NextRetryAt : option Z
}.

Definition UpdateWebhookDeliveryResult (a : UpdateWebhookDeliveryResultParams) (_ : Z) (d : DB) :
    result DBError (unit * DB) :=
  update_exec webhook_deliveries set_webhook_deliveries []
    (fun x => mkWebhookDelivery (wd_ID x) (wd_SubscriptionID x) (wd_Event x) (wd_Payload x) (ud_ResponseStatus a)
       (ud_ResponseBody a) (ud_DeliveredAt a) (ud_Attempts a) (ud_NextRetryAt a) (wd_CreatedAt x))
    (fun x => bool_decide (wd_ID x = ud_ID a)) d.

Definition UpdateWebhookSubscription (id : uuid) (url : string) (events : list string) (active : bool)
    (now : Z) (d : DB) : result DBError (WebhookSubscription * DB) :=
  update_one webhook_subscriptions set_webhook_subscriptions (fun _ => [])
    (fun s => mkWebhookSubscription (ws_ID s) (ws_OrgID s) url (ws_Secret s) events active (ws_CreatedAt s) now)
    id d.

End AuthOrgStore.
