(* ===== verification/AuthService.v ===== *)
(** The services below the auth handlers: JWT and refresh tokens
    ([services/auth/internal/service/token]), the JWT middleware
    ([middleware/auth/auth.go]), sessions and devices ([service/session]), audit
    events ([service/audit]), brute-force detection ([service/security]), TOTP
    and backup codes ([service/mfa]), roles ([role/role.go]), request validation
    ([validate/validate.go]) and the helpers all handlers share
    ([handler/helpers.go], [handler/errors.go], [handler/response.go]).

    The JWT, bcrypt and TOTP libraries are classes with the laws their
    documentation states. *)

From S2P Require Import Prelude GoStr Sha256 GoCodec HttpUtil Scope Services AuthModels AuthStore AuthOrgStore.

(** * Definitions *)

(** ** A request, as the handlers read it *)
Record Request := mkRequest {
  FromContext : option Claims;            (* authclaims.FromContext(r.Context()) *)
  Header_Get : string -> string;          (* r.Header.Get *)
  Cookie : string -> option string;       (* r.Cookie, by name *)
  URLParam : string -> string;            (* chi.URLParam *)
  URLQuery : string -> string;            (* r.URL.Query().Get *)
  RemoteAddr : string;
  TLS : bool                              (* r.TLS != nil *)
}.

Definition UserAgent (r : Request) : string := Header_Get r "User-Agent".

(** [extractIP], the same function in [session.go], [audit.go] and
    [bruteforce.go]. *)
Definition extractIP (r : Request) : string :=
  let xff := Header_Get r "X-Forwarded-For" in
  if decide (xff <> "") then TrimSpace (split_head "," xff)
  else match SplitHostPort (RemoteAddr r) with Some ip => ip | None => RemoteAddr r end.

Definition text_opt (s : string) : option string := if decide (s = "") then None else Some s.

(** ** [service/token] *)
Module Token.

(** The JSON claims of a token: the registered ones and those of
    [authclaims.Claims], which are zero when the token has none. *)
Record JwtClaims := mkJwtClaims {
  jc_Issuer : string;
  jc_Subject : string;
  jc_Audience : list string;
  jc_ExpiresAt : option Z;   (* seconds *)
  jc_IssuedAt : option Z;
  jc_ID : string;
  jc_Email : string;
  jc_Name : string;
  jc_Org : OrgClaim;
  jc_Teams : list string;
  jc_MFA : bool
}.

(** What [jwt.ParseEdPrivateKeyFromPEM] and its public sibling return. *)
Inductive ParsedKey : Set :=
| Ed25519Key (k : string)
| OtherKey.

(** [github.com/golang-jwt/jwt/v5]: signing with EdDSA, and parsing with the
    Ed25519 method required and the issuer checked.  A token signed with the
    private key of a pair parses under the public key exactly when its issuer
    is the expected one and it has not expired; the compact serialization of a
    token is never empty. *)
Class Jwt := {
  ParsePrivatePEM : string -> option ParsedKey;
  ParsePublicPEM : string -> option ParsedKey;
  SignedString : string -> JwtClaims -> option string;
  ParseWithClaims : string -> string -> Z -> string -> option JwtClaims;
  key_pair : string -> string -> Prop;
  Parse_Signed : forall priv pub c t issuer now,
    key_pair priv pub -> SignedString priv c = Some t -> issuer <> "" ->
    ParseWithClaims pub issuer now t =
      if bool_decide (issuer = jc_Issuer c) &&
         match jc_ExpiresAt c with Some e => now <? 1000000 * e | None => true end
      then Some c else None;
  SignedString_nonempty : forall priv c t, SignedString priv c = Some t -> t <> ""
}.

(** The claims as the middleware decodes them. *)
Definition claims_of (c : JwtClaims) : Claims :=
  mkClaims (jc_Subject c) (jc_Email c) (jc_Name c) (jc_Org c) (jc_Teams c) (jc_MFA c).

(** [jwt.NewNumericDate]: whole seconds. *)
Definition NewNumericDate (t : Z) : Z := t / 1000000.

(** ** [helpers.go] *)
Definition HashToken (token : string) : string := Sha256.hex (Sha256.sum256 token).

(** ** [token.go] *)
Record Service := mkService {
  privateKey : string;
  publicKey : string;
  issuer : string;
  accessTTL : Z;
  refreshTTL : Z
}.

Inductive TokenError : Set :=
| errDecodePrivateKey
| errParsePrivateKey
| errDecodePublicKey
| errParsePublicKey
| errPrivateKeyNotEd25519
| errPublicKeyNotEd25519.

Section Token.
Context `{Jwt} `{UUIDCodec}.

Definition New (privKeyB64 pubKeyB64 issuer : string) (accessTTL refreshTTL : Z) : result TokenError Service :=
  match Base64.Std_DecodeString privKeyB64 with
  | None => Err errDecodePrivateKey
  | Some privPEM =>
      match ParsePrivatePEM privPEM with
      | None => Err errParsePrivateKey
      | Some privKey =>
          match Base64.Std_DecodeString pubKeyB64 with
          | None => Err errDecodePublicKey
          | Some pubPEM =>
              match ParsePublicPEM pubPEM with
              | None => Err errParsePublicKey
              | Some pubKey =>
                  match privKey, pubKey with
                  | OtherKey, _ => Err errPrivateKeyNotEd25519
                  | _, OtherKey => Err errPublicKeyNotEd25519
                  | Ed25519Key edPriv, Ed25519Key edPub =>
                      Ok (mkService edPriv edPub issuer accessTTL refreshTTL)
                  end
              end
          end
      end
  end.

(** ** [access.go] *)
Record AccessTokenParams := mkAccessTokenParams {
  at_UserID : string;
  at_Email : string;
  at_Name : string;
  at_Org : OrgClaim;
  at_Teams : list string;
  at_MFA : bool
}.

Definition access_claims (s : Service) (p : AccessTokenParams) (now : Z) (id : uuid) : JwtClaims :=
  mkJwtClaims (issuer s) (at_UserID p) [] (Some (NewNumericDate (now + accessTTL s))) (Some (NewNumericDate now))
    (uuid_text id) (at_Email p) (at_Name p) (at_Org p) (at_Teams p) (at_MFA p).

Definition IssueAccessToken (s : Service) (p : AccessTokenParams) : M World (option string) :=
  now <- time_now ;;
  id <- new_uuid ;;
  ret (SignedString (privateKey s) (access_claims s p now id)).

(** ** [mfa.go] *)
Definition AudienceMFAChallenge : string := "mfa_challenge".
Definition mfaChallengeTTL : Z := minutes 5.

Definition challenge_claims (s : Service) (userID : string) (now : Z) (id : uuid) : JwtClaims :=
  mkJwtClaims (issuer s) userID [AudienceMFAChallenge] (Some (NewNumericDate (now + mfaChallengeTTL)))
    (Some (NewNumericDate now)) (uuid_text id) "" "" (mkOrgClaim "" "" "") [] false.

Definition IssueMFAChallengeToken (s : Service) (userID : string) : M World (option string) :=
  now <- time_now ;;
  id <- new_uuid ;;
  ret (SignedString (privateKey s) (challenge_claims s userID now id)).

Inductive MFATokenError : Set := errInvalidMFAToken | errNotMFAToken.

Definition ValidateMFAChallengeToken (s : Service) (tokenStr : string) (now : Z) : result MFATokenError string :=
  match ParseWithClaims (publicKey s) (issuer s) now tokenStr with
  | None => Err errInvalidMFAToken
  | Some claims =>
      if decide (AudienceMFAChallenge ∉ jc_Audience claims) then Err errNotMFAToken
      else Ok (jc_Subject claims)
  end.

End Token.

(** ** [refresh.go] *)
Record RefreshPair := mkRefreshPair {
  Raw : string;
  Hash : string
}.

Definition GenerateRefreshToken : M World (option RefreshPair) :=
  b <- rand_read 32 ;;
  match b with
  | None => ret None
  | Some b =>
      let raw := Base64.RawURL_EncodeToString b in
      ret (Some (mkRefreshPair raw (HashToken raw)))
  end.

End Token.

(** ** [middleware/auth/auth.go] *)
Module AuthMiddleware.
Import Token.

Definition ErrMissingToken : string := "missing authorization token".
Definition ErrInvalidToken : string := "invalid or expired token".

Definition extractToken (r : Request) : string :=
  match CutPrefix (Header_Get r "Authorization") "Bearer " with
  | Some token => token
  | None => match Cookie r "access_token" with Some c => c | None => "" end
  end.

(** [Auth]: the request with the claims in its context, or the response. *)
Definition Auth `{Jwt} (pubKey issuer : string) (now : Z) (r : Request) : result (Z * string) Request :=
  let tokenStr := extractToken r in
  if decide (tokenStr = "") then Err (StatusUnauthorized, ErrMissingToken)
  else match ParseWithClaims pubKey issuer now tokenStr with
       | None => Err (StatusUnauthorized, ErrInvalidToken)
       | Some c =>
           Ok (mkRequest (Some (claims_of c)) (Header_Get r) (Cookie r) (URLParam r) (URLQuery r)
                 (RemoteAddr r) (TLS r))
       end.

(** [UserIDFromContext] *)
Definition UserIDFromContext (r : Request) : option string := cl_Subject <$> FromContext r.

End AuthMiddleware.

(** ** [service/session] *)
Module SessionSvc.

(** [device.go] *)
Inductive Device : Set :=
| DeviceIPhone
| DeviceIPad
| DeviceAndroid
| DeviceMac
| DeviceWindows
| DeviceLinux
| DeviceUnknown.

#[export] Instance Device_eq_dec : EqDecision Device.
Proof. solve_decision. Defined.

Definition Device_String (d : Device) : string :=
  match d with
  | DeviceIPhone => "iPhone"
  | DeviceIPad => "iPad"
  | DeviceAndroid => "Android"
  | DeviceMac => "Mac"
  | DeviceWindows => "Windows"
  | DeviceLinux => "Linux"
  | DeviceUnknown => "Unknown"
  end.

Definition deviceRules : list (string * Device) :=
  [("iphone", DeviceIPhone); ("ipad", DeviceIPad); ("android", DeviceAndroid);
   ("macintosh", DeviceMac); ("windows", DeviceWindows); ("linux", DeviceLinux)].

Definition Parse (ua : string) : Device :=
  let lower := ToLower ua in
  match List.find (fun rule => Contains lower rule.1) deviceRules with
  | Some rule => rule.2
  | None => DeviceUnknown
  end.

(** [session.go]; [maxAge] is the service's configuration. *)
Definition Create `{NetAddr} (maxAge : Z) (userID : uuid) (r : Request) (deviceFingerprint : string) :
    M World (result DBError Session) :=
  let ipStr := extractIP r in
  let ipAddr := if decide (ipStr <> "") then ParseAddr ipStr else None in
  let ua := UserAgent r in
  let device := Parse ua in
  now <- time_now ;;
  insert_stmt (AuthStore.CreateSession
    (AuthStore.mkCreateSessionParams userID ipAddr (text_opt ua)
       (if decide (device <> DeviceUnknown) then Some (Device_String device) else None)
       (text_opt deviceFingerprint) None (now + maxAge))).

End SessionSvc.

(** ** [service/audit] *)
Module Audit.

(** [action.go] *)
Definition ActionUserLogin : string := "user.login".
Definition ActionUserLogoutAll : string := "user.logout_all".
Definition ActionMFAEnabled : string := "mfa.enabled".
Definition ActionMFADisabled : string := "mfa.disabled".
Definition ActionOrgCreated : string := "org.created".
Definition ActionOrgUpdated : string := "org.updated".
Definition ActionOrgDeleted : string := "org.deleted".
Definition ActionOrgMemberRemoved : string := "org.member.removed".
Definition ActionOrgMemberRoleChanged : string := "org.member.role_changed".
Definition ActionOrgOwnerTransferred : string := "org.owner.transferred".
Definition ActionTeamCreated : string := "team.created".
Definition ActionTeamUpdated : string := "team.updated".
Definition ActionTeamDeleted : string := "team.deleted".
Definition ActionTeamMemberAdded : string := "team.member.added".
Definition ActionTeamMemberRemoved : string := "team.member.removed".
Definition ActionInviteCreated : string := "invite.created".
Definition ActionInviteAccepted : string := "invite.accepted".
Definition ActionInviteRevoked : string := "invite.revoked".
Definition TargetTypeUser : string := "user".
Definition TargetTypeOrg : string := "org".
Definition TargetTypeTeam : string := "team".
Definition TargetTypeInvite : string := "invite".

(** [audit.go] *)
Record LogParams := mkLogParams {
  lp_OrgID : option uuid;
  lp_ActorID : option uuid;
  lp_Action : string;
  lp_TargetType : string;
  lp_TargetID : option uuid;
  lp_Request : option Request;
  lp_Metadata : option string
}.

Definition Log `{NetAddr} (p : LogParams) : M World unit :=
  let ipAddr := lp_Request p ≫= fun r => ParseAddr (extractIP r) in
  let ua := lp_Request p ≫= fun r => text_opt (UserAgent r) in
  let metadata := default "{}" (lp_Metadata p) in
  do insert_stmt (AuthOrgStore.CreateAuditLog
       (AuthOrgStore.mkCreateAuditLogParams (lp_OrgID p) (lp_ActorID p) (lp_Action p) (text_opt (lp_TargetType p))
          (lp_TargetID p) ipAddr ua metadata)) ;;
  ret tt.

End Audit.

(** ** [service/security/bruteforce.go] *)
Module BruteForce.
Import AuthStore.

Definition maxFailedAttempts : Z := 10.

(** [parseIP]: the zero address when the text is not one. *)
Definition parseIP `{NetAddr} (r : Request) : option string := ParseAddr (extractIP r).

Definition IsBlocked `{NetAddr} (identifier : string) (r : Request) : M World (result DBError bool) :=
  try count <- query (CountRecentFailedLogins identifier) catch e => ret (Err e) ;;
  if maxFailedAttempts <=? count then ret (Ok true)
  else
    let ip := parseIP r in
    try ipCount <- query (match ip with
                          | Some ip => CountRecentFailedLoginsByIP ip
                          | None => fun _ _ => Ok 0    (* ip_address = NULL holds for no row *)
                          end) catch e => ret (Err e) ;;
    ret (Ok (maxFailedAttempts * 3 <=? ipCount)).

Definition RecordFailure `{NetAddr} (identifier : string) (r : Request) : M World (result DBError unit) :=
  insert_stmt (RecordFailedLogin identifier (parseIP r) (Some (UserAgent r))).

End BruteForce.

(** ** [service/mfa] *)
Module MfaSvc.

(** bcrypt: a hash of a password (salted by [crypto/rand], here the salt read)
    is accepted with that password. *)
Class Bcrypt := {
  GenerateFromPassword : string -> string -> option string;
  CompareHashAndPassword : string -> string -> bool;
  Compare_Generate : forall salt p h, GenerateFromPassword salt p = Some h -> CompareHashAndPassword h p = true
}.

(** [github.com/pquerna/otp/totp] with the options of [totp.go]: [GenerateKey]
    makes a secret and its URI from the random bytes and the account,
    [ValidateCode] checks a code at an instant. *)
Class Totp := {
  GenerateKey : option string -> string -> option (string * string);
  ValidateCode : string -> string -> Z -> bool
}.

(** [backup.go] *)
Definition backupCodeCount : nat := 10.
Definition backupCodeBytes : nat := 4.

Record BackupCode := mkBackupCode {
  Plain : string;
  CodeHash : string
}.

Definition formatCode (s : string) : string :=
  if decide (String.length s <> 8%nat) then s
  else String.substring 0 4 s +:+ "-" +:+ String.substring 4 4 s.

Section Backup.
Context `{Bcrypt}.

(** One code of [GenerateBackupCodes]; bcrypt reads its 16-byte salt itself. *)
Definition generate_one : M World (option BackupCode) :=
  b <- rand_read backupCodeBytes ;;
  match b with
  | None => ret None
  | Some b =>
      let plain := formatCode (Sha256.hex b) in
      salt <- rand_read 16 ;;
      match salt with
      | None => ret None
      | Some salt =>
          match GenerateFromPassword salt plain with
          | None => ret None
          | Some hash => ret (Some (mkBackupCode plain hash))
          end
      end
  end.

Fixpoint generate_codes (n : nat) : M World (option (list BackupCode)) :=
  match n with
  | O => ret (Some [])
  | S n =>
      c <- generate_one ;;
      match c with
      | None => ret None
      | Some c =>
          cs <- generate_codes n ;;
          match cs with None => ret None | Some cs => ret (Some (c :: cs)) end
      end
  end.

Definition GenerateBackupCodes : M World (option (list BackupCode)) := generate_codes backupCodeCount.

Definition VerifyBackupCode (plain hash : string) : bool := CompareHashAndPassword hash plain.

End Backup.

(** [totp.go] *)
Section TotpCodes.
Context `{Totp}.

(** The key's secret is drawn by the library from [crypto/rand]. *)
Definition GenerateTOTPKey (email : string) : M World (option (string * string)) :=
  b <- rand_read 20 ;;
  ret (GenerateKey b email).

Definition ValidateTOTPCode (code secret : string) (now : Z) : bool := ValidateCode code secret now.

End TotpCodes.

End MfaSvc.

(** ** [service/encryption/encryption.go]

    The same code as the API's encryption service; the nonce is a read of
    [crypto/rand]. *)
Module AuthEncryption.
Import Encryption.

Definition Encrypt `{AEAD} (s : Encryption.Service) (plaintext : string) : M World (result EncError string) :=
  nonce <- rand_read NonceSize ;;
  ret (Encryption.Encrypt s nonce plaintext).

Definition Decrypt `{AEAD} (s : Encryption.Service) (data : option string) : result EncError string :=
  Encryption.Decrypt s (default "" data).

End AuthEncryption.

(** ** [role/role.go] *)
Module Role.
Definition OrgOwner : string := "owner".
Definition OrgAdmin : string := "admin".
Definition OrgMember : string := "member".
Definition OrgAdminOrAbove : list string := [OrgOwner; OrgAdmin].
Definition TeamLead : string := "lead".
Definition TeamMember : string := "member".
End Role.

(** ** [validate/validate.go] *)
Module AuthValidate.

Definition fieldError (fe : FieldError) : string :=
  let field := fe_Field fe in
  if decide (fe_Tag fe = "required") then field +:+ " is required"
  else if decide (fe_Tag fe = "uuid") then field +:+ " must be a valid UUID"
  else if decide (fe_Tag fe = "oneof") then field +:+ " must be one of: " +:+ fe_Param fe
  else if decide (fe_Tag fe = "max") then field +:+ " must be at most " +:+ fe_Param fe +:+ " characters"
  else if decide (fe_Tag fe = "min") then field +:+ " must be at least " +:+ fe_Param fe +:+ " characters"
  else field +:+ " failed on " +:+ fe_Tag fe +:+ " validation".

Definition formatErrors (ve : list FieldError) : string := join_msgs (fieldError <$> ve).

Definition Struct (ve : list FieldError) : result string unit :=
  match ve with
  | [] => Ok tt
  | _ => Err (formatErrors ve)
  end.

End AuthValidate.

(** ** [handler/helpers.go], [handler/errors.go] *)
Module Helpers.

Definition ErrInternal : string := "internal error".
Definition ErrForbidden : string := "forbidden".
Definition ErrInvalidUserID : string := "invalid user id".
Definition ErrInvalidOrgID : string := "invalid org id".
Definition ErrUnauthorized : string := "unauthorized".
Definition ErrClaimsNotFound : string := "auth claims not found in context".

Section Helpers.
Context `{UUIDCodec}.

Definition UserIDFromContext (r : Request) : option uuid := FromContext r ≫= SubjectUUID.
Definition ParseUUIDParam (r : Request) (param : string) : option uuid := uuid_scan (URLParam r param).
Definition ParseOrgID (r : Request) : option uuid := ParseUUIDParam r "orgID".

End Helpers.

Definition RequireOrgAdminOrOwner (orgID userID : uuid) : M World (result string unit) :=
  m <- query (AuthOrgStore.GetOrgMembership orgID userID) ;;
  match m with
  | Err _ => ret (Err ErrForbidden)
  | Ok membership =>
      if decide (om_Role membership ∉ Role.OrgAdminOrAbove) then ret (Err ErrForbidden) else ret (Ok tt)
  end.

(** ** The opening of a handler

    Each guard answers the request itself or continues with what it found. *)
Section Guards.
Context `{UUIDCodec} {A : Type}.

(** [userID, err := handler.UserIDFromContext(r)] *)
Definition with_user (r : Request) (k : uuid -> M World (Resp A)) : M World (Resp A) :=
  match UserIDFromContext r with
  | None => ret (Fail StatusUnauthorized ErrInvalidUserID)
  | Some id => k id
  end.

(** [id, err := handler.ParseUUIDParam(r, param)] *)
Definition with_param (r : Request) (param msg : string) (k : uuid -> M World (Resp A)) : M World (Resp A) :=
  match ParseUUIDParam r param with
  | None => ret (Fail StatusBadRequest msg)
  | Some id => k id
  end.

Definition with_org (r : Request) (k : uuid -> M World (Resp A)) : M World (Resp A) :=
  with_param r "orgID" ErrInvalidOrgID k.

(** [handler.RequireOrgAdminOrOwner(r, h.db, orgID, actorID)] *)
Definition with_admin (orgID actorID : uuid) (k : M World (Resp A)) : M World (Resp A) :=
  g <- RequireOrgAdminOrOwner orgID actorID ;;
  match g with
  | Err e => ret (Fail StatusForbidden e)
  | Ok _ => k
  end.

(** [httputil.DecodeJSON] and [validate.Struct] *)
Definition with_body {B} (body : result string B) (tags : B -> list FieldError) (k : B -> M World (Resp A)) :
    M World (Resp A) :=
  match body with
  | Err e => ret (Fail StatusBadRequest e)
  | Ok b =>
      match AuthValidate.Struct (tags b) with
      | Err e => ret (Fail StatusBadRequest e)
      | Ok _ => k b
      end
  end.

(** A statement whose failure is an internal error. *)
Definition or_internal {B} (c : M World (result DBError B)) (k : B -> M World (Resp A)) : M World (Resp A) :=
  try b <- c catch e => ret (Fail StatusInternalServerError ErrInternal) ;; k b.

End Guards.

End Helpers.

(** * Lemmas *)

Section GuardLemmas.
Context (R : DB -> DB -> Prop) `{!PreOrder R} `{UUIDCodec} {A : Type}.
Import Helpers.

Lemma keeps_with_user r (k : uuid -> M World (Resp A)) :
  (forall id, keeps R (k id)) -> keeps R (with_user r k).
Proof. intros Hk. unfold with_user. keeps_step; [apply Hk|keeps_step]. Qed.

Lemma keeps_with_param r p m (k : uuid -> M World (Resp A)) :
  (forall id, keeps R (k id)) -> keeps R (with_param r p m k).
Proof. intros Hk. unfold with_param. keeps_step; [apply Hk|keeps_step]. Qed.

Lemma keeps_with_admin o u (k : M World (Resp A)) : keeps R k -> keeps R (with_admin o u k).
Proof.
  intros Hk. unfold with_admin, RequireOrgAdminOrOwner. apply keeps_bind; [apply _| |].
  - keeps_tac.
  - intros a. destruct a; [exact Hk|keeps_tac].
Qed.

Lemma keeps_with_body {B} (b : result string B) tags (k : B -> M World (Resp A)) :
  (forall b, keeps R (k b)) -> keeps R (with_body b tags k).
Proof.
  intros Hk. unfold with_body. destruct b; [|keeps_tac].
  destruct (AuthValidate.Struct _); [apply Hk|keeps_tac].
Qed.

Lemma keeps_or_internal {B} (c : M World (result DBError B)) (k : B -> M World (Resp A)) :
  keeps R c -> (forall b, keeps R (k b)) -> keeps R (or_internal c k).
Proof.
  intros Hc Hk. unfold or_internal. apply keeps_bind; [apply _|done|]. intros r.
  destruct r; [apply Hk|keeps_tac].
Qed.

End GuardLemmas.
