(* ===== verification/AuthSession.v ===== *)
(** The session endpoints of the auth service:
    [services/auth/internal/handler/session] ([refresh.go], [logout.go],
    [sessions.go], [helpers.go], [response.go]). *)

From S2P Require Import Prelude GoStr Sha256 GoCodec HttpUtil Scope AuthModels AuthStore AuthOrgStore AuthService.

(** * Definitions *)

(** A cookie of the response; every one is HttpOnly and SameSite=Lax. *)
Record SetCookie := mkSetCookie {
  ck_Name : string;
  ck_Value : string;
  ck_Path : string;
  ck_Secure : bool;
  ck_MaxAge : Z
}.

(** A response body with the cookies set before it. *)
Record WithCookies (A : Type) := mkWithCookies {
  cookies : list SetCookie;
  body : A
}.
Arguments mkWithCookies {A} cookies body.
Arguments cookies {A} w.
Arguments body {A} w.

(** [int(ttl.Seconds())] *)
Definition seconds (ttl : Z) : Z := Z.quot ttl 1000000.

Module AuthSession.
Import AuthStore AuthOrgStore Token Helpers.

Definition errMissingRefreshToken : string := "missing refresh token".
Definition errInvalidRefreshToken : string := "invalid refresh token".
Definition errRefreshTokenExpired : string := "refresh token expired or revoked".
Definition errSessionExpired : string := "session expired or revoked".
Definition errInvalidSessionID : string := "invalid session id".
Definition errSessionNotFound : string := "session not found".

(** ** [response.go] *)
Record tokenResponse := mkTokenResponse {
  AccessToken : string;
  RefreshToken_ : string;
  ExpiresIn : Z
}.

Record sessionResponse := mkSessionResponse {
  sr_ID : string;
  sr_IPAddress : string;
  sr_DeviceName : string;
  sr_Country : string;
  sr_LastActive : string;
  sr_CreatedAt : string
}.

(** ** [helpers.go] *)

(** [extractRefreshToken]; [body] is the decoded JSON body. *)
Definition extractRefreshToken (r : Request) (body : option string) : string :=
  match Cookie r "refresh_token" with
  | Some c => if decide (c <> "") then c else default "" body
  | None => default "" body
  end.

Section Helpers.
Context `{UUIDCodec}.

Definition no_org : OrgClaim := mkOrgClaim "" "" "".

Definition resolveOrgClaim (r : Request) (userID : uuid) : M World OrgClaim :=
  let orgSlug := Header_Get r "X-Org-Slug" in
  if decide (orgSlug = "") then ret no_org
  else
    try org <- query (GetOrganizationBySlug orgSlug) catch e => ret no_org ;;
    try membership <- query (GetOrgMembership (o_ID org) userID) catch e => ret no_org ;;
    ret (mkOrgClaim (uuid_text (o_ID org)) (o_Slug org) (om_Role membership)).

End Helpers.

Definition buildFullName (user : User) : string :=
  let name := default "" (u_FirstName user) in
  let name := match u_LastName user with Some l => name +:+ " " +:+ l | None => name end in
  TrimSpace name.

Definition isSecure (r : Request) : bool :=
  TLS r || bool_decide (Header_Get r "X-Forwarded-Proto" = "https").

Definition setRefreshCookie (r : Request) (value : string) (ttl : Z) : SetCookie :=
  mkSetCookie "refresh_token" value "/" (isSecure r) (seconds ttl).
Definition setAccessCookie (r : Request) (value : string) (ttl : Z) : SetCookie :=
  mkSetCookie "access_token" value "/" (isSecure r) (seconds ttl).
Definition clearRefreshCookie : SetCookie := mkSetCookie "refresh_token" "" "/" true (-1).
Definition clearAccessCookie : SetCookie := mkSetCookie "access_token" "" "/" true (-1).

Section Handlers.
Context `{UUIDCodec} `{Jwt} `{NetAddr} `{Validator}.

(** ** [refresh.go] *)

(** [x.ExpiresAt.Time.Before(time.Now())] *)
Definition expired (expiresAt now : Z) : bool := expiresAt <? now.

Definition Refresh (svc : Service) (r : Request) (reqBody : option string) :
    M World (Resp (WithCookies tokenResponse)) :=
  let rawToken := extractRefreshToken r reqBody in
  if decide (rawToken = "") then ret (Fail StatusBadRequest errMissingRefreshToken)
  else match AuthValidate.Struct (check_field "RefreshToken" [("required", "", tag_required rawToken)]) with
  | Err e => ret (Fail StatusBadRequest e)
  | Ok _ =>
      let tokenHash := HashToken rawToken in
      q <- query (GetRefreshTokenByHash tokenHash) ;;
      match q with
      | Err ErrNoRows => ret (Fail StatusUnauthorized errInvalidRefreshToken)
      | Err _ => ret (Fail StatusInternalServerError ErrInternal)
      | Ok rt =>
          now <- time_now ;;
          if bool_decide (is_Some (rt_RevokedAt rt)) || expired (rt_ExpiresAt rt) now
          then ret (Fail StatusUnauthorized errRefreshTokenExpired)
          else
            try sess <- query (GetSessionByID (rt_SessionID rt))
              catch e => ret (Fail StatusUnauthorized errSessionExpired) ;;
            if bool_decide (is_Some (se_RevokedAt sess)) || expired (se_ExpiresAt sess) now
            then ret (Fail StatusUnauthorized errSessionExpired)
            else
              (* Rotate: revoke old, issue new. *)
              do exec (RevokeRefreshToken (rt_ID rt)) ;;
              g <- GenerateRefreshToken ;;
              match g with
              | None => ret (Fail StatusInternalServerError ErrInternal)
              | Some refreshTok =>
                  try _ <- insert_stmt (CreateRefreshToken (rt_UserID rt) (rt_SessionID rt) (Hash refreshTok)
                                          (now + refreshTTL svc))
                    catch e => ret (Fail StatusInternalServerError ErrInternal) ;;
                  do exec (UpdateSessionLastActive (rt_SessionID rt)) ;;
                  try user <- query (GetUserByID (rt_UserID rt))
                    catch e => ret (Fail StatusInternalServerError ErrInternal) ;;
                  orgClaim <- resolveOrgClaim r (u_ID user) ;;
                  let name := buildFullName user in
                  mfa <- query (GetMFASettings (u_ID user)) ;;
                  let mfaEnabled := match mfa with Ok m => ms_TotpEnabled m | Err _ => false end in
                  t <- IssueAccessToken svc (mkAccessTokenParams (uuid_text (u_ID user)) (u_Email user) name orgClaim []
                                               mfaEnabled) ;;
                  match t with
                  | None => ret (Fail StatusInternalServerError ErrInternal)
                  | Some accessJWT =>
                      ret (Reply StatusOK (mkWithCookies
                        [setRefreshCookie r (Raw refreshTok) (refreshTTL svc); setAccessCookie r accessJWT (accessTTL svc)]
                        (mkTokenResponse accessJWT "" (seconds (accessTTL svc)))))
                  end
              end
      end
  end.

(** ** [logout.go] *)
Definition Logout (r : Request) : M World (Resp (WithCookies string)) :=
  do (match Cookie r "refresh_token" with
      | None => ret tt
      | Some value =>
          q <- query (GetRefreshTokenByHash (HashToken value)) ;;
          match q with
          | Err _ => ret tt
          | Ok rt =>
              do exec (RevokeRefreshToken (rt_ID rt)) ;;
              do exec (RevokeSession (rt_SessionID rt)) ;;
              ret tt
          end
      end) ;;
  ret (Reply StatusOK (mkWithCookies [clearRefreshCookie; clearAccessCookie] "logged_out")).

Definition LogoutAll (r : Request) : M World (Resp (WithCookies string)) :=
  match FromContext r with
  | None => ret (Fail StatusUnauthorized ErrClaimsNotFound)
  | Some claims =>
      match SubjectUUID claims with
      | None => ret (Fail StatusBadRequest ErrInvalidUserID)
      | Some userID =>
          do exec (RevokeAllUserSessions userID) ;;
          do exec (RevokeAllUserRefreshTokens userID) ;;
          do Audit.Log (Audit.mkLogParams None (Some userID) Audit.ActionUserLogoutAll "" None (Some r) None) ;;
          ret (Reply StatusOK (mkWithCookies [clearRefreshCookie; clearAccessCookie] "all_sessions_revoked"))
      end
  end.

(** ** [sessions.go]; [Format] is [time.Format] with the RFC 3339 layout *)
Definition session_response (Format : Z -> string) (s : Session) : sessionResponse :=
  mkSessionResponse (uuid_text (se_ID s)) (default "" (se_IpAddress s)) (default "" (se_DeviceName s))
    (default "" (se_Country s)) (Format (se_LastActiveAt s)) (Format (se_CreatedAt s)).

Definition ListSessions (Format : Z -> string) (r : Request) : M World (Resp (list sessionResponse)) :=
  match FromContext r with
  | None => ret (Fail StatusUnauthorized ErrClaimsNotFound)
  | Some claims =>
      match SubjectUUID claims with
      | None => ret (Fail StatusBadRequest ErrInvalidUserID)
      | Some userID =>
          try ss <- query (ListActiveSessions userID)
            catch e => ret (Fail StatusInternalServerError ErrInternal) ;;
          ret (Reply StatusOK (session_response Format <$> ss))
      end
  end.

Definition RevokeSession_ (r : Request) : M World (Resp string) :=
  match FromContext r with
  | None => ret (Fail StatusUnauthorized ErrClaimsNotFound)
  | Some claims =>
      match uuid_scan (URLParam r "sessionID") with
      | None => ret (Fail StatusBadRequest errInvalidSessionID)
      | Some sessionID =>
          try sess <- query (GetSessionByID sessionID)
            catch e => ret (Fail StatusNotFound errSessionNotFound) ;;
          let userID := SubjectUUID claims in
          if decide (Some (se_UserID sess) <> userID) then ret (Fail StatusForbidden ErrForbidden)
          else
            do exec (RevokeSession sessionID) ;;
            do exec (RevokeRefreshTokensBySession sessionID) ;;
            ret (Reply StatusOK "revoked")
      end
  end.

End Handlers.
End AuthSession.
