(* ===== verification/AuthMfa.v ===== *)
(** Multi-factor login: [services/auth/internal/handler/mfa] ([setup.go],
    [challenge.go], [backup.go]). *)

From S2P Require Import Prelude GoStr Sha256 GoCodec HttpUtil Scope Services AuthModels AuthStore.
From S2P Require Import AuthOrgStore AuthService AuthSession.

(** * Definitions *)

Module AuthMfa.
Import AuthStore Token MfaSvc Helpers.

Definition errInvalidCode : string := "invalid TOTP code".
Definition errInvalidBackup : string := "invalid backup code".
Definition errMFANotEnabled : string := "MFA is not enabled".
Definition errMFAAlreadyActive : string := "MFA is already enabled".
Definition errMFANotSetup : string := "MFA not set up, call setup first".
Definition errInvalidToken : string := "invalid or expired MFA challenge token".

(** ** [response.go] *)
Record setupResponse := mkSetupResponse {
  Secret : string;
  URI : string
}.

Record challengeRequest := mkChallengeRequest {
  MFAToken : string;
  Code : string
}.

Record challengeResponse := mkChallengeResponse {
  cr_AccessToken : string;
  cr_ExpiresIn : Z
}.

(** What every handler of this package is built with. *)
Record Handler := mkHandler {
  tokenSvc : Token.Service;
  sessionMaxAge : Z;
  encSvc : Encryption.Service
}.

Section Handlers.
Context `{UUIDCodec} `{Jwt} `{NetAddr} `{Validator} `{Encryption.AEAD} `{Bcrypt} `{Totp}.

(** The text of the driver's error for a subject that is no UUID is abridged. *)
Definition userFromContext (r : Request) : result string (uuid * string) :=
  match FromContext r with
  | None => Err ErrClaimsNotFound
  | Some claims =>
      match SubjectUUID claims with
      | None => Err "cannot parse UUID"
      | Some id => Ok (id, cl_Email claims)
      end
  end.

(** ** [setup.go] *)
Definition Setup (h : Handler) (r : Request) : M World (Resp setupResponse) :=
  match userFromContext r with
  | Err e => ret (Fail StatusUnauthorized e)
  | Ok (userID, email) =>
      existing <- query (GetMFASettings userID) ;;
      if match existing with Ok m => ms_TotpEnabled m | Err _ => false end
      then ret (Fail StatusConflict errMFAAlreadyActive)
      else
        key <- GenerateTOTPKey email ;;
        match key with
        | None => ret (Fail StatusInternalServerError ErrInternal)
        | Some (secret, uri) =>
            try encSecret <- AuthEncryption.Encrypt (encSvc h) secret
              catch e => ret (Fail StatusInternalServerError ErrInternal) ;;
            try _ <- insert_stmt (UpsertMFASettings userID (Some encSecret) false)
              catch e => ret (Fail StatusInternalServerError ErrInternal) ;;
            ret (Reply StatusOK (mkSetupResponse secret uri))
        end
  end.

(** [generateAndStoreBackupCodes] of [backup.go] *)
Definition generateAndStoreBackupCodes (userID : uuid) : M World (option (list string)) :=
  do exec (DeleteBackupCodes userID) ;;
  codes <- GenerateBackupCodes ;;
  match codes with
  | None => ret None
  | Some codes =>
      let params := (fun c => mkCreateBackupCodesParams userID (CodeHash c)) <$> codes in
      try _ <- CreateBackupCodes params catch e => ret None ;;
      ret (Some (Plain <$> codes))
  end.

Definition validate_code (code : string) : list FieldError :=
  check_field "Code" [("required", "", tag_required code); ("len", "6", tag_len 6 code)].

Definition Verify (h : Handler) (r : Request) (body : result string string) : M World (Resp (list string)) :=
  match userFromContext r with
  | Err e => ret (Fail StatusUnauthorized e)
  | Ok (userID, _) =>
      match body with
      | Err e => ret (Fail StatusBadRequest e)
      | Ok code =>
          match AuthValidate.Struct (validate_code code) with
          | Err e => ret (Fail StatusBadRequest e)
          | Ok _ =>
              q <- query (GetMFASettings userID) ;;
              match q with
              | Err ErrNoRows => ret (Fail StatusBadRequest errMFANotSetup)
              | Err _ => ret (Fail StatusInternalServerError ErrInternal)
              | Ok settings =>
                  if ms_TotpEnabled settings then ret (Fail StatusConflict errMFAAlreadyActive)
                  else match AuthEncryption.Decrypt (encSvc h) (ms_TotpSecret settings) with
                  | Err _ => ret (Fail StatusInternalServerError ErrInternal)
                  | Ok secret =>
                      now <- time_now ;;
                      if negb (ValidateTOTPCode code secret now)
                      then ret (Fail StatusUnauthorized errInvalidCode)
                      else
                        try _ <- exec (EnableTOTP userID)
                          catch e => ret (Fail StatusInternalServerError ErrInternal) ;;
                        codes <- generateAndStoreBackupCodes userID ;;
                        match codes with
                        | None => ret (Fail StatusInternalServerError ErrInternal)
                        | Some codes =>
                            do Audit.Log (Audit.mkLogParams None (Some userID) Audit.ActionMFAEnabled "" None (Some r) None) ;;
                            ret (Reply StatusOK codes)
                        end
                  end
              end
          end
      end
  end.

Definition Disable (r : Request) : M World (Resp string) :=
  match userFromContext r with
  | Err e => ret (Fail StatusUnauthorized e)
  | Ok (userID, _) =>
      settings <- query (GetMFASettings userID) ;;
      if negb (match settings with Ok m => ms_TotpEnabled m | Err _ => false end)
      then ret (Fail StatusBadRequest errMFANotEnabled)
      else
        try _ <- exec (DisableTOTP userID)
          catch e => ret (Fail StatusInternalServerError ErrInternal) ;;
        do exec (DeleteBackupCodes userID) ;;
        do Audit.Log (Audit.mkLogParams None (Some userID) Audit.ActionMFADisabled "" None (Some r) None) ;;
        ret (Reply StatusOK "disabled")
  end.

(** ** [backup.go] *)
Definition RegenerateBackupCodes (r : Request) : M World (Resp (list string)) :=
  match userFromContext r with
  | Err e => ret (Fail StatusUnauthorized e)
  | Ok (userID, _) =>
      settings <- query (GetMFASettings userID) ;;
      if negb (match settings with Ok m => ms_TotpEnabled m | Err _ => false end)
      then ret (Fail StatusBadRequest errMFANotEnabled)
      else
        codes <- generateAndStoreBackupCodes userID ;;
        match codes with
        | None => ret (Fail StatusInternalServerError ErrInternal)
        | Some codes => ret (Reply StatusOK codes)
        end
  end.

(** ** [challenge.go] *)
Definition issueTokens (h : Handler) (r : Request) (userID : uuid) :
    M World (option (WithCookies challengeResponse)) :=
  try user <- query (GetUserByID userID) catch e => ret None ;;
  try session <- SessionSvc.Create (sessionMaxAge h) userID r "" catch e => ret None ;;
  g <- GenerateRefreshToken ;;
  match g with
  | None => ret None
  | Some refreshTok =>
      now <- time_now ;;
      try _ <- insert_stmt (CreateRefreshToken userID (se_ID session) (Hash refreshTok) (now + refreshTTL (tokenSvc h)))
        catch e => ret None ;;
      t <- IssueAccessToken (tokenSvc h)
             (mkAccessTokenParams (uuid_text userID) (u_Email user) (AuthSession.buildFullName user)
                AuthSession.no_org [] true) ;;
      match t with
      | None => ret None
      | Some accessJWT =>
          ret (Some (mkWithCookies
            [mkSetCookie "refresh_token" (Raw refreshTok) "/auth" (AuthSession.isSecure r) (seconds (refreshTTL (tokenSvc h)))]
            (mkChallengeResponse accessJWT 900)))
      end
  end.

(** Both login steps: the tokens, then the audit entry. *)
Definition finish_login (h : Handler) (r : Request) (userID : uuid) (metadata : string) :
    M World (Resp (WithCookies challengeResponse)) :=
  t <- issueTokens h r userID ;;
  match t with
  | None => ret (Fail StatusInternalServerError ErrInternal)
  | Some resp =>
      do Audit.Log (Audit.mkLogParams None (Some userID) Audit.ActionUserLogin "" None (Some r) (Some metadata)) ;;
      ret (Reply StatusOK resp)
  end.

Definition dq : string := String (Ascii.ascii_of_nat 34) "".

Definition Challenge (h : Handler) (r : Request) (body : result string challengeRequest) :
    M World (Resp (WithCookies challengeResponse)) :=
  match body with
  | Err e => ret (Fail StatusBadRequest e)
  | Ok body =>
      match AuthValidate.Struct (check_field "MFAToken" [("required", "", tag_required (MFAToken body))]
                                   ++ validate_code (Code body)) with
      | Err e => ret (Fail StatusBadRequest e)
      | Ok _ =>
          now <- time_now ;;
          match ValidateMFAChallengeToken (tokenSvc h) (MFAToken body) now with
          | Err _ => ret (Fail StatusUnauthorized errInvalidToken)
          | Ok userIDStr =>
              match uuid_scan userIDStr with
              | None => ret (Fail StatusBadRequest errInvalidToken)
              | Some userID =>
                  q <- query (GetMFASettings userID) ;;
                  match q with
                  | Err ErrNoRows => ret (Fail StatusBadRequest errMFANotEnabled)
                  | Err _ => ret (Fail StatusInternalServerError ErrInternal)
                  | Ok settings =>
                      if negb (ms_TotpEnabled settings) then ret (Fail StatusBadRequest errMFANotEnabled)
                      else match AuthEncryption.Decrypt (encSvc h) (ms_TotpSecret settings) with
                      | Err _ => ret (Fail StatusInternalServerError ErrInternal)
                      | Ok secret =>
                          if negb (ValidateTOTPCode (Code body) secret now)
                          then ret (Fail StatusUnauthorized errInvalidCode)
                          else finish_login h r userID ("{" +:+ dq +:+ "mfa" +:+ dq +:+ ":" +:+ dq +:+ "totp" +:+ dq +:+ "}")
                      end
                  end
              end
          end
      end
  end.

(** The loop over the unused codes: the first that matches is marked used. *)
Fixpoint match_code (plain : string) (codes : list MfaBackupCode) : M World bool :=
  match codes with
  | [] => ret false
  | code :: codes =>
      if VerifyBackupCode plain (bc_CodeHash code) then
        do exec (MarkBackupCodeUsed (bc_ID code)) ;;
        ret true
      else match_code plain codes
  end.

Definition BackupCodeVerify (h : Handler) (r : Request) (body : result string challengeRequest) :
    M World (Resp (WithCookies challengeResponse)) :=
  match body with
  | Err e => ret (Fail StatusBadRequest e)
  | Ok body =>
      match AuthValidate.Struct (check_field "MFAToken" [("required", "", tag_required (MFAToken body))]
                                   ++ check_field "Code" [("required", "", tag_required (Code body))]) with
      | Err e => ret (Fail StatusBadRequest e)
      | Ok _ =>
          now <- time_now ;;
          match ValidateMFAChallengeToken (tokenSvc h) (MFAToken body) now with
          | Err _ => ret (Fail StatusUnauthorized errInvalidToken)
          | Ok userIDStr =>
              match uuid_scan userIDStr with
              | None => ret (Fail StatusBadRequest errInvalidToken)
              | Some userID =>
                  try codes <- query (ListUnusedBackupCodes userID)
                    catch e => ret (Fail StatusInternalServerError ErrInternal) ;;
                  matched <- match_code (Code body) codes ;;
                  if negb matched then ret (Fail StatusUnauthorized errInvalidBackup)
                  else finish_login h r userID
                         ("{" +:+ dq +:+ "mfa" +:+ dq +:+ ":" +:+ dq +:+ "backup_code" +:+ dq +:+ "}")
              end
          end
      end
  end.

End Handlers.
End AuthMfa.
