(* ===== verification/AuthOauth.v ===== *)
(** Login through an OAuth provider: [services/auth/internal/handler/oauth]
    ([start.go], [callback.go], [jwks.go]) and the providers of
    [services/auth/internal/service/oauth] ([oauth.go], [github/api.go],
    [github/github.go], [google/api.go], [google/google.go]). *)

From S2P Require Import Prelude GoStr Sha256 GoCodec HttpUtil Scope Services AuthModels AuthStore.
From S2P Require Import AuthOrgStore AuthService AuthSession.

(** * Definitions *)

(** ** [service/oauth/oauth.go] *)
Record UserInfo := mkUserInfo {
  ui_ProviderID : string;
  ui_Email : string;
  ui_DisplayName : string;
  ui_AvatarURL : string
}.

(** The [Provider] interface: the authorization URL of a state, and the
    exchange of a code for access token, refresh token and user. *)
Record Provider := mkProvider {
  AuthURL : string -> string;
  Exchange : string -> option (string * string * UserInfo)
}.

(** The OAuth2 client library with a provider's configuration: the URL of a
    state, and the tokens for a code. *)
Record OAuth2Config := mkOAuth2Config {
  AuthCodeURL : string -> string;
  ExchangeCode : string -> option (string * string)
}.

(** An HTTP response to a GET: the status and the decoded JSON body, [None] for
    a body that does not decode; no response at all is [None]. *)
Definition decoded {T} (resp : option (Z * option T)) : option T :=
  match resp with
  | Some (status, v) => if decide (status <> StatusOK) then None else v
  | None => None
  end.

(** ** [service/oauth/github] *)
Module Github.

Record userResponse := mkUserResponse {
  ur_ID : Z;
  ur_Login : string;
  ur_Name : string;
  ur_Email : string;
  ur_AvatarURL : string
}.

Record emailResponse := mkEmailResponse {
  er_Email : string;
  er_Primary : bool;
  er_Verified : bool
}.

(** The two endpoints, by access token. *)
Record Api := mkApi {
  userEndpoint : string -> option (Z * option userResponse);
  emailEndpoint : string -> option (Z * option (list emailResponse))
}.

Definition apiGet {T} (endpoint : string -> option (Z * option T)) (token : string) : option T :=
  decoded (endpoint token).

Definition fetchPrimaryEmail (api : Api) (accessToken : string) : option string :=
  match apiGet (emailEndpoint api) accessToken with
  | None => None
  | Some emails =>
      Some (match List.find (fun e => er_Primary e && er_Verified e) emails with
            | Some e => er_Email e
            | None => ""
            end)
  end.

Definition fetchUser (api : Api) (accessToken : string) : option UserInfo :=
  match apiGet (userEndpoint api) accessToken with
  | None => None
  | Some user =>
      let email := if decide (ur_Email user = "") then default "" (fetchPrimaryEmail api accessToken)
                   else ur_Email user in
      let displayName := if decide (ur_Name user = "") then ur_Login user else ur_Name user in
      Some (mkUserInfo (FormatInt (ur_ID user)) email displayName (ur_AvatarURL user))
  end.

Definition Exchange_ (cfg : OAuth2Config) (api : Api) (code : string) : option (string * string * UserInfo) :=
  match ExchangeCode cfg code with
  | None => None
  | Some (access, _) =>
      match fetchUser api access with
      | None => None
      | Some user => Some (access, "", user)
      end
  end.

Definition New (cfg : OAuth2Config) (api : Api) : Provider := mkProvider (AuthCodeURL cfg) (Exchange_ cfg api).

End Github.

(** ** [service/oauth/google] *)
Module Google.

Record userInfoResponse := mkUserInfoResponse {
  gr_Sub : string;
  gr_Email : string;
  gr_EmailVerified : bool;
  gr_Name : string;
  gr_Picture : string
}.

Definition fetchUser (userInfoEndpoint : string -> option (Z * option userInfoResponse)) (accessToken : string) :
    option UserInfo :=
  match decoded (userInfoEndpoint accessToken) with
  | None => None
  | Some info => Some (mkUserInfo (gr_Sub info) (gr_Email info) (gr_Name info) (gr_Picture info))
  end.

Definition Exchange_ (cfg : OAuth2Config) (api : string -> option (Z * option userInfoResponse)) (code : string) :
    option (string * string * UserInfo) :=
  match ExchangeCode cfg code with
  | None => None
  | Some (access, refresh) =>
      match fetchUser api access with
      | None => None
      | Some user => Some (access, refresh, user)
      end
  end.

Definition New (cfg : OAuth2Config) (api : string -> option (Z * option userInfoResponse)) : Provider :=
  mkProvider (AuthCodeURL cfg) (Exchange_ cfg api).

End Google.

Module AuthOauth.
Import AuthStore Token Helpers.

Definition StatusFound : Z := 302.
Definition StatusBadGateway : Z := 502.

Definition errUnsupportedProvider : string := "unsupported provider".
Definition errMissingCodeOrState : string := "missing code or state".
Definition errInvalidState : string := "invalid or expired state".
Definition errStateMismatch : string := "state provider mismatch".
Definition errOAuthExchangeFailed : string := "oauth exchange failed".

Record Handler := mkHandler {
  providers_ : gmap string Provider;
  tokenSvc : Token.Service;
  sessionMaxAge : Z;
  encSvc : Encryption.Service;
  frontendURL : string;
  jwksKID : string
}.

(** ** [jwks.go] *)
Record JWKSKey := mkJWKSKey {
  KeyType : string;
  Curve : string;
  Use_ : string;
  KeyID : string;
  PublicKey : string
}.

Definition JWKS (h : Handler) : Resp (list JWKSKey) :=
  Reply StatusOK [mkJWKSKey "OKP" "Ed25519" "sig" (jwksKID h)
                    (Base64.RawURL_EncodeToString (publicKey (tokenSvc h)))].

(** ** [start.go] *)
Definition generateState : M World (option string) :=
  b <- rand_read 32 ;;
  ret (Sha256.hex <$> b).

(** A redirect is the response with the URL handed to [http.Redirect]. *)
Definition Start (h : Handler) (r : Request) : M World (Resp (WithCookies string)) :=
  let provider := URLParam r "provider" in
  match providers_ h !! provider with
  | None => ret (Fail StatusBadRequest errUnsupportedProvider)
  | Some p =>
      let redirectURI := URLQuery r "redirect_uri" in
      let redirectURI := if decide (redirectURI = "") then frontendURL h else redirectURI in
      s <- generateState ;;
      match s with
      | None => ret (Fail StatusInternalServerError ErrInternal)
      | Some state =>
          now <- time_now ;;
          try _ <- insert_stmt (CreateOAuthState state provider redirectURI (now + minutes 10))
            catch e => ret (Fail StatusInternalServerError ErrInternal) ;;
          ret (Reply StatusFound (mkWithCookies [] (AuthURL p state)))
      end
  end.

(** ** [callback.go] *)
Definition resolveUser (provider : string) (info : UserInfo) : M World (option User) :=
  identity <- query (GetOAuthIdentity provider (ui_ProviderID info)) ;;
  match identity with
  | Ok identity =>
      try user <- query (GetUserByID (oi_UserID identity)) catch e => ret None ;;
      ret (Some user)
  | Err ErrNoRows =>
      byEmail <- (if decide (ui_Email info <> "") then query (GetUserByEmail (ui_Email info))
                  else ret (Err ErrNoRows)) ;;
      match byEmail with
      | Ok user =>
          try _ <- insert_stmt (CreateOAuthIdentity
                     (mkCreateOAuthIdentityParams (u_ID user) provider (ui_ProviderID info) (Some (ui_Email info))
                        (Some (ui_DisplayName info)) (Some (ui_AvatarURL info)) None None None))
            catch e => ret None ;;
          ret (Some user)
      | Err ErrNoRows =>
          let '(firstName, lastName) :=
            match SplitN2 " " (ui_DisplayName info) with
            | Some (a, b) => (a, b)
            | None => (ui_DisplayName info, "")
            end in
          try user <- insert_stmt (CreateUser (ui_Email info) (bool_decide (ui_Email info <> ""))
                        (text_opt firstName) (text_opt lastName) (text_opt (ui_AvatarURL info)))
            catch e => ret None ;;
          try _ <- insert_stmt (CreateOAuthIdentity
                     (mkCreateOAuthIdentityParams (u_ID user) provider (ui_ProviderID info) (text_opt (ui_Email info))
                        (text_opt (ui_DisplayName info)) (text_opt (ui_AvatarURL info)) None None None))
            catch e => ret None ;;
          ret (Some user)
      | Err _ => ret None
      end
  | Err _ => ret None
  end.

Section Handlers.
Context `{UUIDCodec} `{Jwt} `{NetAddr} `{Encryption.AEAD}.

(** An OAuth token is stored encrypted; an absent one as NULL. *)
Definition encrypt_token (h : Handler) (token : string) : M World (result Encryption.EncError (option string)) :=
  if decide (token <> "") then
    try c <- AuthEncryption.Encrypt (encSvc h) token catch e => ret (Err e) ;;
    ret (Ok (Some c))
  else ret (Ok None).

Definition storeOAuthTokens (h : Handler) (provider : string) (info : UserInfo) (accessToken refreshToken : string) :
    M World unit :=
  try encAccess <- encrypt_token h accessToken catch e => ret tt ;;
  try encRefresh <- encrypt_token h refreshToken catch e => ret tt ;;
  do exec (UpdateOAuthTokens provider (ui_ProviderID info) encAccess encRefresh None) ;;
  ret tt.

Definition issueTokensAndRedirect (h : Handler) (r : Request) (user : User) (redirectURI : string) :
    M World (option (WithCookies string)) :=
  try session <- SessionSvc.Create (sessionMaxAge h) (u_ID user) r "" catch e => ret None ;;
  g <- GenerateRefreshToken ;;
  match g with
  | None => ret None
  | Some refreshTok =>
      now <- time_now ;;
      try _ <- insert_stmt (CreateRefreshToken (u_ID user) (se_ID session) (Hash refreshTok)
                              (now + refreshTTL (tokenSvc h)))
        catch e => ret None ;;
      t <- IssueAccessToken (tokenSvc h)
             (mkAccessTokenParams (uuid_text (u_ID user)) (u_Email user) (AuthSession.buildFullName user)
                AuthSession.no_org [] false) ;;
      match t with
      | None => ret None
      | Some accessJWT =>
          ret (Some (mkWithCookies
            [AuthSession.setRefreshCookie r (Raw refreshTok) (refreshTTL (tokenSvc h));
             AuthSession.setAccessCookie r accessJWT (accessTTL (tokenSvc h))] redirectURI))
      end
  end.

Definition dq : string := String (Ascii.ascii_of_nat 34) "".

Definition Callback (h : Handler) (r : Request) : M World (Resp (WithCookies string)) :=
  let provider := URLParam r "provider" in
  match providers_ h !! provider with
  | None => ret (Fail StatusBadRequest errUnsupportedProvider)
  | Some p =>
      let code := URLQuery r "code" in
      let state := URLQuery r "state" in
      if bool_decide (code = "") || bool_decide (state = "") then ret (Fail StatusBadRequest errMissingCodeOrState)
      else
        try oauthState <- exec (GetAndDeleteOAuthState state)
          catch e => ret (Fail StatusBadRequest errInvalidState) ;;
        if decide (os_Provider oauthState <> provider) then ret (Fail StatusBadRequest errStateMismatch)
        else match Exchange p code with
        | None => ret (Fail StatusBadGateway errOAuthExchangeFailed)
        | Some (accessToken, refreshOAuthToken, userInfo) =>
            u <- resolveUser provider userInfo ;;
            match u with
            | None => ret (Fail StatusInternalServerError ErrInternal)
            | Some user =>
                do storeOAuthTokens h provider userInfo accessToken refreshOAuthToken ;;
                mfa <- query (GetMFASettings (u_ID user)) ;;
                if match mfa with Ok m => ms_TotpEnabled m | Err _ => false end then
                  t <- IssueMFAChallengeToken (tokenSvc h) (uuid_text (u_ID user)) ;;
                  match t with
                  | None => ret (Fail StatusInternalServerError ErrInternal)
                  | Some challengeToken =>
                      ret (Reply StatusFound (mkWithCookies []
                        (os_RedirectUri oauthState +:+ "?mfa_required=true&mfa_token=" +:+ challengeToken)))
                  end
                else
                  t <- issueTokensAndRedirect h r user (os_RedirectUri oauthState) ;;
                  match t with
                  | None => ret (Fail StatusInternalServerError ErrInternal)
                  | Some resp =>
                      do Audit.Log (Audit.mkLogParams None (Some (u_ID user)) Audit.ActionUserLogin "" None (Some r)
                           (Some ("{" +:+ dq +:+ "provider" +:+ dq +:+ ":" +:+ dq +:+ provider +:+ dq +:+ "}"))) ;;
                      ret (Reply StatusFound resp)
                  end
            end
        end
  end.

End Handlers.
End AuthOauth.
