(* ===== verification/AuthOrgs.v ===== *)
(** Organizations, teams and invitations of the auth service:
    [services/auth/internal/handler/org] ([org.go], [members.go],
    [response.go]), [handler/team] ([team.go], [members.go], [response.go]) and
    [handler/invite] ([invite.go], [response.go]).  [Format] is [time.Format]
    with the RFC 3339 layout. *)

From S2P Require Import Prelude GoStr Sha256 GoCodec HttpUtil Scope AuthModels AuthStore AuthOrgStore AuthService.

(** * Definitions *)

Definition dquote : string := String (Ascii.ascii_of_nat 34) "".
Definition quoted (s : string) : string := dquote +:+ s +:+ dquote.

(** The tags several request structs share. *)
Section Tags.
Context `{Validator}.
Definition tag_name (name : string) : list FieldError :=
  check_field "Name" [("required", "", tag_required name); ("min", "1", tag_min 1 name); ("max", "100", tag_max 100 name)].
Definition tag_slug (slug : string) : list FieldError :=
  check_field "Slug" [("required", "", tag_required slug); ("min", "2", tag_min 2 slug); ("max", "50", tag_max 50 slug)].
Definition tag_role (roles : list string) (param role : string) : list FieldError :=
  check_field "Role" [("required", "", tag_required role); ("oneof", param, tag_oneof roles role)].
Definition tag_id (field id : string) : list FieldError :=
  check_field field [("required", "", tag_required id); ("uuid", "", tag_uuid id)].
End Tags.

(** A member of an organization or a team, in responses. *)
Record memberResponse := mkMemberResponse {
  me_ID : string;
  me_UserID : string;
  me_Email : string;
  me_FirstName : string;
  me_LastName : string;
  me_AvatarURL : string;
  me_Role : string;
  me_JoinedAt : string
}.

Definition toMemberResponse `{UUIDCodec} (Format : Z -> string) (m : AuthOrgStore.MemberRow) : memberResponse :=
  mkMemberResponse (uuid_text (AuthOrgStore.mr_ID m)) (uuid_text (AuthOrgStore.mr_UserID m)) (AuthOrgStore.mr_Email m)
    (default "" (AuthOrgStore.mr_FirstName m)) (default "" (AuthOrgStore.mr_LastName m))
    (default "" (AuthOrgStore.mr_AvatarUrl m)) (AuthOrgStore.mr_Role m) (Format (AuthOrgStore.mr_CreatedAt m)).

(** ** [handler/org] *)
Module AuthOrg.
Import AuthOrgStore Helpers.

Definition errOrgNotFound : string := "organization not found".
Definition errNotOwner : string := "only the owner can perform this action".
Definition errCannotRemoveOwner : string := "cannot remove the org owner".
Definition errMemberNotFound : string := "member not found".

(** [response.go] *)
Record orgResponse := mkOrgResponse {
  or_ID : string;
  or_Slug : string;
  or_Name : string;
  or_LogoURL : string;
  or_Plan : string;
  or_BillingEmail : string;
  or_MaxMembers : Z;
  or_CreatedAt : string
}.

Record createOrgRequest := mkCreateOrgRequest {
  co_Slug : string;
  co_Name : string
}.

Record updateOrgRequest := mkUpdateOrgRequest {
  uo_Name : string;
  uo_LogoURL : string;
  uo_BillingEmail : string
}.

Section Handlers.
Context `{UUIDCodec} `{NetAddr} `{Validator} `{Collation} (Format : Z -> string).

Definition toOrgResponse (o : Organization) : orgResponse :=
  mkOrgResponse (uuid_text (o_ID o)) (o_Slug o) (o_Name o) (default "" (o_LogoUrl o)) (o_Plan o)
    (default "" (o_BillingEmail o)) (o_MaxMembers o) (Format (o_CreatedAt o)).

(** The audit entry of a handler of this package. *)
Definition log_org (orgID actorID : uuid) (action targetType : string) (target : option uuid) (r : Request)
    (metadata : option string) : M World unit :=
  Audit.Log (Audit.mkLogParams (Some orgID) (Some actorID) action targetType target (Some r) metadata).

(** [org.go] *)
Definition Create (r : Request) (body : result string createOrgRequest) : M World (Resp orgResponse) :=
  with_user r (fun userID =>
  with_body body (fun b => tag_slug (co_Slug b) ++ tag_name (co_Name b)) (fun body =>
  or_internal (insert_stmt (CreateOrganization (co_Slug body) (co_Name body))) (fun org =>
  or_internal (insert_stmt (CreateOrgMembership (o_ID org) userID Role.OrgOwner)) (fun _ =>
    do log_org (o_ID org) userID Audit.ActionOrgCreated "" None r None ;;
    ret (Reply StatusCreated (toOrgResponse org)))))).

Definition List_ (r : Request) : M World (Resp (list orgResponse)) :=
  with_user r (fun userID =>
  or_internal (query (ListUserOrganizations userID)) (fun orgs =>
    ret (Reply StatusOK (toOrgResponse <$> orgs)))).

Definition Get (r : Request) : M World (Resp orgResponse) :=
  with_org r (fun orgID =>
    try org <- query (GetOrganizationByID orgID) catch e => ret (Fail StatusNotFound errOrgNotFound) ;;
    ret (Reply StatusOK (toOrgResponse org))).

Definition Update (r : Request) (body : result string updateOrgRequest) : M World (Resp orgResponse) :=
  with_user r (fun userID =>
  with_org r (fun orgID =>
  with_admin orgID userID (
  with_body body (fun b => tag_name (uo_Name b) ++ check_field "LogoURL" [("max", "500", tag_max 500 (uo_LogoURL b))]
      ++ (if decide (uo_BillingEmail b = "") then []
          else check_field "BillingEmail" [("email", "", tag_email (uo_BillingEmail b));
                                           ("max", "255", tag_max 255 (uo_BillingEmail b))])) (fun body =>
  or_internal (exec (UpdateOrganization orgID (uo_Name body) (text_opt (uo_LogoURL body)) (text_opt (uo_BillingEmail body))))
    (fun org =>
    do log_org orgID userID Audit.ActionOrgUpdated "" None r None ;;
    ret (Reply StatusOK (toOrgResponse org))))))).

Definition requireOwner (orgID userID : uuid) : M World (result string unit) :=
  try membership <- query (GetOrgMembership orgID userID) catch e => ret (Err ErrForbidden) ;;
  if decide (om_Role membership <> Role.OrgOwner) then ret (Err errNotOwner) else ret (Ok tt).

Definition with_owner {A} (orgID userID : uuid) (k : M World (Resp A)) : M World (Resp A) :=
  try _ <- requireOwner orgID userID catch e => ret (Fail StatusForbidden e) ;; k.

Definition Delete (r : Request) : M World (Resp string) :=
  with_user r (fun userID =>
  with_org r (fun orgID =>
  with_owner orgID userID (
  or_internal (exec (DeleteOrganization orgID)) (fun _ =>
    do log_org orgID userID Audit.ActionOrgDeleted "" None r None ;;
    ret (Reply StatusOK "deleted"))))).

(** [members.go] *)
Definition ListMembers (r : Request) : M World (Resp (list memberResponse)) :=
  with_org r (fun orgID =>
  or_internal (query (ListOrgMembers orgID)) (fun members =>
    ret (Reply StatusOK (toMemberResponse Format <$> members)))).

(** The target of a change: a member who is not the owner. *)
Definition with_target {A} (orgID targetUserID : uuid) (k : M World (Resp A)) : M World (Resp A) :=
  try existing <- query (GetOrgMembership orgID targetUserID) catch e => ret (Fail StatusNotFound errMemberNotFound) ;;
  if decide (om_Role existing = Role.OrgOwner) then ret (Fail StatusForbidden errCannotRemoveOwner) else k.

Definition UpdateMemberRole (r : Request) (body : result string string) : M World (Resp string) :=
  with_user r (fun actorID =>
  with_org r (fun orgID =>
  with_admin orgID actorID (
  with_param r "userID" ErrInvalidUserID (fun targetUserID =>
  with_body body (tag_role [Role.OrgAdmin; Role.OrgMember] "admin member") (fun role =>
  with_target orgID targetUserID (
  or_internal (exec (UpdateOrgMemberRole orgID targetUserID role)) (fun _ =>
    do log_org orgID actorID Audit.ActionOrgMemberRoleChanged Audit.TargetTypeUser (Some targetUserID) r
         (Some ("{" +:+ quoted "role" +:+ ":" +:+ quoted role +:+ "}")) ;;
    ret (Reply StatusOK "updated")))))))).

Definition RemoveMember (r : Request) : M World (Resp string) :=
  with_user r (fun actorID =>
  with_org r (fun orgID =>
  with_admin orgID actorID (
  with_param r "userID" ErrInvalidUserID (fun targetUserID =>
  with_target orgID targetUserID (
  or_internal (exec (DeleteOrgMembership orgID targetUserID)) (fun _ =>
    do log_org orgID actorID Audit.ActionOrgMemberRemoved Audit.TargetTypeUser (Some targetUserID) r None ;;
    ret (Reply StatusOK "removed"))))))).

Definition TransferOwnership (r : Request) (body : result string string) : M World (Resp string) :=
  with_user r (fun actorID =>
  with_org r (fun orgID =>
  with_owner orgID actorID (
  with_body body (tag_id "NewOwnerID") (fun newOwner =>
    match uuid_scan newOwner with
    | None => ret (Fail StatusBadRequest ErrInvalidUserID)
    | Some newOwnerID =>
        try _ <- query (GetOrgMembership orgID newOwnerID) catch e => ret (Fail StatusNotFound errMemberNotFound) ;;
        or_internal (exec (UpdateOrgMemberRole orgID newOwnerID Role.OrgOwner)) (fun _ =>
        or_internal (exec (UpdateOrgMemberRole orgID actorID Role.OrgAdmin)) (fun _ =>
          do log_org orgID actorID Audit.ActionOrgOwnerTransferred Audit.TargetTypeUser (Some newOwnerID) r None ;;
          ret (Reply StatusOK "transferred")))
    end)))).

End Handlers.
End AuthOrg.

(** ** [handler/team] *)
Module AuthTeam.
Import AuthOrgStore Helpers.

Definition errInvalidTeamID : string := "invalid team id".
Definition errTeamNotFound : string := "team not found".

Record teamResponse := mkTeamResponse {
  tr_ID : string;
  tr_OrgID : string;
  tr_Slug : string;
  tr_Name : string;
  tr_Description : string;
  tr_CreatedAt : string
}.

(** [createTeamRequest] and [updateTeamRequest] have the same fields and tags. *)
Record teamRequest := mkTeamRequest {
  tq_Slug : string;
  tq_Name : string;
  tq_Description : string
}.

Record addMemberRequest := mkAddMemberRequest {
  am_UserID : string;
  am_Role : string
}.

Section Handlers.
Context `{UUIDCodec} `{NetAddr} `{Validator} `{Collation} (Format : Z -> string).

Definition toTeamResponse (t : Team) : teamResponse :=
  mkTeamResponse (uuid_text (t_ID t)) (uuid_text (t_OrgID t)) (t_Slug t) (t_Name t) (default "" (t_Description t))
    (Format (t_CreatedAt t)).

Definition tags (b : teamRequest) : list FieldError :=
  tag_slug (tq_Slug b) ++ tag_name (tq_Name b)
  ++ check_field "Description" [("max", "500", tag_max 500 (tq_Description b))].

Definition log_team (orgID actorID : uuid) (action targetType : string) (target : uuid) (r : Request)
    (metadata : option string) : M World unit :=
  Audit.Log (Audit.mkLogParams (Some orgID) (Some actorID) action targetType (Some target) (Some r) metadata).

(** The opening of the handlers that change an existing team. *)
Definition with_team {A} (r : Request) (k : uuid -> uuid -> uuid -> M World (Resp A)) : M World (Resp A) :=
  with_user r (fun actorID =>
  with_org r (fun orgID =>
  with_param r "teamID" errInvalidTeamID (fun teamID =>
  with_admin orgID actorID (k actorID orgID teamID)))).

Definition Create (r : Request) (body : result string teamRequest) : M World (Resp teamResponse) :=
  with_user r (fun actorID =>
  with_org r (fun orgID =>
  with_admin orgID actorID (
  with_body body tags (fun body =>
  or_internal (insert_stmt (CreateTeam orgID (tq_Slug body) (tq_Name body) (text_opt (tq_Description body)))) (fun team =>
    do log_team orgID actorID Audit.ActionTeamCreated Audit.TargetTypeTeam (t_ID team) r None ;;
    ret (Reply StatusCreated (toTeamResponse team))))))).

Definition List_ (r : Request) : M World (Resp (list teamResponse)) :=
  with_org r (fun orgID =>
  or_internal (query (ListTeamsByOrg orgID)) (fun ts => ret (Reply StatusOK (toTeamResponse <$> ts)))).

Definition Get (r : Request) : M World (Resp teamResponse) :=
  with_param r "teamID" errInvalidTeamID (fun teamID =>
    try team <- query (GetTeamByID teamID) catch e => ret (Fail StatusNotFound errTeamNotFound) ;;
    ret (Reply StatusOK (toTeamResponse team))).

Definition Update (r : Request) (body : result string teamRequest) : M World (Resp teamResponse) :=
  with_team r (fun actorID orgID teamID =>
  with_body body tags (fun body =>
  or_internal (exec (UpdateTeam teamID (tq_Name body) (tq_Slug body) (text_opt (tq_Description body)))) (fun team =>
    do log_team orgID actorID Audit.ActionTeamUpdated Audit.TargetTypeTeam teamID r None ;;
    ret (Reply StatusOK (toTeamResponse team))))).

Definition Delete (r : Request) : M World (Resp string) :=
  with_team r (fun actorID orgID teamID =>
  or_internal (exec (DeleteTeam teamID)) (fun _ =>
    do log_team orgID actorID Audit.ActionTeamDeleted Audit.TargetTypeTeam teamID r None ;;
    ret (Reply StatusOK "deleted"))).

Definition ListMembers (r : Request) : M World (Resp (list memberResponse)) :=
  with_param r "teamID" errInvalidTeamID (fun teamID =>
  or_internal (query (ListTeamMembers teamID)) (fun members =>
    ret (Reply StatusOK (toMemberResponse Format <$> members)))).

Definition AddMember (r : Request) (body : result string addMemberRequest) : M World (Resp string) :=
  with_team r (fun actorID orgID teamID =>
  with_body body (fun b => tag_id "UserID" (am_UserID b) ++ tag_role [Role.TeamLead; Role.TeamMember] "lead member" (am_Role b))
    (fun body =>
    match uuid_scan (am_UserID body) with
    | None => ret (Fail StatusBadRequest ErrInvalidUserID)
    | Some targetUserID =>
        or_internal (insert_stmt (CreateTeamMembership teamID targetUserID (am_Role body))) (fun _ =>
          do log_team orgID actorID Audit.ActionTeamMemberAdded Audit.TargetTypeUser targetUserID r
               (Some ("{" +:+ quoted "team_id" +:+ ":" +:+ quoted (uuid_text teamID) +:+ "," +:+ quoted "role" +:+ ":"
                      +:+ quoted (am_Role body) +:+ "}")) ;;
          ret (Reply StatusCreated "added"))
    end)).

Definition RemoveMember (r : Request) : M World (Resp string) :=
  with_team r (fun actorID orgID teamID =>
  with_param r "userID" ErrInvalidUserID (fun targetUserID =>
  or_internal (exec (DeleteTeamMembership teamID targetUserID)) (fun _ =>
    do log_team orgID actorID Audit.ActionTeamMemberRemoved Audit.TargetTypeUser targetUserID r None ;;
    ret (Reply StatusOK "removed")))).

Definition UpdateMemberRole (r : Request) (body : result string string) : M World (Resp string) :=
  with_team r (fun actorID orgID teamID =>
  with_param r "userID" ErrInvalidUserID (fun targetUserID =>
  with_body body (tag_role [Role.TeamLead; Role.TeamMember] "lead member") (fun role =>
  or_internal (exec (UpdateTeamMemberRole teamID targetUserID role)) (fun _ =>
    ret (Reply StatusOK "updated"))))).

End Handlers.
End AuthTeam.

(** ** [handler/invite] *)
Module AuthInvite.
Import AuthOrgStore Helpers.

Definition errInvalidInviteID : string := "invalid invite id".
Definition errInvalidToken : string := "invalid or expired invite token".
Definition errMaxMembers : string := "organization has reached its member limit".

Definition inviteTTL : Z := days 7.

Record inviteResponse := mkInviteResponse {
  ir_ID : string;
  ir_OrgID : string;
  ir_Email : string;
  ir_Role : string;
  ir_Status : string;
  ir_ExpiresAt : string;
  ir_CreatedAt : string
}.

Record createInviteRequest := mkCreateInviteRequest {
  ci_Email : string;
  ci_Role : string
}.

Record publicInviteResponse := mkPublicInviteResponse {
  pi_OrgName : string;
  pi_OrgSlug : string;
  pi_Email : string;
  pi_Role : string;
  pi_ExpiresAt : string
}.

Section Handlers.
Context `{UUIDCodec} `{NetAddr} `{Validator} (Format : Z -> string).

Definition toInviteResponse (i : Invite) : inviteResponse :=
  mkInviteResponse (uuid_text (iv_ID i)) (uuid_text (iv_OrgID i)) (iv_Email i) (iv_Role i) (iv_Status i)
    (Format (iv_ExpiresAt i)) (Format (iv_CreatedAt i)).

Definition generateInviteToken : M World (option string) :=
  b <- rand_read 32 ;;
  ret (Sha256.hex <$> b).

(** The member limit, with the count narrowed to 32 bits. *)
Definition with_room {A} (orgID : uuid) (k : M World (Resp A)) : M World (Resp A) :=
  or_internal (query (GetOrganizationByID orgID)) (fun org =>
  or_internal (query (CountOrgMembers orgID)) (fun count =>
    if o_MaxMembers org <=? wrap32 count then ret (Fail StatusForbidden errMaxMembers) else k)).

Definition log_invite (orgID actorID : uuid) (action : string) (r : Request) : M World unit :=
  Audit.Log (Audit.mkLogParams (Some orgID) (Some actorID) action "" None (Some r) None).

Definition Create (r : Request) (body : result string createInviteRequest) : M World (Resp (inviteResponse * string)) :=
  with_user r (fun actorID =>
  with_org r (fun orgID =>
  with_admin orgID actorID (
  with_body body (fun b => check_field "Email" [("required", "", tag_required (ci_Email b));
                               ("email", "", tag_email (ci_Email b)); ("max", "255", tag_max 255 (ci_Email b))]
                           ++ tag_role [Role.OrgAdmin; Role.OrgMember] "admin member" (ci_Role b)) (fun body =>
  with_room orgID (
    t <- generateInviteToken ;;
    match t with
    | None => ret (Fail StatusInternalServerError ErrInternal)
    | Some rawToken =>
        now <- time_now ;;
        or_internal (insert_stmt (CreateInvite orgID None actorID (ci_Email body) (ci_Role body)
                                    (Token.HashToken rawToken) (now + inviteTTL))) (fun inv =>
          do log_invite orgID actorID Audit.ActionInviteCreated r ;;
          ret (Reply StatusCreated (toInviteResponse inv, rawToken)))
    end))))).

Definition ListOrgInvites_ (r : Request) : M World (Resp (list inviteResponse)) :=
  with_org r (fun orgID =>
  or_internal (query (ListOrgInvites orgID)) (fun invs => ret (Reply StatusOK (toInviteResponse <$> invs)))).

Definition Revoke (r : Request) : M World (Resp string) :=
  with_user r (fun actorID =>
  with_org r (fun orgID =>
  with_admin orgID actorID (
  with_param r "inviteID" errInvalidInviteID (fun inviteID =>
  or_internal (exec (RevokeInvite inviteID orgID)) (fun _ =>
    do log_invite orgID actorID Audit.ActionInviteRevoked r ;;
    ret (Reply StatusOK "revoked")))))).

Definition Accept (r : Request) (body : result string string) : M World (Resp string) :=
  with_user r (fun userID =>
  with_body body (fun t => check_field "Token" [("required", "", tag_required t)]) (fun token =>
    try inv <- query (GetInviteByTokenHash (Token.HashToken token))
      catch e => ret (Fail StatusBadRequest errInvalidToken) ;;
    with_room (iv_OrgID inv) (
    or_internal (exec (AcceptInvite (iv_ID inv))) (fun _ =>
    or_internal (insert_stmt (CreateOrgMembership (iv_OrgID inv) userID (iv_Role inv))) (fun _ =>
      do log_invite (iv_OrgID inv) userID Audit.ActionInviteAccepted r ;;
      ret (Reply StatusOK "accepted")))))).

Definition GetByToken (r : Request) : M World (Resp publicInviteResponse) :=
  try inv <- query (GetInviteByTokenHash (Token.HashToken (URLParam r "token")))
    catch e => ret (Fail StatusNotFound errInvalidToken) ;;
  or_internal (query (GetOrganizationByID (iv_OrgID inv))) (fun org =>
    ret (Reply StatusOK (mkPublicInviteResponse (o_Name org) (o_Slug org) (iv_Email inv) (iv_Role inv)
                           (Format (iv_ExpiresAt inv))))).

End Handlers.
End AuthInvite.
