(* ===== verification/AuthAdmin.v ===== *)
(** The remaining endpoints of the auth service: profiles and identities
    ([services/auth/internal/handler/user]), the platform administration
    ([handler/admin]), the audit log and login metrics ([handler/audit]) and
    webhook subscriptions ([handler/webhook]).  [Format] is [time.Format] with
    the RFC 3339 layout. *)

From S2P Require Import Prelude GoStr Sha256 GoCodec HttpUtil Scope AuthModels AuthStore AuthOrgStore AuthService AuthOrgs.

(** * Definitions *)

(** ** [handler/user] *)
Module AuthUser.
Import AuthStore Helpers.

Definition errCannotUnlinkOnly : string := "cannot unlink the only identity".

Record profileResponse := mkProfileResponse {
  pr_ID : string;
  pr_Email : string;
  pr_EmailVerified : bool;
  pr_FirstName : string;
  pr_LastName : string;
  pr_Nickname : string;
  pr_Bio : string;
  pr_Country : string;
  pr_Age : Z;
  pr_Timezone : string;
  pr_Language : string;
  pr_AvatarURL : string;
  pr_SocialLinks : string;
  pr_ProfileVisibility : string;
  pr_OnboardingStep : string;
  pr_CreatedAt : string
}.

Record updateProfileRequest := mkUpdateProfileRequest {
  pq_FirstName : string;
  pq_LastName : string;
  pq_Nickname : string;
  pq_Bio : string;
  pq_Country : string;
  pq_Age : Z;
  pq_Timezone : string;
  pq_Language : string;
  pq_SocialLinks : option string;    (* json.RawMessage: nil when absent *)
  pq_ProfileVisibility : string
}.

Record identityResponse := mkIdentityResponse {
  ir_Provider : string;
  ir_ProviderID : string;
  ir_Email : string;
  ir_DisplayName : string;
  ir_AvatarURL : string
}.

Section Handlers.
Context `{UUIDCodec} `{Validator} `{Collation} (Format : Z -> string).

Definition toProfileResponse (u : User) : profileResponse :=
  mkProfileResponse (uuid_text (u_ID u)) (u_Email u) (u_EmailVerified u) (default "" (u_FirstName u))
    (default "" (u_LastName u)) (default "" (u_Nickname u)) (default "" (u_Bio u)) (default "" (u_Country u))
    (default 0 (u_Age u)) (u_Timezone u) (u_Language u) (default "" (u_AvatarUrl u)) (u_SocialLinks u)
    (u_ProfileVisibility u) (u_OnboardingStep u) (Format (u_CreatedAt u)).

(** The guard of this package answers with the error of the claims; the text of
    the driver's error for a subject that is no UUID is abridged. *)
Definition with_me {A} (r : Request) (k : uuid -> M World (Resp A)) : M World (Resp A) :=
  match FromContext r with
  | None => ret (Fail StatusUnauthorized ErrClaimsNotFound)
  | Some claims =>
      match SubjectUUID claims with
      | None => ret (Fail StatusUnauthorized "cannot parse UUID")
      | Some id => k id
      end
  end.

Definition GetMe (r : Request) : M World (Resp profileResponse) :=
  with_me r (fun userID =>
  or_internal (query (GetUserByID userID)) (fun user => ret (Reply StatusOK (toProfileResponse user)))).

Definition max_tag (field param : string) (n : Z) (s : string) : list FieldError :=
  check_field field [("max", param, tag_max n s)].

Definition profile_tags (b : updateProfileRequest) : list FieldError :=
  max_tag "FirstName" "100" 100 (pq_FirstName b) ++ max_tag "LastName" "100" 100 (pq_LastName b)
  ++ max_tag "Nickname" "50" 50 (pq_Nickname b) ++ max_tag "Bio" "500" 500 (pq_Bio b)
  ++ max_tag "Country" "100" 100 (pq_Country b)
  ++ (if decide (pq_Age b = 0) then []
      else check_field "Age" [("gte", "13", tag_gte 13 (pq_Age b)); ("max", "150", tag_lte 150 (pq_Age b))])
  ++ max_tag "Timezone" "50" 50 (pq_Timezone b) ++ max_tag "Language" "10" 10 (pq_Language b)
  ++ (if decide (pq_ProfileVisibility b = "") then []
      else check_field "ProfileVisibility"
             [("oneof", "public private team_only", tag_oneof visibilities (pq_ProfileVisibility b))]).

Definition or_else (s d : string) : string := if decide (s = "") then d else s.

Definition UpdateMe (r : Request) (body : result string updateProfileRequest) : M World (Resp profileResponse) :=
  with_me r (fun userID =>
  with_body body profile_tags (fun body =>
    let socialLinks := default "{}" (pq_SocialLinks body) in
    let visibility := or_else (pq_ProfileVisibility body) "team_only" in
    let tz := or_else (pq_Timezone body) "UTC" in
    let lang := or_else (pq_Language body) "en" in
    or_internal (exec (UpdateUserProfile
      (mkUpdateUserProfileParams userID (text_opt (pq_FirstName body)) (text_opt (pq_LastName body))
         (text_opt (pq_Nickname body)) (text_opt (pq_Bio body)) (text_opt (pq_Country body))
         (if 0 <? pq_Age body then Some (pq_Age body) else None) tz lang socialLinks visibility))) (fun user =>
      ret (Reply StatusOK (toProfileResponse user))))).

Definition UpdateOnboarding (r : Request) (body : result string string) : M World (Resp string) :=
  with_me r (fun userID =>
  with_body body (fun step => check_field "Step" [("required", "", tag_required step);
       ("oneof", "profile connect_oauth join_team completed", tag_oneof onboarding_steps step)]) (fun step =>
  or_internal (exec (UpdateUserOnboardingStep userID step)) (fun _ => ret (Reply StatusOK step)))).

Definition ListIdentities (r : Request) : M World (Resp (list identityResponse)) :=
  with_me r (fun userID =>
  or_internal (query (ListOAuthIdentitiesByUser userID)) (fun ids =>
    ret (Reply StatusOK
      ((fun i => mkIdentityResponse (oi_Provider i) (oi_ProviderID i) (default "" (oi_Email i))
                   (default "" (oi_DisplayName i)) (default "" (oi_AvatarUrl i))) <$> ids)))).

Definition UnlinkIdentity (r : Request) : M World (Resp string) :=
  with_me r (fun userID =>
    let provider := URLParam r "provider" in
    or_internal (query (CountOAuthIdentitiesByUser userID)) (fun count =>
      if count <=? 1 then ret (Fail StatusBadRequest errCannotUnlinkOnly)
      else or_internal (exec (DeleteOAuthIdentity userID provider)) (fun _ => ret (Reply StatusOK "unlinked")))).

End Handlers.
End AuthUser.

(** ** [handler/admin] *)
Module Admin.
Import AuthStore AuthOrgStore Helpers.

Definition errForbidden : string := "platform admin required".
Definition errInvalidID : string := "invalid id".
Definition errUserNotFound : string := "user not found".

Record userResponse := mkUserResponse {
  ar_ID : string;
  ar_Email : string;
  ar_FirstName : string;
  ar_LastName : string;
  ar_IsPlatformAdmin : bool;
  ar_OnboardingStep : string;
  ar_CreatedAt : string
}.

Record adminOrgResponse := mkAdminOrgResponse {
  ao_ID : string;
  ao_Slug : string;
  ao_Name : string;
  ao_Plan : string;
  ao_MaxMembers : Z;
  ao_CreatedAt : string
}.

Record listResponse (T : Type) := mkListResponse {
  Items : list T;
  Total : Z
}.
Arguments mkListResponse {T}.

Record updateOrgPlanRequest := mkUpdateOrgPlanRequest {
  op_Plan : string;
  op_MaxMembers : Z
}.

(** [parsePagination]: the offset is narrowed to 32 bits. *)
Definition parsePagination (r : Request) : Z * Z :=
  let limit :=
    match Atoi (URLQuery r "limit") with
    | Some n => if (0 <? n) && (n <=? 100) then wrap32 n else 50
    | None => 50
    end in
  let offset :=
    match Atoi (URLQuery r "offset") with
    | Some n => if 0 <=? n then wrap32 n else 0
    | None => 0
    end in
  (limit, offset).

Section Handlers.
Context `{UUIDCodec} `{Validator} (Format : Z -> string).

Definition toUserResponse (u : User) : userResponse :=
  mkUserResponse (uuid_text (u_ID u)) (u_Email u) (default "" (u_FirstName u)) (default "" (u_LastName u))
    (u_IsPlatformAdmin u) (u_OnboardingStep u) (Format (u_CreatedAt u)).

Definition toAdminOrgResponse (o : Organization) : adminOrgResponse :=
  mkAdminOrgResponse (uuid_text (o_ID o)) (o_Slug o) (o_Name o) (o_Plan o) (o_MaxMembers o) (Format (o_CreatedAt o)).

Definition requirePlatformAdmin (r : Request) : M World (result string unit) :=
  match FromContext r with
  | None => ret (Err errForbidden)
  | Some claims =>
      match SubjectUUID claims with
      | None => ret (Err errForbidden)
      | Some userID =>
          try user <- query (GetUserByID userID) catch e => ret (Err errForbidden) ;;
          if u_IsPlatformAdmin user then ret (Ok tt) else ret (Err errForbidden)
      end
  end.

Definition with_platform_admin {A} (r : Request) (k : M World (Resp A)) : M World (Resp A) :=
  try _ <- requirePlatformAdmin r catch e => ret (Fail StatusForbidden e) ;; k.

Definition ListUsers_ (r : Request) : M World (Resp (listResponse userResponse)) :=
  with_platform_admin r (
    let '(limit, offset) := parsePagination r in
    or_internal (query (ListUsers limit offset)) (fun us =>
    or_internal (query CountUsers) (fun total =>
      ret (Reply StatusOK (mkListResponse (toUserResponse <$> us) total))))).

Definition GetUser (r : Request) : M World (Resp userResponse) :=
  with_platform_admin r (
  with_param r "userID" errInvalidID (fun userID =>
    try user <- query (GetUserByID userID) catch e => ret (Fail StatusNotFound errUserNotFound) ;;
    ret (Reply StatusOK (toUserResponse user)))).

(** The body's only field is optional. *)
Definition UpdateUser (r : Request) (body : result string (option bool)) : M World (Resp string) :=
  with_platform_admin r (
  with_param r "userID" errInvalidID (fun userID =>
    match body with
    | Err e => ret (Fail StatusBadRequest e)
    | Ok None => ret (Reply StatusOK "updated")
    | Ok (Some admin) =>
        or_internal (exec (UpdateUserPlatformAdmin userID admin)) (fun _ => ret (Reply StatusOK "updated"))
    end)).

Definition ListOrgs (r : Request) : M World (Resp (listResponse adminOrgResponse)) :=
  with_platform_admin r (
    let '(limit, offset) := parsePagination r in
    or_internal (query (ListOrganizations limit offset)) (fun os =>
    or_internal (query CountOrganizations) (fun total =>
      ret (Reply StatusOK (mkListResponse (toAdminOrgResponse <$> os) total))))).

Definition UpdateOrgPlan (r : Request) (body : result string updateOrgPlanRequest) : M World (Resp adminOrgResponse) :=
  with_platform_admin r (
  with_param r "orgID" errInvalidID (fun orgID =>
  with_body body (fun b =>
      check_field "Plan" [("required", "", tag_required (op_Plan b));
                          ("oneof", "free pro enterprise", tag_oneof plans (op_Plan b))]
      ++ check_field "MaxMembers" [("required", "", negb (op_MaxMembers b =? 0)); ("gte", "1", tag_gte 1 (op_MaxMembers b))])
    (fun body =>
  or_internal (exec (UpdateOrganizationPlan orgID (op_Plan body) (op_MaxMembers body))) (fun org =>
    ret (Reply StatusOK (toAdminOrgResponse org)))))).

End Handlers.
End Admin.

(** ** [handler/audit] *)
Module AuditApi.
Import AuthOrgStore Helpers.

Definition errInvalidOrg : string := "invalid org id".
Definition errInvalidDate : string := "invalid date format, expected RFC3339".

Record auditLogResponse := mkAuditLogResponse {
  lr_ID : string;
  lr_ActorID : string;
  lr_Action : string;
  lr_TargetType : string;
  lr_TargetID : string;
  lr_IPAddress : string;
  lr_CreatedAt : string
}.

Section Handlers.
Context `{UUIDCodec}.

(** The layouts of [time.Parse] and [Format] this package uses: RFC 3339, with
    a fraction for cursors, and dates. *)
Context (Format FormatNano FormatDate : Z -> string) (ParseRFC3339 ParseDate : string -> option Z).

Definition toAuditLogResponse (a : AuditLog) : auditLogResponse :=
  mkAuditLogResponse (uuid_text (al_ID a)) (uuid_String (al_ActorID a)) (al_Action a) (default "" (al_TargetType a))
    (uuid_String (al_TargetID a)) (default "" (al_IpAddress a)) (Format (al_CreatedAt a)).

(** The opening of every handler of this package; the text of the driver's
    error for a subject that is no UUID is abridged. *)
Definition with_org_admin {A} (r : Request) (k : uuid -> M World (Resp A)) : M World (Resp A) :=
  with_param r "orgID" errInvalidOrg (fun orgID =>
    match FromContext r with
    | None => ret (Fail StatusUnauthorized ErrClaimsNotFound)
    | Some claims =>
        match SubjectUUID claims with
        | None => ret (Fail StatusUnauthorized "cannot parse UUID")
        | Some actorID => with_admin orgID actorID (k orgID)
        end
    end).

Definition page_limit : Z := 50.

Definition List_ (r : Request) : M World (Resp (list auditLogResponse * option string)) :=
  with_org_admin r (fun orgID =>
    now <- time_now ;;
    let raw := URLQuery r "cursor" in
    match (if decide (raw = "") then Some now else ParseRFC3339 raw) with
    | None => ret (Fail StatusBadRequest errInvalidDate)
    | Some cursor =>
        let action := URLQuery r "action" in
        or_internal (if decide (action <> "") then query (ListAuditLogsByAction orgID action cursor page_limit)
                     else query (ListAuditLogs orgID cursor page_limit)) (fun logs =>
          let nextCursor := if decide (Z.of_nat (length logs) = page_limit)
                            then FormatNano <$> (al_CreatedAt <$> last logs) else None in
          ret (Reply StatusOK (toAuditLogResponse <$> logs, nextCursor)))
    end).

(** [parseDateRange]: a date that does not parse is ignored; a last day counts
    up to its last second. *)
Definition parseDateRange (r : Request) (now : Z) : Z * Z :=
  let from := match (if decide (URLQuery r "from" = "") then None else ParseDate (URLQuery r "from")) with
              | Some t => t
              | None => now - days 30
              end in
  let to := match (if decide (URLQuery r "to" = "") then None else ParseDate (URLQuery r "to")) with
            | Some t => t + (hours 24 - 1000000)
            | None => now
            end in
  (from, to).

Definition metric_rows (rows : list (Z * Z)) : list (string * Z) :=
  (fun row => (FormatDate (days 1 * row.1), row.2)) <$> rows.

Definition LoginMetrics (r : Request) : M World (Resp (list (string * Z))) :=
  with_org_admin r (fun orgID =>
    now <- time_now ;;
    let '(from, to) := parseDateRange r now in
    or_internal (query (CountLoginsByDay orgID from to)) (fun rows => ret (Reply StatusOK (metric_rows rows)))).

Definition FailedLoginMetrics (r : Request) : M World (Resp (list (string * Z))) :=
  with_org_admin r (fun orgID =>
    now <- time_now ;;
    let '(from, to) := parseDateRange r now in
    or_internal (query (CountFailedLoginsByDay from to)) (fun rows => ret (Reply StatusOK (metric_rows rows)))).

End Handlers.
End AuditApi.

(** ** [handler/webhook] *)
Module WebhookApi.
Import AuthOrgStore Helpers.

Definition defaultDeliveryLimit : Z := 50.
Definition secretPrefix : string := "whsec_".
Definition secretBytes : nat := 32.
Definition errInvalidID : string := "invalid id".

Record webhookResponse := mkWebhookResponse {
  wr_ID : string;
  wr_OrgID : string;
  wr_URL : string;
  wr_Events : list string;
  wr_Active : bool;
  wr_CreatedAt : string
}.

Record deliveryResponse := mkDeliveryResponse {
  dr_ID : string;
  dr_Event : string;
  dr_ResponseStatus : Z;
  dr_Attempts : Z;
  dr_DeliveredAt : string;
  dr_CreatedAt : string
}.

(** [createWebhookRequest] and [updateWebhookRequest]; a nil slice is [None]. *)
Record webhookRequest := mkWebhookRequest {
  wq_URL : string;
  wq_Events : option (list string);
  wq_Active : bool
}.

Section Handlers.
Context `{UUIDCodec} `{Validator} (Format : Z -> string).

Definition toWebhookResponse (w : WebhookSubscription) : webhookResponse :=
  mkWebhookResponse (uuid_text (ws_ID w)) (uuid_text (ws_OrgID w)) (ws_Url w) (ws_Events w) (ws_Active w)
    (Format (ws_CreatedAt w)).

Definition toDeliveryResponse (d : WebhookDelivery) : deliveryResponse :=
  mkDeliveryResponse (uuid_text (wd_ID d)) (wd_Event d) (default 0 (wd_ResponseStatus d)) (wd_Attempts d)
    (match wd_DeliveredAt d with Some t => Format t | None => "" end) (Format (wd_CreatedAt d)).

Definition generateSecret : M World (option string) :=
  b <- rand_read secretBytes ;;
  ret ((fun b => secretPrefix +:+ Sha256.hex b) <$> b).

Definition webhook_tags (b : webhookRequest) : list FieldError :=
  check_field "URL" [("required", "", tag_required (wq_URL b)); ("url", "", tag_url (wq_URL b));
                     ("max", "500", tag_max 500 (wq_URL b))]
  ++ check_field "Events" [("required", "", bool_decide (is_Some (wq_Events b)));
                           ("min", "1", match wq_Events b with Some (_ :: _) => true | _ => false end)].

Definition Create (r : Request) (body : result string webhookRequest) : M World (Resp (webhookResponse * string)) :=
  with_user r (fun actorID =>
  with_org r (fun orgID =>
  with_admin orgID actorID (
  with_body body webhook_tags (fun body =>
    s <- generateSecret ;;
    match s with
    | None => ret (Fail StatusInternalServerError ErrInternal)
    | Some secret =>
        or_internal (insert_stmt (CreateWebhookSubscription orgID (wq_URL body) secret (default [] (wq_Events body))))
          (fun sub => ret (Reply StatusCreated (toWebhookResponse sub, secret)))
    end)))).

Definition List_ (r : Request) : M World (Resp (list webhookResponse)) :=
  with_org r (fun orgID =>
  or_internal (query (ListWebhookSubscriptions orgID)) (fun subs =>
    ret (Reply StatusOK (toWebhookResponse <$> subs)))).

Definition ListDeliveries (r : Request) : M World (Resp (list deliveryResponse)) :=
  with_param r "whID" errInvalidID (fun whID =>
  or_internal (query (ListWebhookDeliveries whID defaultDeliveryLimit)) (fun ds =>
    ret (Reply StatusOK (toDeliveryResponse <$> ds)))).

Definition Update (r : Request) (body : result string webhookRequest) : M World (Resp webhookResponse) :=
  with_user r (fun actorID =>
  with_org r (fun orgID =>
  with_param r "whID" errInvalidID (fun whID =>
  with_admin orgID actorID (
  with_body body webhook_tags (fun body =>
  or_internal (exec (UpdateWebhookSubscription whID (wq_URL body) (default [] (wq_Events body)) (wq_Active body)))
    (fun sub => ret (Reply StatusOK (toWebhookResponse sub)))))))).

Definition Delete (r : Request) : M World (Resp string) :=
  with_user r (fun actorID =>
  with_org r (fun orgID =>
  with_param r "whID" errInvalidID (fun whID =>
  with_admin orgID actorID (
  or_internal (exec (DeleteWebhookSubscription whID)) (fun _ => ret (Reply StatusOK "deleted")))))).

End Handlers.
End WebhookApi.
