(* ===== verification/Dispatcher.v ===== *)
(** Webhook delivery of the auth service:
    [services/auth/internal/service/webhook/dispatcher.go]. *)

From S2P Require Import Prelude GoStr Sha256 AuthModels AuthStore AuthOrgStore.

Module Dispatcher.
Import AuthOrgStore.

(** * Definitions *)

Definition maxAttempts : Z := 5.
Definition maxResponseBodyLen : nat := 1024.
Definition signaturePrefix : string := "sha256=".

Record Event := mkEvent {
  ev_OrgID : uuid;
  ev_Action : string;
  ev_Payload : option string   (* json.Marshal of the payload *)
}.

Definition Sign (payload secret : string) : string :=
  signaturePrefix +:+ Sha256.hex (Sha256.hmac secret payload).

Definition isSuccessStatus (status : Z) : bool := (200 <=? status) && (status <? 300).

(** [Dispatch]: one delivery per active subscription of the event. *)
Definition Dispatch (encode : list string -> option string) (e : Event) : M World unit :=
  try subs <- query (ListActiveWebhooksByEvent encode (ev_OrgID e) [ev_Action e]) catch e => ret tt ;;
  match ev_Payload e with
  | None => ret tt
  | Some payload =>
      for_range subs (fun sub =>
        do insert_stmt (CreateWebhookDelivery (ws_ID sub) (ev_Action e) payload 0 None) ;; ret tt)
  end.

(** [deliver]: the status and the first bytes of the body; [None] is an error,
    for which the code's status is 0 and its body empty. *)
Definition deliver (sub : WebhookSubscription) (del : WebhookDelivery) : M World (option (Z * string)) :=
  resp <- http_do (mkSent (ws_Url sub) (wd_Event del) (Sign (wd_Payload del) (ws_Secret sub)) (wd_Payload del)) ;;
  ret (match resp with
       | None => None
       | Some (status, body) => Some (status, String.substring 0 maxResponseBodyLen body)
       end).

Definition recordFailure (deliveryID : uuid) (status : Z) (body : string) (attempts now : Z) : M World unit :=
  let nextRetry := if attempts <? maxAttempts then Some (now + minutes (Z.shiftl 1 attempts)) else None in
  let respStatus := if 0 <? status then Some (wrap32 status) else None in
  let respBody := if 0 <? status then Some body else None in
  let delivered := if maxAttempts <=? attempts then Some now else None in
  do exec (UpdateWebhookDeliveryResult
       (mkUpdateWebhookDeliveryResultParams deliveryID respStatus respBody delivered attempts nextRetry)) ;;
  ret tt.

Definition processDelivery (sub : WebhookSubscription) (del : WebhookDelivery) : M World unit :=
  resp <- deliver sub del ;;
  now <- time_now ;;
  let attempts := wrap32 (wd_Attempts del + 1) in
  match resp with
  | Some (status, body) =>
      if isSuccessStatus status then
        do exec (UpdateWebhookDeliveryResult
             (mkUpdateWebhookDeliveryResultParams (wd_ID del) (Some (wrap32 status)) (Some body) (Some now) attempts None)) ;;
        ret tt
      else recordFailure (wd_ID del) status body attempts now
  | None => recordFailure (wd_ID del) 0 "" attempts now
  end.

Definition DeliverPending (batchSize : Z) : M World unit :=
  try deliveries <- query (ListPendingDeliveries batchSize) catch e => ret tt ;;
  for_range deliveries (fun del =>
    try sub <- query (GetWebhookSubscription (wd_SubscriptionID del)) catch e => ret tt ;;
    processDelivery sub del).

End Dispatcher.
