(* ===== verification/Router.v ===== *)
(** The route registration of [services/shared/go/router] ([router.go],
    [group.go]): groups of subroutes with a middleware stack, registered on one
    mux.

    [chi] is the mux: a table from method and path pattern to handler, where a
    later registration replaces an earlier one, and a group's middlewares wrap
    its handlers, the first outermost. *)

From S2P Require Import Prelude GoStr.

(** * Definitions *)

Module Router.

Definition GET : string := "GET".
Definition POST : string := "POST".
Definition PUT : string := "PUT".
Definition DELETE : string := "DELETE".
Definition PATCH : string := "PATCH".
Definition HEAD : string := "HEAD".

Definition methods : list string := [GET; POST; PUT; DELETE; PATCH; HEAD].

Section Routes.
Context {H : Type}.

Record Subroute := mkSubroute {
  Method : string;
  Path : string;
  Handler : H
}.

(** The latest registration is at the head. *)
Definition Mux : Type := list (string * string * H).

Fixpoint lookup_route (k : string * string) (m : Mux) : option H :=
  match m with
  | [] => None
  | (k', h) :: m => if bool_decide (k' = k) then Some h else lookup_route k m
  end.

Record Group := mkGroup {
  mux : Mux;
  mws : list (H -> H)
}.

Definition NewGroup (m : Mux) : Group := mkGroup m [].
Definition Use (mw : H -> H) (g : Group) : Group := mkGroup (mux g) (mws g ++ [mw]).

(** What a group does to a handler. *)
Definition wrapped (g : Group) (h : H) : H := foldr (fun mw h => mw h) h (mws g).

Definition route_error (s : Subroute) : string * string := (Path s, Method s).

(** [Create]: the mux with the routes, and the errors for unknown methods. *)
Fixpoint Create (g : Group) (m : Mux) (subroutes : list Subroute) : Mux * list (string * string) :=
  match subroutes with
  | [] => (m, [])
  | s :: rest =>
      if bool_decide (Method s ∈ methods)
      then Create g ((Method s, Path s, wrapped g (Handler s)) :: m) rest
      else let '(m, errs) := Create g m rest in (m, route_error s :: errs)
  end.

(** ** [router.go]: the router is a mux with a global stack of middlewares; chi
    refuses (by a panic, [None]) a middleware added after the first route. *)
Record Router := mkRouter {
  r_mux : Mux;
  r_mws : list (H -> H)
}.

Definition New : Router := mkRouter [] [].
Definition Router_Use (mw : list (H -> H)) (r : Router) : option Router :=
  match r_mux r, mw with
  | _ :: _, _ :: _ => None
  | _, _ => Some (mkRouter (r_mux r) (r_mws r ++ mw))
  end.
Definition Router_Group (r : Router) : Group := NewGroup (r_mux r).

Definition handle (method path : string) (h : H) (r : Router) : Router := mkRouter ((method, path, h) :: r_mux r) (r_mws r).
Definition Get : string -> H -> Router -> Router := handle GET.
Definition Post : string -> H -> Router -> Router := handle POST.
Definition Put : string -> H -> Router -> Router := handle PUT.
Definition Delete : string -> H -> Router -> Router := handle DELETE.
Definition Patch : string -> H -> Router -> Router := handle PATCH.
Definition Head : string -> H -> Router -> Router := handle HEAD.

(** [Handler]: the middlewares run for every request, matched or not. *)
Definition Router_Handler (notFound : H) (r : Router) (k : string * string) : H :=
  foldr (fun mw h => mw h) (default notFound (lookup_route k (r_mux r))) (r_mws r).

End Routes.
Arguments Router : clear implicits.
Arguments Subroute : clear implicits.
Arguments Mux : clear implicits.
Arguments Group : clear implicits.

End Router.

(** * Lemmas *)

Module RouterFacts.
Import Router.

Section Routes.
Context {H : Type}.

(** A route answers behind the global middlewares, and replaces only itself. *)
Lemma handle_Handler (nf : H) method path h r k :
  Router_Handler nf (handle method path h r) k =
  if decide ((method, path) = k) then foldr (fun mw h => mw h) h (r_mws r) else Router_Handler nf r k.
Proof. unfold Router_Handler, handle. cbn. by case_bool_decide; case_decide. Qed.

(** Middlewares added in two steps run in the order they were added. *)
Lemma Use_Use mw1 mw2 (r : Router H) :
  r_mux r = [] -> (Router_Use mw1 r ≫= Router_Use mw2) = Router_Use (mw1 ++ mw2) r.
Proof. unfold Router_Use. intros ->. cbn. by rewrite <-app_assoc. Qed.

Implicit Types (g : Group H) (m : Mux H) (l : list (Subroute H)).

Definition key (s : Subroute H) : string * string := (Method s, Path s).

(** Without unknown methods every subroute is registered and nothing fails. *)
Lemma Create_ok g m l :
  Forall (fun s => Method s ∈ methods) l ->
  Create g m l = (reverse ((fun s => (key s, wrapped g (Handler s))) <$> l) ++ m, []).
Proof.
  intros Hl. revert m. induction Hl as [|s l Hs _ IH]; intros m; [done|]. cbn [Create].
  rewrite bool_decide_true by done. rewrite IH, fmap_cons, reverse_cons, <-app_assoc. done.
Qed.

(** The errors are exactly the subroutes with an unknown method. *)
Lemma Create_errors g m l :
  (Create g m l).2 = route_error <$> filter (fun s => Method s ∉ methods) l.
Proof.
  revert m. induction l as [|s l IH]; intros m; [done|]. cbn [Create].
  destruct (decide (Method s ∈ methods)) as [Hs|Hs].
  - rewrite bool_decide_true, filter_cons_False by (done || tauto). apply IH.
  - rewrite bool_decide_false, filter_cons_True by done.
    specialize (IH m). destruct (Create g m l) as [m' errs]. cbn in *. by rewrite IH.
Qed.

Lemma lookup_route_app k m1 m2 :
  lookup_route k (m1 ++ m2) = match lookup_route k m1 with Some h => Some h | None => lookup_route k m2 end.
Proof. induction m1 as [|[k' h] m1 IH]; [done|]. cbn. by case_bool_decide. Qed.

Lemma lookup_route_None k m : k ∉ m.*1 -> lookup_route k m = None.
Proof.
  induction m as [|[k' h] m IH]; [done|]. cbn. rewrite not_elem_of_cons. intros [Hne Hk].
  rewrite bool_decide_false by congruence. by apply IH.
Qed.

(** Routes with distinct keys are all reachable, behind the group's middlewares;
    routes registered before under other keys stay. *)
Lemma Create_lookup g m l s :
  Forall (fun s => Method s ∈ methods) l -> NoDup (key <$> l) -> s ∈ l ->
  lookup_route (key s) (Create g m l).1 = Some (wrapped g (Handler s)).
Proof.
  intros Hl Hnd Hs. rewrite Create_ok by done. cbn [fst]. rewrite lookup_route_app. clear Hl.
  enough (lookup_route (key s) (reverse ((fun s => (key s, wrapped g (Handler s))) <$> l)) = Some (wrapped g (Handler s)))
    as -> by done.
  induction l as [|s' l IH]; [by apply not_elem_of_nil in Hs|].
  rewrite fmap_cons. cbn in Hnd. apply NoDup_cons in Hnd as [Hn Hnd]. rewrite reverse_cons, lookup_route_app.
  apply elem_of_cons in Hs as [->|Hs]; [|by rewrite IH].
  rewrite lookup_route_None; [cbn; by rewrite bool_decide_true|].
  rewrite fmap_reverse, <-list_fmap_compose. by rewrite elem_of_reverse.
Qed.

Lemma Create_keeps g m l k :
  Forall (fun s => Method s ∈ methods) l -> k ∉ key <$> l -> lookup_route k (Create g m l).1 = lookup_route k m.
Proof.
  intros Hl Hk. rewrite Create_ok by done. cbn [fst]. rewrite lookup_route_app.
  rewrite lookup_route_None; [done|]. rewrite fmap_reverse, <-list_fmap_compose. by rewrite elem_of_reverse.
Qed.

End Routes.
End RouterFacts.
