(* ===== verification/AuthRoutes.v ===== *)
(** The routes of the auth service ([services/auth/internal/routes]): every
    endpoint with its handler, the JWT middleware in front of the authenticated
    group, and the service as a transition system.

    The rate limiter in front of each group keeps its state in Redis and can
    only refuse a request (Middleware.v models it): here its verdict is a
    parameter, and a refused request changes nothing. *)

From S2P Require Import Prelude GoStr Sha256 GoCodec HttpUtil Scope Services AuthModels AuthStore.
From S2P Require Import AuthOrgStore AuthService AuthSession AuthMfa AuthOauth AuthOrgs AuthAdmin Router.

(** * Definitions *)

Module AuthRoutes.
Import Token MfaSvc Router.

(** ** [handler/health/health.go]; [up] is whether the pool answers a ping *)
Record HealthResponse := mkHealthResponse {
  hr_Status : string;
  hr_Reason : string
}.

Definition StatusServiceUnavailable : Z := 503.

Definition Liveness : Resp HealthResponse := Reply StatusOK (mkHealthResponse "ok" "").
Definition Readiness (up : bool) : Resp HealthResponse :=
  if up then Reply StatusOK (mkHealthResponse "ready" "")
  else Reply StatusServiceUnavailable (mkHealthResponse "unavailable" "db unreachable").

(** ** [routes.go]: what the handlers are built with *)
Record Deps := mkDeps {
  OAuth : AuthOauth.Handler;
  MFA : AuthMfa.Handler;
  PubKey : string;
  JWTIssuer : string;
  Format : Z -> string;
  FormatNano : Z -> string;
  FormatDate : Z -> string;
  ParseRFC3339 : string -> option Z;
  ParseDate : string -> option Z
}.

(** The endpoints outside the authenticated group ([health.go], [oauth.go],
    [session.go], [mfa.go]), with their decoded bodies. *)
Inductive PublicCall : Type :=
| GET_livez
| GET_readyz (up : bool)
| GET_jwks
| GET_invite
| GET_oauth_start
| GET_oauth_callback
| POST_token_refresh (body : option string)
| POST_logout
| POST_mfa_challenge (body : result string AuthMfa.challengeRequest)
| POST_backup_verify (body : result string AuthMfa.challengeRequest).

(** The endpoints of the authenticated group ([authenticated.go] and the
    subroutes it appends). *)
Inductive AuthCall : Type :=
| POST_logout_all
| GET_sessions
| DELETE_session
| POST_mfa_setup
| POST_mfa_verify (body : result string string)
| POST_mfa_disable
| POST_backup_generate
| GET_me
| PUT_me (body : result string AuthUser.updateProfileRequest)
| PUT_onboarding (body : result string string)
| GET_identities
| DELETE_identity
| POST_org (body : result string AuthOrg.createOrgRequest)
| GET_orgs
| GET_org
| PUT_org (body : result string AuthOrg.updateOrgRequest)
| DELETE_org
| GET_org_members
| PUT_org_member (body : result string string)
| DELETE_org_member
| POST_transfer (body : result string string)
| POST_invite (body : result string AuthInvite.createInviteRequest)
| GET_invites
| DELETE_invite
| POST_invite_accept (body : result string string)
| POST_team (body : result string AuthTeam.teamRequest)
| GET_teams
| GET_team
| PUT_team (body : result string AuthTeam.teamRequest)
| DELETE_team
| GET_team_members
| POST_team_member (body : result string AuthTeam.addMemberRequest)
| PUT_team_member (body : result string string)
| DELETE_team_member
| GET_audit_logs
| GET_login_metrics
| GET_failed_login_metrics
| POST_webhook (body : result string WebhookApi.webhookRequest)
| GET_webhooks
| PUT_webhook (body : result string WebhookApi.webhookRequest)
| DELETE_webhook
| GET_deliveries
| GET_admin_users
| GET_admin_user
| PUT_admin_user (body : result string (option bool))
| GET_admin_orgs
| PUT_admin_org (body : result string Admin.updateOrgPlanRequest).

Section Serve.
Context `{UUIDCodec} `{Jwt} `{NetAddr} `{Validator} `{Encryption.AEAD} `{Bcrypt} `{Totp} `{Collation}.

(** The status a handler answers with. *)
Definition status {A} (c : M World (Resp A)) : M World Z := r <- c ;; ret (resp_status r).

Definition serve_public (d : Deps) (r : Request) (c : PublicCall) : M World Z :=
  match c with
  | GET_livez => status (ret Liveness)
  | GET_readyz up => status (ret (Readiness up))
  | GET_jwks => status (ret (AuthOauth.JWKS (OAuth d)))
  | GET_invite => status (AuthInvite.GetByToken (Format d) r)
  | GET_oauth_start => status (AuthOauth.Start (OAuth d) r)
  | GET_oauth_callback => status (AuthOauth.Callback (OAuth d) r)
  | POST_token_refresh b => status (AuthSession.Refresh (AuthOauth.tokenSvc (OAuth d)) r b)
  | POST_logout => status (AuthSession.Logout r)
  | POST_mfa_challenge b => status (AuthMfa.Challenge (MFA d) r b)
  | POST_backup_verify b => status (AuthMfa.BackupCodeVerify (MFA d) r b)
  end.

Definition serve_auth (d : Deps) (r : Request) (c : AuthCall) : M World Z :=
  match c with
  | POST_logout_all => status (AuthSession.LogoutAll r)
  | GET_sessions => status (AuthSession.ListSessions (Format d) r)
  | DELETE_session => status (AuthSession.RevokeSession_ r)
  | POST_mfa_setup => status (AuthMfa.Setup (MFA d) r)
  | POST_mfa_verify b => status (AuthMfa.Verify (MFA d) r b)
  | POST_mfa_disable => status (AuthMfa.Disable r)
  | POST_backup_generate => status (AuthMfa.RegenerateBackupCodes r)
  | GET_me => status (AuthUser.GetMe (Format d) r)
  | PUT_me b => status (AuthUser.UpdateMe (Format d) r b)
  | PUT_onboarding b => status (AuthUser.UpdateOnboarding r b)
  | GET_identities => status (AuthUser.ListIdentities r)
  | DELETE_identity => status (AuthUser.UnlinkIdentity r)
  | POST_org b => status (AuthOrg.Create (Format d) r b)
  | GET_orgs => status (AuthOrg.List_ (Format d) r)
  | GET_org => status (AuthOrg.Get (Format d) r)
  | PUT_org b => status (AuthOrg.Update (Format d) r b)
  | DELETE_org => status (AuthOrg.Delete r)
  | GET_org_members => status (AuthOrg.ListMembers (Format d) r)
  | PUT_org_member b => status (AuthOrg.UpdateMemberRole r b)
  | DELETE_org_member => status (AuthOrg.RemoveMember r)
  | POST_transfer b => status (AuthOrg.TransferOwnership r b)
  | POST_invite b => status (AuthInvite.Create (Format d) r b)
  | GET_invites => status (AuthInvite.ListOrgInvites_ (Format d) r)
  | DELETE_invite => status (AuthInvite.Revoke r)
  | POST_invite_accept b => status (AuthInvite.Accept r b)
  | POST_team b => status (AuthTeam.Create (Format d) r b)
  | GET_teams => status (AuthTeam.List_ (Format d) r)
  | GET_team => status (AuthTeam.Get (Format d) r)
  | PUT_team b => status (AuthTeam.Update (Format d) r b)
  | DELETE_team => status (AuthTeam.Delete r)
  | GET_team_members => status (AuthTeam.ListMembers (Format d) r)
  | POST_team_member b => status (AuthTeam.AddMember r b)
  | PUT_team_member b => status (AuthTeam.UpdateMemberRole r b)
  | DELETE_team_member => status (AuthTeam.RemoveMember r)
  | GET_audit_logs => status (AuditApi.List_ (Format d) (FormatNano d) (ParseRFC3339 d) r)
  | GET_login_metrics => status (AuditApi.LoginMetrics (FormatDate d) (ParseDate d) r)
  | GET_failed_login_metrics => status (AuditApi.FailedLoginMetrics (FormatDate d) (ParseDate d) r)
  | POST_webhook b => status (WebhookApi.Create (Format d) r b)
  | GET_webhooks => status (WebhookApi.List_ (Format d) r)
  | PUT_webhook b => status (WebhookApi.Update (Format d) r b)
  | DELETE_webhook => status (WebhookApi.Delete r)
  | GET_deliveries => status (WebhookApi.ListDeliveries (Format d) r)
  | GET_admin_users => status (Admin.ListUsers_ (Format d) r)
  | GET_admin_user => status (Admin.GetUser (Format d) r)
  | PUT_admin_user b => status (Admin.UpdateUser r b)
  | GET_admin_orgs => status (Admin.ListOrgs (Format d) r)
  | PUT_admin_org b => status (Admin.UpdateOrgPlan (Format d) r b)
  end.

(** [registerAuthenticated]: the JWT middleware runs first; requests reach the
    router without claims. *)
Definition serve_authenticated (d : Deps) (r : Request) (c : AuthCall) : M World Z :=
  now <- time_now ;;
  match AuthMiddleware.Auth (PubKey d) (JWTIssuer d) now r with
  | Err (st, _) => ret st
  | Ok r => serve_auth d r c
  end.

(** ** The routing table *)

(** A request with its decoded body. *)
Inductive Call : Type :=
| Public (c : PublicCall)
| Private (c : AuthCall).

Definition StatusTooManyRequests : Z := 429.

Definition Handle : Type := Request -> Call -> M World Z.

(** A handler never sees the call of another route. *)
Definition unmatched : M World Z := ret StatusNotFound.

(** The method and path pattern of each call. *)
Definition route_key (c : Call) : string * string :=
  match c with
  | Public GET_livez => (GET, "/livez")
  | Public (GET_readyz _) => (GET, "/readyz")
  | Public GET_jwks => (GET, "/auth/.well-known/jwks.json")
  | Public GET_invite => (GET, "/auth/invites/{token}")
  | Public GET_oauth_start => (GET, "/auth/oauth/{provider}/start")
  | Public GET_oauth_callback => (GET, "/auth/oauth/{provider}/callback")
  | Public (POST_token_refresh _) => (POST, "/auth/token/refresh")
  | Public POST_logout => (POST, "/auth/logout")
  | Public (POST_mfa_challenge _) => (POST, "/auth/mfa/totp/challenge")
  | Public (POST_backup_verify _) => (POST, "/auth/mfa/backup-codes/verify")
  | Private POST_logout_all => (POST, "/auth/logout/all")
  | Private GET_sessions => (GET, "/auth/sessions")
  | Private DELETE_session => (DELETE, "/auth/sessions/{sessionID}")
  | Private POST_mfa_setup => (POST, "/auth/mfa/totp/setup")
  | Private (POST_mfa_verify _) => (POST, "/auth/mfa/totp/verify")
  | Private POST_mfa_disable => (POST, "/auth/mfa/totp/disable")
  | Private POST_backup_generate => (POST, "/auth/mfa/backup-codes/generate")
  | Private GET_me => (GET, "/auth/me")
  | Private (PUT_me _) => (PUT, "/auth/me")
  | Private (PUT_onboarding _) => (PUT, "/auth/me/onboarding")
  | Private GET_identities => (GET, "/auth/me/identities")
  | Private DELETE_identity => (DELETE, "/auth/me/identities/{provider}")
  | Private (POST_org _) => (POST, "/auth/orgs")
  | Private GET_orgs => (GET, "/auth/orgs")
  | Private GET_org => (GET, "/auth/orgs/{orgID}")
  | Private (PUT_org _) => (PUT, "/auth/orgs/{orgID}")
  | Private DELETE_org => (DELETE, "/auth/orgs/{orgID}")
  | Private GET_org_members => (GET, "/auth/orgs/{orgID}/members")
  | Private (PUT_org_member _) => (PUT, "/auth/orgs/{orgID}/members/{userID}")
  | Private DELETE_org_member => (DELETE, "/auth/orgs/{orgID}/members/{userID}")
  | Private (POST_transfer _) => (POST, "/auth/orgs/{orgID}/transfer")
  | Private (POST_invite _) => (POST, "/auth/orgs/{orgID}/invites")
  | Private GET_invites => (GET, "/auth/orgs/{orgID}/invites")
  | Private DELETE_invite => (DELETE, "/auth/orgs/{orgID}/invites/{inviteID}")
  | Private (POST_invite_accept _) => (POST, "/auth/invites/accept")
  | Private (POST_team _) => (POST, "/auth/orgs/{orgID}/teams")
  | Private GET_teams => (GET, "/auth/orgs/{orgID}/teams")
  | Private GET_team => (GET, "/auth/orgs/{orgID}/teams/{teamID}")
  | Private (PUT_team _) => (PUT, "/auth/orgs/{orgID}/teams/{teamID}")
  | Private DELETE_team => (DELETE, "/auth/orgs/{orgID}/teams/{teamID}")
  | Private GET_team_members => (GET, "/auth/orgs/{orgID}/teams/{teamID}/members")
  | Private (POST_team_member _) => (POST, "/auth/orgs/{orgID}/teams/{teamID}/members")
  | Private (PUT_team_member _) => (PUT, "/auth/orgs/{orgID}/teams/{teamID}/members/{userID}")
  | Private DELETE_team_member => (DELETE, "/auth/orgs/{orgID}/teams/{teamID}/members/{userID}")
  | Private GET_audit_logs => (GET, "/auth/orgs/{orgID}/audit-logs")
  | Private GET_login_metrics => (GET, "/auth/orgs/{orgID}/metrics/logins")
  | Private GET_failed_login_metrics => (GET, "/auth/orgs/{orgID}/metrics/failed-logins")
  | Private (POST_webhook _) => (POST, "/auth/orgs/{orgID}/webhooks")
  | Private GET_webhooks => (GET, "/auth/orgs/{orgID}/webhooks")
  | Private (PUT_webhook _) => (PUT, "/auth/orgs/{orgID}/webhooks/{whID}")
  | Private DELETE_webhook => (DELETE, "/auth/orgs/{orgID}/webhooks/{whID}")
  | Private GET_deliveries => (GET, "/auth/orgs/{orgID}/webhooks/{whID}/deliveries")
  | Private GET_admin_users => (GET, "/auth/admin/users")
  | Private GET_admin_user => (GET, "/auth/admin/users/{userID}")
  | Private (PUT_admin_user _) => (PUT, "/auth/admin/users/{userID}")
  | Private GET_admin_orgs => (GET, "/auth/admin/orgs")
  | Private (PUT_admin_org _) => (PUT, "/auth/admin/orgs/{orgID}")
  end.

Section Table.
Context (allow : string -> Request -> bool).

(** [ratelimit.RateLimit], with the verdict on the request. *)
Definition RateLimit (prefix : string) (h : Handle) : Handle := fun r c =>
  if allow prefix r then h r c else ret StatusTooManyRequests.

(** [authmw.Auth] as a middleware *)
Definition AuthHandler (d : Deps) (h : Handle) : Handle := fun r c =>
  now <- time_now ;;
  match AuthMiddleware.Auth (PubKey d) (JWTIssuer d) now r with
  | Err (st, _) => ret st
  | Ok r => h r c
  end.

(** [authenticated.go] *)
Definition sessionAuthSubroutes (d : Deps) : list (Subroute Handle) :=
  [
   mkSubroute POST "/auth/logout/all" (fun r c => match c with Private POST_logout_all => status (AuthSession.LogoutAll r) | _ => unmatched end);
   mkSubroute GET "/auth/sessions" (fun r c => match c with Private GET_sessions => status (AuthSession.ListSessions (Format d) r) | _ => unmatched end);
   mkSubroute DELETE "/auth/sessions/{sessionID}" (fun r c => match c with Private DELETE_session => status (AuthSession.RevokeSession_ r) | _ => unmatched end)
  ].

(** [mfa.go] *)
Definition mfaAuthSubroutes (d : Deps) : list (Subroute Handle) :=
  [
   mkSubroute POST "/auth/mfa/totp/setup" (fun r c => match c with Private POST_mfa_setup => status (AuthMfa.Setup (MFA d) r) | _ => unmatched end);
   mkSubroute POST "/auth/mfa/totp/verify" (fun r c => match c with Private (POST_mfa_verify b) => status (AuthMfa.Verify (MFA d) r b) | _ => unmatched end);
   mkSubroute POST "/auth/mfa/totp/disable" (fun r c => match c with Private POST_mfa_disable => status (AuthMfa.Disable r) | _ => unmatched end);
   mkSubroute POST "/auth/mfa/backup-codes/generate" (fun r c => match c with Private POST_backup_generate => status (AuthMfa.RegenerateBackupCodes r) | _ => unmatched end)
  ].

(** [user.go] *)
Definition userSubroutes (d : Deps) : list (Subroute Handle) :=
  [
   mkSubroute GET "/auth/me" (fun r c => match c with Private GET_me => status (AuthUser.GetMe (Format d) r) | _ => unmatched end);
   mkSubroute PUT "/auth/me" (fun r c => match c with Private (PUT_me b) => status (AuthUser.UpdateMe (Format d) r b) | _ => unmatched end);
   mkSubroute PUT "/auth/me/onboarding" (fun r c => match c with Private (PUT_onboarding b) => status (AuthUser.UpdateOnboarding r b) | _ => unmatched end);
   mkSubroute GET "/auth/me/identities" (fun r c => match c with Private GET_identities => status (AuthUser.ListIdentities r) | _ => unmatched end);
   mkSubroute DELETE "/auth/me/identities/{provider}" (fun r c => match c with Private DELETE_identity => status (AuthUser.UnlinkIdentity r) | _ => unmatched end)
  ].

(** [org.go] *)
Definition orgSubroutes (d : Deps) : list (Subroute Handle) :=
  [
   mkSubroute POST "/auth/orgs" (fun r c => match c with Private (POST_org b) => status (AuthOrg.Create (Format d) r b) | _ => unmatched end);
   mkSubroute GET "/auth/orgs" (fun r c => match c with Private GET_orgs => status (AuthOrg.List_ (Format d) r) | _ => unmatched end);
   mkSubroute GET "/auth/orgs/{orgID}" (fun r c => match c with Private GET_org => status (AuthOrg.Get (Format d) r) | _ => unmatched end);
   mkSubroute PUT "/auth/orgs/{orgID}" (fun r c => match c with Private (PUT_org b) => status (AuthOrg.Update (Format d) r b) | _ => unmatched end);
   mkSubroute DELETE "/auth/orgs/{orgID}" (fun r c => match c with Private DELETE_org => status (AuthOrg.Delete r) | _ => unmatched end);
   mkSubroute GET "/auth/orgs/{orgID}/members" (fun r c => match c with Private GET_org_members => status (AuthOrg.ListMembers (Format d) r) | _ => unmatched end);
   mkSubroute PUT "/auth/orgs/{orgID}/members/{userID}" (fun r c => match c with Private (PUT_org_member b) => status (AuthOrg.UpdateMemberRole r b) | _ => unmatched end);
   mkSubroute DELETE "/auth/orgs/{orgID}/members/{userID}" (fun r c => match c with Private DELETE_org_member => status (AuthOrg.RemoveMember r) | _ => unmatched end);
   mkSubroute POST "/auth/orgs/{orgID}/transfer" (fun r c => match c with Private (POST_transfer b) => status (AuthOrg.TransferOwnership r b) | _ => unmatched end)
  ].

(** [invite.go] *)
Definition inviteSubroutes (d : Deps) : list (Subroute Handle) :=
  [
   mkSubroute POST "/auth/orgs/{orgID}/invites" (fun r c => match c with Private (POST_invite b) => status (AuthInvite.Create (Format d) r b) | _ => unmatched end);
   mkSubroute GET "/auth/orgs/{orgID}/invites" (fun r c => match c with Private GET_invites => status (AuthInvite.ListOrgInvites_ (Format d) r) | _ => unmatched end);
   mkSubroute DELETE "/auth/orgs/{orgID}/invites/{inviteID}" (fun r c => match c with Private DELETE_invite => status (AuthInvite.Revoke r) | _ => unmatched end);
   mkSubroute POST "/auth/invites/accept" (fun r c => match c with Private (POST_invite_accept b) => status (AuthInvite.Accept r b) | _ => unmatched end)
  ].

(** [team.go] *)
Definition teamSubroutes (d : Deps) : list (Subroute Handle) :=
  [
   mkSubroute POST "/auth/orgs/{orgID}/teams" (fun r c => match c with Private (POST_team b) => status (AuthTeam.Create (Format d) r b) | _ => unmatched end);
   mkSubroute GET "/auth/orgs/{orgID}/teams" (fun r c => match c with Private GET_teams => status (AuthTeam.List_ (Format d) r) | _ => unmatched end);
   mkSubroute GET "/auth/orgs/{orgID}/teams/{teamID}" (fun r c => match c with Private GET_team => status (AuthTeam.Get (Format d) r) | _ => unmatched end);
   mkSubroute PUT "/auth/orgs/{orgID}/teams/{teamID}" (fun r c => match c with Private (PUT_team b) => status (AuthTeam.Update (Format d) r b) | _ => unmatched end);
   mkSubroute DELETE "/auth/orgs/{orgID}/teams/{teamID}" (fun r c => match c with Private DELETE_team => status (AuthTeam.Delete r) | _ => unmatched end);
   mkSubroute GET "/auth/orgs/{orgID}/teams/{teamID}/members" (fun r c => match c with Private GET_team_members => status (AuthTeam.ListMembers (Format d) r) | _ => unmatched end);
   mkSubroute POST "/auth/orgs/{orgID}/teams/{teamID}/members" (fun r c => match c with Private (POST_team_member b) => status (AuthTeam.AddMember r b) | _ => unmatched end);
   mkSubroute PUT "/auth/orgs/{orgID}/teams/{teamID}/members/{userID}" (fun r c => match c with Private (PUT_team_member b) => status (AuthTeam.UpdateMemberRole r b) | _ => unmatched end);
   mkSubroute DELETE "/auth/orgs/{orgID}/teams/{teamID}/members/{userID}" (fun r c => match c with Private DELETE_team_member => status (AuthTeam.RemoveMember r) | _ => unmatched end)
  ].

(** [audit.go] *)
Definition auditSubroutes (d : Deps) : list (Subroute Handle) :=
  [
   mkSubroute GET "/auth/orgs/{orgID}/audit-logs" (fun r c => match c with Private GET_audit_logs => status (AuditApi.List_ (Format d) (FormatNano d) (ParseRFC3339 d) r) | _ => unmatched end);
   mkSubroute GET "/auth/orgs/{orgID}/metrics/logins" (fun r c => match c with Private GET_login_metrics => status (AuditApi.LoginMetrics (FormatDate d) (ParseDate d) r) | _ => unmatched end);
   mkSubroute GET "/auth/orgs/{orgID}/metrics/failed-logins" (fun r c => match c with Private GET_failed_login_metrics => status (AuditApi.FailedLoginMetrics (FormatDate d) (ParseDate d) r) | _ => unmatched end)
  ].

(** [webhook.go] *)
Definition webhookSubroutes (d : Deps) : list (Subroute Handle) :=
  [
   mkSubroute POST "/auth/orgs/{orgID}/webhooks" (fun r c => match c with Private (POST_webhook b) => status (WebhookApi.Create (Format d) r b) | _ => unmatched end);
   mkSubroute GET "/auth/orgs/{orgID}/webhooks" (fun r c => match c with Private GET_webhooks => status (WebhookApi.List_ (Format d) r) | _ => unmatched end);
   mkSubroute PUT "/auth/orgs/{orgID}/webhooks/{whID}" (fun r c => match c with Private (PUT_webhook b) => status (WebhookApi.Update (Format d) r b) | _ => unmatched end);
   mkSubroute DELETE "/auth/orgs/{orgID}/webhooks/{whID}" (fun r c => match c with Private DELETE_webhook => status (WebhookApi.Delete r) | _ => unmatched end);
   mkSubroute GET "/auth/orgs/{orgID}/webhooks/{whID}/deliveries" (fun r c => match c with Private GET_deliveries => status (WebhookApi.ListDeliveries (Format d) r) | _ => unmatched end)
  ].

(** [admin.go] *)
Definition adminSubroutes (d : Deps) : list (Subroute Handle) :=
  [
   mkSubroute GET "/auth/admin/users" (fun r c => match c with Private GET_admin_users => status (Admin.ListUsers_ (Format d) r) | _ => unmatched end);
   mkSubroute GET "/auth/admin/users/{userID}" (fun r c => match c with Private GET_admin_user => status (Admin.GetUser (Format d) r) | _ => unmatched end);
   mkSubroute PUT "/auth/admin/users/{userID}" (fun r c => match c with Private (PUT_admin_user b) => status (Admin.UpdateUser r b) | _ => unmatched end);
   mkSubroute GET "/auth/admin/orgs" (fun r c => match c with Private GET_admin_orgs => status (Admin.ListOrgs (Format d) r) | _ => unmatched end);
   mkSubroute PUT "/auth/admin/orgs/{orgID}" (fun r c => match c with Private (PUT_admin_org b) => status (Admin.UpdateOrgPlan (Format d) r b) | _ => unmatched end)
  ].

(** A group of routes on the mux; its errors stop the registration. *)
Definition register (mws : list (Handle -> Handle)) (subs : list (Subroute Handle)) (m : Mux Handle) :
    result (list (string * string)) (Mux Handle) :=
  let g := foldl (fun g mw => Use mw g) (NewGroup m) mws in
  match Create g m subs with
  | (m, []) => Ok m
  | (_, errs) => Err errs
  end.

(** [health.go]: three groups without middleware *)
Definition registerHealth (d : Deps) (m : Mux Handle) : result (list (string * string)) (Mux Handle) :=
  match register [] [mkSubroute GET "/livez" (fun r c => match c with Public GET_livez => status (ret Liveness) | _ => unmatched end);
                     mkSubroute GET "/readyz" (fun r c => match c with Public (GET_readyz up) => status (ret (Readiness up)) | _ => unmatched end)] m with
  | Err e => Err e
  | Ok m =>
      match register [] [mkSubroute GET "/auth/.well-known/jwks.json" (fun r c => match c with Public GET_jwks => status (ret (AuthOauth.JWKS (OAuth d))) | _ => unmatched end)] m with
      | Err e => Err e
      | Ok m =>
          register [] [mkSubroute GET "/auth/invites/{token}" (fun r c => match c with Public GET_invite => status (AuthInvite.GetByToken (Format d) r) | _ => unmatched end)] m
      end
  end.

(** [oauth.go] *)
Definition registerOAuth (d : Deps) : Mux Handle -> result (list (string * string)) (Mux Handle) :=
  register [RateLimit "oauth"]
    [mkSubroute GET "/auth/oauth/{provider}/start" (fun r c => match c with Public GET_oauth_start => status (AuthOauth.Start (OAuth d) r) | _ => unmatched end);
     mkSubroute GET "/auth/oauth/{provider}/callback" (fun r c => match c with Public GET_oauth_callback => status (AuthOauth.Callback (OAuth d) r) | _ => unmatched end)].

(** [session.go] *)
Definition registerSession (d : Deps) : Mux Handle -> result (list (string * string)) (Mux Handle) :=
  register [RateLimit "refresh"]
    [mkSubroute POST "/auth/token/refresh" (fun r c => match c with Public (POST_token_refresh b) => status (AuthSession.Refresh (AuthOauth.tokenSvc (OAuth d)) r b) | _ => unmatched end);
     mkSubroute POST "/auth/logout" (fun r c => match c with Public POST_logout => status (AuthSession.Logout r) | _ => unmatched end)].

(** [mfa.go] *)
Definition registerMFAPublic (d : Deps) : Mux Handle -> result (list (string * string)) (Mux Handle) :=
  register [RateLimit "mfa"]
    [mkSubroute POST "/auth/mfa/totp/challenge" (fun r c => match c with Public (POST_mfa_challenge b) => status (AuthMfa.Challenge (MFA d) r b) | _ => unmatched end);
     mkSubroute POST "/auth/mfa/backup-codes/verify" (fun r c => match c with Public (POST_backup_verify b) => status (AuthMfa.BackupCodeVerify (MFA d) r b) | _ => unmatched end)].

(** [authenticated.go] *)
Definition registerAuthenticated (d : Deps) : Mux Handle -> result (list (string * string)) (Mux Handle) :=
  register [AuthHandler d; RateLimit "auth"]
    (sessionAuthSubroutes d ++ mfaAuthSubroutes d ++ userSubroutes d ++ orgSubroutes d ++ inviteSubroutes d
     ++ teamSubroutes d ++ auditSubroutes d ++ webhookSubroutes d ++ adminSubroutes d).

(** [routes.go]: the groups in order; the first error ends the registration. *)
Definition Register (d : Deps) : result (list (string * string)) (Mux Handle) :=
  match registerHealth d [] with
  | Err e => Err e
  | Ok m =>
      match registerOAuth d m with
      | Err e => Err e
      | Ok m =>
          match registerSession d m with
          | Err e => Err e
          | Ok m =>
              match registerMFAPublic d m with
              | Err e => Err e
              | Ok m => registerAuthenticated d m
              end
          end
      end
  end.

(** What the registered service does with a request. *)
Definition serve (d : Deps) (r : Request) (c : Call) : M World Z :=
  match Register d with
  | Err _ => unmatched
  | Ok m => match lookup_route (route_key c) m with Some h => h r c | None => unmatched end
  end.

End Table.

(** ** The service as a transition system

    A step serves one request, or changes what the environment decides: time
    passes, and the identifiers, random bytes, failures and responses to come
    are whatever they are. *)
Inductive auth_step (d : Deps) : World -> World -> Prop :=
| step_public r c st w w' : serve_public d r c w = (st, w') -> auth_step d w w'
| step_auth r c st w w' : serve_authenticated d r c w = (st, w') -> auth_step d w w'
| step_env w w' : w_db w' = w_db w -> w_now w <= w_now w' -> auth_step d w w'.

Definition auth_run (d : Deps) : World -> World -> Prop := rtc (auth_step d).

End Serve.
End AuthRoutes.

(** * Lemmas *)

Module AuthRoutesFacts.
Import Token MfaSvc Router AuthRoutes.

(** The rate limiter's group of a public call, if it has one. *)
Definition public_limit (c : PublicCall) : option string :=
  match c with
  | GET_livez | GET_readyz _ | GET_jwks | GET_invite => None
  | GET_oauth_start | GET_oauth_callback => Some "oauth"
  | POST_token_refresh _ | POST_logout => Some "refresh"
  | POST_mfa_challenge _ | POST_backup_verify _ => Some "mfa"
  end.

Section Serve.
Context `{UUIDCodec} `{Jwt} `{NetAddr} `{Validator} `{Encryption.AEAD} `{Bcrypt} `{Totp} `{Collation}.
Context (allow : string -> Request -> bool) (d : Deps).

(** The registration succeeds: every method is known. *)
Lemma Register_ok : exists m, Register allow d = Ok m.
Proof. eexists. reflexivity. Qed.

(** Every public call reaches its handler, behind the limiter of its group. *)
Lemma serve_public_route r c :
  serve allow d r (Public c) =
  match public_limit c with
  | Some p => if allow p r then serve_public d r c else ret StatusTooManyRequests
  | None => serve_public d r c
  end.
Proof. destruct c; reflexivity. Qed.

(** Every authenticated call reaches its handler with the claims of its token,
    behind the middleware and the limiter, and no other way. *)
Lemma serve_private_route r c :
  serve allow d r (Private c) =
  (now <- time_now ;;
   match AuthMiddleware.Auth (PubKey d) (JWTIssuer d) now r with
   | Err (st, _) => ret st
   | Ok r => if allow "auth" r then serve_auth d r c else ret StatusTooManyRequests
   end).
Proof. destruct c; reflexivity. Qed.

(** A served request is a step of the service. *)
Lemma serve_step r c w st w' : serve allow d r c w = (st, w') -> auth_step d w w'.
Proof.
  destruct c as [c|c]; [rewrite serve_public_route|rewrite serve_private_route]; intros Hs.
  - destruct (public_limit c) as [p|]; [|by eapply step_public]. destruct (allow p r); [by eapply step_public|].
    unfold ret in Hs. simplify_eq. by apply step_env.
  - destruct (serve_authenticated d r c w) as [st1 w1] eqn:E.
    unfold serve_authenticated, bind, time_now, gets in E, Hs. destruct (AuthMiddleware.Auth _ _ _ _) as [r'|[st' m]] eqn:Ea.
    + destruct (allow "auth" r').
      * eapply (step_auth _ r c st). unfold serve_authenticated, bind, time_now, gets. by rewrite Ea.
      * unfold ret in Hs. simplify_eq. by apply step_env.
    + unfold ret in Hs. simplify_eq. by apply step_env.
Qed.

End Serve.
End AuthRoutesFacts.
