(* ===== verification/AuthFrame.v ===== *)
(** The frame rule of the auth service: a relation between databases that every
    statement of the store respects is respected by every request.

    The store is the interface here: [GroupKeeps R] lists what [R] needs of each
    writing statement the authenticated endpoints run, [StoreKeeps R] adds the
    logins, and [serve_auth_keeps] and [serve_public_keeps] discharge it for all
    endpoints at once.  Some statements depend on what the handler did before
    (new refresh tokens, TOTP secrets and enabling TOTP); for those the
    interface asks for the handlers that run them. *)

From S2P Require Import Prelude GoStr Sha256 GoCodec HttpUtil Scope Services AuthModels AuthStore.
From S2P Require Import AuthOrgStore AuthService AuthSession AuthMfa AuthOauth AuthOrgs AuthAdmin AuthRoutes.
Import AuthStore AuthOrgStore Token MfaSvc.

Class GroupKeeps (R : DB -> DB -> Prop) (dp : AuthRoutes.Deps) `{UUIDCodec} `{Jwt} `{NetAddr} `{Validator} `{Encryption.AEAD}
    `{Bcrypt} `{Totp} := {
  keeps_order :: PreOrder R;
  k_RevokeRefreshToken id : keeps R (exec (RevokeRefreshToken id));
  k_UpdateSessionLastActive id : keeps R (exec (UpdateSessionLastActive id));
  k_RevokeSession id : keeps R (exec (RevokeSession id));
  k_RevokeAllUserSessions u : keeps R (exec (RevokeAllUserSessions u));
  k_RevokeAllUserRefreshTokens u : keeps R (exec (RevokeAllUserRefreshTokens u));
  k_RevokeRefreshTokensBySession s : keeps R (exec (RevokeRefreshTokensBySession s));
  k_DeleteBackupCodes u : keeps R (exec (DeleteBackupCodes u));
  k_DisableTOTP u : keeps R (exec (DisableTOTP u));
  k_MarkBackupCodeUsed id : keeps R (exec (MarkBackupCodeUsed id));
  k_GetAndDeleteOAuthState st : keeps R (exec (GetAndDeleteOAuthState st));
  k_UpdateOAuthTokens p i a r e : keeps R (exec (UpdateOAuthTokens p i a r e));
  k_DeleteOAuthIdentity u p : keeps R (exec (DeleteOAuthIdentity u p));
  k_UpdateUserProfile a : keeps R (exec (UpdateUserProfile a));
  k_UpdateUserOnboardingStep u s : keeps R (exec (UpdateUserOnboardingStep u s));
  k_UpdateUserPlatformAdmin u b : keeps R (exec (UpdateUserPlatformAdmin u b));
  k_UpdateOrganization o n l b : keeps R (exec (UpdateOrganization o n l b));
  k_UpdateOrganizationPlan o p m : keeps R (exec (UpdateOrganizationPlan o p m));
  k_DeleteOrganization o : keeps R (exec (DeleteOrganization o));
  k_UpdateOrgMemberRole o u r : keeps R (exec (UpdateOrgMemberRole o u r));
  k_DeleteOrgMembership o u : keeps R (exec (DeleteOrgMembership o u));
  k_UpdateTeam t n s x : keeps R (exec (UpdateTeam t n s x));
  k_DeleteTeam t : keeps R (exec (DeleteTeam t));
  k_DeleteTeamMembership t u : keeps R (exec (DeleteTeamMembership t u));
  k_UpdateTeamMemberRole t u r : keeps R (exec (UpdateTeamMemberRole t u r));
  k_AcceptInvite i : keeps R (exec (AcceptInvite i));
  k_RevokeInvite i o : keeps R (exec (RevokeInvite i o));
  k_UpdateWebhookSubscription i u e a : keeps R (exec (UpdateWebhookSubscription i u e a));
  k_DeleteWebhookSubscription i : keeps R (exec (DeleteWebhookSubscription i));
  k_CreateAuditLog a : keeps R (insert_stmt (CreateAuditLog a));
  k_CreateOAuthState s p r e : keeps R (insert_stmt (CreateOAuthState s p r e));
  k_CreateUser e v f l a : keeps R (insert_stmt (CreateUser e v f l a));
  k_CreateOAuthIdentity a : keeps R (insert_stmt (CreateOAuthIdentity a));
  k_CreateOrganization s n : keeps R (insert_stmt (CreateOrganization s n));
  k_CreateOrgMembership o u r : keeps R (insert_stmt (CreateOrgMembership o u r));
  k_CreateTeam o s n x : keeps R (insert_stmt (CreateTeam o s n x));
  k_CreateTeamMembership t u r : keeps R (insert_stmt (CreateTeamMembership t u r));
  k_CreateInvite o t u e r h x : keeps R (insert_stmt (CreateInvite o t u e r h x));
  k_CreateWebhookSubscription o u s e : keeps R (insert_stmt (CreateWebhookSubscription o u s e));
  k_Setup r : keeps R (AuthMfa.Setup (AuthRoutes.MFA dp) r);
  k_CreateBackupCodes l : keeps R (CreateBackupCodes l);
  k_Verify r b : keeps R (AuthMfa.Verify (AuthRoutes.MFA dp) r b)
}.

Class StoreKeeps (R : DB -> DB -> Prop) (dp : AuthRoutes.Deps) `{UUIDCodec} `{Jwt} `{NetAddr} `{Validator} `{Encryption.AEAD}
    `{Bcrypt} `{Totp} := {
  keeps_group :: GroupKeeps R dp;
  k_Refresh svc r b : keeps R (AuthSession.Refresh svc r b);
  k_issueTokens h r u : keeps R (AuthMfa.issueTokens h r u);
  k_issueTokensAndRedirect h r u x : keeps R (AuthOauth.issueTokensAndRedirect h r u x)
}.

#[export] Hint Resolve k_RevokeRefreshToken k_UpdateSessionLastActive k_RevokeSession k_RevokeAllUserSessions
  k_RevokeAllUserRefreshTokens k_RevokeRefreshTokensBySession k_DeleteBackupCodes k_DisableTOTP
  k_MarkBackupCodeUsed k_GetAndDeleteOAuthState k_UpdateOAuthTokens k_DeleteOAuthIdentity
  k_UpdateUserProfile k_UpdateUserOnboardingStep k_UpdateUserPlatformAdmin k_UpdateOrganization
  k_UpdateOrganizationPlan k_DeleteOrganization k_UpdateOrgMemberRole k_DeleteOrgMembership
  k_UpdateTeam k_DeleteTeam k_DeleteTeamMembership k_UpdateTeamMemberRole k_AcceptInvite
  k_RevokeInvite k_UpdateWebhookSubscription k_DeleteWebhookSubscription
  k_CreateAuditLog k_CreateOAuthState k_CreateUser k_CreateOAuthIdentity k_CreateOrganization
  k_CreateOrgMembership k_CreateTeam k_CreateTeamMembership k_CreateInvite k_CreateWebhookSubscription
  k_Setup k_CreateBackupCodes k_Refresh k_issueTokens k_issueTokensAndRedirect k_Verify keeps_group : keeps.

(** Open the guards of a handler, then its statements. *)
Ltac keeps_guard :=
  lazymatch goal with
  | |- keeps _ (Helpers.with_user _ _) => apply keeps_with_user; [apply _|intros ?]
  | |- keeps _ (Helpers.with_param _ _ _ _) => apply keeps_with_param; [apply _|intros ?]
  | |- keeps _ (Helpers.with_org _ _) => unfold Helpers.with_org
  | |- keeps _ (Helpers.with_admin _ _ _) => apply keeps_with_admin; [apply _|]
  | |- keeps _ (Helpers.with_body _ _ _) => apply keeps_with_body; [apply _|intros ?]
  | |- keeps _ (Helpers.or_internal _ _) => apply keeps_or_internal; [apply _| |intros ?]
  | |- keeps _ (AuthRoutes.status _) => unfold AuthRoutes.status
  | |- keeps _ (let '(_, _) := ?x in _) => destruct x
  | _ => keeps_step
  end.
Ltac keeps_handler := repeat keeps_guard.

(** The backup codes of a login: random bytes, then one COPY. *)
Lemma keeps_generate_codes (R : DB -> DB -> Prop) `{!PreOrder R} `{Bcrypt} n : keeps R (generate_codes n).
Proof. induction n as [|n IH]; cbn; [keeps_handler|]. unfold generate_one. keeps_handler; done. Qed.

#[export] Hint Extern 1 (keeps _ (generate_codes _)) => apply keeps_generate_codes, _ : keeps.

Lemma copy_insert_only now ids vs d d' :
  copy_insert now ids vs d = Ok d' -> exists t, d' = set_mfa_backup_codes t d.
Proof.
  revert ids d. induction vs as [|[u h] vs IH]; intros ids d Hc; cbn in Hc.
  - simplify_eq. exists (mfa_backup_codes d'). by destruct d'.
  - destruct (insert_row _ _ _ _ _ _) as [[c d1]|] eqn:E; [|done].
    apply insert_row_inv in E as (_ & -> & _). apply IH in Hc as [t ->]. by exists t.
Qed.

Lemma keeps_CreateBackupCodes (R : DB -> DB -> Prop) l :
  PreOrder R -> (forall t d, R d (set_mfa_backup_codes t d)) -> keeps R (CreateBackupCodes l).
Proof.
  intros HR Hset w r w' Hrun. unfold CreateBackupCodes in Hrun.
  split_and!; [..|intros Hf; by eapply exec_calm in Hrun];
    apply au_exec_inv in Hrun as (f & [(e & _ & -> & _)|(n & d & _ & Hq & ->)]); try done.
  cbn in Hq |- *. destruct (copy_insert _ _ _ _) eqn:E; [|done]. simplify_eq.
  by apply copy_insert_only in E as [t ->].
Qed.

(** The interfaces from a tactic that proves them of any statement. *)
Ltac frame_fields stmt :=
  repeat lazymatch goal with |- keeps _ _ => fail | |- forall _, _ => intro end;
  unfold AuthMfa.Setup, AuthSession.Refresh, AuthSession.resolveOrgClaim, AuthMfa.issueTokens,
    AuthOauth.issueTokensAndRedirect, AuthMfa.Verify, AuthMfa.generateAndStoreBackupCodes, GenerateBackupCodes,
    GenerateTOTPKey, AuthEncryption.Encrypt, SessionSvc.Create, GenerateRefreshToken, IssueAccessToken, Audit.Log;
  repeat first [ stmt | keeps_step ].
Ltac group_frame stmt := split; [apply _|..]; frame_fields stmt.
Ltac store_frame stmt := split; [group_frame stmt|..]; frame_fields stmt.

(** Any run leaves the clock alone and adds no failures; a handler followed
    statement by statement needs only the databases compared. *)
Definition any (_ _ : DB) : Prop := True.

#[export] Instance any_order : PreOrder any.
Proof. done. Qed.

Ltac any_stmt := idtac;
  lazymatch goal with
  | |- keeps _ (exec _) => by apply keeps_exec
  | |- keeps _ (insert_stmt _) => by apply keeps_insert
  | |- keeps _ (CreateBackupCodes _) => by apply keeps_CreateBackupCodes
  end.

Lemma keeps_of_run (R : DB -> DB -> Prop) {A} (c : M World A) :
  keeps any c -> (forall w a w', c w = (a, w') -> R (w_db w) (w_db w')) -> keeps R c.
Proof. intros Hc HR w a w' Hrun. split; [by eapply HR|by apply Hc in Hrun as [_ ?]]. Qed.

Ltac keeps_run := apply keeps_of_run; [frame_fields any_stmt|].

Section Group.
Context (R : DB -> DB -> Prop) (dp : AuthRoutes.Deps) `{HS : GroupKeeps R dp} `{Collation}.

Lemma keeps_Log p : keeps R (Audit.Log p).
Proof using HS. unfold Audit.Log. keeps_handler. Qed.

Lemma keeps_GenerateRefreshToken : keeps R GenerateRefreshToken.
Proof using HS. unfold GenerateRefreshToken. keeps_handler. Qed.

Lemma keeps_IssueAccessToken s p : keeps R (IssueAccessToken s p).
Proof using HS. unfold IssueAccessToken. keeps_handler. Qed.

Lemma keeps_IssueMFAChallengeToken s u : keeps R (IssueMFAChallengeToken s u).
Proof using HS. unfold IssueMFAChallengeToken. keeps_handler. Qed.

Lemma keeps_Encrypt s p : keeps R (AuthEncryption.Encrypt s p).
Proof using HS. unfold AuthEncryption.Encrypt. keeps_handler. Qed.

Hint Resolve keeps_Log keeps_GenerateRefreshToken keeps_IssueAccessToken
  keeps_IssueMFAChallengeToken keeps_Encrypt : keeps.

Lemma keeps_generateAndStore u : keeps R (AuthMfa.generateAndStoreBackupCodes u).
Proof using HS. unfold AuthMfa.generateAndStoreBackupCodes, GenerateBackupCodes. keeps_handler. Qed.

Hint Resolve keeps_generateAndStore : keeps.

Lemma serve_auth_keeps r c : keeps R (AuthRoutes.serve_auth dp r c).
Proof using HS.
  destruct c; cbn -[AuthRoutes.status];
    unfold AuthSession.LogoutAll, AuthSession.ListSessions, AuthSession.RevokeSession_, AuthMfa.Disable, AuthMfa.RegenerateBackupCodes, AuthUser.GetMe, AuthUser.UpdateMe, AuthUser.UpdateOnboarding,
      AuthUser.ListIdentities, AuthUser.UnlinkIdentity, AuthUser.with_me,
      AuthOrg.Create, AuthOrg.List_, AuthOrg.Get, AuthOrg.Update, AuthOrg.Delete, AuthOrg.ListMembers,
      AuthOrg.UpdateMemberRole, AuthOrg.RemoveMember, AuthOrg.TransferOwnership, AuthOrg.with_owner,
      AuthOrg.requireOwner, AuthOrg.with_target, AuthOrg.log_org,
      AuthInvite.Create, AuthInvite.ListOrgInvites_, AuthInvite.Revoke, AuthInvite.Accept, AuthInvite.with_room,
      AuthInvite.generateInviteToken, AuthInvite.log_invite,
      AuthTeam.Create, AuthTeam.List_, AuthTeam.Get, AuthTeam.Update, AuthTeam.Delete, AuthTeam.ListMembers,
      AuthTeam.AddMember, AuthTeam.RemoveMember, AuthTeam.UpdateMemberRole, AuthTeam.with_team, AuthTeam.log_team,
      AuditApi.List_, AuditApi.LoginMetrics, AuditApi.FailedLoginMetrics, AuditApi.with_org_admin,
      WebhookApi.Create, WebhookApi.generateSecret, WebhookApi.List_, WebhookApi.Update, WebhookApi.Delete,
      WebhookApi.ListDeliveries, Admin.ListUsers_, Admin.GetUser, Admin.UpdateUser, Admin.ListOrgs,
      Admin.UpdateOrgPlan, Admin.with_platform_admin, Admin.requirePlatformAdmin;
    keeps_handler.
Qed.

End Group.

#[export] Hint Resolve keeps_Log keeps_GenerateRefreshToken keeps_IssueAccessToken keeps_IssueMFAChallengeToken
  keeps_Encrypt keeps_generateAndStore : keeps.

Section Frame.
Context (R : DB -> DB -> Prop) (dp : AuthRoutes.Deps) `{HS : StoreKeeps R dp} `{Collation}.

Lemma keeps_match_code p cs : keeps R (AuthMfa.match_code p cs).
Proof using HS. induction cs as [|c cs IH]; cbn; keeps_handler; done. Qed.

Lemma keeps_finish_login h r u m : keeps R (AuthMfa.finish_login h r u m).
Proof using HS. unfold AuthMfa.finish_login. keeps_handler. Qed.

Lemma keeps_resolveUser p i : keeps R (AuthOauth.resolveUser p i).
Proof using HS. unfold AuthOauth.resolveUser. keeps_handler. Qed.

Lemma keeps_storeOAuthTokens h p i a r : keeps R (AuthOauth.storeOAuthTokens h p i a r).
Proof using HS. unfold AuthOauth.storeOAuthTokens, AuthOauth.encrypt_token. keeps_handler. Qed.

Hint Resolve keeps_match_code keeps_finish_login keeps_resolveUser keeps_storeOAuthTokens : keeps.

Lemma serve_public_keeps r c : keeps R (AuthRoutes.serve_public dp r c).
Proof using HS.
  destruct c; cbn -[AuthRoutes.status];
    unfold AuthInvite.GetByToken, AuthOauth.Start, AuthOauth.generateState, AuthOauth.Callback, AuthSession.Logout,
      AuthMfa.Challenge, AuthMfa.BackupCodeVerify;
    keeps_handler.
Qed.

(** Every request respects [R], and so does every run of the service. *)
Lemma auth_step_keeps w w' : AuthRoutes.auth_step dp w w' -> R (w_db w) (w_db w').
Proof using HS.
  destruct 1 as [r c st w w' Hs|r c st w w' Hs|w w' Hd _].
  - by apply serve_public_keeps in Hs as [Hs _].
  - unfold AuthRoutes.serve_authenticated, bind, time_now, gets in Hs.
    destruct (AuthMiddleware.Auth _ _ _ _) as [r'|[st' msg]].
    + by apply (serve_auth_keeps R dp) in Hs as [Hs _].
    + unfold ret in Hs. by simplify_eq.
  - by rewrite Hd.
Qed.

(** Time never goes back. *)
Lemma auth_step_later w w' : AuthRoutes.auth_step dp w w' -> w_now w <= w_now w'.
Proof using HS.
  destruct 1 as [r c st w w' Hs|r c st w w' Hs|w w' _ Hn]; [| |done].
  - apply serve_public_keeps in Hs as (_ & -> & _). done.
  - unfold AuthRoutes.serve_authenticated, bind, time_now, gets in Hs.
    destruct (AuthMiddleware.Auth _ _ _ _) as [r'|[st' msg]].
    + apply (serve_auth_keeps R dp) in Hs as (_ & -> & _). done.
    + unfold ret in Hs. by simplify_eq.
Qed.

Lemma auth_run_keeps w w' : AuthRoutes.auth_run dp w w' -> R (w_db w) (w_db w').
Proof using HS.
  induction 1 as [w|w w1 w2 Hs _ IH]; [reflexivity|].
  etrans; [by eapply auth_step_keeps|done].
Qed.

End Frame.
