(* ===== verification/AuthWf.v ===== *)
(** Well-formed databases of the auth service: what the tables' types and
    constraints say, and what the handlers maintain on top of them, preserved by
    every request.

    Beyond the constraints of the migrations the invariant says that a refresh
    token belongs to the user of its session, that TOTP is enabled only with a
    stored secret, that every stored secret decrypts under the service's key,
    and that an invitation has an acceptance time exactly when it is accepted. *)

From S2P Require Import Prelude Tables GoStr Sha256 GoCodec HttpUtil Scope Services AuthModels AuthStore.
From S2P Require Import AuthOrgStore AuthService AuthSession AuthMfa AuthOauth AuthOrgs AuthAdmin AuthRoutes.
From S2P Require Import AuthFrame.
Import AuthStore AuthOrgStore Token MfaSvc.

(** * Definitions *)

Definition invite_statuses : list string := ["pending"; "accepted"; "revoked"; "expired"].

(** The TOTP secret of a user: present when enabled, and decryptable. *)
Definition secret_ok `{Encryption.AEAD} (enc : Encryption.Service) (m : MfaSetting) : Prop :=
  (ms_TotpEnabled m = true -> is_Some (ms_TotpSecret m)) /\
  (is_Some (ms_TotpSecret m) -> exists s, AuthEncryption.Decrypt enc (ms_TotpSecret m) = Ok s).

(** A refresh token belongs to the user of its session. *)
Definition owned (ts : gmap N RefreshToken) (ss : gmap N Session) : Prop :=
  forall k t s, ts !! k = Some t -> ss !! rt_SessionID t = Some s -> rt_UserID t = se_UserID s.

Record auth_wf `{Encryption.AEAD} (enc : Encryption.Service) (d : DB) : Prop := mkAuthWf {
  key_users : keyed u_ID (users d);
  key_oauth_identities : keyed oi_ID (oauth_identities d);
  key_sessions : keyed se_ID (sessions d);
  key_refresh_tokens : keyed rt_ID (refresh_tokens d);
  key_oauth_states : keyed os_ID (oauth_states d);
  key_failed_login_attempts : keyed fl_ID (failed_login_attempts d);
  key_mfa_settings : keyed ms_ID (mfa_settings d);
  key_mfa_backup_codes : keyed bc_ID (mfa_backup_codes d);
  key_organizations : keyed o_ID (organizations d);
  key_org_memberships : keyed om_ID (org_memberships d);
  key_teams : keyed t_ID (teams d);
  key_team_memberships : keyed tm_ID (team_memberships d);
  key_invites : keyed iv_ID (invites d);
  key_audit_logs : keyed al_ID (audit_logs d);
  key_webhook_subscriptions : keyed ws_ID (webhook_subscriptions d);
  key_webhook_deliveries : keyed wd_ID (webhook_deliveries d);
  uniq_email : uniq u_Email (users d);
  uniq_identity : uniq (fun i => (oi_Provider i, oi_ProviderID i)) (oauth_identities d);
  uniq_token_hash : uniq rt_TokenHash (refresh_tokens d);
  uniq_state : uniq os_State (oauth_states d);
  uniq_mfa_user : uniq ms_UserID (mfa_settings d);
  uniq_slug : uniq o_Slug (organizations d);
  uniq_member : uniq (fun m => (om_OrgID m, om_UserID m)) (org_memberships d);
  uniq_team_slug : uniq (fun t => (t_OrgID t, t_Slug t)) (teams d);
  uniq_team_member : uniq (fun m => (tm_TeamID m, tm_UserID m)) (team_memberships d);
  uniq_invite_hash : uniq iv_TokenHash (invites d);
  fk_identity_user : refs oi_UserID (oauth_identities d) (users d);
  fk_session_user : refs se_UserID (sessions d) (users d);
  fk_token_user : refs rt_UserID (refresh_tokens d) (users d);
  fk_token_session : refs rt_SessionID (refresh_tokens d) (sessions d);
  fk_mfa_user : refs ms_UserID (mfa_settings d) (users d);
  fk_code_user : refs bc_UserID (mfa_backup_codes d) (users d);
  fk_member_org : refs om_OrgID (org_memberships d) (organizations d);
  fk_member_user : refs om_UserID (org_memberships d) (users d);
  fk_team_org : refs t_OrgID (teams d) (organizations d);
  fk_team_member_team : refs tm_TeamID (team_memberships d) (teams d);
  fk_team_member_user : refs tm_UserID (team_memberships d) (users d);
  fk_invite_org : refs iv_OrgID (invites d) (organizations d);
  fk_invite_by : refs iv_InvitedBy (invites d) (users d);
  fk_sub_org : refs ws_OrgID (webhook_subscriptions d) (organizations d);
  fk_delivery_sub : refs wd_SubscriptionID (webhook_deliveries d) (webhook_subscriptions d);
  fk_invite_team : orefs iv_TeamID (invites d) (teams d);
  fk_audit_org : orefs al_OrgID (audit_logs d) (organizations d);
  fk_audit_actor : orefs al_ActorID (audit_logs d) (users d);
  ck_visibility : each (fun u => u_ProfileVisibility u ∈ visibilities) (users d);
  ck_onboarding : each (fun u => u_OnboardingStep u ∈ onboarding_steps) (users d);
  ck_provider : each (fun i => oi_Provider i ∈ providers) (oauth_identities d);
  ck_plan : each (fun o => o_Plan o ∈ plans) (organizations d);
  ck_role : each (fun m => om_Role m ∈ org_roles) (org_memberships d);
  ck_team_role : each (fun m => tm_Role m ∈ team_roles) (team_memberships d);
  ck_invite_role : each (fun i => iv_Role i ∈ invite_roles) (invites d);
  ck_invite_status : each (fun i => iv_Status i ∈ invite_statuses) (invites d);
  inv_accepted : each (fun i => iv_Status i = "accepted" <-> is_Some (iv_AcceptedAt i)) (invites d);
  inv_secret : each (secret_ok enc) (mfa_settings d);
  inv_token_owner : owned (refresh_tokens d) (sessions d)
}.

(** * Lemmas *)

(** ** Tokens and their sessions *)

Lemma owned_update_tokens ts ss p f :
  (forall t, rt_UserID (f t) = rt_UserID t /\ rt_SessionID (f t) = rt_SessionID t) ->
  owned ts ss -> owned (update_where p f ts) ss.
Proof.
  intros Hf Ho k t s. rewrite update_where_Some. intros (b & Hb & ->) Hs. destruct (Hf b) as [Hu Hse].
  destruct (p b); rewrite ?Hu, ?Hse in *; by eapply Ho.
Qed.

Lemma owned_update_sessions ts ss p f :
  (forall s, se_UserID (f s) = se_UserID s) -> owned ts ss -> owned ts (update_where p f ss).
Proof.
  intros Hf Ho k t s Ht. rewrite update_where_Some. intros (b & Hb & ->).
  destruct (p b); rewrite ?Hf; by eapply Ho.
Qed.

Lemma owned_insert_session ts ss id s :
  ss !! id = None -> refs rt_SessionID ts ss -> owned ts ss -> owned ts (<[id := s]> ss).
Proof.
  intros Hn Hr Ho k t s' Ht. rewrite lookup_insert_Some. intros [[He _]|[_ Hs]]; [|by eapply Ho].
  destruct (Hr _ _ Ht) as [x Hx]. congruence.
Qed.

Lemma owned_insert_token ts ss id t :
  (forall s, ss !! rt_SessionID t = Some s -> rt_UserID t = se_UserID s) -> owned ts ss -> owned (<[id := t]> ts) ss.
Proof.
  intros Ht Ho k t' s. rewrite lookup_insert_Some. intros [[_ <-]|[_ Hk]]; [apply Ht|by eapply Ho].
Qed.

(** ** One statement *)

(** Reduce a successful statement to its effect on the tables. *)
Ltac stmt_inv :=
  repeat match goal with
  | H : insert_row _ _ _ _ _ _ = Ok (_, _) |- _ => apply insert_row_inv in H as (-> & -> & ? & ?)
  | H : update_one _ _ _ _ _ _ = Ok (_, _) |- _ => apply update_one_inv in H as (? & ? & -> & -> & ?)
  | H : update_exec _ _ _ _ _ _ = Ok (_, _) |- _ => apply update_exec_inv in H as (-> & ?)
  | H : Forall _ (_ :: _) |- _ => apply Forall_cons in H as [? ?]
  | H : (match ?x with _ => _ end) = Ok _ |- _ => destruct x eqn:?; try discriminate H
  | H : missing _ _ = false |- _ => apply missing_false in H
  | H : bool_decide (_ ∉ _) = false |- _ => apply bool_decide_eq_false, dec_stable in H
  | _ => progress simplify_eq/=
  end.

Ltac head_of t := lazymatch t with ?f _ => head_of f | _ => t end.

(** Open any statement: what remains relates the databases before and after. *)
Ltac open_stmt :=
  lazymatch goal with
  | |- keeps _ (exec ?q) => let h := head_of q in apply keeps_exec; [apply _|]; unfold h; intros; stmt_inv
  | |- keeps _ (insert_stmt ?q) => let h := head_of q in apply keeps_insert; [apply _|]; unfold h; intros; stmt_inv
  | |- keeps _ (CreateBackupCodes _) => apply keeps_CreateBackupCodes; [apply _|intros]
  end.

(** A fact about a row found in a well-formed table. *)
Ltac row_fact :=
  cbn; first
  [ assumption
  | reflexivity
  | by eauto
  | (refine (bool_decide_eq_true_1 _ _); vm_compute; reflexivity)
  | match goal with
    | H : keyed _ ?t, H' : ?t !! _ = Some _ |- _ => exact (H _ _ H')
    | H : refs _ ?t _, H' : ?t !! _ = Some _ |- _ => exact (H _ _ H')
    | H : each _ ?t, H' : ?t !! _ = Some _ |- _ => exact (H _ _ H')
    | H : orefs _ ?t _, H' : ?t !! _ = Some _ |- forall i, _ -> _ => exact (fun i => H _ _ i H')
    end
  | match goal with
    | H : forall k r, _ !! k = Some r -> _ -> Forall _ _ |- _ =>
        intros ? ? Hx ? Hp; specialize (H _ _ Hx Hp); stmt_inv; by eauto
    end ].

(** The statement's check that a key is free, as the tables see it. *)
Ltac key_free :=
  let b := fresh "b" in let E := fresh "E" in
  intros b E; cbn in E; unfold is_member, in_team, same_identity; cbn;
  injection E as ? ?; simplify_eq; by rewrite ?bool_decide_true by congruence.

Ltac wf_clause :=
  first
  [ table_clause row_fact key_free
  | apply owned_update_tokens; [done|assumption]
  | apply owned_update_sessions; [done|assumption]
  | apply owned_insert_session; assumption ].

(** A statement keeps well-formed databases well-formed: every clause is one of
    the lemmas above; what is left is particular to the statement. *)
Ltac wf_stmt := intros; stmt_inv; intros []; constructor; cbn; try wf_clause.

Section Statements.
Context `{Encryption.AEAD} (enc : Encryption.Service).

Definition wf_le (d d' : DB) : Prop := auth_wf enc d -> auth_wf enc d'.

#[export] Instance wf_le_order : PreOrder wf_le.
Proof. split; [intros d Hw; exact Hw|]. intros d1 d2 d3 H1 H2 Hw. by apply H2, H1. Qed.

(** Statements that need no more than the lemmas. *)
Ltac wf_simple := apply keeps_exec || apply keeps_insert; [apply _|]; wf_stmt.

Lemma wf_RevokeRefreshToken id : keeps wf_le (exec (RevokeRefreshToken id)).
Proof. unfold RevokeRefreshToken. wf_simple. Qed.

Lemma wf_UpdateSessionLastActive id : keeps wf_le (exec (UpdateSessionLastActive id)).
Proof. unfold UpdateSessionLastActive. wf_simple. Qed.

Lemma wf_RevokeSession id : keeps wf_le (exec (RevokeSession id)).
Proof. unfold RevokeSession. wf_simple. Qed.

Lemma wf_RevokeAllUserSessions u : keeps wf_le (exec (RevokeAllUserSessions u)).
Proof. unfold RevokeAllUserSessions. wf_simple. Qed.

Lemma wf_RevokeAllUserRefreshTokens u : keeps wf_le (exec (RevokeAllUserRefreshTokens u)).
Proof. unfold RevokeAllUserRefreshTokens. wf_simple. Qed.

Lemma wf_RevokeRefreshTokensBySession s : keeps wf_le (exec (RevokeRefreshTokensBySession s)).
Proof. unfold RevokeRefreshTokensBySession. wf_simple. Qed.

Lemma wf_DeleteBackupCodes u : keeps wf_le (exec (DeleteBackupCodes u)).
Proof. unfold DeleteBackupCodes. wf_simple. Qed.

Lemma wf_MarkBackupCodeUsed id : keeps wf_le (exec (MarkBackupCodeUsed id)).
Proof. unfold MarkBackupCodeUsed. wf_simple. Qed.

Lemma wf_GetAndDeleteOAuthState st : keeps wf_le (exec (GetAndDeleteOAuthState st)).
Proof. unfold GetAndDeleteOAuthState. wf_simple. Qed.

Lemma wf_UpdateOAuthTokens p i a r e : keeps wf_le (exec (UpdateOAuthTokens p i a r e)).
Proof. unfold UpdateOAuthTokens. wf_simple. Qed.

Lemma wf_DeleteOAuthIdentity u p : keeps wf_le (exec (DeleteOAuthIdentity u p)).
Proof. unfold DeleteOAuthIdentity. wf_simple. Qed.

Lemma wf_UpdateUserProfile a : keeps wf_le (exec (UpdateUserProfile a)).
Proof. unfold UpdateUserProfile. wf_simple. Qed.

Lemma wf_UpdateUserOnboardingStep u s : keeps wf_le (exec (UpdateUserOnboardingStep u s)).
Proof. unfold UpdateUserOnboardingStep. wf_simple. Qed.

Lemma wf_UpdateUserPlatformAdmin u b : keeps wf_le (exec (UpdateUserPlatformAdmin u b)).
Proof. unfold UpdateUserPlatformAdmin. wf_simple. Qed.

Lemma wf_UpdateOrganization o n l b : keeps wf_le (exec (UpdateOrganization o n l b)).
Proof. unfold UpdateOrganization. wf_simple. Qed.

Lemma wf_UpdateOrganizationPlan o p m : keeps wf_le (exec (UpdateOrganizationPlan o p m)).
Proof. unfold UpdateOrganizationPlan. wf_simple. Qed.

Lemma wf_UpdateOrgMemberRole o u r : keeps wf_le (exec (UpdateOrgMemberRole o u r)).
Proof. unfold UpdateOrgMemberRole. wf_simple. Qed.

Lemma wf_DeleteOrgMembership o u : keeps wf_le (exec (DeleteOrgMembership o u)).
Proof. unfold DeleteOrgMembership. wf_simple. Qed.

Lemma wf_DeleteTeamMembership t u : keeps wf_le (exec (DeleteTeamMembership t u)).
Proof. unfold DeleteTeamMembership. wf_simple. Qed.

Lemma wf_UpdateTeamMemberRole t u r : keeps wf_le (exec (UpdateTeamMemberRole t u r)).
Proof. unfold UpdateTeamMemberRole. wf_simple. Qed.

Lemma wf_AcceptInvite i : keeps wf_le (exec (AcceptInvite i)).
Proof. unfold AcceptInvite. wf_simple. Qed.

Lemma wf_UpdateWebhookSubscription i u e a : keeps wf_le (exec (UpdateWebhookSubscription i u e a)).
Proof. unfold UpdateWebhookSubscription. wf_simple. Qed.

Lemma wf_CreateSession a : keeps wf_le (insert_stmt (CreateSession a)).
Proof. unfold CreateSession. wf_simple. Qed.

Lemma wf_CreateOAuthState s p r e : keeps wf_le (insert_stmt (CreateOAuthState s p r e)).
Proof. unfold CreateOAuthState. wf_simple. Qed.

Lemma wf_CreateUser e v f l a : keeps wf_le (insert_stmt (CreateUser e v f l a)).
Proof. unfold CreateUser. wf_simple. Qed.

Lemma wf_CreateOAuthIdentity a : keeps wf_le (insert_stmt (CreateOAuthIdentity a)).
Proof. unfold CreateOAuthIdentity. wf_simple. Qed.

Lemma wf_CreateOrganization s n : keeps wf_le (insert_stmt (CreateOrganization s n)).
Proof. unfold CreateOrganization. wf_simple. Qed.

Lemma wf_CreateOrgMembership o u r : keeps wf_le (insert_stmt (CreateOrgMembership o u r)).
Proof. unfold CreateOrgMembership. wf_simple. Qed.

Lemma wf_CreateTeamMembership t u r : keeps wf_le (insert_stmt (CreateTeamMembership t u r)).
Proof. unfold CreateTeamMembership. wf_simple. Qed.

Lemma wf_CreateWebhookDelivery s e p a n : keeps wf_le (insert_stmt (CreateWebhookDelivery s e p a n)).
Proof. unfold CreateWebhookDelivery. wf_simple. Qed.

Lemma wf_UpdateWebhookDeliveryResult a : keeps wf_le (exec (UpdateWebhookDeliveryResult a)).
Proof. unfold UpdateWebhookDeliveryResult. wf_simple. Qed.

Lemma wf_CreateWebhookSubscription o u s e : keeps wf_le (insert_stmt (CreateWebhookSubscription o u s e)).
Proof. unfold CreateWebhookSubscription. wf_simple. Qed.

(** ** Statements with more to show *)

Lemma wf_DisableTOTP u : keeps wf_le (exec (DisableTOTP u)).
Proof.
  unfold DisableTOTP. wf_simple. apply each_update; [|done]. intros k m _ _ _. split; cbn; [done|].
  by intros [? ?].
Qed.

Lemma wf_RevokeInvite i o : keeps wf_le (exec (RevokeInvite i o)).
Proof.
  unfold RevokeInvite. wf_simple; (apply each_update; [|done]); intros k x Hk Hx Hp; cbn.
  - by apply (bool_decide_eq_true_1 _); vm_compute.
  - rewrite !andb_true_iff, !bool_decide_eq_true in Hp. destruct Hp as [_ Hp]. cbn in Hx. rewrite Hp in Hx.
    rewrite <-Hx. split; by intros.
Qed.

Lemma wf_CreateAuditLog a : keeps wf_le (insert_stmt (CreateAuditLog a)).
Proof.
  unfold CreateAuditLog. wf_simple; (apply orefs_insert; [|done]); intros i Hi; cbn in Hi; by eapply fk_ok_spec.
Qed.

Lemma wf_CreateInvite o t u e r h x : keeps wf_le (insert_stmt (CreateInvite o t u e r h x)).
Proof.
  unfold CreateInvite. wf_simple. apply orefs_insert; [|done]. intros i Hi. cbn in Hi. subst t.
  match goal with Hm : missing (teams _) _ = false |- _ => by apply missing_false in Hm end.
Qed.

(** The unique key of a team, checked by [team_clash]. *)
Lemma uniq_team id org slug d (t : Team) :
  team_clash id org slug d = false -> t_OrgID t = org -> t_Slug t = slug ->
  keyed t_ID (teams d) -> uniq (fun t => (t_OrgID t, t_Slug t)) (teams d) ->
  uniq (fun t => (t_OrgID t, t_Slug t)) (<[id := t]> (teams d)).
Proof.
  intros Hc <- <- Hk Hu. apply uniq_insert; [|done]. intros k b Hb [=E1 E2].
  unfold team_clash in Hc. rewrite any_row_false in Hc. specialize (Hc _ _ Hb). rewrite (Hk _ _ Hb) in Hc.
  destruct (decide (k = id)) as [|Hn]; [done|].
  rewrite (bool_decide_false _ Hn), (bool_decide_true _ E1), (bool_decide_true _ E2) in Hc. done.
Qed.

Lemma wf_CreateTeam o sl n x : keeps wf_le (insert_stmt (CreateTeam o sl n x)).
Proof. unfold CreateTeam. wf_simple. by eapply uniq_team. Qed.

Lemma wf_UpdateTeam t n sl x : keeps wf_le (exec (UpdateTeam t n sl x)).
Proof. unfold UpdateTeam. wf_simple. by eapply uniq_team. Qed.

(** Deleting with the cascades of the schema. *)
Lemma wf_delete_teams q d : auth_wf enc d -> auth_wf enc (delete_teams q d).
Proof.
  unfold delete_teams. intros []; constructor; cbn; try wf_clause.
  - apply refs_cascade; [|done]. intros k m t Hm Ht Hq. unfold team_gone. by rewrite Ht.
  - apply orefs_set_null; [done| |done]. intros k i j t Hi Hj Ht Hq. cbn. rewrite Hj. unfold team_gone. by rewrite Ht.
Qed.

Lemma wf_DeleteTeam t : keeps wf_le (exec (DeleteTeam t)).
Proof.
  apply keeps_exec; [apply _|]. unfold DeleteTeam. intros now d a d' [= <- <-] Hw. by apply wf_delete_teams.
Qed.

Lemma wf_delete_subscriptions q d : auth_wf enc d -> auth_wf enc (delete_subscriptions q d).
Proof.
  unfold delete_subscriptions. intros []; constructor; cbn; try wf_clause.
  apply refs_cascade; [|done]. intros k m t Hm Ht Hq. cbn. by rewrite Ht.
Qed.

Lemma wf_DeleteWebhookSubscription i : keeps wf_le (exec (DeleteWebhookSubscription i)).
Proof.
  apply keeps_exec; [apply _|]. unfold DeleteWebhookSubscription. intros now d a d' [= <- <-] Hw.
  by apply wf_delete_subscriptions.
Qed.

Lemma wf_delete_members q d :
  auth_wf enc d -> auth_wf enc (set_org_memberships (delete_where q (org_memberships d)) d).
Proof. intros []; constructor; cbn; wf_clause. Qed.

Lemma wf_delete_invites q d : auth_wf enc d -> auth_wf enc (set_invites (delete_where q (invites d)) d).
Proof. intros []; constructor; cbn; wf_clause. Qed.

Lemma wf_forget_org o d :
  auth_wf enc d ->
  auth_wf enc (set_audit_logs (update_where (fun a => bool_decide (al_OrgID a = Some o))
    (fun a => mkAuditLog (al_ID a) None (al_ActorID a) (al_Action a) (al_TargetType a) (al_TargetID a)
       (al_IpAddress a) (al_UserAgent a) (al_Metadata a) (al_CreatedAt a)) (audit_logs d)) d).
Proof. intros []; constructor; cbn; wf_clause. Qed.

(** An organization nothing refers to can go. *)
Lemma wf_drop_org o d :
  (forall k m, org_memberships d !! k = Some m -> om_OrgID m <> o) ->
  (forall k t, teams d !! k = Some t -> t_OrgID t <> o) ->
  (forall k i, invites d !! k = Some i -> iv_OrgID i <> o) ->
  (forall k s, webhook_subscriptions d !! k = Some s -> ws_OrgID s <> o) ->
  (forall k a, audit_logs d !! k = Some a -> al_OrgID a <> Some o) ->
  auth_wf enc d -> auth_wf enc (set_organizations (delete o (organizations d)) d).
Proof.
  intros Hm Ht Hi Hs Ha []; constructor; cbn; try wf_clause.
  all: first [by apply refs_target_delete_key|by apply orefs_target_delete_key].
Qed.

Lemma wf_DeleteOrganization o : keeps wf_le (exec (DeleteOrganization o)).
Proof.
  apply keeps_exec; [apply _|]. unfold DeleteOrganization. intros now d a d' [= <- <-] Hw.
  unfold delete_organization. cbv zeta. apply wf_drop_org.
  1-4: intros k x; cbn; rewrite delete_where_Some; intros [_ Hx]; by apply bool_decide_eq_false in Hx.
  - intros k x Hx. apply update_where_Some in Hx as (b & _ & ->).
    destruct (bool_decide _) eqn:E; [done|]. by apply bool_decide_eq_false in E.
  - exact (wf_forget_org o _
      (wf_delete_subscriptions (fun s => bool_decide (ws_OrgID s = o)) _
        (wf_delete_invites (fun i => bool_decide (iv_OrgID i = o)) _
          (wf_delete_teams (fun t => bool_decide (t_OrgID t = o)) _
            (wf_delete_members (in_org o) _ Hw))))).
Qed.

(** The COPY of backup codes. *)
Lemma wf_copy_insert now ids vs d d' :
  copy_insert now ids vs d = Ok d' -> auth_wf enc d -> auth_wf enc d'.
Proof.
  revert ids d. induction vs as [|[u h] vs IH]; intros ids d Hc Hw; cbn in Hc; [by simplify_eq|].
  destruct (insert_row _ _ _ _ _ _) as [[c d1]|] eqn:E; [|done]. eapply IH; [done|].
  revert Hw. clear Hc IH. stmt_inv. intros []; constructor; cbn; wf_clause.
Qed.

Lemma wf_CreateBackupCodes l : keeps wf_le (CreateBackupCodes l).
Proof.
  keeps_run. intros w r w' Hrun. unfold CreateBackupCodes in Hrun.
  apply au_exec_inv in Hrun as (f & [(e & _ & -> & _)|(n & d & _ & Hq & ->)]); [done|].
  cbn in Hq |- *. destruct (copy_insert _ _ _ _) eqn:E; [|done]. simplify_eq.
  intros Hw. by eapply wf_copy_insert.
Qed.

(** A new refresh token, for a session of its user. *)
Lemma wf_new_token u sid h e now id d t d' :
  CreateRefreshToken u sid h e now id d = Ok (t, d') ->
  (forall s, sessions d !! sid = Some s -> u = se_UserID s) -> auth_wf enc d -> auth_wf enc d'.
Proof.
  unfold CreateRefreshToken. intros Hc Hs Hw. revert Hw. stmt_inv. intros []; constructor; cbn; try wf_clause.
  by apply owned_insert_token.
Qed.

(** A new secret, not enabled. *)
Lemma wf_new_secret u c now id d m d' :
  UpsertMFASettings u (Some c) false now id d = Ok (m, d') ->
  (exists x, AuthEncryption.Decrypt enc (Some c) = Ok x) -> auth_wf enc d -> auth_wf enc d'.
Proof.
  unfold UpsertMFASettings. intros Hc Hs Hw. revert Hw. destruct (find_row _ _) as [x|] eqn:E.
  - apply find_row_Some in E as [_ [k Hk]]. simplify_eq. intros Hw.
    assert (ms_ID x = k) as Hx by (by destruct Hw; eapply key_mfa_settings0). revert Hw.
    rewrite Hx. intros []; constructor; cbn; wf_clause.
  - rewrite find_row_None in E. stmt_inv. intros []; constructor; cbn; try wf_clause.
    apply uniq_insert; [|done]. intros k' b Hb Hu. cbn in Hu. specialize (E _ _ Hb). unfold of_user in E.
    by apply bool_decide_eq_false in E.
Qed.

(** Enabling, with a secret in place. *)
Lemma wf_enable u now d a d' :
  EnableTOTP u now d = Ok (a, d') ->
  (forall k m, mfa_settings d !! k = Some m -> ms_UserID m = u -> is_Some (ms_TotpSecret m)) ->
  auth_wf enc d -> auth_wf enc d'.
Proof.
  unfold EnableTOTP. intros Hc Hs Hw. revert Hw. stmt_inv. intros []; constructor; cbn; try wf_clause.
  apply each_update; [|done]. intros k m Hk [_ Hm] Hu. apply bool_decide_eq_true in Hu. split; cbn; eauto.
Qed.

(** ** The handlers around them *)
Context `{UUIDCodec} `{Jwt} `{NetAddr} `{Validator} `{Bcrypt} `{Totp}.

Lemma wf_Log q : keeps wf_le (Audit.Log q).
Proof. unfold Audit.Log. apply keeps_bind; [apply _|apply wf_CreateAuditLog|]. intros ?. keeps_tac. Qed.

(** The sessions a login creates belong to the user. *)
Lemma CreateSession_row x now id d s d' :
  CreateSession x now id d = Ok (s, d') -> sessions d' !! se_ID s = Some s /\ se_UserID s = cs_UserID x.
Proof. unfold CreateSession. intros Hc. stmt_inv. by rewrite lookup_insert_eq. Qed.

(** Follow well-formedness along the statements of a run, up to a new token. *)
Ltac wf_session :=
  match goal with
  | W : auth_wf _ _, Hc : CreateSession _ _ _ _ = Ok _ |- _ =>
      pose proof (CreateSession_row _ _ _ _ _ _ Hc) as [? ?];
      apply (keeps_insert_stmt _ _ _ _ _ _ _ (wf_CreateSession _)) in Hc; apply Hc in W; clear Hc
  end.

Lemma wf_issueTokens h r u : keeps wf_le (AuthMfa.issueTokens h r u).
Proof.
  keeps_run. intros w a w' Hrun. unfold AuthMfa.issueTokens, SessionSvc.Create, GenerateRefreshToken, IssueAccessToken in Hrun.
  au_run; intros W; try done; wf_session; try done.
  all: eapply wf_new_token; [eassumption| |exact W]; intros; cbn in *; congruence.
Qed.

Lemma wf_issueTokensAndRedirect h r u x : keeps wf_le (AuthOauth.issueTokensAndRedirect h r u x).
Proof.
  keeps_run. intros w a w' Hrun.
  unfold AuthOauth.issueTokensAndRedirect, SessionSvc.Create, GenerateRefreshToken, IssueAccessToken in Hrun.
  au_run; intros W; try done; wf_session; try done.
  all: eapply wf_new_token; [eassumption| |exact W]; intros; cbn in *; congruence.
Qed.

Lemma RevokeRefreshToken_frame id now d a d' :
  RevokeRefreshToken id now d = Ok (a, d') -> sessions d' = sessions d.
Proof. unfold RevokeRefreshToken. intros Hc. by stmt_inv. Qed.

Lemma keeps_resolveOrgClaim (R : DB -> DB -> Prop) `{!PreOrder R} r u : keeps R (AuthSession.resolveOrgClaim r u).
Proof. unfold AuthSession.resolveOrgClaim. keeps_tac. Qed.

(** A token found by its hash is a row of the table. *)
Lemma GetRefreshTokenByHash_row hash now d rt :
  GetRefreshTokenByHash hash now d = Ok rt ->
  exists k, refresh_tokens d !! k = Some rt /\ rt_TokenHash rt = hash.
Proof.
  unfold GetRefreshTokenByHash, get_where, result_of_option. intros Hq.
  destruct (find_row _ _) eqn:Hf; [|done]. apply find_row_Some in Hf as [Hh [k Hk]].
  apply bool_decide_eq_true in Hh. simplify_eq. eauto.
Qed.

(** The statements of the rotation, one after the other. *)
Ltac wf_rotation :=
  repeat match goal with
  | W : auth_wf _ _, Hc : RevokeRefreshToken _ _ _ = Ok _ |- _ =>
      pose proof (RevokeRefreshToken_frame _ _ _ _ _ Hc);
      apply (keeps_exec_stmt _ _ _ _ _ _ (wf_RevokeRefreshToken _)) in Hc; apply Hc in W; clear Hc
  | W : auth_wf _ _, Hc : UpdateSessionLastActive _ _ _ = Ok _ |- _ =>
      apply (keeps_exec_stmt _ _ _ _ _ _ (wf_UpdateSessionLastActive _)) in Hc; apply Hc in W; clear Hc
  | W : auth_wf _ _, Hc : CreateRefreshToken _ _ _ _ _ _ _ = Ok _ |- _ =>
      eapply wf_new_token in Hc; [| |exact W]; [clear W|intros; simplify_eq; eauto with congruence]
  end.

Lemma wf_Refresh svc r b : keeps wf_le (AuthSession.Refresh svc r b).
Proof.
  keeps_run. intros w a w' Hrun. unfold AuthSession.Refresh, GenerateRefreshToken, IssueAccessToken in Hrun.
  au_run; intros W; try done.
  all: repeat match goal with Ho : AuthSession.resolveOrgClaim _ _ _ = _ |- _ =>
         apply (keeps_resolveOrgClaim eq) in Ho as [<- ?] end; cbn in *.
  all: match goal with Hg : GetRefreshTokenByHash _ _ _ = Ok ?rt |- _ =>
         apply GetRefreshTokenByHash_row in Hg as (k & Hk & _);
         assert (forall s, sessions (w_db w) !! rt_SessionID rt = Some s -> rt_UserID rt = se_UserID s) as Hown
           by (intros s1 Hs1; by destruct W; eapply inv_token_owner0)
       end.
  all: wf_rotation.
  all: done.
Qed.

Lemma wf_generateAndStore u : keeps wf_le (AuthMfa.generateAndStoreBackupCodes u).
Proof.
  unfold AuthMfa.generateAndStoreBackupCodes, GenerateBackupCodes.
  apply keeps_bind; [apply _|apply wf_DeleteBackupCodes|]. intros _.
  apply keeps_bind; [apply _| |].
  - generalize backupCodeCount. intros n. induction n as [|n IH]; cbn; [keeps_tac|]. unfold generate_one. keeps_tac; done.
  - intros [codes|]; [|keeps_tac]. apply keeps_bind; [apply _|apply wf_CreateBackupCodes|]. intros a. keeps_tac.
Qed.

(** A nonce of the right length seals a secret that opens again. *)
Lemma Encrypt_decrypts x w c w' :
  AuthEncryption.Encrypt enc x w = (Ok c, w') ->
  (exists s, AuthEncryption.Decrypt enc (Some c) = Ok s) /\ w_db w' = w_db w /\ w_now w' = w_now w.
Proof.
  unfold AuthEncryption.Encrypt. intros Hrun. apply bind_inv in Hrun as (n & w1 & Hr & Hrun).
  unfold ret in Hrun. injection Hrun as Hc <-. split; [|by apply rand_read_inv in Hr as [r ->]].
  unfold rand_read in Hr. destruct (w_rand w) as [|[y|] l]; simplify_eq/=.
  destruct (decide _) as [Hl|]; simplify_eq/=. exists x. by eapply Decrypt_Encrypt.
Qed.

Lemma wf_Setup h r : AuthMfa.encSvc h = enc -> keeps wf_le (AuthMfa.Setup h r).
Proof.
  intros He. keeps_run. intros w a w' Hrun W. unfold AuthMfa.Setup, GenerateTOTPKey in Hrun. rewrite He in Hrun. clear He.
  destruct (AuthMfa.userFromContext r) as [[u email]|e]; [|by au_run].
  apply bind_inv in Hrun as (q & w1 & Hq & Hrun). apply (keeps_query eq) in Hq as [Hq _]. rewrite Hq in W.
  destruct (match q with Ok m => ms_TotpEnabled m | Err _ => false end); [by au_run|].
  apply bind_inv in Hrun as (key & w2 & Hk & Hrun).
  apply bind_inv in Hk as (rb & w3 & Hr & Hk). apply (keeps_rand eq) in Hr as [Hr _]. rewrite Hr in W.
  unfold ret in Hk. injection Hk as <- <-. destruct (GenerateKey rb email) as [[sec uri]|]; [|by au_run].
  apply bind_inv in Hrun as (c & w4 & Hc & Hrun). destruct c as [c|e].
  - apply Encrypt_decrypts in Hc as (Hd & Hdb & _). rewrite <-Hdb in W. au_run; [done|by eapply wf_new_secret].
  - assert (w_db w4 = w_db w3) as Hdb by (unfold AuthEncryption.Encrypt in Hc; by au_run). rewrite <-Hdb in W. by au_run.
Qed.

Lemma GetMFASettings_row u now d m :
  GetMFASettings u now d = Ok m -> exists k, mfa_settings d !! k = Some m /\ ms_UserID m = u.
Proof.
  unfold GetMFASettings, get_where, result_of_option. intros Hq.
  destruct (find_row _ _) eqn:Hf; [|done]. apply find_row_Some in Hf as [Hh [k Hk]].
  apply bool_decide_eq_true in Hh. simplify_eq. eauto.
Qed.

(** A secret that decrypts is there. *)
Lemma Decrypt_is_Some e c x : AuthEncryption.Decrypt e c = Ok x -> is_Some c.
Proof.
  destruct c as [c|]; [by eexists|]. unfold AuthEncryption.Decrypt, Encryption.Decrypt. cbn.
  pose proof Encryption.NonceSize_pos. by rewrite (proj2 (Z.ltb_lt _ _)) by (unfold len; cbn; lia).
Qed.

Lemma wf_Verify h r b : keeps wf_le (AuthMfa.Verify h r b).
Proof.
  keeps_run. unfold AuthMfa.Verify. destruct (AuthMfa.userFromContext r) as [[u em]|e]; [|by intros; au_run].
  destruct b as [code|e]; [|by intros; au_run]. destruct (AuthValidate.Struct _); [|by intros; au_run].
  intros w res w' Hrun. apply bind_inv in Hrun as (q & w1 & Hq & Hrun). apply au_query_inv in Hq as (f & -> & Hq).
  destruct q as [m|e]; [|by destruct e; au_run].
  destruct Hq as [?|Hq]; [done|]. symmetry in Hq. apply GetMFASettings_row in Hq as (k & Hk & Hu).
  destruct (ms_TotpEnabled m); [by au_run|].
  destruct (AuthEncryption.Decrypt _ _) as [sec|e] eqn:Hd; [|by au_run].
  apply Decrypt_is_Some in Hd.
  apply bind_inv in Hrun as (t & w2 & Ht & Hrun). unfold time_now, gets in Ht. injection Ht as <- <-.
  destruct (negb _); [by au_run|].
  apply bind_inv in Hrun as (en & w3 & He & Hrun).
  apply au_exec_inv in He as (f' & [(e & -> & -> & _)|(z & d & -> & He & ->)]); [by au_run|].
  assert (wf_le (w_db w) d) as Hle.
  { intros W. eapply wf_enable; [exact He| |exact W]. cbn. intros k' m' Hk' Hu'.
    assert (k' = k) as -> by (destruct W; eapply uniq_mfa_user0; [done..|congruence]). congruence. }
  assert (keeps wf_le (codes <- AuthMfa.generateAndStoreBackupCodes u ;;
            match codes with
            | Some codes => do Audit.Log (Audit.mkLogParams None (Some u) Audit.ActionMFAEnabled "" None (Some r) None) ;;
                            ret (Reply StatusOK codes)
            | None => ret (Fail StatusInternalServerError Helpers.ErrInternal)
            end)) as Hrest.
  { apply keeps_bind; [apply _|apply wf_generateAndStore|]. intros [cs|]; [|keeps_tac].
    apply keeps_bind; [apply _|apply wf_Log|]. intros ?. keeps_tac. }
  apply Hrest in Hrun as [Hrun _]. by etrans.
Qed.

(** Every statement and handler, together. *)
Lemma wf_store (dp : AuthRoutes.Deps) : AuthMfa.encSvc (AuthRoutes.MFA dp) = enc -> StoreKeeps wf_le dp.
Proof.
  intros He. unshelve refine {|
    k_Refresh := wf_Refresh;
    k_issueTokens := wf_issueTokens;
    k_issueTokensAndRedirect := wf_issueTokensAndRedirect |}.
  exact {|
    keeps_order := wf_le_order;
    k_RevokeRefreshToken := wf_RevokeRefreshToken;
    k_UpdateSessionLastActive := wf_UpdateSessionLastActive;
    k_RevokeSession := wf_RevokeSession;
    k_RevokeAllUserSessions := wf_RevokeAllUserSessions;
    k_RevokeAllUserRefreshTokens := wf_RevokeAllUserRefreshTokens;
    k_RevokeRefreshTokensBySession := wf_RevokeRefreshTokensBySession;
    k_DeleteBackupCodes := wf_DeleteBackupCodes;
    k_DisableTOTP := wf_DisableTOTP;
    k_MarkBackupCodeUsed := wf_MarkBackupCodeUsed;
    k_GetAndDeleteOAuthState := wf_GetAndDeleteOAuthState;
    k_UpdateOAuthTokens := wf_UpdateOAuthTokens;
    k_DeleteOAuthIdentity := wf_DeleteOAuthIdentity;
    k_UpdateUserProfile := wf_UpdateUserProfile;
    k_UpdateUserOnboardingStep := wf_UpdateUserOnboardingStep;
    k_UpdateUserPlatformAdmin := wf_UpdateUserPlatformAdmin;
    k_UpdateOrganization := wf_UpdateOrganization;
    k_UpdateOrganizationPlan := wf_UpdateOrganizationPlan;
    k_DeleteOrganization := wf_DeleteOrganization;
    k_UpdateOrgMemberRole := wf_UpdateOrgMemberRole;
    k_DeleteOrgMembership := wf_DeleteOrgMembership;
    k_UpdateTeam := wf_UpdateTeam;
    k_DeleteTeam := wf_DeleteTeam;
    k_DeleteTeamMembership := wf_DeleteTeamMembership;
    k_UpdateTeamMemberRole := wf_UpdateTeamMemberRole;
    k_AcceptInvite := wf_AcceptInvite;
    k_RevokeInvite := wf_RevokeInvite;
    k_UpdateWebhookSubscription := wf_UpdateWebhookSubscription;
    k_DeleteWebhookSubscription := wf_DeleteWebhookSubscription;
    k_CreateAuditLog := wf_CreateAuditLog;
    k_CreateOAuthState := wf_CreateOAuthState;
    k_CreateUser := wf_CreateUser;
    k_CreateOAuthIdentity := wf_CreateOAuthIdentity;
    k_CreateOrganization := wf_CreateOrganization;
    k_CreateOrgMembership := wf_CreateOrgMembership;
    k_CreateTeam := wf_CreateTeam;
    k_CreateTeamMembership := wf_CreateTeamMembership;
    k_CreateInvite := wf_CreateInvite;
    k_CreateWebhookSubscription := wf_CreateWebhookSubscription;
    k_CreateBackupCodes := wf_CreateBackupCodes;
    k_Setup r := wf_Setup _ r He;
    k_Verify := wf_Verify _
  |}.
Qed.

End Statements.
