(* ===== verification/AuthTokens.v ===== *)
(** The life of refresh tokens: along every run of the auth service sessions and
    tokens are only added and only ever become revoked, so a token that was
    exchanged or revoked is never accepted again. *)

From S2P Require Import Prelude Tables GoStr Sha256 GoCodec HttpUtil Scope Services AuthModels AuthStore.
From S2P Require Import AuthOrgStore AuthService AuthSession AuthMfa AuthOauth AuthOrgs AuthAdmin AuthRoutes.
From S2P Require Import AuthFrame AuthWf.
Import AuthStore AuthOrgStore Token MfaSvc.

(** * Definitions *)

(** What may happen to a stored session and token. *)
Definition session_le (s s' : Session) : Prop :=
  se_UserID s' = se_UserID s /\ se_ExpiresAt s' = se_ExpiresAt s /\
  (is_Some (se_RevokedAt s) -> is_Some (se_RevokedAt s')).
Definition token_le (t t' : RefreshToken) : Prop :=
  rt_TokenHash t' = rt_TokenHash t /\ rt_UserID t' = rt_UserID t /\ rt_SessionID t' = rt_SessionID t /\
  rt_ExpiresAt t' = rt_ExpiresAt t /\ (is_Some (rt_RevokedAt t) -> is_Some (rt_RevokedAt t')).

Definition grows (d d' : DB) : Prop :=
  (forall k s, sessions d !! k = Some s -> exists s', sessions d' !! k = Some s' /\ session_le s s') /\
  (forall k t, refresh_tokens d !! k = Some t -> exists t', refresh_tokens d' !! k = Some t' /\ token_le t t').

(** A token that is revoked, or whose session is. *)
Definition dead (d : DB) (raw : string) : Prop :=
  exists k t, refresh_tokens d !! k = Some t /\ rt_TokenHash t = HashToken raw /\
    (is_Some (rt_RevokedAt t) \/ exists s, sessions d !! rt_SessionID t = Some s /\ is_Some (se_RevokedAt s)).

(** A stored token of user [u] and session [sid]. *)
Definition issued (d : DB) (raw : string) (u sid : uuid) : Prop :=
  exists k t, refresh_tokens d !! k = Some t /\ rt_TokenHash t = HashToken raw /\ rt_UserID t = u /\ rt_SessionID t = sid.

(** The requests that end a token's life, run without failures: its exchange,
    a logout with it, a logout of all sessions by its user, and the revocation
    of its session by its user. *)
Inductive kills `{UUIDCodec} `{Jwt} `{NetAddr} `{Validator} (raw : string) : World -> World -> Prop :=
| kill_refresh svc r b st x w w' :
    w_faults w = [] -> AuthSession.extractRefreshToken r b = raw ->
    AuthSession.Refresh svc r b w = (Reply st x, w') -> kills raw w w'
| kill_logout r x u sid w w' :
    w_faults w = [] -> Cookie r "refresh_token" = Some raw -> issued (w_db w) raw u sid ->
    AuthSession.Logout r w = (x, w') -> kills raw w w'
| kill_logout_all r u sid x w w' :
    w_faults w = [] -> Helpers.UserIDFromContext r = Some u -> issued (w_db w) raw u sid ->
    AuthSession.LogoutAll r w = (x, w') -> kills raw w w'
| kill_session r u sid st x w w' :
    w_faults w = [] -> uuid_scan (URLParam r "sessionID") = Some sid -> issued (w_db w) raw u sid ->
    AuthSession.RevokeSession_ r w = (Reply st x, w') -> kills raw w w'.

(** * Lemmas *)

#[export] Instance session_le_order : PreOrder session_le.
Proof. split; unfold session_le; [by intros s|]. intros a b c (?&?&?) (?&?&?). split_and!; [congruence..|eauto]. Qed.

#[export] Instance token_le_order : PreOrder token_le.
Proof.
  split; unfold token_le; [by intros t|]. intros a b c (?&?&?&?&?) (?&?&?&?&?). split_and!; [congruence..|eauto].
Qed.

#[export] Instance grows_order : PreOrder grows.
Proof.
  split.
  - intros d. split; intros k x Hx; exists x; by split.
  - intros a b c [S1 T1] [S2 T2]. split.
    + intros k s Hs. apply S1 in Hs as (s1 & Hs & L1). apply S2 in Hs as (s2 & Hs & L2). exists s2. split; [done|by etrans].
    + intros k t Ht. apply T1 in Ht as (t1 & Ht & L1). apply T2 in Ht as (t2 & Ht & L2). exists t2. split; [done|by etrans].
Qed.

(** ** Statements *)

Lemma grows_same d d' : sessions d' = sessions d -> refresh_tokens d' = refresh_tokens d -> grows d d'.
Proof. intros Hs Ht. split; intros k x Hx; exists x; split; [congruence|done|congruence|done]. Qed.

Lemma grows_sessions d p f :
  (forall s, session_le s (f s)) -> grows d (set_sessions (update_where p f (sessions d)) d).
Proof.
  intros Hf. split; cbn; [|intros k x Hx; by exists x]. intros k s Hs. rewrite update_where_lookup, Hs. cbn. eexists; split; [done|].
  by destruct (p s).
Qed.

Lemma grows_tokens d p f :
  (forall t, token_le t (f t)) -> grows d (set_refresh_tokens (update_where p f (refresh_tokens d)) d).
Proof.
  intros Hf. split; cbn; [intros k x Hx; by exists x|]. intros k t Ht. rewrite update_where_lookup, Ht. cbn. eexists; split; [done|].
  by destruct (p t).
Qed.

Lemma grows_new_session d id s : sessions d !! id = None -> grows d (set_sessions (<[id := s]> (sessions d)) d).
Proof.
  intros Hn. split; cbn; [|intros k x Hx; by exists x]. intros k x Hx. exists x. split; [|done]. rewrite lookup_insert_ne; congruence.
Qed.

Lemma grows_new_token d id t :
  refresh_tokens d !! id = None -> grows d (set_refresh_tokens (<[id := t]> (refresh_tokens d)) d).
Proof.
  intros Hn. split; cbn; [intros k x Hx; by exists x|]. intros k x Hx. exists x. split; [|done]. rewrite lookup_insert_ne; congruence.
Qed.

(** Run one statement: sessions and tokens stay, grow or become revoked. *)
Ltac grows_stmt :=
  open_stmt;
  first [ by apply grows_same
        | by apply grows_new_session
        | by apply grows_new_token
        | apply grows_sessions; intros ?; unfold session_le; cbn; split_and!; by eauto
        | apply grows_tokens; intros ?; unfold token_le; cbn; split_and!; by eauto ].

Section Store.
Context `{UUIDCodec} `{Jwt} `{NetAddr} `{Validator} `{Encryption.AEAD} `{Bcrypt} `{Totp}.

(** Every statement of every handler. *)
Ltac grows_tac :=
  repeat first [ grows_stmt | keeps_step ].

Lemma grows_store dp : StoreKeeps grows dp.
Proof. store_frame grows_stmt. Qed.

(** ** What [Refresh] accepts *)

Lemma Refresh_reply svc r b w st x w' :
  AuthSession.Refresh svc r b w = (Reply st x, w') ->
  exists k t s, refresh_tokens (w_db w) !! k = Some t /\
    rt_TokenHash t = HashToken (AuthSession.extractRefreshToken r b) /\
    rt_RevokedAt t = None /\ w_now w <= rt_ExpiresAt t /\
    sessions (w_db w) !! rt_SessionID t = Some s /\ se_RevokedAt s = None /\ w_now w <= se_ExpiresAt s.
Proof.
  intros Hrun. unfold AuthSession.Refresh in Hrun.
  destruct (decide _); [by au_run|]. destruct (AuthValidate.Struct _); [|by au_run].
  apply bind_inv in Hrun as (q & w1 & Hq & Hrun). apply au_query_inv in Hq as (f & -> & Hq).
  destruct q as [t|e]; [|by destruct e; au_run].
  destruct Hq as [?|Hq]; [done|]. symmetry in Hq. apply GetRefreshTokenByHash_row in Hq as (k & Hk & Hh).
  apply bind_inv in Hrun as (now & w2 & Hn & Hrun). unfold time_now, gets in Hn. injection Hn as <- <-.
  match type of Hrun with (if ?c then _ else _) _ = _ => destruct c eqn:Et end; [by au_run|].
  apply bind_inv in Hrun as (q & w3 & Hq & Hrun). apply au_query_inv in Hq as (f' & -> & Hq).
  destruct q as [s|e]; [|by au_run]. destruct Hq as [?|Hq]; [done|].
  match type of Hrun with (if ?c then _ else _) _ = _ => destruct c eqn:Es end; [by au_run|]. clear Hrun.
  apply orb_false_iff in Et as [Et1 Et2], Es as [Es1 Es2]. apply bool_decide_eq_false, eq_None_not_Some in Et1, Es1.
  unfold AuthSession.expired in *. cbn in *. unfold GetSessionByID, get_row, result_of_option in Hq.
  destruct (sessions (w_db w) !! rt_SessionID t) as [s'|] eqn:Hs; [|done]. injection Hq as <-.
  exists k, t, s. split_and!; try done; lia.
Qed.

(** A dead token is not exchanged. *)
Lemma dead_not_refreshed enc svc r b w st x w' :
  auth_wf enc (w_db w) -> dead (w_db w) (AuthSession.extractRefreshToken r b) ->
  AuthSession.Refresh svc r b w <> (Reply st x, w').
Proof.
  intros W (k & t & Hk & Hh & Hd) Hrun. apply Refresh_reply in Hrun as (k' & t' & s & Hk' & Hh' & Hr & _ & Hs & Hrs & _).
  assert (k' = k) as -> by (eapply (uniq_token_hash _ _ W); [done..|congruence]).
  assert (t' = t) as -> by congruence. destruct Hd as [[? ?]|(s' & Hs' & [? ?])]; congruence.
Qed.

Lemma dead_grows d d' raw : grows d d' -> dead d raw -> dead d' raw.
Proof.
  intros [Gs Gt] (k & t & Hk & Hh & Hd). apply Gt in Hk as (t' & Hk & L1 & L2 & L3 & L4 & L5).
  exists k, t'. split_and!; [done|congruence|]. destruct Hd as [Hd|(s & Hs & Hr)]; [by left; apply L5|right].
  apply Gs in Hs as (s' & Hs & _ & _ & L). rewrite L3. eauto.
Qed.

(** ** How tokens die *)

Lemma RevokeRefreshToken_dead id now d a d' t k :
  RevokeRefreshToken id now d = Ok (a, d') -> refresh_tokens d !! k = Some t -> rt_ID t = id ->
  forall raw, rt_TokenHash t = HashToken raw -> dead d' raw.
Proof.
  unfold RevokeRefreshToken. intros Hc Hk Hid raw Hh. stmt_inv. exists k. eexists. split; cbn.
  - rewrite update_where_lookup, Hk. cbn. by rewrite bool_decide_true.
  - split; [done|left; eauto].
Qed.

Lemma RevokeSession_dead id now d a d' raw u :
  RevokeSession id now d = Ok (a, d') -> issued d raw u id -> keyed se_ID (sessions d) ->
  is_Some (sessions d !! id) -> dead d' raw.
Proof.
  unfold RevokeSession. intros Hc (k & t & Hk & Hh & _ & Hs) Hkey [s Hse]. stmt_inv.
  exists k, t. split_and!; [done..|right]. eexists. split; cbn.
  - rewrite update_where_lookup, Hse. cbn. by rewrite bool_decide_true by (by apply Hkey).
  - by eexists.
Qed.

Lemma RevokeAllUserRefreshTokens_dead u now d a d' raw sid :
  RevokeAllUserRefreshTokens u now d = Ok (a, d') -> issued d raw u sid -> dead d' raw.
Proof.
  unfold RevokeAllUserRefreshTokens. intros Hc (k & t & Hk & Hh & Hu & _). stmt_inv. exists k. eexists. split; cbn.
  - rewrite update_where_lookup, Hk. cbn. by rewrite bool_decide_true.
  - destruct (bool_decide (rt_RevokedAt t = None)) eqn:E; cbn; (split; [done|left]); [by eexists|].
    apply bool_decide_eq_false in E. by apply not_eq_None_Some.
Qed.

Lemma issued_grows d d' raw u sid : grows d d' -> issued d raw u sid -> issued d' raw u sid.
Proof.
  intros [_ Gt] (k & t & Hk & Hh & Hu & Hs). apply Gt in Hk as (t' & Hk & L1 & L2 & L3 & _ & _).
  exists k, t'. split_and!; congruence.
Qed.

(** The rest of a handler cannot revive a token. *)
Lemma dead_keeps {A} (c : M World A) w a w' raw :
  keeps grows c -> c w = (a, w') -> dead (w_db w) raw -> dead (w_db w') raw.
Proof. intros Hk Hc. by apply dead_grows, (Hk _ _ _ Hc). Qed.

(** The rest of a run after the statement that kills the token. *)
Ltac dead_rest Hrun :=
  lazymatch type of Hrun with ?c _ = _ => eapply (dead_keeps c); [|exact Hrun|]; [grows_tac|cbn] end.
Ltac dead_after Hrun :=
  lazymatch type of Hrun with ?c _ = _ => eapply (dead_keeps c); [grows_tac|exact Hrun|] end.

Lemma Refresh_kills svc r b st x w w' :
  w_faults w = [] -> AuthSession.Refresh svc r b w = (Reply st x, w') ->
  dead (w_db w') (AuthSession.extractRefreshToken r b).
Proof.
  intros Hf Hrun. unfold AuthSession.Refresh in Hrun.
  destruct (decide _); [by au_run|]. destruct (AuthValidate.Struct _); [|by au_run].
  rewrite bind_query_ok in Hrun by done. destruct (GetRefreshTokenByHash _ _ _) as [t|e] eqn:Hq; [|by destruct e; au_run].
  apply GetRefreshTokenByHash_row in Hq as (k & Hk & Hh). erewrite bind_eval in Hrun by reflexivity.
  match type of Hrun with (if ?c then _ else _) _ = _ => destruct c end; [by au_run|].
  rewrite bind_query_ok in Hrun by done. destruct (GetSessionByID _ _ _) as [s|e]; [|by au_run].
  match type of Hrun with (if ?c then _ else _) _ = _ => destruct c end; [by au_run|].
  erewrite bind_exec_ok in Hrun by (done || apply update_exec_nil).
  unfold GenerateRefreshToken, IssueAccessToken, AuthSession.resolveOrgClaim in Hrun.
  dead_rest Hrun. eapply RevokeRefreshToken_dead; [apply update_exec_nil|done..].
Qed.

Lemma GetRefreshTokenByHash_issued enc raw u sid now d :
  auth_wf enc d -> issued d raw u sid ->
  exists k t, GetRefreshTokenByHash (HashToken raw) now d = Ok t /\ refresh_tokens d !! k = Some t /\
    rt_TokenHash t = HashToken raw.
Proof.
  intros W (k & t & Hk & Hh & _). exists k, t. split; [|done].
  unfold GetRefreshTokenByHash, get_where, result_of_option.
  rewrite (find_row_unique _ _ k t); [done|done|by apply bool_decide_eq_true|].
  intros k' t' Hk' Hh'. apply bool_decide_eq_true in Hh'. eapply (uniq_token_hash _ _ W); [done..|congruence].
Qed.

Lemma Logout_kills enc r raw u sid x w w' :
  auth_wf enc (w_db w) -> w_faults w = [] -> Cookie r "refresh_token" = Some raw -> issued (w_db w) raw u sid ->
  AuthSession.Logout r w = (x, w') -> dead (w_db w') raw.
Proof.
  intros W Hf Hc Hi Hrun. unfold AuthSession.Logout in Hrun. rewrite Hc in Hrun.
  apply bind_inv in Hrun as (z & w1 & Hrun & Hr). unfold ret in Hr. injection Hr as _ <-.
  rewrite bind_query_ok in Hrun by done.
  destruct (GetRefreshTokenByHash_issued enc raw u sid (w_now w) (w_db w)) as (k & t & Hq & Hk & Hh); [done..|].
  rewrite Hq in Hrun. erewrite bind_exec_ok in Hrun by (done || apply update_exec_nil).
  dead_rest Hrun. eapply RevokeRefreshToken_dead; [apply update_exec_nil|done..].
Qed.

Lemma LogoutAll_kills r raw u sid x w w' :
  w_faults w = [] -> Helpers.UserIDFromContext r = Some u -> issued (w_db w) raw u sid ->
  AuthSession.LogoutAll r w = (x, w') -> dead (w_db w') raw.
Proof.
  intros Hf Hu Hi Hrun. unfold AuthSession.LogoutAll in Hrun. unfold Helpers.UserIDFromContext in Hu.
  destruct (FromContext r) as [c|]; [|done]. cbn in Hu. rewrite Hu in Hrun.
  erewrite bind_exec_ok in Hrun by (done || apply update_exec_nil).
  erewrite bind_exec_ok in Hrun by (done || apply update_exec_nil).
  unfold Audit.Log in Hrun. dead_after Hrun.
  eapply (RevokeAllUserRefreshTokens_dead u (w_now w)); [apply update_exec_nil|].
  eapply issued_grows; [|exact Hi]. apply grows_sessions. intros s. unfold session_le. cbn. by eauto.
Qed.

Lemma RevokeSession_kills enc r raw u sid st x w w' :
  auth_wf enc (w_db w) -> w_faults w = [] -> uuid_scan (URLParam r "sessionID") = Some sid ->
  issued (w_db w) raw u sid -> AuthSession.RevokeSession_ r w = (Reply st x, w') -> dead (w_db w') raw.
Proof.
  intros W Hf Hs Hi Hrun. unfold AuthSession.RevokeSession_ in Hrun.
  destruct (FromContext r) as [c|]; [|by au_run]. rewrite Hs, bind_query_ok in Hrun by done.
  unfold GetSessionByID, get_row, result_of_option in Hrun.
  destruct (sessions (w_db w) !! sid) as [s|] eqn:Hse; [|by au_run].
  cbv zeta in Hrun. destruct (decide _); [by au_run|].
  erewrite bind_exec_ok in Hrun by (done || apply update_exec_nil).
  dead_rest Hrun. eapply RevokeSession_dead; [apply update_exec_nil|done|by apply (key_sessions _ _ W)|by eexists].
Qed.

Lemma kills_dead enc raw w w' : auth_wf enc (w_db w) -> kills raw w w' -> dead (w_db w') raw.
Proof.
  intros W K. revert W.
  destruct K as [svc r b st x w1 w2 Hf <- Hrun|r x u sid w1 w2 Hf Hc Hi Hrun|r u sid x w1 w2 Hf Hu Hi Hrun
                |r u sid st x w1 w2 Hf Hs Hi Hrun]; intros W.
  - by eapply Refresh_kills.
  - by eapply Logout_kills.
  - by eapply LogoutAll_kills.
  - by eapply RevokeSession_kills.
Qed.

(** Such a request is a request of the service: it respects what the store does. *)
Lemma kills_keeps R dp raw w w' : StoreKeeps R dp -> kills raw w w' -> R (w_db w) (w_db w').
Proof.
  intros HS [svc r b st x w1 w2 _ _ Hrun|r x u sid w1 w2 _ _ _ Hrun|r u sid x w1 w2 _ _ _ Hrun|r u sid st x w1 w2 _ _ _ Hrun].
  - by apply (k_Refresh (R := R) (dp := dp)) in Hrun as [? _].
  - assert (keeps R (AuthSession.Logout r)) as Hk by (unfold AuthSession.Logout; keeps_handler). by apply Hk in Hrun as [? _].
  - assert (keeps R (AuthSession.LogoutAll r)) as Hk
      by (unfold AuthSession.LogoutAll, Audit.Log; keeps_handler). by apply Hk in Hrun as [? _].
  - assert (keeps R (AuthSession.RevokeSession_ r)) as Hk by (unfold AuthSession.RevokeSession_; keeps_handler).
    by apply Hk in Hrun as [? _].
Qed.

End Store.
