(* ===== verification/AuthLogin.v ===== *)
(** Who gets a session: which requests of the auth service can add one, and what
    they have checked before.  For a user with TOTP enabled that is a second
    factor. *)

From S2P Require Import Prelude Tables GoStr Sha256 GoCodec HttpUtil Scope Services AuthModels AuthStore.
From S2P Require Import AuthOrgStore AuthService AuthSession AuthMfa AuthOauth AuthOrgs AuthAdmin AuthRoutes.
From S2P Require Import AuthFrame AuthWf.
Import AuthStore AuthOrgStore Token MfaSvc.

(** * Definitions *)

(** A user with TOTP enabled. *)
Definition enrolled (d : DB) (u : uuid) : Prop :=
  exists k m, mfa_settings d !! k = Some m /\ ms_UserID m = u /\ ms_TotpEnabled m = true.

(** Every session is an old one, with its user, or one for a user in [U]. *)
Definition logs_in (U : uuid -> Prop) (d d' : DB) : Prop :=
  forall k s', sessions d' !! k = Some s' ->
    (exists s, sessions d !! k = Some s /\ se_UserID s = se_UserID s') \/ U (se_UserID s').

(** Statements that leave the multi-factor settings alone. *)
Definition same_mfa (d d' : DB) : Prop := mfa_settings d' = mfa_settings d.

Section Proofs.
Context `{UUIDCodec} `{Jwt} `{Encryption.AEAD} `{Bcrypt} `{Totp}.

(** A challenge token of the service for the user. *)
Definition challenged (h : AuthMfa.Handler) (now : Z) (token : string) (u : uuid) : Prop :=
  exists sub, ValidateMFAChallengeToken (AuthMfa.tokenSvc h) token now = Ok sub /\ uuid_scan sub = Some u.

(** A valid code for the user's stored secret. *)
Definition totp_factor (h : AuthMfa.Handler) (d : DB) (now : Z) (code : string) (u : uuid) : Prop :=
  exists k m secret, mfa_settings d !! k = Some m /\ ms_UserID m = u /\ ms_TotpEnabled m = true /\
    AuthEncryption.Decrypt (AuthMfa.encSvc h) (ms_TotpSecret m) = Ok secret /\ ValidateTOTPCode code secret now = true.

(** An unused backup code of the user. *)
Definition backup_factor (d : DB) (code : string) (u : uuid) : Prop :=
  exists k c, mfa_backup_codes d !! k = Some c /\ bc_UserID c = u /\ bc_UsedAt c = None /\
    VerifyBackupCode code (bc_CodeHash c) = true.

End Proofs.

(** * Lemmas *)

#[export] Instance logs_in_order U : PreOrder (logs_in U).
Proof.
  split; unfold logs_in; [eauto|]. intros a b c Hab Hbc k s' Hs'.
  destruct (Hbc _ _ Hs') as [(s & Hs & E)|?]; [|by right].
  destruct (Hab _ _ Hs) as [(s0 & Hs0 & E0)|?]; [left|right; congruence]. exists s0. split; [done|congruence].
Qed.

#[export] Instance same_mfa_order : PreOrder same_mfa.
Proof. split; unfold same_mfa; [by intros d|]. intros a b c. congruence. Qed.

Lemma logs_in_mono (U V : uuid -> Prop) d d' : (forall u, U u -> V u) -> logs_in U d d' -> logs_in V d d'.
Proof. intros HUV Hl k s' Hs'. destruct (Hl _ _ Hs') as [?|?]; eauto. Qed.

Lemma logs_in_same U d d' : sessions d' = sessions d -> logs_in U d d'.
Proof. intros E k s' Hs'. rewrite E in Hs'. eauto. Qed.

Lemma logs_in_update U d p f :
  (forall s, se_UserID (f s) = se_UserID s) -> logs_in U d (set_sessions (update_where p f (sessions d)) d).
Proof.
  intros Hf k s'. cbn. rewrite update_where_lookup. destruct (sessions d !! k) as [s|]; [|done]. cbn.
  intros [= <-]. left. exists s. split; [done|]. by destruct (p s).
Qed.

Lemma logs_in_insert (U : uuid -> Prop) d id s :
  U (se_UserID s) -> logs_in U d (set_sessions (<[id := s]> (sessions d)) d).
Proof. intros HU k s'. cbn. rewrite lookup_insert_Some. intros [[_ <-]|[_ Hs]]; eauto. Qed.

Ltac logs_in_stmt :=
  open_stmt;
  first [ by apply logs_in_same | by apply logs_in_update | by apply logs_in_insert ].
Ltac same_mfa_stmt := open_stmt; by unfold same_mfa.

Section Login.
Context `{UUIDCodec} `{Jwt} `{NetAddr} `{Validator} `{Encryption.AEAD} `{Bcrypt} `{Totp} `{Collation}.

(** No authenticated endpoint creates a session. *)
Lemma group_logs_in dp : GroupKeeps (logs_in (fun _ => False)) dp.
Proof. group_frame logs_in_stmt. Qed.

(** The login handlers create one for their user only. *)
Lemma issueTokens_logs_in h r u : keeps (logs_in (eq u)) (AuthMfa.issueTokens h r u).
Proof. frame_fields logs_in_stmt. Qed.

Lemma issueTokensAndRedirect_logs_in h r u x :
  keeps (logs_in (eq (u_ID u))) (AuthOauth.issueTokensAndRedirect h r u x).
Proof. frame_fields logs_in_stmt. Qed.

Lemma finish_login_logs_in h r u m : keeps (logs_in (eq u)) (AuthMfa.finish_login h r u m).
Proof.
  unfold AuthMfa.finish_login, Audit.Log. apply keeps_bind; [apply _|apply issueTokens_logs_in|].
  intros [x|]; repeat first [logs_in_stmt|keeps_step].
Qed.

Lemma Refresh_logs_in svc r b : keeps (logs_in (fun _ => False)) (AuthSession.Refresh svc r b).
Proof. frame_fields logs_in_stmt. Qed.

(** ** The second step of a login *)

Lemma Challenge_logs_in h r body w x w' :
  AuthMfa.Challenge h r body w = (x, w') ->
  logs_in (fun u => exists b, body = Ok b /\ challenged h (w_now w) (AuthMfa.MFAToken b) u /\
                     totp_factor h (w_db w) (w_now w) (AuthMfa.Code b) u) (w_db w) (w_db w').
Proof.
  intros Hrun. unfold AuthMfa.Challenge in Hrun. destruct body as [b|e]; [|by au_run; apply logs_in_same].
  destruct (AuthValidate.Struct _); [|by au_run; apply logs_in_same].
  apply bind_inv in Hrun as (now & w1 & Hn & Hrun). unfold time_now, gets in Hn. injection Hn as <- <-.
  destruct (ValidateMFAChallengeToken _ _ _) as [sub|e] eqn:Hv; [|by au_run; apply logs_in_same].
  destruct (uuid_scan sub) as [u|] eqn:Hu; [|by au_run; apply logs_in_same].
  apply bind_inv in Hrun as (q & w1 & Hq & Hrun). apply au_query_inv in Hq as (f & -> & Hq).
  destruct q as [m|e]; [|by destruct e; au_run; apply logs_in_same].
  destruct Hq as [?|Hq]; [done|]. symmetry in Hq. apply GetMFASettings_row in Hq as (k & Hk & Hm).
  destruct (ms_TotpEnabled m) eqn:Hen; [|by au_run; apply logs_in_same]. cbn [negb] in Hrun.
  destruct (AuthEncryption.Decrypt _ _) as [secret|e] eqn:Hd; [|by au_run; apply logs_in_same].
  destruct (ValidateTOTPCode _ _ _) eqn:Hc; [|by au_run; apply logs_in_same]. cbn [negb] in Hrun.
  apply finish_login_logs_in in Hrun as [Hl _]. cbn in Hl. eapply logs_in_mono; [|exact Hl].
  intros ? <-. exists b. split_and!; [done|by exists sub|by exists k, m, secret].
Qed.

(** The loop accepts a code of the list. *)
Lemma match_code_in plain codes w w' :
  AuthMfa.match_code plain codes w = (true, w') -> exists c, c ∈ codes /\ VerifyBackupCode plain (bc_CodeHash c) = true.
Proof.
  revert w. induction codes as [|c codes IH]; intros w Hrun; cbn in Hrun; [by au_run|].
  destruct (VerifyBackupCode _ _) eqn:E; [exists c; split; [by left|done]|].
  apply IH in Hrun as (c' & ? & ?). exists c'. split; [by right|done].
Qed.

Lemma match_code_logs_in plain codes : keeps (logs_in (fun _ => False)) (AuthMfa.match_code plain codes).
Proof. induction codes as [|c codes IH]; cbn; repeat first [logs_in_stmt|apply IH|keeps_step]. Qed.

Lemma BackupCodeVerify_logs_in h r body w x w' :
  AuthMfa.BackupCodeVerify h r body w = (x, w') ->
  logs_in (fun u => exists b, body = Ok b /\ challenged h (w_now w) (AuthMfa.MFAToken b) u /\
                     backup_factor (w_db w) (AuthMfa.Code b) u) (w_db w) (w_db w').
Proof.
  intros Hrun. unfold AuthMfa.BackupCodeVerify in Hrun. destruct body as [b|e]; [|by au_run; apply logs_in_same].
  destruct (AuthValidate.Struct _); [|by au_run; apply logs_in_same].
  apply bind_inv in Hrun as (now & w1 & Hn & Hrun). unfold time_now, gets in Hn. injection Hn as <- <-.
  destruct (ValidateMFAChallengeToken _ _ _) as [sub|e] eqn:Hv; [|by au_run; apply logs_in_same].
  destruct (uuid_scan sub) as [u|] eqn:Hu; [|by au_run; apply logs_in_same].
  apply bind_inv in Hrun as (q & w1 & Hq & Hrun). apply au_query_inv in Hq as (f & -> & Hq).
  destruct q as [codes|e]; [|by au_run; apply logs_in_same]. destruct Hq as [?|[= ->]]; [done|].
  apply bind_inv in Hrun as (ok & w2 & Hm & Hrun). pose proof (match_code_logs_in _ _ _ _ _ Hm) as [Hl1 _]. cbn in Hl1.
  destruct ok; cbn [negb] in Hrun; [|au_run; by eapply logs_in_mono; [|exact Hl1]].
  apply match_code_in in Hm as (c & Hc & Hver). apply elem_of_select in Hc as [Hc [k Hk]].
  apply andb_true_iff in Hc as [Hcu Hun]. apply bool_decide_eq_true in Hcu, Hun.
  apply finish_login_logs_in in Hrun as [Hl2 _].
  etrans; [by eapply logs_in_mono; [|exact Hl1]|]. eapply logs_in_mono; [|exact Hl2].
  intros ? <-. exists b. split_and!; [done|by exists sub|by exists k, c].
Qed.

(** ** The first step of a login *)

(** What runs before the multi-factor check. *)
Lemma resolveUser_before p i :
  keeps (logs_in (fun _ => False)) (AuthOauth.resolveUser p i) /\ keeps same_mfa (AuthOauth.resolveUser p i).
Proof.
  unfold AuthOauth.resolveUser. split; repeat first [logs_in_stmt|same_mfa_stmt|keeps_guard].
Qed.

Lemma storeOAuthTokens_before h p i a r :
  keeps (logs_in (fun _ => False)) (AuthOauth.storeOAuthTokens h p i a r) /\
  keeps same_mfa (AuthOauth.storeOAuthTokens h p i a r).
Proof.
  unfold AuthOauth.storeOAuthTokens, AuthOauth.encrypt_token, AuthEncryption.Encrypt.
  split; repeat first [logs_in_stmt|same_mfa_stmt|keeps_step].
Qed.

Lemma state_before st :
  keeps (logs_in (fun _ => False)) (exec (GetAndDeleteOAuthState st)) /\ keeps same_mfa (exec (GetAndDeleteOAuthState st)).
Proof. split; [logs_in_stmt|same_mfa_stmt]. Qed.

(** The settings found say whether the user is enrolled. *)
Lemma not_enrolled u now d :
  uniq ms_UserID (mfa_settings d) ->
  match GetMFASettings u now d with Ok m => ms_TotpEnabled m | Err _ => false end = false -> ~ enrolled d u.
Proof.
  intros Huniq Hq (k & m & Hk & Hu & Hen). unfold GetMFASettings, get_where, result_of_option in Hq.
  destruct (find_row _ _) as [m'|] eqn:E.
  - apply find_row_Some in E as [Hm' [k' Hk']]. apply bool_decide_eq_true in Hm'.
    assert (k' = k) as -> by (eapply Huniq; [done..|congruence]). congruence.
  - rewrite find_row_None in E. specialize (E _ _ Hk). by apply bool_decide_eq_false in E.
Qed.

(** A failure-free prefix of a login that logs nobody in. *)
Definition before (w0 w : World) : Prop :=
  logs_in (fun u => ~ enrolled (w_db w0) u) (w_db w0) (w_db w) /\ same_mfa (w_db w0) (w_db w) /\ w_faults w = [].

Lemma before_step {A} (c : M World A) w0 w a w' :
  keeps (logs_in (fun _ => False)) c /\ keeps same_mfa c -> c w = (a, w') -> before w0 w -> before w0 w'.
Proof.
  intros [Hl Hm] Hrun (L & M & F). apply Hl in Hrun as Hr. destruct Hr as (L1 & _ & F1). apply Hm in Hrun as [M1 _].
  split_and!; [|by etrans|by apply F1]. etrans; [exact L|]. by eapply logs_in_mono; [|exact L1].
Qed.

Lemma Callback_logs_in enc h r w x w' :
  auth_wf enc (w_db w) -> w_faults w = [] -> AuthOauth.Callback h r w = (x, w') ->
  logs_in (fun u => ~ enrolled (w_db w) u) (w_db w) (w_db w').
Proof.
  intros W Hf Hrun. assert (before w w) as B by (split_and!; [by apply logs_in_same|done|done]).
  unfold AuthOauth.Callback in Hrun. destruct (AuthOauth.providers_ h !! _) as [p|]; [|by au_run; apply B].
  cbv zeta in Hrun. match type of Hrun with (if ?c then _ else _) _ = _ => destruct c end; [by au_run; apply B|].
  apply bind_inv in Hrun as (q & w1 & Hr1 & Hrun). apply (before_step _ w) in Hr1; [|apply state_before|done].
  destruct q as [st|e]; [|by au_run; apply Hr1]. destruct (decide _); [by au_run; apply Hr1|].
  destruct (Exchange p _) as [[[acc ref] info]|]; [|by au_run; apply Hr1].
  apply bind_inv in Hrun as (u & w2 & Hr2 & Hrun). apply (before_step _ w) in Hr2; [|apply resolveUser_before|done].
  destruct u as [u|]; [|by au_run; apply Hr2].
  apply bind_inv in Hrun as (z & w3 & Hr3 & Hrun). apply (before_step _ w) in Hr3; [|apply storeOAuthTokens_before|done].
  destruct Hr3 as (L & M & F). rewrite bind_query_ok in Hrun by done.
  match type of Hrun with (if ?c then _ else _) _ = _ => destruct c eqn:Hen end.
  - unfold IssueMFAChallengeToken in Hrun. by au_run.
  - apply bind_inv in Hrun as (t & w4 & Hr4 & Hrun). apply issueTokensAndRedirect_logs_in in Hr4 as [L4 _].
    apply not_enrolled in Hen; [|rewrite M; apply (uniq_mfa_user _ _ W)].
    assert (~ enrolled (w_db w) (u_ID u)) as Hnot.
    { intros (k & m & Hk & Hm). apply Hen. exists k, m. by rewrite M. }
    etrans; [exact L|]. etrans; [eapply logs_in_mono; [|exact L4]; by intros ? <-|].
    unfold Audit.Log in Hrun. destruct t; au_run; try done; apply logs_in_same; unfold CreateAuditLog in *; by stmt_inv.
Qed.

(** The other public endpoints create no session. *)
Lemma GetByToken_logs_in f r : keeps (logs_in (fun _ => False)) (AuthInvite.GetByToken f r).
Proof. unfold AuthInvite.GetByToken. repeat first [logs_in_stmt|keeps_guard]. Qed.

Lemma Start_logs_in h r : keeps (logs_in (fun _ => False)) (AuthOauth.Start h r).
Proof. unfold AuthOauth.Start, AuthOauth.generateState. repeat first [logs_in_stmt|keeps_guard]. Qed.

Lemma Logout_logs_in r : keeps (logs_in (fun _ => False)) (AuthSession.Logout r).
Proof. unfold AuthSession.Logout. repeat first [logs_in_stmt|keeps_guard]. Qed.

(** ** All requests *)

(** What a public request that logs [u] in has established. *)
Definition login_proof (dp : AuthRoutes.Deps) (w : World) (c : AuthRoutes.PublicCall) (u : uuid) : Prop :=
  match c with
  | AuthRoutes.GET_oauth_callback => ~ enrolled (w_db w) u
  | AuthRoutes.POST_mfa_challenge (Ok b) =>
      challenged (AuthRoutes.MFA dp) (w_now w) (AuthMfa.MFAToken b) u /\
      totp_factor (AuthRoutes.MFA dp) (w_db w) (w_now w) (AuthMfa.Code b) u
  | AuthRoutes.POST_backup_verify (Ok b) =>
      challenged (AuthRoutes.MFA dp) (w_now w) (AuthMfa.MFAToken b) u /\ backup_factor (w_db w) (AuthMfa.Code b) u
  | _ => False
  end.

Lemma serve_public_logs_in enc dp r c w st w' :
  auth_wf enc (w_db w) -> w_faults w = [] -> AuthRoutes.serve_public dp r c w = (st, w') ->
  logs_in (login_proof dp w c) (w_db w) (w_db w').
Proof.
  intros W Hf Hrun. unfold AuthRoutes.serve_public in Hrun.
  destruct c; unfold AuthRoutes.status in Hrun; apply bind_inv in Hrun as (x & w1 & Hrun & Hr); unfold ret in Hr;
    injection Hr as _ <-; cbn [login_proof]; try (unfold ret in Hrun; injection Hrun as _ <-; by apply logs_in_same).
  - by apply GetByToken_logs_in in Hrun as [? _].
  - by apply Start_logs_in in Hrun as [? _].
  - by eapply Callback_logs_in.
  - by apply Refresh_logs_in in Hrun as [? _].
  - by apply Logout_logs_in in Hrun as [? _].
  - apply Challenge_logs_in in Hrun. eapply logs_in_mono; [|exact Hrun]. intros u (b & -> & ?). done.
  - apply BackupCodeVerify_logs_in in Hrun. eapply logs_in_mono; [|exact Hrun]. intros u (b & -> & ?). done.
Qed.

Lemma serve_authenticated_logs_in dp r c w st w' :
  AuthRoutes.serve_authenticated dp r c w = (st, w') -> logs_in (fun _ => False) (w_db w) (w_db w').
Proof.
  intros Hs. unfold AuthRoutes.serve_authenticated, bind, time_now, gets in Hs.
  destruct (AuthMiddleware.Auth _ _ _ _) as [r'|[st' msg]].
  - by apply (serve_auth_keeps _ dp (HS := group_logs_in dp)) in Hs as [Hs _].
  - unfold ret in Hs. by simplify_eq.
Qed.

End Login.
