(* ===== verification/AuthWebhooks.v ===== *)
(** Webhook deliveries over time: the dispatcher next to the service's requests,
    the bounds on the attempts of a delivery, and why every delivery comes to an
    end. *)

From S2P Require Import Prelude Tables GoStr Sha256 GoCodec HttpUtil Scope Services AuthModels AuthStore.
From S2P Require Import AuthOrgStore AuthService AuthSession AuthMfa AuthOauth AuthOrgs AuthAdmin Dispatcher.
From S2P Require Import AuthRoutes AuthFrame AuthWf.
Import AuthStore AuthOrgStore Token MfaSvc.

(** * Definitions *)

Definition settled (x : WebhookDelivery) : bool := bool_decide (is_Some (wd_DeliveredAt x)).

(** A delivery has made at most five attempts; one that is not settled has made
    fewer, and is due again within sixteen minutes. *)
Definition delivery_ok (now : Z) (x : WebhookDelivery) : Prop :=
  0 <= wd_Attempts x <= Dispatcher.maxAttempts /\
  (settled x = false ->
   wd_Attempts x < Dispatcher.maxAttempts /\
   match wd_NextRetryAt x with None => True | Some t => t <= now + minutes 16 end).

(** The attempts a delivery may still make, and those of all deliveries. *)
Definition work (x : WebhookDelivery) : nat :=
  if settled x then 0%nat else Z.to_nat (Dispatcher.maxAttempts - wd_Attempts x).
Definition todo (t : gmap N WebhookDelivery) : nat := map_fold (fun _ x n => (work x + n)%nat) 0%nat t.

Section System.
Context `{UUIDCodec} `{Jwt} `{NetAddr} `{Validator} `{Encryption.AEAD} `{Bcrypt} `{Totp} `{Collation}.
Context (dp : AuthRoutes.Deps) (encode : list string -> option string).

(** The service's requests, the events dispatched and the delivery rounds, in
    any order. *)
Inductive hook_step : World -> World -> Prop :=
| hook_request w w' : AuthRoutes.auth_step dp w w' -> hook_step w w'
| hook_dispatch e w w' : Dispatcher.Dispatch encode e w = (tt, w') -> hook_step w w'
| hook_deliver batch w w' : Dispatcher.DeliverPending batch w = (tt, w') -> hook_step w w'.

Definition hook_run : World -> World -> Prop := rtc hook_step.

End System.

(** [n] delivery rounds, each without database failures and at least sixteen
    minutes after the one before; the endpoints answer what they answer. *)
Inductive rounds (batch : Z) : nat -> World -> World -> Prop :=
| rounds_O w : rounds batch 0 w w
| rounds_S n w w1 w2 w3 :
    Dispatcher.DeliverPending batch w = (tt, w1) ->
    w_db w2 = w_db w1 -> w_faults w2 = [] -> w_now w1 + minutes 16 <= w_now w2 ->
    rounds batch n w2 w3 -> rounds batch (S n) w w3.

(** * Lemmas *)

(** ** The tables *)

Lemma update_where_key {A} (id : A -> N) f (t : gmap N A) k x :
  keyed id t -> t !! k = Some x -> update_where (fun a => bool_decide (id a = k)) f t = <[k := f x]> t.
Proof.
  intros Hkey Hk. apply map_eq. intros j. rewrite update_where_lookup.
  destruct (decide (j = k)) as [->|Hne].
  - rewrite Hk, lookup_insert_eq. cbn. by rewrite bool_decide_true by (by apply Hkey).
  - rewrite lookup_insert_ne by done. destruct (t !! j) as [y|] eqn:Hj; [|done]. cbn.
    apply Hkey in Hj. by rewrite bool_decide_false by congruence.
Qed.

Lemma todo_insert t k x y : t !! k = Some x -> (todo (<[k := y]> t) + work x = todo t + work y)%nat.
Proof.
  intros Hk. unfold todo.
  rewrite <-(insert_delete_id t k x) at 2 by done. rewrite <-(insert_delete_eq t k y).
  rewrite !map_fold_insert_L; try (intros; lia); try apply lookup_delete_eq.
Qed.

Lemma todo_lookup t k x : t !! k = Some x -> (work x <= todo t)%nat.
Proof.
  intros Hk. unfold todo. rewrite <-(insert_delete_id t k x) by done.
  rewrite map_fold_insert_L; [lia|intros; lia|apply lookup_delete_eq].
Qed.

Lemma todo_bound now t : each (delivery_ok now) t -> (todo t <= 5 * size t)%nat.
Proof.
  unfold todo. induction t as [|k x t Hk IH] using map_ind; intros Ht; [done|].
  rewrite map_fold_insert_L by (done || intros; lia). rewrite map_size_insert_None by done.
  assert (each (delivery_ok now) t) as Ht'.
  { intros j y Hj. apply (Ht j). rewrite lookup_insert_ne; [done|congruence]. }
  specialize (IH Ht'). specialize (Ht k x (lookup_insert_eq _ _ _)). destruct Ht as [Ha _].
  assert (work x <= 5)%nat by (unfold work, Dispatcher.maxAttempts in *; destruct (settled x); lia). lia.
Qed.

(** ** One attempt *)

(** The row [y] that an attempt for the row [x] leaves. *)
Definition attempted (now : Z) (x y : WebhookDelivery) : Prop :=
  wd_ID y = wd_ID x /\ wd_SubscriptionID y = wd_SubscriptionID x /\ wd_Attempts y = wrap32 (wd_Attempts x + 1) /\
  (settled y = false ->
   wd_Attempts y < Dispatcher.maxAttempts /\ wd_NextRetryAt y = Some (now + minutes (Z.shiftl 1 (wd_Attempts y)))).

Lemma attempted_ok now x y :
  delivery_ok now x -> settled x = false -> attempted now x y -> delivery_ok now y /\ (work y < work x)%nat.
Proof.
  intros [Ha Hx] Hs (_ & _ & Hy & Hr). destruct (Hx Hs) as [Hlt _]. unfold Dispatcher.maxAttempts in *.
  rewrite wrap32_id in Hy by lia.
  unfold delivery_ok, work. rewrite Hs. unfold Dispatcher.maxAttempts. split; [split; [lia|]|].
  - intros Hsy. destruct (Hr Hsy) as [Hl ->]. split; [done|]. unfold minutes.
    assert (wd_Attempts y = 1 \/ wd_Attempts y = 2 \/ wd_Attempts y = 3 \/ wd_Attempts y = 4) as Hc by lia.
    assert (Z.shiftl 1 (wd_Attempts y) <= 16) by (destruct Hc as [E|[E|[E|E]]]; rewrite E; vm_compute; discriminate).
    lia.
  - destruct (settled y); lia.
Qed.

(** The effect of recording the outcome of an attempt; a failed statement has
    none. *)
Definition recorded (x : WebhookDelivery) (w w' : World) : Prop :=
  w_now w' = w_now w /\
  ((w_faults w <> [] /\ w_db w' = w_db w) \/
   exists y, attempted (w_now w) x y /\
     w_db w' = set_webhook_deliveries (<[wd_ID x := y]> (webhook_deliveries (w_db w))) (w_db w) /\
     (w_faults w = [] -> w_faults w' = [])).

Lemma record_effect x a w u w' :
  keyed wd_ID (webhook_deliveries (w_db w)) -> webhook_deliveries (w_db w) !! wd_ID x = Some x -> ud_ID a = wd_ID x ->
  ud_Attempts a = wrap32 (wd_Attempts x + 1) ->
  (ud_DeliveredAt a = None ->
   ud_Attempts a < Dispatcher.maxAttempts /\ ud_NextRetryAt a = Some (w_now w + minutes (Z.shiftl 1 (ud_Attempts a)))) ->
  (do exec (UpdateWebhookDeliveryResult a) ;; ret tt) w = (u, w') -> recorded x w w'.
Proof.
  intros Hkey Hx Hid Ha Hd Hrun. apply bind_inv in Hrun as (q & w1 & Hq & Hr). unfold ret in Hr. injection Hr as _ <-.
  pose proof Hq as Hq'. apply au_exec_inv in Hq as (f & [(e & -> & -> & He)|(n & d & -> & Hu & ->)]).
  - split; [done|left]. split; [|done]. intros Hf. unfold UpdateWebhookDeliveryResult in Hq'.
    erewrite au_exec_ok in Hq' by (done || apply update_exec_nil). done.
  - split; [done|right]. unfold UpdateWebhookDeliveryResult in Hu. rewrite update_exec_nil, Hid in Hu. simplify_eq.
    rewrite (update_where_key _ _ _ _ x) by done. eexists. split_and!; [|done|].
    + split_and!; [done..|]. unfold settled. cbn. intros Hs. apply Hd. apply bool_decide_eq_false in Hs. by apply eq_None_not_Some.
    + intros Hf. unfold UpdateWebhookDeliveryResult in Hq'.
      erewrite au_exec_ok in Hq' by (done || apply update_exec_nil). injection Hq' as _ Hw. by rewrite <-Hw.
Qed.

Lemma processDelivery_effect sub x w u w' :
  keyed wd_ID (webhook_deliveries (w_db w)) -> webhook_deliveries (w_db w) !! wd_ID x = Some x ->
  Dispatcher.processDelivery sub x w = (u, w') -> recorded x w w'.
Proof.
  intros Hkey Hx Hrun. unfold Dispatcher.processDelivery in Hrun.
  apply bind_inv in Hrun as (q & w1 & Hq & Hrun). unfold Dispatcher.deliver in Hq.
  apply bind_inv in Hq as (q' & w2 & Hq & Hr). unfold ret in Hr. injection Hr as Hq' <-.
  apply http_do_inv in Hq as (n & ->). erewrite bind_eval in Hrun by reflexivity. cbv zeta in Hrun.
  match type of Hrun with _ ?w2 = _ => change (recorded x w2 w') end.
  assert (forall st b w1, w_now w1 = w_now w -> w_db w1 = w_db w ->
    Dispatcher.recordFailure (wd_ID x) st b (wrap32 (wd_Attempts x + 1)) (w_now w) w1 = (u, w') -> recorded x w1 w') as Hfail.
  { intros st b w1 Hn Hw1 Hrec. unfold Dispatcher.recordFailure in Hrec.
    eapply record_effect in Hrec; try done; cbn; try by rewrite Hw1.
    destruct (Dispatcher.maxAttempts <=? _) eqn:E; [done|]. intros _. apply Z.leb_gt in E.
    split; [done|]. rewrite Hn. by rewrite (proj2 (Z.ltb_lt _ _)). }
  destruct q as [[st b]|]; [destruct (Dispatcher.isSuccessStatus st)|].
  - by eapply record_effect; [exact Hkey|exact Hx|..|exact Hrun].
  - by eapply Hfail; [..|exact Hrun].
  - by eapply Hfail; [..|exact Hrun].
Qed.

(** ** One round *)

(** What a round needs of the database and keeps. *)
Record hooks_ok (now : Z) (d : DB) : Prop := mkHooksOk {
  hk_keyed : keyed wd_ID (webhook_deliveries d);
  hk_sub : refs wd_SubscriptionID (webhook_deliveries d) (webhook_subscriptions d);
  hk_deliveries : each (delivery_ok now) (webhook_deliveries d)
}.

(** What one attempt for the row [x] does to the world. *)
Definition round_step (x : WebhookDelivery) (w w' : World) : Prop :=
  w_now w' = w_now w /\ hooks_ok (w_now w') (w_db w') /\
  size (webhook_deliveries (w_db w')) = size (webhook_deliveries (w_db w)) /\
  (forall k, k <> wd_ID x -> webhook_deliveries (w_db w') !! k = webhook_deliveries (w_db w) !! k) /\
  (w_faults w = [] ->
   w_faults w' = [] /\ (todo (webhook_deliveries (w_db w')) < todo (webhook_deliveries (w_db w)))%nat).

Lemma recorded_step x w w' :
  hooks_ok (w_now w) (w_db w) -> webhook_deliveries (w_db w) !! wd_ID x = Some x -> settled x = false ->
  recorded x w w' -> round_step x w w'.
Proof.
  intros [Hkey Hsub Hok] Hx Hs [Hn [[Hf Hd]|(y & Hy & Hd & Hf)]].
  - unfold round_step. rewrite Hn, Hd. split_and!; [done|by constructor|done..].
  - destruct (attempted_ok _ _ _ (Hok _ _ Hx) Hs Hy) as [Hoky Hwork]. destruct Hy as (Hid & Hsid & _).
    unfold round_step. rewrite Hn, Hd. cbn. split_and!.
    + done.
    + constructor; cbn.
      * by apply keyed_insert.
      * intros k z. rewrite lookup_insert_Some. intros [[_ <-]|[_ Hz]]; [rewrite Hsid|]; by eapply Hsub.
      * by apply each_insert.
    + apply map_size_insert_Some. by eexists.
    + intros k Hk. by rewrite lookup_insert_ne by congruence.
    + intros Hw. split; [by apply Hf|]. pose proof (todo_insert _ _ x y Hx). lia.
Qed.

Lemma query_faults {A} (q : Z -> DB -> result DBError A) w r w' :
  query q w = (r, w') -> w_db w' = w_db w /\ w_now w' = w_now w /\
    (w_faults w = [] -> w' = w /\ r = q (w_now w) (w_db w)) .
Proof.
  intros Hq. split_and!; [by apply au_query_inv in Hq as (f & -> & _)..|].
  intros Hf. rewrite au_query_ok in Hq by done. by simplify_eq.
Qed.

(** The body of the loop of [DeliverPending]. *)
Definition deliver_one (del : WebhookDelivery) : M World unit :=
  try sub <- query (GetWebhookSubscription (wd_SubscriptionID del)) catch e => ret tt ;;
  Dispatcher.processDelivery sub del.

Lemma deliver_one_step x w u w' :
  hooks_ok (w_now w) (w_db w) -> webhook_deliveries (w_db w) !! wd_ID x = Some x -> settled x = false ->
  deliver_one x w = (u, w') -> round_step x w w'.
Proof.
  intros Hok Hx Hs Hrun. apply recorded_step; [done..|]. unfold deliver_one in Hrun.
  apply bind_inv in Hrun as (q & w1 & Hq & Hrun). apply query_faults in Hq as (Hd & Hn & Hf).
  destruct Hok as [Hkey Hsub _]. destruct (Hsub _ _ Hx) as [sub Hsub'].
  unfold GetWebhookSubscription, get_row in Hf. rewrite Hsub' in Hf.
  destruct q as [s|e].
  - apply processDelivery_effect in Hrun as [Hn' Hr]; [|by rewrite Hd..].
    split; [congruence|]. rewrite Hd, Hn in Hr. destruct Hr as [[Hw1 Hr]|(y & Hy & Hr & Hfr)].
    + left. split; [|done]. intros Hw. by destruct (Hf Hw) as [-> _].
    + right. exists y. split_and!; [done..|]. intros Hw. apply Hfr. by destruct (Hf Hw) as [-> _].
  - unfold ret in Hrun. simplify_eq. split; [done|left]. split; [|done]. intros Hw. by destruct (Hf Hw).
Qed.

Lemma loop_step l w u w' :
  hooks_ok (w_now w) (w_db w) -> NoDup (wd_ID <$> l) ->
  (forall x, x ∈ l -> webhook_deliveries (w_db w) !! wd_ID x = Some x /\ settled x = false) ->
  for_range l deliver_one w = (u, w') ->
  w_now w' = w_now w /\ hooks_ok (w_now w') (w_db w') /\
  size (webhook_deliveries (w_db w')) = size (webhook_deliveries (w_db w)) /\
  (w_faults w = [] ->
   w_faults w' = [] /\
   (todo (webhook_deliveries (w_db w')) + length l <= todo (webhook_deliveries (w_db w)))%nat).
Proof.
  revert w. induction l as [|x l IH]; intros w Hok Hnd Hl Hrun; cbn in Hrun.
  - unfold ret in Hrun. simplify_eq. split_and!; [done..|]. intros Hf. cbn. split; [done|lia].
  - cbn in Hnd. apply NoDup_cons in Hnd as [Hx Hnd]. apply bind_inv in Hrun as (v & w1 & H1 & Hrun).
    destruct (Hl x) as [Hx' Hs]; [by left|].
    destruct (deliver_one_step _ _ _ _ Hok Hx' Hs H1) as (Hn & Hok1 & Hsz & Hsame & Hf1).
    destruct (IH w1 Hok1 Hnd) as (Hn' & Hok' & Hsz' & Hf'); [|done|].
    { intros y Hy. destruct (Hl y) as [Hy' Hsy]; [by right|]. split; [|done]. rewrite Hsame; [done|].
      intros Heq. apply Hx. rewrite <-Heq. apply list_elem_of_fmap. by exists y. }
    split_and!; [congruence|done|congruence|]. intros Hf. destruct (Hf1 Hf) as [Hf2 Ht1]. destruct (Hf' Hf2) as [? Ht2].
    split; [done|]. cbn. lia.
Qed.

(** The rows [DeliverPending] reads: distinct, stored and not settled. *)
Lemma keyed_rows_NoDup {A} (id : A -> N) (t : gmap N A) : keyed id t -> NoDup (id <$> rows t).
Proof.
  intros Hkey. unfold rows. rewrite <-list_fmap_compose.
  replace (id ∘ snd <$> map_to_list t) with ((map_to_list t).*1); [apply NoDup_fst_map_to_list|].
  apply list_fmap_ext. intros i [k x] Hi. cbn. symmetry. apply Hkey, elem_of_map_to_list.
  by eapply list_elem_of_lookup_2.
Qed.

Lemma ListPendingDeliveries_rows batch now t l :
  keyed wd_ID t -> limit_offset batch 0 (order_asc wd_CreatedAt (select (pending now) t)) = Ok l ->
  NoDup (wd_ID <$> l) /\ forall x, x ∈ l -> t !! wd_ID x = Some x /\ settled x = false.
Proof.
  intros Hkey Hl. unfold limit_offset in Hl. destruct (_ || _); [done|]. injection Hl as <-. rewrite drop_0.
  set (o := order_asc _ _). assert (o ≡ₚ select (pending now) t) as Hp by apply order_asc_perm. split.
  - eapply sublist_NoDup; [|apply fmap_sublist, sublist_take]. rewrite Hp. unfold select.
    eapply sublist_NoDup; [apply (keyed_rows_NoDup _ _ Hkey)|]. apply fmap_sublist, sublist_filter.
  - intros x Hx. assert (x ∈ select (pending now) t) as Hin by (rewrite <-Hp; apply elem_of_take in Hx as (i & Hi & _); by eapply list_elem_of_lookup_2).
    apply elem_of_select in Hin as [Hpend [k Hk]]. rewrite (Hkey _ _ Hk). split; [done|].
    unfold pending in Hpend. apply andb_true_iff in Hpend as [Hd _]. apply bool_decide_eq_true in Hd.
    unfold settled. rewrite Hd. by apply bool_decide_eq_false, is_Some_None.
Qed.

Lemma DeliverPending_step batch w u w' :
  hooks_ok (w_now w) (w_db w) -> Dispatcher.DeliverPending batch w = (u, w') ->
  w_now w' = w_now w /\ hooks_ok (w_now w') (w_db w') /\
  size (webhook_deliveries (w_db w')) = size (webhook_deliveries (w_db w)) /\
  (w_faults w = [] -> w_faults w' = [] /\
   (todo (webhook_deliveries (w_db w')) <= todo (webhook_deliveries (w_db w)))%nat /\
   (1 <= batch -> (exists x, x ∈ select (pending (w_now w)) (webhook_deliveries (w_db w))) ->
    (todo (webhook_deliveries (w_db w')) < todo (webhook_deliveries (w_db w)))%nat)).
Proof.
  intros Hok Hrun. unfold Dispatcher.DeliverPending in Hrun. apply bind_inv in Hrun as (q & w1 & Hq & Hrun).
  pose proof (query_faults _ _ _ _ Hq) as (Hd & Hn & Hf). apply au_query_inv in Hq as (f & Hw1 & Hq).
  destruct q as [l|e].
  - destruct Hq as [?|Hq]; [done|]. unfold ListPendingDeliveries in Hq. symmetry in Hq.
    destruct (ListPendingDeliveries_rows _ _ _ _ (hk_keyed _ _ Hok) Hq) as [Hnd Hl].
    destruct (loop_step l w1 u w') as (Hn' & Hok' & Hsz & Ht); [by rewrite Hd, Hn|done|by rewrite Hd|done|].
    rewrite Hd in Hsz, Ht. split_and!; [congruence|done|done|]. intros Hw. destruct (Hf Hw) as [-> _].
    destruct (Ht Hw) as [Hw' Hle]. split_and!; [done|lia|]. intros Hb [x Hx].
    assert (0 < length l)%nat; [|lia]. unfold limit_offset in Hq. destruct (_ || _); [done|]. injection Hq as <-.
    rewrite <-(order_asc_perm wd_CreatedAt) in Hx. destruct (order_asc _ _) as [|y ys]; [by apply not_elem_of_nil in Hx|].
    rewrite drop_0. destruct (Z.to_nat batch) eqn:E; [lia|cbn; lia].
  - unfold ret in Hrun. injection Hrun as _ <-. rewrite Hd, Hn. split_and!; [done..|]. intros Hw. destruct (Hf Hw) as [Hw1' He].
    rewrite Hw1'. split_and!; [done|lia|]. intros Hb _. unfold ListPendingDeliveries, limit_offset in He.
    rewrite (proj2 (Z.ltb_ge batch 0)) in He by lia. done.
Qed.

(** ** Rounds *)

(** Sixteen minutes after a round every delivery is settled or due. *)
Lemma unsettled_due now now' d :
  hooks_ok now d -> now + minutes 16 <= now' -> (todo (webhook_deliveries d) <> 0)%nat ->
  exists x, x ∈ select (pending now') (webhook_deliveries d).
Proof.
  intros [_ _ Hok] Hlater Ht.
  assert (exists k x, webhook_deliveries d !! k = Some x /\ settled x = false) as (k & x & Hk & Hs).
  { revert Ht. clear. generalize (webhook_deliveries d) as t. intros t. unfold todo.
    induction t as [|k x t Hk IH] using map_ind; [done|]. rewrite map_fold_insert_L by (done || intros; lia).
    intros Ht. destruct (settled x) eqn:E.
    - destruct IH as (j & y & Hj & Hy); [unfold work in Ht at 1; rewrite E in Ht; lia|].
      exists j, y. split; [|done]. rewrite lookup_insert_ne; congruence.
    - exists k, x. by rewrite lookup_insert_eq. }
  exists x. apply elem_of_select. split; [|by exists k]. destruct (Hok _ _ Hk) as [_ Hx]. destruct (Hx Hs) as [_ Hr].
  unfold pending. unfold settled in Hs. apply bool_decide_eq_false, eq_None_not_Some in Hs.
  rewrite bool_decide_true by done. cbn. destruct (wd_NextRetryAt x); [|done]. apply Z.leb_le. lia.
Qed.

Lemma delivery_ok_later now now' x : now <= now' -> delivery_ok now x -> delivery_ok now' x.
Proof.
  intros Hn [Ha Hx]. split; [done|]. intros Hs. destruct (Hx Hs) as [? Hr]. split; [done|].
  destruct (wd_NextRetryAt x); [lia|done].
Qed.

Lemma hooks_ok_later now now' d : now <= now' -> hooks_ok now d -> hooks_ok now' d.
Proof. intros Hn [Hk Hs Hd]. constructor; [done..|]. intros k x Hx. eapply delivery_ok_later; [done|by eapply Hd]. Qed.

Definition due (w : World) : Prop :=
  (todo (webhook_deliveries (w_db w)) <> 0)%nat ->
  exists x, x ∈ select (pending (w_now w)) (webhook_deliveries (w_db w)).

(** Every round that starts with something due brings the end closer. *)
Lemma rounds_due batch n w w' :
  1 <= batch -> hooks_ok (w_now w) (w_db w) -> w_faults w = [] -> due w -> rounds batch n w w' ->
  hooks_ok (w_now w') (w_db w') /\
  size (webhook_deliveries (w_db w')) = size (webhook_deliveries (w_db w)) /\
  (todo (webhook_deliveries (w_db w')) <= todo (webhook_deliveries (w_db w)) - n)%nat.
Proof.
  intros Hb Hok Hf Hdue Hr. induction Hr as [w|n w w1 w2 w3 H1 Hd Hf2 Hn _ IH]; [split_and!; [done..|lia]|].
  destruct (DeliverPending_step _ _ _ _ Hok H1) as (Hn1 & Hok1 & Hsz & Ht). destruct (Ht Hf) as (_ & Hle & Hlt).
  destruct IH as (Hok3 & Hsz3 & Ht3); [|done| |].
  - rewrite Hd. eapply hooks_ok_later; [|done]. unfold minutes in Hn. lia.
  - unfold due. rewrite Hd. by eapply unsettled_due.
  - rewrite Hd in Hsz3, Ht3. split_and!; [done|congruence|].
    destruct (decide (todo (webhook_deliveries (w_db w)) = 0)%nat) as [E|E]; [lia|]. specialize (Hlt Hb (Hdue E)). lia.
Qed.

(** After the first round there is something due in every round. *)
Lemma rounds_progress batch n w w' :
  1 <= batch -> hooks_ok (w_now w) (w_db w) -> w_faults w = [] -> rounds batch (S n) w w' ->
  hooks_ok (w_now w') (w_db w') /\
  size (webhook_deliveries (w_db w')) = size (webhook_deliveries (w_db w)) /\
  (todo (webhook_deliveries (w_db w')) <= todo (webhook_deliveries (w_db w)) - n)%nat.
Proof.
  intros Hb Hok Hf Hr. inversion Hr as [|? ? w1 w2 ? H1 Hd Hf2 Hn Hrest]; subst.
  destruct (DeliverPending_step _ _ _ _ Hok H1) as (Hn1 & Hok1 & Hsz & Ht). destruct (Ht Hf) as (_ & Hle & _).
  apply rounds_due in Hrest as (Hok' & Hsz' & Hle'); [|done| |done|].
  - rewrite Hd in Hsz', Hle'. split_and!; [done|congruence|lia].
  - rewrite Hd. eapply hooks_ok_later; [|done]. unfold minutes in Hn. lia.
  - unfold due. rewrite Hd. by eapply unsettled_due.
Qed.

Lemma todo_zero now t :
  each (delivery_ok now) t -> (todo t = 0)%nat -> forall k x, t !! k = Some x -> settled x = true.
Proof.
  intros Hok Ht k x Hk. destruct (settled x) eqn:Hs; [done|]. pose proof (todo_lookup _ _ _ Hk) as Hw.
  destruct (Hok _ _ Hk) as [_ Hx]. destruct (Hx Hs) as [Hlt _]. unfold work in Hw. rewrite Hs in Hw. lia.
Qed.

(** ** Reachable worlds *)

Section Reachable.
Context `{UUIDCodec} `{Jwt} `{NetAddr} `{Validator} `{Encryption.AEAD} `{Bcrypt} `{Totp} `{Collation}.
Context (dp : AuthRoutes.Deps) (encode : list string -> option string).
Notation enc := (AuthMfa.encSvc (AuthRoutes.MFA dp)).

(** Requests never change a delivery, they only remove deliveries. *)
Definition shrinks (d d' : DB) : Prop := webhook_deliveries d' ⊆ webhook_deliveries d.

#[local] Instance shrinks_order : PreOrder shrinks.
Proof. split; unfold shrinks; [by intros d|]. intros a b c ? ?. by etrans. Qed.

Lemma shrinks_delete p d d' : webhook_deliveries d' = delete_where p (webhook_deliveries d) -> shrinks d d'.
Proof. intros E. unfold shrinks. rewrite E. apply map_subseteq_spec. intros k x. rewrite delete_where_Some. by intros []. Qed.

Ltac shrinks_stmt :=
  open_stmt; first [ by apply map_subseteq_po | by unfold shrinks | by eapply shrinks_delete ].

Lemma shrinks_store : StoreKeeps shrinks dp.
Proof. store_frame shrinks_stmt. Qed.

Hint Resolve wf_CreateWebhookDelivery wf_UpdateWebhookDeliveryResult : keeps.

Lemma wf_Dispatch e : keeps (wf_le enc) (Dispatcher.Dispatch encode e).
Proof. unfold Dispatcher.Dispatch. keeps_tac. Qed.

Lemma wf_DeliverPending b : keeps (wf_le enc) (Dispatcher.DeliverPending b).
Proof.
  unfold Dispatcher.DeliverPending, Dispatcher.processDelivery, Dispatcher.recordFailure, Dispatcher.deliver. keeps_tac.
Qed.

(** A dispatched delivery has made no attempt yet. *)
Definition adds_fresh (d d' : DB) : Prop :=
  forall now, each (delivery_ok now) (webhook_deliveries d) -> each (delivery_ok now) (webhook_deliveries d').

#[local] Instance adds_fresh_order : PreOrder adds_fresh.
Proof. split; unfold adds_fresh; [by intros d|]. intros a b c ? ? now ?. eauto. Qed.

Lemma fresh_CreateWebhookDelivery s e p : keeps adds_fresh (insert_stmt (CreateWebhookDelivery s e p 0 None)).
Proof.
  open_stmt. intros now' Hok. cbn. apply each_insert; [|done]. unfold delivery_ok, Dispatcher.maxAttempts. cbn. lia.
Qed.

Hint Resolve fresh_CreateWebhookDelivery : keeps.

Lemma fresh_Dispatch e : keeps adds_fresh (Dispatcher.Dispatch encode e).
Proof. unfold Dispatcher.Dispatch. keeps_tac. Qed.

(** What every reachable world satisfies. *)
Definition hook_inv (w : World) : Prop :=
  auth_wf enc (w_db w) /\ each (delivery_ok (w_now w)) (webhook_deliveries (w_db w)).

Lemma hook_inv_ok w : hook_inv w -> hooks_ok (w_now w) (w_db w).
Proof.
  intros [W Hd]. constructor; [exact (key_webhook_deliveries _ _ W)|exact (fk_delivery_sub _ _ W)|done].
Qed.

Lemma hook_step_inv w w' : hook_step dp encode w w' -> hook_inv w -> hook_inv w'.
Proof.
  intros Hs I. destruct Hs as [w w' Hs|e w w' Hrun|b w w' Hrun].
  - destruct I as [W Hd]. split; [by apply (auth_step_keeps (wf_le enc) dp (HS := wf_store enc dp eq_refl)) in Hs; apply Hs|].
    pose proof (auth_step_later _ dp (HS := shrinks_store) _ _ Hs) as Hn.
    apply (auth_step_keeps _ dp (HS := shrinks_store)) in Hs. intros k x Hk. eapply delivery_ok_later; [done|].
    apply (Hd k). by eapply lookup_weaken.
  - destruct I as [W Hd]. split; [by apply (wf_Dispatch e) in Hrun as [Hr _]; apply Hr|].
    apply fresh_Dispatch in Hrun as (Hr & -> & _). by apply Hr.
  - pose proof (hook_inv_ok _ I) as Hok. destruct I as [W _]. split.
    + by apply (wf_DeliverPending b) in Hrun as [Hr _]; apply Hr.
    + apply DeliverPending_step in Hrun as (_ & Hok' & _); [|done]. apply Hok'.
Qed.

Lemma hook_run_inv w w' : hook_run dp encode w w' -> hook_inv w -> hook_inv w'.
Proof. induction 1 as [|w w1 w2 Hs _ IH]; [done|]. intros I. by eapply IH, hook_step_inv. Qed.

End Reachable.
