(* ===== verification/AuthExamples.v ===== *)
(** Closed examples for the auth service: instances of the libraries it uses, a
    configuration, and a run from an empty database: a login, an organization, a
    webhook and an event for it. *)

From S2P Require Import Prelude GoStr Sha256 GoCodec HttpUtil Scope Services AuthModels AuthStore.
From S2P Require Import AuthOrgStore AuthService AuthSession AuthMfa AuthOauth AuthOrgs AuthAdmin Dispatcher.
From S2P Require Import AuthRoutes AuthWebhooks.

Module AuthExamples.
Import Token MfaSvc.

#[export] Existing Instance example_codec.
#[export] Existing Instance example_validator.
#[export] Existing Instance ServiceProps.example_aead.

(** ** The libraries *)

Definition Fields : Type :=
  (string * string * list string * option Z * option Z * string) *
  (string * string * (string * string * string) * list string * bool).
#[export] Instance Fields_eq_dec : EqDecision Fields := _.
#[export] Instance Fields_countable : Countable Fields := _.

Definition claim_fields (c : JwtClaims) : Fields :=
  ((jc_Issuer c, jc_Subject c, jc_Audience c, jc_ExpiresAt c, jc_IssuedAt c, jc_ID c),
   (jc_Email c, jc_Name c, (oc_ID (jc_Org c), oc_Slug (jc_Org c), oc_Role (jc_Org c)), jc_Teams c, jc_MFA c)).

Definition claims_of_fields (f : Fields) : JwtClaims :=
  let '((a, b, c, d, e, g), (h, i, (j, k, l), m, n)) := f in mkJwtClaims a b c d e g h i (mkOrgClaim j k l) m n.

(** A token is its claims with the key that signed them. *)
Definition parse_claims (pub issuer : string) (now : Z) (t : string) : option JwtClaims :=
  match of_text (A := string * Fields) t with
  | Some (k, f) =>
      let c := claims_of_fields f in
      if bool_decide (k = pub) && (bool_decide (issuer = jc_Issuer c) &&
         match jc_ExpiresAt c with Some e => now <? 1000000 * e | None => true end)
      then Some c else None
  | None => None
  end.

#[export] Instance example_jwt : Jwt.
Proof.
  refine {|
    ParsePrivatePEM s := Some (Ed25519Key s);
    ParsePublicPEM s := Some (Ed25519Key s);
    SignedString priv c := Some (to_text (A := string * Fields) (priv, claim_fields c));
    ParseWithClaims := parse_claims;
    key_pair priv pub := priv = pub
  |}.
  2: { intros priv c t Ht E. assert (to_text (A := string * Fields) (priv, claim_fields c) = "") as E' by congruence.
       pose proof (of_to_text (A := string * Fields) (priv, claim_fields c)) as Hd. by rewrite E' in Hd. }
  intros priv pub c t issuer now -> Ht _.
  assert (t = to_text (A := string * Fields) (pub, claim_fields c)) as -> by congruence.
  unfold parse_claims. rewrite of_to_text.
  assert (claims_of_fields (claim_fields c) = c) as -> by (by destruct c as [? ? ? ? ? ? ? ? [] ? ?]).
  by rewrite bool_decide_true.
Defined.

#[export] Instance example_addr : NetAddr := {| ParseAddr s := Some s |}.

#[export] Existing Instance example_collation.

#[export] Instance example_bcrypt : Bcrypt.
Proof.
  refine {| GenerateFromPassword salt p := Some p; CompareHashAndPassword h p := bool_decide (h = p) |}.
  intros salt p h [= <-]. by rewrite bool_decide_true.
Defined.

#[export] Instance example_totp : Totp := {|
  GenerateKey b email := Some ("secret", "otpauth://");
  ValidateCode code secret now := bool_decide (code = "123456")
|}.

(** ** The configuration *)
Definition ex_tokens : Token.Service := mkService "key" "key" "https://auth" (minutes 15) (days 30).
Definition ex_enc : Encryption.Service := Encryption.mkService "0123456789abcdef0123456789abcdef".
Definition ex_user_info : UserInfo := mkUserInfo "77" "ann@x" "Ann Lee" "".
Definition ex_other_info : UserInfo := mkUserInfo "78" "bob@x" "Bob" "".
Definition ex_provider : Provider :=
  mkProvider (fun s => s)
    (fun code => Some ("access", "", if decide (code = "bob") then ex_other_info else ex_user_info)).

Definition ex_deps : AuthRoutes.Deps := AuthRoutes.mkDeps
  (AuthOauth.mkHandler {[ "github" := ex_provider ]} ex_tokens (days 30) ex_enc "https://app" "kid")
  (AuthMfa.mkHandler ex_tokens (days 30) ex_enc)
  "key" "https://auth" FormatInt FormatInt FormatInt parse_digits parse_digits.

(** ** Requests *)
Definition get (key : string) (l : list (string * string)) : option string :=
  snd <$> List.find (fun p => bool_decide (p.1 = key)) l.

Definition request (headers cookies params query : list (string * string)) : Request :=
  mkRequest None (fun k => default "" (get k headers)) (fun k => get k cookies) (fun k => default "" (get k params))
    (fun k => default "" (get k query)) "10.0.0.1:555" false.

Definition ex_bytes (c : Ascii.ascii) (n : nat) : string := String.concat "" (replicate n (String c "")).

(** A read of random bytes for every use. *)
Definition ex_world : World :=
  mkWorld empty_db 1000000 [1; 2; 3; 4; 5; 6; 7; 8; 9; 10; 11; 12]%N [] [Some (ex_bytes "a" 32)] [] [].

Definition ex_state : string := Sha256.hex (ex_bytes "a" 32).

(** The login: the authorization starts, the provider calls back. *)
Definition ex_w1 : World :=
  (AuthRoutes.serve_public ex_deps (request [] [] [("provider", "github")] []) AuthRoutes.GET_oauth_start ex_world).2.

Definition ex_w1' : World := set_rand [Some "nn"; Some (ex_bytes "b" 32); Some (ex_bytes "c" 32)] ex_w1.

Definition ex_callback : Request :=
  request [] [] [("provider", "github")] [("code", "xyz"); ("state", ex_state)].
Definition ex_w2 : World := (AuthRoutes.serve_public ex_deps ex_callback AuthRoutes.GET_oauth_callback ex_w1').2.

(** The refresh token of the session. *)
Definition ex_raw : string := Base64.RawURL_EncodeToString (ex_bytes "b" 32).
Definition ex_refresh : Request := request [] [("refresh_token", ex_raw)] [] [].

(** Requests of the logged-in user. *)
Definition ex_claims : JwtClaims :=
  mkJwtClaims "https://auth" "2" [] (Some 1000000) (Some 0) "x" "ann@x" "Ann Lee" (mkOrgClaim "" "" "") [] false.
Definition ex_bearer : string := "Bearer " +:+ default "" (SignedString "key" ex_claims).
Definition as_ann (params : list (string * string)) : Request := request [("Authorization", ex_bearer)] [] params [].

(** An organization with a webhook. *)
Definition ex_w3 : World :=
  (AuthRoutes.serve_authenticated ex_deps (as_ann [])
     (AuthRoutes.POST_org (Ok (AuthOrg.mkCreateOrgRequest "acme" "Acme"))) ex_w2).2.
Definition ex_w4 : World :=
  (AuthRoutes.serve_authenticated ex_deps (as_ann [("orgID", "8")])
     (AuthRoutes.POST_webhook (Ok (WebhookApi.mkWebhookRequest "https://hook" (Some ["team.created"]) true))) ex_w3).2.

(** An event for it. *)
Definition ex_encode (l : list string) : option string := head l.
Definition ex_w5 : World :=
  (Dispatcher.Dispatch ex_encode (Dispatcher.mkEvent 8 "team.created" (Some "{}")) ex_w4).2.

(** Ann turns TOTP on. *)
Definition ex_m1 : World :=
  (AuthRoutes.serve_authenticated ex_deps (as_ann []) AuthRoutes.POST_mfa_setup
     (set_rand [Some (ex_bytes "d" 20); Some "nn"] ex_w2)).2.
Definition ex_m2 : World :=
  (AuthRoutes.serve_authenticated ex_deps (as_ann []) (AuthRoutes.POST_mfa_verify (Ok "123456"))
     (set_ids [20; 21; 22; 23; 24; 25; 26; 27; 28; 29; 30; 31; 32; 33; 34; 35]%N
       (set_rand (concat (replicate 10 [Some "code"; Some (ex_bytes "s" 16)]) ++ [Some (ex_bytes "e" 32)]) ex_m1))).2.
(** Her next login goes through the challenge. *)
Definition ex_challenge : AuthMfa.challengeRequest :=
  AuthMfa.mkChallengeRequest (default "" (SignedString "key" (challenge_claims ex_tokens "2" 1000000 50))) "123456".
Definition ex_m3 : World :=
  (AuthRoutes.serve_public ex_deps (request [] [] [] []) (AuthRoutes.POST_mfa_challenge (Ok ex_challenge)) ex_m2).2.

(** Bob is invited, logs in and accepts. *)
Definition ex_i1 : World :=
  (AuthRoutes.serve_authenticated ex_deps (as_ann [("orgID", "8")])
     (AuthRoutes.POST_invite (Ok (AuthInvite.mkCreateInviteRequest "bob@x" "member")))
     (set_ids [40; 41; 42; 43; 44; 45; 46; 47; 48; 49; 50; 51; 52]%N (set_rand [Some (ex_bytes "d" 32)] ex_w3))).2.
Definition ex_i2 : World :=
  (AuthRoutes.serve_public ex_deps (request [] [] [("provider", "github")] []) AuthRoutes.GET_oauth_start
     (set_rand [Some (ex_bytes "e" 32)] ex_i1)).2.
Definition ex_i3 : World :=
  (AuthRoutes.serve_public ex_deps
     (request [] [] [("provider", "github")] [("code", "bob"); ("state", Sha256.hex (ex_bytes "e" 32))])
     AuthRoutes.GET_oauth_callback (set_rand [Some "nn"; Some (ex_bytes "f" 32)] ex_i2)).2.
Definition ex_bob : Request :=
  mkRequest (Some (mkClaims "43" "bob@x" "Bob" (mkOrgClaim "" "" "") [] false)) (fun _ => "") (fun _ => None)
    (fun _ => "") (fun _ => "") "10.0.0.2:555" false.
Definition ex_invite : string := Sha256.hex (ex_bytes "d" 32).

(** ** The runs *)

Lemma step_rand rand w : AuthRoutes.auth_step ex_deps w (set_rand rand w).
Proof. by apply AuthRoutes.step_env. Qed.

Lemma step_ids ids rand w : AuthRoutes.auth_step ex_deps w (set_ids ids (set_rand rand w)).
Proof. by apply AuthRoutes.step_env. Qed.

Lemma step_public_2 r c w : AuthRoutes.auth_step ex_deps w (AuthRoutes.serve_public ex_deps r c w).2.
Proof. eapply (AuthRoutes.step_public _ r c (AuthRoutes.serve_public ex_deps r c w).1). apply surjective_pairing. Qed.

Lemma step_auth_2 r c w : AuthRoutes.auth_step ex_deps w (AuthRoutes.serve_authenticated ex_deps r c w).2.
Proof. eapply (AuthRoutes.step_auth _ r c (AuthRoutes.serve_authenticated ex_deps r c w).1). apply surjective_pairing. Qed.

Lemma ex_run2 : AuthRoutes.auth_run ex_deps ex_world ex_w2.
Proof.
  unfold ex_w2. eapply rtc_r; [|apply step_public_2]. unfold ex_w1'. eapply rtc_r; [|apply step_rand].
  unfold ex_w1. apply rtc_once, step_public_2.
Qed.

Lemma ex_run3 : AuthRoutes.auth_run ex_deps ex_world ex_w3.
Proof. unfold ex_w3. eapply rtc_r; [apply ex_run2|apply step_auth_2]. Qed.

Lemma ex_run_mfa : AuthRoutes.auth_run ex_deps ex_world ex_m2.
Proof.
  unfold ex_m2. eapply rtc_r; [|apply step_auth_2]. eapply rtc_r; [|apply step_ids].
  unfold ex_m1. eapply rtc_r; [|apply step_auth_2]. eapply rtc_r; [|apply step_rand]. apply ex_run2.
Qed.

Lemma ex_run_invite : AuthRoutes.auth_run ex_deps ex_world ex_i3.
Proof.
  unfold ex_i3. eapply rtc_r; [|apply step_public_2]. eapply rtc_r; [|apply step_rand].
  unfold ex_i2. eapply rtc_r; [|apply step_public_2]. eapply rtc_r; [|apply step_rand].
  unfold ex_i1. eapply rtc_r; [|apply step_auth_2]. eapply rtc_r; [|apply step_ids]. apply ex_run3.
Qed.

Lemma auth_run_hook w w' : AuthRoutes.auth_run ex_deps w w' -> hook_run ex_deps ex_encode w w'.
Proof. induction 1; [apply rtc_refl|]. eapply rtc_l; [by apply hook_request|done]. Qed.

Lemma ex_run4 : AuthRoutes.auth_run ex_deps ex_world ex_w4.
Proof. unfold ex_w4. eapply rtc_r; [|apply step_auth_2]. apply ex_run3. Qed.

Lemma ex_run_hook : hook_run ex_deps ex_encode ex_world ex_w5.
Proof.
  apply rtc_r with ex_w4; [apply auth_run_hook, ex_run4|].
  apply (hook_dispatch _ _ (Dispatcher.mkEvent 8 "team.created" (Some "{}"))).
  unfold ex_w5. by destruct (Dispatcher.Dispatch _ _ _) as [[] w].
Qed.

(** Rounds can always be run. *)
Lemma rounds_exist batch n w : exists w', rounds batch n w w'.
Proof.
  revert w. induction n as [|n IH]; intros w; [exists w; constructor|].
  destruct (Dispatcher.DeliverPending batch w) as [[] w1] eqn:E.
  destruct (IH (mkWorld (w_db w1) (w_now w1 + minutes 16) (w_ids w1) [] (w_rand w1) (w_sent w1) (w_net w1))) as [w' Hr].
  exists w'. by eapply rounds_S; [exact E|..|exact Hr].
Qed.

End AuthExamples.
