(* ===== verification/AuthProps.v ===== *)
(** The theorems about the auth service, for every run of its requests from an
    empty database, with closed witnesses. *)

From S2P Require Import Prelude Tables GoStr Sha256 GoCodec HttpUtil Scope Services AuthModels AuthStore.
From S2P Require Import AuthOrgStore AuthService AuthSession AuthMfa AuthOauth AuthOrgs AuthAdmin Dispatcher.
From S2P Require Import AuthRoutes AuthFrame AuthWf AuthTokens AuthLogin AuthWebhooks AuthExamples.
Import AuthStore AuthOrgStore Token MfaSvc.

(** * Definitions *)

(** The members of an organization. *)
Definition members (d : DB) (o : uuid) : Z := count_where (in_org o) (org_memberships d).

(** * Lemmas *)

Lemma auth_wf_empty `{Encryption.AEAD} enc : auth_wf enc empty_db.
Proof. constructor; cbn; unfold keyed, uniq, refs, orefs, each, owned; intros; by simplify_map_eq. Qed.

Lemma count_insert {A} (p : A -> bool) (t : gmap N A) k a :
  t !! k = None -> p a = true -> count_where p (<[k := a]> t) = count_where p t + 1.
Proof.
  intros Hk Hp. unfold count_where, select, rows.
  assert (map_to_list (<[k := a]> t) ≡ₚ (k, a) :: map_to_list t) as -> by (by apply map_to_list_insert).
  rewrite fmap_cons, filter_cons_True by done. rewrite length_cons. lia.
Qed.

Section Props.
Context `{UUIDCodec} `{Jwt} `{NetAddr} `{Validator} `{Encryption.AEAD} `{Bcrypt} `{Totp} `{Collation}.
Context (dp : AuthRoutes.Deps) (encode : list string -> option string).

Lemma reachable_hook_inv w0 w : w_db w0 = empty_db -> hook_run dp encode w0 w -> hook_inv dp w.
Proof.
  intros Hempty Hr. eapply hook_run_inv; [done|]. unfold hook_inv. rewrite Hempty. split; [apply auth_wf_empty|].
  intros k x. cbn. by rewrite lookup_empty.
Qed.

Lemma reachable_wf w0 w :
  w_db w0 = empty_db -> AuthRoutes.auth_run dp w0 w -> auth_wf (AuthMfa.encSvc (AuthRoutes.MFA dp)) (w_db w).
Proof.
  intros Hempty Hr. apply (auth_run_keeps _ dp (HS := wf_store _ dp eq_refl)) in Hr. apply Hr. rewrite Hempty. apply auth_wf_empty.
Qed.

(** What a successful acceptance has done. *)
Lemma Accept_reply r body w st x w' :
  AuthInvite.Accept r body w = (Reply st x, w') ->
  exists u token inv org m d1 d2, Helpers.UserIDFromContext r = Some u /\
    GetInviteByTokenHash (HashToken token) (w_now w) (w_db w) = Ok inv /\
    organizations (w_db w) !! iv_OrgID inv = Some org /\
    wrap32 (members (w_db w) (iv_OrgID inv)) < o_MaxMembers org /\
    (exists i, AcceptInvite (iv_ID inv) (w_now w) (w_db w) = Ok (i, d1)) /\
    (exists id, CreateOrgMembership (iv_OrgID inv) u (iv_Role inv) (w_now w) id d1 = Ok (m, d2)) /\
    invites (w_db w') = invites d2 /\ org_memberships (w_db w') = org_memberships d2.
Proof.
  intros Hrun. unfold AuthInvite.Accept, Helpers.with_user in Hrun.
  destruct (Helpers.UserIDFromContext r) as [u|]; [|by au_run]. unfold Helpers.with_body in Hrun.
  destruct body as [token|e]; [|by au_run]. destruct (AuthValidate.Struct _); [|by au_run].
  unfold AuthInvite.with_room, Helpers.or_internal, AuthInvite.log_invite, Audit.Log in Hrun.
  apply bind_inv in Hrun as (q & w1 & Hq & Hrun). apply au_query_inv in Hq as (f & -> & Hq).
  destruct q as [inv|e]; [|by au_run]. destruct Hq as [?|Hq]; [done|].
  apply bind_inv in Hrun as (q & w1 & Ho & Hrun). apply au_query_inv in Ho as (f1 & -> & Ho).
  destruct q as [org|e]; [|by au_run]. destruct Ho as [?|Ho]; [done|].
  unfold GetOrganizationByID, get_row, result_of_option in Ho. cbn in Ho.
  destruct (organizations (w_db w) !! _) as [o|] eqn:Horg; [|done]. injection Ho as <-.
  apply bind_inv in Hrun as (q & w1 & Hc & Hrun). apply au_query_inv in Hc as (f2 & -> & Hc).
  destruct q as [n|e]; [|by au_run]. destruct Hc as [?|[= ->]]; [done|].
  destruct (_ <=? _) eqn:Hroom; [by au_run|]. apply Z.leb_gt in Hroom.
  apply bind_inv in Hrun as (q & w1 & Ha & Hrun).
  apply au_exec_inv in Ha as (f3 & [(e & -> & -> & _)|(i & d1 & -> & Ha & ->)]); [by au_run|].
  apply bind_inv in Hrun as (q & w1 & Hm & Hrun).
  apply au_insert_stmt_inv in Hm as (f4 & [(e & -> & -> & _)|(m & d2 & -> & Hm & ->)]); [by au_run|].
  exists u, token, inv, org, m, d1, d2. split_and!; try done; [by exists i|by eexists|..];
    au_run; try done; unfold CreateAuditLog in *; by stmt_inv.
Qed.

(** * Theorems *)

(** C36: Types and constraints of the auth database.  In every world reachable
    from an empty database by requests, dispatched events and delivery rounds,
    whatever statements fail, every table satisfies its keys, UNIQUE, foreign
    key and CHECK constraints; a refresh token belongs to the user of its
    session, TOTP is enabled only with a secret the service can decrypt, and an
    invitation has an acceptance time exactly when it is accepted. *)
Theorem auth_database_stays_well_formed w0 w :
  w_db w0 = empty_db -> hook_run dp encode w0 w -> auth_wf (AuthMfa.encSvc (AuthRoutes.MFA dp)) (w_db w).
Proof. intros Hempty Hr. by apply reachable_hook_inv in Hr as [? _]. Qed.



(** C39: The member limit.  An accepted invitation was pending and unexpired, it
    is accepted now, its organization has exactly one member more, the caller
    with the invited role, and not more members than its limit; the limit is
    compared with a count of 32 bits, which is exact below [2 ^ 31]. *)
Theorem accepted_invite_respects_the_limit w0 w r body st x w' :
  w_db w0 = empty_db -> AuthRoutes.auth_run dp w0 w ->
  (forall o, members (w_db w) o < 2 ^ 31) ->
  AuthInvite.Accept r body w = (Reply st x, w') ->
  exists u inv org, Helpers.UserIDFromContext r = Some u /\
    invites (w_db w) !! iv_ID inv = Some inv /\ iv_Status inv = "pending" /\ w_now w < iv_ExpiresAt inv /\
    invites (w_db w') !! iv_ID inv = Some (invite_with "accepted" (Some (w_now w)) inv) /\
    organizations (w_db w) !! iv_OrgID inv = Some org /\
    members (w_db w') (iv_OrgID inv) = members (w_db w) (iv_OrgID inv) + 1 /\
    members (w_db w') (iv_OrgID inv) <= o_MaxMembers org /\
    exists k m, org_memberships (w_db w') !! k = Some m /\ om_OrgID m = iv_OrgID inv /\ om_UserID m = u /\
      om_Role m = iv_Role inv.
Proof.
  intros Hempty Hr Hsmall Hrun. pose proof (reachable_wf _ _ Hempty Hr) as W.
  apply Accept_reply in Hrun
    as (u & token & inv & org & m & d1 & d2 & Hu & Hget & Horg & Hroom & [i Hacc] & [id Hmem] & Hinv & Homs).
  unfold GetInviteByTokenHash, get_where, result_of_option in Hget. destruct (find_row _ _) as [j|] eqn:E; [|done].
  injection Hget as ->. apply find_row_Some in E as [Hp [k Hk]].
  apply andb_true_iff in Hp as [Hp Hexp]. apply andb_true_iff in Hp as [_ Hpend]. apply bool_decide_eq_true in Hpend.
  rewrite <-(key_invites _ _ W _ _ Hk) in Hk. exists u, inv, org.
  unfold AcceptInvite in Hacc. rewrite Hk, bool_decide_true, Hexp in Hacc by done. cbn in Hacc. injection Hacc as <- <-.
  unfold CreateOrgMembership in Hmem. apply insert_row_inv in Hmem as (-> & -> & Hfree & _). cbn in Hinv, Homs, Hfree.
  assert (members (w_db w') (iv_OrgID inv) = members (w_db w) (iv_OrgID inv) + 1) as Hcount.
  { unfold members. rewrite Homs. apply count_insert; [done|]. by apply bool_decide_eq_true. }
  assert (0 <= members (w_db w) (iv_OrgID inv)) by (unfold members, count_where; lia).
  rewrite wrap32_id in Hroom by (split; [lia|apply Hsmall]).
  split_and!; [done..|lia|by rewrite Hinv, lookup_insert_eq|done|done|lia|].
  eexists id, _. rewrite Homs, lookup_insert_eq. by split_and!.
Qed.


(** The middleware of the API, with the JWT library, key and issuer of its
    configuration. *)
Definition api_auth (pubKey issuer : string) (now : Z) (r : Request) : result (Z * string) Claims :=
  JwtAuth.Auth (fun t => claims_of <$> ParseWithClaims pubKey issuer now t) (Header_Get r "Authorization")
    (Cookie r "access_token").

Lemma middlewares_agree pubKey issuer now r :
  match api_auth pubKey issuer now r with
  | Ok c => exists r', AuthMiddleware.Auth pubKey issuer now r = Ok r' /\ FromContext r' = Some c
  | Err e => AuthMiddleware.Auth pubKey issuer now r = Err e
  end.
Proof.
  unfold api_auth, JwtAuth.Auth, AuthMiddleware.Auth, JwtAuth.extractToken, AuthMiddleware.extractToken, JobToken.cut_bearer.
  destruct (decide _); [done|]. destruct (ParseWithClaims _ _ _ _) as [c|]; cbn; [|done]. by eexists.
Qed.

(** A token the auth service issued, presented to the API. *)
Lemma jwt_issued svc p w t w' pubKey now authorization cookie :
  key_pair (privateKey svc) pubKey -> issuer svc <> "" -> IssueAccessToken svc p w = (Some t, w') ->
  JwtAuth.extractToken authorization cookie = t ->
  JwtAuth.Auth (fun t => claims_of <$> ParseWithClaims pubKey (issuer svc) now t) authorization cookie =
    if now <? 1000000 * ((w_now w + accessTTL svc) / 1000000)
    then Ok (mkClaims (at_UserID p) (at_Email p) (at_Name p) (at_Org p) (at_Teams p) (at_MFA p))
    else Err (StatusUnauthorized, JwtAuth.ErrInvalidToken).
Proof.
  intros Hkey Hiss Hrun Ht.
  unfold IssueAccessToken, bind, time_now, gets, new_uuid, ret in Hrun. injection Hrun as Hs _.
  pose proof (SignedString_nonempty _ _ _ Hs) as Hne.
  pose proof (Parse_Signed _ _ _ _ (issuer svc) now Hkey Hs Hiss) as Hp. cbn in Hp.
  rewrite bool_decide_true in Hp by done. cbn in Hp.
  unfold JwtAuth.Auth. rewrite Ht. rewrite decide_False, Hp by done. unfold NewNumericDate. by destruct (_ <? _).
Qed.


End Props.

(** * Closed examples *)
Import AuthExamples.

(** After a login, a new organization, a webhook and an event for it. *)
Lemma auth_database_stays_well_formed_witness :
  hook_run ex_deps ex_encode ex_world ex_w5 /\ auth_wf ex_enc (w_db ex_w5).
Proof.
  split; [exact ex_run_hook|].
  exact (auth_database_stays_well_formed ex_deps ex_encode ex_world ex_w5 eq_refl ex_run_hook).
Defined.

(** The exchange of the login's refresh token, and a second attempt with it. *)
Definition ex_exchange : Resp (WithCookies AuthSession.tokenResponse) * World :=
  AuthSession.Refresh ex_tokens ex_refresh None ex_w2.


(** The event's delivery, to an endpoint that never answers. *)
Lemma ex_delivery : settled <$> webhook_deliveries (w_db ex_w5) !! 12%N = Some false.
Proof. vm_compute. reflexivity. Qed.

Lemma ex_w5_calm : w_faults ex_w5 = [] /\ size (webhook_deliveries (w_db ex_w5)) = 1%nat.
Proof. split; vm_compute; reflexivity. Qed.


(** Bob accepts his invitation. *)
Definition ex_accept : Resp string * World := AuthInvite.Accept ex_bob (Ok ex_invite) ex_i3.

Lemma ex_accepted : ex_accept.1 = Reply StatusOK "accepted".
Proof. vm_compute. reflexivity. Qed.

Lemma ex_members o : members (w_db ex_i3) o < 2 ^ 31.
Proof.
  assert (size (org_memberships (w_db ex_i3)) = 1%nat) as Hsz by (vm_compute; reflexivity).
  unfold members, count_where, select. pose proof (length_filter (fun m => in_org o m = true) (rows (org_memberships (w_db ex_i3)))).
  assert (length (rows (org_memberships (w_db ex_i3))) = 1%nat) as Hl by (unfold rows; by rewrite length_fmap, length_map_to_list).
  lia.
Qed.

Lemma accepted_invite_respects_the_limit_witness :
  exists inv, invites (w_db ex_i3) !! iv_ID inv = Some inv /\ iv_Status inv = "pending" /\
    members (w_db ex_accept.2) (iv_OrgID inv) = members (w_db ex_i3) (iv_OrgID inv) + 1.
Proof.
  destruct (accepted_invite_respects_the_limit ex_deps ex_world ex_i3 ex_bob (Ok ex_invite) StatusOK "accepted" ex_accept.2
              eq_refl ex_run_invite ex_members) as (u & inv & org & _ & Hi & Hp & _ & _ & _ & Hm & _).
  - rewrite <-ex_accepted. apply surjective_pairing.
  - exists inv. split; [exact Hi|]. split; [exact Hp|exact Hm].
Defined.

(** Ann's second login, with her TOTP code. *)
Lemma ex_challenged : sessions (w_db ex_m2) !! 31%N = None /\ se_UserID <$> sessions (w_db ex_m3) !! 31%N = Some 2%N.
Proof. split; vm_compute; reflexivity. Qed.

Lemma ex_m2_calm : w_faults ex_m2 = [].
Proof. vm_compute. reflexivity. Qed.


(** A token for Ann, at the API. *)
Definition ex_params : AccessTokenParams := mkAccessTokenParams "2" "ann@x" "Ann Lee" (mkOrgClaim "" "" "") [] false.
Definition ex_issued : option string * World := IssueAccessToken ex_tokens ex_params ex_world.

