(* ===== verification/AuthFindings.v ===== *)
(** Behaviours of the auth service that its documentation or its own checks do
    not suggest, each shown by a lemma: generally where that is possible, else on
    a closed example. *)

From S2P Require Import Prelude Tables GoStr Sha256 GoCodec HttpUtil Scope Services AuthModels AuthStore.
From S2P Require Import AuthOrgStore AuthService AuthSession AuthMfa AuthOauth AuthOrgs AuthAdmin Dispatcher.
From S2P Require Import AuthRoutes AuthWebhooks AuthExamples.

Module AuthFindings.
Import AuthStore AuthOrgStore Token MfaSvc.

(** The middleware does not look at the audience: the token that only asks for
    the second factor is accepted as an access token for its five minutes. *)
Lemma challenge_token_is_an_access_token `{UUIDCodec} `{Jwt} svc u w t w' pubKey r now :
  key_pair (privateKey svc) pubKey -> issuer svc <> "" -> IssueMFAChallengeToken svc u w = (Some t, w') ->
  AuthMiddleware.extractToken r = t -> now < 1000000 * ((w_now w + minutes 5) / 1000000) ->
  exists r', AuthMiddleware.Auth pubKey (issuer svc) now r = Ok r' /\ cl_Subject <$> FromContext r' = Some u.
Proof.
  intros Hkey Hiss Hrun Ht Hnow.
  unfold IssueMFAChallengeToken, bind, time_now, gets, new_uuid, ret in Hrun. injection Hrun as Hs _.
  pose proof (SignedString_nonempty _ _ _ Hs) as Hne.
  pose proof (Parse_Signed _ _ _ _ (issuer svc) now Hkey Hs Hiss) as Hp. cbn in Hp.
  rewrite bool_decide_true, (proj2 (Z.ltb_lt _ _)) in Hp by done. cbn in Hp.
  unfold AuthMiddleware.Auth. rewrite Ht, decide_False, Hp by done. by eexists.
Qed.

Import AuthExamples.

(** So Ann's first factor alone turns her second factor off. *)
Definition ex_with_challenge : Request :=
  request [("Authorization", "Bearer " +:+ AuthMfa.MFAToken ex_challenge)] [] [] [].

Lemma challenge_token_disables_mfa :
  let run := AuthRoutes.serve_authenticated ex_deps ex_with_challenge AuthRoutes.POST_mfa_disable ex_m2 in
  run.1 = StatusOK /\ ms_TotpEnabled <$> mfa_settings (w_db run.2) !! 8%N = Some false.
Proof. vm_compute. split; reflexivity. Qed.

(** A login whose read of the settings fails skips the second factor. *)
Definition set_faults_to (f : list bool) (w : World) : World :=
  mkWorld (w_db w) (w_now w) (w_ids w) f (w_rand w) (w_sent w) (w_net w).

Definition ex_m4 : World :=
  (AuthRoutes.serve_public ex_deps (request [] [] [("provider", "github")] [("redirect_uri", "https://evil")])
     AuthRoutes.GET_oauth_start (set_rand [Some (ex_bytes "g" 32)] ex_m2)).2.
Definition ex_second_callback : Request :=
  request [] [] [("provider", "github")] [("code", "xyz"); ("state", Sha256.hex (ex_bytes "g" 32))].

Lemma mfa_check_fails_open :
  let w := set_faults_to [false; false; false; false; true] (set_rand [Some "nn"; Some (ex_bytes "h" 32)] ex_m4) in
  let run := AuthRoutes.serve_public ex_deps ex_second_callback AuthRoutes.GET_oauth_callback w in
  run.1 = AuthOauth.StatusFound /\ size (sessions (w_db w)) = 1%nat /\ size (sessions (w_db run.2)) = 2%nat.
Proof. vm_compute. split; [reflexivity|]. split; reflexivity. Qed.

(** The redirect target is whatever the caller of [Start] asked for, and gets the
    challenge token. *)
Lemma challenge_token_goes_to_any_target :
  match (AuthOauth.Callback (AuthRoutes.OAuth ex_deps) ex_second_callback (set_rand [Some "nn"] ex_m4)).1 with
  | Reply _ resp => HasPrefix (body resp) "https://evil?mfa_required=true&mfa_token=" = true
  | Fail _ _ => False
  end.
Proof. vm_compute. reflexivity. Qed.

(** A transfer of the ownership to oneself leaves the organization without an
    owner. *)
Lemma transfer_to_self_loses_the_owner :
  let run := AuthRoutes.serve_authenticated ex_deps (as_ann [("orgID", "8")]) (AuthRoutes.POST_transfer (Ok "2")) ex_w3 in
  run.1 = StatusOK /\ om_Role <$> rows (org_memberships (w_db run.2)) = ["admin"].
Proof. vm_compute. split; reflexivity. Qed.

(** A rotation whose revocation fails still succeeds, and the old token stays
    good. *)
Lemma failed_revocation_keeps_the_old_token :
  let run := AuthSession.Refresh ex_tokens ex_refresh None
               (set_faults_to [false; false; true] (set_rand [Some (ex_bytes "i" 32)] ex_w2)) in
  let again := AuthSession.Refresh ex_tokens ex_refresh None (set_rand [Some (ex_bytes "j" 32)] run.2) in
  resp_status run.1 = StatusOK /\ resp_status again.1 = StatusOK.
Proof. vm_compute. split; reflexivity. Qed.

(** A member who accepts an invitation gets an internal error, and the invitation
    is used up, whoever it was addressed to. *)
Lemma member_uses_up_an_invitation :
  let run := AuthRoutes.serve_authenticated ex_deps (as_ann []) (AuthRoutes.POST_invite_accept (Ok ex_invite)) ex_i1 in
  run.1 = StatusInternalServerError /\ iv_Status <$> invites (w_db run.2) !! 40%N = Some "accepted".
Proof. vm_compute. split; reflexivity. Qed.

(** Creating an organization is not a transaction: without the membership it has
    no owner, and its slug is taken. *)
Lemma organization_without_owner :
  let run := AuthRoutes.serve_authenticated ex_deps (as_ann [])
               (AuthRoutes.POST_org (Ok (AuthOrg.mkCreateOrgRequest "acme" "Acme")))
               (set_faults_to [false; true] ex_w2) in
  run.1 = StatusInternalServerError /\ o_Slug <$> rows (organizations (w_db run.2)) = ["acme"] /\
  rows (org_memberships (w_db run.2)) = [].
Proof. vm_compute. split; [reflexivity|]. split; reflexivity. Qed.

(** Deleting an organization leaves no audit entry of it: the entry refers to the
    organization that is gone, and its error is dropped. *)
Lemma organization_deletion_is_not_audited :
  let run := AuthRoutes.serve_authenticated ex_deps (as_ann [("orgID", "8")]) AuthRoutes.DELETE_org
               (set_ids [60; 61]%N ex_w3) in
  run.1 = StatusOK /\ select (fun a => bool_decide (al_Action a = Audit.ActionOrgDeleted)) (audit_logs (w_db run.2)) = [].
Proof. vm_compute. split; reflexivity. Qed.

(** A backup code whose marking fails can be used again. *)
Lemma backup_code_is_reusable :
  let req := Ok (AuthMfa.mkChallengeRequest (AuthMfa.MFAToken ex_challenge) "636f-6465") in
  let run := AuthMfa.BackupCodeVerify (AuthRoutes.MFA ex_deps) (request [] [] [] []) req
               (set_faults_to [false; true] (set_rand [Some (ex_bytes "k" 32)] ex_m2)) in
  resp_status run.1 = StatusOK /\
  length (select (fun c => bool_decide (bc_UsedAt c = None)) (mfa_backup_codes (w_db run.2))) = 10%nat.
Proof. vm_compute. split; reflexivity. Qed.

(** A delivery whose result is not recorded was sent but counts no attempt, so
    there is no bound on how often it is sent. *)
Lemma unrecorded_delivery_is_sent_again :
  let once := (Dispatcher.DeliverPending 10 (set_faults_to [false; false; true] ex_w5)).2 in
  let twice := (Dispatcher.DeliverPending 10 (set_faults_to [false; false; true] once)).2 in
  length (w_sent twice) = 2%nat /\ wd_Attempts <$> webhook_deliveries (w_db twice) !! 12%N = Some 0.
Proof. vm_compute. split; reflexivity. Qed.

(** A page offset above 32 bits becomes negative and an internal error. *)
Lemma large_offset_is_negative :
  (Admin.parsePagination (request [] [] [] [("offset", "4294967295")])).2 = -1.
Proof. vm_compute. reflexivity. Qed.

(** Requests of Bob, who is no member of Ann's organization. *)
Definition as_bob (params : list (string * string)) : Request :=
  request [("Authorization", "Bearer " +:+ default "" (SignedString "key"
     (mkJwtClaims "https://auth" "43" [] (Some 1000000) (Some 0) "y" "bob@x" "Bob" (mkOrgClaim "" "" "") [] false)))]
    [] params [].

(** Anyone may list the invitations of an organization. *)
Lemma strangers_list_invitations :
  match AuthMiddleware.Auth "key" "https://auth" 1000000 (as_bob [("orgID", "8")]) with
  | Ok r => resp_status (AuthInvite.ListOrgInvites_ FormatInt r ex_i3).1 = StatusOK /\
            match (AuthInvite.ListOrgInvites_ FormatInt r ex_i3).1 with
            | Reply _ l => AuthInvite.ir_Email <$> l = ["bob@x"]
            | Fail _ _ => False
            end
  | Err _ => False
  end.
Proof. vm_compute. split; reflexivity. Qed.

(** An administrator of any organization may delete the webhooks of another. *)
Definition ex_x1 : World :=
  (AuthRoutes.serve_authenticated ex_deps (as_ann [("orgID", "8")])
     (AuthRoutes.POST_webhook (Ok (WebhookApi.mkWebhookRequest "https://hook" (Some ["team.created"]) true)))
     (set_ids [70; 71; 72; 73; 74]%N (set_rand [Some (ex_bytes "l" 32)] ex_i3))).2.
Definition ex_x2 : World :=
  (AuthRoutes.serve_authenticated ex_deps (as_bob [])
     (AuthRoutes.POST_org (Ok (AuthOrg.mkCreateOrgRequest "bobs" "Bobs"))) ex_x1).2.

Lemma strangers_delete_webhooks :
  let run := AuthRoutes.serve_authenticated ex_deps (as_bob [("orgID", "71"); ("whID", "70")]) AuthRoutes.DELETE_webhook
               ex_x2 in
  ws_OrgID <$> webhook_subscriptions (w_db ex_x2) !! 70%N = Some 8%N /\
  run.1 = StatusOK /\ webhook_subscriptions (w_db run.2) !! 70%N = None.
Proof. vm_compute. split; [reflexivity|]. split; reflexivity. Qed.

(** With two identities of one provider, unlinking removes both and locks the
    user out. *)
Definition ex_two : World :=
  set_db (set_oauth_identities
    (<[90%N := mkOauthIdentity 90 2 "github" "79" None None None None None None 0 0]>
       (oauth_identities (w_db ex_w2))) (w_db ex_w2)) ex_w2.

Lemma unlinking_removes_all_identities :
  let run := AuthRoutes.serve_authenticated ex_deps (as_ann [("provider", "github")]) AuthRoutes.DELETE_identity ex_two in
  run.1 = StatusOK /\ rows (oauth_identities (w_db run.2)) = [].
Proof. vm_compute. split; reflexivity. Qed.

End AuthFindings.
