(* ===== verification/AIStream.v ===== *)
(** The AI provider clients of [services/api/internal/service/aiprovider]
    ([provider.go], [sseutil], [anthropic], [openai], [gemini], [xai]) and the
    streaming half of [services/api/internal/handler/query/query.go].

    A provider answers with a stream of lines; the client decodes them and
    relays the text to the browser as server-sent events.  The network, the
    JSON codec and URL parsing are parameters: a response is a status and the
    pieces of its body with the instants at which they arrive, so that the
    deadline of the request's context decides how much of it is read. *)

From S2P Require Import Prelude GoStr Store JobStore AccountStore ContextStore HttpUtil Scope Services ContextApi.

(** * Definitions *)

(** ** [bufio.Scanner] with [ScanLines] *)
Module Scanner.

Definition LF : Ascii.ascii := Ascii.ascii_of_nat 10.
Definition CR : Ascii.ascii := Ascii.ascii_of_nat 13.

(** The buffer never grows beyond this: a longer line ends the scan. *)
Definition MaxScanTokenSize : Z := 65536.

(** The lines of a text; the last one may lack its line feed. *)
Fixpoint split_lines (s : string) : list string :=
  match s with
  | EmptyString => []
  | String c s =>
      if decide (c = LF) then "" :: split_lines s
      else match split_lines s with
           | [] => [String c ""]
           | l :: ls => String c l :: ls
           end
  end.

Fixpoint take_while {A} (p : A -> bool) (l : list A) : list A :=
  match l with
  | [] => []
  | x :: l => if p x then x :: take_while p l else []
  end.

Fixpoint dropCR (s : string) : string :=
  match s with
  | EmptyString => ""
  | String c EmptyString => if decide (c = CR) then "" else String c ""
  | String c s => String c (dropCR s)
  end.

(** What successive calls of [Scan] deliver. *)
Definition scan_lines (body : string) : list string :=
  dropCR <$> take_while (fun l => len l <? MaxScanTokenSize) (split_lines body).

End Scanner.

(** ** [context.WithTimeout]: a deadline is never later than the parent's *)
Definition WithTimeout (parent : option Z) (now d : Z) : option Z :=
  Some (match parent with Some p => Z.min p (now + d) | None => now + d end).

Definition in_time (ctx : option Z) (t : Z) : bool :=
  match ctx with Some d => t <? d | None => true end.

(** ** [sseutil.go] *)
Module SseUtil.
Import Scanner.

Definition ErrEmptyAPIKey : string := "api key must not be empty".
Definition ErrEmptyPrompt : string := "prompt must not be empty".

Definition ValidateInput (apiKey prompt : string) : result string unit :=
  if decide (apiKey = "") then Err ErrEmptyAPIKey
  else if decide (prompt = "") then Err ErrEmptyPrompt
  else Ok tt.

Record Request := mkRequest {
  rq_Method : string;
  rq_URL : string;
  rq_Header : gmap string string;
  rq_Body : string
}.

(** A response: when its header arrives, its status, and the pieces of its body
    with the instants they arrive at. *)
Record Response := mkResponse {
  rs_At : Z;
  rs_StatusCode : Z;
  rs_Body : list (Z * string)
}.

(** The library code the clients call: URL parsing (the error text of a URL
    that does not parse), [%q] of a URL in an error text, and the network. *)
Class Net := {
  parse_url : string -> option string;
  quote : string -> string;
  roundtrip : Request -> result string Response
}.

Section Http.
Context `{Net}.

(** [NewJSONRequest], on the result of [json.Marshal(body)] *)
Definition NewJSONRequest (url : string) (jsonBody : result string string) (headers : gmap string string) :
    result string Request :=
  match jsonBody with
  | Err e => Err ("marshal request body: " +:+ e)
  | Ok b =>
      match parse_url url with
      | Some e => Err e
      | None => Ok (mkRequest "POST" url (headers ∪ {["Content-Type" := "application/json"]}) b)
      end
  end.

(** The text of the [*url.Error] every failing request returns. *)
Definition url_error (url inner : string) : string := "Post " +:+ quote url +:+ ": " +:+ inner.

Definition DeadlineExceeded : string := "context deadline exceeded".

(** [http.DefaultClient.Do] in a context *)
Definition Do (ctx : option Z) (req : Request) : result string Response :=
  match roundtrip req with
  | Err e => Err (url_error (rq_URL req) e)
  | Ok resp => if in_time ctx (rs_At resp) then Ok resp else Err (url_error (rq_URL req) DeadlineExceeded)
  end.

End Http.

(** Reading the body until its end or the deadline: the scanner stops at either
    and delivers what it has. *)
Definition read_body (ctx : option Z) (pieces : list (Z * string)) : string :=
  foldr (fun p acc => p.2 +:+ acc) "" (take_while (fun p => in_time ctx p.1) pieces).

Definition ParseSSELine (line : string) : option string := CutPrefix line "data: ".

(** The response writer: the bytes written, how many of them are flushed, and
    which of the next writes fail (their bytes are lost, the error ignored). *)
Record ResponseWriter := mkResponseWriter {
  rw_out : string;
  rw_flushed : nat;
  rw_flusher : bool;
  rw_fails : list bool
}.

Definition WriteString (s : string) : M ResponseWriter unit := modify (fun w =>
  match rw_fails w with
  | true :: fs => mkResponseWriter (rw_out w) (rw_flushed w) (rw_flusher w) fs
  | _ :: fs => mkResponseWriter (rw_out w +:+ s) (rw_flushed w) (rw_flusher w) fs
  | [] => mkResponseWriter (rw_out w +:+ s) (rw_flushed w) (rw_flusher w) []
  end).

Definition Flush : M ResponseWriter unit := modify (fun w =>
  if rw_flusher w then mkResponseWriter (rw_out w) (String.length (rw_out w)) (rw_flusher w) (rw_fails w) else w).

Definition blank : string := String LF (String LF "").

Definition WriteChunk (text : string) : M ResponseWriter unit :=
  _ <- WriteString ("data: " +:+ text +:+ blank) ;; Flush.

Definition WriteDone : M ResponseWriter unit := _ <- WriteString ("data: [DONE]" +:+ blank) ;; Flush.

Definition WriteError (msg : string) : M ResponseWriter unit := _ <- WriteChunk ("[ERROR] " +:+ msg) ;; WriteDone.

End SseUtil.

(** ** [openai.go] *)
Module OpenAI.
Import Scanner SseUtil.

Definition defaultEndpoint : string := "https://api.openai.com/v1/chat/completions".
Definition defaultModel : string := "gpt-4o".

Record Provider := mkProvider { Model : string; Endpoint : string }.

Definition New : Provider := mkProvider defaultModel defaultEndpoint.

Record message := mkMessage { Role : string; Content : string }.

Record request := mkOpenAIRequest { req_Model : string; req_Stream : bool; req_Messages : list message }.

(** A choice is the content of its delta. *)
Record chunk := mkChunk { Choices : list string }.

Class Codec := {
  Marshal : request -> result string string;
  Unmarshal : string -> option chunk
}.

Section Stream.
Context `{Net} `{Codec}.

Fixpoint relay (lines : list string) : M ResponseWriter unit :=
  match lines with
  | [] => ret tt
  | line :: lines =>
      match ParseSSELine line with
      | None => relay lines
      | Some data =>
          if decide (data = "[DONE]") then ret tt
          else
            match Unmarshal data with
            | None => relay lines
            | Some c =>
                match Choices c with
                | content :: _ => if decide (content = "") then relay lines else _ <- WriteChunk content ;; relay lines
                | [] => relay lines
                end
            end
      end
  end.

Definition Stream (p : Provider) (ctx : option Z) (apiKey prompt : string) : M ResponseWriter (result string unit) :=
  match ValidateInput apiKey prompt with
  | Err e => ret (Err e)
  | Ok _ =>
      match NewJSONRequest (Endpoint p) (Marshal (mkOpenAIRequest (Model p) true [mkMessage "user" prompt]))
              {["Authorization" := "Bearer " +:+ apiKey]} with
      | Err e => ret (Err ("openai: " +:+ e))
      | Ok req =>
          match Do ctx req with
          | Err e => _ <- WriteError "openai request failed" ;; ret (Err ("openai: do request: " +:+ e))
          | Ok resp =>
              if decide (rs_StatusCode resp <> 200) then
                _ <- WriteError ("openai returned status " +:+ FormatInt (rs_StatusCode resp)) ;;
                ret (Err ("openai: status " +:+ FormatInt (rs_StatusCode resp)))
              else
                _ <- relay (scan_lines (read_body ctx (rs_Body resp))) ;;
                _ <- WriteDone ;;
                ret (Ok tt)
          end
      end
  end.

End Stream.
End OpenAI.

(** ** [xai.go]: the types are those of [openai.go], with the same JSON tags *)
Module XAI.
Import Scanner SseUtil.

Definition defaultEndpoint : string := "https://api.x.ai/v1/chat/completions".
Definition defaultModel : string := "grok-3".

Record Provider := mkProvider { Model : string; Endpoint : string }.

Definition New : Provider := mkProvider defaultModel defaultEndpoint.

Definition request : Type := OpenAI.request.
Definition message : Type := OpenAI.message.
Definition chunk : Type := OpenAI.chunk.

Section Stream.
Context `{Net} `{OpenAI.Codec}.

Fixpoint relay (lines : list string) : M ResponseWriter unit :=
  match lines with
  | [] => ret tt
  | line :: lines =>
      match ParseSSELine line with
      | None => relay lines
      | Some data =>
          if decide (data = "[DONE]") then ret tt
          else
            match OpenAI.Unmarshal data with
            | None => relay lines
            | Some c =>
                match OpenAI.Choices c with
                | content :: _ => if decide (content = "") then relay lines else _ <- WriteChunk content ;; relay lines
                | [] => relay lines
                end
            end
      end
  end.

Definition Stream (p : Provider) (ctx : option Z) (apiKey prompt : string) : M ResponseWriter (result string unit) :=
  match ValidateInput apiKey prompt with
  | Err e => ret (Err e)
  | Ok _ =>
      match NewJSONRequest (Endpoint p)
              (OpenAI.Marshal (OpenAI.mkOpenAIRequest (Model p) true [OpenAI.mkMessage "user" prompt]))
              {["Authorization" := "Bearer " +:+ apiKey]} with
      | Err e => ret (Err ("xai: " +:+ e))
      | Ok req =>
          match Do ctx req with
          | Err e => _ <- WriteError "xai request failed" ;; ret (Err ("xai: do request: " +:+ e))
          | Ok resp =>
              if decide (rs_StatusCode resp <> 200) then
                _ <- WriteError ("xai returned status " +:+ FormatInt (rs_StatusCode resp)) ;;
                ret (Err ("xai: status " +:+ FormatInt (rs_StatusCode resp)))
              else
                _ <- relay (scan_lines (read_body ctx (rs_Body resp))) ;;
                _ <- WriteDone ;;
                ret (Ok tt)
          end
      end
  end.

End Stream.
End XAI.

(** ** [gemini.go] *)
Module Gemini.
Import Scanner SseUtil.

Definition defaultBaseURL : string := "https://generativelanguage.googleapis.com/v1beta".
Definition defaultModel : string := "gemini-2.0-flash".

Record Provider := mkProvider { Model : string; BaseURL : string }.

Definition New : Provider := mkProvider defaultModel defaultBaseURL.

Record part := mkPart { Text : string }.
Record content := mkContent { Parts : list part }.
Record request := mkGeminiRequest { Contents : list content }.

(** A candidate is the parts of its content. *)
Record chunk := mkChunk { Candidates : list content }.

Class Codec := {
  Marshal : request -> result string string;
  Unmarshal : string -> option chunk
}.

Definition url (p : Provider) (apiKey : string) : string :=
  BaseURL p +:+ "/models/" +:+ Model p +:+ ":streamGenerateContent?alt=sse&key=" +:+ apiKey.

Section Stream.
Context `{Net} `{Codec}.

Fixpoint relay (lines : list string) : M ResponseWriter unit :=
  match lines with
  | [] => ret tt
  | line :: lines =>
      match ParseSSELine line with
      | None => relay lines
      | Some data =>
          match Unmarshal data with
          | None => relay lines
          | Some c =>
              match Candidates c with
              | cand :: _ =>
                  match Parts cand with
                  | p :: _ => if decide (Text p = "") then relay lines else _ <- WriteChunk (Text p) ;; relay lines
                  | [] => relay lines
                  end
              | [] => relay lines
              end
          end
      end
  end.

Definition Stream (p : Provider) (ctx : option Z) (apiKey prompt : string) : M ResponseWriter (result string unit) :=
  match ValidateInput apiKey prompt with
  | Err e => ret (Err e)
  | Ok _ =>
      match NewJSONRequest (url p apiKey) (Marshal (mkGeminiRequest [mkContent [mkPart prompt]])) ∅ with
      | Err e => ret (Err ("gemini: " +:+ e))
      | Ok req =>
          match Do ctx req with
          | Err e => _ <- WriteError "gemini request failed" ;; ret (Err ("gemini: do request: " +:+ e))
          | Ok resp =>
              if decide (rs_StatusCode resp <> 200) then
                _ <- WriteError ("gemini returned status " +:+ FormatInt (rs_StatusCode resp)) ;;
                ret (Err ("gemini: status " +:+ FormatInt (rs_StatusCode resp)))
              else
                _ <- relay (scan_lines (read_body ctx (rs_Body resp))) ;;
                _ <- WriteDone ;;
                ret (Ok tt)
          end
      end
  end.

End Stream.
End Gemini.

(** ** [anthropic.go] *)
Module Anthropic.
Import Scanner SseUtil.

Definition defaultEndpoint : string := "https://api.anthropic.com/v1/messages".
Definition defaultModel : string := "claude-sonnet-4-20250514".

Record Provider := mkProvider { Model : string; Endpoint : string }.

Definition New : Provider := mkProvider defaultModel defaultEndpoint.

Record message := mkMessage { Role : string; Content : string }.

Record request := mkAnthropicRequest {
  req_Model : string;
  req_MaxTokens : Z;
  req_Stream : bool;
  req_Messages : list message
}.

Record delta := mkDelta { d_Type : string; d_DeltaType : string; d_Text : string }.

Class Codec := {
  Marshal : request -> result string string;
  Unmarshal : string -> option delta
}.

Section Stream.
Context `{Net} `{Codec}.

Fixpoint relay (lastEvent : string) (lines : list string) : M ResponseWriter unit :=
  match lines with
  | [] => ret tt
  | line :: lines =>
      match CutPrefix line "event: " with
      | Some event => relay event lines
      | None =>
          match ParseSSELine line with
          | None => relay lastEvent lines
          | Some data =>
              if decide (lastEvent = "message_stop") then ret tt
              else if decide (lastEvent <> "content_block_delta") then relay lastEvent lines
              else
                match Unmarshal data with
                | None => relay lastEvent lines
                | Some d =>
                    if decide (d_Text d = "") then relay lastEvent lines
                    else _ <- WriteChunk (d_Text d) ;; relay lastEvent lines
                end
          end
      end
  end.

Definition Stream (p : Provider) (ctx : option Z) (apiKey prompt : string) : M ResponseWriter (result string unit) :=
  match ValidateInput apiKey prompt with
  | Err e => ret (Err e)
  | Ok _ =>
      match NewJSONRequest (Endpoint p) (Marshal (mkAnthropicRequest (Model p) 4096 true [mkMessage "user" prompt]))
              (<["x-api-key" := apiKey]> {["anthropic-version" := "2023-06-01"]}) with
      | Err e => ret (Err ("anthropic: " +:+ e))
      | Ok req =>
          match Do ctx req with
          | Err e => _ <- WriteError "anthropic request failed" ;; ret (Err ("anthropic: do request: " +:+ e))
          | Ok resp =>
              if decide (rs_StatusCode resp <> 200) then
                _ <- WriteError ("anthropic returned status " +:+ FormatInt (rs_StatusCode resp)) ;;
                ret (Err ("anthropic: status " +:+ FormatInt (rs_StatusCode resp)))
              else
                _ <- relay "" (scan_lines (read_body ctx (rs_Body resp))) ;;
                _ <- WriteDone ;;
                ret (Ok tt)
          end
      end
  end.

End Stream.
End Anthropic.

(** ** [provider.go] *)
Module AIProvider.
Import SseUtil.

(** The interface's implementations. *)
Inductive Provider : Type :=
| OpenAIProvider (p : OpenAI.Provider)
| AnthropicProvider (p : Anthropic.Provider)
| GeminiProvider (p : Gemini.Provider)
| XAIProvider (p : XAI.Provider).

Definition New (name : string) : result string Provider :=
  if decide (name = "openai") then Ok (OpenAIProvider OpenAI.New)
  else if decide (name = "anthropic") then Ok (AnthropicProvider Anthropic.New)
  else if decide (name = "google") then Ok (GeminiProvider Gemini.New)
  else if decide (name = "xai") then Ok (XAIProvider XAI.New)
  else Err ("unknown provider: " +:+ name).

Section Stream.
Context `{Net} `{OpenAI.Codec} `{Anthropic.Codec} `{Gemini.Codec}.

Definition Stream (p : Provider) (ctx : option Z) (apiKey prompt : string) : M ResponseWriter (result string unit) :=
  match p with
  | OpenAIProvider p => OpenAI.Stream p ctx apiKey prompt
  | AnthropicProvider p => Anthropic.Stream p ctx apiKey prompt
  | GeminiProvider p => Gemini.Stream p ctx apiKey prompt
  | XAIProvider p => XAI.Stream p ctx apiKey prompt
  end.

End Stream.
End AIProvider.

(** ** The stream of [query.go] *)
Module QueryStream.
Import SseUtil Scope.

(** What the client of a query receives, and the error the handler logs. *)
Record Sse := mkSse {
  sse_Header : list (string * string);
  sse_Body : string;
  sse_Logged : option string
}.

Definition sse_headers : list (string * string) :=
  [("Content-Type", "text/event-stream"); ("Cache-Control", "no-cache"); ("Connection", "keep-alive")].

Definition streamTimeout : Z := 5 * 60 * 1000000.  (* 5 minutes in microseconds *)

Section Handler.
Context `{UUIDCodec} `{Validator} `{Encryption.AEAD}.
Context `{Net} `{OpenAI.Codec} `{Anthropic.Codec} `{Gemini.Codec}.
Context (enc : Encryption.Service).
Context (decode_tree : string -> option (list Assembly.FileEntry)).
Context (GetBlob : Z -> string -> string -> option string).

Definition streamAI (ctx : option Z) (providerName apiKey prompt : string) : M ResponseWriter (result string unit) :=
  match AIProvider.New providerName with
  | Err e => ret (Err e)
  | Ok p => AIProvider.Stream p ctx apiKey prompt
  end.

(** The whole handler: [ctx] is the deadline of the request's context, [fails]
    which writes to the client fail. *)
Definition Query (ctx : option Z) (fails : list bool) (c : Ctx) (repoParam : string) (body : option Query.queryRequest) :
    M World (Resp Sse) :=
  r <- Query.Query enc decode_tree GetBlob c repoParam body ;;
  match r with
  | Fail status msg => ret (Fail status msg)
  | Reply status (provider, rawKey, prompt) =>
      now <- gets w_now ;;
      let streamCtx := WithTimeout ctx now streamTimeout in
      let '(err, w) := streamAI streamCtx provider rawKey prompt (mkResponseWriter "" 0 true fails) in
      ret (Reply status (mkSse sse_headers (rw_out w) (match err with Err e => Some e | Ok _ => None end)))
  end.

End Handler.
End QueryStream.

(** * Lemmas *)

Module StreamFacts.
Import Scanner SseUtil.

(** ** What a stream should deliver *)

(** The texts of a chat-completion stream: the data lines up to the sentinel,
    each decoded to the content of its first choice when there is one. *)
Definition chat_text `{OpenAI.Codec} (data : string) : option string :=
  c ← OpenAI.Unmarshal data; t ← head (OpenAI.Choices c); guard (t <> "");; Some t.

Definition chat_texts `{OpenAI.Codec} (lines : list string) : list string :=
  omap chat_text (take_while (fun d => negb (bool_decide (d = "[DONE]"))) (omap ParseSSELine lines)).

Definition gemini_text `{Gemini.Codec} (data : string) : option string :=
  c ← Gemini.Unmarshal data; cand ← head (Gemini.Candidates c); p ← head (Gemini.Parts cand);
  guard (Gemini.Text p <> "");; Some (Gemini.Text p).

Definition gemini_texts `{Gemini.Codec} (lines : list string) : list string :=
  omap gemini_text (omap ParseSSELine lines).

(** The data lines of an Anthropic stream, each with the event it belongs to. *)
Fixpoint events (last : string) (lines : list string) : list (string * string) :=
  match lines with
  | [] => []
  | line :: lines =>
      match CutPrefix line "event: " with
      | Some e => events e lines
      | None => match ParseSSELine line with Some d => (last, d) :: events last lines | None => events last lines end
      end
  end.

Definition anthropic_text `{Anthropic.Codec} (e : string * string) : option string :=
  guard (e.1 = "content_block_delta");; d ← Anthropic.Unmarshal e.2;
  guard (Anthropic.d_Text d <> "");; Some (Anthropic.d_Text d).

Definition anthropic_texts `{Anthropic.Codec} (lines : list string) : list string :=
  omap anthropic_text (take_while (fun e => negb (bool_decide (e.1 = "message_stop"))) (events "" lines)).

(** ** Writing *)

Definition frame (text : string) : string := "data: " +:+ text +:+ blank.
Definition frames (ts : list string) : string := foldr (fun t acc => frame t +:+ acc) "" ts.

(** A writer that loses nothing and has flushed what it wrote. *)
Definition delivered (w : ResponseWriter) : Prop :=
  rw_fails w = [] /\ rw_flusher w = true /\ rw_flushed w = String.length (rw_out w).

Definition put (s : string) (w : ResponseWriter) : ResponseWriter :=
  mkResponseWriter (rw_out w +:+ s) (String.length (rw_out w +:+ s)) true [].

Lemma put_delivered s w : delivered (put s w).
Proof. done. Qed.

Lemma put_nil w : delivered w -> put "" w = w.
Proof. destruct w. intros (?&?&?). cbn in *. subst. unfold put. cbn. by rewrite string_app_nil_r. Qed.

Lemma put_app a b w : put b (put a w) = put (a +:+ b) w.
Proof. unfold put. cbn. by rewrite <-string_app_assoc. Qed.

Lemma WriteChunk_run t w : delivered w -> WriteChunk t w = (tt, put (frame t) w).
Proof. destruct w. intros (?&?&?). cbn in *. by subst. Qed.

Lemma WriteDone_run w : delivered w -> WriteDone w = (tt, put (frame "[DONE]") w).
Proof. destruct w. intros (?&?&?). cbn in *. by subst. Qed.

Lemma WriteError_run m w : delivered w -> WriteError m w = (tt, put (frames ["[ERROR] " +:+ m] +:+ frame "[DONE]") w).
Proof.
  intros Hw. unfold WriteError. erewrite bind_eval by (by apply WriteChunk_run).
  rewrite WriteDone_run, put_app by apply put_delivered. cbn [frames foldr]. by rewrite string_app_nil_r.
Qed.

(** Writing one text and going on. *)
Lemma relay_step t (c : M ResponseWriter unit) ts w :
  delivered w -> (forall w, delivered w -> c w = (tt, put (frames ts) w)) ->
  (_ <- WriteChunk t ;; c) w = (tt, put (frames (t :: ts)) w).
Proof.
  intros Hw Hc. erewrite bind_eval by (by apply WriteChunk_run).
  rewrite Hc, put_app by apply put_delivered. done.
Qed.

Lemma relay_stop w : delivered w -> @ret ResponseWriter unit tt w = (tt, put (frames []) w).
Proof. intros Hw. unfold ret. by rewrite put_nil. Qed.

(** ** The relay loops write exactly those texts *)

Ltac relay_case IH :=
  repeat first
    [ rewrite bool_decide_true by done
    | rewrite bool_decide_false by done
    | rewrite option_guard_True by done
    | rewrite option_guard_False by (done || tauto)
    | progress cbn ];
  first [by apply IH | by apply relay_stop | (apply relay_step; [done|]; intros; by apply IH)].

Lemma openai_relay `{Net} `{OpenAI.Codec} lines w :
  delivered w -> OpenAI.relay lines w = (tt, put (frames (chat_texts lines)) w).
Proof.
  revert w. induction lines as [|l lines IH]; intros w Hw; [by apply relay_stop|].
  unfold chat_texts in *. cbn [OpenAI.relay omap list_omap]. destruct (ParseSSELine l) as [d|]; [|by apply IH].
  case_decide as Hd; [relay_case IH|]. cbn [take_while]. rewrite bool_decide_false by done. cbn [negb omap list_omap].
  unfold chat_text at 1. destruct (OpenAI.Unmarshal d) as [c|]; [|relay_case IH].
  cbn [mbind option_bind]. destruct (OpenAI.Choices c) as [|t cs]; [relay_case IH|].
  cbn [head mbind option_bind]. case_decide; relay_case IH.
Qed.

Lemma xai_relay_eq `{Net} `{OpenAI.Codec} lines : XAI.relay lines = OpenAI.relay lines.
Proof. done. Qed.

Lemma gemini_relay `{Net} `{Gemini.Codec} lines w :
  delivered w -> Gemini.relay lines w = (tt, put (frames (gemini_texts lines)) w).
Proof.
  revert w. induction lines as [|l lines IH]; intros w Hw; [by apply relay_stop|].
  unfold gemini_texts in *. cbn [Gemini.relay omap list_omap]. destruct (ParseSSELine l) as [d|]; [|by apply IH].
  cbn [omap list_omap]. unfold gemini_text at 1. destruct (Gemini.Unmarshal d) as [c|]; [|relay_case IH].
  cbn [mbind option_bind]. destruct (Gemini.Candidates c) as [|t cs]; [relay_case IH|].
  cbn [head mbind option_bind]. destruct (Gemini.Parts t) as [|p ps]; [relay_case IH|].
  cbn [head mbind option_bind]. case_decide; relay_case IH.
Qed.

Lemma anthropic_relay_from `{Net} `{Anthropic.Codec} lines : forall last w, delivered w ->
  Anthropic.relay last lines w =
  (tt, put (frames (omap anthropic_text
    (take_while (fun e => negb (bool_decide (e.1 = "message_stop"))) (events last lines)))) w).
Proof.
  induction lines as [|l lines IH]; intros last w Hw; [by apply relay_stop|].
  cbn [Anthropic.relay events]. destruct (CutPrefix l "event: ") as [e|]; [by apply IH|].
  destruct (ParseSSELine l) as [d|]; [|by apply IH]. cbn [take_while fst].
  case_decide as Hs; [relay_case IH|]. rewrite bool_decide_false by done. cbn [negb omap list_omap].
  unfold anthropic_text at 1. cbn [fst snd]. case_decide as Hd; [relay_case IH|].
  rewrite option_guard_True by tauto. cbn [mbind option_bind].
  destruct (Anthropic.Unmarshal d) as [c|]; [|relay_case IH]. cbn [mbind option_bind]. case_decide; relay_case IH.
Qed.

Lemma anthropic_relay `{Net} `{Anthropic.Codec} lines w :
  delivered w -> Anthropic.relay "" lines w = (tt, put (frames (anthropic_texts lines)) w).
Proof. apply anthropic_relay_from. Qed.

(** ** The stream as a whole *)

Section Answer.
Context `{Net} `{OpenAI.Codec} `{Anthropic.Codec} `{Gemini.Codec}.

Definition name_of (p : AIProvider.Provider) : string :=
  match p with
  | AIProvider.OpenAIProvider _ => "openai"
  | AIProvider.AnthropicProvider _ => "anthropic"
  | AIProvider.GeminiProvider _ => "gemini"
  | AIProvider.XAIProvider _ => "xai"
  end.

(** The request a provider's client sends. *)
Definition request_of (p : AIProvider.Provider) (apiKey prompt : string) : result string Request :=
  match p with
  | AIProvider.OpenAIProvider p =>
      NewJSONRequest (OpenAI.Endpoint p)
        (OpenAI.Marshal (OpenAI.mkOpenAIRequest (OpenAI.Model p) true [OpenAI.mkMessage "user" prompt]))
        {["Authorization" := "Bearer " +:+ apiKey]}
  | AIProvider.AnthropicProvider p =>
      NewJSONRequest (Anthropic.Endpoint p)
        (Anthropic.Marshal (Anthropic.mkAnthropicRequest (Anthropic.Model p) 4096 true [Anthropic.mkMessage "user" prompt]))
        (<["x-api-key" := apiKey]> {["anthropic-version" := "2023-06-01"]})
  | AIProvider.GeminiProvider p =>
      NewJSONRequest (Gemini.url p apiKey)
        (Gemini.Marshal (Gemini.mkGeminiRequest [Gemini.mkContent [Gemini.mkPart prompt]])) ∅
  | AIProvider.XAIProvider p =>
      NewJSONRequest (XAI.Endpoint p)
        (OpenAI.Marshal (OpenAI.mkOpenAIRequest (XAI.Model p) true [OpenAI.mkMessage "user" prompt]))
        {["Authorization" := "Bearer " +:+ apiKey]}
  end.

Definition texts_of (p : AIProvider.Provider) (lines : list string) : list string :=
  match p with
  | AIProvider.OpenAIProvider _ | AIProvider.XAIProvider _ => chat_texts lines
  | AIProvider.AnthropicProvider _ => anthropic_texts lines
  | AIProvider.GeminiProvider _ => gemini_texts lines
  end.

(** The texts of an answer: those of the provider's stream, or one error text;
    [None] when no request could be built. *)
Definition answer (p : AIProvider.Provider) (ctx : option Z) (apiKey prompt : string) : option (list string) :=
  match ValidateInput apiKey prompt, request_of p apiKey prompt with
  | Ok _, Ok req =>
      Some (match Do ctx req with
            | Err _ => ["[ERROR] " +:+ name_of p +:+ " request failed"]
            | Ok resp =>
                if decide (rs_StatusCode resp <> 200)
                then ["[ERROR] " +:+ name_of p +:+ " returned status " +:+ FormatInt (rs_StatusCode resp)]
                else texts_of p (scan_lines (read_body ctx (rs_Body resp)))
            end)
  | _, _ => None
  end.

(** The bytes an answer is sent as. *)
Definition sent (a : option (list string)) : string :=
  match a with Some ts => frames ts +:+ frame "[DONE]" | None => "" end.

Lemma finish (c : M ResponseWriter unit) ts w :
  delivered w -> c w = (tt, put (frames ts) w) ->
  (_ <- c ;; _ <- WriteDone ;; ret (Ok tt)) w = (@Ok string unit tt, put (sent (Some ts)) w).
Proof.
  intros Hw Hc. erewrite bind_eval by exact Hc.
  erewrite bind_eval by (apply WriteDone_run, put_delivered). by rewrite put_app.
Qed.

Lemma refuse m (e : string) w :
  delivered w -> (_ <- WriteError m ;; ret (@Err string unit e)) w = (Err e, put (sent (Some ["[ERROR] " +:+ m])) w).
Proof. intros Hw. by erewrite bind_eval by (by apply WriteError_run). Qed.

(** Every client writes exactly its answer, and flushes it. *)
Lemma Stream_run p ctx apiKey prompt w :
  delivered w -> exists r, AIProvider.Stream p ctx apiKey prompt w = (r, put (sent (answer p ctx apiKey prompt)) w).
Proof.
  intros Hw. unfold answer.
  destruct p as [p|p|p|p]; cbn [AIProvider.Stream request_of name_of texts_of];
    unfold OpenAI.Stream, Anthropic.Stream, Gemini.Stream, XAI.Stream;
    (destruct (ValidateInput apiKey prompt); [|eexists; by rewrite put_nil]);
    (destruct (NewJSONRequest _ _ _) as [req|e]; [|eexists; by rewrite put_nil]);
    (destruct (Do ctx req) as [resp|e]; [|eexists; by apply refuse]);
    (case_decide; [eexists; by apply refuse|]); eexists; apply finish; try done.
  - by apply openai_relay.
  - by apply anthropic_relay.
  - by apply gemini_relay.
  - rewrite xai_relay_eq. by apply openai_relay.
Qed.

Local Ltac no_answer := cbn; split; [discriminate|intros (?&?&?&?&?&?); simplify_eq; congruence].

(** The error is the one of the answer: none exactly when the provider
    answered with status 200. *)
Lemma Stream_ok p ctx apiKey prompt w :
  (AIProvider.Stream p ctx apiKey prompt w).1 = Ok tt <->
  exists req resp, ValidateInput apiKey prompt = Ok tt /\ request_of p apiKey prompt = Ok req /\
    Do ctx req = Ok resp /\ rs_StatusCode resp = 200.
Proof.
  destruct p as [p|p|p|p]; cbn [AIProvider.Stream request_of];
    unfold OpenAI.Stream, Anthropic.Stream, Gemini.Stream, XAI.Stream, bind, ret;
    (destruct (ValidateInput apiKey prompt) as [[]|]; [|no_answer]);
    (destruct (NewJSONRequest _ _ _) as [req|e]; [|no_answer]);
    (destruct (Do ctx req) as [resp|e] eqn:HD; [|destruct (WriteError _ w); no_answer]);
    (case_decide; [destruct (WriteError _ w); no_answer|]);
    repeat case_match; cbn; split; try done; intros _; exists req, resp; split_and!; try done; by apply dec_stable.
Qed.

End Answer.

(** ** The client's side *)

(** What a reader of the relayed stream gets: the data lines up to the
    sentinel. *)
Definition client_reads (out : string) : list string :=
  take_while (fun d => negb (bool_decide (d = "[DONE]"))) (omap ParseSSELine (scan_lines out)).

Fixpoint ends_in_CR (s : string) : bool :=
  match s with
  | EmptyString => false
  | String c EmptyString => bool_decide (c = CR)
  | String _ s => ends_in_CR s
  end.

(** A text that fits one data line. *)
Definition plain (t : string) : Prop :=
  has_char LF t = false /\ ends_in_CR t = false /\ len t + 6 < MaxScanTokenSize /\ t <> "[DONE]".

Lemma split_lines_line l s : has_char LF l = false -> split_lines (l +:+ String LF s) = l :: split_lines s.
Proof.
  induction l as [|c l IH]; intros Hl; [done|].
  rewrite string_cons_app. cbn [split_lines has_char] in Hl |- *. case_decide; [done|]. by rewrite IH.
Qed.

Lemma dropCR_id s : ends_in_CR s = false -> dropCR s = s.
Proof.
  induction s as [|c s IH]; intros Hs; [done|]. destruct s as [|d s].
  - cbn in Hs |- *. apply bool_decide_eq_false in Hs. by rewrite decide_False.
  - change (String c (dropCR (String d s)) = String c (String d s)). by rewrite IH.
Qed.

Lemma ends_in_CR_app a b : b <> "" -> ends_in_CR (a +:+ b) = ends_in_CR b.
Proof.
  intros Hb. induction a as [|c a IH]; [done|]. rewrite string_cons_app, <-IH.
  destruct a; [by destruct b|done].
Qed.

Lemma scan_lines_line l s :
  has_char LF l = false -> ends_in_CR l = false -> len l < MaxScanTokenSize ->
  scan_lines (l +:+ String LF s) = l :: scan_lines s.
Proof.
  intros Hn Hc Hlen. unfold scan_lines. rewrite split_lines_line by done. cbn [take_while].
  rewrite (proj2 (Z.ltb_lt _ _)) by done. cbn. by rewrite dropCR_id.
Qed.

Lemma scan_lines_frame t s :
  has_char LF t = false -> ends_in_CR t = false -> len t + 6 < MaxScanTokenSize ->
  scan_lines (frame t +:+ s) = ("data: " +:+ t) :: "" :: scan_lines s.
Proof.
  intros Hn Hc Hlen. unfold frame, blank.
  replace (("data: " +:+ t +:+ String LF (String LF "")) +:+ s) with (("data: " +:+ t) +:+ String LF (String LF s))
    by (by rewrite <-!string_app_assoc).
  rewrite scan_lines_line.
  - by change (String LF s) with ("" +:+ String LF s); rewrite scan_lines_line.
  - by rewrite has_char_app, Hn.
  - destruct t; [done|]. by rewrite ends_in_CR_app.
  - unfold len in *. rewrite length_string_app. cbn. lia.
Qed.

Lemma client_reads_frame t s : plain t -> client_reads (frame t +:+ s) = t :: client_reads s.
Proof.
  intros (Hn&Hc&Hl&Hd). unfold client_reads. rewrite scan_lines_frame by done. cbn [omap list_omap].
  unfold ParseSSELine at 1. rewrite CutPrefix_app. cbn [take_while]. by rewrite bool_decide_false.
Qed.

(** A sent answer of plain texts reads back as those texts. *)
Lemma client_reads_sent ts : Forall plain ts -> client_reads (sent (Some ts)) = ts.
Proof.
  induction 1 as [|t ts Ht _ IH]; [done|]. change (sent (Some (t :: ts))) with ((frame t +:+ frames ts) +:+ frame "[DONE]").
  rewrite <-string_app_assoc, client_reads_frame by done. f_equal. apply IH.
Qed.

End StreamFacts.

(** ** What a query hands to the stream *)

Module QueryFacts.
Import JobStore ContextStore Scope.

(** The world apart from failures and the cache. *)
Definition kept (w w' : World) : Prop := w_db w' = w_db w /\ w_now w' = w_now w.

Lemma kept_trans w1 w2 w3 : kept w1 w2 -> kept w2 w3 -> kept w1 w3.
Proof. intros [] []. split; congruence. Qed.

Section Query.
Context `{UUIDCodec} `{Validator} `{Encryption.AEAD}.
Context (enc : Encryption.Service).

Lemma selectProvider_inv org ps : forall w r w', Query.selectProvider enc org ps w = (r, w') ->
  kept w w' /\ forall p key, r = Some (p, key) -> p ∈ ps /\
    exists k, GetAIProviderKeyForOrg org p (w_db w) = Ok k /\ Encryption.Decrypt enc (ak_KeyCipher k) = Ok key.
Proof.
  induction ps as [|p0 ps IH]; intros w r w' Hrun; [by unfold Query.selectProvider, ret in Hrun; simplify_eq/=|].
  cbn [Query.selectProvider] in Hrun. apply bind_inv in Hrun as (k & w1 & Hk & Hrun).
  apply query_inv in Hk as (fs & -> & Hk).
  assert (forall r, Query.selectProvider enc org ps (set_faults fs w) = (r, w') ->
    kept w w' /\ forall p key, r = Some (p, key) -> p ∈ p0 :: ps /\
    exists k, GetAIProviderKeyForOrg org p (w_db w) = Ok k /\ Encryption.Decrypt enc (ak_KeyCipher k) = Ok key) as Hrest.
  { intros r' Hr. apply IH in Hr as [Hkept Hr]. split; [done|]. intros p key E. destruct (Hr p key E) as [Hp Hex].
    split; [by right|done]. }
  destruct k as [k|e]; [|by apply Hrest].
  destruct (Encryption.Decrypt enc (ak_KeyCipher k)) as [key|] eqn:Hd; [|by apply Hrest].
  unfold ret in Hrun. simplify_eq/=. split; [done|]. intros p key' E. simplify_eq. split; [by left|].
  destruct Hk as [Hk|Hk]; [done|]. by exists k.
Qed.

Lemma resolveSnapshot_inv sid repoID branch w r w' :
  Query.resolveSnapshot sid repoID branch w = (r, w') -> kept w w'.
Proof. unfold Query.resolveSnapshot. intros Hrun. go_run; done. Qed.

Lemma getOrAssembleContext_inv decode blob repo snap w r w' :
  Query.getOrAssembleContext decode blob repo snap w = (r, w') -> kept w w'.
Proof.
  unfold Query.getOrAssembleContext, ContextCache.Get, Storage.Download, ContextCache.Set_. intros Hrun.
  go_run; repeat match goal with Hn : next_fault _ = _ |- _ => apply next_fault_inv in Hn as [? ->] end;
    repeat case_match; go_run; repeat match goal with Hn : next_fault _ = _ |- _ => apply next_fault_inv in Hn as [? ->] end;
    repeat case_match; by simplify_eq/=.
Qed.

(** A query that reaches the stream: a stored key of the scope's organization,
    a repository of that organization, a snapshot of the current version, and
    the prompt made of its context and the question. *)
Definition prompt_of (md question : string) : string :=
  Query.SystemPrompt +:+ Query.separator +:+ md +:+ Query.separator +:+ "User: " +:+ question.

Lemma Query_inv decode blob c repoParam body w st provider key prompt w' :
  Query.Query enc decode blob c repoParam body w = (Reply st (provider, key, prompt), w') ->
  kept w w' /\ provider ∈ Query.ProviderOrder /\ st = StatusOK /\
  (exists k, GetAIProviderKeyForOrg (OrgIDFromContext c) provider (w_db w) = Ok k /\
  Encryption.Decrypt enc (ak_KeyCipher k) = Ok key) /\
  (exists repoID repo, uuid_scan repoParam = Some repoID /\ repositories (w_db w) !! repoID = Some repo /\
  r_OrgID repo = OrgIDFromContext c) /\
  exists req md, body = Some req /\ prompt = prompt_of md (Query.qr_Question req).
Proof.
  unfold Query.Query. intros Hrun. destruct body as [req|]; [|done].
  destruct (Struct _) as [[]|]; [|done]. apply bind_inv in Hrun as (sel & w1 & Hsel & Hrun).
  apply selectProvider_inv in Hsel as [Hk1 Hsel]. destruct sel as [[p k]|]; [|done].
  destruct (uuid_scan repoParam) as [repoID|] eqn:Hscan; [|done].
  apply bind_inv in Hrun as (r & w2 & Hr & Hrun). apply query_inv in Hr as (fs & -> & Hr).
  destruct r as [repo|]; [|done]. case_decide as Ho; [done|].
  apply bind_inv in Hrun as (s & w3 & Hs & Hrun). apply resolveSnapshot_inv in Hs.
  destruct s as [snap|]; [|done]. destruct (s_SnapshotVersion snap <? 2); [done|].
  apply bind_inv in Hrun as (md & w4 & Hmd & Hrun). apply getOrAssembleContext_inv in Hmd.
  destruct md as [md|]; [|done]. unfold ret in Hrun. simplify_eq.
  destruct (Hsel _ _ eq_refl) as [Hin Hkey].
  assert (repositories (w_db w) !! repoID = Some repo) as Hrepo.
  { unfold GetRepoByID, result_of_option in Hr. destruct Hk1 as [<- _]. destruct Hr; [done|]. by case_match; simplify_eq. }
  refine (conj _ (conj Hin (conj eq_refl (conj Hkey (conj _ _))))); [| |by eexists _, _].
  - eapply kept_trans; [exact Hk1|]. eapply kept_trans; [exact Hs|exact Hmd].
  - exists repoID, repo. split; [done|]. split; [exact Hrepo|]. destruct (decide (r_OrgID repo = OrgIDFromContext c)); [done|]. by destruct Ho.
Qed.

End Query.
End QueryFacts.

(** * Properties *)

Module StreamProps.
Import JobStore ContextStore Scope Scanner SseUtil StreamFacts QueryFacts.

Section Props.
Context `{UUIDCodec} `{Validator} `{Encryption.AEAD}.
Context `{Net} `{OpenAI.Codec} `{Anthropic.Codec} `{Gemini.Codec}.
Context (enc : Encryption.Service).

(** Every provider the console can select has a client. *)
Lemma selectable_provider_has_client name : name ∈ Query.ProviderOrder -> exists p, AIProvider.New name = Ok p.
Proof. unfold Query.ProviderOrder. rewrite !elem_of_cons. intros [->|[->|[->|[->|[]%not_elem_of_nil]]]]; by eexists. Qed.


(** The xAI client behaves as the OpenAI client against the same endpoint and
    model: the same request, the same bytes for a successful answer. *)
Theorem xai_is_openai_compatible model endpoint ctx apiKey prompt w w' :
  OpenAI.Stream (OpenAI.mkProvider model endpoint) ctx apiKey prompt w = (Ok tt, w') <->
  XAI.Stream (XAI.mkProvider model endpoint) ctx apiKey prompt w = (Ok tt, w').
Proof.
  unfold OpenAI.Stream, XAI.Stream, bind, ret. cbn [OpenAI.Endpoint OpenAI.Model XAI.Endpoint XAI.Model].
  destruct (ValidateInput apiKey prompt); [|done].
  destruct (NewJSONRequest _ _ _) as [req|]; [|naive_solver].
  destruct (Do ctx req) as [resp|]; [|split; by destruct (WriteError _ w)].
  case_decide; [split; by destruct (WriteError _ w)|]. done.
Qed.

(** A longer deadline never changes what was already read. *)
Lemma read_body_monotone ctx d pieces :
  exists rest, read_body ctx pieces = read_body (WithTimeout ctx d 0) pieces +:+ rest.
Proof.
  unfold read_body. induction pieces as [|[t s] pieces [rest IH]]; [by exists ""|]. cbn [take_while foldr fst].
  destruct (in_time (WithTimeout ctx d 0) t) eqn:E; [|by eexists].
  assert (in_time ctx t = true) as ->.
  { unfold in_time, WithTimeout in *. destruct ctx; lia. }
  exists rest. cbn [foldr snd]. by rewrite IH, string_app_assoc.
Qed.

End Props.
End StreamProps.

(** * Closed examples *)

Module StreamExamples.
Import JobStore ContextStore Scope Scanner SseUtil StreamFacts QueryFacts StreamProps.

#[local] Existing Instance example_codec.
#[local] Existing Instance example_validator.
#[local] Existing Instance ServiceProps.example_aead.

Definition dquote (s : string) : string := String (Ascii.ascii_of_nat 34) s +:+ String (Ascii.ascii_of_nat 34) "".

(** A provider that answers with the given pieces; a URL with a line feed does
    not parse. *)
Definition example_net (r : result string Response) : Net := {|
  parse_url u := if has_char LF u then Some "net/url: invalid control character in URL" else None;
  quote := dquote;
  roundtrip _ := r
|}.

(** The payload of a data line is the text itself. *)
Definition example_chat : OpenAI.Codec := {|
  OpenAI.Marshal r := Ok (OpenAI.req_Model r);
  OpenAI.Unmarshal d := Some (OpenAI.mkChunk [d])
|}.
Definition example_anthropic : Anthropic.Codec := {|
  Anthropic.Marshal r := Ok (Anthropic.req_Model r);
  Anthropic.Unmarshal d := Some (Anthropic.mkDelta "content_block_delta" "text_delta" d)
|}.
Definition example_gemini : Gemini.Codec := {|
  Gemini.Marshal r := Ok "contents";
  Gemini.Unmarshal d := Some (Gemini.mkChunk [Gemini.mkContent [Gemini.mkPart d]])
|}.
#[local] Existing Instances example_chat example_anthropic example_gemini.

Definition line (s : string) : string := s +:+ String LF "".

Definition ex_answer : Response :=
  mkResponse 1 200 [(1, line "data: Hello"); (2, line ": ping" +:+ line "data: wor"); (3, line "data: ld" +:+ line "data: [DONE]")].

Definition ex_key : AiProviderKey := mkAiProviderKey 9 (Some 5%N) "openai" "nnsk-1234" "...1234" 0 None.
Definition ex_snap : Snapshot := mkSnapshot 8 7 None "main" "abc" "path" 2 "1.0" 10 0 None.
Definition ex_repo : Repository := mkRepository 7 (Some 5%N) 42 99 "acme/app" "main" 0 None.

Definition ex_db : DB :=
  set_ai_provider_keys {[ 9%N := ex_key ]} (set_snapshots {[ 8%N := ex_snap ]} (set_repositories {[ 7%N := ex_repo ]} empty_db)).

Definition ex_world : World := mkWorld ex_db None 0 [] [] [] ∅ {[ "ctx:7:abc" := ("document", 1000) ]}.

Definition ex_enc : Encryption.Service := Encryption.mkService "0123456789abcdef0123456789abcdef".
Definition ex_ctx : Ctx := mkCtx (Some 1%N) (Some 5%N).
Definition ex_query : option Query.queryRequest := Some (Query.mkQueryRequest "what?" None).

Definition ex_run (r : result string Response) (deadline : option Z) : Resp QueryStream.Sse * World :=
  @QueryStream.Query _ _ _ (example_net r) _ _ _ ex_enc (fun _ => None) (fun _ _ _ => None) deadline [] ex_ctx "7" ex_query ex_world.

Definition ex_sse (r : result string Response) (deadline : option Z) : QueryStream.Sse :=
  match (ex_run r deadline).1 with Reply _ s => s | Fail _ m => QueryStream.mkSse [] m None end.


Example ex_client_reads :
  client_reads (QueryStream.sse_Body (ex_sse (Ok ex_answer) None)) = ["Hello"; "wor"; "ld"] /\
  QueryStream.sse_Logged (ex_sse (Ok ex_answer) None) = None.
Proof. vm_compute. auto. Qed.

Example ex_anthropic_relay :
  anthropic_texts ["event: message_start"; "data: x"; "event: content_block_delta"; "data: Hi"; ""; "data: you";
                   "event: message_stop"; "data: end"; "event: content_block_delta"; "data: late"] = ["Hi"; "you"].
Proof. vm_compute. reflexivity. Qed.

(** ** Where the stream falls short *)

(** A text with a line feed is sent in one data frame: its reader gets only the
    first line. *)
Example multiline_text_is_cut :
  client_reads (sent (Some ["one" +:+ String LF "two"; "three"])) = ["one"; "three"].
Proof. vm_compute. reflexivity. Qed.

(** An answer cut off by the deadline is closed with the sentinel like a
    complete one, and no error is logged. *)
Example cut_answer_is_marked_complete :
  let s := ex_sse (Ok ex_answer) (Some 3) in
  QueryStream.sse_Body s = sent (Some ["Hello"; "wor"]) /\ QueryStream.sse_Logged s = None.
Proof. vm_compute. auto. Qed.

(** So is an answer whose next line does not fit the scanner's buffer. *)
Lemma long_line_ends_the_stream `{OpenAI.Codec} l rest :
  has_char LF l = false -> MaxScanTokenSize <= len l -> chat_texts (scan_lines (l +:+ String LF rest)) = [].
Proof.
  intros Hn Hl. unfold scan_lines. rewrite split_lines_line by done. cbn [take_while].
  by rewrite (proj2 (Z.ltb_ge _ _)).
Qed.

(** A request that cannot be built leaves the client with an empty stream:
    neither an error text nor the sentinel is sent. *)
Lemma unbuilt_request_sends_nothing `{Net} `{OpenAI.Codec} `{Anthropic.Codec} `{Gemini.Codec} p ctx apiKey prompt e w :
  ValidateInput apiKey prompt = Ok tt -> request_of p apiKey prompt = Err e -> delivered w ->
  exists e', AIProvider.Stream p ctx apiKey prompt w = (Err e', w).
Proof.
  intros Hv Hr Hw. destruct (Stream_run p ctx apiKey prompt w Hw) as [r Hs].
  assert (answer p ctx apiKey prompt = None) as Ha by (unfold answer; by rewrite Hv, Hr).
  rewrite Ha in Hs. cbn [sent] in Hs. rewrite put_nil in Hs by done.
  destruct r as [[]|e']; [|by exists e'].
  pose proof (proj1 (Stream_ok p ctx apiKey prompt w)) as Hok. rewrite Hs in Hok.
  destruct (Hok eq_refl) as (req & resp & _ & Hr' & _). congruence.
Qed.

(** The Gemini key is part of the URL, so the error of a failing request, which
    the query handler logs, contains it. *)
Example gemini_error_carries_the_key :
  let key := "AIza-secret" in
  (@Gemini.Stream (example_net (Err "connection refused")) _ Gemini.New None key "q" (mkResponseWriter "" 0 true [])).1 =
  Err ("gemini: do request: Post " +:+ dquote (Gemini.url Gemini.New key) +:+ ": connection refused").
Proof. reflexivity. Qed.

End StreamExamples.
