(* ===== verification/ApiRoutes.v ===== *)
(** The API service as it is mounted: [services/api/internal/routes], with the
    GitHub installation and health endpoints
    ([handler/githubauth/handler.go], [handler/health/health.go]) and the
    request logger ([shared/go/middleware/zaplogger]).

    A handler takes the request, with what the middlewares before it put into
    its context, and runs on the API's world, the limiter's Redis and the log.
    The middlewares of chi and cors are parameters with the documented law that
    they hand a request on or answer it themselves. *)

From S2P Require Import Prelude GoStr Sha256 JobToken Store JobStore AccountStore ContextStore HttpUtil.
From S2P Require Import JobService Callback JobProps Middleware Scope RepoApi OrgApi Services ContextApi KeysApi Router AIStream.

(** * Definitions *)

(** ** [health.go] *)
Module Health.

Record Response := mkResponse {
  Status : string;
  Reason : string
}.

Definition Liveness : Resp Response := Reply StatusOK (mkResponse "ok" "").

(** [up]: the pool answers the ping within its two seconds. *)
Definition Readiness (up : bool) : Resp Response :=
  if up then Reply StatusOK (mkResponse "ready" "")
  else Reply 503 (mkResponse "unavailable" "db unreachable").

End Health.

(** ** [githubauth/handler.go] *)
Module GithubAuth.

Definition StatusFound : Z := 302.
Definition ErrMissingInstallationId : string := "missing installation_id".

(** A redirect: its body is the location. *)
Definition Install (appSlug : string) : Resp string :=
  Reply StatusFound ("https://github.com/apps/" +:+ appSlug +:+ "/installations/new").

Definition Callback (installationID setupAction : string) : Resp string :=
  if decide (installationID = "") then Fail StatusBadRequest ErrMissingInstallationId
  else Reply StatusOK ("Installation " +:+ installationID +:+ " successful (action: " +:+ setupAction +:+ ")").

End GithubAuth.

(** ** [shared/go/middleware/zaplogger]: the level of a finished request *)
Module ZapLogger.

Inductive Level : Set := Info | Warn | Error.

Definition level (status : Z) : Level :=
  if 500 <=? status then Error else if 400 <=? status then Warn else Info.

End ZapLogger.

Module ApiRoutes.
Import Scope Router.

(** [DecodeJSON[T]]: the JSON decoder on a body, [None] when it reports an
    error. *)
Class JSON (T : Type) := DecodeJSON : BodyLimit.Body -> option T.

(** A request with its context: the first fields are what arrives, the last
    ones what the middlewares add. *)
Record Request := mkRequest {
  rq_Method : string;
  rq_Params : gmap string string;
  rq_Query : gmap string string;
  rq_Authorization : string;
  rq_Cookie : option string;
  rq_ContentType : string;
  rq_OrgHeaders : OrgHeaders;
  rq_Signature : string;
  rq_Event : string;
  rq_Delivery : string;
  rq_RemoteAddr : string;
  rq_Body : BodyLimit.Body;
  rq_Rand : option string;       (* what the random source returns *)
  rq_RedisUp : bool;             (* the limiter's pipeline is executed *)
  rq_DbUp : bool;                (* the pool answers a ping *)
  rq_Writes : list bool;         (* which writes of a stream fail *)
  rq_Deadline : option Z;
  rq_Claims : option Claims;
  rq_Scope : Ctx;
  rq_JobID : string;
  rq_CLIOrg : option uuid
}.

Definition param (k : string) (r : Request) : string := default "" (rq_Params r !! k).
Definition query_param (k : string) (r : Request) : string := default "" (rq_Query r !! k).

Definition with_body (b : BodyLimit.Body) (r : Request) : Request :=
  mkRequest (rq_Method r) (rq_Params r) (rq_Query r) (rq_Authorization r) (rq_Cookie r) (rq_ContentType r) (rq_OrgHeaders r)
    (rq_Signature r) (rq_Event r) (rq_Delivery r) (rq_RemoteAddr r) b (rq_Rand r) (rq_RedisUp r) (rq_DbUp r) (rq_Writes r)
    (rq_Deadline r) (rq_Claims r) (rq_Scope r) (rq_JobID r) (rq_CLIOrg r).
Definition with_context (deadline : option Z) (claims : option Claims) (c : Ctx) (job : string) (cli : option uuid)
    (r : Request) : Request :=
  mkRequest (rq_Method r) (rq_Params r) (rq_Query r) (rq_Authorization r) (rq_Cookie r) (rq_ContentType r) (rq_OrgHeaders r)
    (rq_Signature r) (rq_Event r) (rq_Delivery r) (rq_RemoteAddr r) (rq_Body r) (rq_Rand r) (rq_RedisUp r) (rq_DbUp r)
    (rq_Writes r) deadline claims c job cli.
Definition with_deadline d r := with_context d (rq_Claims r) (rq_Scope r) (rq_JobID r) (rq_CLIOrg r) r.
Definition with_claims c r := with_context (rq_Deadline r) (Some c) (rq_Scope r) (rq_JobID r) (rq_CLIOrg r) r.
Definition with_scope c r := with_context (rq_Deadline r) (rq_Claims r) c (rq_JobID r) (rq_CLIOrg r) r.
Definition with_job j r := with_context (rq_Deadline r) (rq_Claims r) (rq_Scope r) j (rq_CLIOrg r) r.
Definition with_cli o r := with_context (rq_Deadline r) (rq_Claims r) (rq_Scope r) (rq_JobID r) o r.

(** What the service keeps. *)
Record Server := mkServer {
  sv_world : World;
  sv_rdb : gmap string RateLimit.ZSet;
  sv_log : list (ZapLogger.Level * string * Z)
}.

Definition on_world {A} (c : M World A) : M Server A := fun s =>
  let '(a, w) := c (sv_world s) in (a, mkServer w (sv_rdb s) (sv_log s)).
Definition on_redis {A} (c : M (gmap string RateLimit.ZSet) A) : M Server A := fun s =>
  let '(a, r) := c (sv_rdb s) in (a, mkServer (sv_world s) r (sv_log s)).
Definition log (e : ZapLogger.Level * string * Z) : M Server unit := modify (fun s =>
  mkServer (sv_world s) (sv_rdb s) (sv_log s ++ [e])).

(** The status a handler answers with. *)
Definition answer {A} (c : M World (Resp A)) : M Server Z := r <- on_world c ;; ret (resp_status r).

Abbreviation Handle := (Request -> M Server Z) (only parsing).

(** What the routes are built with. *)
Record Deps := mkDeps {
  ParseWithClaims : string -> option Claims;
  Signer : JobToken.Signer;
  WebhookSecret : string;
  ParsePayload : string -> option Github.PushPayload;
  WatchdogSecret : string;
  CLIAPIKey : string;
  AppSlug : string;
  Enc : Encryption.Service;
  GenerateCloneToken : Z -> option string;
  decode_tree : string -> option (list Assembly.FileEntry);
  decode_jobID : string -> option string;
  GetBlob : Z -> string -> string -> option string;
  marshal : Upload.snapshotMetadata -> option string;
  ParseMediaType : string -> option string;
  SplitHostPort : string -> option string
}.

(** [constants.go]; the window in nanoseconds *)
Definition bodyLimit1MB : Z := 1048576.
Definition bodyLimit10MB : Z := 10485760.
Definition rateLimitOAuth : Z := 30.
Definition rateLimitWebhook : Z := 120.
Definition rateLimitAPI : Z := 60.
Definition rateLimitUpload : Z := 60.
Definition rateLimitWindow : Z := 60000000000.

(** ** The middlewares on handlers *)

Definition refuse {A} (e : Z * A) : M Server Z := ret e.1.

Definition Auth (d : Deps) (next : Handle) : Handle := fun r =>
  match JwtAuth.Auth (ParseWithClaims d) (rq_Authorization r) (rq_Cookie r) with
  | Err e => refuse e
  | Ok claims => next (with_claims claims r)
  end.

Definition ScopeMw (next : Handle) : Handle := fun r =>
  c <- on_world (Scope.Scope (rq_Claims r) (rq_OrgHeaders r)) ;;
  match c with
  | Err e => refuse e
  | Ok c => next (with_scope c r)
  end.

Definition RateLimitMw (d : Deps) (max : Z) (prefix : string) (next : Handle) : Handle := fun r =>
  now <- gets (fun s => w_now (sv_world s)) ;;
  let key := RateLimit.keyFunc (SplitHostPort d) (cl_Subject <$> rq_Claims r) (rq_RemoteAddr r) prefix in
  v <- on_redis (RateLimit.RateLimit (RateLimit.mkRateLimitConfig max rateLimitWindow) key (rq_RedisUp r) (now * 1000)) ;;
  match v with
  | Err e => refuse e
  | Ok _ => next r
  end.

Definition Limit (max : Z) (next : Handle) : Handle := fun r =>
  next (with_body (BodyLimit.Limit max (rq_Method r) (rq_Body r)) r).

Definition RequireJSON (d : Deps) (next : Handle) : Handle := fun r =>
  match ContentType.RequireJSON (ParseMediaType d) (rq_Method r) (rq_ContentType r) with
  | Err e => refuse e
  | Ok _ => next r
  end.

Definition JobTokenAuth (d : Deps) (next : Handle) : Handle := fun r =>
  now <- gets (fun s => go_now (sv_world s)) ;;
  match JobToken.Auth (Signer d) (decode_jobID d) now (rq_Authorization r)
          (BodyLimit.read_upto (Z.of_nat JobToken.maxBodyBytes) (rq_Body r)) with
  | Err e => refuse e
  | Ok (jobID, raw) => next (with_job jobID (with_body (BodyLimit.mkBody (Some raw) None) r))
  end.

Definition WatchdogAuthMw (d : Deps) (next : Handle) : Handle := fun r =>
  match WatchdogAuth.SharedSecret (WatchdogSecret d) (rq_Authorization r) with
  | Err e => refuse e
  | Ok _ => next r
  end.

Definition CliTokenAuth (d : Deps) (next : Handle) : Handle := fun r =>
  o <- on_world (CliToken.Auth (CLIAPIKey d) (rq_Authorization r)) ;;
  match o with
  | Err e => refuse e
  | Ok o => next (with_cli o r)
  end.

(** [middleware.Timeout]: the request's context ends after [dur]. *)
Definition Timeout (dur : Z) (next : Handle) : Handle := fun r =>
  now <- gets (fun s => w_now (sv_world s)) ;;
  next (with_deadline (WithTimeout (rq_Deadline r) now dur) r).

(** [zaplogger.Middleware]: one entry when the request is finished. *)
Definition Logger (next : Handle) : Handle := fun r =>
  st <- next r ;;
  do log (ZapLogger.level st, rq_Method r, st) ;;
  ret st.

(** ** The middlewares of chi and cors

    Each hands the request on, with at most another remote address, or answers
    it without touching the service's state. *)
Definition with_remote (a : string) (r : Request) : Request :=
  mkRequest (rq_Method r) (rq_Params r) (rq_Query r) (rq_Authorization r) (rq_Cookie r) (rq_ContentType r) (rq_OrgHeaders r)
    (rq_Signature r) (rq_Event r) (rq_Delivery r) a (rq_Body r) (rq_Rand r) (rq_RedisUp r) (rq_DbUp r)
    (rq_Writes r) (rq_Deadline r) (rq_Claims r) (rq_Scope r) (rq_JobID r) (rq_CLIOrg r).

Definition passes (mw : Handle -> Handle) : Prop := forall next r s,
  (exists a, mw next r s = next (with_remote a r) s) \/ (exists st, mw next r s = (st, s)).

Class Chi := {
  RealIP : Handle -> Handle;
  RequestID : Handle -> Handle;
  Cors : Handle -> Handle;
  RedirectSlashes : Handle -> Handle;
  ThrottleBacklog : Handle -> Handle;
  chi_passes : Forall passes [RealIP; RequestID; Cors; RedirectSlashes; ThrottleBacklog]
}.

(** ** The routing table *)
Section Table.
Context `{UUIDCodec} `{TimeCodec} `{Collation} `{Validator} `{Encryption.AEAD} `{JobService.TaskEnqueuer}.
Context `{SseUtil.Net} `{OpenAI.Codec} `{Anthropic.Codec} `{Gemini.Codec} `{Chi}.
Context `{JSON OrgApi.orgRequest} `{JSON OrgApi.inviteRequest} `{JSON OrgApi.roleRequest}.
Context `{JSON Account.updateProfileRequest} `{JSON ContextTokens.createTokenRequest} `{JSON (option (list string))}.
Context `{JSON AIKeys.upsertRequest} `{JSON string} `{JSON Query.queryRequest} `{JSON Upload.uploadRequest}.
Context `{JSON Callback.StartRequest} `{JSON Callback.CompleteRequest}.

(** [repos.go] *)
Definition repoSubroutes (d : Deps) : list (Subroute Handle) :=
  [
   mkSubroute GET "/api/v1/repos" (fun r => answer (RepoApi.ListRepos (rq_Scope r) (query_param "limit" r) (query_param "cursor" r)));
   mkSubroute GET "/api/v1/repos/{repoID}" (fun r => answer (RepoApi.GetRepo (rq_Scope r) (param "repoID" r)));
   mkSubroute GET "/api/v1/repos/{repoID}/jobs" (fun r => answer (RepoApi.ListJobs (rq_Scope r) (param "repoID" r) (query_param "limit" r) (query_param "cursor" r)));
   mkSubroute GET "/api/v1/repos/{repoID}/jobs/{jobID}" (fun r => answer (RepoApi.GetJob (rq_Scope r) (param "repoID" r) (param "jobID" r)));
   mkSubroute GET "/api/v1/repos/{repoID}/snapshots" (fun r => answer (RepoApi.ListSnapshots (rq_Scope r) (param "repoID" r) (query_param "branch" r)));
   mkSubroute GET "/api/v1/repos/{repoID}/snapshots/latest" (fun r => answer (RepoApi.GetLatestSnapshot (rq_Scope r) (param "repoID" r) (query_param "branch" r)));
   mkSubroute GET "/api/v1/snapshots/{snapshotID}" (fun r => answer (RepoApi.GetSnapshot (rq_Scope r) (param "snapshotID" r)))
  ].

(** [settings.go] *)
Definition settingsSubroutes (d : Deps) : list (Subroute Handle) :=
  [
   mkSubroute GET "/api/v1/repos/{repoID}/context-tokens" (fun r => answer (ContextTokens.List_ (rq_Scope r) (param "repoID" r)));
   mkSubroute POST "/api/v1/repos/{repoID}/context-tokens" (fun r => answer (ContextTokens.Create (rq_Scope r) (rq_Rand r) (param "repoID" r) (DecodeJSON (rq_Body r))));
   mkSubroute DELETE "/api/v1/repos/{repoID}/context-tokens/{tokenID}" (fun r => answer (ContextTokens.Delete (rq_Scope r) (param "tokenID" r)));
   mkSubroute PUT "/api/v1/repos/{repoID}/context-tokens/{tokenID}/allowed-users" (fun r => answer (ContextTokens.UpdateAllowedUsers (rq_Scope r) (param "tokenID" r) (DecodeJSON (rq_Body r))));
   mkSubroute GET "/api/v1/repos/{repoID}/context-tokens/{tokenID}/allowed-users" (fun r => answer (ContextTokens.ListAllowedUsers (param "tokenID" r)));
   mkSubroute GET "/api/v1/orgs/settings/ai-keys" (fun r => answer (AIKeys.List_ (rq_Scope r)));
   mkSubroute PUT "/api/v1/orgs/settings/ai-keys" (fun r => answer (AIKeys.Upsert (Enc d) (rq_Scope r) (rq_Rand r) (DecodeJSON (rq_Body r))));
   mkSubroute DELETE "/api/v1/orgs/settings/ai-keys/{provider}" (fun r => answer (AIKeys.Delete (rq_Scope r) (param "provider" r)));
   mkSubroute GET "/api/v1/orgs/settings/cli-keys" (fun r => answer (CLIKeys.List_ (rq_Scope r)));
   mkSubroute POST "/api/v1/orgs/settings/cli-keys" (fun r => answer (CLIKeys.Create (rq_Scope r) (rq_Rand r) (DecodeJSON (rq_Body r))));
   mkSubroute DELETE "/api/v1/orgs/settings/cli-keys/{keyID}" (fun r => answer (CLIKeys.Delete (rq_Scope r) (param "keyID" r)));
   mkSubroute POST "/api/v1/repos/{repoID}/query" (fun r => answer (QueryStream.Query (Enc d) (decode_tree d) (GetBlob d) (rq_Deadline r) (rq_Writes r) (rq_Scope r) (param "repoID" r) (DecodeJSON (rq_Body r))))
  ].

(** [account.go] *)
Definition accountSubroutes (d : Deps) : list (Subroute Handle) :=
  [
   mkSubroute GET "/api/v1/account" (fun r => answer (Account.GetProfile (rq_Scope r)));
   mkSubroute PATCH "/api/v1/account" (fun r => answer (Account.UpdateProfile (rq_Scope r) (DecodeJSON (rq_Body r))));
   mkSubroute DELETE "/api/v1/account" (fun r => answer (Account.DeleteAccount (rq_Scope r)));
   mkSubroute GET "/api/v1/account/sessions" (fun r => answer (Account.ListSessions (rq_Scope r)));
   mkSubroute DELETE "/api/v1/account/sessions/{id}" (fun r => answer (Account.RevokeSession (rq_Scope r) (param "id" r)))
  ].

(** [org.go] *)
Definition orgSubroutes (d : Deps) : list (Subroute Handle) :=
  [
   mkSubroute POST "/api/v1/orgs" (fun r => answer (OrgApi.CreateOrg (rq_Scope r) (DecodeJSON (rq_Body r))));
   mkSubroute GET "/api/v1/orgs" (fun r => answer (OrgApi.ListOrgs (rq_Scope r)));
   mkSubroute PATCH "/api/v1/orgs/{orgID}" (fun r => answer (OrgApi.UpdateOrg (rq_Scope r) (param "orgID" r) (DecodeJSON (rq_Body r))));
   mkSubroute DELETE "/api/v1/orgs/{orgID}" (fun r => answer (OrgApi.DeleteOrg (rq_Scope r) (param "orgID" r)));
   mkSubroute GET "/api/v1/orgs/{orgID}/members" (fun r => answer (OrgApi.ListMembers (rq_Scope r) (param "orgID" r)));
   mkSubroute POST "/api/v1/orgs/{orgID}/members" (fun r => answer (OrgApi.InviteMember (rq_Scope r) (param "orgID" r) (DecodeJSON (rq_Body r))));
   mkSubroute PATCH "/api/v1/orgs/{orgID}/members/{userID}" (fun r => answer (OrgApi.UpdateMemberRole (rq_Scope r) (param "orgID" r) (param "userID" r) (DecodeJSON (rq_Body r))));
   mkSubroute DELETE "/api/v1/orgs/{orgID}/members/{userID}" (fun r => answer (OrgApi.RemoveMember (rq_Scope r) (param "orgID" r) (param "userID" r)));
   mkSubroute GET "/api/v1/orgs/{orgID}/audit-log" (fun r => answer (OrgApi.ListAuditLog (rq_Scope r) (param "orgID" r) (query_param "cursor" r) (query_param "limit" r)))
  ].

(** A group of routes on the mux; its errors stop the registration. *)
Definition register (mws : list (Handle -> Handle)) (subs : list (Subroute Handle)) (m : Mux Handle) :
    result (list (string * string)) (Mux Handle) :=
  let g := foldl (fun g mw => Use mw g) (NewGroup m) mws in
  match Create g m subs with
  | (m, []) => Ok m
  | (_, errs) => Err errs
  end.

(** [health.go] *)
Definition healthSubroutes (d : Deps) : list (Subroute Handle) :=
  [
   mkSubroute GET "/livez" (fun r => answer (ret Health.Liveness));
   mkSubroute GET "/readyz" (fun r => answer (ret (Health.Readiness (rq_DbUp r))))
  ].

Definition registerHealth (d : Deps) : Mux Handle -> result (list (string * string)) (Mux Handle) :=
  register [] (healthSubroutes d).

(** [githubauth.go] *)
Definition githubAuthSubroutes (d : Deps) : list (Subroute Handle) :=
  [
   mkSubroute GET "/auth/github/install" (fun r => answer (ret (GithubAuth.Install (AppSlug d))));
   mkSubroute GET "/auth/github/callback" (fun r => answer (ret (GithubAuth.Callback (query_param "installation_id" r) (query_param "setup_action" r))))
  ].

Definition registerGithubAuth (d : Deps) : Mux Handle -> result (list (string * string)) (Mux Handle) :=
  register [RateLimitMw d rateLimitOAuth "oauth"] (githubAuthSubroutes d).

(** The webhook request of a handler. *)
Definition webhook_request (r : Request) : JobService.WebhookRequest :=
  JobService.mkWebhookRequest (rq_Signature r) (rq_Event r) (rq_Delivery r)
    (BodyLimit.read_upto (JobService.maxPayloadBytes + 1) (rq_Body r)).

(** [internal.go]: webhooks, then callbacks *)
Definition callbackSubroutes (d : Deps) : list (Subroute Handle) :=
  [
   mkSubroute POST "/internal/jobs/start" (fun r => answer (Callback.Start (GenerateCloneToken d) (rq_JobID r) (DecodeJSON (rq_Body r))));
   mkSubroute POST "/internal/jobs/complete" (fun r => answer (Callback.Complete (rq_JobID r) (DecodeJSON (rq_Body r))))
  ].

Definition webhookSubroutes (d : Deps) : list (Subroute Handle) :=
  [
   mkSubroute POST "/internal/webhooks/github" (fun r => answer (JobService.ServeHTTP (Signer d) (WebhookSecret d) (ParsePayload d) (webhook_request r)))
  ].

Definition registerInternal (d : Deps) (m : Mux Handle) : result (list (string * string)) (Mux Handle) :=
  match register [Limit bodyLimit1MB; RequireJSON d; RateLimitMw d rateLimitWebhook "webhook"] (webhookSubroutes d) m with
  | Err e => Err e
  | Ok m =>
      register [Limit bodyLimit1MB; RequireJSON d; JobTokenAuth d] (callbackSubroutes d) m
  end.

(** [watchdog.go] *)
Definition watchdogSubroutes (d : Deps) : list (Subroute Handle) :=
  [
   mkSubroute POST "/internal/watchdog/timeout" (fun r => answer (Watchdog.Timeout Watchdog.defaultTimeoutMinutes))
  ].

Definition registerWatchdog (d : Deps) : Mux Handle -> result (list (string * string)) (Mux Handle) :=
  register [WatchdogAuthMw d] (watchdogSubroutes d).

(** [apiv1.go] *)
Definition registerAPIv1 (d : Deps) : Mux Handle -> result (list (string * string)) (Mux Handle) :=
  register [Auth d; ScopeMw; RateLimitMw d rateLimitAPI "api"]
    (repoSubroutes d ++ settingsSubroutes d ++ accountSubroutes d ++ orgSubroutes d).

(** [context.go] *)
Definition contextSubroutes (d : Deps) : list (Subroute Handle) :=
  [
   mkSubroute HEAD "/v1/context/{token}" (fun r => answer (ContextURL.Head (ParseWithClaims d) (param "token" r) (rq_Authorization r)));
   mkSubroute GET "/v1/context/{token}" (fun r => answer (ContextURL.Get (ParseWithClaims d) (decode_tree d) (GetBlob d) (param "token" r) (rq_Authorization r)))
  ].

Definition registerContext (d : Deps) : Mux Handle -> result (list (string * string)) (Mux Handle) :=
  register [] (contextSubroutes d).

(** [upload.go] *)
Definition uploadSubroutes (d : Deps) : list (Subroute Handle) :=
  [
   mkSubroute POST "/api/v1/upload" (fun r => answer (Upload.Upload (marshal d) (rq_CLIOrg r) (DecodeJSON (rq_Body r))))
  ].

Definition registerUpload (d : Deps) : Mux Handle -> result (list (string * string)) (Mux Handle) :=
  register [Limit bodyLimit10MB; RequireJSON d; CliTokenAuth d; RateLimitMw d rateLimitUpload "upload"] (uploadSubroutes d).

(** One step of the registration: the first error ends it. *)
Definition andThen (r : result (list (string * string)) (Mux Handle))
    (f : Mux Handle -> result (list (string * string)) (Mux Handle)) : result (list (string * string)) (Mux Handle) :=
  match r with Err e => Err e | Ok m => f m end.

(** [routes.go]: the groups in order. *)
Definition Register (d : Deps) : result (list (string * string)) (Mux Handle) :=
  andThen (andThen (andThen (andThen (andThen (andThen (registerHealth d []) (registerGithubAuth d)) (registerInternal d))
    (registerWatchdog d)) (registerAPIv1 d)) (registerContext d)) (registerUpload d).

Definition requestTimeout : Z := 10000000.  (* 10 seconds in microseconds *)

(** The global middlewares, the first outermost; the recoverer only acts on a
    panic, which the handlers here do not have. *)
Definition globals : list (Handle -> Handle) :=
  [RealIP; RequestID; Logger; Cors; RedirectSlashes; Timeout requestTimeout; ThrottleBacklog].

(** The service on a request whose method and path match the pattern [k]. *)
Definition serve (d : Deps) (k : string * string) : Handle :=
  foldr (fun mw h => mw h)
    (fun r => match Register d with
              | Err _ => ret StatusNotFound
              | Ok m => match lookup_route k m with Some h => h r | None => ret StatusNotFound end
              end) globals.

End Table.
End ApiRoutes.

(** * Lemmas *)

Module ApiRoutesFacts.
Import JobStore AccountStore ContextStore Scope Router ApiRoutes ContextFacts.

(** The credential that entitles a request to change the database. *)
Inductive authorised `{UUIDCodec} (d : Deps) (path : string) (r : Request) (w : World) : Prop :=
| by_jwt claims :
    JwtAuth.Auth (ParseWithClaims d) (rq_Authorization r) (rq_Cookie r) = Ok claims -> authorised d path r w
| by_job_token jobID :
    path ∈ ["/internal/jobs/start"; "/internal/jobs/complete"] ->
    JobToken.Validate (Signer d) jobID (JobToken.extractBearer (rq_Authorization r)) (go_now w) = Ok tt ->
    authorised d path r w
| by_signature raw :
    path = "/internal/webhooks/github" -> rq_Event r = "push" -> BodyLimit.b_content (rq_Body r) = Some raw ->
    rq_Signature r = "sha256=" +:+ Sha256.hex (Sha256.hmac (WebhookSecret d) raw) -> authorised d path r w
| by_watchdog_secret :
    path = "/internal/watchdog/timeout" -> cut_bearer (rq_Authorization r) = Some (WatchdogSecret d) ->
    WatchdogSecret d <> "" -> authorised d path r w
| by_cli_key o :
    path = "/api/v1/upload" -> (CliToken.Auth (CLIAPIKey d) (rq_Authorization r) w).1 = Ok o -> authorised d path r w
| by_context_token :
    path = "/v1/context/{token}" -> readable (ParseWithClaims d) (param "token" r) (rq_Authorization r) w ->
    authorised d path r w.

(** A handler that changes the database only for authorised requests. *)
Definition mediated `{UUIDCodec} (d : Deps) (path : string) (h : Request -> M Server Z) : Prop :=
  forall r s st s', w_tx (sv_world s) = None -> h r s = (st, s') ->
    w_db (sv_world s') <> w_db (sv_world s) -> authorised d path r (sv_world s).

(** ** The mux *)

Lemma wrapped_foldl (m : Mux (Request -> M Server Z)) mws acc h :
  wrapped (foldl (fun g mw => Use mw g) (mkGroup m acc) mws) h = foldr (fun mw h => mw h) h (acc ++ mws).
Proof.
  revert acc. induction mws as [|mw mws IH]; intros acc; cbn; [by rewrite app_nil_r|].
  unfold Use. cbn. rewrite IH. by rewrite <-app_assoc.
Qed.

Lemma lookup_route_elem (k : string * string) (m : Mux (Request -> M Server Z)) h : lookup_route k m = Some h -> (k, h) ∈ m.
Proof.
  induction m as [|[k' h'] m IH]; [done|]. cbn. case_bool_decide; intros; simplify_eq; [by left|right; by apply IH].
Qed.

Section Mediation.
Context `{UUIDCodec} (d : Deps).

(** ** Middlewares keep a mediated handler mediated *)

Lemma mediated_limit n path h : mediated d path h -> mediated d path (Limit n h).
Proof.
  intros Hh r s st s' Htx Hrun Hne. specialize (Hh _ s st s' Htx Hrun Hne).
  destruct Hh; [by eapply by_jwt|by eapply by_job_token| |by apply by_watchdog_secret|by eapply by_cli_key|by apply by_context_token].
  eapply (by_signature _ _ _ _ raw); try done. cbn in *. unfold BodyLimit.Limit in *.
  by destruct (BodyLimit.hasBody _).
Qed.

Lemma mediated_json path h : mediated d path h -> mediated d path (RequireJSON d h).
Proof.
  intros Hh r s st s' Htx Hrun Hne. unfold RequireJSON, refuse, ret in Hrun.
  destruct (ContentType.RequireJSON _ _ _); simplify_eq; by eapply Hh.
Qed.

Lemma mediated_rate_limit n prefix path h : mediated d path h -> mediated d path (RateLimitMw d n prefix h).
Proof.
  intros Hh r s st s' Htx Hrun Hne. unfold RateLimitMw, refuse, gets, on_redis, bind, ret in Hrun.
  destruct (RateLimit.RateLimit _ _ _ _ (sv_rdb s)) as [[[]|e] rdb]; simplify_eq; by eapply (Hh r (mkServer (sv_world s) rdb (sv_log s))).
Qed.

Lemma mediated_logger path h : mediated d path h -> mediated d path (Logger h).
Proof.
  intros Hh r s st s' Htx Hrun Hne. unfold Logger in Hrun. apply bind_inv in Hrun as (st1 & s1 & H1 & Hrun).
  unfold log, modify, bind, ret in Hrun. simplify_eq. by eapply Hh.
Qed.

Lemma mediated_timeout n path h : mediated d path h -> mediated d path (Timeout n h).
Proof. intros Hh r s st s' Htx Hrun Hne. specialize (Hh _ s st s' Htx Hrun Hne). by destruct Hh; econstructor. Qed.

Lemma mediated_passes mw path h : passes mw -> mediated d path h -> mediated d path (mw h).
Proof.
  intros Hp Hh r s st s' Htx Hrun Hne. destruct (Hp h r s) as [[a E]|[st0 E]]; rewrite E in Hrun; [|by simplify_eq].
  specialize (Hh _ s st s' Htx Hrun Hne). by destruct Hh; econstructor.
Qed.

(** ** The credential checks *)

Lemma mediated_jwt path h : mediated d path (Auth d h).
Proof.
  intros r s st s' Htx Hrun Hne. unfold Auth, refuse, ret in Hrun.
  destruct (JwtAuth.Auth _ _ _) eqn:E; [by eapply by_jwt|by simplify_eq].
Qed.

Lemma mediated_job_token path h :
  path ∈ ["/internal/jobs/start"; "/internal/jobs/complete"] -> mediated d path (JobTokenAuth d h).
Proof.
  intros Hp r s st s' Htx Hrun Hne. unfold JobTokenAuth, refuse, gets, bind, ret in Hrun.
  destruct (JobToken.Auth _ _ _ _ _) as [[jobID raw]|] eqn:E; [|by simplify_eq].
  apply (by_job_token _ _ _ _ jobID); [done|]. unfold JobToken.Auth in E.
  repeat case_match; simplify_eq; by destruct_or?; repeat match goal with u : unit |- _ => destruct u end.
Qed.

Lemma mediated_watchdog h : mediated d "/internal/watchdog/timeout" (WatchdogAuthMw d h).
Proof.
  intros r s st s' Htx Hrun Hne. unfold WatchdogAuthMw, refuse, ret in Hrun.
  destruct (WatchdogAuth.SharedSecret _ _) eqn:E; [|by simplify_eq]. unfold WatchdogAuth.SharedSecret in E.
  destruct (cut_bearer _) as [t|] eqn:Et; [|done]. case_decide; [done|]. case_bool_decide; [|done]. subst.
  by apply by_watchdog_secret.
Qed.

Lemma CliToken_Auth_db key auth w r w' : CliToken.Auth key auth w = (r, w') -> w_db w' = w_db w.
Proof. unfold CliToken.Auth. intros Hrun. go_run; repeat case_match; by simplify_eq/=. Qed.

Lemma mediated_cli h : mediated d "/api/v1/upload" (CliTokenAuth d h).
Proof.
  intros r s st s' Htx Hrun Hne. unfold CliTokenAuth, refuse, on_world, bind, ret in Hrun.
  destruct (CliToken.Auth _ _ (sv_world s)) as [[o|e] w] eqn:E.
  - apply (by_cli_key _ _ _ _ o); [done|]. by rewrite E.
  - simplify_eq/=. by apply CliToken_Auth_db in E.
Qed.

(** ** The handlers outside those checks *)

Lemma mediated_pure {A} path (f : Request -> Resp A) : mediated d path (fun r => answer (ret (f r))).
Proof. intros r s st s' Htx Hrun Hne. unfold answer, on_world, bind, ret in Hrun. by simplify_eq/=. Qed.

Lemma mediated_handler {A} path (c : Request -> M World (Resp A)) :
  (forall r w a w', w_tx w = None -> c r w = (a, w') -> w_db w' <> w_db w -> authorised d path r w) ->
  mediated d path (fun r => answer (c r)).
Proof.
  intros Hc r s st s' Htx Hrun Hne. unfold answer, on_world, bind, ret in Hrun.
  destruct (c r (sv_world s)) as [a w] eqn:E. simplify_eq/=. by eapply Hc.
Qed.

Lemma Head_db parse raw auth w r w' : ContextURL.Head parse raw auth w = (r, w') -> w_db w' = w_db w.
Proof.
  unfold ContextURL.Head. intros Hrun. go_run; try done;
    repeat match goal with Hv : ContextURL.checkVisibility _ _ _ _ = _ |- _ => apply checkVisibility_inv in Hv as [Hv _] end;
    cbn in *; congruence.
Qed.

Lemma Get_change_readable parse decode blob raw auth w r w' :
  ContextURL.Get parse decode blob raw auth w = (r, w') -> w_db w' <> w_db w -> readable parse raw auth w.
Proof.
  unfold ContextURL.Get. intros Hrun Hne. apply bind_inv in Hrun as (tok & w1 & Ht & Hrun).
  apply query_inv in Ht as (fs & -> & Ht). destruct tok as [tok|]; [|unfold ret in Hrun; by simplify_eq/=].
  destruct Ht as [|Ht]; [done|]. apply bind_inv in Hrun as (now & w2 & Hn & Hrun). unfold gets in Hn. simplify_eq.
  destruct (ContextURL.expired _ tok) eqn:He; [unfold ret in Hrun; by simplify_eq/=|].
  apply bind_inv in Hrun as (v & w3 & Hv & Hrun). apply checkVisibility_inv in Hv as [Hdb Hv].
  destruct v as [[]|[]]; [|unfold ret in Hrun; simplify_eq/=; congruence..].
  exists tok. split_and!; [done|done|by apply Hv].
Qed.

Lemma mediated_webhook `{JobService.TaskEnqueuer} :
  mediated d "/internal/webhooks/github"
    (fun r => answer (JobService.ServeHTTP (Signer d) (WebhookSecret d) (ParsePayload d) (webhook_request r))).
Proof.
  apply mediated_handler. intros r w a w' Htx Hrun Hne.
  apply JobProps.ServeHTTP_change in Hrun as (_ & Hev & raw & Hb & _ & Hsig); [|done..].
  apply (by_signature _ _ _ _ raw); try done. cbn in Hb. unfold BodyLimit.read_upto in Hb.
  destruct (BodyLimit.b_content _); [|done]. by repeat case_match; simplify_eq.
Qed.

End Mediation.

Section Table.
Context `{UUIDCodec} `{TimeCodec} `{Collation} `{Validator} `{Encryption.AEAD} `{JobService.TaskEnqueuer}.
Context `{SseUtil.Net} `{OpenAI.Codec} `{Anthropic.Codec} `{Gemini.Codec} `{Chi}.
Context `{JSON OrgApi.orgRequest} `{JSON OrgApi.inviteRequest} `{JSON OrgApi.roleRequest}.
Context `{JSON Account.updateProfileRequest} `{JSON ContextTokens.createTokenRequest} `{JSON (option (list string))}.
Context `{JSON AIKeys.upsertRequest} `{JSON string} `{JSON Query.queryRequest} `{JSON Upload.uploadRequest}.
Context `{JSON Callback.StartRequest} `{JSON Callback.CompleteRequest}.
Context (d : Deps).

(** The registration succeeds. *)
Lemma Register_succeeds : exists m, Register d = Ok m.
Proof. eexists. reflexivity. Qed.

(** ** A property of all routes

    The groups in the order they are registered: their middlewares and routes. *)
Definition groups : list (list ((Request -> M Server Z) -> Request -> M Server Z) * list (Subroute (Request -> M Server Z))) :=
  [([], healthSubroutes d);
   ([RateLimitMw d rateLimitOAuth "oauth"], githubAuthSubroutes d);
   ([Limit bodyLimit1MB; RequireJSON d; RateLimitMw d rateLimitWebhook "webhook"], webhookSubroutes d);
   ([Limit bodyLimit1MB; RequireJSON d; JobTokenAuth d], callbackSubroutes d);
   ([WatchdogAuthMw d], watchdogSubroutes d);
   ([Auth d; ScopeMw; RateLimitMw d rateLimitAPI "api"], repoSubroutes d ++ settingsSubroutes d ++ accountSubroutes d ++ orgSubroutes d);
   ([], contextSubroutes d);
   ([Limit bodyLimit10MB; RequireJSON d; CliTokenAuth d; RateLimitMw d rateLimitUpload "upload"], uploadSubroutes d)].

Lemma Register_groups : Register d = foldl (fun r g => andThen r (register g.1 g.2)) (Ok []) groups.
Proof.
  unfold Register, registerInternal. cbn [foldl groups fst snd andThen]. fold (registerHealth d) (registerGithubAuth d).
  by destruct (andThen (registerHealth d []) (registerGithubAuth d)).
Qed.

Section All.
Context (P : string -> (Request -> M Server Z) -> Prop).

(** The handler of a route behind the middlewares of its group. *)
Definition group_all (g : list ((Request -> M Server Z) -> Request -> M Server Z) * list (Subroute (Request -> M Server Z))) : Prop :=
  Forall (fun s => P (Path s) (foldr (fun mw h => mw h) (Handler s) g.1)) g.2.

Definition table_all (m : Mux (Request -> M Server Z)) : Prop := Forall (fun e => P e.1.2 e.2) m.

Lemma register_all mws subs m m' :
  register mws subs m = Ok m' -> table_all m -> group_all (mws, subs) -> table_all m'.
Proof.
  unfold register. intros Hr Hm Hs. set (g := foldl _ _ _) in Hr.
  assert (forall h, wrapped g h = foldr (fun mw h => mw h) h mws) as Hg by (intros h; apply wrapped_foldl).
  clearbody g. unfold group_all in Hs. cbn in Hs. revert m Hr Hm.
  induction Hs as [|s subs Hs _ IH]; intros m Hr Hm; cbn in Hr; [by simplify_eq|].
  case_bool_decide.
  - apply IH in Hr; [done|]. apply Forall_cons. split; [|done]. cbn. by rewrite Hg.
  - destruct (Create g m subs) as [? errs]. by destruct errs.
Qed.

Lemma Register_all m : Forall group_all groups -> Register d = Ok m -> table_all m.
Proof.
  rewrite Register_groups. intros Hg. generalize (Forall_nil_2 (fun e => P e.1.2 e.2) : table_all []).
  generalize ([] : Mux (Request -> M Server Z)) as m0. induction Hg as [|[mws subs] gs Hg _ IH]; intros m0 Hm0 Hr; cbn in Hr.
  - by simplify_eq.
  - destruct (register mws subs m0) as [m1|e] eqn:E.
    + eapply (IH m1); [|done]. by eapply register_all.
    + exfalso. clear -Hr. induction gs as [|g gs IHg]; [done|]. by apply IHg.
Qed.

(** The service has a property its routes have and the global middlewares keep. *)
Lemma serve_all k :
  Forall group_all groups -> P k.2 (fun _ => ret StatusNotFound) ->
  (forall h h', P k.2 h -> (forall r, h' r = h r) -> P k.2 h') ->
  (forall mw h, passes mw -> P k.2 h -> P k.2 (mw h)) ->
  (forall h, P k.2 h -> P k.2 (Logger h)) -> (forall n h, P k.2 h -> P k.2 (Timeout n h)) -> P k.2 (serve d k).
Proof.
  intros Hg H404 Hext Hp Hl Ht.
  pose proof chi_passes as Hc. rewrite !Forall_cons in Hc. destruct Hc as (? & ? & ? & ? & ? & _).
  unfold serve, globals. cbn [foldr]. apply Hp, Hp, Hl, Hp, Hp, Ht, Hp; try done.
  destruct Register_succeeds as [m Hm]. rewrite Hm. pose proof (Register_all _ Hg Hm) as Hall.
  destruct (lookup_route k m) as [h|] eqn:Hk; [|done].
  apply lookup_route_elem in Hk. unfold table_all in Hall. rewrite Forall_forall in Hall. by eapply Hext; [apply (Hall _ Hk)|].
Qed.

End All.

(** Every registered route is mediated. *)
Lemma groups_mediated : Forall (group_all (mediated d)) groups.
Proof.
  unfold groups, group_all. repeat apply Forall_cons_2; try apply Forall_nil_2; cbn [fst snd foldr];
    try (repeat apply Forall_cons_2; try apply Forall_nil_2; cbn [Path Handler]).
  all: try (by apply mediated_jwt).
  1, 2: apply mediated_pure.
  1, 2: apply mediated_rate_limit, mediated_pure.
  - apply mediated_limit, mediated_json, mediated_rate_limit, mediated_webhook.
  - apply mediated_limit, mediated_json, mediated_job_token. set_solver.
  - apply mediated_limit, mediated_json, mediated_job_token. set_solver.
  - apply mediated_watchdog.
  - apply mediated_handler. intros r w a w' Htx Hrun Hne. by apply Head_db in Hrun.
  - apply mediated_handler. intros r w a w' Htx Hrun Hne. eapply by_context_token; [done|]. by eapply Get_change_readable.
  - apply mediated_limit, mediated_json, mediated_cli.
Qed.

Lemma serve_mediated k : mediated d k.2 (serve d k).
Proof.
  apply (serve_all (mediated d)).
  - apply groups_mediated.
  - intros r s st s' _ Hrun Hne. unfold ret in Hrun. by simplify_eq.
  - intros h h' Hh E r s st s'. rewrite E. apply Hh.
  - intros mw h. apply mediated_passes.
  - apply mediated_logger.
  - intros n h. apply mediated_timeout.
Qed.

End Table.
End ApiRoutesFacts.

(** * Properties *)

Module ApiProps.
Import Scope Router ApiRoutes ApiRoutesFacts.

Section Props.
Context `{UUIDCodec} `{TimeCodec} `{Collation} `{Validator} `{Encryption.AEAD} `{JobService.TaskEnqueuer}.
Context `{SseUtil.Net} `{OpenAI.Codec} `{Anthropic.Codec} `{Gemini.Codec} `{Chi}.
Context `{JSON OrgApi.orgRequest} `{JSON OrgApi.inviteRequest} `{JSON OrgApi.roleRequest}.
Context `{JSON Account.updateProfileRequest} `{JSON ContextTokens.createTokenRequest} `{JSON (option (list string))}.
Context `{JSON AIKeys.upsertRequest} `{JSON string} `{JSON Query.queryRequest} `{JSON Upload.uploadRequest}.
Context `{JSON Callback.StartRequest} `{JSON Callback.CompleteRequest}.
Context (d : Deps).


(** The routes have distinct keys, so each is reachable, and the handler of a
    key is the registered one behind the middlewares of its group. *)
Lemma routes_are_distinct m : Register d = Ok m -> NoDup m.*1.
Proof. intros [= <-]. apply (bool_decide_unpack _). vm_compute. exact I. Qed.

(** The query route hands the stream the deadline of the request: the earlier
    of the parent's and ten seconds, whatever the handler asks for. *)
Lemma stream_ends_with_the_request now :
  WithTimeout (WithTimeout None now requestTimeout) now QueryStream.streamTimeout = WithTimeout None now requestTimeout.
Proof. unfold WithTimeout, requestTimeout, QueryStream.streamTimeout. f_equal. lia. Qed.

End Props.

(** ** Closed examples *)

#[local] Existing Instances example_codec example_collation example_validator ServiceProps.example_aead RepoApiProps.example_time.
#[local] Existing Instances StreamExamples.example_chat StreamExamples.example_anthropic StreamExamples.example_gemini.

(** Chi's middlewares that hand every request on. *)
Definition example_chi : Chi.
Proof.
  refine {| RealIP next := next; RequestID next := next; Cors next := next; RedirectSlashes next := next;
            ThrottleBacklog next := next |}.
  assert (passes (fun next => next)) as Hp.
  { intros next r s. left. exists (rq_RemoteAddr r). by destruct r. }
  repeat (apply Forall_cons_2; [exact Hp|]). apply Forall_nil_2.
Defined.

Definition example_json {T} : JSON T := fun _ => None.

Definition ex_deps : Deps :=
  mkDeps (fun _ => None) (JobToken.NewSigner "k" 1) "hook" (fun _ => None) "secret" "" "app"
    StreamExamples.ex_enc (fun _ => None) (fun _ => None) (fun _ => None) (fun _ _ _ => None) (fun _ => None)
    (fun _ => None) (fun _ => None).

Definition ex_request (auth : string) : Request :=
  mkRequest "POST" ∅ ∅ auth None "" (mkOrgHeaders "" "" "") "" "" "" "10.0.0.1:80" (BodyLimit.mkBody None None)
    None true true [] None None (mkCtx None None) "" None.

(** A running job that started an hour ago. *)
Definition ex_job : Job := mkJob 3 7 "main" "abc" None JobStatusRunning None 0 0 (Some 0) None.

Definition ex_server : Server :=
  mkServer (mkWorld (set_jobs {[ 3%N := ex_job ]} empty_db) None 3600000000 [] [] [] ∅ ∅) ∅ [].

Definition ex_serve (k : string * string) (auth : string) : Z * Server :=
  @serve _ _ _ _ _ JobService.NoopEnqueuer (StreamExamples.example_net (Err "")) _ _ _ example_chi
    example_json example_json example_json example_json example_json example_json example_json example_json example_json
    example_json example_json example_json ex_deps k (ex_request auth) ex_server.


Example wrong_secret_is_refused :
  let '(st, s) := ex_serve ("POST", "/internal/watchdog/timeout") "Bearer guess" in
  st = StatusUnauthorized /\ sv_world s = sv_world ex_server /\ sv_log s = [(ZapLogger.Warn, "POST", StatusUnauthorized)].
Proof. vm_compute. auto. Qed.

Example unknown_path_is_not_found : (ex_serve ("POST", "/internal/none") "").1 = StatusNotFound.
Proof. vm_compute. reflexivity. Qed.

(** ** Organization scopes are not checked against memberships *)

(** The scope of a request is the organization its header names, whoever the
    caller is. *)
Lemma header_opens_any_organization claims h w u o :
  w_faults w = [] -> X_Org_Slug h <> "" ->
  AccountStore.GetUserByAuthID (cl_Subject claims) (w_db w) = Ok u ->
  AccountStore.GetOrganizationBySlug (X_Org_Slug h) (w_db w) = Ok o ->
  Scope.Scope (Some claims) h w = (Ok (mkCtx (Some (u_ID u)) (Some (o_ID o))), w).
Proof.
  intros Hf Hs Hu Ho. unfold Scope.Scope, Scope.ensureUser, Scope.ensureOrg, org_source, bind, query, next_fault, gets, ret, bind.
  rewrite bool_decide_false by done. cbn. rewrite Hf, Hu. cbn. rewrite decide_False by done. rewrite Hf, Ho. by destruct w; simplify_eq/=.
Qed.

Definition ex_stranger : Claims := mkClaims "u1" "eve@mail.dev" "eve" (mkOrgClaim "" "" "") [] false.
Definition ex_tenant : World :=
  mkWorld
    (set_users {[ 1%N := mkUser 1 "u1" "eve" "eve@mail.dev" false None None 0 0 ]}
      (set_organizations {[ 5%N := mkOrganization 5 "acme" "Acme" 0 "org_acme" ]}
        (set_repositories {[ 7%N := mkRepository 7 (Some 5%N) 70 99 "acme/app" "main" 0 None ]} empty_db)))
    None 0 [] [] [] ∅ ∅.

(** A user who is a member of no organization reads a private repository. *)
Example stranger_reads_a_repository :
  memberships (w_db ex_tenant) = ∅ /\
  (match Scope.Scope (Some ex_stranger) (mkOrgHeaders "acme" "" "") ex_tenant with
   | (Ok c, w) => match (RepoApi.GetRepo c (uuid_text 7) w).1 with Reply _ r => Some (r_FullName r) | Fail _ _ => None end
   | _ => None
   end) = Some "acme/app".
Proof. vm_compute. auto. Qed.

(** A new slug with the identity of an existing organization renames it. *)
Example stranger_renames_an_organization :
  let w := (Scope.Scope (Some ex_stranger) (mkOrgHeaders "new" "org_acme" "Owned") ex_tenant).2 in
  o_Name <$> (organizations (w_db w) !! 5%N) = Some "Owned".
Proof. vm_compute. reflexivity. Qed.

End ApiProps.
