(* ===== verification/ApiInvariant.v ===== *)
(** The API's database stays well formed: every statement a handler runs keeps
    the constraints of [ApiWf], so every request served through the routes does,
    interleaved with the worker's claims, and leaves no transaction open. *)

From S2P Require Import Prelude Tables GoStr Sha256 JobToken Store JobStore AccountStore ContextStore HttpUtil JobService Callback.
From S2P Require Import JobEffects JobSystem ApiWf Middleware Scope RepoApi OrgApi Services ContextApi KeysApi Router AIStream ApiRoutes.

(** * Definitions *)

Module ApiInvariant.
Import JobStore AccountStore ContextStore JobEffects JobSystem ApiWf Scope Router ApiRoutes ApiRoutesFacts.

Definition inv (w : World) : Prop := api_wf (w_db w) /\ w_tx w = None.

(** A computation, and a handler, that keeps it. *)
Definition keeps {A} (c : M World A) : Prop := forall w a w', inv w -> c w = (a, w') -> inv w'.
Definition serves (h : Request -> M Server Z) : Prop :=
  forall r s st s', inv (sv_world s) -> h r s = (st, s') -> inv (sv_world s').

(** * Lemmas *)

(** ** Computations *)

Lemma pres_ret {A} (a : A) : keeps (ret a).
Proof. intros w b w' Hw [= _ <-]. done. Qed.

Lemma pres_gets {A} (f : World -> A) : keeps (gets f).
Proof. intros w b w' Hw [= _ <-]. done. Qed.

Lemma pres_bind {A B} (c : M World A) (k : A -> M World B) : keeps c -> (forall a, keeps (k a)) -> keeps (bind c k).
Proof. intros Hc Hk w b w' Hw Hrun. apply bind_inv in Hrun as (a & w1 & H1 & H2). eapply Hk; [|exact H2]. by eapply Hc. Qed.

Lemma pres_local {A} (c : M World A) : (forall w, exists c' : M World A, c w = c' w /\ keeps c') -> keeps c.
Proof. intros Hc w a w' Hw Hrun. destruct (Hc w) as (c' & E & Hc'). rewrite E in Hrun. by eapply Hc'. Qed.

Lemma pres_query {A} (q : DB -> result DBError A) : keeps (query q).
Proof. intros w r w' Hw Hrun. by apply query_inv in Hrun as (f & -> & _). Qed.

Lemma pres_exec {A} (q : Z -> DB -> result DBError (A * DB)) :
  (forall now d a d', api_wf d -> q now d = Ok (a, d') -> api_wf d') -> keeps (exec q).
Proof.
  intros Hq w r w' [Hw Htx] Hrun. apply exec_inv in Hrun as (f & [(e & _ & -> & _)|(a & d & _ & Hd & ->)]); [done|].
  split; [by eapply Hq|done].
Qed.

Lemma pres_insert {A} (q : Z -> uuid -> DB -> result DBError (A * DB)) :
  (forall now id d a d', api_wf d -> q now id d = Ok (a, d') -> api_wf d') -> keeps (insert_stmt q).
Proof.
  intros Hq w r w' [Hw Htx] Hrun. apply insert_stmt_inv in Hrun as (f & [(e & _ & -> & _)|(a & d & _ & Hd & ->)]); [done|].
  split; [by eapply Hq|done].
Qed.

Lemma pres_fault : keeps next_fault.
Proof. intros w r w' Hw Hrun. by apply next_fault_inv in Hrun as [f ->]. Qed.

Lemma pres_for_range {A} (xs : list A) body : (forall x, keeps (body x)) -> keeps (for_range xs body).
Proof. intros Hb. induction xs as [|x xs IH]; cbn; [apply pres_ret|]. by apply pres_bind. Qed.

Create HintDb api_keeps discriminated.
#[local] Hint Resolve pres_ret pres_gets pres_query pres_fault : api_keeps.

(** Follow a handler through its statements and branches. *)
Ltac keeps :=
  repeat first
  [ solve [eauto 2 with api_keeps]
  | simple apply pres_exec; intros; by eauto 2 with api_wf
  | simple apply pres_insert; intros; by eauto 2 with api_wf
  | simple apply pres_bind; [|intros]
  | apply pres_for_range; intros
  | match goal with
    | |- keeps (match ?x with _ => _ end) => destruct x
    | |- keeps (fun _ => _) => apply pres_local; intros ?; eexists; split; [reflexivity|]
    end ].

(** ** The handlers *)

Create HintDb handlers discriminated.
#[local] Hint Unfold Ownership.VerifyRepoOwnership RepoApi.GetRepo RepoApi.ListRepos RepoApi.GetJob RepoApi.ListJobs RepoApi.GetSnapshot
  RepoApi.ListSnapshots RepoApi.GetLatestSnapshot : handlers.
#[local] Hint Unfold OrgApi.requireRole OrgApi.audit OrgApi.last_owner_guard OrgApi.CreateOrg OrgApi.ListOrgs OrgApi.UpdateOrg OrgApi.DeleteOrg
  OrgApi.ListMembers OrgApi.InviteMember OrgApi.UpdateMemberRole OrgApi.UpdateMemberRole_apply OrgApi.RemoveMember
  OrgApi.RemoveMember_apply OrgApi.ListAuditLog : handlers.
#[local] Hint Unfold ContextCache.Get Storage.Download ContextTokens.List_ ContextTokens.Create ContextTokens.Create_insert ContextTokens.allow_users
  ContextTokens.UpdateAllowedUsers ContextTokens.ListAllowedUsers ContextTokens.Delete : handlers.
#[local] Hint Unfold ContextURL.checkVisibility ContextURL.Head ContextURL.Get ContextURL.resolve ContextURL.serve
  ContextURL.serve_assembled Upload.Upload Query.resolveSnapshot Query.getOrAssembleContext Query.Query QueryStream.Query : handlers.
#[local] Hint Unfold AIKeys.List_ AIKeys.Upsert AIKeys.Delete CLIKeys.List_ CLIKeys.Create CLIKeys.Delete Account.GetProfile
  Account.UpdateProfile Account.DeleteAccount Account.ListSessions Account.RevokeSession : handlers.
#[local] Hint Unfold Scope.Scope Scope.ensureUser Scope.ensureOrg CliToken.Auth : handlers.

Section Handlers.
Context `{UUIDCodec} `{TimeCodec} `{Collation} `{Validator} `{Encryption.AEAD} `{JobService.TaskEnqueuer}.

Lemma pres_cache_Set k v : keeps (ContextCache.Set_ k v).
Proof.
  unfold ContextCache.Set_. apply pres_bind; [apply pres_fault|]. intros []; [apply pres_ret|]. by intros w a w' Hw [= _ <-].
Qed.

Lemma pres_Upload p x : keeps (Storage.Upload p x).
Proof.
  unfold Storage.Upload. apply pres_bind; [apply pres_fault|]. intros []; [apply pres_ret|]. by intros w a w' Hw [= _ <-].
Qed.

Lemma pres_selectProvider enc o l : keeps (Query.selectProvider enc o l).
Proof. induction l; cbn; keeps. Qed.

(** The transactions of the job pipeline. *)
Lemma pres_db_step {A} (c : M World A) :
  (forall w a w', keys_ok (w_db w) -> w_tx w = None -> c w = (a, w') ->
     db_step (w_now w) (w_db w) (w_db w') /\ w_tx w' = None) -> keeps c.
Proof.
  intros Hc w a w' [Hw Htx] Hrun. destruct (Hc _ _ _ (wf_keys _ (aw_jobs _ Hw)) Htx Hrun) as [Hs Htx'].
  split; [by eapply db_step_api_wf|done].
Qed.

Lemma pres_sys_step {A} (c : M World A) : (forall w a w', c w = (a, w') -> sys_step w w') -> keeps c.
Proof. intros Hc. apply pres_db_step. intros. by eapply sys_step_db; [..|eapply Hc]. Qed.

Lemma pres_HandlePush signer ev did : keeps (JobService.HandlePush signer ev did).
Proof. apply pres_sys_step. intros. by econstructor. Qed.

Lemma pres_ServeHTTP signer secret parse r : keeps (JobService.ServeHTTP signer secret parse r).
Proof. unfold JobService.ServeHTTP. pose proof pres_HandlePush. keeps. Qed.

Lemma pres_Start gct ctx body : keeps (Callback.Start gct ctx body).
Proof. apply pres_sys_step. intros. by eapply sys_start. Qed.

Lemma pres_Complete ctx body : keeps (Callback.Complete ctx body).
Proof. apply pres_sys_step. intros. by eapply sys_complete. Qed.

Lemma pres_Timeout n : keeps (Watchdog.Timeout n).
Proof. apply pres_sys_step. intros. by eapply sys_timeout. Qed.

End Handlers.
#[local] Hint Resolve pres_cache_Set pres_Upload pres_selectProvider pres_ServeHTTP pres_Start pres_Complete pres_Timeout : api_keeps.

(** ** Handlers behind middlewares *)

Lemma serves_answer {A} (c : Request -> M World (Resp A)) : (forall r, keeps (c r)) -> serves (fun r => answer (c r)).
Proof.
  intros Hc r s st s' Hs Hrun. unfold answer, on_world, bind, ret in Hrun.
  destruct (c r (sv_world s)) as [a w] eqn:E. simplify_eq/=. by eapply Hc.
Qed.

Section Middlewares.
Context `{UUIDCodec} (d : Deps).

Lemma serves_on_world {A} (c : Request -> M World A) (k : A -> Request -> M Server Z) :
  (forall r, keeps (c r)) -> (forall a, serves (k a)) -> serves (fun r => a <- on_world (c r) ;; k a r).
Proof.
  intros Hc Hk r s st s' Hs Hrun. unfold on_world, bind in Hrun. destruct (c r (sv_world s)) as [a w] eqn:E.
  eapply Hk; [|exact Hrun]. cbn. by eapply Hc.
Qed.

Lemma serves_refuse {A} (e : Z * A) : serves (fun _ => refuse e).
Proof. intros r s st s' Hs [= _ <-]. done. Qed.

Lemma serves_with (f : Request -> Request) h : serves h -> serves (fun r => h (f r)).
Proof. intros Hh r. apply Hh. Qed.

Lemma serves_ScopeMw h : serves h -> serves (ScopeMw h).
Proof.
  intros Hh. unfold ScopeMw.
  apply (serves_on_world (fun r => Scope.Scope (rq_Claims r) (rq_OrgHeaders r))
           (fun c r => match c with Ok c => h (with_scope c r) | Err e => refuse e end)).
  - intros r. autounfold with handlers. keeps.
  - intros [c|e]; [by apply (serves_with (with_scope c))|apply serves_refuse].
Qed.

Lemma serves_CliTokenAuth h : serves h -> serves (CliTokenAuth d h).
Proof.
  intros Hh. unfold CliTokenAuth.
  apply (serves_on_world (fun r => CliToken.Auth (CLIAPIKey d) (rq_Authorization r))
           (fun c r => match c with Ok o => h (with_cli o r) | Err e => refuse e end)).
  - intros r. autounfold with handlers. keeps.
  - intros [o|e]; [by apply (serves_with (with_cli o))|apply serves_refuse].
Qed.

(** The other middlewares do not touch the database. *)
Lemma serves_RateLimitMw n prefix h : serves h -> serves (RateLimitMw d n prefix h).
Proof.
  intros Hh r s st s' Hs Hrun. unfold RateLimitMw, refuse, gets, on_redis, bind, ret in Hrun.
  destruct (RateLimit.RateLimit _ _ _ _ (sv_rdb s)) as [[[]|e] rdb]; simplify_eq; [|done].
  by eapply (Hh r (mkServer (sv_world s) rdb (sv_log s))).
Qed.

Ltac transparent := intros Hh r s st s' Hs Hrun; repeat (case_match; simplify_eq/=); try done; by eapply Hh.

Lemma serves_Auth h : serves h -> serves (Auth d h).
Proof. unfold Auth, refuse, ret. transparent. Qed.

Lemma serves_Limit n h : serves h -> serves (Limit n h).
Proof. intros Hh. exact (serves_with (fun r => with_body (BodyLimit.Limit n (rq_Method r) (rq_Body r)) r) h Hh). Qed.

Lemma serves_RequireJSON h : serves h -> serves (RequireJSON d h).
Proof. unfold RequireJSON, refuse, ret. transparent. Qed.

Lemma serves_JobTokenAuth h : serves h -> serves (JobTokenAuth d h).
Proof. unfold JobTokenAuth, refuse, gets, bind, ret. transparent. Qed.

Lemma serves_WatchdogAuthMw h : serves h -> serves (WatchdogAuthMw d h).
Proof. unfold WatchdogAuthMw, refuse, ret. transparent. Qed.

Lemma serves_Timeout n h : serves h -> serves (Timeout n h).
Proof. unfold Timeout, gets, bind. transparent. Qed.

Lemma serves_Logger h : serves h -> serves (Logger h).
Proof.
  intros Hh r s st s' Hs Hrun. apply bind_inv in Hrun as (st1 & s1 & H1 & Hrun).
  unfold log, modify, bind, ret in Hrun. simplify_eq/=. by eapply Hh.
Qed.

Lemma serves_passes mw h : passes mw -> serves h -> serves (mw h).
Proof.
  intros Hp Hh r s st s' Hs Hrun. destruct (Hp h r s) as [[a E]|[st0 E]]; rewrite E in Hrun; [by eapply Hh|by simplify_eq].
Qed.

End Middlewares.

(** ** The service *)
Section Table.
Context `{UUIDCodec} `{TimeCodec} `{Collation} `{Validator} `{Encryption.AEAD} `{JobService.TaskEnqueuer}.
Context `{SseUtil.Net} `{OpenAI.Codec} `{Anthropic.Codec} `{Gemini.Codec} `{Chi}.
Context `{JSON OrgApi.orgRequest} `{JSON OrgApi.inviteRequest} `{JSON OrgApi.roleRequest}.
Context `{JSON Account.updateProfileRequest} `{JSON ContextTokens.createTokenRequest} `{JSON (option (list string))}.
Context `{JSON AIKeys.upsertRequest} `{JSON string} `{JSON Query.queryRequest} `{JSON Upload.uploadRequest}.
Context `{JSON Callback.StartRequest} `{JSON Callback.CompleteRequest}.
Context (d : Deps).

Ltac serves :=
  repeat first
  [ apply serves_Auth | apply serves_ScopeMw | apply serves_RateLimitMw | apply serves_Limit | apply serves_RequireJSON
  | apply serves_JobTokenAuth | apply serves_WatchdogAuthMw | apply serves_CliTokenAuth
  | apply serves_answer; intros r; autounfold with handlers; keeps ].

Lemma groups_serve : Forall (group_all (fun _ => serves)) (groups d).
Proof.
  unfold groups, group_all. repeat apply Forall_cons_2; try apply Forall_nil_2; cbn [fst snd foldr];
    try (repeat apply Forall_cons_2; try apply Forall_nil_2; cbn [Path Handler]).
  all: serves.
Qed.

Lemma serve_serves k : serves (serve d k).
Proof.
  apply (serve_all d (fun _ => serves)).
  - apply groups_serve.
  - apply (serves_refuse (StatusNotFound, tt)).
  - intros h h' Hh E r s st s'. rewrite E. apply Hh.
  - apply serves_passes.
  - apply serves_Logger.
  - apply serves_Timeout.
Qed.

(** The service's database under load: requests of any kind, with any content,
    interleaved with the worker's claims, the clock and the failures of the
    database connection. *)
Inductive api_step : Server -> Server -> Prop :=
| api_request k r st s s' : serve d k r s = (st, s') -> api_step s s'
| api_shared s w' : sys_step (sv_world s) w' -> api_step s (mkServer w' (sv_rdb s) (sv_log s)).

Lemma api_step_inv s s' : api_step s s' -> inv (sv_world s) -> inv (sv_world s').
Proof.
  intros Hs [Hw Htx]. destruct Hs as [k r st s s' Hrun|s w' Hrun]; [by eapply serve_serves|].
  destruct (sys_step_db _ _ (wf_keys _ (aw_jobs _ Hw)) Htx Hrun). split; [by eapply db_step_api_wf|done].
Qed.

(** * Properties *)


End Table.

(** ** Closed example: a first request creates its user, an organization and
    the membership of its owner, although the audit entry cannot be written. *)

#[local] Existing Instances example_codec example_collation example_validator ServiceProps.example_aead RepoApiProps.example_time.
#[local] Existing Instances StreamExamples.example_chat StreamExamples.example_anthropic StreamExamples.example_gemini.
#[local] Existing Instances ApiProps.example_chi ApiProps.example_json JobService.NoopEnqueuer.

Definition ex_org_json : JSON OrgApi.orgRequest := fun _ => Some (OrgApi.mkOrgRequest "Acme" "acme").
Definition ex_net : SseUtil.Net := StreamExamples.example_net (Err "").
#[local] Existing Instances ex_org_json ex_net.

Definition ex_claims : Claims := mkClaims "u1" "ann@acme.dev" "ann" (mkOrgClaim "" "" "") [] false.
Definition ex_deps : Deps :=
  mkDeps (fun t => if decide (t = "jwt") then Some ex_claims else None) (JobToken.NewSigner "k" 1) "hook" (fun _ => None) "secret" "" "app"
    StreamExamples.ex_enc (fun _ => None) (fun _ => None) (fun _ => None) (fun _ _ _ => None) (fun _ => None)
    (fun _ => None) (fun _ => None).

Definition ex_start : Server := mkServer (mkWorld empty_db None 0 [1; 2; 3; 4]%N [] [] ∅ ∅) ∅ [].

Definition ex_create : Z * Server := serve ex_deps ("POST", "/api/v1/orgs") (ApiProps.ex_request "Bearer jwt") ex_start.


End ApiInvariant.
