(* ===== verification/Startup.v ===== *)
(** The three processes from start to exit: [services/api/cmd],
    [services/auth/cmd], [services/worker/cmd], with the connection pool
    ([shared/go/dbpool]), the logger ([shared/go/logger]) and the constructors
    of the GitHub and storage clients.

    A process opens resources one after the other and gives them back when a
    later step fails or when it stops; its state is what it holds open.  Whether
    a library call of the start-up succeeds is a parameter; an error is the text
    it is wrapped in. *)

From S2P Require Import Prelude GoStr Sha256 JobToken Store JobStore HttpUtil JobService Callback JobProps Middleware Scope Services ContextApi GithubApi.
From S2P Require Import Worker WorkerSystem Config GoCodec AuthModels AuthService AuthMfa AuthOauth Router AuthRoutes AuthExamples AuthProps AIStream ApiRoutes.

(** * Definitions *)

(** ** What a process holds open *)
Inductive Resource : Set := Pool | RedisClient | TasksClient | BucketClient.

#[export] Instance Resource_eq_dec : EqDecision Resource.
Proof. solve_decision. Defined.

Abbreviation Proc := (list Resource) (only parsing).

Definition opened (r : Resource) : M Proc unit := modify (fun p => r :: p).
Definition close (r : Resource) : M Proc unit := modify (filter (fun x => x <> r)).

(** ** [dbpool.go]; durations in nanoseconds *)
Module DbPool.

Definition minute : Z := 60 * 1000000000.

Record Config := mkConfig {
  MaxConns : Z;
  MinConns : Z;
  MaxConnLifetime : Z;
  MaxConnIdleTime : Z;
  HealthCheckPeriod : Z
}.

Definition DefaultConfig : Config := mkConfig 25 5 (60 * minute) (30 * minute) minute.

Definition with_MaxConns (n : Z) (c : Config) : Config :=
  mkConfig n (MinConns c) (MaxConnLifetime c) (MaxConnIdleTime c) (HealthCheckPeriod c).

End DbPool.

(** The options of the storage library's client. *)
Inductive ClientOption : Set := WithEndpoint (url : string) | WithoutAuthentication.

(** Which library calls of a start-up succeed. *)
Class Outside := {
  pgx_ParseConfig : string -> bool;
  pgx_NewWithConfig : string -> DbPool.Config -> bool;
  pgx_Ping : string -> bool;
  redis_ParseURL : string -> bool;
  redis_Ping : string -> bool;
  NewCloudTasksEnqueuer : ApiConfig.CloudTasksConfig -> bool;
  gcs_NewClient : list ClientOption -> bool;
  zap_NewDevelopment : bool;
  zap_NewProduction : bool
}.

(** A call that only succeeds or fails. *)
Definition check (ok : bool) (e : string) : M Proc (result string unit) := ret (if ok then Ok tt else Err e).

(** Give the pool back and fail. *)
Definition fail_closed {A} (e : string) : M Proc (result string A) := do close Pool ;; ret (Err e).

Section Shared.
Context `{Outside}.

(** [dbpool.Connect] *)
Definition Connect (url : string) (poolCfg : DbPool.Config) : M Proc (result string unit) :=
  if negb (pgx_ParseConfig url) then ret (Err "parse pool config")
  else if negb (pgx_NewWithConfig url poolCfg) then ret (Err "create pgxpool")
  else
    do opened Pool ;;
    if negb (pgx_Ping url) then fail_closed "ping db" else ret (Ok tt).

(** [redis.ParseURL], [redis.NewClient] and the first ping. *)
Definition connectRedis (url : string) : M Proc (result string unit) :=
  if negb (redis_ParseURL url) then fail_closed "parse redis url"
  else
    do opened RedisClient ;;
    if negb (redis_Ping url) then fail_closed "connect to redis" else ret (Ok tt).

(** [logger.New] *)
Definition logger_New (env : string) : result string unit :=
  if (if decide (env = "dev") then zap_NewDevelopment else zap_NewProduction) then Ok tt else Err "init logger".

(** [storage.NewClient] *)
Definition bucket_options (c : ApiConfig.GCSConfig) : list ClientOption :=
  if decide (ApiConfig.Endpoint c = "") then [] else [WithEndpoint (ApiConfig.Endpoint c); WithoutAuthentication].

Definition NewBucketClient (c : ApiConfig.GCSConfig) : M Proc (result string ApiConfig.GCSConfig) :=
  if decide (ApiConfig.Bucket c = "") then ret (Err "bucket name is required")
  else if negb (gcs_NewClient (bucket_options c)) then ret (Err "create gcs client")
  else do opened BucketClient ;; ret (Ok c).

End Shared.

(** [NewAPIClient] of [provider/github/api.go] *)
Record APIClient := mkAPIClient {
  appID : Z;
  privateKey : string;
  webhookSecret : string;
  httpTimeout : Z;
  apiBaseURL : string
}.

Definition defaultAPIBaseURL : string := "https://api.github.com".

Definition APIClientOption : Type := APIClient -> APIClient.
Definition WithBaseURL (url : string) : APIClientOption := fun a =>
  mkAPIClient (appID a) (privateKey a) (webhookSecret a) (httpTimeout a) url.

Definition NewAPIClient (id : Z) (key secret : string) (opts : list APIClientOption) : result string APIClient :=
  if decide (key = "") then Err "privateKey must not be empty"
  else if decide (secret = "") then Err "webhookSecret must not be empty"
  else Ok (foldl (fun a opt => opt a) (mkAPIClient id key secret (30 * 1000000000) defaultAPIBaseURL) opts).

(** The signer of the job tokens, with the previous key when one is set. *)
Definition tokenTTL : Z := 30 * DbPool.minute.

Definition newSigner (key prev : string) : JobToken.Signer :=
  let signer := JobToken.NewSigner key tokenTTL in
  if decide (prev = "") then signer else JobToken.WithPreviousKey signer prev.

(** ** The API: [api/cmd] *)
Module ApiMain.
Import ApiConfig.

Inductive Enqueuer : Set :=
| NoopEnqueuer
| CloudTasksEnqueuer (c : CloudTasksConfig).

Record deps := mkDeps {
  ch : APIClient;
  jwtPubKey : string;
  signer : JobToken.Signer;
  enqueuer : Enqueuer;
  gcsClient : GCSConfig;
  encSvc : Encryption.Service
}.

Section Api.
Context `{Outside} `{EnvLib} `{Token.Jwt} `{Encryption.AEAD}.

(** The key of the JWT middleware. *)
Definition publicKeyOf (b64 : string) : result string string :=
  match Base64.Std_DecodeString b64 with
  | None => Err "decode jwt public key"
  | Some pem =>
      match Token.ParsePublicPEM pem with
      | None => Err "parse jwt public key"
      | Some Token.OtherKey => Err "jwt public key is not Ed25519"
      | Some (Token.Ed25519Key k) => Ok k
      end
  end.

Definition encryptionOf (b64 : string) : result string Encryption.Service :=
  match Base64.Std_DecodeString b64 with
  | None => Err "decode encryption key"
  | Some key => match Encryption.New key with Err _ => Err "init encryption" | Ok s => Ok s end
  end.

Definition newEnqueuer (c : CloudTasksConfig) : M Proc (result string Enqueuer) :=
  if Enabled c then
    if negb (NewCloudTasksEnqueuer c) then fail_closed "create cloud tasks enqueuer"
    else do opened TasksClient ;; ret (Ok (CloudTasksEnqueuer c))
  else ret (Ok NoopEnqueuer).

(** [initDeps]; the circuit breakers are attached to the clients as they are
    created and hold nothing open. *)
Definition initDeps (c : Config) : M Proc (result string deps) :=
  try _ <- Connect (DB_URL c) DbPool.DefaultConfig catch e => ret (Err "connect to db") ;;
  try _ <- connectRedis (Redis_URL c) catch e => ret (Err e) ;;
  match NewAPIClient (GithubAppID (App c)) (GithubAppPrivateKey (App c)) (GithubAppWebhookSecret (App c)) [] with
  | Err _ => fail_closed "create API client"
  | Ok client =>
      match publicKeyOf (JWTPublicKeyBase64 (App c)) with
      | Err e => fail_closed e
      | Ok pub =>
          let signer := newSigner (HMACSigningKey (App c)) (HMACSigningKeyPrev (App c)) in
          try enq <- newEnqueuer (CloudTasks c) catch e => ret (Err e) ;;
          try gcs <- NewBucketClient (GCS c) catch e => fail_closed "create gcs client" ;;
          match encryptionOf (EncryptionKeyBase64 (App c)) with
          | Err e => fail_closed e
          | Ok enc => ret (Ok (mkDeps client pub signer enq gcs enc))
          end
      end
  end.

(** The [cleanup] that [initDeps] returns; errors of closing are logged. *)
Definition cleanup (d : deps) : M Proc unit :=
  do (match enqueuer d with CloudTasksEnqueuer _ => close TasksClient | NoopEnqueuer => ret tt end) ;;
  do close RedisClient ;;
  close Pool.

End Api.

(** [newRouteDeps]: the routes' dependencies; the payload and JSON decoders and
    the calls to GitHub are those of the handlers' libraries. *)
Section Routes.
Context `{Token.Jwt}.
Context (ParsePayload : string -> option Github.PushPayload) (GenerateCloneToken : Z -> option string).
Context (decode_tree : string -> option (list Assembly.FileEntry)) (decode_jobID : string -> option string).
Context (GetBlob : Z -> string -> string -> option string) (marshal : Upload.snapshotMetadata -> option string).
Context (ParseMediaType SplitHostPort : string -> option string).

Definition newRouteDeps (d : deps) (c : Config) (now : Z) : ApiRoutes.Deps :=
  ApiRoutes.mkDeps (fun t => Token.claims_of <$> Token.ParseWithClaims (jwtPubKey d) (JWTIssuer (App c)) now t) (signer d)
    (webhookSecret (ch d)) ParsePayload (WatchdogSecret (App c)) (CLIAPIKey (App c)) (GithubAppSlug (App c)) (encSvc d)
    GenerateCloneToken decode_tree decode_jobID GetBlob marshal ParseMediaType SplitHostPort.

End Routes.
End ApiMain.

(** How a process ends: [main] returns, prints the error of [run] and exits
    with status 1, or a fatal log entry of the server goroutine exits at once,
    without running the deferred calls. *)
Inductive Exit : Set :=
| Stopped
| Fatal (e : string)
| Killed.

Definition finish (r : result string unit) : Exit := match r with Ok _ => Stopped | Err e => Fatal e end.

(** [main]: from the listening server to the end. [listens] says whether
    [ListenAndServe] goes on until the signal, [shutdown] whether the requests
    end within the grace period. *)
Definition serve_until_signal (listens shutdown : bool) (cleanup : M Proc unit) : M Proc Exit :=
  if listens then do cleanup ;; ret (finish (if shutdown then Ok tt else Err "server shutdown"))
  else ret Killed.

(** [run] of [api/cmd/main.go] and [auth/cmd/main.go]: [register] is the result of
    registering the routes. *)
Definition run_server `{Outside} {Config Deps : Type} (config : result LoadError Config) (appEnv : string)
    (initDeps : Config -> M Proc (result string Deps)) (cleanup : Deps -> M Proc unit) (register : bool)
    (listens shutdown : bool) : M Proc Exit :=
  match config with
  | Err _ => ret (Fatal "load config")
  | Ok c =>
      match logger_New appEnv with
      | Err e => ret (Fatal e)
      | Ok _ =>
          try d <- initDeps c catch e => ret (Fatal e) ;;
          if negb register then do cleanup d ;; ret (Fatal "register routes")
          else serve_until_signal listens shutdown (cleanup d)
      end
  end.

Definition api_process_run `{Outside} `{EnvLib} `{Token.Jwt} `{Encryption.AEAD} (e : Environ) (register listens shutdown : bool) : M Proc Exit :=
  run_server (ApiConfig.Load e) (Getenv e "APP_ENV") ApiMain.initDeps ApiMain.cleanup register listens shutdown.

(** ** The auth service: [auth/cmd] *)
Module AuthMain.
Import AuthConfig.

Record deps := mkDeps {
  tokenSvc : Token.Service;
  encSvc : Encryption.Service;
  providers : gmap string Provider;
  sessionMaxAge : Z
}.

Section Auth.
Context `{Outside} `{EnvLib} `{Token.Jwt} `{Encryption.AEAD}.
(** The OAuth2 library's configuration of a client id, a secret and a callback
    base URL, and the providers' user endpoints. *)
Context (github_config google_config : string -> string -> string -> OAuth2Config).
Context (github_api : Github.Api) (google_api : string -> option (Z * option Google.userInfoResponse)).

Definition initDeps (c : Config) : M Proc (result string deps) :=
  try _ <- Connect (DB_URL c) DbPool.DefaultConfig catch e => ret (Err "connect to db") ;;
  try _ <- connectRedis (Redis_URL c) catch e => ret (Err e) ;;
  match Token.New (JWTPrivateKeyBase64 (App c)) (JWTPublicKeyBase64 (App c)) (JWTIssuer (App c)) (JWTAccessTokenTTL (App c))
          (JWTRefreshTokenTTL (App c)) with
  | Err _ => fail_closed "init token service"
  | Ok tokenSvc =>
      match ApiMain.encryptionOf (EncryptionKeyBase64 (App c)) with
      | Err e => fail_closed e
      | Ok encSvc =>
          let callback := OAuthCallbackBaseURL (App c) in
          let github := Github.New (github_config (GithubOAuthClientID (App c)) (GithubOAuthClientSecret (App c)) callback) github_api in
          let google := Google.New (google_config (GoogleOAuthClientID (App c)) (GoogleOAuthClientSecret (App c)) callback) google_api in
          ret (Ok (mkDeps tokenSvc encSvc (<["github" := github]> {[ "google" := google ]}) (SessionMaxAge (App c))))
      end
  end.

Definition cleanup (d : deps) : M Proc unit := do close RedisClient ;; close Pool.

(** [newRouteDeps]; the formats are those of package [time]. *)
Definition newRouteDeps (Format FormatNano FormatDate : Z -> string) (ParseRFC3339 ParseDate : string -> option Z)
    (d : deps) (c : Config) : AuthRoutes.Deps :=
  AuthRoutes.mkDeps
    (AuthOauth.mkHandler (providers d) (tokenSvc d) (sessionMaxAge d) (encSvc d) (FrontendURL (App c)) (JWKSKeyID (App c)))
    (AuthMfa.mkHandler (tokenSvc d) (sessionMaxAge d) (encSvc d))
    (Token.publicKey (tokenSvc d)) (Token.issuer (tokenSvc d)) Format FormatNano FormatDate ParseRFC3339 ParseDate.

End Auth.
End AuthMain.

(** ** The worker: [worker/cmd] *)
Module WorkerMain.
Import WorkerConfig.

Definition pollInterval : Z := 2 * 1000000000.
Definition requestTimeout : Z := 60 * 1000000000.

Inductive Mode : Set := HTTP | Poll.

Definition mode (s : string) : result string Mode :=
  if decide (s = "http") then Ok HTTP
  else if decide (s = "poll") then Ok Poll
  else Err ("unknown WORKER_MODE: " +:+ s).

(** What the two modes are started with. *)
Record deps := mkDeps {
  client : APIClient;
  bucket : ApiConfig.GCSConfig;
  signer : JobToken.Signer;
  apiURL : string;
  runner : Runner.Config
}.

(** [int32(cfg.MaxConcurrency) + 5] *)
Definition poolSize (c : Config) : Z := wrap32 (wrap32 (MaxConcurrency c) + 5).

Section Worker.
Context `{Outside} `{EnvLib}.

Definition open_deps (c : Config) : M Proc (result string deps) :=
  match NewAPIClient (AppID (GitHub c)) (PrivateKey (GitHub c)) (WebhookSecret (GitHub c)) [] with
  | Err _ => ret (Err "create API client")
  | Ok client =>
      try gcs <- NewBucketClient (GCS c) catch e => ret (Err "create gcs client") ;;
      ret (Ok (mkDeps client gcs (newSigner (HMACSigningKey c) (HMACSigningKeyPrev c)) (APIBaseURL c)
                 (Runner.mkConfig (WorkspaceDir c) (ZigzagBin c) (ReportsDir c) (JobTimeout c))))
  end.

(** [run]: [work] is what the selected mode returns after the signal. *)
Definition run (TempDir : string) (e : Environ) (work : Mode -> deps -> result string unit) : M Proc Exit :=
  match LoadConfig TempDir e with
  | Err _ => ret (Fatal "load config")
  | Ok c =>
      match logger_New (AppEnv c) with
      | Err x => ret (Fatal x)
      | Ok _ =>
          try _ <- Connect (DatabaseURL c) (DbPool.with_MaxConns (poolSize c) DbPool.DefaultConfig) catch x => ret (Fatal "connect to db") ;;
          r <- open_deps c ;;
          let exit :=
            match r with
            | Err x => Fatal x
            | Ok d => finish (match mode (WorkerMode c) with Ok m => work m d | Err x => Err x end)
            end in
          do close Pool ;;  (* deferred *)
          ret exit
      end
  end.

End Worker.

(** [runHTTP]: a request to [/run] ends after a minute, whatever the job's own
    timeout; at most [MaxConcurrency] run at the same time. *)
Section Http.
Import GoContext ApiClient Executor.
Context `{CircuitBreaker.GoBreaker} `{CallbackServer} `{CallbackJson} `{Runner.Host} `{GithubApi.NetURL} `{UUIDCodec}.
Context (bad_url : string -> option string) (api : option Client) (cfg : Runner.Config) (verifier : JobToken.Signer).

Definition serve_run (body : option runRequest) : M WState (Resp unit) := fun s =>
  Run bad_url api cfg verifier (WithTimeout (ws_now s) Background requestTimeout) body s.

End Http.
End WorkerMain.

Definition auth_process_run `{Outside} `{EnvLib} `{Token.Jwt} `{Encryption.AEAD}
    (github_config google_config : string -> string -> string -> OAuth2Config)
    (github_api : Github.Api) (google_api : string -> option (Z * option Google.userInfoResponse))
    (e : Environ) (register listens shutdown : bool) : M Proc Exit :=
  run_server (AuthConfig.Load e) (Getenv e "APP_ENV") (AuthMain.initDeps github_config google_config github_api google_api)
    AuthMain.cleanup register listens shutdown.

(** * Lemmas *)

Module StartupFacts.

(** ** Resources *)
Section Resources.
Context `{Outside} `{EnvLib} `{Token.Jwt} `{Encryption.AEAD}.

Ltac proc :=
  repeat match goal with
  | H : bind _ _ _ = (_, _) |- _ => apply bind_inv in H as (? & ? & ? & H)
  | H : ret _ _ = (_, _) |- _ => unfold ret in H; simplify_eq/=
  | H : opened _ _ = (_, _) |- _ => unfold opened, modify in H; simplify_eq/=
  | H : close _ _ = (_, _) |- _ => unfold close, modify in H; simplify_eq/=
  | H : (match ?x with _ => _ end) _ = (_, _) |- _ => destruct x eqn:?; simplify_eq/=
  | H : fail_closed _ _ = (_, _) |- _ => unfold fail_closed in H
  end.

Lemma Connect_open url cfg r p p' :
  Connect url cfg p = (r, p') -> Pool ∉ p -> match r with Ok _ => p' = Pool :: p | Err _ => Pool ∉ p' end.
Proof.
  unfold Connect. intros Hrun Hp. proc; try done.
  rewrite list_elem_of_filter. naive_solver.
Qed.

Lemma connectRedis_open url r p p' :
  connectRedis url p = (r, p') -> match r with Ok _ => p' = RedisClient :: p | Err _ => Pool ∉ p' end.
Proof. unfold connectRedis. intros Hrun. proc; try done; rewrite list_elem_of_filter; naive_solver. Qed.

(** What the API holds after its start-up. *)
Definition held (d : ApiMain.deps) : Proc :=
  BucketClient :: match ApiMain.enqueuer d with ApiMain.CloudTasksEnqueuer _ => [TasksClient] | ApiMain.NoopEnqueuer => [] end
  ++ [RedisClient; Pool].

Lemma not_in_closed (p : Proc) : Pool ∉ filter (fun x => x <> Pool) p.
Proof. rewrite list_elem_of_filter. naive_solver. Qed.

Lemma api_initDeps_open c r p' :
  ApiMain.initDeps c [] = (r, p') -> match r with Ok d => p' = held d | Err _ => Pool ∉ p' end.
Proof.
  unfold ApiMain.initDeps, Connect, connectRedis, ApiMain.newEnqueuer, NewBucketClient. intros Hrun.
  proc; try apply not_in_closed; try done. all: try set_solver.
Qed.

(** Whatever fails, the API gives its pool back: the only exit that keeps it
    open is the fatal log entry of the server goroutine. *)
Lemma api_process_closes_the_pool e register listens shutdown x p' :
  api_process_run e register listens shutdown [] = (x, p') -> x <> Killed -> Pool ∉ p'.
Proof.
  unfold api_process_run, run_server, serve_until_signal, ApiMain.cleanup. intros Hrun Hx.
  destruct (ApiConfig.Load e) as [c|]; [|proc; set_solver]. destruct (logger_New _); [|proc; set_solver].
  apply bind_inv in Hrun as (r & p1 & Hi & Hrun). apply api_initDeps_open in Hi.
  proc; try done; apply not_in_closed.
Qed.

Lemma worker_process_closes_the_pool TempDir e work x p' : WorkerMain.run TempDir e work [] = (x, p') -> Pool ∉ p'.
Proof.
  unfold WorkerMain.run, Connect. intros Hrun.
  destruct (WorkerConfig.LoadConfig _ e) as [c|]; [|proc; set_solver]. destruct (logger_New _); [|proc; set_solver].
  proc; try apply not_in_closed; set_solver.
Qed.

End Resources.

(** ** Keys *)

Lemma newSigner_key k prev : JobToken.key (newSigner k prev) = k.
Proof. unfold newSigner. by case_decide. Qed.

Lemma newSigner_ttl k prev : JobToken.ttl (newSigner k prev) = tokenTTL.
Proof. unfold newSigner. by case_decide. Qed.

Lemma newSigner_prev k prev : prev <> "" -> JobToken.prevKey (newSigner k prev) = Some prev.
Proof. intros Hp. unfold newSigner. by rewrite decide_False. Qed.

(** What one process signs, another one accepts whose current or previous key it
    signs with. *)
Lemma newSigner_trust k prev k' prev' jobID t t' :
  k' = k \/ (prev <> "" /\ k' = prev) -> in_int64 (unix (t + tokenTTL)) -> unix t' <= unix (t + tokenTTL) ->
  JobToken.Validate (newSigner k prev) jobID (JobToken.Sign (newSigner k' prev') t jobID) t' = Ok tt.
Proof.
  intros Hk Ht Hle. apply JobTokenFacts.Validate_Ok. exists k', (unix (t + tokenTTL)). split_and!; try done.
  - rewrite newSigner_key. destruct Hk as [->|[Hp ->]]; [by left|right; by apply newSigner_prev].
  - unfold JobToken.Sign. by rewrite newSigner_key, newSigner_ttl.
Qed.

(** ** What the dependencies are built from *)
Section Built.
Context `{Outside} `{EnvLib} `{Token.Jwt} `{Encryption.AEAD}.

Ltac built :=
  repeat match goal with
  | H : bind _ _ _ = (_, _) |- _ => apply bind_inv in H as (? & ? & ? & H)
  | H : ret _ _ = (_, _) |- _ => unfold ret in H; simplify_eq/=
  | H : fail_closed _ _ = (_, _) |- _ => unfold fail_closed in H
  | H : (match ?x with _ => _ end) _ = (_, _) |- _ => destruct x eqn:?; simplify_eq/=
  end.

Lemma api_deps c p d p' :
  ApiMain.initDeps c p = (Ok d, p') ->
  ApiMain.signer d = newSigner (ApiConfig.HMACSigningKey (ApiConfig.App c)) (ApiConfig.HMACSigningKeyPrev (ApiConfig.App c)) /\
  ApiMain.publicKeyOf (ApiConfig.JWTPublicKeyBase64 (ApiConfig.App c)) = Ok (ApiMain.jwtPubKey d) /\
  webhookSecret (ApiMain.ch d) = ApiConfig.GithubAppWebhookSecret (ApiConfig.App c) /\ webhookSecret (ApiMain.ch d) <> "".
Proof.
  unfold ApiMain.initDeps. intros Hrun. built. unfold NewAPIClient in *. repeat case_decide; by simplify_eq/=.
Qed.

Lemma worker_deps c p d p' :
  WorkerMain.open_deps c p = (Ok d, p') ->
  WorkerMain.signer d = newSigner (WorkerConfig.HMACSigningKey c) (WorkerConfig.HMACSigningKeyPrev c).
Proof. unfold WorkerMain.open_deps. intros Hrun. by built. Qed.

Lemma auth_deps gc goc ga goa c p d p' :
  AuthMain.initDeps gc goc ga goa c p = (Ok d, p') ->
  ApiMain.publicKeyOf (AuthConfig.JWTPublicKeyBase64 (AuthConfig.App c)) = Ok (Token.publicKey (AuthMain.tokenSvc d)) /\
  Token.issuer (AuthMain.tokenSvc d) = AuthConfig.JWTIssuer (AuthConfig.App c).
Proof.
  unfold AuthMain.initDeps. intros Hrun. built. unfold Token.New in *. unfold ApiMain.publicKeyOf.
  repeat (case_match; simplify_eq/=); done.
Qed.

End Built.

End StartupFacts.

(** * Properties *)

Module StartupProps.
Import StartupFacts.

Section Props.
Context `{UUIDCodec} `{Outside} `{EnvLib} `{Token.Jwt} `{Encryption.AEAD}.

(** The API and the worker trust each other's job tokens for the token's half
    hour, as long as each side signs with the other's current key or with the key
    the other keeps from before a rotation. *)
Theorem configured_processes_trust_job_tokens ca cw da dw p1 p2 p3 jobID t t' :
  ApiMain.initDeps ca p1 = (Ok da, p2) -> WorkerMain.open_deps cw p2 = (Ok dw, p3) ->
  in_int64 (unix (t + tokenTTL)) -> unix t' <= unix (t + tokenTTL) ->
  let ka := ApiConfig.HMACSigningKey (ApiConfig.App ca) in
  let pa := ApiConfig.HMACSigningKeyPrev (ApiConfig.App ca) in
  let kw := WorkerConfig.HMACSigningKey cw in
  let pw := WorkerConfig.HMACSigningKeyPrev cw in
  (kw = ka \/ (pa <> "" /\ kw = pa) ->
   JobToken.Validate (ApiMain.signer da) jobID (JobToken.Sign (WorkerMain.signer dw) t jobID) t' = Ok tt) /\
  (ka = kw \/ (pw <> "" /\ ka = pw) ->
   JobToken.Validate (WorkerMain.signer dw) jobID (JobToken.Sign (ApiMain.signer da) t jobID) t' = Ok tt).
Proof.
  intros Ha Hw Ht Hle. apply api_deps in Ha as (-> & _). apply worker_deps in Hw as ->.
  split; intros Hk; by apply newSigner_trust.
Qed.

(** A login at the auth service opens the API: with the same public key and
    issuer in both environments, the API's JWT middleware accepts an access token
    the auth service issued, with its claims, until its lifetime ends. *)
Theorem configured_login_reaches_the_api gc goc ga goa ca cb da db p1 p2 p3 pp gct tree jid blob marsh media split_
    params w t w' now authorization cookie :
  ApiMain.initDeps ca p1 = (Ok da, p2) -> AuthMain.initDeps gc goc ga goa cb p2 = (Ok db, p3) ->
  ApiConfig.JWTPublicKeyBase64 (ApiConfig.App ca) = AuthConfig.JWTPublicKeyBase64 (AuthConfig.App cb) ->
  ApiConfig.JWTIssuer (ApiConfig.App ca) = AuthConfig.JWTIssuer (AuthConfig.App cb) ->
  AuthConfig.JWTIssuer (AuthConfig.App cb) <> "" ->
  Token.key_pair (Token.privateKey (AuthMain.tokenSvc db)) (Token.publicKey (AuthMain.tokenSvc db)) ->
  Token.IssueAccessToken (AuthMain.tokenSvc db) params w = (Some t, w') -> JwtAuth.extractToken authorization cookie = t ->
  let routes := ApiMain.newRouteDeps pp gct tree jid blob marsh media split_ da ca now in
  JwtAuth.Auth (ApiRoutes.ParseWithClaims routes) authorization cookie =
    if now <? 1000000 * ((AuthModels.w_now w + Token.accessTTL (AuthMain.tokenSvc db)) / 1000000)
    then Ok (mkClaims (Token.at_UserID params) (Token.at_Email params) (Token.at_Name params) (Token.at_Org params)
               (Token.at_Teams params) (Token.at_MFA params))
    else Err (StatusUnauthorized, JwtAuth.ErrInvalidToken).
Proof.
  intros Ha Hb Hpub Hiss Hne Hkey Hrun Ht. apply api_deps in Ha as (_ & Hpk & _). apply auth_deps in Hb as [Hpk' Hi].
  rewrite Hpub, Hpk' in Hpk. injection Hpk as Hpk. cbn. rewrite <-Hpk, Hiss, <-Hi. eapply jwt_issued; [done|by rewrite Hi|done..].
Qed.

End Props.
(** ** The HTTP mode of the worker *)

(** A job started over HTTP has a minute, whatever [JOB_TIMEOUT] says. *)
Lemma http_job_deadline s timeout now d :
  Runner.job_context (GoContext.WithTimeout s GoContext.Background WorkerMain.requestTimeout) timeout now = Some d ->
  d <= s + WorkerMain.requestTimeout.
Proof. unfold Runner.job_context, GoContext.WithTimeout. cbn. destruct (0 <? timeout); intros [= <-]; lia. Qed.

(** ** Closed examples *)
Import WorkerExamples.

#[local] Existing Instances example_codec ex_json ex_breaker ex_host ex_url ex_server.

(** A job whose clone takes 61 seconds, with the default timeout of five
    minutes: the request that runs it ends first, its failure cannot be reported
    in the request's context, the request is answered with success, and the job
    stays running. *)
Example long_http_job_is_lost :
  let cfg := Runner.mkConfig "/tmp/work" "zigzag" "/data/reports" (5 * DbPool.minute) in
  let s := set_delays [61000000] ex_state in
  let token := JobToken.Sign JobProps.ex_signer (ws_now s) "100" in
  let '(r, s') := WorkerMain.serve_run ex_no_url_error (Some ex_client) cfg JobProps.ex_signer
                    (Some (Executor.mkRunRequest "100" token)) s in
  r = Reply StatusOK tt /\ j_Status <$> (jobs (Store.w_db (ws_api s')) !! 100%N) = Some JobStatusRunning.
Proof. vm_compute. auto. Qed.

(** The pool of a worker with a huge concurrency has a negative size. *)
Lemma pool_size c : 1 <= WorkerConfig.MaxConcurrency c <= 2 ^ 31 - 6 -> WorkerMain.poolSize c = WorkerConfig.MaxConcurrency c + 5.
Proof. intros Hc. unfold WorkerMain.poolSize. rewrite (wrap32_id (WorkerConfig.MaxConcurrency c)), wrap32_id; lia. Qed.

Example pool_size_overflows :
  let c := WorkerConfig.mkConfig "" "" "" "" "" 0 (2 ^ 31 - 1) "" "" "" "" "" (WorkerConfig.mkGitHubConfig 0 "" "" "") (ApiConfig.mkGCSConfig "" "") in
  WorkerMain.poolSize c = - 2 ^ 31 + 4.
Proof. reflexivity. Qed.

(** A start-up that fails after Redis was reached gives the pool back, and leaves
    the Redis client open. *)
#[local] Instance ex_outside : Outside := {|
  pgx_ParseConfig _ := true; pgx_NewWithConfig _ _ := true; pgx_Ping _ := true; redis_ParseURL _ := true;
  redis_Ping _ := true; NewCloudTasksEnqueuer _ := true; gcs_NewClient _ := true; zap_NewDevelopment := true;
  zap_NewProduction := true |}.

Definition ex_environ : Environ :=
  list_to_map ((fun n => (n, "1")) <$> ApiConfig.required_vars).

#[local] Existing Instances ConfigFacts.example_env AuthExamples.example_jwt ServiceProps.example_aead.

Example failed_start_keeps_redis_open :
  api_process_run ex_environ true true true [] = (Fatal "decode jwt public key", [RedisClient]).
Proof. vm_compute. reflexivity. Qed.

End StartupProps.
